(* ===== verification/_CoqProject ===== *)
-Q . S2P
Prelude.v
Framing.v
FramingSpec.v
Sha256.v
Crypto.v
Platform.v
Validators.v
Concrete.v
Sessions.v
Models.v
BackupFormat.v
Engine.v
Records.v
Context.v
Folder.v
Group.v
Password.v
Schemas.v
Attachment.v
Acl.v
MasterPassword.v
Auth.v
Backup.v
Legacy.v
Storage.v
Api.v
Asgi.v
AsgiDemo.v
AsgiSpec.v
PathSpec.v
Bridge.v
BridgeSpec.v
CoreServer.v
CoreServerSpec.v
Cli.v
CliSpec.v
Mcp.v
Demo.v
RecordsSpec.v
EntriesSpec.v
AccessSpec.v
Requests.v
AccountsSpec.v
SigninSpec.v
McpSpec.v
BackupFormatSpec.v
BackupSpec.v
RestoreSpec.v
DiskSpec.v
DiskDemo.v
SnapshotSpec.v
ReplaceSpec.v
AsideSpec.v
CompleteSpec.v
Admin.v
AdminSpec.v
Start.v
StartSpec.v
Findings.v
