(* ===== verification/Prelude.v ===== *)
(** * CipherMoth: a verification development of the vault server

    CipherMoth is a self-hosted password vault: a FastAPI application
    ([src/backend]) on one SQLite database. Accounts sign in with a password that
    unwraps the vault's key; entries, folders, groups and attachments are stored
    encrypted under that key; access to entries is granted to accounts and groups,
    directly or through folders; the unlocked keys live in memory, in sessions; a
    vault is exported to, and restored from, encrypted backup files. Around the
    server are a terminal client ([cli.py]), maintenance commands for a stopped vault
    ([vault_admin.py]), a server of tools for agents ([mcp_server.py]), and the
    process that runs the application inside the desktop shell ([desktop/core]).

    This library is a shallow embedding of those programs. Everything that can fail
    returns [res] (a value or the exception raised), everything with effects is in
    the state and error monad [M] of Prelude.v over the state it acts on - the
    [World] of a request, the [Disk] of a data folder, the [Client] of a command -
    and every definition can be evaluated: the witnesses run whole requests on the
    demonstration platform of Concrete.v and Demo.v.

    ** The program's parts and the files that model them

    - Prelude.v: bytes, texts, exceptions, SQL values, [M] and its reasoning rules
      ([run_inv], [keeps] and the hint database [keeps]).
    - Sha256.v: SHA-256 and HMAC, in full, since [hmac] and [hashlib] are the
      standard library's.
    - Crypto.v ([helpers.py]): associated data, sealed values, the vault's key, key
      material and KDF parameters, over the class [Cryptography].
    - Platform.v: the class [Environment] (clock, randomness), the JSON [Codec] of
      documents, the [Text] operations on Unicode, documents ([helpers.py]).
    - Validators.v ([validators.py]): texts, passwords, TOTP secrets, tags, dates;
      Schemas.v ([schemas.py]): the constraints and validators of every request body.
    - Sessions.v ([vault_sessions.py]): the in-memory store of unlocked sessions.
    - Models.v ([models.py]): the tables, their constraints, foreign keys and
      cascades, as functions on a record of tables.
    - Engine.v ([crud/engine.py]): the [World] of a request, transactions, hooks
      that run after commit or rollback, the capacity of a complete backup.
    - Records.v ([crud/records.py]): sealed rows and what damage is.
    - Context.v: what a request knows of its account; Folder.v and Group.v
      ([crud/folder.py]); Password.v ([crud/password.py]: entries and imports);
      Attachment.v ([crud/attachment.py], [crud/damage.py]); Acl.v
      ([crud/access.py]); MasterPassword.v ([crud/master_password.py],
      [crud/settings.py], [crud/vault_access.py]); Auth.v ([crud/auth.py]).
    - BackupFormat.v ([backup_format.py]): the file format, frame by frame;
      Backup.v ([crud/backup.py]): export and restore; Legacy.v: archives of
      earlier releases, their import and migration.
    - Storage.v ([storage.py]): the files of a vault on a disk: checks before it is
      opened, the lock of the data folder, snapshots, migrations, restoring a
      snapshot and setting a vault aside.
    - Api.v ([api/endpoints/]): each route with its dependencies, as whom it runs
      and in what transaction; [handle] serves a request and [run_requests] a
      sequence of them.
    - Mcp.v ([mcp_server.py]): the verification of a service token and every tool,
      each in its transaction on the same [World].
    - Asgi.v ([main.py] and the middleware of [api/]): messages, Starlette's part as
      a parameter, and each middleware around it in the order [main.py] stacks them;
      AsgiDemo.v has a UTF-8 decoder and a small application to evaluate it with.
    - Framing.v ([desktop_core/framing.py]): frames, and their reader over a pipe
      that gives any number of bytes at a time. Bridge.v ([asgi_bridge.py],
      [native_files.py]): a request to the application without a socket, and the
      export and import of backups to and from the shell's files. CoreServer.v
      ([server.py]): the server's loop, its tasks and its writer as a step function.
    - Cli.v ([cli.py]): each command of the client, over an [Outside] that answers
      depending on everything that happened before. Admin.v ([vault_admin.py]): each
      command for a stopped vault, over Storage.v. Start.v ([crud/engine.py],
      [main.py], [desktop_core/entry.py]): preparing the vault file, and the lifespan of
      a process that serves it.

    A request is [serve]d by [transaction]: the body runs on a view of what is
    committed, the hooks it registered act on the sessions after the commit, and a
    failure drops the view. While a key is derived the server answers others: the
    field [w_others] of a [World] lists what they do to the committed database and
    to the sessions each time a request gives way, so a theorem over all worlds is
    a theorem over all interleavings at those points.

    ** What is shown

    - Requests.v: every sequence of requests, with any interference, keeps the
      schema's integrity; failed requests change nothing; routes that should only
      read only read; an account route needs a live session of an active account;
      what is committed stays within the capacity of a backup.
    - AccountsSpec.v: the last active administrator stays, and the vault's key
      record and its owner's agree. SigninSpec.v: who may log in, what a changed
      password changes, and that ended access leaves no session.
    - AccessSpec.v: the permission computed is the strongest of the declarative
      relation [reaches]; the SQL of the listings agrees with it; each route needs
      its permission; what sharing and revoking change.
    - EntriesSpec.v: created, updated, trashed and imported entries read back;
      attachments read back within their limits; choosing unique names ends.
    - RecordsSpec.v: sealed rows open again, and only in their place; key material
      opens exactly its key.
    - BackupFormatSpec.v: files round-trip, and a file that is read to its end is
      the one that was written. BackupSpec.v and RestoreSpec.v: a backup holds the
      vault, restoring it brings everything back, and an import keeps what the
      vault had.
    - Sessions.v ends with the properties of the session store; Schemas.v with those
      of the entries the schema accepts.
    - McpSpec.v: a tool acts only for a live service account with the permission it
      needs, and keeps what a request keeps.
    - AsgiSpec.v: every response carries the security headers, an unhandled error is
      answered, a body stays within its route's limit. PathSpec.v: the path the
      client builds for an entry's name reaches the routes as that name.
    - FramingSpec.v: the reader ends, delivers what was sent, and finds the frame
      after a refused one. BridgeSpec.v: an export replaces no file and saves a
      complete backup byte for byte. CoreServerSpec.v: each request the core takes is
      answered once, its queues are bounded, and what it writes reads back.
    - CliSpec.v: every command locks the session it opened, whatever is answered,
      and deletes nothing unasked. AdminSpec.v: a command that rewrites the vault in
      place leaves a way back. StartSpec.v: a start serves the vault it found, upgraded
      beside a copy where it is older, and no session outlives the server.
    - DiskSpec.v: what each operation on files leaves untouched, and how it can end;
      SQLite's promises, as the class [SqliteLaws], met by the small SQLite of
      DiskDemo.v. SnapshotSpec.v: a snapshot is whole or not there. ReplaceSpec.v: a
      restore never loses the vault it replaces. AsideSpec.v: a vault set aside
      keeps its files together, and one that was split is not opened.
      CompleteSpec.v: once nothing fails any more, a restore completes.
    - Findings.v: behaviours the model brought to light, as concrete runs.

    The files of a vault live on a [Disk] of Storage.v, apart from the [World]: it
    says of each operation to come whether it runs, fails, or is where the process
    is killed, and how far it got ([Event]). [except] and [finally] clauses do not
    run in a killed process. A theorem over all disks is thus a theorem over every
    failure and every point of interruption.

    ** Bounds and fuel

    Some loops of the code have no structural bound. [unique_name] may try one name
    more than there are taken names, and [EntriesSpec.unique_name_terminates] shows
    that this is enough unless candidates collide; the exception [Diverges] marks
    that it was not. [Sha256.chunks] takes the length of the message as its fuel,
    which no message exhausts. The loops that read a pipe (Framing.v) take one more
    than its bytes, and [FramingSpec.reader_delivers_what_was_sent] shows that the reader
    ends; those that read an uploaded file (Bridge.v) likewise
    ([BridgeSpec.source_chunks_whole]). The server of CoreServer.v runs for as many
    steps as a theorem says, so its theorems are about every state it reaches. The
    other loops are structural on bytes, rows or frames. Sizes, counters and times are [Z] with the limits of the code (frame
    counts, header fields and associated data at their widths).

    ** How the model relates to the code

    - Instants are microseconds; [BadTime] is a stored text that is not a time.
    - Columns no code reads are left out; columns with a CHECK over a fixed list of
      texts are enumerations.
    - [session.add] inserts at once, so an [IntegrityError] is raised there and not
      at the next flush.
    - Requests interfere at key derivations, and after the commit of a legacy
      import. The second derivation of the backup route holds a read snapshot in
      the code; the model lets interference be seen there too, which only adds
      behaviours.
    - [os.urandom], tokens and clocks are indexed readings of [Environment]: the
      n-th draw is fixed but unknown. Argon2id, AES-GCM and HKDF are parameters
      with their documented behaviour as laws; what must not collide is stated
      where a theorem needs it.
    - JSON, CSV and ZIP decoding and pydantic's verdict on a row are parameters;
      the constraints of the backup payload and of [RestoredPassword] are written
      out, messages included.
    - Where a reader or writer stands after an exception is not tracked, nor is the
      closing of temporary files.

    ** Not modelled

    - Of [storage.py]: file modes, symbolic links, the pragmas of a connection, and
      what a power failure may do to writes that were not yet flushed ([fsync] can
      fail but loses nothing here). What SQLite does with files is a parameter.
    - Configuration from the environment ([settings.py]), rate limits, the MCP mount
      and the routes that report health and features; TOTP code generation. Argument
      parsing and the look of the terminal ([cli.py] and [vault_admin.py] leave both to
      Typer and Rich); an interrupt of the client between two of its steps.
    - The arguments, hardening and release diagnostics of [desktop_core], which only
      call the operating system or parts modelled here; the build, release and test
      tools under [docker] and [desktop]; the frontend and the shell, which are not Python. *)
From Stdlib Require Import ZArith Lia Strings.Ascii Strings.String Strings.Byte.
From stdpp Require Import base decidable option list list_monad gmap strings sorting pretty.

#[global] Open Scope Z_scope.
#[global] Open Scope list_scope.

Declare Scope moth_scope.
Delimit Scope moth_scope with moth.

(** ** Bytes and text *)

(** Python [bytes] and [str]; a [str] is its sequence of code points. *)
Abbreviation bytes := (list Byte.byte).
Abbreviation pystr := (list N).

#[global] Instance byte_eq_dec : EqDecision Byte.byte := Byte.byte_eq_dec.
#[global] Instance byte_countable : Countable Byte.byte :=
  inj_countable Byte.to_N Byte.of_N Byte.of_to_N.

Definition byte_of_Z (z : Z) : Byte.byte :=
  default Byte.x00 (Byte.of_N (Z.to_N (z `mod` 256))).
Definition Z_of_byte (b : Byte.byte) : Z := Z.of_N (Byte.to_N b).

(** Literals: [str "abc"] is a Python [str], [raw "abc"] a [bytes] value. *)
Definition str (s : string) : pystr :=
  map N_of_ascii (String.list_ascii_of_string s).
Definition raw (s : string) : bytes := String.list_byte_of_string s.
Arguments str s%_string_scope.
Arguments raw s%_string_scope.

(** [str(n)] for an integer. *)
Definition str_of_Z (z : Z) : pystr := str (pretty z).

(** ["; ".join(...)] *)
Fixpoint joined (sep : pystr) (l : list pystr) : pystr :=
  match l with
  | [] => []
  | [s] => s
  | s :: l' => s ++ sep ++ joined sep l'
  end.

(** Big-endian integers, as [struct] packs them and [int.to_bytes] writes them. *)
Fixpoint be_encode (n : nat) (z : Z) : bytes :=
  match n with
  | O => []
  | S n' => be_encode n' (z `div` 256) ++ [byte_of_Z z]
  end.

Definition be_decode (l : bytes) : Z :=
  foldl (fun acc b => acc * 256 + Z_of_byte b) 0 l.

(** [str.encode()]: UTF-8; a surrogate code point cannot be encoded. *)
Definition utf8_char (c : N) : option bytes :=
  let z := Z.of_N c in
  if z <? 0x80 then Some [byte_of_Z z]
  else if z <? 0x800 then
    Some [byte_of_Z (0xC0 + z `div` 64); byte_of_Z (0x80 + z `mod` 64)]
  else if (0xD800 <=? z) && (z <=? 0xDFFF) then None
  else if z <? 0x10000 then
    Some [byte_of_Z (0xE0 + z `div` 4096);
          byte_of_Z (0x80 + (z `div` 64) `mod` 64); byte_of_Z (0x80 + z `mod` 64)]
  else if z <? 0x110000 then
    Some [byte_of_Z (0xF0 + z `div` 262144); byte_of_Z (0x80 + (z `div` 4096) `mod` 64);
          byte_of_Z (0x80 + (z `div` 64) `mod` 64); byte_of_Z (0x80 + z `mod` 64)]
  else None.

Fixpoint utf8 (s : pystr) : option bytes :=
  match s with
  | [] => Some []
  | c :: s' =>
      match utf8_char c, utf8 s' with
      | Some x, Some y => Some (x ++ y)
      | _, _ => None
      end
  end.

(** ** Exceptions and results *)

(** The exceptions the modelled code raises: the classes of [errors.py], those
    of [helpers.py] and [storage.py], and the library and built-in exceptions
    its [except] clauses name. *)
Inductive exn :=
  | InvalidRequest (detail : pystr)
  | Forbidden (detail : pystr)
  | InvalidKey (detail : pystr)
  | NotFound (detail : pystr)
  | SessionRequired (detail : pystr)
  | VaultBusy (detail : pystr)
  | VaultDamaged (detail : pystr)
  | DecryptionFailed
  | UnsupportedKdf (detail : pystr)
  | BackupFormatError (detail : pystr)
  | StorageError (detail : pystr)
  | IntegrityError
  | OperationalError (code : Z)
  | PoolTimeout
  | ValueError (detail : pystr)
  | TypeError
  | AttributeError
  | IndexError
  | UnicodeEncodeError
  | StructError
  | OverflowError
  | KeyError
  | NoResultFound
  | AssertionError
  | OSError
  | DatabaseError (code : option Z)
  | Exit (code : Z) (** [typer.Exit] *)
  | Aborted (** [typer.Abort] *)
  | HttpError (connect : bool) (** [httpx.HTTPError], or its [ConnectError] *)
  | RecursionLimit
  | Killed (** not an exception: the process was killed *)
  | Diverges. (** not an exception: a loop used up its fuel *)

#[global] Instance exn_eq_dec : EqDecision exn.
Proof. solve_decision. Defined.

Inductive res (A : Type) : Type :=
  | Ok (a : A)
  | Err (e : exn).
Arguments Ok {A} a.
Arguments Err {A} e.

#[global] Instance res_eq_dec `{EqDecision A} : EqDecision (res A).
Proof. solve_decision. Defined.

#[global] Instance res_ret : MRet res := fun A a => Ok a.
#[global] Instance res_bind : MBind res := fun A B f r =>
  match r with
  | Ok a => f a
  | Err e => Err e
  end.
#[global] Instance res_fmap : FMap res := fun A B f r =>
  match r with
  | Ok a => Ok (f a)
  | Err e => Err e
  end.

Definition is_ok {A} (r : res A) : bool :=
  match r with Ok _ => true | Err _ => false end.
(** The result of a run, [a] when it failed *)
Definition ok_of {A} (a : A) (r : res A) : A := match r with Ok x => x | Err _ => a end.
Lemma ok_pair {A S} (a : A) (r : res A * S) : is_ok r.1 = true -> r = (Ok (ok_of a r.1), r.2).
Proof. by destruct r as [[x|e] s]. Qed.

Definition is_some {A} (o : option A) : bool := match o with Some _ => true | None => false end.

(** [ok_or e o]: the value of an [Optional], raising [e] on [None]. *)
Definition ok_or {A} (e : exn) (o : option A) : res A :=
  match o with Some a => Ok a | None => Err e end.

(** ** Stored values

    SQLite does not enforce column types, so a column of a damaged or hostile
    file can hold a value of any storage class; the code checks before use. *)
Inductive cell :=
  | CNull
  | CInt (z : Z)
  | CText (s : pystr)
  | CBlob (b : bytes).

#[global] Instance cell_eq_dec : EqDecision cell.
Proof. solve_decision. Defined.
#[global] Instance cell_countable : Countable cell.
Proof.
  refine (inj_countable'
    (fun c => match c with
              | CNull => inl (inl ()) | CInt z => inl (inr z)
              | CText s => inr (inl s) | CBlob b => inr (inr b)
              end)
    (fun x => match x with
              | inl (inl _) => CNull | inl (inr z) => CInt z
              | inr (inl s) => CText s | inr (inr b) => CBlob b
              end) _).
  by intros [].
Defined.

Definition is_blob (c : cell) : bool :=
  match c with CBlob _ => true | _ => false end.
Definition blob_of (c : cell) : bytes :=
  match c with CBlob b => b | _ => [] end.
Definition int_of (c : cell) : Z :=
  match c with CInt z => z | _ => 0 end.
(** [isinstance(value, bytes) and len(value) == n] *)
Definition is_blob_of_length (n : nat) (c : cell) : bool :=
  match c with CBlob b => (length b =? n)%nat | _ => false end.

(** What [f"{value}"] shows; the bytes of a BLOB are not spelled out. *)
Definition show_cell (c : cell) : pystr :=
  match c with
  | CNull => str "None" | CInt z => str_of_Z z | CText s => s | CBlob _ => str "b'...'"
  end.

(** ** Packed integers

    [struct.pack] of one field and [int.to_bytes] refuse a value that does not
    fit instead of wrapping it around. *)
Definition pack_uint (n : nat) (z : Z) : res bytes :=
  if (0 <=? z) && (z <? 256 ^ Z.of_nat n) then Ok (be_encode n z) else Err StructError.
Definition int_to_bytes (n : nat) (z : Z) : res bytes :=
  if (0 <=? z) && (z <? 256 ^ Z.of_nat n) then Ok (be_encode n z) else Err OverflowError.
(** The [Ns] format: cut to [n] bytes or padded with zeros. *)
Definition pack_bytes (n : nat) (b : bytes) : bytes :=
  take n b ++ replicate (n - length b) Byte.x00.

(** [s.encode()] *)
Definition encode_utf8 (s : pystr) : res bytes := ok_or UnicodeEncodeError (utf8 s).

(** ** Stateful code

    [M S A] is Python code that reads and writes a state [S] and returns an [A]
    or raises. The state of a call that raised is kept: what the code had
    already changed stays changed until somebody rolls it back. *)
Definition M (S A : Type) : Type := S -> res A * S.

#[global] Instance M_ret {S} : MRet (M S) := fun A a s => (Ok a, s).
#[global] Instance M_bind {S} : MBind (M S) := fun A B f m s =>
  match m s with
  | (Ok a, s') => f a s'
  | (Err e, s') => (Err e, s')
  end.
#[global] Instance M_fmap {S} : FMap (M S) := fun A B f m s =>
  match m s with
  | (Ok a, s') => (Ok (f a), s')
  | (Err e, s') => (Err e, s')
  end.

Definition throw {S A} (e : exn) : M S A := fun s => (Err e, s).
Definition lift {S A} (r : res A) : M S A := fun s => (r, s).
Definition gets {S A} (f : S -> A) : M S A := fun s => (Ok (f s), s).
Definition modify {S} (f : S -> S) : M S () := fun s => (Ok (), f s).
Definition raise_if {S} (b : bool) (e : exn) : M S () :=
  if b then throw e else mret ().
Definition raise_unless {S} (b : bool) (e : exn) : M S () :=
  if b then mret () else throw e.

(** [try: m; except ...: h]. The handler re-raises what it does not catch. *)
Definition catch {S A} (m : M S A) (h : exn -> M S A) : M S A := fun s =>
  match m s with
  | (Ok a, s') => (Ok a, s')
  | (Err e, s') => h e s'
  end.

(** A [for] loop that threads an accumulator, and one run for its effects. *)
Fixpoint foldM {S A B} (f : B -> A -> M S B) (l : list A) (b : B) : M S B :=
  match l with
  | [] => mret b
  | a :: l' => b' ← f b a; foldM f l' b'
  end.

Fixpoint forM {S A B} (l : list A) (f : A -> M S B) : M S (list B) :=
  match l with
  | [] => mret []
  | a :: l' => b ← f a; bs ← forM l' f; mret (b :: bs)
  end.

(** The rows of a table with integer keys, in [ORDER BY id]. *)
Definition by_id {A} (p q : Z * A) : Prop := p.1 ≤ q.1.
#[global] Instance by_id_dec {A} : RelDecision (@by_id A).
Proof. intros p q. unfold by_id. apply _. Defined.
Definition rows {A} (m : gmap Z A) : list (Z * A) := merge_sort by_id (map_to_list m).

(** The largest rowid of a table, 0 for an empty one. *)
Definition max_id {A} (m : gmap Z A) : Z :=
  foldr Z.max 0 (map fst (map_to_list m)).

(** The rows of a table keyed by two ids whose first id is [i], by the second. *)
Definition rows_of {A} (m : gmap (Z * Z) A) (i : Z) : list (Z * A) :=
  merge_sort by_id (omap (fun p : Z * Z * A => if p.1.1 =? i then Some (p.1.2, p.2) else None)
    (map_to_list m)).

(** [a <= b] on Python [str] (and on UTF-8 text in SQLite's BINARY order). *)
Fixpoint str_le (a b : pystr) : bool :=
  match a, b with
  | [], _ => true
  | _ :: _, [] => false
  | x :: a', y :: b' => (x <? y)%N || ((x =? y)%N && str_le a' b')
  end.

(** A stable sort by [le]. *)
Fixpoint insert_sorted {A} (le : A -> A -> bool) (x : A) (l : list A) : list A :=
  match l with
  | [] => [x]
  | y :: l' => if le x y then x :: l else y :: insert_sorted le x l'
  end.
Definition sorted_by {A} (le : A -> A -> bool) (l : list A) : list A :=
  foldr (insert_sorted le) [] l.
(** Python compares tuples from left to right. *)
Definition str_id_le (p q : pystr * Z) : bool :=
  if bool_decide (p.1 = q.1) then p.2 <=? q.2 else str_le p.1 q.1.

Arguments str : simpl never.
Arguments rows_of : simpl never.
Arguments raw : simpl never.
Arguments str_of_Z : simpl never.
Arguments rows : simpl never.
Arguments max_id : simpl never.
Arguments be_encode : simpl never.
Arguments be_decode : simpl never.
Arguments utf8 : simpl never.

(** ** Lemmas on bytes *)

Lemma Z_of_byte_range b : 0 ≤ Z_of_byte b < 256.
Proof.
  unfold Z_of_byte. pose proof (Byte.to_N_bounded b). lia.
Qed.

Lemma Z_of_byte_of_Z z : Z_of_byte (byte_of_Z z) = z `mod` 256.
Proof.
  unfold Z_of_byte, byte_of_Z.
  pose proof (Z.mod_pos_bound z 256 ltac:(lia)) as Hb.
  destruct (Byte.of_N (Z.to_N (z `mod` 256))) as [b|] eqn:E; simpl.
  - apply Byte.to_of_N in E. rewrite E. lia.
  - apply Byte.of_N_None_iff in E. lia.
Qed.

Lemma byte_of_Z_of_byte b : byte_of_Z (Z_of_byte b) = b.
Proof.
  unfold byte_of_Z, Z_of_byte.
  pose proof (Z_of_byte_range b) as Hr. unfold Z_of_byte in Hr.
  rewrite Z.mod_small, N2Z.id, Byte.of_to_N by lia. done.
Qed.

Lemma Z_of_byte_inj a b : Z_of_byte a = Z_of_byte b -> a = b.
Proof. intros H. rewrite <- (byte_of_Z_of_byte a), <- (byte_of_Z_of_byte b). congruence. Qed.

Lemma length_be_encode n z : length (be_encode n z) = n.
Proof.
  revert z; induction n as [|n IH]; intros z; [done|].
  change (be_encode (S n) z) with (be_encode n (z `div` 256) ++ [byte_of_Z z]).
  rewrite length_app, IH. simpl. lia.
Qed.

Lemma be_decode_snoc l b : be_decode (l ++ [b]) = be_decode l * 256 + Z_of_byte b.
Proof. unfold be_decode. by rewrite foldl_snoc. Qed.

Lemma be_decode_encode n z :
  0 ≤ z < 256 ^ Z.of_nat n -> be_decode (be_encode n z) = z.
Proof.
  revert z; induction n as [|n IH]; intros z Hz.
  - change (256 ^ Z.of_nat 0) with 1 in Hz. assert (z = 0) as -> by lia. done.
  - change (be_encode (S n) z) with (be_encode n (z `div` 256) ++ [byte_of_Z z]).
    rewrite be_decode_snoc, Z_of_byte_of_Z, IH.
    + pose proof (Z.div_mod z 256 ltac:(lia)). lia.
    + rewrite Nat2Z.inj_succ, Z.pow_succ_r in Hz by lia.
      split; [apply Z.div_pos; lia|]. apply Z.div_lt_upper_bound; lia.
Qed.

Lemma be_decode_bound l : 0 ≤ be_decode l < 256 ^ Z.of_nat (length l).
Proof.
  induction l as [|b l IH] using rev_ind; [done|].
  rewrite be_decode_snoc, length_app, Nat.add_1_r, Nat2Z.inj_succ, Z.pow_succ_r by lia.
  pose proof (Z_of_byte_range b). lia.
Qed.

Lemma be_encode_decode l : be_encode (length l) (be_decode l) = l.
Proof.
  induction l as [|b l IH] using rev_ind; [done|].
  rewrite length_app, Nat.add_1_r, be_decode_snoc.
  change (be_encode (S (length l)) ?z) with (be_encode (length l) (z `div` 256) ++ [byte_of_Z z]).
  pose proof (Z_of_byte_range b) as Hb. f_equal.
  - rewrite Z.div_add_l, Z.div_small, Z.add_0_r by lia. done.
  - f_equal. unfold byte_of_Z.
    replace ((be_decode l * 256 + Z_of_byte b) `mod` 256) with (Z_of_byte b `mod` 256).
    + apply byte_of_Z_of_byte.
    + rewrite Z.add_comm, Z_mod_plus_full. done.
Qed.

Lemma be_encode_inj n x y :
  0 ≤ x < 256 ^ Z.of_nat n -> 0 ≤ y < 256 ^ Z.of_nat n ->
  be_encode n x = be_encode n y -> x = y.
Proof.
  intros Hx Hy E. rewrite <- (be_decode_encode n x), <- (be_decode_encode n y) by done.
  by rewrite E.
Qed.

Lemma pack_uint_Ok n z b :
  pack_uint n z = Ok b -> b = be_encode n z ∧ 0 ≤ z < 256 ^ Z.of_nat n.
Proof.
  unfold pack_uint. destruct (_ && _) eqn:E; [|done]. intros [= <-]. split; [done|lia].
Qed.

Lemma pack_uint_inj n x y b : pack_uint n x = Ok b -> pack_uint n y = Ok b -> x = y.
Proof.
  intros [-> Hx]%pack_uint_Ok [E Hy]%pack_uint_Ok. by apply (be_encode_inj n).
Qed.

Lemma int_to_bytes_Ok n z b :
  int_to_bytes n z = Ok b -> b = be_encode n z ∧ 0 ≤ z < 256 ^ Z.of_nat n.
Proof.
  unfold int_to_bytes. destruct (_ && _) eqn:E; [|done]. intros [= <-]. split; [done|lia].
Qed.

Lemma length_pack_bytes n b : length (pack_bytes n b) = n.
Proof. unfold pack_bytes. rewrite length_app, length_take, length_replicate. lia. Qed.

Lemma pack_bytes_id n b : length b = n -> pack_bytes n b = b.
Proof.
  intros <-. unfold pack_bytes.
  rewrite take_ge by lia. rewrite Nat.sub_diag. apply app_nil_r.
Qed.

Lemma res_bind_Ok {A B} (r : res A) (f : A -> res B) b :
  (r ≫= f) = Ok b ↔ ∃ a, r = Ok a ∧ f a = Ok b.
Proof.
  destruct r as [a|e]; cbn; [|by split; [|intros (? & [=] & _)]].
  split; [eauto|]. by intros (a' & [= <-] & ?).
Qed.

(** ** Lemmas on tables *)

Lemma elem_of_rows {A} (m : gmap Z A) k x : (k, x) ∈ rows m ↔ m !! k = Some x.
Proof.
  unfold rows. rewrite merge_sort_Permutation. apply elem_of_map_to_list.
Qed.

Lemma NoDup_rows {A} (m : gmap Z A) : NoDup (rows m).*1.
Proof. unfold rows. rewrite merge_sort_Permutation. apply NoDup_fst_map_to_list. Qed.

Lemma elem_of_rows_of {A} (m : gmap (Z * Z) A) i k x :
  (k, x) ∈ rows_of m i ↔ m !! (i, k) = Some x.
Proof.
  unfold rows_of. rewrite merge_sort_Permutation, list_elem_of_omap, <- elem_of_map_to_list.
  split.
  - intros (((a, b), y) & Hin & E). simpl in E. destruct (a =? i) eqn:Ea; [|done].
    apply Z.eqb_eq in Ea. by simplify_eq.
  - intros Hin. exists (i, k, x). split; [done|]. simpl. by rewrite Z.eqb_refl.
Qed.

Lemma insert_sorted_Permutation {A} (le : A -> A -> bool) x l :
  Permutation (insert_sorted le x l) (x :: l).
Proof.
  induction l as [|y l IH]; [done|]. simpl. destruct (le x y); [done|].
  rewrite IH. by constructor.
Qed.
Lemma sorted_by_Permutation {A} (le : A -> A -> bool) l : Permutation (sorted_by le l) l.
Proof. induction l as [|x l IH]; [done|]. simpl. by rewrite insert_sorted_Permutation, IH. Qed.

#[global] Instance by_id_trans {A} : Transitive (@by_id A).
Proof. intros x y z. unfold by_id. lia. Qed.
#[global] Instance by_id_total {A} : Total (@by_id A).
Proof. intros x y. unfold by_id. lia. Qed.

Lemma StronglySorted_rows {A} (m : gmap Z A) : StronglySorted by_id (rows m).
Proof. unfold rows. apply StronglySorted_merge_sort; apply _. Qed.

Lemma foldr_max_le l x : x ∈ l -> x ≤ foldr Z.max 0 l.
Proof. induction 1; simpl; lia. Qed.

Lemma max_id_ge {A} (m : gmap Z A) k x : m !! k = Some x -> k ≤ max_id m.
Proof.
  intros H. apply foldr_max_le.
  apply (list_elem_of_fmap_2 fst _ (k, x)). by apply elem_of_map_to_list.
Qed.

Lemma max_id_fresh {A} (m : gmap Z A) k : max_id m < k -> m !! k = None.
Proof.
  intros H. destruct (m !! k) eqn:E; [|done]. apply max_id_ge in E. lia.
Qed.

Lemma max_id_nonneg {A} (m : gmap Z A) : 0 ≤ max_id m.
Proof. unfold max_id. induction (map fst (map_to_list m)); simpl; lia. Qed.

(** ** Reasoning about stateful code *)

Section Monad.
Context {S : Type}.
Implicit Types (s : S).

Lemma bind_Ok {A B} (m : M S A) (f : A -> M S B) s b s' :
  (m ≫= f) s = (Ok b, s') ↔ ∃ a s1, m s = (Ok a, s1) ∧ f a s1 = (Ok b, s').
Proof.
  unfold mbind, M_bind. destruct (m s) as [[a|e] s1].
  - split; [eauto|]. by intros (a' & s2 & [= <- <-] & ?).
  - split; [done|]. by intros (a' & s2 & [=] & ?).
Qed.

Lemma bind_Err {A B} (m : M S A) (f : A -> M S B) s e s' :
  (m ≫= f) s = (Err e, s') ↔
  m s = (Err e, s') ∨ ∃ a s1, m s = (Ok a, s1) ∧ f a s1 = (Err e, s').
Proof.
  unfold mbind, M_bind. destruct (m s) as [[a|e'] s1].
  - split; [eauto|]. intros [[=] | (a' & s2 & [= <- <-] & ?)]. done.
  - split; [intros [= -> ->]; by left|].
    intros [[= -> ->] | (a' & s2 & [=] & ?)]. done.
Qed.

Lemma bind_run_Ok {A B} (m : M S A) (f : A -> M S B) s a s1 :
  m s = (Ok a, s1) -> (m ≫= f) s = f a s1.
Proof. unfold mbind, M_bind. by intros ->. Qed.

Lemma bind_run_Err {A B} (m : M S A) (f : A -> M S B) s e s1 :
  m s = (Err e, s1) -> (m ≫= f) s = (Err e, s1).
Proof. unfold mbind, M_bind. by intros ->. Qed.

(** A loop keeps what each of its steps keeps. *)
Lemma foldM_inv {A B} (I : B -> S -> Prop) (f : B -> A -> M S B) l b s b' s' :
  (forall b a s b' s', I b s -> f b a s = (Ok b', s') -> I b' s') ->
  I b s -> foldM f l b s = (Ok b', s') -> I b' s'.
Proof.
  intros Hf. revert b s. induction l as [|a l IH]; intros b s Hi Hr; [by injection Hr as <- <-|].
  cbn [foldM] in Hr. apply bind_Ok in Hr as (b1 & s1 & Ha & Hr). eauto.
Qed.
Lemma foldM_count {A B} (g : B -> Z) (f : B -> A -> M S B) l b s b' s' :
  (forall b a s b' s', f b a s = (Ok b', s') -> g b' = g b + 1) ->
  foldM f l b s = (Ok b', s') -> g b' = g b + Z.of_nat (length l).
Proof.
  intros Hf. revert b s. induction l as [|a l IH]; intros b s Hr; [injection Hr as <- <-; simpl; lia|].
  cbn [foldM] in Hr. apply bind_Ok in Hr as (b1 & s1 & Ha & Hr).
  apply IH in Hr. apply Hf in Ha. simpl length. lia.
Qed.

Lemma raise_if_Ok b e s (u : unit) s' :
  raise_if b e s = (Ok u, s') ↔ b = false ∧ s' = s.
Proof. destruct u, b; cbv [raise_if raise_unless throw mret M_ret]; intuition congruence. Qed.

Lemma raise_unless_Ok b e s (u : unit) s' :
  raise_unless b e s = (Ok u, s') ↔ b = true ∧ s' = s.
Proof. destruct u, b; cbv [raise_if raise_unless throw mret M_ret]; intuition congruence. Qed.

Lemma lift_Ok {A} (r : res A) s a s' :
  lift r s = (Ok a, s') ↔ r = Ok a ∧ s' = s.
Proof. unfold lift. intuition congruence. Qed.

(** *** Frame conditions

    [keeps R m]: whatever [m] does, success or exception, the states before and
    after are related by [R]. *)
Definition keeps {A} (R : S -> S -> Prop) (m : M S A) : Prop :=
  forall s, R s (m s).2.

Section Keeps.
Context (R : S -> S -> Prop) `{!PreOrder R}.

Lemma keeps_ret {A} (a : A) : keeps R (mret a).
Proof. intros s. simpl. reflexivity. Qed.
Lemma keeps_throw {A} e : keeps R (throw e : M S A).
Proof. intros s. simpl. reflexivity. Qed.
Lemma keeps_lift {A} (r : res A) : keeps R (lift r).
Proof. intros s. simpl. reflexivity. Qed.
Lemma keeps_gets {A} (f : S -> A) : keeps R (gets f).
Proof. intros s. simpl. reflexivity. Qed.
Lemma keeps_raise_if b e : keeps R (raise_if b e).
Proof. intros s. destruct b; simpl; reflexivity. Qed.
Lemma keeps_raise_unless b e : keeps R (raise_unless b e).
Proof. intros s. destruct b; simpl; reflexivity. Qed.

Lemma keeps_bind {A B} (m : M S A) (f : A -> M S B) :
  keeps R m -> (forall a, keeps R (f a)) -> keeps R (m ≫= f).
Proof.
  intros Hm Hf s. unfold mbind, M_bind. specialize (Hm s).
  destruct (m s) as [[a|e] s1]; simpl in *; [|done].
  etransitivity; [exact Hm | apply Hf].
Qed.

Lemma keeps_fmap {A B} (m : M S A) (f : A -> B) : keeps R m -> keeps R (f <$> m).
Proof.
  intros Hm s. unfold fmap, M_fmap. specialize (Hm s). by destruct (m s) as [[a|e] s1].
Qed.

Lemma keeps_catch {A} (m : M S A) h :
  keeps R m -> (forall e, keeps R (h e)) -> keeps R (catch m h).
Proof.
  intros Hm Hh s. unfold catch. specialize (Hm s).
  destruct (m s) as [[a|e] s1]; simpl in *; [done|].
  etransitivity; [exact Hm | apply Hh].
Qed.

Lemma keeps_foldM_in {A B} (f : B -> A -> M S B) l b :
  (forall b a, a ∈ l -> keeps R (f b a)) -> keeps R (foldM f l b).
Proof.
  intros Hf. revert b. induction l as [|a l IH]; intros b; simpl.
  - apply keeps_ret.
  - apply keeps_bind; [apply Hf; left|]. intros b'. apply IH. intros ? ? ?. apply Hf. by right.
Qed.
Lemma keeps_foldM {A B} (f : B -> A -> M S B) l b :
  (forall b a, keeps R (f b a)) -> keeps R (foldM f l b).
Proof. intros Hf. apply keeps_foldM_in. auto. Qed.

Lemma keeps_forM {A B} (f : A -> M S B) l :
  (forall a, keeps R (f a)) -> keeps R (forM l f).
Proof.
  intros Hf. induction l as [|a l IH]; simpl.
  - apply keeps_ret.
  - apply keeps_bind; [done|]. intros b. apply keeps_bind; [done|].
    intros bs. apply keeps_ret.
Qed.

End Keeps.
End Monad.

Create HintDb keeps discriminated.
#[export] Hint Resolve keeps_ret keeps_throw keeps_lift keeps_gets keeps_raise_if
  keeps_raise_unless keeps_bind keeps_fmap keeps_catch keeps_foldM keeps_forM : keeps.

(** [run_inv H] takes a successful run [H : m s = (Ok b, s')] apart into the
    runs of its steps. *)
Ltac run_value H :=
  cbv [mret M_ret gets modify] in H;
  first [injection H; clear H; intros; subst | clear H].
Ltac run_step H :=
  lazymatch type of H with
  | mbind _ _ _ = (Ok _, _) =>
      let a := fresh "x" in let s1 := fresh "s" in let H1 := fresh "R" in
      apply bind_Ok in H; destruct H as (a & s1 & H1 & H); repeat (run_step H1)
  | mret _ _ = (Ok _, _) => run_value H
  | (Ok _, _) = (Ok _, _) => run_value H
  | (Err _, _) = (Ok _, _) => discriminate H
  | throw _ _ = (Ok _, _) => discriminate H
  | raise_if _ _ _ = (Ok _, _) => apply raise_if_Ok in H; destruct H as [H ?]; subst
  | raise_unless _ _ _ = (Ok _, _) => apply raise_unless_Ok in H; destruct H as [H ?]; subst
  | lift _ _ = (Ok _, _) => apply lift_Ok in H; destruct H as [H ?]; subst
  | gets _ _ = (Ok _, _) => run_value H
  | modify _ _ = (Ok _, _) => run_value H
  end.
(** [res_inv H] does the same for a computation [H : r = Ok b] with no state. *)
Ltac res_step H :=
  lazymatch type of H with
  | mbind _ _ = Ok _ =>
      let a := fresh "x" in let H1 := fresh "R" in
      apply res_bind_Ok in H; destruct H as (a & H1 & H); repeat (res_step H1)
  | mret _ = Ok _ => injection H as ?; subst
  | Ok _ = Ok _ => injection H as ?; subst
  | Err _ = Ok _ => discriminate H
  end.
Ltac res_inv H := repeat (res_step H).
Ltac run_inv H := repeat (run_step H).

(** [keeps_tac] proves a frame condition by following the code. *)
Ltac keeps_step :=
  match goal with
  | |- keeps _ (mbind _ _) => apply keeps_bind; [apply _ | | intros ?]
  | |- keeps _ (fmap _ _) => apply keeps_fmap
  | |- keeps _ (catch _ _) => apply keeps_catch; [apply _ | | intros ?]
  | |- keeps _ (foldM _ _ _) => apply keeps_foldM; [apply _ | intros ? ?]
  | |- keeps _ (forM _ _) => apply keeps_forM; [apply _ | intros ?]
  | |- keeps _ (mret _) => apply keeps_ret; apply _
  | |- keeps _ (throw _) => apply keeps_throw; apply _
  | |- keeps _ (lift _) => apply keeps_lift; apply _
  | |- keeps _ (gets _) => apply keeps_gets; apply _
  | |- keeps _ (raise_if _ _) => apply keeps_raise_if; apply _
  | |- keeps _ (raise_unless _ _) => apply keeps_raise_unless; apply _
  | |- keeps _ (if ?b then _ else _) => destruct b
  | |- keeps _ (match ?x with _ => _ end) => destruct x
  | |- keeps _ (let '_ := ?x in _) => destruct x
  end.
Ltac keeps_tac := repeat first [ keeps_step | solve [eauto with keeps] ].
