(* ===== verification/Framing.v ===== *)
(** The frames of the desktop core ([desktop/core/desktop_core/framing.py] and the
    reader of [server.py]): a prefix of 16 bytes, a JSON header and a body, read from a
    pipe that hands its bytes over in pieces of any size. *)
From Stdlib Require Import ZArith Lia Strings.String Strings.Byte.
From stdpp Require Import base list.
From S2P Require Import Prelude.

Definition MAGIC : bytes := raw "CM".
Definition PROTOCOL_VERSION : Z := 1.
Definition PREFIX_SIZE : Z := 16.
Definition MAX_HEADER_BYTES : Z := 64 * 1024.
Definition MAX_BODY_BYTES : Z := 24 * 1024 * 1024.
Definition DISCARD_CHUNK : Z := 64 * 1024.
Definition REQUEST : Z := 1.
Definition RESPONSE : Z := 2.
Definition CANCEL : Z := 3.
Definition READY : Z := 4.
Definition ERROR : Z := 5.
Definition SHUTDOWN : Z := 6.
Definition KINDS : list Z := [REQUEST; RESPONSE; CANCEL; READY; ERROR; SHUTDOWN].

(** JSON, as [json.loads] and [json.dumps] of the standard library have it: a number
    is not looked into, an object is a dictionary. *)
Inductive json :=
  | JNull
  | JBool (b : bool)
  | JNumber (n : Z)
  | JString (s : pystr)
  | JList (l : list json)
  | JObject (l : list (pystr * json)).
(** What [json.loads] raises: errors that are [ValueError]s, and [RecursionError] *)
Inductive json_error := NotUnicode (message : pystr) | NotJson (message : pystr) | TooDeep.
Class Json := {
  (** [json.dumps(_, separators=(",", ":")).encode()], and without the separators *)
  dumps : json -> bytes;
  dumps_spaced : json -> bytes;
  loads : bytes -> json_error + json;
}.

Inductive frame_error := Desync | BadLength.
Record Prefix := { px_kind : Z; px_request_id : Z; px_header_len : Z; px_body_len : Z }.
(** [struct.Struct(">2sBBIII")] *)
Definition unpack (n : nat) (l : bytes) : Z * bytes := (be_decode (take n l), drop n l).
Definition parse_prefix (raw : bytes) : frame_error + Prefix :=
  if negb (Z.of_nat (length raw) =? PREFIX_SIZE) then inl BadLength
  else
    let magic := take 2 raw in
    let '(version, l) := unpack 1 (drop 2 raw) in
    let '(kind, l) := unpack 1 l in
    let '(request_id, l) := unpack 4 l in
    let '(header_len, l) := unpack 4 l in
    let '(body_len, _) := unpack 4 l in
    if bool_decide (magic ≠ MAGIC) || negb (version =? PROTOCOL_VERSION) then inl Desync
    else inr {| px_kind := kind; px_request_id := request_id; px_header_len := header_len; px_body_len := body_len |}.

Definition encode `{Json} (kind request_id : Z) (header : json) (body : bytes) : res bytes :=
  let header_bytes := dumps header in
  if MAX_HEADER_BYTES <? Z.of_nat (length header_bytes) then Err (ValueError (str "header too large"))
  else if MAX_BODY_BYTES <? Z.of_nat (length body) then Err (ValueError (str "body too large"))
  else
    v ← pack_uint 1 PROTOCOL_VERSION;
    k ← pack_uint 1 kind;
    i ← pack_uint 4 request_id;
    h ← pack_uint 4 (Z.of_nat (length header_bytes));
    b ← pack_uint 4 (Z.of_nat (length body));
    Ok (MAGIC ++ v ++ k ++ i ++ h ++ b ++ header_bytes ++ body).

(** ** The pipe *)

(** A file descriptor: the pieces its reads return, whole or cut short *)
Definition Pipe : Type := list bytes.
Definition stream (fd : Pipe) : bytes := mjoin fd.
(** [os.read]: nothing only at the end *)
Fixpoint os_read (size : Z) (fd : Pipe) : bytes * Pipe :=
  match fd with
  | [] => ([], [])
  | [] :: fd => os_read size fd
  | piece :: fd => (take (Z.to_nat size) piece,
                    match drop (Z.to_nat size) piece with [] => fd | rest => rest :: fd end)
  end.
(** Every round of a loop reads at least one byte or ends it. *)
Definition fuel_for (fd : Pipe) : nat := S (length (stream fd)).

(** [_read_exact]: [Ok None] at the end of the input *)
Fixpoint read_exact_loop (fuel : nat) (size : Z) (buffer : bytes) (fd : Pipe) : res (option bytes) * Pipe :=
  if Z.of_nat (length buffer) <? size then
    match fuel with
    | O => (Err Diverges, fd)
    | S fuel =>
        match os_read (Z.min (size - Z.of_nat (length buffer)) (Z.shiftl 1 20)) fd with
        | ([], fd) => (Ok None, fd)
        | (chunk, fd) => read_exact_loop fuel size (buffer ++ chunk) fd
        end
    end
  else (Ok (Some buffer), fd).
Definition read_exact (size : Z) (fd : Pipe) : res (option bytes) * Pipe := read_exact_loop (fuel_for fd) size [] fd.
(** [_discard] *)
Fixpoint discard_loop (fuel : nat) (size : Z) (fd : Pipe) : res bool * Pipe :=
  if size =? 0 then (Ok true, fd)
  else
    match fuel with
    | O => (Err Diverges, fd)
    | S fuel =>
        match os_read (Z.min size DISCARD_CHUNK) fd with
        | ([], fd) => (Ok false, fd)
        | (chunk, fd) => discard_loop fuel (size - Z.of_nat (length chunk)) fd
        end
    end.
Definition discard (size : Z) (fd : Pipe) : res bool * Pipe := discard_loop (fuel_for fd) size fd.

(** What [reader] delivers *)
Inductive Incoming :=
  | Eof
  | DesyncItem
  | Rejected (p : Prefix) (reason : pystr)
  | FrameItem (p : Prefix) (header body : bytes).
Definition rejection (p : Prefix) : option pystr :=
  if negb (existsb (Z.eqb (px_kind p)) KINDS) then Some (str "unknown_kind")
  else if MAX_HEADER_BYTES <? px_header_len p then Some (str "header_too_large")
  else if MAX_BODY_BYTES <? px_body_len p then Some (str "body_too_large")
  else None.
(** The items delivered until the thread ends *)
Fixpoint reader_loop (fuel : nat) (fd : Pipe) : res (list Incoming) :=
  match fuel with
  | O => Err Diverges
  | S fuel =>
      let '(raw, fd) := read_exact PREFIX_SIZE fd in
      raw ← raw;
      match raw with
      | None => Ok [Eof]
      | Some raw =>
          match parse_prefix raw with
          | inl Desync => Ok [DesyncItem]
          | inl BadLength => Err StructError
          | inr p =>
              match rejection p with
              | Some reason =>
                  let '(more, fd) := discard (px_header_len p + px_body_len p) fd in
                  more ← more;
                  if more : bool then cons (Rejected p reason) <$> reader_loop fuel fd else Ok [Eof]
              | None =>
                  let '(header, fd) := read_exact (px_header_len p) fd in
                  header ← header;
                  match header with
                  | None => Ok [Eof]
                  | Some header =>
                      let '(body, fd) := read_exact (px_body_len p) fd in
                      body ← body;
                      match body with
                      | None => Ok [Eof]
                      | Some body => cons (FrameItem p header body) <$> reader_loop fuel fd
                      end
                  end
              end
          end
      end
  end.
Definition reader (fd : Pipe) : res (list Incoming) := reader_loop (fuel_for fd) fd.
