(* ===== verification/FramingSpec.v ===== *)
(** The reader of the desktop core reads what its pipe carries, however the pipe cuts
    it up: it always ends, delivers the frames that were encoded, and finds the next
    frame after one it refuses. *)
From Stdlib Require Import ZArith Lia Strings.String Strings.Byte.
From stdpp Require Import base list.
From S2P Require Import Prelude Framing.

Lemma os_read_spec size fd c fd' :
  0 < size -> os_read size fd = (c, fd') ->
  stream fd = c ++ stream fd' ∧ Z.of_nat (length c) <= size ∧ (c = [] -> stream fd = []).
Proof.
  intros Hs. induction fd as [|[|b piece] fd IH]; cbn [os_read]; intros Hr.
  - injection Hr as <- <-. cbn. split_and!; [done|lia|done].
  - apply IH in Hr. exact Hr.
  - assert (drop (Z.to_nat size) (b :: piece) = [] ∧ fd' = fd ∨ fd' = drop (Z.to_nat size) (b :: piece) :: fd) as Hd.
    { destruct (drop (Z.to_nat size) (b :: piece)) eqn:E; injection Hr as _ <-; [by left|by right]. }
    injection Hr as <- _. rewrite length_take. split_and!.
    + unfold stream. cbn [mjoin list_join]. destruct Hd as [[E ->]| ->].
      * rewrite <- (take_drop (Z.to_nat size) (b :: piece)) at 1. by rewrite E, app_nil_r.
      * cbn [mjoin list_join]. by rewrite app_assoc, take_drop.
    + lia.
    + intros Hn. apply (f_equal length) in Hn. rewrite length_take in Hn. cbn in Hn. lia.
Qed.

(** What is read of a stream [s], when [size] bytes are asked for *)
Definition cut (size : Z) (s : bytes) : option bytes * bytes :=
  if size <=? Z.of_nat (length s) then (Some (take (Z.to_nat size) s), drop (Z.to_nat size) s) else (None, []).
Lemma cut_app size c s :
  Z.of_nat (length c) <= size ->
  cut size (c ++ s) = (match (cut (size - Z.of_nat (length c)) s).1 with Some t => Some (c ++ t) | None => None end,
                       (cut (size - Z.of_nat (length c)) s).2).
Proof.
  intros Hc. unfold cut. rewrite length_app.
  destruct (size - Z.of_nat (length c) <=? Z.of_nat (length s)) eqn:E.
  - apply Z.leb_le in E. rewrite (proj2 (Z.leb_le _ _)) by lia. cbn [fst snd].
    replace (Z.to_nat size) with (length c + Z.to_nat (size - Z.of_nat (length c)))%nat by lia.
    by rewrite take_app_add, drop_app_add.
  - apply Z.leb_gt in E. by rewrite (proj2 (Z.leb_gt _ _)) by lia.
Qed.
Lemma cut_nil s : cut 0 s = (Some [], s).
Proof. unfold cut. by rewrite (proj2 (Z.leb_le _ _)) by lia. Qed.
Lemma read_exact_loop_spec fuel size buffer fd :
  Z.of_nat (length buffer) <= size -> (length (stream fd) < fuel)%nat ->
  ∃ fd', read_exact_loop fuel size buffer fd =
    (Ok (match (cut (size - Z.of_nat (length buffer)) (stream fd)).1 with Some s => Some (buffer ++ s) | None => None end), fd') ∧
    stream fd' = (cut (size - Z.of_nat (length buffer)) (stream fd)).2.
Proof.
  revert buffer fd. induction fuel as [|fuel IH]; intros buffer fd Hb Hf; [lia|]. cbn [read_exact_loop].
  destruct (_ <? size) eqn:E.
  - apply Z.ltb_lt in E. destruct (os_read _ fd) as [c fd1] eqn:Er. apply os_read_spec in Er as (Es & Hl & Hn);
      [|change (Z.shiftl 1 20) with 1048576; lia].
    destruct c as [|b c].
    + exists fd1. rewrite (Hn eq_refl) in *. unfold cut. cbn [length]. rewrite (proj2 (Z.leb_gt _ _)) by lia.
      split; [done|]. by destruct (stream fd1).
    + destruct (IH (buffer ++ b :: c) fd1) as (fd' & -> & E').
      { rewrite length_app. lia. }
      { rewrite Es in Hf. rewrite length_app in Hf. cbn in Hf. lia. }
      exists fd'. rewrite E', Es, cut_app by lia. rewrite length_app.
      replace (size - Z.of_nat (length buffer) - Z.of_nat (length (b :: c)))
        with (size - Z.of_nat (length buffer + length (b :: c))) by lia.
      split; [|done]. cbn [fst]. destruct (cut _ _).1; [by rewrite <- (app_assoc buffer (b :: c))|done].
  - apply Z.ltb_ge in E. exists fd. assert (size - Z.of_nat (length buffer) = 0) as -> by lia.
    rewrite cut_nil. cbn. by rewrite app_nil_r.
Qed.
Lemma read_exact_spec size fd :
  0 <= size -> ∃ fd', read_exact size fd = (Ok (cut size (stream fd)).1, fd') ∧ stream fd' = (cut size (stream fd)).2.
Proof.
  intros Hs. destruct (read_exact_loop_spec (fuel_for fd) size [] fd) as (fd' & E & E'); [cbn; lia|unfold fuel_for; lia|].
  cbn [length] in *. rewrite Z.sub_0_r in *. exists fd'. split; [|done]. unfold read_exact. rewrite E.
  by destruct (cut size (stream fd)) as [[]].
Qed.
Lemma discard_loop_spec fuel size fd :
  0 <= size -> (length (stream fd) < fuel)%nat ->
  ∃ fd', discard_loop fuel size fd = (Ok (is_some (cut size (stream fd)).1), fd') ∧ stream fd' = (cut size (stream fd)).2.
Proof.
  revert size fd. induction fuel as [|fuel IH]; intros size fd Hs Hf; [lia|]. cbn [discard_loop].
  destruct (size =? 0) eqn:E.
  - apply Z.eqb_eq in E as ->. exists fd. by rewrite cut_nil.
  - apply Z.eqb_neq in E. destruct (os_read _ fd) as [c fd1] eqn:Er. apply os_read_spec in Er as (Es & Hl & Hn);
      [|unfold DISCARD_CHUNK; lia].
    destruct c as [|b c].
    + exists fd1. rewrite (Hn eq_refl) in *. unfold cut. cbn [length]. rewrite (proj2 (Z.leb_gt _ _)) by lia.
      split; [done|]. by destruct (stream fd1).
    + destruct (IH (size - Z.of_nat (length (b :: c))) fd1) as (fd' & -> & E').
      { unfold DISCARD_CHUNK in *. lia. }
      { rewrite Es in Hf. rewrite length_app in Hf. cbn in Hf. lia. }
      exists fd'. rewrite E', Es, cut_app by lia. split; [|done]. by destruct (cut _ (stream fd1)) as [[]].
Qed.
Lemma discard_spec size fd :
  0 <= size -> ∃ fd', discard size fd = (Ok (is_some (cut size (stream fd)).1), fd') ∧ stream fd' = (cut size (stream fd)).2.
Proof. intros Hs. apply discard_loop_spec; [done|unfold fuel_for; lia]. Qed.

(** ** What a stream of bytes means *)

Fixpoint items (fuel : nat) (s : bytes) : list Incoming :=
  match fuel with
  | O => []
  | S fuel =>
      match cut PREFIX_SIZE s with
      | (Some raw, s) =>
          match parse_prefix raw with
          | inr p =>
              match rejection p with
              | Some reason =>
                  match cut (px_header_len p + px_body_len p) s with
                  | (Some _, s) => Rejected p reason :: items fuel s
                  | (None, _) => [Eof]
                  end
              | None =>
                  match cut (px_header_len p) s with
                  | (Some header, s) =>
                      match cut (px_body_len p) s with
                      | (Some body, s) => FrameItem p header body :: items fuel s
                      | (None, _) => [Eof]
                      end
                  | (None, _) => [Eof]
                  end
              end
          | inl _ => [DesyncItem]
          end
      | (None, _) => [Eof]
      end
  end.
Definition frames_in (s : bytes) : list Incoming := items (S (length s)) s.

Lemma parse_prefix_lengths raw p :
  parse_prefix raw = inr p -> 0 <= px_header_len p ∧ 0 <= px_body_len p.
Proof.
  unfold parse_prefix, unpack. destruct (negb _); [done|]. destruct (_ || _); [done|]. intros [= <-].
  cbn [px_header_len px_body_len]. split; apply be_decode_bound.
Qed.
Lemma cut_Some size s t r :
  0 <= size -> cut size s = (Some t, r) -> s = t ++ r ∧ Z.of_nat (length t) = size.
Proof.
  unfold cut. intros Hs. destruct (_ <=? _) eqn:E; [|done]. apply Z.leb_le in E. intros [= <- <-].
  split; [by rewrite take_drop|]. rewrite length_take. lia.
Qed.
Lemma reader_loop_spec fuel fd :
  (length (stream fd) < fuel)%nat -> reader_loop fuel fd = Ok (items fuel (stream fd)).
Proof.
  revert fd. induction fuel as [|fuel IH]; intros fd Hf; [lia|]. cbn [reader_loop items].
  destruct (read_exact_spec PREFIX_SIZE fd) as (fd1 & -> & E1); [done|].
  destruct (cut PREFIX_SIZE (stream fd)) as [[raw|] s1] eqn:Ec; cbn [fst snd] in *; [|done].
  apply cut_Some in Ec as [Es Hl]; [|done]. cbn [mbind res_bind].
  assert (length (stream fd) = (16 + length s1))%nat as Hlen by (rewrite Es, length_app; unfold PREFIX_SIZE in Hl; lia).
  destruct (parse_prefix raw) as [[]|p] eqn:Ep; [done| |].
  { unfold parse_prefix in Ep. rewrite Hl, Z.eqb_refl in Ep. cbn in Ep. by destruct (_ || _). }
  destruct (parse_prefix_lengths _ _ Ep) as [Hh Hb]. destruct (rejection p) as [reason|].
  - destruct (discard_spec (px_header_len p + px_body_len p) fd1) as (fd2 & -> & E2); [lia|]. rewrite E1 in *.
    destruct (cut _ s1) as [[t|] s2] eqn:Ec; cbn [fst snd is_some] in *; [|done].
    apply cut_Some in Ec as [-> _]; [|lia]. cbn [mbind res_bind]. rewrite length_app in Hlen. by rewrite IH, E2 by (rewrite E2; lia).
  - destruct (read_exact_spec (px_header_len p) fd1) as (fd2 & -> & E2); [lia|]. rewrite E1 in *.
    destruct (cut _ s1) as [[t|] s2] eqn:Ec; cbn [fst snd] in *; [|done].
    apply cut_Some in Ec as [-> _]; [|lia]. cbn [mbind res_bind].
    destruct (read_exact_spec (px_body_len p) fd2) as (fd3 & -> & E3); [lia|]. rewrite E2 in *.
    destruct (cut _ s2) as [[u|] s3] eqn:Ec; cbn [fst snd] in *; [|done].
    apply cut_Some in Ec as [-> _]; [|lia]. cbn [mbind res_bind]. rewrite !length_app in Hlen. by rewrite IH, E3 by (rewrite E3; lia).
Qed.

(** Whatever pieces the pipe hands its bytes over in *)
Lemma reader_reads_the_stream fd : reader fd = Ok (frames_in (stream fd)).
Proof. apply reader_loop_spec. unfold fuel_for. lia. Qed.

(** ** What was sent *)

Lemma items_fuel fuel fuel' s :
  (length s < fuel)%nat -> (length s < fuel')%nat -> items fuel s = items fuel' s.
Proof.
  intros Hf Hf'. assert (reader_loop fuel [s] = reader_loop fuel' [s] -> items fuel s = items fuel' s) as Hr.
  { rewrite !reader_loop_spec by (unfold stream; cbn; rewrite app_nil_r; lia). unfold stream. cbn.
    rewrite !app_nil_r. by intros [= ->]. }
  clear Hr. revert s fuel' Hf Hf'. induction fuel as [|fuel IH]; intros s [|fuel'] Hf Hf'; [lia..|]. cbn [items].
  destruct (cut PREFIX_SIZE s) as [[raw|] s1] eqn:Ec; [|done]. apply cut_Some in Ec as [-> Hl]; [|done].
  unfold PREFIX_SIZE in Hl. rewrite length_app in Hf, Hf'.
  destruct (parse_prefix raw) as [|p] eqn:Ep; [done|]. destruct (parse_prefix_lengths _ _ Ep) as [Hh Hb].
  destruct (rejection p).
  - destruct (cut _ s1) as [[t|] s2] eqn:Ec; [|done]. apply cut_Some in Ec as [-> _]; [|lia].
    rewrite length_app in Hf, Hf'. f_equal. apply IH; lia.
  - destruct (cut _ s1) as [[t|] s2] eqn:Ec; [|done]. apply cut_Some in Ec as [-> _]; [|lia].
    destruct (cut _ s2) as [[u|] s3] eqn:Ec; [|done]. apply cut_Some in Ec as [-> _]; [|lia].
    rewrite !length_app in Hf, Hf'. f_equal. apply IH; lia.
Qed.
Lemma cut_length t s : cut (Z.of_nat (length t)) (t ++ s) = (Some t, s).
Proof.
  rewrite cut_app by lia. rewrite Z.sub_diag, cut_nil. cbn [fst snd]. by rewrite app_nil_r.
Qed.

(** The prefix of a frame *)
Definition prefix_of (p : Prefix) : bytes :=
  MAGIC ++ be_encode 1 PROTOCOL_VERSION ++ be_encode 1 (px_kind p) ++ be_encode 4 (px_request_id p)
    ++ be_encode 4 (px_header_len p) ++ be_encode 4 (px_body_len p).
Definition in_range (p : Prefix) : Prop :=
  0 <= px_kind p < 256 ∧ 0 <= px_request_id p < 2 ^ 32 ∧ 0 <= px_header_len p < 2 ^ 32 ∧ 0 <= px_body_len p < 2 ^ 32.
Lemma length_prefix_of p : Z.of_nat (length (prefix_of p)) = PREFIX_SIZE.
Proof. unfold prefix_of. by rewrite !length_app, !length_be_encode. Qed.
Lemma unpack_app n z l : 0 <= z < 256 ^ Z.of_nat n -> unpack n (be_encode n z ++ l) = (z, l).
Proof.
  intros Hz. unfold unpack. rewrite take_app_length', drop_app_length' by (symmetry; apply length_be_encode).
  by rewrite be_decode_encode.
Qed.
Lemma parse_prefix_of p : in_range p -> parse_prefix (prefix_of p) = inr p.
Proof.
  intros (Hk & Hi & Hh & Hb). unfold parse_prefix. rewrite length_prefix_of, Z.eqb_refl. cbn [negb].
  unfold prefix_of. rewrite take_app_length', drop_app_length' by done.
  rewrite unpack_app by done. rewrite unpack_app by (change (256 ^ Z.of_nat 1) with 256; lia).
  rewrite !unpack_app by (change (256 ^ Z.of_nat 4) with (2 ^ 32); lia).
  rewrite <- (app_nil_r (be_encode 4 (px_body_len p))).
  rewrite unpack_app by (change (256 ^ Z.of_nat 4) with (2 ^ 32); lia).
  rewrite bool_decide_eq_false_2 by (intros Hn; by apply Hn). cbn. by destruct p.
Qed.

Section sent.
Context `{Json}.
(** What its sender put on the pipe for an item: a frame [encode] made, or one the
    protocol refuses, of the lengths its prefix announces. *)
Inductive sent_as : Incoming -> bytes -> Prop :=
  | SentFrame kind request_id header body data :
      encode kind request_id header body = Ok data -> kind ∈ KINDS ->
      sent_as (FrameItem {| px_kind := kind; px_request_id := request_id; px_header_len := Z.of_nat (length (dumps header));
                            px_body_len := Z.of_nat (length body) |} (dumps header) body) data
  | SentRefused p reason payload :
      in_range p -> rejection p = Some reason -> Z.of_nat (length payload) = px_header_len p + px_body_len p ->
      sent_as (Rejected p reason) (prefix_of p ++ payload).
Lemma encode_Ok kind request_id header body data :
  encode kind request_id header body = Ok data ->
  let p := {| px_kind := kind; px_request_id := request_id; px_header_len := Z.of_nat (length (dumps header));
              px_body_len := Z.of_nat (length body) |} in
  data = prefix_of p ++ dumps header ++ body ∧ in_range p ∧
  px_header_len p <= MAX_HEADER_BYTES ∧ px_body_len p <= MAX_BODY_BYTES.
Proof.
  unfold encode. destruct (MAX_HEADER_BYTES <? _) eqn:Eh; [done|]. apply Z.ltb_ge in Eh.
  destruct (MAX_BODY_BYTES <? _) eqn:Eb; [done|]. apply Z.ltb_ge in Eb. intros He.
  repeat (apply res_bind_Ok in He as (? & ?%pack_uint_Ok & He); destruct_and?).
  injection He as <-. subst. change (256 ^ Z.of_nat 4) with (2 ^ 32) in *. change (256 ^ Z.of_nat 1) with 256 in *.
  unfold in_range, prefix_of. cbn [px_kind px_request_id px_header_len px_body_len]. by rewrite <- !app_assoc.
Qed.
Lemma frames_in_sent i data s : sent_as i data -> frames_in (data ++ s) = i :: frames_in s.
Proof.
  unfold frames_in. intros Hsent. assert (∃ p payload, data = prefix_of p ++ payload) as (p & payload & E).
  { destruct Hsent as [????? (-> & _)%encode_Ok _|]; eauto. }
  assert (length s < length (data ++ s))%nat as Hl.
  { pose proof (length_prefix_of p) as Hp. rewrite E, !length_app. unfold PREFIX_SIZE in Hp. lia. }
  clear E p payload. remember (length (data ++ s)) as n eqn:En.
  rewrite (items_fuel (S (length s)) n) by lia. clear En. cbn [items].
  destruct Hsent as [kind request_id header body data (-> & Hr & Hh & Hb)%encode_Ok Hk|p reason payload Hr Hj Hp].
  - match type of Hr with in_range ?q => rewrite <- app_assoc, <- (length_prefix_of q), cut_length, (parse_prefix_of q) by done end.
    assert (rejection {| px_kind := kind; px_request_id := request_id; px_header_len := Z.of_nat (length (dumps header));
              px_body_len := Z.of_nat (length body) |} = None) as ->.
    { unfold rejection. cbn [px_kind px_header_len px_body_len] in *.
      rewrite (proj2 (existsb_exists _ _)) by (exists kind; split; [by apply list_elem_of_In|apply Z.eqb_refl]).
      rewrite !(proj2 (Z.ltb_ge _ _)) by lia. done. }
    cbn [px_header_len px_body_len]. rewrite <- app_assoc, !cut_length. done.
  - rewrite <- app_assoc, <- (length_prefix_of p), cut_length, parse_prefix_of, Hj, <- Hp, cut_length by done.
    done.
Qed.

End sent.

(** ** A concrete run *)

(** A JSON of which the runs need nothing but that it prints *)
Fixpoint demo_print (j : json) : bytes :=
  match j with
  | JNull => raw "null"
  | JBool b => if b then raw "true" else raw "false"
  | JNumber n => default [] (utf8 (str_of_Z n))
  | JString s => [Byte.x22] ++ default [] (utf8 s) ++ [Byte.x22]
  | JList l => raw "[" ++ mjoin (map (fun j => demo_print j ++ raw ",") l) ++ raw "]"
  | JObject l =>
      raw "{" ++ mjoin (map (fun e => [Byte.x22] ++ default [] (utf8 e.1) ++ [Byte.x22] ++ raw ":" ++ demo_print e.2 ++ raw ",") l)
        ++ raw "}"
  end.
Definition printing_json (read : bytes -> json_error + json) : Json := {| dumps := demo_print; dumps_spaced := demo_print; loads := read |}.
Definition plain_json : Json := printing_json (fun _ => inl (NotJson [])).
Definition cancel_frame : bytes := ok_of [] (encode (H := plain_json) CANCEL 7 (JObject []) []).
Definition lock_frame : bytes :=
  ok_of [] (encode (H := plain_json) REQUEST 8 (JObject [(str "path", JString (str "/api/lock"))]) (raw "{}")).
Definition unknown_frame : Prefix := {| px_kind := 9; px_request_id := 3; px_header_len := 2; px_body_len := 4 |}.

