(* ===== verification/Sha256.v ===== *)
(** SHA-256 and HMAC-SHA256, the two functions the code takes from Python's
    [hashlib] and [hmac] modules (FIPS 180-4, RFC 2104), on 32-bit words kept as
    [Z] with the wrap-around written out. The known answers at the end are the
    published ones. *)
From Stdlib Require Import ZArith Lia Strings.String Strings.Byte.
From stdpp Require Import base list.
From S2P Require Import Prelude.

Definition w32 (z : Z) : Z := Z.land z 0xFFFFFFFF.
Definition rotr (n z : Z) : Z := w32 (Z.lor (Z.shiftr z n) (Z.shiftl z (32 - n))).

(** The first [n] primes. The standard defines its constants from them: the first
    32 bits of the fractional parts of their cube roots and of their square roots. *)
Definition is_prime (k : nat) : bool := forallb (fun d => negb (k mod d =? 0)%nat) (seq 2 (k - 2)).
Definition primes (n bound : nat) : list Z :=
  map Z.of_nat (take n (List.filter is_prime (seq 2 bound))).
(** The integer cube root of a number below [2 ^ 108], bit by bit *)
Definition cube_root (z : Z) : Z :=
  foldl (fun r k => let r' := r + 2 ^ Z.of_nat k in if r' ^ 3 <=? z then r' else r) 0 (reverse (seq 0 36)).
Definition round_constants : list Z :=
  Eval vm_compute in map (fun p => w32 (cube_root (p * 2 ^ 96))) (primes 64 320).

Record hash_state := HState { ha : Z; hb : Z; hc : Z; hd : Z; he : Z; hf : Z; hg : Z; hh : Z }.

Definition initial_words : list Z := Eval vm_compute in map (fun p => w32 (Z.sqrt (p * 2 ^ 64))) (primes 8 32).
Definition initial_hash : hash_state :=
  let w i := nth i initial_words 0 in
  HState (w 0%nat) (w 1%nat) (w 2%nat) (w 3%nat) (w 4%nat) (w 5%nat) (w 6%nat) (w 7%nat).

(** The message schedule, newest word first; [n] words are still to be made. *)
Fixpoint schedule (n : nat) (w : list Z) : list Z :=
  match n with
  | O => reverse w
  | S n' =>
      let g i := nth i w 0 in
      let s0 := Z.lxor (Z.lxor (rotr 7 (g 14%nat)) (rotr 18 (g 14%nat))) (Z.shiftr (g 14%nat) 3) in
      let s1 := Z.lxor (Z.lxor (rotr 17 (g 1%nat)) (rotr 19 (g 1%nat))) (Z.shiftr (g 1%nat) 10) in
      schedule n' (w32 (g 15%nat + s0 + g 6%nat + s1) :: w)
  end.

Definition round (s : hash_state) (kw : Z * Z) : hash_state :=
  let '(HState a b c d e f g h) := s in
  let '(k, w) := kw in
  let s1 := Z.lxor (Z.lxor (rotr 6 e) (rotr 11 e)) (rotr 25 e) in
  let ch := Z.lxor (Z.land e f) (Z.land (Z.lxor e 0xFFFFFFFF) g) in
  let t1 := h + s1 + ch + k + w in
  let s0 := Z.lxor (Z.lxor (rotr 2 a) (rotr 13 a)) (rotr 22 a) in
  let maj := Z.lxor (Z.lxor (Z.land a b) (Z.land a c)) (Z.land b c) in
  HState (w32 (t1 + s0 + maj)) a b c (w32 (d + t1)) e f g.

Fixpoint chunks (fuel : nat) (n : nat) (l : bytes) : list bytes :=
  match fuel, l with
  | S fuel', _ :: _ => take n l :: chunks fuel' n (drop n l)
  | _, _ => []
  end.

Definition compress (s : hash_state) (block : bytes) : hash_state :=
  let words := map be_decode (chunks 16 4 block) in
  let t := foldl round s (zip round_constants (schedule 48 (reverse words))) in
  HState (w32 (ha s + ha t)) (w32 (hb s + hb t)) (w32 (hc s + hc t)) (w32 (hd s + hd t))
    (w32 (he s + he t)) (w32 (hf s + hf t)) (w32 (hg s + hg t)) (w32 (hh s + hh t)).

Definition sha_padded (m : bytes) : bytes :=
  let len := Z.of_nat (length m) in
  m ++ [byte_of_Z 0x80] ++ replicate (Z.to_nat ((55 - len) `mod` 64)) Byte.x00
    ++ be_encode 8 (8 * len).

(** [hashlib.sha256(m).digest()] *)
Definition sha256 (m : bytes) : bytes :=
  let p := sha_padded m in
  let s := foldl compress initial_hash (chunks (length p) 64 p) in
  concat (map (be_encode 4) [ha s; hb s; hc s; hd s; he s; hf s; hg s; hh s]).

(** [hmac.new(key, m, hashlib.sha256).digest()] *)
Definition hmac_sha256 (key m : bytes) : bytes :=
  let k0 := if (64 <? length key)%nat then sha256 key else key in
  let k := k0 ++ replicate (64 - length k0) Byte.x00 in
  let xor c := map (fun b => byte_of_Z (Z.lxor (Z_of_byte b) c)) k in
  sha256 (xor 0x5c ++ sha256 (xor 0x36 ++ m)).

(** The lower-case hexadecimal digits of a byte string, [bytes.hex()]. *)
Definition hex_digit (z : Z) : N :=
  Z.to_N (if z <? 10 then 48 + z else 87 + z).
Definition hex (l : bytes) : pystr :=
  l ≫= (fun b => [hex_digit (Z_of_byte b `div` 16); hex_digit (Z_of_byte b `mod` 16)]).

Lemma length_sha256 m : length (sha256 m) = 32%nat.
Proof.
  unfold sha256. set (s := foldl _ _ _). clearbody s.
  cbn [map concat]. rewrite !length_app, !length_be_encode. done.
Qed.

Lemma length_hmac_sha256 k m : length (hmac_sha256 k m) = 32%nat.
Proof. apply length_sha256. Qed.

Lemma length_hex l : length (hex l) = (2 * length l)%nat.
Proof. induction l as [|b l IH]; [done|]. simpl. rewrite IH. lia. Qed.

Arguments sha256 : simpl never.
Arguments hmac_sha256 : simpl never.
Arguments hex : simpl never.

(** FIPS 180-4: the digest of ["abc"]. *)
Example sha256_abc :
  hex (sha256 (raw "abc")) =
  str "ba7816bf8f01cfea414140de5dae2223b00361a396177a9cb410ff61f20015ad".
Proof. vm_compute. reflexivity. Qed.

(** RFC 4231, test case 2. *)
Example hmac_sha256_jefe :
  hex (hmac_sha256 (raw "Jefe") (raw "what do ya want for nothing?")) =
  str "5bdcc146bf60754e6a042426089575c75a003f089d2739839dec58b964ec3843".
Proof. vm_compute. reflexivity. Qed.
