(* ===== verification/Crypto.v ===== *)
(** The cryptographic constructions of vault format 2 ([backend/helpers.py]):
    KDF parameters, sealed values and what they are bound to, the keys derived
    from a vault key, and the key material that turns a password into one. The
    primitives of the [cryptography] package are parameters. *)
From Stdlib Require Import ZArith Lia Strings.String Strings.Byte.
From stdpp Require Import base list.
From S2P Require Import Prelude Sha256.

(** ** The [cryptography] package *)

Class Cryptography := {
  (** [Argon2id(salt, length=32, iterations, lanes, memory_cost).derive(password)] *)
  argon2id_derive (salt : bytes) (iterations lanes memory_cost : Z) (password : bytes) : bytes;
  (** [HKDF(SHA256, length=32, salt=None, info).derive(key)] *)
  hkdf_derive (info key : bytes) : bytes;
  (** [AESGCM(key).encrypt(nonce, data, associated_data)]: ciphertext and tag *)
  aesgcm_encrypt (key nonce data associated_data : bytes) : bytes;
  (** [AESGCM(key).decrypt(...)]: [None] is [InvalidTag] *)
  aesgcm_decrypt (key nonce data associated_data : bytes) : option bytes;
}.

(** What its documentation promises. *)
Class CryptographyLaws `{Cryptography} : Prop := {
  argon2id_length salt it la me pw : length (argon2id_derive salt it la me pw) = 32%nat;
  hkdf_length info key : length (hkdf_derive info key) = 32%nat;
  aesgcm_length key nonce data ad :
    length (aesgcm_encrypt key nonce data ad) = (length data + 16)%nat;
  aesgcm_decrypt_encrypt key nonce data ad :
    aesgcm_decrypt key nonce (aesgcm_encrypt key nonce data ad) ad = Some data;
}.

Definition FORMAT_VERSION : Z := 2.
Definition KDF_NAME : pystr := str "argon2id".
Definition KEY_BYTES : nat := 32.
Definition SALT_BYTES : nat := 16.
Definition UID_BYTES : nat := 16.
Definition NONCE_BYTES : nat := 12.
Definition TAG_BYTES : nat := 16.
Definition SEALED_OVERHEAD : nat := 1 + NONCE_BYTES + TAG_BYTES.

Definition SEALED_VERSION : bytes := [Byte.x02].
Definition DOCUMENT_BLOCK : Z := 64.
Definition FORMAT_LABEL : bytes := raw "ciphermoth/v2".
Definition WRAP_LABEL : bytes := raw "ciphermoth/v2/wrapped-vault-key".
Definition PASSWORD_COMMITMENT : bytes := raw "ciphermoth/v2/password-commitment".
Definition KEY_WRAPPING : bytes := raw "ciphermoth/v2/key-wrapping".
Definition RECORD_ENCRYPTION : bytes := raw "ciphermoth/v2/record-encryption".
Definition NAME_INDEX : bytes := raw "ciphermoth/v2/name-index".
Definition KEY_CHECK : bytes := raw "ciphermoth/v2/key-check".

(** ** KDF parameters *)

Record KdfParams := {
  memory_kib : cell;
  iterations : cell;
  lanes : cell;
}.

#[global] Instance KdfParams_eq_dec : EqDecision KdfParams.
Proof. solve_decision. Defined.

Definition MIN_MEMORY_KIB : Z := 19456.
Definition MAX_MEMORY_KIB : Z := 262144.
Definition MAX_ITERATIONS : Z := 10.
Definition MAX_LANES : Z := 8.

Definition unsupported_kdf (p : KdfParams) : exn :=
  UnsupportedKdf (str "Unsupported key derivation parameters (memory " ++ show_cell (memory_kib p)
    ++ str " KiB, " ++ show_cell (iterations p) ++ str " iterations, "
    ++ show_cell (lanes p) ++ str " lanes).").

Definition require_supported (p : KdfParams) : res () :=
  match memory_kib p, iterations p, lanes p with
  | CInt m, CInt i, CInt l =>
      if (MIN_MEMORY_KIB <=? m) && (m <=? MAX_MEMORY_KIB)
         && (1 <=? i) && (i <=? MAX_ITERATIONS)
         && (1 <=? l) && (l <=? MAX_LANES)
         && (8 * l <=? m)
      then Ok () else Err (unsupported_kdf p)
  | _, _, _ => Err (unsupported_kdf p)
  end.

Definition DEFAULT_KDF : KdfParams :=
  {| memory_kib := CInt 65536; iterations := CInt 3; lanes := CInt 4 |}.

Section Crypto.
Context `{Cryptography}.

Definition argon2id (password : pystr) (salt : bytes) (params : KdfParams) : res bytes :=
  _ ← require_supported params;
  pw ← encode_utf8 password;
  Ok (argon2id_derive salt (int_of (iterations params)) (int_of (lanes params))
        (int_of (memory_kib params)) pw).

Definition hkdf (key info : bytes) : bytes := hkdf_derive info key.

(** ** Sealed values *)

(** What a sealed value is bound to: a version, a label and length-prefixed
    parts. A part that is not [bytes] comes from a damaged row. *)
Fixpoint associated_parts (parts : list cell) : res bytes :=
  match parts with
  | [] => Ok []
  | CBlob part :: parts' =>
      len ← pack_uint 4 (Z.of_nat (length part));
      rest ← associated_parts parts';
      Ok (len ++ part ++ rest)
  | _ :: _ => Err DecryptionFailed
  end.

Definition associated_data (parts : list cell) : res bytes :=
  rest ← associated_parts parts;
  Ok (SEALED_VERSION ++ FORMAT_LABEL ++ rest).

(** [_seal]; the nonce is the one [os.urandom] returned. *)
Definition seal (cipher nonce plaintext ad : bytes) : bytes :=
  SEALED_VERSION ++ nonce ++ aesgcm_encrypt cipher nonce plaintext ad.

Definition open (cipher : bytes) (sealed : cell) (ad : bytes) : res bytes :=
  match sealed with
  | CBlob s =>
      if (length s <? SEALED_OVERHEAD)%nat || bool_decide (take 1 s ≠ SEALED_VERSION)
      then Err DecryptionFailed
      else ok_or DecryptionFailed
             (aesgcm_decrypt cipher (take NONCE_BYTES (drop 1 s)) (drop (1 + NONCE_BYTES) s) ad)
  | _ => Err DecryptionFailed
  end.

(** [_padded]: spaces up to the next multiple of the document block. *)
Definition padded (document : bytes) : bytes :=
  document ++ replicate (Z.to_nat ((- Z.of_nat (length document)) `mod` DOCUMENT_BLOCK))
                (byte_of_Z 32).

(** ** Vault keys *)

Record VaultKey := {
  vk_raw : bytes;
  vk_records : bytes;  (** the [AESGCM] key of the records *)
  vk_index : bytes;
  vk_check : bytes;
}.

Definition make_vault_key (raw_key : bytes) : res VaultKey :=
  if (length raw_key =? KEY_BYTES)%nat then
    Ok {| vk_raw := raw_key; vk_records := hkdf raw_key RECORD_ENCRYPTION;
          vk_index := hkdf raw_key NAME_INDEX; vk_check := hkdf raw_key KEY_CHECK |}
  else Err (ValueError (str "A vault key is 32 bytes.")).

(** [VaultKey.matches] *)
Definition key_matches (key : VaultKey) (key_check : cell) : bool :=
  bool_decide (key_check = CBlob (vk_check key)).

Definition NUL : pystr := [0%N].

Definition name_index (key : VaultKey) (name : pystr) : res bytes :=
  n ← encode_utf8 name; Ok (hmac_sha256 (vk_index key) n).

Definition folder_name_index (key : VaultKey) (owner_id : Z) (name : pystr) : res bytes :=
  n ← encode_utf8 (str "folder" ++ NUL ++ str_of_Z owner_id ++ NUL ++ name);
  Ok (hmac_sha256 (vk_index key) n).

Definition group_name_index (key : VaultKey) (name : pystr) : res bytes :=
  n ← encode_utf8 (str "group" ++ NUL ++ name); Ok (hmac_sha256 (vk_index key) n).

Definition entry_draft_key (key : VaultKey) (user_id : Z) : res bytes :=
  info ← encode_utf8 (str "ciphermoth/browser-entry-draft/v1/" ++ str_of_Z user_id);
  Ok (hkdf (vk_raw key) info).

(** The [seal_*] and [open_*] methods, one role each. *)
Definition role (label : string) : cell := CBlob (raw label).

Definition key_seal_entry (key : VaultKey) (uid : cell) (document nonce : bytes) : res bytes :=
  ad ← associated_data [role "entry"; uid];
  Ok (seal (vk_records key) nonce (padded document) ad).

Definition key_open_entry (key : VaultKey) (uid sealed : cell) : res bytes :=
  ad ← associated_data [role "entry"; uid];
  open (vk_records key) sealed ad.

Definition key_seal_folder (key : VaultKey) (uid : cell) (owner_id : Z)
    (document nonce : bytes) : res bytes :=
  o ← int_to_bytes 8 owner_id;
  ad ← associated_data [role "folder"; uid; CBlob o];
  Ok (seal (vk_records key) nonce (padded document) ad).

Definition key_open_folder (key : VaultKey) (uid : cell) (owner_id : Z) (sealed : cell)
    : res bytes :=
  o ← int_to_bytes 8 owner_id;
  ad ← associated_data [role "folder"; uid; CBlob o];
  open (vk_records key) sealed ad.

Definition key_seal_group (key : VaultKey) (uid : cell) (document nonce : bytes) : res bytes :=
  ad ← associated_data [role "group"; uid];
  Ok (seal (vk_records key) nonce (padded document) ad).

Definition key_open_group (key : VaultKey) (uid sealed : cell) : res bytes :=
  ad ← associated_data [role "group"; uid];
  open (vk_records key) sealed ad.

Definition key_seal_attachment_metadata (key : VaultKey) (uid entry_uid : cell)
    (document nonce : bytes) : res bytes :=
  ad ← associated_data [role "attachment-metadata"; uid; entry_uid];
  Ok (seal (vk_records key) nonce (padded document) ad).

Definition key_open_attachment_metadata (key : VaultKey) (uid entry_uid sealed : cell)
    : res bytes :=
  ad ← associated_data [role "attachment-metadata"; uid; entry_uid];
  open (vk_records key) sealed ad.

Definition key_seal_attachment_content (key : VaultKey) (uid entry_uid : cell)
    (content nonce : bytes) : res bytes :=
  ad ← associated_data [role "attachment-content"; uid; entry_uid];
  Ok (seal (vk_records key) nonce content ad).

Definition key_open_attachment_content (key : VaultKey) (uid entry_uid sealed : cell)
    : res bytes :=
  ad ← associated_data [role "attachment-content"; uid; entry_uid];
  open (vk_records key) sealed ad.

(** ** Key material: what a vault or account row stores *)

Record KeyMaterial := {
  km_params : KdfParams;
  km_salt : bytes;
  km_password_check : bytes;
  km_wrapped_key : bytes;
  km_key_check : bytes;
}.

#[global] Instance KeyMaterial_eq_dec : EqDecision KeyMaterial.
Proof. solve_decision. Defined.

Definition wrap_associated_data (params : KdfParams) (salt : bytes) : res bytes :=
  v ← pack_uint 2 FORMAT_VERSION;
  m ← pack_uint 4 (int_of (memory_kib params));
  i ← pack_uint 4 (int_of (iterations params));
  l ← pack_uint 4 (int_of (lanes params));
  Ok (WRAP_LABEL ++ v ++ m ++ i ++ l ++ salt).

Definition seal_key_material (derived raw_key : bytes) (params : KdfParams)
    (salt nonce : bytes) : res KeyMaterial :=
  ad ← wrap_associated_data params salt;
  key ← make_vault_key raw_key;
  Ok {| km_params := params; km_salt := salt;
        km_password_check := hkdf derived PASSWORD_COMMITMENT;
        km_wrapped_key := seal (hkdf derived KEY_WRAPPING) nonce raw_key ad;
        km_key_check := vk_check key |}.

Definition open_key_material (derived : bytes) (material : KeyMaterial)
    : res (option VaultKey) :=
  if bool_decide (hkdf derived PASSWORD_COMMITMENT ≠ km_password_check material)
  then Ok None
  else
    ad ← wrap_associated_data (km_params material) (km_salt material);
    raw_key ← open (hkdf derived KEY_WRAPPING) (CBlob (km_wrapped_key material)) ad;
    if negb (length raw_key =? KEY_BYTES)%nat then Err DecryptionFailed
    else
      key ← make_vault_key raw_key;
      if negb (key_matches key (CBlob (km_key_check material))) then Err DecryptionFailed
      else Ok (Some key).

(** [unlock_key_material]: the KDF, then the material. *)
Definition unlock_key_material (password : pystr) (material : KeyMaterial)
    : res (option VaultKey) :=
  derived ← argon2id password (km_salt material) (km_params material);
  open_key_material derived material.

End Crypto.



(** ** Properties of the constructions *)

Section Facts.
Context `{Cryptography}.

Lemma length_app_inj {A} (a b c d : list A) :
  length a = length c -> a ++ b = c ++ d -> a = c ∧ b = d.
Proof. intros Hl E. by apply app_inj_1. Qed.

Lemma associated_parts_cons p ps ad :
  associated_parts (p :: ps) = Ok ad ->
  ∃ part rest, p = CBlob part ∧ associated_parts ps = Ok rest ∧
    0 ≤ Z.of_nat (length part) < 256 ^ Z.of_nat 4 ∧
    ad = be_encode 4 (Z.of_nat (length part)) ++ part ++ rest.
Proof.
  destruct p as [| | |part]; try done. simpl. intros Hp.
  apply res_bind_Ok in Hp as (len & Hlen & Hp). apply res_bind_Ok in Hp as (rest & Hr & [= <-]).
  apply pack_uint_Ok in Hlen as [-> ?]. eauto 10.
Qed.

Lemma associated_parts_inj ps qs ad :
  associated_parts ps = Ok ad -> associated_parts qs = Ok ad -> ps = qs.
Proof.
  revert qs ad. induction ps as [|p ps IH]; intros [|q qs] ad Hp Hq; [done|..].
  - injection Hp as <-. apply associated_parts_cons in Hq as (? & ? & _ & _ & _ & E).
    apply (f_equal length) in E. rewrite !length_app, length_be_encode in E. simpl in E. lia.
  - injection Hq as <-. apply associated_parts_cons in Hp as (? & ? & _ & _ & _ & E).
    apply (f_equal length) in E. rewrite !length_app, length_be_encode in E. simpl in E. lia.
  - apply associated_parts_cons in Hp as (x & r & -> & Hr & Bx & ->).
    apply associated_parts_cons in Hq as (y & r' & -> & Hr' & By & E).
    apply length_app_inj in E as [E1 E2]; [|by rewrite !length_be_encode].
    apply be_encode_inj in E1; [|done..].
    apply length_app_inj in E2 as [-> ->]; [|lia].
    f_equal. by eapply IH.
Qed.

(** Distinct sequences of parts give distinct associated data: the length
    prefixes leave no two readings of the same bytes. *)
Lemma associated_data_inj ps qs ad :
  associated_data ps = Ok ad -> associated_data qs = Ok ad -> ps = qs.
Proof.
  unfold associated_data. intros Hp Hq.
  apply res_bind_Ok in Hp as (x & Hx & [= <-]). apply res_bind_Ok in Hq as (y & Hy & [= E]).
  subst y. by eapply associated_parts_inj.
Qed.

Lemma open_seal `{!CryptographyLaws} k nonce p ad :
  length nonce = NONCE_BYTES -> open k (CBlob (seal k nonce p ad)) ad = Ok p.
Proof.
  intros Hn. unfold open, seal. set (c := aesgcm_encrypt k nonce p ad).
  change (SEALED_VERSION ++ nonce ++ c) with (Byte.x02 :: nonce ++ c).
  assert ((length (Byte.x02 :: nonce ++ c) <? SEALED_OVERHEAD)%nat = false) as ->.
  { apply Nat.ltb_ge. unfold c. simpl length. rewrite length_app, aesgcm_length, Hn.
    unfold SEALED_OVERHEAD, NONCE_BYTES, TAG_BYTES. lia. }
  change (take 1 (Byte.x02 :: nonce ++ c)) with SEALED_VERSION.
  rewrite bool_decide_eq_false_2 by (intros E; by apply E).
  change (drop 1 (Byte.x02 :: nonce ++ c)) with (nonce ++ c).
  change (drop (1 + NONCE_BYTES) (Byte.x02 :: nonce ++ c)) with (drop NONCE_BYTES (nonce ++ c)).
  rewrite <- Hn, take_app_length, drop_app_length. cbn [orb]. unfold c.
  by rewrite aesgcm_decrypt_encrypt.
Qed.

Lemma open_Ok k sealed ad p :
  open k sealed ad = Ok p ->
  ∃ s, sealed = CBlob s ∧ (SEALED_OVERHEAD ≤ length s)%nat ∧ take 1 s = SEALED_VERSION ∧
    aesgcm_decrypt k (take NONCE_BYTES (drop 1 s)) (drop (1 + NONCE_BYTES) s) ad = Some p.
Proof.
  destruct sealed as [| | |s]; try done. unfold open.
  destruct (_ || _) eqn:E; [done|]. apply orb_false_iff in E as [E1 E2].
  apply Nat.ltb_ge in E1. apply bool_decide_eq_false in E2. apply dec_stable in E2.
  intros Hd. exists s. split_and!; [done..|].
  destruct (aesgcm_decrypt _ _ _ _); by inversion Hd.
Qed.

Lemma make_vault_key_Ok raw_key key :
  make_vault_key raw_key = Ok key -> vk_raw key = raw_key ∧ length raw_key = KEY_BYTES.
Proof.
  unfold make_vault_key. destruct (_ =? _)%nat eqn:E; [|done].
  intros [= <-]. by apply Nat.eqb_eq in E.
Qed.

Lemma key_matches_self key : key_matches key (CBlob (vk_check key)) = true.
Proof. unfold key_matches. by apply bool_decide_eq_true. Qed.

Lemma length_padded d :
  Z.of_nat (length (padded d)) `mod` DOCUMENT_BLOCK = 0 ∧
  (length d <= length (padded d) < length d + 64)%nat.
Proof.
  unfold padded, DOCUMENT_BLOCK. rewrite length_app, length_replicate.
  set (n := Z.of_nat (length d)).
  pose proof (Z.mod_pos_bound (- n) 64 ltac:(lia)) as Hb.
  split; [|lia]. rewrite Nat2Z.inj_add, Z2Nat.id by lia. fold n.
  rewrite Zplus_mod_idemp_r. by rewrite Z.add_opp_diag_r.
Qed.

Lemma require_supported_Ok p :
  require_supported p = Ok () ↔
  ∃ m i l, p = {| memory_kib := CInt m; iterations := CInt i; lanes := CInt l |} ∧
    MIN_MEMORY_KIB ≤ m ≤ MAX_MEMORY_KIB ∧ 1 ≤ i ≤ MAX_ITERATIONS ∧ 1 ≤ l ≤ MAX_LANES ∧ 8 * l ≤ m.
Proof.
  unfold require_supported. destruct p as [[| m | | ] [| i | | ] [| l | | ]]; simpl;
    try (split; [discriminate|]; by intros (? & ? & ? & [= ] & _)).
  destruct (_ && _) eqn:E; split; try discriminate; intros.
  - exists m, i, l. split; [done|]. lia.
  - done.
  - destruct H0 as (? & ? & ? & [= <- <- <-] & ?). exfalso. lia.
Qed.

Lemma wrap_associated_data_Ok p salt :
  require_supported p = Ok () -> ∃ ad, wrap_associated_data p salt = Ok ad.
Proof.
  intros (m & i & l & -> & Hm & Hi & Hl & _)%require_supported_Ok.
  unfold MIN_MEMORY_KIB, MAX_MEMORY_KIB, MAX_ITERATIONS, MAX_LANES in *.
  unfold wrap_associated_data, pack_uint. simpl.
  rewrite !(proj2 (andb_true_iff _ _)) by (change (256 ^ Z.of_nat 4) with 4294967296; lia).
  simpl. eauto.
Qed.

Lemma argon2id_Ok password salt params d :
  argon2id password salt params = Ok d -> require_supported params = Ok ().
Proof. unfold argon2id. intros Hd. res_inv Hd. by destruct x. Qed.

(** Material sealed under a derived key opens again with it, to the same key. *)
Lemma open_seal_key_material `{!CryptographyLaws} derived raw_key params salt nonce material key :
  length nonce = NONCE_BYTES ->
  seal_key_material derived raw_key params salt nonce = Ok material ->
  make_vault_key raw_key = Ok key ->
  open_key_material derived material = Ok (Some key).
Proof.
  intros Hn Hs Hk. unfold seal_key_material in Hs. res_inv Hs.
  rewrite Hk in R0. injection R0 as <-. unfold open_key_material. cbn [km_password_check
    km_params km_salt km_wrapped_key km_key_check].
  rewrite bool_decide_eq_false_2 by (intros E; by apply E).
  rewrite R. cbn [mbind res_bind]. rewrite open_seal by done. cbn.
  pose proof (make_vault_key_Ok _ _ Hk) as [_ Hl]. rewrite Hl.
  change (KEY_BYTES =? KEY_BYTES)%nat with true. cbn. rewrite Hk. cbn.
  by rewrite key_matches_self.
Qed.

(** A different commitment is refused before the wrapped key is touched. *)
Lemma open_key_material_wrong derived material :
  hkdf derived PASSWORD_COMMITMENT ≠ km_password_check material ->
  open_key_material derived material = Ok None.
Proof. intros Hne. unfold open_key_material. by rewrite bool_decide_eq_true_2. Qed.

(** Opening succeeds only with a key whose check is the stored one. *)
Lemma open_key_material_matches derived material key :
  open_key_material derived material = Ok (Some key) ->
  km_key_check material = vk_check key.
Proof.
  unfold open_key_material. destruct (bool_decide _); [done|].
  intros Ho. apply res_bind_Ok in Ho as (ad & _ & Ho).
  apply res_bind_Ok in Ho as (rk & _ & Ho). destruct (negb _); [done|].
  apply res_bind_Ok in Ho as (key' & _ & Ho). destruct (key_matches _ _) eqn:E; [|done].
  injection Ho as ->. unfold key_matches in E. apply bool_decide_eq_true in E. congruence.
Qed.

End Facts.
