(* ===== verification/Platform.v ===== *)
(** The platform the server runs on: randomness and clocks, the encrypted
    documents of [backend/crud/records.py] with the JSON codec of pydantic that
    writes and reads them, and [datetime] values. *)
From Stdlib Require Import ZArith Lia Strings.String Strings.Byte.
From stdpp Require Import base list pretty gmap.
From S2P Require Import Prelude.

(** ** Randomness and clocks

    Each reading has an index: the model keeps how many were made, so two
    readings of a clock, or two random values, may differ. *)

(** The two clocks of [vault_sessions.Instant], in microseconds. *)
Record Instant := { monotonic : Z; wall : Z }.

Class Environment := {
  (** [os.urandom(size)] *)
  urandom (index size : nat) : bytes;
  (** [secrets.token_urlsafe(32)] *)
  token_urlsafe (index : nat) : pystr;
  (** [models.utc_now()], [datetime.now(UTC)]: microseconds since 1970 *)
  utc_clock (index : nat) : Z;
  (** [vault_sessions.system_clock()] *)
  system_clock (index : nat) : Instant;
}.

Class EnvironmentLaws `{Environment} : Prop := {
  urandom_length index size : length (urandom index size) = size;
  utc_clock_mono i j : (i ≤ j)%nat -> utc_clock i ≤ utc_clock j;
}.

(** ** Timestamps *)

(** A TIMESTAMP column as [models.RecordTimestamp] reads it: a time, or a value
    that is none, kept for the integrity checks. *)
Inductive stamp :=
  | Time (t : Z)
  | BadTime.
#[global] Instance stamp_eq_dec : EqDecision stamp.
Proof. solve_decision. Defined.
#[global] Instance stamp_countable : Countable stamp.
Proof.
  refine (inj_countable' (fun s => match s with Time t => Some t | BadTime => None end)
            (fun o => match o with Some t => Time t | None => BadTime end) _).
  by intros [].
Defined.

(** [isinstance(value, datetime)] *)
Definition is_datetime (s : stamp) : bool :=
  match s with Time _ => true | BadTime => false end.

(** [isoformat()] of a UTC time: proleptic Gregorian date, time of day, and
    microseconds when there are some. *)
Definition civil_from_days (days : Z) : Z * Z * Z :=
  let z := days + 719468 in
  let era := z `div` 146097 in
  let doe := z - era * 146097 in
  let yoe := (doe - doe `div` 1460 + doe `div` 36524 - doe `div` 146096) `div` 365 in
  let doy := doe - (365 * yoe + yoe `div` 4 - yoe `div` 100) in
  let mp := (5 * doy + 2) `div` 153 in
  let d := doy - (153 * mp + 2) `div` 5 + 1 in
  let m := if mp <? 10 then mp + 3 else mp - 9 in
  (yoe + era * 400 + (if m <=? 2 then 1 else 0), m, d).

Definition zero_padded (width : nat) (z : Z) : pystr :=
  let s := str_of_Z z in replicate (width - length s) 48%N ++ s.

Definition isoformat (t : Z) : pystr :=
  let '(y, m, d) := civil_from_days (t `div` 86400000000) in
  let us := t `mod` 86400000000 in
  let s := us `div` 1000000 in
  let f := us `mod` 1000000 in
  zero_padded 4 y ++ str "-" ++ zero_padded 2 m ++ str "-" ++ zero_padded 2 d ++ str "T"
    ++ zero_padded 2 (s `div` 3600) ++ str ":" ++ zero_padded 2 ((s `div` 60) `mod` 60)
    ++ str ":" ++ zero_padded 2 (s `mod` 60)
    ++ (if f =? 0 then [] else str "." ++ zero_padded 6 f) ++ str "+00:00".

Example isoformat_example :
  isoformat 1767225600000001 = str "2026-01-01T00:00:00.000001+00:00".
Proof. vm_compute. reflexivity. Qed.

(** ** Encrypted documents *)

Inductive Kind := login | note.
#[global] Instance Kind_eq_dec : EqDecision Kind.
Proof. solve_decision. Defined.
#[global] Instance Kind_countable : Countable Kind.
Proof.
  refine (inj_countable' (fun k => match k with login => true | note => false end)
            (fun b : bool => if b then login else note) _).
  by intros [].
Defined.

Record StoredField := {
  field_label : pystr;
  field_value : pystr;
  field_hidden : bool;
}.
#[global] Instance StoredField_eq_dec : EqDecision StoredField.
Proof. solve_decision. Defined.
#[global] Instance StoredField_countable : Countable StoredField.
Proof.
  refine (inj_countable'
    (fun f => (field_label f, field_value f, field_hidden f))
    (fun '(l, v, h) => {| field_label := l; field_value := v; field_hidden := h |}) _).
  by intros [].
Defined.

Record HistoryItem := {
  history_value : pystr;
  changed_at : pystr;
}.
#[global] Instance HistoryItem_eq_dec : EqDecision HistoryItem.
Proof. solve_decision. Defined.
#[global] Instance HistoryItem_countable : Countable HistoryItem.
Proof.
  refine (inj_countable'
    (fun h => (history_value h, changed_at h))
    (fun '(v, c) => {| history_value := v; changed_at := c |}) _).
  by intros [].
Defined.

Record EntryDocument := {
  doc_name : pystr;
  doc_kind : Kind;
  doc_username : option pystr;
  doc_value : pystr;
  doc_url : option pystr;
  doc_totp_secret : option pystr;
  doc_description : option pystr;
  doc_tags : list pystr;
  doc_custom_fields : list StoredField;
  doc_folder : option pystr;
  doc_favorite : bool;
  doc_history : list HistoryItem;
}.
#[global] Instance EntryDocument_eq_dec : EqDecision EntryDocument.
Proof. solve_decision. Defined.
#[global] Instance EntryDocument_countable : Countable EntryDocument.
Proof.
  refine (inj_countable'
    (fun d => (doc_name d, doc_kind d, doc_username d, doc_value d, doc_url d,
               doc_totp_secret d, doc_description d, doc_tags d, doc_custom_fields d,
               doc_folder d, doc_favorite d, doc_history d))
    (fun '(a, b, c, d, e, f, g, h, i, j, k, l) =>
       {| doc_name := a; doc_kind := b; doc_username := c; doc_value := d; doc_url := e;
          doc_totp_secret := f; doc_description := g; doc_tags := h; doc_custom_fields := i;
          doc_folder := j; doc_favorite := k; doc_history := l |}) _).
  by intros [].
Defined.

(** [document.model_copy(update={"folder": ...})] and [{"favorite": ...}] *)
Definition doc_with_folder (folder : option pystr) (d : EntryDocument) : EntryDocument :=
  {| doc_name := doc_name d; doc_kind := doc_kind d; doc_username := doc_username d;
     doc_value := doc_value d; doc_url := doc_url d; doc_totp_secret := doc_totp_secret d;
     doc_description := doc_description d; doc_tags := doc_tags d;
     doc_custom_fields := doc_custom_fields d; doc_folder := folder;
     doc_favorite := doc_favorite d; doc_history := doc_history d |}.
Definition doc_with_favorite (favorite : bool) (d : EntryDocument) : EntryDocument :=
  {| doc_name := doc_name d; doc_kind := doc_kind d; doc_username := doc_username d;
     doc_value := doc_value d; doc_url := doc_url d; doc_totp_secret := doc_totp_secret d;
     doc_description := doc_description d; doc_tags := doc_tags d;
     doc_custom_fields := doc_custom_fields d; doc_folder := doc_folder d;
     doc_favorite := favorite; doc_history := doc_history d |}.

(** [AttachmentMetadata] and the single name of a [NamedDocument] *)
Record AttachmentMetadata := {
  meta_filename : pystr;
  meta_content_type : option pystr;
}.
#[global] Instance AttachmentMetadata_eq_dec : EqDecision AttachmentMetadata.
Proof. solve_decision. Defined.
#[global] Instance AttachmentMetadata_countable : Countable AttachmentMetadata.
Proof.
  refine (inj_countable'
    (fun m => (meta_filename m, meta_content_type m))
    (fun '(f, c) => {| meta_filename := f; meta_content_type := c |}) _).
  by intros [].
Defined.

Abbreviation NamedDocument := pystr.

(** pydantic's codec: [model_dump_json().encode()], and [json.loads] of the
    decoded bytes followed by the strict [model_validate]. [None] stands for the
    [UnicodeDecodeError], [JSONDecodeError] or [ValidationError] the caller
    treats alike. *)
Class Codec := {
  dump_entry : EntryDocument -> bytes;
  load_entry : bytes -> option EntryDocument;
  dump_named : NamedDocument -> bytes;
  load_named : bytes -> option NamedDocument;
  dump_metadata : AttachmentMetadata -> bytes;
  load_metadata : bytes -> option AttachmentMetadata;
}.

(** A dumped document loads again; white space after a JSON value is ignored,
    which is what the padding of stored documents relies on. *)
Class CodecLaws `{Codec} : Prop := {
  load_dump_entry d n : load_entry (dump_entry d ++ replicate n (byte_of_Z 32)) = Some d;
  load_dump_named d n : load_named (dump_named d ++ replicate n (byte_of_Z 32)) = Some d;
  load_dump_metadata d n :
    load_metadata (dump_metadata d ++ replicate n (byte_of_Z 32)) = Some d;
}.

(** ** Text

    The Unicode database behind [str]'s methods, and the [secret] parameter of an
    [otpauth://] URI as [urllib.parse] reads it. *)
Class Text := {
  casefold : pystr -> pystr;
  lower : pystr -> pystr;
  upper : pystr -> pystr;
  is_lower : N -> bool;
  is_upper : N -> bool;
  is_digit : N -> bool;
  is_alnum : N -> bool;
  is_space : N -> bool;
  (** [parse_qs(urlparse(value).query).get("secret", [""])[0]] *)
  otpauth_secret : pystr -> pystr;
}.

Fixpoint lstrip `{Text} (s : pystr) : pystr :=
  match s with
  | c :: s' => if is_space c then lstrip s' else s
  | [] => []
  end.
(** [str.strip()] *)
Definition strip `{Text} (s : pystr) : pystr := reverse (lstrip (reverse (lstrip s))).

Definition ascii_lower (c : N) : N := if (65 <=? c)%N && (c <=? 90)%N then (c + 32)%N else c.
Definition ascii_upper (c : N) : N := if (97 <=? c)%N && (c <=? 122)%N then (c - 32)%N else c.
Definition in_range (a b c : N) : bool := (a <=? c)%N && (c <=? b)%N.
Definition is_ascii_alnum (c : N) : bool :=
  in_range 48 57 c || in_range 65 90 c || in_range 97 122 c.

(** On ASCII text Unicode's case mappings are the ASCII ones. *)
Class TextLaws `{Text} : Prop := {
  lower_ascii s : Forall (fun c => (c < 128)%N) s -> lower s = map ascii_lower s;
  upper_ascii s : Forall (fun c => (c < 128)%N) s -> upper s = map ascii_upper s;
  is_space_alnum c : is_ascii_alnum c = true -> is_space c = false;
}.
