(* ===== verification/Validators.v ===== *)
(** Input rules ([backend/validators.py] and the field validators of
    [backend/schemas.py]): master passwords, names, two-factor secrets, tags,
    share expiry and the settings' ranges. *)
From Stdlib Require Import ZArith Lia Strings.String Strings.Byte.
From stdpp Require Import base list.
From S2P Require Import Prelude Platform.

Section Validators.
Context `{Text}.

Definition MIN_MASTER_PASSWORD_LENGTH : nat := 12.
Definition MIN_CHARACTER_CLASSES : Z := 2.

Definition character_classes (password : pystr) : Z :=
  Z.b2z (existsb is_lower password) + Z.b2z (existsb is_upper password)
  + Z.b2z (existsb is_digit password) + Z.b2z (existsb (fun c => negb (is_alnum c)) password).

Definition validate_master_password_strength (password : pystr) : res pystr :=
  if (length password <? MIN_MASTER_PASSWORD_LENGTH)%nat then
    Err (ValueError (str "Master password must be at least 12 characters long."))
  else if character_classes password <? MIN_CHARACTER_CLASSES then
    Err (ValueError (str "Master password must mix at least two of: lowercase, uppercase, numbers, symbols."))
  else Ok password.

Definition require_unicode_text (value : pystr) : res pystr :=
  match utf8 value with
  | Some _ => Ok value
  | None => Err (ValueError (str "must be valid Unicode text (no unpaired surrogates)"))
  end.

Definition reject_nul (value : option pystr) : res (option pystr) :=
  match value with
  | Some s => if bool_decide (0%N ∈ s) then Err (ValueError (str "must not contain NUL characters"))
              else Ok value
  | None => Ok None
  end.

Definition addressable_name (value : option pystr) : res (option pystr) :=
  if bool_decide (value = Some (str ".") ∨ value = Some (str "..")) then
    Err (ValueError (str "cannot be '.' or '..'"))
  else if bool_decide (value = Some (str "trash")) then
    Err (ValueError (str "'trash' is reserved, choose another name"))
  else Ok value.

(** ["ABCDEFGHIJKLMNOPQRSTUVWXYZ234567"] *)
Definition is_base32 (c : N) : bool := in_range 65 90 c || in_range 50 55 c.

Fixpoint starts_with (prefix s : pystr) : bool :=
  match prefix, s with
  | [], _ => true
  | c :: prefix', d :: s' => (c =? d)%N && starts_with prefix' s'
  | _ :: _, [] => false
  end.
Fixpoint lstrip_char (c : N) (s : pystr) : pystr :=
  match s with
  | d :: s' => if (d =? c)%N then lstrip_char c s' else s
  | [] => []
  end.
(** [rstrip("=")] *)
Definition rstrip_char (c : N) (s : pystr) : pystr := reverse (lstrip_char c (reverse s)).

Definition normalize_totp_secret (raw : option pystr) : res (option pystr) :=
  match raw with
  | None | Some [] => Ok None
  | Some raw =>
      let value := strip raw in
      let value := if starts_with (str "otpauth://") (lower value) then otpauth_secret value
                   else value in
      let value := rstrip_char 61 (upper (filter (fun c => c ≠ 32%N) value)) in
      if bool_decide (value = []) then Ok None
      else if negb (forallb is_base32 value) then
        Err (ValueError (str "TOTP secret must be valid base32 or an otpauth:// URI."))
      else Ok (Some value)
  end.

Definition normalize_totp_secret_leniently (raw : option pystr) : option pystr :=
  match normalize_totp_secret raw with
  | Ok value => value
  | Err _ => raw
  end.

Definition MAX_TAG_LENGTH : nat := 40.

(** [Password._clean_tags] *)
Definition clean_tags (value : list pystr) : list pystr :=
  foldl (fun cleaned tag =>
    let tag := strip (take MAX_TAG_LENGTH (strip tag)) in
    if bool_decide (tag ≠ []) && bool_decide (tag ∉ cleaned) then cleaned ++ [tag] else cleaned)
    [] value.

(** [ShareUpdatePayload._future_utc]: the time of an aware [datetime], in UTC *)
Definition future_utc (now : Z) (value : option Z) : res (option Z) :=
  match value with
  | None => Ok None
  | Some utc => if utc <=? now then Err (ValueError (str "expires_at must be in the future"))
                else Ok (Some utc)
  end.

(** ** What the rules guarantee *)

Definition base32_text (s : pystr) : Prop := Forall (fun c => is_base32 c = true) s.

Lemma forallb_base32 s : forallb is_base32 s = true ↔ base32_text s.
Proof.
  unfold base32_text. rewrite forallb_forall, Forall_forall. setoid_rewrite list_elem_of_In.
  done.
Qed.
Lemma base32_facts c :
  is_base32 c = true ->
  (c < 128)%N ∧ is_ascii_alnum c = true ∧ c ≠ 32%N ∧ c ≠ 61%N ∧ ascii_upper c = c ∧
  ascii_lower c ≠ 58%N.
Proof.
  unfold is_base32, is_ascii_alnum, ascii_upper, ascii_lower, in_range. intros Hc.
  apply orb_true_iff in Hc. rewrite !andb_true_iff, !N.leb_le in Hc.
  rewrite !orb_true_iff, !andb_true_iff, !N.leb_le.
  destruct ((97 <=? c)%N && (c <=? 122)%N) eqn:E1; rewrite ?andb_true_iff, ?N.leb_le in E1;
  destruct ((65 <=? c)%N && (c <=? 90)%N) eqn:E2; rewrite ?andb_true_iff, ?N.leb_le in E2;
  split_and!; try lia.
Qed.

Lemma map_fixed {A} (f : A -> A) l : Forall (fun x => f x = x) l -> map f l = l.
Proof. induction 1; simpl; congruence. Qed.
Lemma filter_all {A} (P : A -> Prop) `{!forall x, Decision (P x)} l :
  Forall P l -> filter P l = l.
Proof. induction 1; [done|]. rewrite filter_cons_True by done. congruence. Qed.
Lemma starts_with_elem p s c : starts_with p s = true -> c ∈ p -> c ∈ s.
Proof.
  revert s. induction p as [|x p IH]; intros s Hs Hc; [by apply not_elem_of_nil in Hc|].
  destruct s as [|y s]; [done|]. simpl in Hs. apply andb_true_iff in Hs as [E Hs].
  apply N.eqb_eq in E. subst. apply elem_of_cons in Hc as [->|Hc]; [left|right; auto].
Qed.

Lemma lstrip_none `{!TextLaws} s : Forall (fun c => is_ascii_alnum c = true) s -> lstrip s = s.
Proof. destruct 1 as [|c s Hc _]; [done|]. simpl. by rewrite is_space_alnum. Qed.
Lemma lstrip_char_none c s : Forall (fun d => d ≠ c) s -> lstrip_char c s = s.
Proof. destruct 1 as [|d s Hd _]; [done|]. simpl. destruct (d =? c)%N eqn:E; [|done].
  by apply N.eqb_eq in E. Qed.

(** Base32 text is already normal: nothing is stripped, dropped or recased. *)
Lemma normalize_base32 `{!TextLaws} v :
  v ≠ [] -> base32_text v -> normalize_totp_secret (Some v) = Ok (Some v).
Proof.
  intros Hne Hv. pose proof (Forall_impl _ _ _ Hv base32_facts) as Hf.
  rewrite !Forall_and in Hf. destruct Hf as (H1 & H2 & H3 & H4 & H5 & H6).
  assert (strip v = v) as Es.
  { unfold strip. rewrite (lstrip_none v) by done.
    rewrite lstrip_none by (by apply Forall_reverse). apply reverse_involutive. }
  unfold normalize_totp_secret. destruct v as [|c v0] eqn:Ev; [done|]. rewrite <- Ev in *.
  rewrite Es.
  assert (starts_with (str "otpauth://") (lower v) = false) as ->.
  { rewrite lower_ascii by done. destruct (starts_with _ _) eqn:E; [|done].
    apply (starts_with_elem _ _ 58%N) in E; [|by apply (bool_decide_eq_true_1 _); vm_compute].
    apply list_elem_of_fmap in E as (x & Ex & Hx). rewrite Forall_forall in H6. by destruct (H6 x Hx). }
  rewrite filter_all by done. rewrite upper_ascii, map_fixed by done.
  unfold rstrip_char. rewrite lstrip_char_none by (by apply Forall_reverse).
  rewrite reverse_involutive, bool_decide_eq_false_2 by (by rewrite Ev).
  by rewrite (proj2 (forallb_base32 v) Hv).
Qed.

Lemma normalize_totp_Ok raw v :
  normalize_totp_secret raw = Ok (Some v) -> v ≠ [] ∧ base32_text v.
Proof.
  unfold normalize_totp_secret. destruct raw as [[|c s]|]; [done| |done].
  case_bool_decide; [done|]. destruct (forallb _ _) eqn:E; [|done]. simpl.
  intros [= <-]. split; [done|]. by apply forallb_base32.
Qed.

Lemma length_strip s : (length (strip s) ≤ length s)%nat.
Proof.
  assert (forall s, (length (lstrip s) ≤ length s)%nat) as Hl.
  { clear s. induction s as [|c s IH]; simpl; [done|]. destruct (is_space c); simpl; lia. }
  unfold strip. rewrite length_reverse. etrans; [apply Hl|]. rewrite length_reverse. apply Hl.
Qed.

(** The tags kept are distinct, within the length limit, and not empty. *)
Lemma clean_tags_ok tags :
  NoDup (clean_tags tags) ∧
  Forall (fun t => t ≠ [] ∧ (length t ≤ MAX_TAG_LENGTH)%nat) (clean_tags tags).
Proof.
  unfold clean_tags. set (f := fun cleaned tag => _).
  assert (forall acc, NoDup acc ∧ Forall (fun t => t ≠ [] ∧ (length t ≤ MAX_TAG_LENGTH)%nat) acc ->
    NoDup (foldl f acc tags) ∧
    Forall (fun t => t ≠ [] ∧ (length t ≤ MAX_TAG_LENGTH)%nat) (foldl f acc tags)) as Hf;
    [|apply Hf; split; constructor].
  induction tags as [|t tags IH]; intros acc [Hn Ha]; [done|]. simpl. apply IH. unfold f.
  destruct (bool_decide _ && bool_decide _) eqn:E; [|done].
  apply andb_true_iff in E as [E1%bool_decide_eq_true E2%bool_decide_eq_true]. split.
  - apply NoDup_app. split_and!; [done| |apply NoDup_singleton].
    intros x Hx ->%list_elem_of_singleton. done.
  - apply Forall_app. split; [done|]. constructor; [|constructor]. split; [done|].
    etrans; [apply length_strip|]. rewrite length_take. lia.
Qed.
End Validators.
