(* ===== verification/Concrete.v ===== *)
(** Concrete instances of the platform's interfaces. The theorems hold for every
    platform that keeps its documented laws; these instances show that the laws
    can hold together, and let concrete runs of the model be evaluated. They are
    not the algorithms of the [cryptography] package or of pydantic. *)
From Stdlib Require Import ZArith Lia Strings.String Strings.Byte.
From stdpp Require Import base list gmap countable.
From S2P Require Import Prelude Sha256 Crypto Platform.

(** ** Cryptography: a keyed tag over the nonce, the associated data and the text *)

Definition demo_tag (key nonce data ad : bytes) : bytes :=
  take 16 (hmac_sha256 key (nonce ++ be_encode 8 (Z.of_nat (length ad)) ++ ad ++ data)).

Definition demo_decrypt (key nonce data ad : bytes) : option bytes :=
  let p := take (length data - 16) data in
  if bool_decide (drop (length data - 16) data = demo_tag key nonce p ad) then Some p else None.

#[export] Instance demo_cryptography : Cryptography := {|
  argon2id_derive salt it la me pw :=
    hmac_sha256 (salt ++ be_encode 4 it ++ be_encode 4 la ++ be_encode 4 me) pw;
  hkdf_derive info key := hmac_sha256 key info;
  aesgcm_encrypt key nonce data ad := data ++ demo_tag key nonce data ad;
  aesgcm_decrypt := demo_decrypt;
|}.

Lemma length_demo_tag key nonce data ad : length (demo_tag key nonce data ad) = 16%nat.
Proof. unfold demo_tag. rewrite length_take, length_hmac_sha256. done. Qed.

#[export] Instance demo_cryptography_laws : CryptographyLaws.
Proof.
  split; intros; cbn.
  - apply length_hmac_sha256.
  - apply length_hmac_sha256.
  - by rewrite length_app, length_demo_tag.
  - unfold demo_decrypt. rewrite length_app, length_demo_tag, Nat.add_sub.
    rewrite take_app_length, drop_app_length. by rewrite bool_decide_eq_true_2.
Qed.

(** ** Codec: a countable encoding, terminated by a full stop *)

Definition demo_pack (p : positive) : bytes :=
  be_encode (Z.to_nat (Z.log2 (Z.pos p) `div` 8 + 1)) (Z.pos p) ++ raw ".".

Fixpoint strip_spaces (l : bytes) : bytes :=
  match l with
  | b :: l' => if bool_decide (b = byte_of_Z 32) then strip_spaces l' else l
  | [] => []
  end.

Definition demo_unpack (l : bytes) : positive :=
  Z.to_pos (be_decode (reverse (tail (strip_spaces (reverse l))))).

Lemma strip_spaces_replicate n l : strip_spaces (replicate n (byte_of_Z 32) ++ l) = strip_spaces l.
Proof. induction n as [|n IH]; [done|].
  cbn [replicate app strip_spaces]. by rewrite bool_decide_eq_true_2. Qed.

Lemma demo_unpack_pack p n : demo_unpack (demo_pack p ++ replicate n (byte_of_Z 32)) = p.
Proof.
  unfold demo_unpack, demo_pack.
  rewrite !reverse_app, reverse_replicate, strip_spaces_replicate.
  change (reverse (raw ".")) with [Byte.x2e]. cbn [app strip_spaces].
  rewrite bool_decide_eq_false_2 by (by vm_compute).
  cbn [tail]. rewrite reverse_involutive, be_decode_encode; [done|].
  split; [done|]. pose proof (Z.log2_spec (Z.pos p) ltac:(lia)) as [_ Hlt].
  pose proof (Z.log2_nonneg (Z.pos p)) as Hn.
  eapply Z.lt_le_trans; [exact Hlt|].
  rewrite Z2Nat.id by (pose proof (Z.div_pos (Z.log2 (Z.pos p)) 8); lia).
  change 256 with (2 ^ 8). rewrite <- Z.pow_mul_r.
  - apply Z.pow_le_mono_r; [lia|].
    pose proof (Z.div_mod (Z.log2 (Z.pos p)) 8 ltac:(lia)).
    pose proof (Z.mod_pos_bound (Z.log2 (Z.pos p)) 8 ltac:(lia)). lia.
  - lia.
  - pose proof (Z.div_pos (Z.log2 (Z.pos p)) 8). lia.
Qed.

(** Values as sequences of numbers, strings and lists prefixed with their length. *)
Class Tokens (A : Type) := {
  ser : A -> list N;
  de : list N -> option (A * list N);
  de_ser x r : de (ser x ++ r) = Some (x, r);
}.

#[export] Instance tokens_str : Tokens pystr.
Proof.
  refine {| ser s := N.of_nat (length s) :: s;
            de l := match l with
                    | n :: r => Some (take (N.to_nat n) r, drop (N.to_nat n) r)
                    | [] => None
                    end |}.
  intros s r. simpl. by rewrite Nat2N.id, take_app_length, drop_app_length.
Defined.
#[export] Instance tokens_option `{Tokens A} : Tokens (option A).
Proof.
  refine {| ser o := match o with None => [0%N] | Some a => 1%N :: ser a end;
            de l := match l with
                    | [] => None
                    | n :: r => if (n =? 0)%N then Some (None, r)
                                else match de r with Some (a, r') => Some (Some a, r') | None => None end
                    end |}.
  intros [a|] r; simpl; [by rewrite de_ser|done].
Defined.
#[export] Instance tokens_prod `{Tokens A} `{Tokens B} : Tokens (A * B).
Proof.
  refine {| ser p := ser p.1 ++ ser p.2;
            de l := match de l with
                    | Some (a, r) => match de r with Some (b, r') => Some ((a, b), r') | None => None end
                    | None => None
                    end |}.
  intros [a b] r. simpl. by rewrite <- app_assoc, de_ser, de_ser.
Defined.
Fixpoint de_list `{Tokens A} (n : nat) (l : list N) : option (list A * list N) :=
  match n with
  | O => Some ([], l)
  | S n' =>
      match de l with
      | Some (a, r) => match de_list n' r with Some (k, r') => Some (a :: k, r') | None => None end
      | None => None
      end
  end.
#[export] Instance tokens_list `{Tokens A} : Tokens (list A) | 10.
Proof.
  refine {| ser k := N.of_nat (length k) :: flat_map ser k;
            de l := match l with n :: r => de_list (N.to_nat n) r | [] => None end |}.
  intros k r. simpl. rewrite Nat2N.id. induction k as [|a k IH]; [done|].
  simpl. by rewrite <- app_assoc, de_ser, IH.
Defined.
Definition tokens_via {A B} `{Tokens B} (f : A -> B) (g : B -> A) (Hgf : forall a, g (f a) = a)
    : Tokens A.
Proof.
  refine {| ser a := ser (f a);
            de l := match de l with Some (b, r) => Some (g b, r) | None => None end |}.
  intros a r. simpl. by rewrite de_ser, Hgf.
Defined.
#[export] Instance tokens_bool : Tokens bool.
Proof. by refine (tokens_via (fun b : bool => if b then [1%N] else []) (fun l : pystr => bool_decide (l ≠ [])) _); intros []. Defined.
#[export] Instance tokens_kind : Tokens Kind.
Proof.
  refine (tokens_via (fun k => bool_decide (k = login)) (fun b : bool => if b then login else note) _).
  by intros [].
Defined.
#[export] Instance tokens_field : Tokens StoredField.
Proof.
  refine (tokens_via (fun f => (field_label f, field_value f, field_hidden f))
    (fun '(l, v, h) => {| field_label := l; field_value := v; field_hidden := h |}) _).
  by intros [].
Defined.
#[export] Instance tokens_history : Tokens HistoryItem.
Proof.
  refine (tokens_via (fun h => (history_value h, changed_at h))
    (fun '(v, c) => {| history_value := v; changed_at := c |}) _).
  by intros [].
Defined.
#[export] Instance tokens_metadata : Tokens AttachmentMetadata.
Proof.
  refine (tokens_via (fun m => (meta_filename m, meta_content_type m))
    (fun '(f, c) => {| meta_filename := f; meta_content_type := c |}) _).
  by intros [].
Defined.
#[export] Instance tokens_document : Tokens EntryDocument.
Proof.
  refine (tokens_via
    (fun d => (doc_name d, doc_kind d, doc_username d, doc_value d, doc_url d,
               doc_totp_secret d, doc_description d, doc_tags d, doc_custom_fields d,
               doc_folder d, doc_favorite d, doc_history d))
    (fun '(a, b, c, d, e, f, g, h, i, j, k, l) =>
       {| doc_name := a; doc_kind := b; doc_username := c; doc_value := d; doc_url := e;
          doc_totp_secret := f; doc_description := g; doc_tags := h; doc_custom_fields := i;
          doc_folder := j; doc_favorite := k; doc_history := l |}) _).
  by intros [].
Defined.

Definition demo_dump `{Tokens A} (a : A) : bytes := demo_pack (encode (ser a)).
Definition demo_load `{Tokens A} (l : bytes) : option A :=
  match decode (demo_unpack l) with
  | Some ns => fst <$> de (ns : list N)
  | None => None
  end.

Lemma demo_load_dump `{Tokens A} (a : A) n :
  demo_load (demo_dump a ++ replicate n (byte_of_Z 32)) = Some a.
Proof.
  unfold demo_load, demo_dump. rewrite demo_unpack_pack, decode_encode.
  by rewrite <- (app_nil_r (ser a)), de_ser.
Qed.

#[export] Instance demo_codec : Codec := {|
  dump_entry := demo_dump; load_entry := demo_load;
  dump_named := demo_dump; load_named := demo_load;
  dump_metadata := demo_dump; load_metadata := demo_load;
|}.

#[export] Instance demo_codec_laws : CodecLaws.
Proof. split; intros; apply demo_load_dump. Qed.

(** ** Randomness and clocks *)

Definition demo_environment_with (clock : nat -> Z) : Environment := {|
  urandom index size :=
    take size (sha256 (be_encode 8 (Z.of_nat index)) ++ replicate size Byte.x00);
  token_urlsafe index := take 43 (hex (sha256 (be_encode 8 (Z.of_nat index))));
  utc_clock := clock;
  system_clock index :=
    {| monotonic := 1000 * Z.of_nat index; wall := 1000 * Z.of_nat index |};
|}.

(** One millisecond passes between two readings. *)
Definition demo_epoch : Z := 1767225600000000.
#[export] Instance demo_environment : Environment :=
  demo_environment_with (fun index => demo_epoch + 1000 * Z.of_nat index).

#[export] Instance demo_environment_laws : EnvironmentLaws.
Proof.
  split; intros; cbn.
  - rewrite length_take, length_app, length_replicate. lia.
  - lia.
Qed.

(** ** Text: the ASCII part of Unicode *)

#[export] Instance demo_text : Text := {|
  casefold := map ascii_lower;
  lower := map ascii_lower;
  upper := map ascii_upper;
  is_lower := in_range 97 122;
  is_upper := in_range 65 90;
  is_digit := in_range 48 57;
  is_alnum c := in_range 97 122 c || in_range 65 90 c || in_range 48 57 c;
  is_space c := in_range 9 13 c || (c =? 32)%N;
  otpauth_secret s := s;
|}.

#[export] Instance demo_text_laws : TextLaws.
Proof.
  split; try done. intros c Hc. cbn. unfold is_ascii_alnum, in_range in *.
  rewrite !orb_true_iff, !andb_true_iff, !N.leb_le in Hc.
  rewrite orb_false_iff, andb_false_iff, !N.leb_gt, N.eqb_neq. lia.
Qed.
