(* ===== verification/Sessions.v ===== *)
(** Unlocked vault sessions ([backend/vault_sessions.py]): an ordered dictionary
    from token digests to sessions, least recently used first. Instants are kept
    in whole microseconds instead of float seconds, so [remaining_us] is the
    code's [_remaining_ms] times one thousand. *)
From Stdlib Require Import ZArith Lia Strings.String Strings.Byte.
From stdpp Require Import base list sorting sets.
From S2P Require Import Prelude Sha256 Crypto Platform.

Definition EXPIRY_TOLERANCE_MS : Z := 5000.
Definition MAX_LIFETIME_MS : Z := 12 * 60 * 60 * 1000.
Definition DEFAULT_MAX_SESSIONS : nat := 32.

Definition ENDED : pystr :=
  str "Your session expired or was locked. Unlock the vault again.".

(** [Instant.ms_since], in microseconds *)
Definition us_since (later earlier : Instant) : Z :=
  Z.max (monotonic later - monotonic earlier) (wall later - wall earlier).

(** The pattern [[A-Za-z0-9_-]{43}] *)
Definition token_char (c : N) : bool :=
  ((65 <=? c) && (c <=? 90) || (97 <=? c) && (c <=? 122) || (48 <=? c) && (c <=? 57)
   || (c =? 95) || (c =? 45))%N.
Definition token_fullmatch (t : pystr) : bool :=
  (length t =? 43)%nat && forallb token_char t.

Definition digest (token : pystr) : bytes :=
  sha256 (map (fun c => byte_of_Z (Z.of_N c)) token).

Record Session := {
  s_key : VaultKey;
  s_user_id : Z;
  s_credential_fingerprint : option bytes;
  s_created : Instant;
  s_last_used : Instant;
}.

Record SessionInfo := {
  info_idle_timeout_ms : Z;
  info_expires_in_ms : Z;
}.

Record VaultSessions := {
  idle_timeout_ms : Z;
  tolerance_ms : Z;
  max_lifetime_ms : Z;
  max_sessions : nat;
  sessions : list (bytes * Session);
}.

Definition make_vault_sessions (idle tolerance lifetime : Z) (max : nat) : res VaultSessions :=
  if (max <? 1)%nat then Err (ValueError (str "max_sessions must be at least 1"))
  else Ok {| idle_timeout_ms := idle; tolerance_ms := tolerance; max_lifetime_ms := lifetime;
             max_sessions := max; sessions := [] |}.

Definition with_sessions (l : list (bytes * Session)) (v : VaultSessions) : VaultSessions :=
  {| idle_timeout_ms := idle_timeout_ms v; tolerance_ms := tolerance_ms v;
     max_lifetime_ms := max_lifetime_ms v; max_sessions := max_sessions v; sessions := l |}.
Definition with_idle_timeout (ms : Z) (v : VaultSessions) : VaultSessions :=
  {| idle_timeout_ms := ms; tolerance_ms := tolerance_ms v;
     max_lifetime_ms := max_lifetime_ms v; max_sessions := max_sessions v;
     sessions := sessions v |}.
Definition used_at (now : Instant) (s : Session) : Session :=
  {| s_key := s_key s; s_user_id := s_user_id s;
     s_credential_fingerprint := s_credential_fingerprint s;
     s_created := s_created s; s_last_used := now |}.

(** The [OrderedDict]: lookup, deletion, assignment (a key keeps its place). *)
Fixpoint od_get (d : bytes) (l : list (bytes * Session)) : option Session :=
  match l with
  | [] => None
  | (d', s) :: l' => if bool_decide (d' = d) then Some s else od_get d l'
  end.
Definition od_del (d : bytes) (l : list (bytes * Session)) : list (bytes * Session) :=
  filter (fun p => p.1 ≠ d) l.
Fixpoint od_set (d : bytes) (s : Session) (l : list (bytes * Session)) : list (bytes * Session) :=
  match l with
  | [] => [(d, s)]
  | (d', s') :: l' => if bool_decide (d' = d) then (d, s) :: l' else (d', s') :: od_set d s l'
  end.

Definition remaining_us (v : VaultSessions) (s : Session) (now : Instant) (tolerance : bool) : Z :=
  let idle_limit := idle_timeout_ms v + (if tolerance then tolerance_ms v else 0) in
  Z.min (1000 * idle_limit - us_since now (s_last_used s))
        (1000 * max_lifetime_ms v - us_since now (s_created s)).

(** [_drop_expired], with the number of sessions it removed *)
Definition expired (v : VaultSessions) (now : Instant) (p : bytes * Session) : Prop :=
  remaining_us v p.2 now true ≤ 0.
#[global] Instance expired_dec v now p : Decision (expired v now p).
Proof. unfold expired. apply _. Defined.

Definition drop_expired (now : Instant) (v : VaultSessions) : nat * VaultSessions :=
  (length (filter (expired v now) (sessions v)),
   with_sessions (filter (fun p => ¬ expired v now p) (sessions v)) v).

Definition set_idle_timeout (ms : Z) (now : Instant) (v : VaultSessions) : VaultSessions :=
  with_idle_timeout ms (drop_expired now v).2.

(** [while len(self._sessions) >= self._max_sessions: self._sessions.popitem(last=False)] *)
Fixpoint evict (max : nat) (l : list (bytes * Session)) : list (bytes * Session) :=
  match l with
  | [] => []
  | _ :: l' => if (max <=? length l)%nat then evict max l' else l
  end.

(** [open]; [token] is the one [secrets.token_urlsafe] returned. *)
Definition open_session (key : VaultKey) (user_id : Z) (fingerprint : option bytes)
    (token : pystr) (now : Instant) (v : VaultSessions) : VaultSessions :=
  let v1 := (drop_expired now v).2 in
  let kept := evict (max_sessions v1) (sessions v1) in
  with_sessions
    (od_set (digest token)
       {| s_key := key; s_user_id := user_id; s_credential_fingerprint := fingerprint;
          s_created := now; s_last_used := now |} kept) v1.

Definition live (token : option pystr) (now : Instant) : M VaultSessions (bytes * Session) :=
  match token with
  | None => throw (SessionRequired ENDED)
  | Some t =>
      raise_unless (token_fullmatch t) (SessionRequired ENDED);;
      v ← gets (fun v => v);
      match od_get (digest t) (sessions v) with
      | None => throw (SessionRequired ENDED)
      | Some s =>
          if remaining_us v s now true <=? 0 then
            modify (with_sessions (od_del (digest t) (sessions v)));;
            throw (SessionRequired ENDED)
          else mret (digest t, s)
      end
  end.

Definition resolve (token : option pystr) (refresh : bool) (now : Instant)
    : M VaultSessions VaultKey :=
  '(d, s) ← live token now;
  (if refresh then
     modify (fun v => with_sessions (od_del d (sessions v) ++ [(d, used_at now s)]) v)
   else mret ());;
  mret (s_key s).

Definition session_info (token : option pystr) (now : Instant) : M VaultSessions SessionInfo :=
  '(_, s) ← live token now;
  v ← gets (fun v => v);
  mret {| info_idle_timeout_ms := idle_timeout_ms v;
          info_expires_in_ms := Z.max 0 (Z.quot (remaining_us v s now false) 1000) |}.

Definition session_user_id (token : option pystr) (now : Instant) : M VaultSessions Z :=
  '(_, s) ← live token now; mret (s_user_id s).

Definition session_fingerprint (token : option pystr) (now : Instant)
    : M VaultSessions (option bytes) :=
  '(_, s) ← live token now; mret (s_credential_fingerprint s).

Definition user_ids (v : VaultSessions) : list Z :=
  map (fun p => s_user_id p.2) (sessions v).

Definition revoke (token : option pystr) (v : VaultSessions) : bool * VaultSessions :=
  match token with
  | None => (false, v)
  | Some t =>
      if negb (token_fullmatch t) then (false, v)
      else (bool_decide (is_Some (od_get (digest t) (sessions v))),
            with_sessions (od_del (digest t) (sessions v)) v)
  end.

Definition revoke_all (v : VaultSessions) : nat * VaultSessions :=
  (length (sessions v), with_sessions [] v).

Definition revoke_user (user_id : Z) (v : VaultSessions) : nat * VaultSessions :=
  (length (filter (fun p => s_user_id p.2 = user_id) (sessions v)),
   with_sessions (filter (fun p => s_user_id p.2 ≠ user_id) (sessions v)) v).

Definition revoke_user_except (user_id : Z) (token : pystr) (v : VaultSessions)
    : nat * VaultSessions :=
  let matching p := s_user_id p.2 = user_id ∧ p.1 ≠ digest token in
  (length (filter matching (sessions v)),
   with_sessions (filter (fun p => ¬ matching p) (sessions v)) v).

(** ** Runs: the operations as steps, each at the instant it reads *)

Inductive session_op :=
  | OpOpen (key : VaultKey) (user_id : Z) (fingerprint : option bytes) (token : pystr)
  | OpResolve (token : option pystr) (refresh : bool)
  | OpInfo (token : option pystr)
  | OpSetIdleTimeout (ms : Z)
  | OpRevoke (token : option pystr)
  | OpRevokeAll
  | OpRevokeUser (user_id : Z)
  | OpRevokeUserExcept (user_id : Z) (token : pystr)
  | OpDropExpired.

Definition session_step (o : session_op) (now : Instant) (v : VaultSessions) : VaultSessions :=
  match o with
  | OpOpen key uid fp tok => open_session key uid fp tok now v
  | OpResolve tok r => (resolve tok r now v).2
  | OpInfo tok => (session_info tok now v).2
  | OpSetIdleTimeout ms => set_idle_timeout ms now v
  | OpRevoke tok => (revoke tok v).2
  | OpRevokeAll => (revoke_all v).2
  | OpRevokeUser u => (revoke_user u v).2
  | OpRevokeUserExcept u tok => (revoke_user_except u tok v).2
  | OpDropExpired => (drop_expired now v).2
  end.

(** A newly drawn token is not one that is in use. *)
Definition draws_fresh (o : session_op) (v : VaultSessions) : Prop :=
  match o with
  | OpOpen _ _ _ tok => digest tok ∉ (sessions v).*1
  | _ => True
  end.
Definition opens (o : session_op) (d : bytes) : Prop :=
  match o with
  | OpOpen _ _ _ tok => digest tok = d
  | _ => False
  end.

(** [session_run d t v t' v']: operations at non-decreasing monotonic times from
    [t] to [t'] lead from [v] to [v'], none of which opens a session for [d]. *)
Inductive session_run (d : option bytes) : Z -> VaultSessions -> Z -> VaultSessions -> Prop :=
  | run_nil t v : session_run d t v t v
  | run_cons t v o now t' v' :
      t ≤ monotonic now ->
      draws_fresh o v ->
      (forall d', d = Some d' -> ¬ opens o d') ->
      session_run d (monotonic now) (session_step o now v) t' v' ->
      session_run d t v t' v'.

(** The invariant: distinct digests in order of last use, never too many. *)
Definition used_before (p q : bytes * Session) : Prop :=
  monotonic (s_last_used p.2) ≤ monotonic (s_last_used q.2).

Record sessions_ok (t : Z) (v : VaultSessions) : Prop := {
  ok_max : (1 ≤ max_sessions v)%nat;
  ok_count : (length (sessions v) ≤ max_sessions v)%nat;
  ok_nodup : NoDup (sessions v).*1;
  ok_lru : StronglySorted used_before (sessions v);
  ok_past : Forall (fun p => monotonic (s_last_used p.2) ≤ t) (sessions v);
}.

Lemma od_get_None d l : od_get d l = None ↔ d ∉ l.*1.
Proof.
  induction l as [|[d' s] l IH]; simpl; [set_solver|].
  rewrite not_elem_of_cons. case_bool_decide; [naive_solver|].
  rewrite IH. naive_solver.
Qed.

Lemma od_get_elem d s l : od_get d l = Some s -> (d, s) ∈ l.
Proof.
  induction l as [|[d' s'] l IH]; simpl; [done|].
  case_bool_decide; [intros [= ->]; subst; left|]. intros H'. right. auto.
Qed.

Lemma elem_od_get d s l : NoDup l.*1 -> (d, s) ∈ l -> od_get d l = Some s.
Proof.
  induction l as [|[d' s'] l IH]; simpl; [by intros _ ?%not_elem_of_nil|].
  intros [Hn Hd]%NoDup_cons [E|Hin]%elem_of_cons.
  - simplify_eq. by rewrite bool_decide_eq_true_2.
  - rewrite bool_decide_eq_false_2; [auto|]. intros ->. apply Hn.
    by apply (list_elem_of_fmap_2 fst _ (d, s)).
Qed.

Lemma fst_filter_sublist (P : bytes * Session -> Prop) `{!forall x, Decision (P x)} l :
  (filter P l).*1 `sublist_of` l.*1.
Proof.
  induction l as [|p l IH]; [done|]. rewrite filter_cons.
  case_decide; simpl; by constructor.
Qed.

Lemma sublist_fst (l k : list (bytes * Session)) :
  l `sublist_of` k -> l.*1 `sublist_of` k.*1.
Proof. induction 1; simpl; by constructor. Qed.

Lemma Forall_sublist {A} (P : A -> Prop) l k : l `sublist_of` k -> Forall P k -> Forall P l.
Proof.
  rewrite !Forall_forall. intros Hs Hk x Hx. apply Hk. by eapply elem_of_sublist.
Qed.

Lemma StronglySorted_sublist {A} (R : A -> A -> Prop) l k :
  l `sublist_of` k -> StronglySorted R k -> StronglySorted R l.
Proof.
  induction 1 as [|x l k Hs IH|x l k Hs IH]; intros H; [constructor|..];
    inversion_clear H as [|? ? Hk Hx]; [|auto].
  constructor; [auto|]. eapply Forall_sublist; eauto.
Qed.

(** A session store loses sessions but is otherwise unchanged. *)
Lemma sessions_ok_sublist t v l :
  l `sublist_of` sessions v -> sessions_ok t v -> sessions_ok t (with_sessions l v).
Proof.
  intros Hs [H1 H2 H3 H4 H5]. split; simpl; [done|..].
  - apply sublist_length in Hs. lia.
  - eapply sublist_NoDup; [done|]. by apply sublist_fst.
  - by eapply StronglySorted_sublist.
  - by eapply Forall_sublist.
Qed.

Lemma sessions_ok_later t t' v : t ≤ t' -> sessions_ok t v -> sessions_ok t' v.
Proof.
  intros Ht [H1 H2 H3 H4 H5]. split; [done..|].
  eapply Forall_impl; [exact H5|]. simpl. lia.
Qed.

Lemma evict_sublist max l : evict max l `sublist_of` l.
Proof.
  induction l as [|p l IH]; [done|]. cbn [evict]. destruct (_ <=? _)%nat; [|done].
  by apply sublist_cons.
Qed.

Lemma evict_length max l : (1 ≤ max -> length (evict max l) < max)%nat.
Proof.
  intros Hm. induction l as [|p l IH]; [simpl; lia|]. cbn [evict].
  destruct (_ <=? _)%nat eqn:E; [done|]. apply Nat.leb_gt in E. done.
Qed.

(** What is evicted was used no later than anything that is kept. *)
Lemma evict_oldest max l p q :
  StronglySorted used_before l -> NoDup l ->
  p ∈ l -> p ∉ evict max l -> q ∈ evict max l -> used_before p q.
Proof.
  induction l as [|x l IH]; [by intros _ _ ?%not_elem_of_nil|].
  intros Hs Hd Hp Hn Hq. cbn [evict] in *. apply NoDup_cons in Hd as [_ Hd].
  inversion_clear Hs as [|? ? Hl Hx]. destruct (_ <=? _)%nat; [|done].
  apply elem_of_cons in Hp as [->|Hp]; [|by apply IH].
  rewrite Forall_forall in Hx. apply Hx. eapply elem_of_sublist; [exact Hq|].
  apply evict_sublist.
Qed.

Lemma evict_length_full max l :
  (1 ≤ max)%nat -> (max ≤ length l)%nat -> length (evict max l) = (max - 1)%nat.
Proof.
  induction l as [|x l IH]; [simpl; lia|]. intros H1 Hm. cbn [evict].
  destruct (max <=? length (x :: l))%nat eqn:E; [|apply Nat.leb_gt in E; lia].
  destruct (decide (max ≤ length l)%nat) as [Hl|Hl]; [by apply IH|].
  simpl in Hm. assert (evict max l = l) as ->; [|lia].
  destruct l as [|y l]; [done|]. cbn [evict].
  destruct (max <=? length (y :: l))%nat eqn:E2; [apply Nat.leb_le in E2; lia|done].
Qed.

Lemma evict_full max l p :
  (1 ≤ max)%nat -> p ∈ l -> p ∉ evict max l -> length (evict max l) = (max - 1)%nat.
Proof.
  intros Hm Hp Hn. apply evict_length_full; [done|].
  destruct l as [|x l]; [by apply not_elem_of_nil in Hp|]. cbn [evict] in Hn.
  destruct (max <=? length (x :: l))%nat eqn:E; [by apply Nat.leb_le|done].
Qed.

Lemma od_set_snoc d s l : od_get d l = None -> od_set d s l = l ++ [(d, s)].
Proof.
  induction l as [|[d' s'] l IH]; [done|]. simpl. case_bool_decide; [done|].
  intros H'. by rewrite IH.
Qed.

Lemma StronglySorted_snoc {A} (R : A -> A -> Prop) l x :
  StronglySorted R l -> Forall (fun y => R y x) l -> StronglySorted R (l ++ [x]).
Proof.
  induction 1 as [|y l Hl IH Hy]; intros Hx; [by repeat constructor|].
  inversion_clear Hx. simpl. constructor; [auto|].
  apply Forall_app. split; [done|]. by constructor.
Qed.

Lemma od_del_sublist d l : od_del d l `sublist_of` l.
Proof. apply sublist_filter. Qed.

Lemma not_elem_od_del d l : d ∉ (od_del d l).*1.
Proof.
  unfold od_del. intros ([d' s] & -> & Hin)%list_elem_of_fmap.
  by apply list_elem_of_filter in Hin as [? _].
Qed.

Lemma sessions_ok_use t d s l v :
  sessions_ok t v -> l `sublist_of` sessions v -> d ∉ l.*1 ->
  (S (length l) ≤ max_sessions v)%nat -> t ≤ monotonic (s_last_used s) ->
  sessions_ok (monotonic (s_last_used s)) (with_sessions (l ++ [(d, s)]) v).
Proof.
  intros Hok Hl Hd Hlen Ht. pose proof (sessions_ok_sublist _ _ _ Hl Hok) as [H1 H2 H3 H4 H5].
  simpl in *. split; simpl; [done|..].
  - rewrite length_app. simpl. lia.
  - rewrite fmap_app. apply NoDup_app. split_and!; [done| |apply NoDup_singleton].
    intros x Hx ->%list_elem_of_singleton. done.
  - apply StronglySorted_snoc; [done|]. eapply Forall_impl; [exact H5|].
    unfold used_before. simpl. lia.
  - apply Forall_app. split; [|by repeat constructor].
    eapply Forall_impl; [exact H5|]. simpl. lia.
Qed.

Lemma live_cases tok now v :
  (∃ t s, tok = Some t ∧ token_fullmatch t = true ∧ od_get (digest t) (sessions v) = Some s ∧
     0 < remaining_us v s now true ∧ live tok now v = (Ok (digest t, s), v)) ∨
  (∃ l, l `sublist_of` sessions v ∧
     live tok now v = (Err (SessionRequired ENDED), with_sessions l v)).
Proof.
  assert (v = with_sessions (sessions v) v) as Hv by (by destruct v).
  destruct tok as [t|]; [|right; exists (sessions v); split; [done|by rewrite <- Hv]].
  unfold live, raise_unless. destruct (token_fullmatch t) eqn:Em;
    [|right; exists (sessions v); split; [done|by rewrite <- Hv]].
  cbv [mbind M_bind mret M_ret gets]. destruct (od_get (digest t) (sessions v)) as [s|] eqn:Eg;
    [|right; exists (sessions v); split; [done|by rewrite <- Hv]].
  destruct (remaining_us v s now true <=? 0) eqn:Er.
  - right. exists (od_del (digest t) (sessions v)). split; [apply od_del_sublist|].
    done.
  - left. exists t, s. split_and!; try done. lia.
Qed.

Lemma resolve_step_ok t tok refresh now v :
  t ≤ monotonic now -> sessions_ok t v -> sessions_ok (monotonic now) (resolve tok refresh now v).2.
Proof.
  intros Ht Hok. unfold resolve.
  destruct (live_cases tok now v) as [(t0 & s & -> & _ & Hg & _ & Hl)|(l & Hl & E)].
  - rewrite (bind_run_Ok _ _ _ _ _ Hl). destruct refresh; simpl.
    + apply (sessions_ok_use t _ (used_at now s)); try done; [apply od_del_sublist|apply not_elem_od_del|].
      destruct Hok as [? Hc _ _ _]. apply od_get_elem in Hg.
      eapply Nat.le_trans; [|exact Hc].
      apply Nat.le_succ_l. unfold od_del. eapply length_filter_lt; [exact Hg|]. simpl. by intros [].
    + by eapply sessions_ok_later.
  - rewrite (bind_run_Err _ _ _ _ _ E). simpl.
    eapply sessions_ok_later; [done|]. by apply sessions_ok_sublist.
Qed.

Lemma drop_expired_ok t now v : sessions_ok t v -> sessions_ok t (drop_expired now v).2.
Proof. intros Hok. apply sessions_ok_sublist; [apply sublist_filter|done]. Qed.

Lemma open_session_ok t key uid fp tok now v :
  t ≤ monotonic now -> digest tok ∉ (sessions v).*1 -> sessions_ok t v ->
  sessions_ok (monotonic now) (open_session key uid fp tok now v).
Proof.
  intros Ht Hd Hok. unfold open_session. pose proof (drop_expired_ok t now v Hok) as Hok1.
  set (v1 := (drop_expired now v).2) in *. set (kept := evict (max_sessions v1) (sessions v1)).
  assert (kept `sublist_of` sessions v1) as Hs by apply evict_sublist.
  assert (digest tok ∉ kept.*1) as Hf.
  { intros Hin. apply Hd. eapply elem_of_sublist; [exact Hin|]. apply sublist_fst.
    etrans; [exact Hs|]. apply sublist_filter. }
  rewrite od_set_snoc by (by apply od_get_None).
  set (s := {| s_key := key |}). change (monotonic now) with (monotonic (s_last_used s)).
  apply (sessions_ok_use t); try done.
  pose proof (evict_length (max_sessions v1) (sessions v1) (ok_max _ _ Hok1)). fold kept in H. lia.
Qed.

Lemma session_step_ok t o now v :
  t ≤ monotonic now -> draws_fresh o v -> sessions_ok t v ->
  sessions_ok (monotonic now) (session_step o now v).
Proof.
  intros Ht Hf Hok. destruct o; cbn [session_step];
    try (eapply sessions_ok_later; [exact Ht|]; apply sessions_ok_sublist;
         [first [apply sublist_filter | apply sublist_nil_l]|done]).
  - by apply (open_session_ok t).
  - by apply (resolve_step_ok t).
  - unfold session_info.
    destruct (live_cases token now v) as [(t0 & s & -> & _ & _ & _ & E)|(l & Hl & E)].
    + rewrite (bind_run_Ok _ _ _ _ _ E). by eapply sessions_ok_later.
    + rewrite (bind_run_Err _ _ _ _ _ E). eapply sessions_ok_later; [done|].
      by apply sessions_ok_sublist.
  - pose proof (drop_expired_ok t now v Hok) as [H1 H2 H3 H4 H5].
    eapply sessions_ok_later; [exact Ht|]. by split.
  - destruct token as [t0|]; simpl; [|by eapply sessions_ok_later].
    destruct (token_fullmatch t0); simpl; [|by eapply sessions_ok_later].
    eapply sessions_ok_later; [done|]. apply sessions_ok_sublist; [apply od_del_sublist|done].
Qed.

Lemma session_run_ok d t v t' v' :
  session_run d t v t' v' -> sessions_ok t v -> sessions_ok t' v'.
Proof. induction 1; eauto using session_step_ok. Qed.

(** ** Ended sessions *)

(** No session for [d], or one that the monotonic clock alone has expired by [t]. *)
Definition dead (t : Z) (d : bytes) (v : VaultSessions) : Prop :=
  forall s, od_get d (sessions v) = Some s ->
    1000 * (idle_timeout_ms v + tolerance_ms v) ≤ t - monotonic (s_last_used s) ∨
    1000 * max_lifetime_ms v ≤ t - monotonic (s_created s).

Lemma dead_expired t d v s now :
  dead t d v -> od_get d (sessions v) = Some s -> t ≤ monotonic now ->
  remaining_us v s now true ≤ 0.
Proof.
  intros Hd Hg Ht. unfold remaining_us, us_since. destruct (Hd s Hg); lia.
Qed.

Lemma dead_later t t' d v : t ≤ t' -> dead t d v -> dead t' d v.
Proof. intros Ht Hd s Hg. destruct (Hd s Hg); lia. Qed.

Lemma od_get_sublist d s l k :
  NoDup k.*1 -> l `sublist_of` k -> od_get d l = Some s -> od_get d k = Some s.
Proof.
  intros Hk Hs Hg. apply elem_od_get; [done|]. eapply elem_of_sublist; [|done].
  by apply od_get_elem.
Qed.

Lemma dead_sublist t d v l :
  sessions_ok t v -> l `sublist_of` sessions v -> dead t d v -> dead t d (with_sessions l v).
Proof.
  intros Hok Hl Hd s Hg. apply (Hd s). eapply od_get_sublist; [|done|done]. by destruct Hok.
Qed.

Lemma dead_live t d v tok now :
  dead t d v -> t ≤ monotonic now -> digest tok = d ->
  (live (Some tok) now v).1 = Err (SessionRequired ENDED).
Proof.
  intros Hd Ht <-. destruct (live_cases (Some tok) now v) as [(t0 & s & [= <-] & _ & Hg & Hr & _)|(l & _ & ->)];
    [|done]. pose proof (dead_expired _ _ _ _ _ Hd Hg Ht). lia.
Qed.

Lemma od_get_app d l k :
  od_get d (l ++ k) = match od_get d l with Some s => Some s | None => od_get d k end.
Proof. induction l as [|[d' s] l IH]; [done|]. simpl. by case_bool_decide. Qed.

Lemma dead_resolve t d v tok refresh now :
  sessions_ok t v -> dead t d v -> t ≤ monotonic now ->
  dead (monotonic now) d (resolve tok refresh now v).2.
Proof.
  intros Hok Hd Ht. unfold resolve.
  destruct (live_cases tok now v) as [(t0 & s & -> & _ & Hg & Hr & Hl)|(l & Hl & E)].
  - rewrite (bind_run_Ok _ _ _ _ _ Hl). destruct refresh; simpl; [|by eapply dead_later].
    assert (digest t0 ≠ d) as Hne.
    { intros <-. pose proof (dead_expired _ _ _ _ _ Hd Hg Ht). lia. }
    intros s' Hs'. cbn [sessions with_sessions] in Hs'. rewrite od_get_app in Hs'.
    destruct (od_get d (od_del (digest t0) (sessions v))) as [s1|] eqn:E1.
    + injection Hs' as <-. exact (dead_later _ _ _ _ Ht (dead_sublist _ _ _ _ Hok (od_del_sublist _ _) Hd) s1 E1).
    + simpl in Hs'. by rewrite bool_decide_eq_false_2 in Hs'.
  - rewrite (bind_run_Err _ _ _ _ _ E). eapply dead_later; [exact Ht|]. by apply dead_sublist.
Qed.

Lemma dead_step t d o now v :
  t ≤ monotonic now -> sessions_ok t v -> draws_fresh o v -> ¬ opens o d -> dead t d v ->
  dead (monotonic now) d (session_step o now v).
Proof.
  intros Ht Hok Hf Hno Hd. destruct o; cbn [session_step opens draws_fresh] in *;
    try (eapply dead_later; [exact Ht|]; apply dead_sublist;
         [done|first [apply sublist_filter | apply sublist_nil_l]|done]).
  - unfold open_session. set (v1 := (drop_expired now v).2).
    assert (evict (max_sessions v1) (sessions v1) `sublist_of` sessions v) as Hs.
    { etrans; [apply evict_sublist|apply sublist_filter]. }
    rewrite od_set_snoc.
    2:{ apply od_get_None. intros Hin. apply Hf. eapply elem_of_sublist; [exact Hin|].
        by apply sublist_fst. }
    intros s' Hs'. cbn [sessions with_sessions] in Hs'. rewrite od_get_app in Hs'.
    destruct (od_get d (evict _ _)) as [s1|] eqn:E1.
    + injection Hs' as <-. exact (dead_later _ _ _ _ Ht (dead_sublist _ _ _ _ Hok Hs Hd) s1 E1).
    + simpl in Hs'. by rewrite bool_decide_eq_false_2 in Hs'.
  - by eapply dead_resolve.
  - unfold session_info. destruct (live_cases token now v) as [(? & s & -> & _ & _ & _ & E)|(l & Hl & E)].
    + rewrite (bind_run_Ok _ _ _ _ _ E). by eapply dead_later.
    + rewrite (bind_run_Err _ _ _ _ _ E). eapply dead_later; [exact Ht|]. by apply dead_sublist.
  - intros s' Hs'. exfalso. cbn in Hs'.
    apply od_get_elem, list_elem_of_filter in Hs' as [Hne Hin]. apply Hne. unfold expired. simpl.
    apply (dead_expired t d v s' now Hd); [|done]. apply elem_od_get; [by destruct Hok|done].
  - destruct token as [t0|]; simpl; [|by eapply dead_later].
    destruct (token_fullmatch t0); simpl; [|by eapply dead_later].
    eapply dead_later; [exact Ht|]. apply dead_sublist; [done|apply od_del_sublist|done].
Qed.

Lemma dead_run d t v t' v' :
  session_run (Some d) t v t' v' -> sessions_ok t v -> dead t d v -> dead t' d v'.
Proof.
  intros Hr. remember (Some d) as o eqn:Eo.
  induction Hr as [|? ? ? ? ? ? ? ? Hno ? IH]; intros Hok Hd; [done|].
  apply IH; [by eapply session_step_ok|]. eapply dead_step; eauto.
Qed.

Lemma make_vault_sessions_ok idle tol life max v t :
  make_vault_sessions idle tol life max = Ok v -> sessions_ok t v.
Proof.
  unfold make_vault_sessions. destruct (max <? 1)%nat eqn:E; [done|]. intros [= <-].
  apply Nat.ltb_ge in E. split; simpl; [done|lia|constructor..].
Qed.

(** ** What a successful use of a token says *)

Lemma live_Ok t now v d s v' :
  live (Some t) now v = (Ok (d, s), v') ->
  d = digest t ∧ token_fullmatch t = true ∧ od_get (digest t) (sessions v) = Some s ∧
  0 < remaining_us v s now true ∧ v' = v.
Proof.
  intros Hl. destruct (live_cases (Some t) now v) as [(t0 & s0 & [= <-] & ? & ? & ? & E)|(l & _ & E)];
    rewrite Hl in E; by simplify_eq.
Qed.

Lemma od_get_moved d s l : od_get d (od_del d l ++ [(d, s)]) = Some s.
Proof.
  rewrite od_get_app, (proj2 (od_get_None d (od_del d l)) (not_elem_od_del d l)). simpl.
  by rewrite bool_decide_eq_true_2.
Qed.

(** Using a token changes at most when its session was last used. *)
Lemma resolve_Ok t refresh now v key v' :
  resolve (Some t) refresh now v = (Ok key, v') ->
  ∃ s s', token_fullmatch t = true ∧ od_get (digest t) (sessions v) = Some s ∧
    0 < remaining_us v s now true ∧ s_key s = key ∧
    od_get (digest t) (sessions v') = Some s' ∧ s_user_id s' = s_user_id s ∧
    s_credential_fingerprint s' = s_credential_fingerprint s.
Proof.
  unfold resolve. intros Hr. apply bind_Ok in Hr as ([d s] & v1 & Hl & Hr).
  apply live_Ok in Hl as (-> & Hm & Hg & Hrem & ->).
  apply bind_Ok in Hr as ([] & v2 & Hu & Hr). run_inv Hr. exists s. destruct refresh; run_inv Hu.
  - exists (used_at now s). split_and!; try done. simpl. apply od_get_moved.
  - exists s. by split_and!.
Qed.
Lemma session_user_id_Ok t now v i v' :
  session_user_id (Some t) now v = (Ok i, v') ->
  ∃ s, od_get (digest t) (sessions v) = Some s ∧ s_user_id s = i ∧ v' = v.
Proof.
  unfold session_user_id. intros Hr. apply bind_Ok in Hr as ([d s] & v1 & Hl & Hr).
  apply live_Ok in Hl as (-> & _ & Hg & _ & ->). run_inv Hr. eauto.
Qed.
Lemma session_fingerprint_Ok t now v f v' :
  session_fingerprint (Some t) now v = (Ok f, v') ->
  ∃ s, od_get (digest t) (sessions v) = Some s ∧ s_credential_fingerprint s = f ∧ v' = v.
Proof.
  unfold session_fingerprint. intros Hr. apply bind_Ok in Hr as ([d s] & v1 & Hl & Hr).
  apply live_Ok in Hl as (-> & _ & Hg & _ & ->). run_inv Hr. eauto.
Qed.

(** ** The properties of the session store *)

Definition sample_key (b : Byte.byte) : VaultKey :=
  {| vk_raw := [b]; vk_records := [b]; vk_index := [b]; vk_check := [b] |}.
Definition at_ms (ms : Z) : Instant := {| monotonic := 1000 * ms; wall := 1000 * ms |}.
Definition token_a : pystr := str "aaaaaaaaaaaaaaaaaaaaaaaaaaaaaaaaaaaaaaaaaaa".
Definition token_b : pystr := str "bbbbbbbbbbbbbbbbbbbbbbbbbbbbbbbbbbbbbbbbbbb".
Definition one_session_store : VaultSessions :=
  {| idle_timeout_ms := 60000; tolerance_ms := EXPIRY_TOLERANCE_MS;
     max_lifetime_ms := MAX_LIFETIME_MS; max_sessions := 1; sessions := [] |}.

(** C27: Whatever requests arrive, and in whatever order, a session store never
    holds more sessions than its limit, holds each token digest once, and keeps
    its sessions in the order they were last used, which is the order it evicts
    them in. *)
Theorem sessions_bounded idle tolerance lifetime max v0 t t' v :
  make_vault_sessions idle tolerance lifetime max = Ok v0 ->
  session_run None t v0 t' v ->
  (1 ≤ max)%nat ∧ (length (sessions v) ≤ max_sessions v)%nat ∧ NoDup (sessions v).*1 ∧
  StronglySorted used_before (sessions v) ∧
  Forall (fun p => monotonic (s_last_used p.2) ≤ t') (sessions v).
Proof.
  intros Hm Hr. pose proof (make_vault_sessions_ok _ _ _ _ _ t Hm) as H0.
  pose proof (session_run_ok _ _ _ _ _ Hr H0) as [? ? ? ? ?].
  split_and!; try done. destruct H0 as [H1 _ _ _ _].
  unfold make_vault_sessions in Hm. destruct (max <? 1)%nat; by simplify_eq.
Qed.

Lemma sessions_bounded_witness :
  ∃ v, v = session_step (OpOpen (sample_key Byte.x01) 2 None token_b) (at_ms 20)
             (session_step (OpOpen (sample_key Byte.x00) 1 None token_a) (at_ms 10)
                one_session_store) ∧
    map fst (sessions v) = [digest token_b] ∧
    StronglySorted used_before (sessions v).
Proof.
  eexists. split; [reflexivity|]. split; [vm_compute; reflexivity|].
  refine (proj1 (proj2 (proj2 (proj2 (sessions_bounded 60000 EXPIRY_TOLERANCE_MS MAX_LIFETIME_MS 1
    one_session_store 0 20000 _ eq_refl _))))).
  apply (run_cons None 0 _ (OpOpen (sample_key Byte.x00) 1 None token_a) (at_ms 10));
    [vm_compute; discriminate|by apply not_elem_of_nil|done|].
  apply (run_cons None 10000 _ (OpOpen (sample_key Byte.x01) 2 None token_b) (at_ms 20));
    [vm_compute; discriminate| |done|apply run_nil].
  unfold draws_fresh. apply od_get_None. vm_compute. reflexivity.
Defined.



(** Opening a session never ends a session that is still allowed while there
    is room: every session it drops had expired, or the store was full and every
    session it kept, the new one included, was used no earlier than the dropped
    one; and the new token then resolves to its key. *)
Theorem open_session_evicts_lru t v key uid fp token now d s :
  sessions_ok t v -> t ≤ monotonic now -> digest token ∉ (sessions v).*1 ->
  token_fullmatch token = true -> 0 < idle_timeout_ms v + tolerance_ms v -> 0 < max_lifetime_ms v ->
  let v' := open_session key uid fp token now v in
  (resolve (Some token) true now v').1 = Ok key ∧
  ((d, s) ∈ sessions v -> (d, s) ∉ sessions v' ->
     expired v now (d, s) ∨
     (length (sessions v') = max_sessions v ∧
      forall p, p ∈ sessions v' -> used_before (d, s) p)).
Proof.
  intros Hok Ht Hf Hm Hi Hl v'. pose proof (drop_expired_ok t now v Hok) as Hok1.
  set (v1 := (drop_expired now v).2) in *. set (kept := evict (max_sessions v1) (sessions v1)).
  assert (kept `sublist_of` sessions v) as Hs.
  { etrans; [apply evict_sublist|apply sublist_filter]. }
  assert (od_get (digest token) kept = None) as Hk.
  { apply od_get_None. intros Hin. apply Hf. eapply elem_of_sublist; [exact Hin|].
    by apply sublist_fst. }
  set (new := {| s_key := key; s_user_id := uid; s_credential_fingerprint := fp;
                 s_created := now; s_last_used := now |}).
  assert (v' = with_sessions (kept ++ [(digest token, new)]) v1) as Hv.
  { rewrite <- (od_set_snoc _ _ _ Hk). reflexivity. }
  clearbody v'. subst v'. split.
  - unfold resolve, live, raise_unless. rewrite Hm.
    cbv [mbind M_bind mret M_ret gets]. cbn [sessions with_sessions]. rewrite od_get_app, Hk.
    cbn [od_get]. rewrite bool_decide_eq_true_2 by done.
    destruct (_ <=? 0) eqn:E; [|done]. apply Z.leb_le in E. unfold remaining_us, us_since in E.
    cbn [s_last_used s_created new] in E. rewrite !Z.sub_diag in E.
    change (idle_timeout_ms (with_sessions _ v1)) with (idle_timeout_ms v) in E.
    change (tolerance_ms (with_sessions _ v1)) with (tolerance_ms v) in E.
    change (max_lifetime_ms (with_sessions _ v1)) with (max_lifetime_ms v) in E. lia.
  - intros Hin Hn. destruct (decide (expired v now (d, s))) as [|Hx]; [by left|right].
    assert ((d, s) ∈ sessions v1) as Hin1 by (by apply list_elem_of_filter).
    assert ((d, s) ∉ kept) as Hnk by (intros ?; apply Hn; apply elem_of_app; by left).
    split.
    + cbn [sessions with_sessions]. rewrite length_app. simpl.
      pose proof (evict_full _ _ (d, s) (ok_max _ _ Hok1) Hin1 Hnk) as Hlen.
      fold kept in Hlen. apply ok_max in Hok1. change (max_sessions v1) with (max_sessions v) in *. lia.
    + intros p [Hp|Hp]%elem_of_app.
      * eapply evict_oldest; [by destruct Hok1| |exact Hin1|exact Hnk|exact Hp].
        eapply NoDup_fmap_1, Hok1.
      * apply list_elem_of_singleton in Hp as ->. unfold used_before. simpl.
        destruct Hok as [_ _ _ _ Hp]. rewrite Forall_forall in Hp. specialize (Hp _ Hin). simpl in Hp. lia.
Qed.

Lemma open_session_evicts_lru_witness :
  let v := session_step (OpOpen (sample_key Byte.x00) 1 None token_a) (at_ms 0) one_session_store in
  (resolve (Some token_b) true (at_ms 1)
     (open_session (sample_key Byte.x01) 2 None token_b (at_ms 1) v)).1 = Ok (sample_key Byte.x01).
Proof.
  intros v. refine (proj1 (open_session_evicts_lru 0 v (sample_key Byte.x01) 2 None token_b (at_ms 1)
    [] {| s_key := sample_key Byte.x00; s_user_id := 1; s_credential_fingerprint := None;
              s_created := at_ms 0; s_last_used := at_ms 0 |} _ _ _ _ _ _)).
  - apply (open_session_ok 0 _ _ _ token_a (at_ms 0) one_session_store);
      [done|by apply not_elem_of_nil|].
    by apply (make_vault_sessions_ok 60000 EXPIRY_TOLERANCE_MS MAX_LIFETIME_MS 1).
  - vm_compute. discriminate.
  - apply od_get_None. vm_compute. reflexivity.
  - vm_compute. reflexivity.
  - vm_compute. reflexivity.
  - vm_compute. reflexivity.
Defined.
