(* ===== verification/Models.v ===== *)
(** The vault file's tables ([backend/models.py]): a record per table, the
    database they form, and the writes the application makes, each with the
    constraints SQLite enforces on it (NOT NULL and CHECK lengths, uniqueness,
    foreign keys with their ON DELETE actions) and the integrity theorem that
    goes with them. Timestamp columns no modelled code reads are left out. *)
From Stdlib Require Import ZArith Lia Strings.String Strings.Byte.
From stdpp Require Import base list gmap.
From S2P Require Import Prelude Crypto Platform.

Inductive UserRole := admin | member | service.
#[global] Instance UserRole_eq_dec : EqDecision UserRole.
Proof. solve_decision. Defined.

Inductive SharePermission := share_read | share_write.
#[global] Instance SharePermission_eq_dec : EqDecision SharePermission.
Proof. solve_decision. Defined.

Inductive EntryPermission := perm_owner | perm_read | perm_write.
#[global] Instance EntryPermission_eq_dec : EqDecision EntryPermission.
Proof. solve_decision. Defined.

(** The key material columns, the same in [vault] and [users]. *)
Record KeyColumns := {
  kdf : cell;
  kdf_params : KdfParams;
  kdf_salt : cell;
  password_check : cell;
  wrapped_key : cell;
  key_check : cell;
}.
#[global] Instance KeyColumns_eq_dec : EqDecision KeyColumns.
Proof. solve_decision. Defined.

Record VaultModel := {
  format_version : cell;
  folder_links_ready : bool;
  owner_user_id : option Z;
  vault_keys : KeyColumns;
}.
#[global] Instance VaultModel_eq_dec : EqDecision VaultModel.
Proof. solve_decision. Defined.

Record UserModel := {
  username : pystr;
  user_role : UserRole;
  active : bool;
  must_change_password : bool;
  service_owner_id : option Z;
  service_token_hash : option bytes;
  user_keys : KeyColumns;
}.
#[global] Instance UserModel_eq_dec : EqDecision UserModel.
Proof. solve_decision. Defined.

Record EntryModel := {
  entry_uid : cell;
  entry_created : stamp;
  entry_updated : stamp;
  deleted : option stamp;
  entry_owner_id : option Z;
  folder_id : option Z;
  entry_name_index : cell;
  entry_document : cell;
  backed_up : bool;
}.
#[global] Instance EntryModel_eq_dec : EqDecision EntryModel.
Proof. solve_decision. Defined.

(** [EntryAccessModel], [FolderUserAccessModel] and [FolderGroupAccessModel]: the two key columns are the key of the row. *)
Record GrantModel := {
  grant_permission : SharePermission;
  expires_at : option Z;
  granted_by : option Z;
}.
#[global] Instance GrantModel_eq_dec : EqDecision GrantModel.
Proof. solve_decision. Defined.

Record FolderModel := {
  folder_uid : cell;
  folder_owner_id : Z;
  fl_name_index : cell;
  folder_document : cell;
}.
#[global] Instance FolderModel_eq_dec : EqDecision FolderModel.
Proof. solve_decision. Defined.

Record GroupModel := {
  group_uid : cell;
  gr_name_index : cell;
  group_document : cell;
}.
#[global] Instance GroupModel_eq_dec : EqDecision GroupModel.
Proof. solve_decision. Defined.

Record GroupMemberModel := {
  added_by : option Z;
}.
#[global] Instance GroupMemberModel_eq_dec : EqDecision GroupMemberModel.
Proof. solve_decision. Defined.

Record AccessAuditModel := {
  audit_created : Z;
  actor_user_id : option Z;
  action : pystr;
  resource_type : pystr;
  resource_id : Z;
  target_user_id : option Z;
  target_group_id : option Z;
  audit_permission : option SharePermission;
  audit_expires_at : option Z;
  previous_permission : option SharePermission;
  previous_expires_at : option Z;
}.
#[global] Instance AccessAuditModel_eq_dec : EqDecision AccessAuditModel.
Proof. solve_decision. Defined.

Record AttachmentModel := {
  attachment_uid : cell;
  attachment_created : stamp;
  attachment_entry_id : Z;
  size_bytes : cell;
  meta : cell;
  content : cell;
}.
#[global] Instance AttachmentModel_eq_dec : EqDecision AttachmentModel.
Proof. solve_decision. Defined.

Record SettingsModel := {
  inactivity_ms : Z;
  warn_before_ms : Z;
  hidden_ms : Z;
  debounce_ms : Z;
  clipboard_clear_ms : Z;
  update_check_enabled : bool;
}.
#[global] Instance SettingsModel_eq_dec : EqDecision SettingsModel.
Proof. solve_decision. Defined.

(** A table with [AUTOINCREMENT]: its rows and its entry in [sqlite_sequence]. *)
Record Table (A : Type) := {
  t_rows : gmap Z A;
  t_seq : Z;
}.
Arguments t_rows {A} t.
Arguments t_seq {A} t.

Definition next_id {A} (t : Table A) : Z := Z.max (t_seq t) (max_id (t_rows t)) + 1.
Definition t_insert {A} (a : A) (t : Table A) : Table A :=
  {| t_rows := <[next_id t := a]> (t_rows t); t_seq := next_id t |}.
Definition t_put {A} (id : Z) (a : A) (t : Table A) : Table A :=
  {| t_rows := <[id := a]> (t_rows t); t_seq := t_seq t |}.
Definition t_delete {A} (id : Z) (t : Table A) : Table A :=
  {| t_rows := delete id (t_rows t); t_seq := t_seq t |}.
Definition t_filter {A} (P : Z * A -> Prop) `{!forall x, Decision (P x)} (t : Table A) : Table A :=
  {| t_rows := filter P (t_rows t); t_seq := t_seq t |}.
Definition t_map {A} (f : A -> A) (t : Table A) : Table A :=
  {| t_rows := f <$> t_rows t; t_seq := t_seq t |}.
Definition t_empty {A} : Table A := {| t_rows := ∅; t_seq := 0 |}.

Record DB := {
  vault : option VaultModel;
  users : Table UserModel;
  entries : Table EntryModel;
  entry_access : gmap (Z * Z) GrantModel;
  folders : Table FolderModel;
  groups : Table GroupModel;
  group_members : gmap (Z * Z) GroupMemberModel;
  folder_user_access : gmap (Z * Z) GrantModel;
  folder_group_access : gmap (Z * Z) GrantModel;
  access_audit : Table AccessAuditModel;
  attachments : Table AttachmentModel;
  settings : option SettingsModel;
}.

Definition with_vault (f : option VaultModel -> option VaultModel) (d : DB) : DB :=
  {| vault := f (vault d); users := users d; entries := entries d;
     entry_access := entry_access d; folders := folders d; groups := groups d;
     group_members := group_members d; folder_user_access := folder_user_access d; folder_group_access := folder_group_access d;
     access_audit := access_audit d; attachments := attachments d; settings := settings d |}.
Definition with_users (f : Table UserModel -> Table UserModel) (d : DB) : DB :=
  {| vault := vault d; users := f (users d); entries := entries d;
     entry_access := entry_access d; folders := folders d; groups := groups d;
     group_members := group_members d; folder_user_access := folder_user_access d; folder_group_access := folder_group_access d;
     access_audit := access_audit d; attachments := attachments d; settings := settings d |}.
Definition with_entries (f : Table EntryModel -> Table EntryModel) (d : DB) : DB :=
  {| vault := vault d; users := users d; entries := f (entries d);
     entry_access := entry_access d; folders := folders d; groups := groups d;
     group_members := group_members d; folder_user_access := folder_user_access d; folder_group_access := folder_group_access d;
     access_audit := access_audit d; attachments := attachments d; settings := settings d |}.
Definition with_entry_access (f : gmap (Z * Z) GrantModel -> gmap (Z * Z) GrantModel) (d : DB) : DB :=
  {| vault := vault d; users := users d; entries := entries d;
     entry_access := f (entry_access d); folders := folders d; groups := groups d;
     group_members := group_members d; folder_user_access := folder_user_access d; folder_group_access := folder_group_access d;
     access_audit := access_audit d; attachments := attachments d; settings := settings d |}.
Definition with_folders (f : Table FolderModel -> Table FolderModel) (d : DB) : DB :=
  {| vault := vault d; users := users d; entries := entries d;
     entry_access := entry_access d; folders := f (folders d); groups := groups d;
     group_members := group_members d; folder_user_access := folder_user_access d; folder_group_access := folder_group_access d;
     access_audit := access_audit d; attachments := attachments d; settings := settings d |}.
Definition with_groups (f : Table GroupModel -> Table GroupModel) (d : DB) : DB :=
  {| vault := vault d; users := users d; entries := entries d;
     entry_access := entry_access d; folders := folders d; groups := f (groups d);
     group_members := group_members d; folder_user_access := folder_user_access d; folder_group_access := folder_group_access d;
     access_audit := access_audit d; attachments := attachments d; settings := settings d |}.
Definition with_group_members (f : gmap (Z * Z) GroupMemberModel -> gmap (Z * Z) GroupMemberModel) (d : DB) : DB :=
  {| vault := vault d; users := users d; entries := entries d;
     entry_access := entry_access d; folders := folders d; groups := groups d;
     group_members := f (group_members d); folder_user_access := folder_user_access d; folder_group_access := folder_group_access d;
     access_audit := access_audit d; attachments := attachments d; settings := settings d |}.
Definition with_folder_user_access (f : gmap (Z * Z) GrantModel -> gmap (Z * Z) GrantModel) (d : DB) : DB :=
  {| vault := vault d; users := users d; entries := entries d;
     entry_access := entry_access d; folders := folders d; groups := groups d;
     group_members := group_members d; folder_user_access := f (folder_user_access d); folder_group_access := folder_group_access d;
     access_audit := access_audit d; attachments := attachments d; settings := settings d |}.
Definition with_folder_group_access (f : gmap (Z * Z) GrantModel -> gmap (Z * Z) GrantModel) (d : DB) : DB :=
  {| vault := vault d; users := users d; entries := entries d;
     entry_access := entry_access d; folders := folders d; groups := groups d;
     group_members := group_members d; folder_user_access := folder_user_access d; folder_group_access := f (folder_group_access d);
     access_audit := access_audit d; attachments := attachments d; settings := settings d |}.
Definition with_access_audit (f : Table AccessAuditModel -> Table AccessAuditModel) (d : DB) : DB :=
  {| vault := vault d; users := users d; entries := entries d;
     entry_access := entry_access d; folders := folders d; groups := groups d;
     group_members := group_members d; folder_user_access := folder_user_access d; folder_group_access := folder_group_access d;
     access_audit := f (access_audit d); attachments := attachments d; settings := settings d |}.
Definition with_attachments (f : Table AttachmentModel -> Table AttachmentModel) (d : DB) : DB :=
  {| vault := vault d; users := users d; entries := entries d;
     entry_access := entry_access d; folders := folders d; groups := groups d;
     group_members := group_members d; folder_user_access := folder_user_access d; folder_group_access := folder_group_access d;
     access_audit := access_audit d; attachments := f (attachments d); settings := settings d |}.
Definition with_settings (f : option SettingsModel -> option SettingsModel) (d : DB) : DB :=
  {| vault := vault d; users := users d; entries := entries d;
     entry_access := entry_access d; folders := folders d; groups := groups d;
     group_members := group_members d; folder_user_access := folder_user_access d; folder_group_access := folder_group_access d;
     access_audit := access_audit d; attachments := attachments d; settings := f (settings d) |}.

Definition empty_db : DB :=
  {| vault := None; users := t_empty; entries := t_empty; entry_access := ∅;
     folders := t_empty; groups := t_empty; group_members := ∅;
     folder_user_access := ∅; folder_group_access := ∅; access_audit := t_empty;
     attachments := t_empty; settings := None |}.

(** Attribute assignments on a row. *)
Definition set_folder_links_ready (x : bool) (m : VaultModel) : VaultModel :=
  {| format_version := format_version m; folder_links_ready := x; owner_user_id :=
     owner_user_id m; vault_keys := vault_keys m |}.
Definition set_owner_user_id (x : option Z) (m : VaultModel) : VaultModel :=
  {| format_version := format_version m; folder_links_ready := folder_links_ready m;
     owner_user_id := x; vault_keys := vault_keys m |}.
Definition set_user_role (x : UserRole) (m : UserModel) : UserModel :=
  {| username := username m; user_role := x; active := active m; must_change_password :=
     must_change_password m; service_owner_id := service_owner_id m; service_token_hash :=
     service_token_hash m; user_keys := user_keys m |}.
Definition set_active (x : bool) (m : UserModel) : UserModel :=
  {| username := username m; user_role := user_role m; active := x; must_change_password :=
     must_change_password m; service_owner_id := service_owner_id m; service_token_hash :=
     service_token_hash m; user_keys := user_keys m |}.
Definition set_must_change_password (x : bool) (m : UserModel) : UserModel :=
  {| username := username m; user_role := user_role m; active := active m;
     must_change_password := x; service_owner_id := service_owner_id m; service_token_hash :=
     service_token_hash m; user_keys := user_keys m |}.
Definition set_service_token_hash (x : option bytes) (m : UserModel) : UserModel :=
  {| username := username m; user_role := user_role m; active := active m;
     must_change_password := must_change_password m; service_owner_id := service_owner_id m;
     service_token_hash := x; user_keys := user_keys m |}.
Definition set_user_keys (x : KeyColumns) (m : UserModel) : UserModel :=
  {| username := username m; user_role := user_role m; active := active m;
     must_change_password := must_change_password m; service_owner_id := service_owner_id m;
     service_token_hash := service_token_hash m; user_keys := x |}.
Definition set_entry_created (x : stamp) (m : EntryModel) : EntryModel :=
  {| entry_uid := entry_uid m; entry_created := x; entry_updated := entry_updated m; deleted
     := deleted m; entry_owner_id := entry_owner_id m; folder_id := folder_id m;
     entry_name_index := entry_name_index m; entry_document := entry_document m; backed_up :=
     backed_up m |}.
Definition set_entry_updated (x : stamp) (m : EntryModel) : EntryModel :=
  {| entry_uid := entry_uid m; entry_created := entry_created m; entry_updated := x; deleted
     := deleted m; entry_owner_id := entry_owner_id m; folder_id := folder_id m;
     entry_name_index := entry_name_index m; entry_document := entry_document m; backed_up :=
     backed_up m |}.
Definition set_deleted (x : option stamp) (m : EntryModel) : EntryModel :=
  {| entry_uid := entry_uid m; entry_created := entry_created m; entry_updated :=
     entry_updated m; deleted := x; entry_owner_id := entry_owner_id m; folder_id :=
     folder_id m; entry_name_index := entry_name_index m; entry_document := entry_document m;
     backed_up := backed_up m |}.
Definition set_entry_owner_id (x : option Z) (m : EntryModel) : EntryModel :=
  {| entry_uid := entry_uid m; entry_created := entry_created m; entry_updated :=
     entry_updated m; deleted := deleted m; entry_owner_id := x; folder_id := folder_id m;
     entry_name_index := entry_name_index m; entry_document := entry_document m; backed_up :=
     backed_up m |}.
Definition set_folder_id (x : option Z) (m : EntryModel) : EntryModel :=
  {| entry_uid := entry_uid m; entry_created := entry_created m; entry_updated :=
     entry_updated m; deleted := deleted m; entry_owner_id := entry_owner_id m; folder_id :=
     x; entry_name_index := entry_name_index m; entry_document := entry_document m; backed_up
     := backed_up m |}.
Definition set_backed_up (x : bool) (m : EntryModel) : EntryModel :=
  {| entry_uid := entry_uid m; entry_created := entry_created m; entry_updated :=
     entry_updated m; deleted := deleted m; entry_owner_id := entry_owner_id m; folder_id :=
     folder_id m; entry_name_index := entry_name_index m; entry_document := entry_document m;
     backed_up := x |}.
Definition set_granted_by (x : option Z) (m : GrantModel) : GrantModel :=
  {| grant_permission := grant_permission m; expires_at := expires_at m; granted_by := x |}.
Definition set_added_by (x : option Z) (m : GroupMemberModel) : GroupMemberModel :=
  {| added_by := x |}.
Definition set_actor_user_id (x : option Z) (m : AccessAuditModel) : AccessAuditModel :=
  {| audit_created := audit_created m; actor_user_id := x; action := action m; resource_type
     := resource_type m; resource_id := resource_id m; target_user_id := target_user_id m;
     target_group_id := target_group_id m; audit_permission := audit_permission m;
     audit_expires_at := audit_expires_at m; previous_permission := previous_permission m;
     previous_expires_at := previous_expires_at m |}.
Definition set_target_user_id (x : option Z) (m : AccessAuditModel) : AccessAuditModel :=
  {| audit_created := audit_created m; actor_user_id := actor_user_id m; action := action m;
     resource_type := resource_type m; resource_id := resource_id m; target_user_id := x;
     target_group_id := target_group_id m; audit_permission := audit_permission m;
     audit_expires_at := audit_expires_at m; previous_permission := previous_permission m;
     previous_expires_at := previous_expires_at m |}.
Definition set_target_group_id (x : option Z) (m : AccessAuditModel) : AccessAuditModel :=
  {| audit_created := audit_created m; actor_user_id := actor_user_id m; action := action m;
     resource_type := resource_type m; resource_id := resource_id m; target_user_id :=
     target_user_id m; target_group_id := x; audit_permission := audit_permission m;
     audit_expires_at := audit_expires_at m; previous_permission := previous_permission m;
     previous_expires_at := previous_expires_at m |}.
Definition set_attachment_created (x : stamp) (m : AttachmentModel) : AttachmentModel :=
  {| attachment_uid := attachment_uid m; attachment_created := x; attachment_entry_id :=
     attachment_entry_id m; size_bytes := size_bytes m; meta := meta m; content := content m |}.

(** ** Writes and their constraints *)

Definition exists_user (d : DB) (id : Z) : bool := bool_decide (is_Some (t_rows (users d) !! id)).
Definition exists_entry (d : DB) (id : Z) : bool := bool_decide (is_Some (t_rows (entries d) !! id)).
Definition exists_folder (d : DB) (id : Z) : bool := bool_decide (is_Some (t_rows (folders d) !! id)).
Definition exists_group (d : DB) (id : Z) : bool := bool_decide (is_Some (t_rows (groups d) !! id)).
(** A nullable foreign key *)
Definition fk (test : Z -> bool) (o : option Z) : bool :=
  match o with Some id => test id | None => true end.
(** No row, the one with key [except] apart, satisfies [P]. *)
Definition no_other {A} (except : option Z) (P : A -> bool) (t : Table A) : bool :=
  bool_decide (map_Forall (fun k a => Some k = except ∨ P a = false) (t_rows t)).

Definition constraint (b : bool) : res () := if b then Ok () else Err IntegrityError.

Definition keys_check (k : KeyColumns) : bool :=
  is_blob_of_length 16 (kdf_salt k) && is_blob_of_length 32 (password_check k)
  && is_blob (wrapped_key k) && is_blob_of_length 32 (key_check k).

Definition user_constraints (self : option Z) (u : UserModel) (d : DB) : res () :=
  _ ← constraint (keys_check (user_keys u));
  _ ← constraint (no_other self (fun v => bool_decide (username v = username u)) (users d));
  _ ← constraint (match service_token_hash u with
      | None => true
      | Some h => no_other self (fun v => bool_decide (service_token_hash v = Some h)) (users d)
      end);
  constraint (fk (exists_user d) (service_owner_id u)).

Definition insert_user (u : UserModel) (d : DB) : res (Z * DB) :=
  _ ← user_constraints None u d;
  Ok (next_id (users d), with_users (t_insert u) d).
Definition update_user_row (id : Z) (u : UserModel) (d : DB) : res (() * DB) :=
  _ ← user_constraints (Some id) u d;
  Ok ((), with_users (t_put id u) d).

(** [entries]: unique [uid], unique [name_index] among the rows not deleted *)
Definition entry_constraints (self : option Z) (e : EntryModel) (d : DB) : res () :=
  _ ← constraint (is_blob_of_length 16 (entry_uid e) && is_blob_of_length 32 (entry_name_index e)
         && is_blob (entry_document e));
  _ ← constraint (no_other self (fun x => bool_decide (entry_uid x = entry_uid e)) (entries d));
  _ ← constraint (match deleted e with
      | Some _ => true
      | None => no_other self (fun x => bool_decide (deleted x = None) &&
                                        bool_decide (entry_name_index x = entry_name_index e))
                  (entries d)
      end);
  _ ← constraint (fk (exists_user d) (entry_owner_id e));
  constraint (fk (exists_folder d) (folder_id e)).

Definition insert_entry (e : EntryModel) (d : DB) : res (Z * DB) :=
  _ ← entry_constraints None e d;
  Ok (next_id (entries d), with_entries (t_insert e) d).
Definition update_entry_row (id : Z) (e : EntryModel) (d : DB) : res (() * DB) :=
  _ ← entry_constraints (Some id) e d;
  Ok ((), with_entries (t_put id e) d).
Definition delete_entry_row (id : Z) (d : DB) : DB :=
  with_entries (t_delete id)
    (with_entry_access (filter (fun p => p.1.1 ≠ id))
      (with_attachments (t_filter (fun p => attachment_entry_id p.2 ≠ id)) d)).

Definition folder_constraints (self : option Z) (f : FolderModel) (d : DB) : res () :=
  _ ← constraint (is_blob_of_length 16 (folder_uid f) && is_blob_of_length 32 (fl_name_index f)
         && is_blob (folder_document f));
  _ ← constraint (no_other self (fun x => bool_decide (folder_uid x = folder_uid f)) (folders d));
  _ ← constraint (no_other self (fun x => bool_decide (folder_owner_id x = folder_owner_id f) &&
                                      bool_decide (fl_name_index x = fl_name_index f)) (folders d));
  constraint (exists_user d (folder_owner_id f)).

Definition insert_folder (f : FolderModel) (d : DB) : res (Z * DB) :=
  _ ← folder_constraints None f d;
  Ok (next_id (folders d), with_folders (t_insert f) d).
Definition update_folder_row (id : Z) (f : FolderModel) (d : DB) : res (() * DB) :=
  _ ← folder_constraints (Some id) f d;
  Ok ((), with_folders (t_put id f) d).
Definition delete_folder_row (id : Z) (d : DB) : res (() * DB) :=
  _ ← constraint (no_other None (fun e => bool_decide (folder_id e = Some id)) (entries d));
  Ok ((), with_folders (t_delete id)
            (with_folder_user_access (filter (fun p => p.1.1 ≠ id))
              (with_folder_group_access (filter (fun p => p.1.1 ≠ id)) d))).

Definition group_constraints (self : option Z) (g : GroupModel) (d : DB) : res () :=
  _ ← constraint (is_blob_of_length 16 (group_uid g) && is_blob_of_length 32 (gr_name_index g)
         && is_blob (group_document g));
  _ ← constraint (no_other self (fun x => bool_decide (group_uid x = group_uid g)) (groups d));
  constraint (no_other self (fun x => bool_decide (gr_name_index x = gr_name_index g)) (groups d)).

Definition insert_group (g : GroupModel) (d : DB) : res (Z * DB) :=
  _ ← group_constraints None g d;
  Ok (next_id (groups d), with_groups (t_insert g) d).
Definition update_group_row (id : Z) (g : GroupModel) (d : DB) : res (() * DB) :=
  _ ← group_constraints (Some id) g d;
  Ok ((), with_groups (t_put id g) d).
(** [ON DELETE SET NULL] of one reference *)
Definition unset (id : Z) (o : option Z) : option Z :=
  if bool_decide (o = Some id) then None else o.
Definition delete_group_row (id : Z) (d : DB) : DB :=
  with_groups (t_delete id)
    (with_group_members (filter (fun p => p.1.1 ≠ id))
      (with_folder_group_access (filter (fun p => p.1.2 ≠ id))
        (with_access_audit (t_map (fun a => set_target_group_id (unset id (target_group_id a)) a)) d))).

Definition put_member (group_id user_id : Z) (m : GroupMemberModel) (d : DB) : res (() * DB) :=
  _ ← constraint (exists_group d group_id && exists_user d user_id
         && fk (exists_user d) (added_by m));
  Ok ((), with_group_members (insert (group_id, user_id) m) d).
Definition delete_member (group_id user_id : Z) (d : DB) : DB :=
  with_group_members (delete (group_id, user_id)) d.

Definition put_entry_access (entry_id user_id : Z) (g : GrantModel) (d : DB) : res (() * DB) :=
  _ ← constraint (exists_entry d entry_id && exists_user d user_id
         && fk (exists_user d) (granted_by g));
  Ok ((), with_entry_access (insert (entry_id, user_id) g) d).
Definition delete_entry_access (entry_id user_id : Z) (d : DB) : DB :=
  with_entry_access (delete (entry_id, user_id)) d.
Definition put_folder_user_access (folder_id user_id : Z) (g : GrantModel) (d : DB)
    : res (() * DB) :=
  _ ← constraint (exists_folder d folder_id && exists_user d user_id
         && fk (exists_user d) (granted_by g));
  Ok ((), with_folder_user_access (insert (folder_id, user_id) g) d).
Definition delete_folder_user_access (folder_id user_id : Z) (d : DB) : DB :=
  with_folder_user_access (delete (folder_id, user_id)) d.
Definition put_folder_group_access (folder_id group_id : Z) (g : GrantModel) (d : DB)
    : res (() * DB) :=
  _ ← constraint (exists_folder d folder_id && exists_group d group_id
         && fk (exists_user d) (granted_by g));
  Ok ((), with_folder_group_access (insert (folder_id, group_id) g) d).
Definition delete_folder_group_access (folder_id group_id : Z) (d : DB) : DB :=
  with_folder_group_access (delete (folder_id, group_id)) d.

Definition insert_audit (a : AccessAuditModel) (d : DB) : res (Z * DB) :=
  _ ← constraint (fk (exists_user d) (actor_user_id a) && fk (exists_user d) (target_user_id a)
         && fk (exists_group d) (target_group_id a));
  Ok (next_id (access_audit d), with_access_audit (t_insert a) d).

Definition insert_attachment (a : AttachmentModel) (d : DB) : res (Z * DB) :=
  _ ← constraint (is_blob_of_length 16 (attachment_uid a) && (0 <? int_of (size_bytes a))
         && is_blob (meta a) && is_blob (content a));
  _ ← constraint (no_other None (fun x => bool_decide (attachment_uid x = attachment_uid a))
         (attachments d));
  _ ← constraint (exists_entry d (attachment_entry_id a));
  Ok (next_id (attachments d), with_attachments (t_insert a) d).
Definition delete_attachment_row (id : Z) (d : DB) : DB :=
  with_attachments (t_delete id) d.

Definition put_vault (v : VaultModel) (d : DB) : res (() * DB) :=
  _ ← constraint (keys_check (vault_keys v));
  _ ← constraint (fk (exists_user d) (owner_user_id v));
  Ok ((), with_vault (fun _ => Some v) d).
(** [vault.folder_links_ready = True] *)
Definition mark_folder_links_ready (d : DB) : DB :=
  with_vault (fmap (set_folder_links_ready true)) d.
Definition put_settings (s : SettingsModel) (d : DB) : DB :=
  with_settings (fun _ => Some s) d.

(** [ON DELETE RESTRICT] of entries, folders, the vault row and service accounts;
    [CASCADE] of grants and memberships; [SET NULL] of who granted, added or did. *)
Definition user_referenced (id : Z) (d : DB) : bool :=
  negb (no_other None (fun e => bool_decide (entry_owner_id e = Some id)) (entries d))
  || negb (no_other None (fun f => bool_decide (folder_owner_id f = id)) (folders d))
  || negb (no_other None (fun u => bool_decide (service_owner_id u = Some id)) (users d))
  || bool_decide ((vault d ≫= owner_user_id) = Some id).
Definition forget_granter (id : Z) (m : gmap (Z * Z) GrantModel) : gmap (Z * Z) GrantModel :=
  (fun g => set_granted_by (unset id (granted_by g)) g) <$> m.
(** [DELETE FROM entry_access WHERE user_id = ...] *)
Definition delete_user_grants (id : Z) (d : DB) : DB :=
  with_entry_access (filter (fun p => p.1.2 ≠ id)) d.
Definition delete_user_row (id : Z) (d : DB) : res (() * DB) :=
  _ ← constraint (negb (user_referenced id d));
  Ok ((), with_users (t_delete id)
    (with_entry_access (fun m => forget_granter id (filter (fun p => p.1.2 ≠ id) m))
    (with_folder_user_access (fun m => forget_granter id (filter (fun p => p.1.2 ≠ id) m))
    (with_folder_group_access (forget_granter id)
    (with_group_members (fun m =>
       (fun x => set_added_by (unset id (added_by x)) x) <$> filter (fun p => p.1.2 ≠ id) m)
    (with_access_audit (t_map (fun a => set_actor_user_id (unset id (actor_user_id a))
       (set_target_user_id (unset id (target_user_id a)) a))) d)))))).

(** ** Integrity: what the constraints keep *)

Record db_ok (d : DB) : Prop := {
  ok_vault_owner v u :
    vault d = Some v -> owner_user_id v = Some u -> is_Some (t_rows (users d) !! u);
  ok_service_owner i x u :
    t_rows (users d) !! i = Some x -> service_owner_id x = Some u -> is_Some (t_rows (users d) !! u);
  ok_entry_owner i e u :
    t_rows (entries d) !! i = Some e -> entry_owner_id e = Some u -> is_Some (t_rows (users d) !! u);
  ok_entry_folder i e f :
    t_rows (entries d) !! i = Some e -> folder_id e = Some f -> is_Some (t_rows (folders d) !! f);
  ok_folder_owner i f :
    t_rows (folders d) !! i = Some f -> is_Some (t_rows (users d) !! folder_owner_id f);
  ok_entry_access_l i u g :
    entry_access d !! (i, u) = Some g -> is_Some (t_rows (entries d) !! i);
  ok_entry_access_r i u g :
    entry_access d !! (i, u) = Some g -> is_Some (t_rows (users d) !! u);
  ok_folder_user_l i u g :
    folder_user_access d !! (i, u) = Some g -> is_Some (t_rows (folders d) !! i);
  ok_folder_user_r i u g :
    folder_user_access d !! (i, u) = Some g -> is_Some (t_rows (users d) !! u);
  ok_folder_group_l i k g :
    folder_group_access d !! (i, k) = Some g -> is_Some (t_rows (folders d) !! i);
  ok_folder_group_r i k g :
    folder_group_access d !! (i, k) = Some g -> is_Some (t_rows (groups d) !! k);
  ok_member_l k u m :
    group_members d !! (k, u) = Some m -> is_Some (t_rows (groups d) !! k);
  ok_member_r k u m :
    group_members d !! (k, u) = Some m -> is_Some (t_rows (users d) !! u);
  ok_attachment i a :
    t_rows (attachments d) !! i = Some a -> is_Some (t_rows (entries d) !! attachment_entry_id a);
  ok_active_name i j x y :
    t_rows (entries d) !! i = Some x -> t_rows (entries d) !! j = Some y ->
    deleted x = None -> deleted y = None -> entry_name_index x = entry_name_index y -> i = j;
  ok_folder_name i j x y :
    t_rows (folders d) !! i = Some x -> t_rows (folders d) !! j = Some y ->
    folder_owner_id x = folder_owner_id y -> fl_name_index x = fl_name_index y -> i = j;
  ok_group_name i j x y :
    t_rows (groups d) !! i = Some x -> t_rows (groups d) !! j = Some y ->
    gr_name_index x = gr_name_index y -> i = j;
  ok_username i j x y :
    t_rows (users d) !! i = Some x -> t_rows (users d) !! j = Some y ->
    username x = username y -> i = j;
}.

Lemma constraint_Ok b u : constraint b = Ok u ↔ b = true.
Proof. destruct b, u; simpl; intuition congruence. Qed.

Lemma next_id_fresh {A} (t : Table A) : t_rows t !! next_id t = None.
Proof. apply max_id_fresh. unfold next_id. lia. Qed.

Lemma fk_true {A} (m : gmap Z A) (o : option Z) :
  fk (fun id => bool_decide (is_Some (m !! id))) o = true ->
  forall id, o = Some id -> is_Some (m !! id).
Proof. intros Hf id ->. by apply bool_decide_eq_true in Hf. Qed.

Lemma no_other_true {A} self (P : A -> bool) (t : Table A) :
  no_other self P t = true ↔
  forall k a, t_rows t !! k = Some a -> P a = true -> Some k = self.
Proof.
  unfold no_other. rewrite bool_decide_eq_true. split.
  - intros Hf k a Hk Hp. destruct (Hf k a Hk) as [|E]; [done|congruence].
  - intros Hf k a Hk. destruct (P a) eqn:E; [left|by right]. eauto.
Qed.

Lemma is_Some_insert {K} `{Countable K} {A} (m : gmap K A) i x k :
  is_Some (m !! k) -> is_Some (<[i := x]> m !! k).
Proof. intros Hm. rewrite lookup_insert_is_Some'. by right. Qed.
Lemma is_Some_insert_eq {K} `{Countable K} {A} (m : gmap K A) i x :
  is_Some (<[i := x]> m !! i).
Proof. rewrite lookup_insert_eq. eauto. Qed.
Lemma is_Some_delete {K} `{Countable K} {A} (m : gmap K A) i k :
  k ≠ i -> is_Some (m !! k) -> is_Some (delete i m !! k).
Proof. intros Hne Hm. by rewrite lookup_delete_ne. Qed.

#[local] Hint Resolve is_Some_insert is_Some_insert_eq is_Some_delete : core.

(** Splits a hypothesis about an updated table into what was there before. *)
Ltac table_cases :=
  repeat match goal with
  | H : <[_ := _]> _ !! _ = Some _ |- _ => apply lookup_insert_Some in H as [[? ?]|[? ?]]
  | H : delete _ _ !! _ = Some _ |- _ => apply lookup_delete_Some in H as [? ?]
  | H : filter _ _ !! _ = Some _ |- _ => apply map_lookup_filter_Some in H as [? ?]
  | H : (_ <$> _) !! _ = Some _ |- _ => apply lookup_fmap_Some in H as (? & ? & ?)
  | H : constraint _ = Ok _ |- _ => apply constraint_Ok in H
  | H : _ && _ = true |- _ => apply andb_true_iff in H as [? ?]
  | H : bool_decide _ = true |- _ => apply bool_decide_eq_true in H
  end; simplify_eq/=.

(** Closes a clause of the invariant that the write leaves true. *)
Ltac db_cbn :=
  cbn [vault users entries entry_access folders groups group_members folder_user_access
    folder_group_access access_audit attachments settings with_vault with_users with_entries
    with_entry_access with_folders with_groups with_group_members with_folder_user_access
    with_folder_group_access with_access_audit with_attachments with_settings
    t_rows t_insert t_put t_delete t_filter t_map fst snd] in *.
Ltac ok_keep Hok := intros; db_cbn; table_cases; try solve [destruct Hok; eauto 6].

Lemma no_other_eq {A} self (P : A -> bool) (t : Table A) k a :
  no_other self P t = true -> t_rows t !! k = Some a -> P a = true -> Some k = self.
Proof. rewrite no_other_true. eauto. Qed.

Ltac ok_unique :=
  match goal with
  | Hn : no_other _ _ ?t = true, Hk : t_rows ?t !! _ = Some _ |- _ =>
      let E := fresh in
      pose proof (no_other_eq _ _ _ _ _ Hn Hk) as E; cbn beta in E;
      rewrite ?andb_true_iff, ?bool_decide_eq_true in E;
      naive_solver congruence
  end.
Ltac ok_refs :=
  repeat match goal with
  | H : fk _ _ = true |- _ => pose proof (fk_true _ _ H); clear H
  | H : exists_user _ _ = true |- _ => apply bool_decide_eq_true in H
  | H : exists_entry _ _ = true |- _ => apply bool_decide_eq_true in H
  | H : exists_folder _ _ = true |- _ => apply bool_decide_eq_true in H
  | H : exists_group _ _ = true |- _ => apply bool_decide_eq_true in H
  end.
Ltac ok_start Hi Hok :=
  intros Hi Hok; res_inv Hi; table_cases; ok_refs.
Ltac ok_tac Hok :=
  split; ok_keep Hok;
  try solve [ ok_unique
            | apply is_Some_delete; [intros ->; ok_unique | destruct Hok; eauto] ].

Section Writes.
Implicit Types d : DB.

Lemma insert_user_ok u d id d' : insert_user u d = Ok (id, d') -> db_ok d -> db_ok d'.
Proof. unfold insert_user, user_constraints. ok_start Hi Hok. ok_tac Hok. Qed.
Lemma update_user_row_ok id u d x d' : update_user_row id u d = Ok (x, d') -> db_ok d -> db_ok d'.
Proof. unfold update_user_row, user_constraints. ok_start Hi Hok. ok_tac Hok. Qed.
Lemma insert_entry_ok e d id d' : insert_entry e d = Ok (id, d') -> db_ok d -> db_ok d'.
Proof. unfold insert_entry, entry_constraints. ok_start Hi Hok.
  destruct (deleted e) eqn:Ed; ok_tac Hok. Qed.
Lemma update_entry_row_ok id e d x d' : update_entry_row id e d = Ok (x, d') -> db_ok d -> db_ok d'.
Proof. unfold update_entry_row, entry_constraints. ok_start Hi Hok.
  destruct (deleted e) eqn:Ed; ok_tac Hok. Qed.
Lemma delete_entry_row_ok id d : db_ok d -> db_ok (delete_entry_row id d).
Proof. intros Hok. unfold delete_entry_row. ok_tac Hok. Qed.
Lemma insert_folder_ok f d id d' : insert_folder f d = Ok (id, d') -> db_ok d -> db_ok d'.
Proof. unfold insert_folder, folder_constraints. ok_start Hi Hok. ok_tac Hok. Qed.
Lemma update_folder_row_ok id f d x d' :
  update_folder_row id f d = Ok (x, d') -> db_ok d -> db_ok d'.
Proof. unfold update_folder_row, folder_constraints. ok_start Hi Hok. ok_tac Hok. Qed.
Lemma delete_folder_row_ok id d x d' : delete_folder_row id d = Ok (x, d') -> db_ok d -> db_ok d'.
Proof. unfold delete_folder_row. ok_start Hi Hok. ok_tac Hok. Qed.
Lemma insert_group_ok g d id d' : insert_group g d = Ok (id, d') -> db_ok d -> db_ok d'.
Proof. unfold insert_group, group_constraints. ok_start Hi Hok. ok_tac Hok. Qed.
Lemma update_group_row_ok id g d x d' : update_group_row id g d = Ok (x, d') -> db_ok d -> db_ok d'.
Proof. unfold update_group_row, group_constraints. ok_start Hi Hok. ok_tac Hok. Qed.
Lemma delete_group_row_ok id d : db_ok d -> db_ok (delete_group_row id d).
Proof. intros Hok. unfold delete_group_row. ok_tac Hok. Qed.
Lemma put_member_ok g u m d x d' : put_member g u m d = Ok (x, d') -> db_ok d -> db_ok d'.
Proof. unfold put_member. ok_start Hi Hok. ok_tac Hok. Qed.
Lemma delete_member_ok g u d : db_ok d -> db_ok (delete_member g u d).
Proof. intros Hok. unfold delete_member. ok_tac Hok. Qed.
Lemma put_entry_access_ok e u g d x d' :
  put_entry_access e u g d = Ok (x, d') -> db_ok d -> db_ok d'.
Proof. unfold put_entry_access. ok_start Hi Hok. ok_tac Hok. Qed.
Lemma delete_entry_access_ok e u d : db_ok d -> db_ok (delete_entry_access e u d).
Proof. intros Hok. unfold delete_entry_access. ok_tac Hok. Qed.
Lemma put_folder_user_access_ok f u g d x d' :
  put_folder_user_access f u g d = Ok (x, d') -> db_ok d -> db_ok d'.
Proof. unfold put_folder_user_access. ok_start Hi Hok. ok_tac Hok. Qed.
Lemma delete_folder_user_access_ok f u d : db_ok d -> db_ok (delete_folder_user_access f u d).
Proof. intros Hok. unfold delete_folder_user_access. ok_tac Hok. Qed.
Lemma put_folder_group_access_ok f k g d x d' :
  put_folder_group_access f k g d = Ok (x, d') -> db_ok d -> db_ok d'.
Proof. unfold put_folder_group_access. ok_start Hi Hok. ok_tac Hok. Qed.
Lemma delete_folder_group_access_ok f k d : db_ok d -> db_ok (delete_folder_group_access f k d).
Proof. intros Hok. unfold delete_folder_group_access. ok_tac Hok. Qed.
Lemma insert_audit_ok a d id d' : insert_audit a d = Ok (id, d') -> db_ok d -> db_ok d'.
Proof. unfold insert_audit. ok_start Hi Hok. ok_tac Hok. Qed.
Lemma insert_attachment_ok a d id d' : insert_attachment a d = Ok (id, d') -> db_ok d -> db_ok d'.
Proof. unfold insert_attachment. ok_start Hi Hok. ok_tac Hok. Qed.
Lemma delete_attachment_row_ok id d : db_ok d -> db_ok (delete_attachment_row id d).
Proof. intros Hok. unfold delete_attachment_row. ok_tac Hok. Qed.
Lemma put_vault_ok v d x d' : put_vault v d = Ok (x, d') -> db_ok d -> db_ok d'.
Proof. unfold put_vault. ok_start Hi Hok. ok_tac Hok. Qed.
Lemma mark_folder_links_ready_ok d : db_ok d -> db_ok (mark_folder_links_ready d).
Proof.
  intros Hok. unfold mark_folder_links_ready. split; ok_keep Hok.
  apply fmap_Some in H as (v' & Hv & ->). by eapply (ok_vault_owner _ Hok).
Qed.
Lemma put_settings_ok s d : db_ok d -> db_ok (put_settings s d).
Proof. intros Hok. unfold put_settings. ok_tac Hok. Qed.

Lemma delete_user_grants_ok id d : db_ok d -> db_ok (delete_user_grants id d).
Proof. intros Hok. unfold delete_user_grants. ok_tac Hok. Qed.

Lemma user_referenced_false id d :
  user_referenced id d = false ->
  (forall i e, t_rows (entries d) !! i = Some e -> entry_owner_id e ≠ Some id) ∧
  (forall i f, t_rows (folders d) !! i = Some f -> folder_owner_id f ≠ id) ∧
  (forall i u, t_rows (users d) !! i = Some u -> service_owner_id u ≠ Some id) ∧
  (forall v, vault d = Some v -> owner_user_id v ≠ Some id).
Proof.
  unfold user_referenced. rewrite !orb_false_iff, !negb_false_iff, bool_decide_eq_false, !no_other_true.
  intros (((He & Hf) & Hu) & Hv). split_and!.
  - intros i e Hi E. by specialize (He i e Hi (bool_decide_eq_true_2 _ E)).
  - intros i f Hi E. by specialize (Hf i f Hi (bool_decide_eq_true_2 _ E)).
  - intros i u Hi E. by specialize (Hu i u Hi (bool_decide_eq_true_2 _ E)).
  - intros v E. by rewrite E in Hv.
Qed.

Lemma delete_user_row_ok id d x d' : delete_user_row id d = Ok (x, d') -> db_ok d -> db_ok d'.
Proof.
  unfold delete_user_row. ok_start Hi Hok.
  match goal with H : negb _ = true |- _ => apply negb_true_iff, user_referenced_false in H end.
  destruct_and!. unfold forget_granter.
  split; ok_keep Hok; try (apply is_Some_delete; [|solve [destruct Hok; eauto]]; naive_solver).
Qed.
End Writes.

Lemma empty_db_ok : db_ok empty_db.
Proof. split; intros; db_cbn; unfold empty_db in *; simpl in *; simplify_map_eq. Qed.
