(* ===== verification/BackupFormat.v ===== *)
(** The frames of a backup file, backup format 2 ([backend/backup_format.py] and
    the backup half of [backend/helpers.py]): sizes, the header, the frame
    encryption, and the writer and reader that lay frames out in order. *)
From Stdlib Require Import ZArith Lia Strings.String Strings.Byte.
From stdpp Require Import base list.
From S2P Require Import Prelude Sha256 Crypto.

Definition MAX_FRAMES : Z := 1000001.
Definition MAX_MANIFEST_BYTES : Z := 64 * 1024 * 1024.
Definition MAX_ATTACHMENT_FRAME_BYTES : Z := 10 * 1024 * 1024.
Definition MAX_ENTRY_FRAME_BYTES : Z := 64 * 1024 * 1024.
Definition MAX_ENTRY_STORED_BYTES : Z := MAX_ENTRY_FRAME_BYTES - 32 * 1024.
Definition FRAME_OVERHEAD : Z := 4 + Z.of_nat NONCE_BYTES + Z.of_nat TAG_BYTES.
Definition MAX_BACKUP_BYTES : Z := 1024 * 1024 * 1024.

(** ** The header ([BackupHeader] of [helpers.py]) *)

Definition BACKUP_COMMITMENT : bytes := raw "ciphermoth/backup/v2/key-commitment".
Definition BACKUP_FRAMES : bytes := raw "ciphermoth/backup/v2/frame-encryption".
Definition BACKUP_MAGIC : bytes := raw "CMBACKUP".
Definition BACKUP_VERSION : Z := 2.
Definition BACKUP_KDF_ARGON2ID : Z := 1.
(** [struct.Struct(">8sHBIII16sI32s").size] *)
Definition BACKUP_HEADER_BYTES : nat := 75.
Definition INCOMPLETE : exn := BackupFormatError (str "The backup file is incomplete or damaged.").

Record BackupHeader := {
  bh_params : KdfParams;
  bh_salt : bytes;
  bh_frames : Z;
  bh_commitment : bytes;
}.

Definition pack_header (h : BackupHeader) : res bytes :=
  version ← pack_uint 2 BACKUP_VERSION;
  kdf ← pack_uint 1 BACKUP_KDF_ARGON2ID;
  memory ← pack_uint 4 (int_of (memory_kib (bh_params h)));
  iters ← pack_uint 4 (int_of (iterations (bh_params h)));
  lns ← pack_uint 4 (int_of (lanes (bh_params h)));
  frames ← pack_uint 4 (bh_frames h);
  Ok (pack_bytes 8 BACKUP_MAGIC ++ version ++ kdf ++ memory ++ iters ++ lns
      ++ pack_bytes 16 (bh_salt h) ++ frames ++ pack_bytes 32 (bh_commitment h)).

(** One field of the unpacked header *)
Definition field (offset size : nat) (data : bytes) : bytes := take size (drop offset data).

Definition parse_header (data : bytes) : res BackupHeader :=
  if negb (length data =? BACKUP_HEADER_BYTES)%nat
  then Err (BackupFormatError (str "The file is too short to be a backup."))
  else
    let version := be_decode (field 8 2 data) in
    let params := {| memory_kib := CInt (be_decode (field 11 4 data));
                     iterations := CInt (be_decode (field 15 4 data));
                     lanes := CInt (be_decode (field 19 4 data)) |} in
    let frames := be_decode (field 39 4 data) in
    if bool_decide (field 0 8 data ≠ BACKUP_MAGIC)
    then Err (BackupFormatError (str "The file is not a CipherMoth backup."))
    else if negb (version =? BACKUP_VERSION)
    then Err (BackupFormatError (str "The backup has version " ++ str_of_Z version
           ++ str "; this release reads version " ++ str_of_Z BACKUP_VERSION
           ++ str ". Update CipherMoth."))
    else if negb (be_decode (field 10 1 data) =? BACKUP_KDF_ARGON2ID)
    then Err (BackupFormatError (str "The backup uses an unknown key derivation."))
    else
      match require_supported params with
      | Err (UnsupportedKdf detail) => Err (BackupFormatError detail)
      | Err e => Err e
      | Ok _ =>
          if frames <? 1 then Err (BackupFormatError (str "The backup has no content."))
          else Ok {| bh_params := params; bh_salt := field 23 16 data; bh_frames := frames;
                     bh_commitment := field 43 32 data |}
      end.

Section Frames.
Context `{Cryptography}.

(** ** The keys of one backup *)

Record BackupKey := { bk_frames : bytes; bk_commitment : bytes }.
Definition make_backup_key (derived : bytes) : BackupKey :=
  {| bk_frames := hkdf derived BACKUP_FRAMES; bk_commitment := hkdf derived BACKUP_COMMITMENT |}.
Definition backup_key_matches (key : BackupKey) (h : BackupHeader) : bool :=
  bool_decide (bk_commitment key = bh_commitment h).

Definition frame_associated_data (header : bytes) (index : Z) (last : bool) : res bytes :=
  i ← pack_uint 4 index;
  l ← pack_uint 1 (if last then 1 else 0);
  Ok (header ++ i ++ l).
Definition seal_frame (key : BackupKey) (header : bytes) (index : Z) (last : bool)
    (plaintext nonce : bytes) : res bytes :=
  ad ← frame_associated_data header index last;
  Ok (aesgcm_encrypt (bk_frames key) nonce plaintext ad).
Definition open_frame (key : BackupKey) (header : bytes) (index : Z) (last : bool)
    (nonce ciphertext : bytes) : res bytes :=
  ad ← frame_associated_data header index last;
  ok_or DecryptionFailed (aesgcm_decrypt (bk_frames key) nonce ciphertext ad).

(** ** [BackupWriter]; each frame's nonce is the one [os.urandom] returned *)

Record BackupWriter := {
  bw_target : bytes;
  bw_key : BackupKey;
  bw_header : bytes;
  bw_frames : Z;
  bw_index : Z;
}.
Definition make_writer (target : bytes) (key : BackupKey) (h : BackupHeader) : res BackupWriter :=
  header ← pack_header h;
  Ok {| bw_target := target ++ header; bw_key := key; bw_header := header;
        bw_frames := bh_frames h; bw_index := 0 |}.
Definition write_frame (nonce plaintext : bytes) (w : BackupWriter) : res BackupWriter :=
  if bw_frames w <=? bw_index w
  then Err (ValueError (str "More frames than the header announced."))
  else
    let last := bw_index w =? bw_frames w - 1 in
    ciphertext ← seal_frame (bw_key w) (bw_header w) (bw_index w) last plaintext nonce;
    prefix ← pack_uint 4 (Z.of_nat (length ciphertext));
    Ok {| bw_target := bw_target w ++ prefix ++ nonce ++ ciphertext; bw_key := bw_key w;
          bw_header := bw_header w; bw_frames := bw_frames w; bw_index := bw_index w + 1 |}.
Definition finish_writer (w : BackupWriter) : res () :=
  if negb (bw_index w =? bw_frames w)
  then Err (ValueError (str "Fewer frames than the header announced.")) else Ok ().

(** ** [BackupReader]; [br_source] is what is left of the file. Nothing reads on
    after an exception, so the position of the file is not kept then. *)

Record BackupReader := {
  br_source : bytes;
  br_header_bytes : bytes;
  br_header : BackupHeader;
  br_index : Z;
}.
Definition read_exactly (size : nat) (source : bytes) : res (bytes * bytes) :=
  let data := take size source in
  if negb (length data =? size)%nat then Err INCOMPLETE else Ok (data, drop size source).
Definition make_reader (source : bytes) : res BackupReader :=
  '(header, rest) ← read_exactly BACKUP_HEADER_BYTES source;
  h ← parse_header header;
  if MAX_FRAMES <? bh_frames h
  then Err (BackupFormatError (str "The backup has too many parts."))
  else Ok {| br_source := rest; br_header_bytes := header; br_header := h; br_index := 0 |}.
Definition remaining (r : BackupReader) : Z := bh_frames (br_header r) - br_index r.
Definition read_frame (key : BackupKey) (max_bytes : Z) (r : BackupReader)
    : res (bytes * BackupReader) :=
  if bh_frames (br_header r) <=? br_index r then Err INCOMPLETE
  else
    '(prefix, rest) ← read_exactly 4 (br_source r);
    let len := be_decode prefix in
    if (len <? Z.of_nat TAG_BYTES) || (max_bytes + Z.of_nat TAG_BYTES <? len) then Err INCOMPLETE
    else
      '(nonce, rest) ← read_exactly NONCE_BYTES rest;
      '(ciphertext, rest) ← read_exactly (Z.to_nat len) rest;
      let last := br_index r =? bh_frames (br_header r) - 1 in
      plaintext ← open_frame key (br_header_bytes r) (br_index r) last nonce ciphertext;
      Ok (plaintext, {| br_source := rest; br_header_bytes := br_header_bytes r;
                        br_header := br_header r; br_index := br_index r + 1 |}).
Definition finish_reader (r : BackupReader) : res () :=
  if negb (br_index r =? bh_frames (br_header r)) || bool_decide (take 1 (br_source r) ≠ [])
  then Err INCOMPLETE else Ok ().
End Frames.
