(* ===== verification/Engine.v ===== *)
(** A request's database session and the process around it
    ([backend/crud/engine.py]). A [World] is what a request reads and writes:
    its view of the database, what is committed, the unlocked sessions, the
    hooks it registered, how many random values and clock readings it used, and
    what other requests do each time it gives way to them. *)
From Stdlib Require Import ZArith Lia Strings.String Strings.Byte.
From stdpp Require Import base list gmap.
From S2P Require Import Prelude Crypto Platform Sessions Models BackupFormat.

(** The callbacks the application registers with [after_commit] and [after_rollback] *)
Inductive Hook :=
  | HookRevoke (token : pystr)
  | HookRevokeUser (user_id : Z)
  | HookRevokeUserExcept (user_id : Z) (token : pystr)
  | HookRevokeAll
  | HookSetIdleTimeout (ms : Z).

Record World := {
  w_db : DB;
  w_committed : DB;
  w_sessions : VaultSessions;
  w_after_commit : list Hook;
  w_after_rollback : list Hook;
  w_clock_reads : nat;
  w_random_reads : nat;
  w_tokens_drawn : nat;
  w_others : list (DB * VaultSessions -> DB * VaultSessions);
}.

Definition w_set_db (x : DB) (w : World) : World :=
  {| w_db := x; w_committed := w_committed w; w_sessions := w_sessions w; w_after_commit :=
     w_after_commit w; w_after_rollback := w_after_rollback w; w_clock_reads := w_clock_reads
     w; w_random_reads := w_random_reads w; w_tokens_drawn := w_tokens_drawn w; w_others :=
     w_others w |}.
Definition w_set_committed (x : DB) (w : World) : World :=
  {| w_db := w_db w; w_committed := x; w_sessions := w_sessions w; w_after_commit :=
     w_after_commit w; w_after_rollback := w_after_rollback w; w_clock_reads := w_clock_reads
     w; w_random_reads := w_random_reads w; w_tokens_drawn := w_tokens_drawn w; w_others :=
     w_others w |}.
Definition w_set_sessions (x : VaultSessions) (w : World) : World :=
  {| w_db := w_db w; w_committed := w_committed w; w_sessions := x; w_after_commit :=
     w_after_commit w; w_after_rollback := w_after_rollback w; w_clock_reads := w_clock_reads
     w; w_random_reads := w_random_reads w; w_tokens_drawn := w_tokens_drawn w; w_others :=
     w_others w |}.
Definition w_set_after_commit (x : list Hook) (w : World) : World :=
  {| w_db := w_db w; w_committed := w_committed w; w_sessions := w_sessions w; w_after_commit
     := x; w_after_rollback := w_after_rollback w; w_clock_reads := w_clock_reads w;
     w_random_reads := w_random_reads w; w_tokens_drawn := w_tokens_drawn w; w_others :=
     w_others w |}.
Definition w_set_after_rollback (x : list Hook) (w : World) : World :=
  {| w_db := w_db w; w_committed := w_committed w; w_sessions := w_sessions w; w_after_commit
     := w_after_commit w; w_after_rollback := x; w_clock_reads := w_clock_reads w;
     w_random_reads := w_random_reads w; w_tokens_drawn := w_tokens_drawn w; w_others :=
     w_others w |}.
Definition w_set_clock_reads (x : nat) (w : World) : World :=
  {| w_db := w_db w; w_committed := w_committed w; w_sessions := w_sessions w; w_after_commit
     := w_after_commit w; w_after_rollback := w_after_rollback w; w_clock_reads := x;
     w_random_reads := w_random_reads w; w_tokens_drawn := w_tokens_drawn w; w_others :=
     w_others w |}.
Definition w_set_random_reads (x : nat) (w : World) : World :=
  {| w_db := w_db w; w_committed := w_committed w; w_sessions := w_sessions w; w_after_commit
     := w_after_commit w; w_after_rollback := w_after_rollback w; w_clock_reads :=
     w_clock_reads w; w_random_reads := x; w_tokens_drawn := w_tokens_drawn w; w_others :=
     w_others w |}.
Definition w_set_tokens_drawn (x : nat) (w : World) : World :=
  {| w_db := w_db w; w_committed := w_committed w; w_sessions := w_sessions w; w_after_commit
     := w_after_commit w; w_after_rollback := w_after_rollback w; w_clock_reads :=
     w_clock_reads w; w_random_reads := w_random_reads w; w_tokens_drawn := x; w_others :=
     w_others w |}.
Definition w_set_others (x : list (DB * VaultSessions -> DB * VaultSessions)) (w : World) : World :=
  {| w_db := w_db w; w_committed := w_committed w; w_sessions := w_sessions w; w_after_commit
     := w_after_commit w; w_after_rollback := w_after_rollback w; w_clock_reads :=
     w_clock_reads w; w_random_reads := w_random_reads w; w_tokens_drawn := w_tokens_drawn w;
     w_others := x |}.

(** A process that just started on a database, with nobody interfering. *)
Definition fresh_world (d : DB) (v : VaultSessions) : World :=
  {| w_db := d; w_committed := d; w_sessions := v; w_after_commit := []; w_after_rollback := [];
     w_clock_reads := 0; w_random_reads := 0; w_tokens_drawn := 0; w_others := [] |}.

(** ** Access to the world *)

Definition query {A} (f : DB -> A) : M World A := gets (fun w => f (w_db w)).
Definition write {A} (f : DB -> res (A * DB)) : M World A := fun w =>
  match f (w_db w) with
  | Ok (a, d) => (Ok a, w_set_db d w)
  | Err e => (Err e, w)
  end.
Definition write_ (f : DB -> DB) : M World () := fun w => (Ok (), w_set_db (f (w_db w)) w).

Definition after_commit (h : Hook) : M World () := fun w =>
  (Ok (), w_set_after_commit (w_after_commit w ++ [h]) w).
Definition after_rollback (h : Hook) : M World () := fun w =>
  (Ok (), w_set_after_rollback (w_after_rollback w ++ [h]) w).

(** A call into the session store. *)
Definition in_sessions {A} (m : M VaultSessions A) : M World A := fun w =>
  let '(r, v) := m (w_sessions w) in (r, w_set_sessions v w).
Definition on_sessions {A} (f : VaultSessions -> A * VaultSessions) : M World A := fun w =>
  let '(a, v) := f (w_sessions w) in (Ok a, w_set_sessions v w).

(** [session.commit()] in the middle of a request *)
Definition session_commit : M World () := fun w => (Ok (), w_set_committed (w_db w) w).

(** While a key derivation runs off the event loop other requests are served:
    they see what is committed and may change it and the sessions. *)
Definition suspend : M World () := fun w =>
  match w_others w with
  | [] => (Ok (), w)
  | f :: others =>
      let '(d, v) := f (w_committed w, w_sessions w) in
      (Ok (), w_set_others others (w_set_db d (w_set_committed d (w_set_sessions v w))))
  end.

Section Readings.
Context `{Environment}.

Definition utc_now : M World Z := fun w =>
  (Ok (utc_clock (w_clock_reads w)), w_set_clock_reads (S (w_clock_reads w)) w).
Definition read_system_clock : M World Instant := fun w =>
  (Ok (system_clock (w_clock_reads w)), w_set_clock_reads (S (w_clock_reads w)) w).
Definition os_urandom (size : nat) : M World bytes := fun w =>
  (Ok (urandom (w_random_reads w) size), w_set_random_reads (S (w_random_reads w)) w).
Definition new_token : M World pystr := fun w =>
  (Ok (token_urlsafe (w_tokens_drawn w)), w_set_tokens_drawn (S (w_tokens_drawn w)) w).

(** [models.new_uid] *)
Definition new_uid : M World bytes := os_urandom UID_BYTES.

(** ** Flushed rows: SQLAlchemy fills in the column defaults

    [default=utc_now] on insert; [onupdate=utc_now] when a column changed. *)

Definition add_entry (e : EntryModel) : M World Z :=
  c ← utc_now; u ← utc_now;
  write (insert_entry (set_entry_created (Time c) (set_entry_updated (Time u) e))).

Definition save_entry (id : Z) (e : EntryModel) : M World () :=
  old ← query (fun d => t_rows (entries d) !! id);
  if bool_decide (old = Some e) then mret ()
  else u ← utc_now; write (update_entry_row id (set_entry_updated (Time u) e)).

Definition add_attachment_row (a : AttachmentModel) : M World Z :=
  c ← utc_now; write (insert_attachment (set_attachment_created (Time c) a)).

(** ** The complete-backup capacity *)

Definition ENTRY_BACKUP_OVERHEAD : Z := 32 * 1024.
Definition ATTACHMENT_BACKUP_OVERHEAD : Z := 256.
Definition BACKUP_FIXED_OVERHEAD : Z := 4096.

(** SQL [length()]: [None] is NULL *)
Definition sql_length (c : cell) : option Z :=
  match c with
  | CNull => None
  | CInt z => Some (Z.of_nat (length (str_of_Z z)))
  | CText s => Some (Z.of_nat (length s))
  | CBlob b => Some (Z.of_nat (length b))
  end.
(** [coalesce(sum(...), 0)]: NULLs are not counted *)
Definition sql_sum (l : list (option Z)) : Z :=
  foldr (fun o acc => default 0 o + acc) 0 l.

Definition backup_frames (d : DB) : Z :=
  1 + Z.of_nat (size (t_rows (entries d))) + Z.of_nat (size (t_rows (attachments d))).
Definition backup_estimate (d : DB) : Z :=
  let es := map (fun p => sql_length (entry_document p.2)) (rows (t_rows (entries d))) in
  let ats := map (fun p => m ← sql_length (meta p.2); c ← sql_length (content p.2); Some (m + c))
               (rows (t_rows (attachments d))) in
  sql_sum es + Z.of_nat (length es) * ENTRY_BACKUP_OVERHEAD
  + sql_sum ats + Z.of_nat (length ats) * ATTACHMENT_BACKUP_OVERHEAD + BACKUP_FIXED_OVERHEAD.

Definition enforce_backup_capacity : M World () :=
  d ← query (fun d => d);
  raise_if (MAX_FRAMES <? backup_frames d)
    (InvalidRequest (str "This change would exceed the vault's complete-backup frame limit. Nothing was saved."));;
  raise_if (MAX_BACKUP_BYTES <? backup_estimate d)
    (InvalidRequest (str "This change would exceed the vault's 1 GiB complete-backup capacity. Nothing was saved.")).

(** ** Transactions *)

Definition BUSY_DETAIL : pystr :=
  str "The vault is busy with another change. Try again in a moment.".

Definition is_busy (e : exn) : bool :=
  match e with
  | OperationalError code => (Z.land code 0xFF =? 5) || (Z.land code 0xFF =? 6)
  | _ => false
  end.

Definition run_hook (h : Hook) : M World () :=
  match h with
  | HookRevoke token => _ ← on_sessions (revoke (Some token)); mret ()
  | HookRevokeUser id => _ ← on_sessions (revoke_user id); mret ()
  | HookRevokeUserExcept id token => _ ← on_sessions (revoke_user_except id token); mret ()
  | HookRevokeAll => _ ← on_sessions revoke_all; mret ()
  | HookSetIdleTimeout ms =>
      now ← read_system_clock;
      on_sessions (fun v => (tt, set_idle_timeout ms now v))
  end.

(** [_run]: both lists of hooks are emptied, one of them is called *)
Definition run_hooks (hooks : World -> list Hook) : M World () :=
  callbacks ← gets hooks;
  modify (fun w => w_set_after_commit [] (w_set_after_rollback [] w));;
  _ ← forM callbacks run_hook;
  mret ().

(** [Database.transaction]; a new session has no hooks. *)
Definition transaction {A} (is_write : bool) (body : M World A) : M World A := fun w =>
  let begun := w_set_after_commit [] (w_set_after_rollback [] (w_set_db (w_committed w) w)) in
  match (a ← body; (if is_write then enforce_backup_capacity else mret ());;
         session_commit;; mret a) begun with
  | (Ok a, w') => (run_hooks w_after_commit;; mret a) w'
  | (Err e, w') =>
      (run_hooks w_after_rollback;;
       throw (if is_busy e || bool_decide (e = PoolTimeout) then VaultBusy BUSY_DETAIL else e))
        (w_set_db (w_committed w') w')
  end.

End Readings.

Lemma write_Ok {A} (f : DB -> res (A * DB)) w a w' :
  write f w = (Ok a, w') -> ∃ d, f (w_db w) = Ok (a, d) ∧ w' = w_set_db d w.
Proof. unfold write. destruct (f (w_db w)) as [[b d]|e]; intros [= <- <-]. eauto. Qed.

(** [world_inv] takes apart every successful run in the context. *)
Ltac world_inv :=
  repeat match goal with
  | H : query _ _ = (Ok _, _) |- _ => unfold query in H; run_value H
  | H : session_commit _ = (Ok _, _) |- _ => unfold session_commit in H; run_value H
  | H : after_commit _ _ = (Ok _, _) |- _ => unfold after_commit in H; run_value H
  | H : after_rollback _ _ = (Ok _, _) |- _ => unfold after_rollback in H; run_value H
  | H : write_ _ _ = (Ok _, _) |- _ => unfold write_ in H; run_value H
  | H : write _ _ = (Ok _, _) |- _ =>
      let d := fresh "d" in apply write_Ok in H; destruct H as (d & H & ->)
  | H : utc_now _ = (Ok _, _) |- _ => unfold utc_now in H; run_value H
  | H : read_system_clock _ = (Ok _, _) |- _ => unfold read_system_clock in H; run_value H
  | H : os_urandom _ _ = (Ok _, _) |- _ => unfold os_urandom in H; run_value H
  | H : new_token _ = (Ok _, _) |- _ => unfold new_token in H; run_value H
  | H : throw _ _ = (Ok _, _) |- _ => discriminate H
  | H : (_ ≫= _) _ = (Ok _, _) |- _ => progress (run_inv H)
  | H : mret _ _ = (Ok _, _) |- _ => run_value H
  | H : lift _ _ = (Ok _, _) |- _ => run_step H
  | H : raise_if _ _ _ = (Ok _, _) |- _ => run_step H
  | H : raise_unless _ _ _ = (Ok _, _) |- _ => run_step H
  end.

(** ** Frame conditions

    What a relation between worlds must be closed under for every operation of
    the application to stay within it. The operations' own lemmas are proved
    once, for any such relation. *)

(** Only counters of readings move. *)
Record same_state (w w' : World) : Prop := {
  ss_db : w_db w' = w_db w;
  ss_committed : w_committed w' = w_committed w;
  ss_sessions : w_sessions w' = w_sessions w;
  ss_after_commit : w_after_commit w' = w_after_commit w;
  ss_after_rollback : w_after_rollback w' = w_after_rollback w;
  ss_others : w_others w' = w_others w;
}.
#[export] Instance same_state_preorder : PreOrder same_state.
Proof.
  split; [by split|]. intros x y z [] []. split; congruence.
Qed.

(** The database is left alone; sessions, hooks and counters may change. *)
Record db_same (w w' : World) : Prop := {
  ds_db : w_db w' = w_db w;
  ds_committed : w_committed w' = w_committed w;
  ds_others : w_others w' = w_others w;
}.
#[export] Instance db_same_preorder : PreOrder db_same.
Proof. split; [by split|]. intros x y z [] []. split; congruence. Qed.

Class Frame (R : World -> World -> Prop) : Prop := {
  frame_preorder :: PreOrder R;
  frame_db_same w w' : db_same w w' -> R w w';
}.

(** Closed under giving way to other requests *)
Class SuspendFrame (R : World -> World -> Prop) : Prop := {
  suspend_frame :: Frame R;
  frame_suspend : keeps R suspend;
}.
(** Closed under commits too *)
Class CommitFrame (R : World -> World -> Prop) : Prop := {
  commit_suspend_frame :: SuspendFrame R;
  frame_session_commit : keeps R session_commit;
}.

(** Closed under the writes of entries, folders, groups, grants, the audit,
    attachments and settings, and under giving way to other requests *)
Class DataFrame (R : World -> World -> Prop) : Prop := {
  data_suspend_frame :: SuspendFrame R;
  frame_insert_entry e : keeps R (write (insert_entry e));
  frame_update_entry_row i e : keeps R (write (update_entry_row i e));
  frame_delete_entry_row i : keeps R (write_ (delete_entry_row i));
  frame_insert_folder f : keeps R (write (insert_folder f));
  frame_update_folder_row i f : keeps R (write (update_folder_row i f));
  frame_delete_folder_row i : keeps R (write (delete_folder_row i));
  frame_insert_group g : keeps R (write (insert_group g));
  frame_update_group_row i g : keeps R (write (update_group_row i g));
  frame_delete_group_row i : keeps R (write_ (delete_group_row i));
  frame_put_member g u m : keeps R (write (put_member g u m));
  frame_delete_member g u : keeps R (write_ (delete_member g u));
  frame_put_entry_access e u g : keeps R (write (put_entry_access e u g));
  frame_delete_entry_access e u : keeps R (write_ (delete_entry_access e u));
  frame_put_folder_user_access f u g : keeps R (write (put_folder_user_access f u g));
  frame_delete_folder_user_access f u : keeps R (write_ (delete_folder_user_access f u));
  frame_put_folder_group_access f k g : keeps R (write (put_folder_group_access f k g));
  frame_delete_folder_group_access f k : keeps R (write_ (delete_folder_group_access f k));
  frame_insert_audit a : keeps R (write (insert_audit a));
  frame_insert_attachment a : keeps R (write (insert_attachment a));
  frame_delete_attachment_row i : keeps R (write_ (delete_attachment_row i));
  frame_put_settings s : keeps R (write_ (put_settings s));
  frame_mark_folder_links_ready : keeps R (write_ mark_folder_links_ready);
  frame_delete_user_grants i : keeps R (write_ (delete_user_grants i));
}.

(** Closed under the writes of accounts and of the vault's key record too *)
Class AccountFrame (R : World -> World -> Prop) : Prop := {
  account_data_frame :: DataFrame R;
  frame_insert_user u : keeps R (write (insert_user u));
  frame_update_user_row i u : keeps R (write (update_user_row i u));
  frame_delete_user_row i : keeps R (write (delete_user_row i));
  frame_put_vault v : keeps R (write (put_vault v));
}.

#[export] Instance db_same_frame : Frame db_same.
Proof. split; [apply _|done]. Qed.

Lemma frame_same_state `{!Frame R} w w' : same_state w w' -> R w w'.
Proof. intros []. apply frame_db_same. by split. Qed.
Lemma keeps_same `{!Frame R} {A} (m : M World A) : keeps same_state m -> keeps R m.
Proof. intros Hm w. apply frame_same_state, Hm. Qed.
Lemma keeps_db_same `{!Frame R} {A} (m : M World A) : keeps db_same m -> keeps R m.
Proof. intros Hm w. apply frame_db_same, Hm. Qed.

Section Frames.
Context `{Environment}.

Lemma same_utc_now : keeps same_state utc_now.
Proof. intros w. by split. Qed.
Lemma same_system_clock : keeps same_state read_system_clock.
Proof. intros w. by split. Qed.
Lemma same_urandom n : keeps same_state (os_urandom n).
Proof. intros w. by split. Qed.
Lemma same_new_uid : keeps same_state new_uid.
Proof. intros w. by split. Qed.
Lemma same_new_token : keeps same_state new_token.
Proof. intros w. by split. Qed.
Lemma same_query {A} (f : DB -> A) : keeps same_state (query f).
Proof. intros w. by split. Qed.
Lemma db_same_in_sessions {A} (m : M VaultSessions A) : keeps db_same (in_sessions m).
Proof. intros w. unfold in_sessions. destruct (m (w_sessions w)). by split. Qed.
Lemma db_same_on_sessions {A} (f : VaultSessions -> A * VaultSessions) :
  keeps db_same (on_sessions f).
Proof. intros w. unfold on_sessions. destruct (f (w_sessions w)). by split. Qed.
Lemma db_same_after_commit h : keeps db_same (after_commit h).
Proof. by intros w. Qed.
Lemma db_same_after_rollback h : keeps db_same (after_rollback h).
Proof. by intros w. Qed.
End Frames.

#[export] Hint Resolve same_utc_now same_system_clock same_urandom same_new_uid same_new_token
  same_query db_same_in_sessions db_same_on_sessions db_same_after_commit db_same_after_rollback
  keeps_same keeps_db_same : keeps.
#[export] Hint Resolve frame_suspend frame_session_commit frame_insert_entry frame_update_entry_row
  frame_delete_entry_row frame_insert_folder frame_update_folder_row frame_delete_folder_row
  frame_insert_group frame_update_group_row frame_delete_group_row frame_put_member
  frame_delete_member frame_put_entry_access frame_delete_entry_access
  frame_put_folder_user_access frame_delete_folder_user_access frame_put_folder_group_access
  frame_delete_folder_group_access frame_insert_audit frame_insert_attachment
  frame_delete_attachment_row frame_put_settings frame_mark_folder_links_ready
  frame_delete_user_grants frame_insert_user frame_update_user_row frame_delete_user_row
  frame_put_vault : keeps.
#[export] Hint Extern 1 (Frame _) => typeclasses eauto : keeps.
#[export] Hint Extern 1 (SuspendFrame _) => typeclasses eauto : keeps.
#[export] Hint Extern 1 (CommitFrame _) => typeclasses eauto : keeps.
#[export] Hint Extern 1 (DataFrame _) => typeclasses eauto : keeps.
#[export] Hint Extern 1 (AccountFrame _) => typeclasses eauto : keeps.

Section Saves.
Context `{Environment}.
Context (R : World -> World -> Prop) `{!DataFrame R}.

Lemma frame_add_entry e : keeps R (add_entry e).
Proof. unfold add_entry. keeps_tac. Qed.
Lemma frame_save_entry id e : keeps R (save_entry id e).
Proof. unfold save_entry. keeps_tac. Qed.
Lemma frame_add_attachment_row a : keeps R (add_attachment_row a).
Proof. unfold add_attachment_row. keeps_tac. Qed.
Lemma same_enforce_backup_capacity : keeps same_state enforce_backup_capacity.
Proof. unfold enforce_backup_capacity. keeps_tac. Qed.
End Saves.
#[export] Hint Resolve frame_add_entry frame_save_entry frame_add_attachment_row
  same_enforce_backup_capacity : keeps.

(** ** Integrity across requests

    The database a request sees and the committed one satisfy the constraints,
    and so does whatever other requests leave behind. *)
Record world_ok (w : World) : Prop := {
  wok_db : db_ok (w_db w);
  wok_committed : db_ok (w_committed w);
  wok_others : Forall (fun f => forall x : DB * VaultSessions, db_ok x.1 -> db_ok (f x).1) (w_others w);
}.

Definition integrity (w w' : World) : Prop := world_ok w -> world_ok w'.

Lemma integrity_write {A} (f : DB -> res (A * DB)) :
  (forall d a d', f d = Ok (a, d') -> db_ok d -> db_ok d') -> keeps integrity (write f).
Proof.
  intros Hf w [Hd Hc Ho]. unfold write. destruct (f (w_db w)) as [[a d]|e] eqn:E; [|by split].
  split; simpl; eauto.
Qed.
Lemma integrity_write_ f : (forall d, db_ok d -> db_ok (f d)) -> keeps integrity (write_ f).
Proof. intros Hf w [Hd Hc Ho]. split; simpl; eauto. Qed.
Lemma integrity_session_commit : keeps integrity session_commit.
Proof. intros w [? ? ?]. by split. Qed.
Lemma integrity_suspend : keeps integrity suspend.
Proof.
  intros w [Hd Hc Ho]. unfold suspend. destruct (w_others w) as [|f fs] eqn:E; [cbn; rewrite <- E in Ho; by split|].
  inversion_clear Ho as [|? ? Hf Hfs]. specialize (Hf (w_committed w, w_sessions w) Hc).
  destruct (f (w_committed w, w_sessions w)) as [d v]. by split.
Qed.
#[export] Instance integrity_frame : AccountFrame integrity.
Proof.
  split; [split; [split; [split; [split|]|]|..]|..];
    first [ apply integrity_suspend
          | intros; first [apply integrity_write; eauto using
              insert_user_ok, update_user_row_ok, insert_entry_ok, update_entry_row_ok,
              insert_folder_ok, update_folder_row_ok, delete_folder_row_ok, insert_group_ok,
              update_group_row_ok, put_member_ok, put_entry_access_ok, put_folder_user_access_ok,
              put_folder_group_access_ok, insert_audit_ok, insert_attachment_ok, put_vault_ok,
              delete_user_row_ok
            | apply integrity_write_; eauto using delete_entry_row_ok, delete_group_row_ok,
              delete_member_ok, delete_entry_access_ok, delete_folder_user_access_ok,
              delete_folder_group_access_ok, delete_attachment_row_ok, put_settings_ok,
              mark_folder_links_ready_ok, delete_user_grants_ok ]
          | idtac ].
  - intros w Hw. exact Hw.
  - intros x y z Hxy Hyz Hx. auto.
  - intros w w' [E1 E2 E3] [? ? ?]. split; congruence.
Qed.

#[export] Instance integrity_commit_frame : CommitFrame integrity.
Proof. split; [apply _|apply integrity_session_commit]. Qed.

(** When nobody interferes, nothing is committed on the way. *)
Definition no_commit (w w' : World) : Prop :=
  w_others w = [] -> w_others w' = [] ∧ w_committed w' = w_committed w.

Lemma no_commit_write {A} (f : DB -> res (A * DB)) : keeps no_commit (write f).
Proof. intros w Ho. unfold write. by destruct (f (w_db w)) as [[a d]|e]. Qed.
Lemma no_commit_write_ f : keeps no_commit (write_ f).
Proof. by intros w Ho. Qed.
Lemma no_commit_suspend : keeps no_commit suspend.
Proof. intros w Ho. unfold suspend. by rewrite Ho. Qed.

#[export] Instance no_commit_frame : AccountFrame no_commit.
Proof.
  split; [split; [split; [split; [split|]|]|..]|..]; intros;
    first [apply no_commit_suspend | apply no_commit_write | apply no_commit_write_ | idtac].
  - by intros w Ho.
  - intros x y z Hxy Hyz Hx. destruct (Hxy Hx) as [Hy E1]. destruct (Hyz Hy) as [Hz E2].
    split; congruence.
  - intros Ho. destruct H. split; congruence.
Qed.

(** When nobody interferes, neither this request's view nor what is committed
    changes, even across commits. *)
Definition undisturbed (w w' : World) : Prop :=
  w_others w = [] -> w_db w = w_committed w ->
  w_db w' = w_db w ∧ w_committed w' = w_committed w ∧ w_others w' = [].

#[export] Instance undisturbed_frame : CommitFrame undisturbed.
Proof.
  split; [split; [split; [split|]|]|].
  - by intros w Ho _.
  - intros x y z Hxy Hyz Ho Hd. destruct (Hxy Ho Hd) as (E1 & E2 & Ho').
    destruct (Hyz Ho') as (E3 & E4 & E5); [congruence|]. split_and!; congruence.
  - intros w w' [E1 E2 E3] Ho _. split_and!; congruence.
  - intros w Ho _. unfold suspend. by rewrite Ho.
  - intros w Ho Hd. by split_and!.
Qed.

(** A request body that only commits while it has changed nothing: if nobody
    interferes, what was committed stays as it was until the request ends. *)
Definition atomic {A} (m : M World A) : Prop :=
  forall w, w_others w = [] -> w_db w = w_committed w ->
    w_committed (m w).2 = w_committed w ∧ w_others (m w).2 = [].

Lemma atomic_no_commit {A} (m : M World A) : keeps no_commit m -> atomic m.
Proof. intros Hm w Ho _. destruct (Hm w Ho). by split. Qed.

Lemma atomic_bind {A B} (m : M World A) (f : A -> M World B) :
  keeps db_same m -> (forall a, atomic (f a)) -> atomic (m ≫= f).
Proof.
  intros Hm Hf w Ho Hd. unfold mbind, M_bind. destruct (Hm w) as [E1 E2 E3].
  destruct (m w) as [[a|e] w1]; simpl in *; [|split; congruence].
  destruct (Hf a w1) as [Hc Ho']; [congruence..|]. split; congruence.
Qed.

(** What follows the commit may not commit again. *)
Lemma atomic_then {A B} (m : M World A) (f : A -> M World B) :
  atomic m -> (forall a, keeps no_commit (f a)) -> atomic (m ≫= f).
Proof.
  intros Hm Hf w Ho Hd. unfold mbind, M_bind. destruct (Hm w Ho Hd) as [E1 E2].
  destruct (m w) as [[a|e] w1]; simpl in *; [|by split].
  destruct (Hf a w1 E2). split; congruence.
Qed.

Lemma atomic_commit {B} (m : M World B) : atomic m -> atomic (session_commit;; m).
Proof.
  intros Hm w Ho Hd. change ((session_commit;; m) w) with (m (w_set_committed (w_db w) w)).
  destruct (Hm (w_set_committed (w_db w) w)) as [E1 E2]; [done..|].
  split; [|done]. rewrite E1. exact Hd.
Qed.

Section Transactions2.
Context `{Environment}.

Lemma db_same_run_hook h : keeps db_same (run_hook h).
Proof. unfold run_hook. keeps_tac. Qed.
#[local] Hint Resolve db_same_run_hook : keeps.
Lemma db_same_run_hooks hooks : keeps db_same (run_hooks hooks).
Proof. unfold run_hooks. keeps_tac. intros w. by split. Qed.

Lemma run_hook_Ok h w : is_ok (run_hook h w).1 = true.
Proof.
  destruct h; cbv [run_hook mbind M_bind on_sessions read_system_clock mret M_ret];
    repeat case_match; by simplify_eq/=.
Qed.
Lemma forM_Ok {A B} (f : A -> M World B) l w :
  (forall a w, is_ok (f a w).1 = true) -> is_ok (forM l f w).1 = true.
Proof.
  intros Hf. revert w. induction l as [|a l IH]; intros w; [done|]. cbn [forM].
  unfold mbind, M_bind. specialize (Hf a w). destruct (f a w) as [[b|e] w1]; [|done].
  specialize (IH w1). by destruct (forM l f w1) as [[bs|e] w2].
Qed.
Lemma run_hooks_Ok hooks w e w' : run_hooks hooks w ≠ (Err e, w').
Proof.
  unfold run_hooks. cbv [mbind M_bind gets modify]. intros E.
  set (w1 := w_set_after_commit [] (w_set_after_rollback [] w)) in E.
  pose proof (forM_Ok run_hook (hooks w) w1 run_hook_Ok) as Hk.
  by destruct (forM (hooks w) run_hook w1) as [[bs|x] w2].
Qed.

(** The body of a transaction and its end, up to the hooks. *)
Definition begin_transaction (w : World) : World :=
  w_set_after_commit [] (w_set_after_rollback [] (w_set_db (w_committed w) w)).
Definition finish {A} (b : bool) (body : M World A) : M World A :=
  a ← body; (if b then enforce_backup_capacity else mret ());; session_commit;; mret a.

Lemma transaction_cases {A} (b : bool) (body : M World A) w :
  (∃ a w1, finish b body (begin_transaction w) = (Ok a, w1) ∧
     (transaction b body w).1 = Ok a ∧ db_same w1 (transaction b body w).2 ∧
     w_sessions (transaction b body w).2 = w_sessions (run_hooks w_after_commit w1).2) ∨
  (∃ e w1, finish b body (begin_transaction w) = (Err e, w1) ∧
     is_ok (transaction b body w).1 = false ∧
     db_same (w_set_db (w_committed w1) w1) (transaction b body w).2).
Proof.
  unfold transaction. fold (begin_transaction w). fold (finish b body).
  destruct (finish b body (begin_transaction w)) as [[a|e] w1] eqn:E; [left|right].
  - exists a, w1. split; [done|].
    pose proof (db_same_run_hooks w_after_commit w1) as Hs. unfold mbind, M_bind.
    destruct (run_hooks w_after_commit w1) as [[[]|x] w2] eqn:Er; [done|].
    exfalso. revert Er. apply run_hooks_Ok.
  - exists e, w1. split; [done|]. set (w1' := w_set_db (w_committed w1) w1).
    pose proof (db_same_run_hooks w_after_rollback w1') as Hs. unfold mbind, M_bind.
    by destruct (run_hooks w_after_rollback w1') as [[[]|x] w2] eqn:Er.
Qed.

Lemma finish_Ok {A} b (body : M World A) w a w1 :
  finish b body w = (Ok a, w1) ->
  ∃ w0, body w = (Ok a, w0) ∧ w_db w1 = w_db w0 ∧ w_committed w1 = w_db w0 ∧
    w_sessions w1 = w_sessions w0 ∧ w_after_commit w1 = w_after_commit w0 ∧
    w_others w1 = w_others w0 ∧
    (b = true -> backup_frames (w_db w0) ≤ MAX_FRAMES ∧ backup_estimate (w_db w0) ≤ MAX_BACKUP_BYTES).
Proof.
  unfold finish. intros Hf. apply bind_Ok in Hf as (a0 & w0 & Hb & Hf).
  apply bind_Ok in Hf as ([] & w2 & Hc & Hf). run_inv Hf. exists w0. split; [done|].
  assert (same_state w0 w2 ∧
    (b = true -> backup_frames (w_db w0) ≤ MAX_FRAMES ∧ backup_estimate (w_db w0) ≤ MAX_BACKUP_BYTES))
    as [[E1 E2 E3 E4 E5 E6] Hcap].
  { destruct b; [|run_inv Hc; split; [reflexivity|done]]. pose proof (same_enforce_backup_capacity w0) as Hs.
    rewrite Hc in Hs. split; [done|]. intros _. unfold enforce_backup_capacity in Hc. run_inv Hc. world_inv. lia. }
  unfold session_commit in R. run_value R. cbn. rewrite E1. split_and!; try done; congruence.
Qed.

Lemma finish_Err {A} b (body : M World A) w e w1 :
  finish b body w = (Err e, w1) -> db_same (body w).2 w1.
Proof.
  unfold finish. intros Hf. apply bind_Err in Hf as [Hf|(a & w0 & Hb & Hf)]; [by rewrite Hf|].
  rewrite Hb. apply bind_Err in Hf as [Hf|(u & w2 & Hc & Hf)]; [|by run_inv Hf].
  destruct b; [|done]. pose proof (same_enforce_backup_capacity w0) as Hs. rewrite Hf in Hs.
  by destruct Hs.
Qed.

Lemma integrity_finish {A} b (body : M World A) : keeps integrity body -> keeps integrity (finish b body).
Proof. intros Hb. unfold finish. keeps_tac. Qed.

Lemma world_ok_begin w : world_ok w -> world_ok (begin_transaction w).
Proof. by intros []. Qed.
Lemma integrity_transaction {A} b (body : M World A) :
  keeps integrity body -> keeps integrity (transaction b body).
Proof.
  intros Hb w Hw. pose proof (integrity_finish b body Hb _ (world_ok_begin w Hw)) as Hf.
  destruct (transaction_cases b body w) as [(a & w1 & E & _ & Hs & _)|(e & w1 & E & _ & Hs)];
    rewrite E in Hf; simpl in Hf; apply (frame_db_same (R := integrity) _ _ Hs); [done|].
  destruct Hf. by split.
Qed.

(** A transaction that fails leaves what was committed, if nobody interfered. *)
Lemma atomic_transaction {A} b (body : M World A) w :
  atomic body -> w_others w = [] -> is_ok (transaction b body w).1 = false ->
  w_committed (transaction b body w).2 = w_committed w.
Proof.
  intros Ha Ho He. destruct (transaction_cases b body w) as [(a & w1 & E & E1 & _)|(e & w1 & E & _ & Hs)];
    [by rewrite E1 in He|].
  rewrite (ds_committed _ _ Hs). simpl. rewrite (ds_committed _ _ (finish_Err _ _ _ _ _ E)).
  exact (proj1 (Ha (begin_transaction w) Ho eq_refl)).
Qed.
End Transactions2.
#[export] Hint Resolve integrity_transaction : keeps.
