(* ===== verification/Records.v ===== *)
(** Encrypted rows ([backend/crud/records.py]): sealing and opening entries,
    folders, groups and attachments, and finding an entry by its name. *)
From Stdlib Require Import ZArith Lia Strings.String Strings.Byte.
From stdpp Require Import base list gmap.
From S2P Require Import Prelude Crypto Platform Models BackupFormat Engine.

Definition damaged (what : pystr) : exn :=
  VaultDamaged (what ++ str " in the vault file failed its integrity check, so it was not read. The file was damaged or altered: restore a snapshot (docs/UPDATING.md), or remove the damaged rows (GET /api/vault/damaged, `ciphermoth damaged`).").

Definition is_damaged (e : exn) : bool :=
  match e with VaultDamaged _ => true | _ => false end.

(** [try: _decode(model, key.open_...) except (DecryptionFailed, ValidationError,
    ValueError): raise damaged(...)] *)
Definition decoded {A} (what : pystr) (load : bytes -> option A) (opened : res bytes) : res A :=
  match opened with
  | Ok raw => ok_or (damaged what) (load raw)
  | Err DecryptionFailed => Err (damaged what)
  | Err e => Err e
  end.

(** [isinstance(stored, bytes) and hmac.compare_digest(index, stored)] *)
Definition index_matches (index : bytes) (stored : cell) : bool :=
  bool_decide (stored = CBlob index).

Section Records.
Context `{Cryptography} `{Environment} `{Codec}.

Definition entry_what (id : Z) : pystr := str "Entry #" ++ str_of_Z id.
Definition folder_what (id : Z) : pystr := str "Folder #" ++ str_of_Z id.
Definition group_what (id : Z) : pystr := str "Group #" ++ str_of_Z id.
Definition attachment_what (id : Z) : pystr := str "Attachment #" ++ str_of_Z id.

Definition entry_times_ok (e : EntryModel) : bool :=
  is_datetime (entry_created e) && is_datetime (entry_updated e)
  && match deleted e with None => true | Some t => is_datetime t end.

Definition open_entry (key : VaultKey) (id : Z) (e : EntryModel) : res EntryDocument :=
  if negb (entry_times_ok e) then Err (damaged (entry_what id))
  else
    document ← decoded (entry_what id) load_entry
                 (key_open_entry key (entry_uid e) (entry_document e));
    index ← name_index key (doc_name document);
    if index_matches index (entry_name_index e) then Ok document
    else Err (damaged (entry_what id)).

Definition with_sealed (index document : bytes) (e : EntryModel) : EntryModel :=
  {| entry_uid := entry_uid e; entry_created := entry_created e; entry_updated := entry_updated e;
     deleted := deleted e; entry_owner_id := entry_owner_id e; folder_id := folder_id e;
     entry_name_index := CBlob index; entry_document := CBlob document;
     backed_up := backed_up e |}.

Definition seal_entry (key : VaultKey) (e : EntryModel) (document : EntryDocument)
    : M World EntryModel :=
  let encoded := dump_entry document in
  raise_if (MAX_ENTRY_STORED_BYTES <? Z.of_nat (length encoded))
    (InvalidRequest (str "This entry exceeds the 64 MiB per-entry backup capacity."));;
  index ← lift (name_index key (doc_name document));
  nonce ← os_urandom NONCE_BYTES;
  sealed ← lift (key_seal_entry key (entry_uid e) encoded nonce);
  mret (with_sealed index sealed e).

Definition open_folder (key : VaultKey) (id : Z) (f : FolderModel) : res NamedDocument :=
  name ← decoded (folder_what id) load_named
           (key_open_folder key (folder_uid f) (folder_owner_id f) (folder_document f));
  index ← folder_name_index key (folder_owner_id f) name;
  if index_matches index (fl_name_index f) then Ok name else Err (damaged (folder_what id)).

Definition seal_folder (key : VaultKey) (f : FolderModel) (name : pystr) : M World FolderModel :=
  index ← lift (folder_name_index key (folder_owner_id f) name);
  nonce ← os_urandom NONCE_BYTES;
  sealed ← lift (key_seal_folder key (folder_uid f) (folder_owner_id f) (dump_named name) nonce);
  mret {| folder_uid := folder_uid f; folder_owner_id := folder_owner_id f;
          fl_name_index := CBlob index; folder_document := CBlob sealed |}.

Definition open_group (key : VaultKey) (id : Z) (g : GroupModel) : res NamedDocument :=
  name ← decoded (group_what id) load_named
           (key_open_group key (group_uid g) (group_document g));
  index ← group_name_index key name;
  if index_matches index (gr_name_index g) then Ok name else Err (damaged (group_what id)).

Definition seal_group (key : VaultKey) (g : GroupModel) (name : pystr) : M World GroupModel :=
  index ← lift (group_name_index key name);
  nonce ← os_urandom NONCE_BYTES;
  sealed ← lift (key_seal_group key (group_uid g) (dump_named name) nonce);
  mret {| group_uid := group_uid g; gr_name_index := CBlob index; group_document := CBlob sealed |}.

Definition positive_int (c : cell) : bool :=
  match c with CInt z => 0 <? z | _ => false end.

Definition open_attachment_metadata (key : VaultKey) (id : Z) (a : AttachmentModel)
    (entry_uid : cell) : res AttachmentMetadata :=
  if negb (is_datetime (attachment_created a) && positive_int (size_bytes a))
  then Err (damaged (attachment_what id))
  else decoded (attachment_what id) load_metadata
         (key_open_attachment_metadata key (attachment_uid a) entry_uid (meta a)).

Definition open_attachment_content (key : VaultKey) (id : Z) (a : AttachmentModel)
    (entry_uid : cell) : res bytes :=
  match key_open_attachment_content key (attachment_uid a) entry_uid (content a) with
  | Err DecryptionFailed => Err (damaged (attachment_what id))
  | Err e => Err e
  | Ok c =>
      if bool_decide (size_bytes a = CInt (Z.of_nat (length c))) then Ok c
      else Err (damaged (attachment_what id))
  end.

Definition seal_attachment (key : VaultKey) (a : AttachmentModel) (entry_uid : cell)
    (metadata : AttachmentMetadata) (data : bytes) : M World AttachmentModel :=
  raise_if (2048 <? length (dump_metadata metadata))%nat
    (InvalidRequest (str "Attachment metadata exceeds the 2 KiB limit."));;
  n1 ← os_urandom NONCE_BYTES;
  m ← lift (key_seal_attachment_metadata key (attachment_uid a) entry_uid (dump_metadata metadata) n1);
  n2 ← os_urandom NONCE_BYTES;
  c ← lift (key_seal_attachment_content key (attachment_uid a) entry_uid data n2);
  mret {| attachment_uid := attachment_uid a; attachment_created := attachment_created a;
          attachment_entry_id := attachment_entry_id a;
          size_bytes := CInt (Z.of_nat (length data)); meta := CBlob m; content := CBlob c |}.

(** [ORDER BY deleted DESC, id DESC LIMIT 1], of rows in the order of their ids.
    A damaged time sorts before every time. *)
Definition stamp_le (x y : option stamp) : bool :=
  match x, y with
  | None, _ => true
  | Some _, None => false
  | Some BadTime, Some _ => true
  | Some (Time _), Some BadTime => false
  | Some (Time a), Some (Time b) => a <=? b
  end.
Definition most_recent (l : list (Z * EntryModel)) : option (Z * EntryModel) :=
  foldl (fun best p =>
           match best with
           | None => Some p
           | Some b => if stamp_le (deleted b.2) (deleted p.2) then Some p else Some b
           end) None l.

Definition has_nul (name : pystr) : bool := bool_decide (0%N ∈ name).

Definition find_entry (key : VaultKey) (name : pystr) (trashed : bool) (entry_id : option Z)
    : M World (Z * EntryModel * EntryDocument) :=
  found ← (if has_nul name then mret None
           else
             index ← lift (name_index key name);
             query (fun d => most_recent (filter (fun p =>
               index_matches index (entry_name_index p.2)
               && Bool.eqb (bool_decide (is_Some (deleted p.2))) trashed
               && match entry_id with None => true | Some id => p.1 =? id end = true)
               (rows (t_rows (entries d))))));
  match found with
  | None =>
      throw (NotFound (str "No password found for '" ++ name ++ str "' in the "
               ++ (if trashed then str "trash" else str "vault") ++ str "."))
  | Some (id, e) =>
      document ← lift (open_entry key id e);
      raise_if (bool_decide (doc_name document ≠ name)) (damaged (entry_what id));;
      mret (id, e, document)
  end.

Definition active_entry_exists (key : VaultKey) (name : pystr) : M World bool :=
  index ← lift (name_index key name);
  query (fun d => bool_decide (Exists (fun p =>
    index_matches index (entry_name_index p.2) = true ∧ deleted p.2 = None)
    (rows (t_rows (entries d))))).

(** ** Frame conditions *)

Lemma same_seal_entry key e d : keeps same_state (seal_entry key e d).
Proof. unfold seal_entry. keeps_tac. Qed.
Lemma same_seal_folder key f n : keeps same_state (seal_folder key f n).
Proof. unfold seal_folder. keeps_tac. Qed.
Lemma same_seal_group key g n : keeps same_state (seal_group key g n).
Proof. unfold seal_group. keeps_tac. Qed.
Lemma same_seal_attachment key a u m c : keeps same_state (seal_attachment key a u m c).
Proof. unfold seal_attachment. keeps_tac. Qed.
Lemma same_find_entry key name t i : keeps same_state (find_entry key name t i).
Proof. unfold find_entry. keeps_tac. Qed.
Lemma same_active_entry_exists key name : keeps same_state (active_entry_exists key name).
Proof. unfold active_entry_exists. keeps_tac. Qed.

End Records.
#[export] Hint Resolve same_seal_entry same_seal_folder same_seal_group same_seal_attachment
  same_find_entry same_active_entry_exists : keeps.

Section RecordsFacts.
Context `{Cryptography} `{Environment} `{Codec}.

Lemma most_recent_elem l p : most_recent l = Some p -> p ∈ l.
Proof.
  unfold most_recent. set (f := fun best q => _).
  assert (forall best, foldl f best l = Some p -> p ∈ l ∨ best = Some p) as Hf.
  { induction l as [|q l IH]; intros best Hb; [by right|]. simpl in Hb.
    apply IH in Hb as [Hin|E]; [left; by right|]. unfold f in E. destruct best as [b|].
    - destruct (stamp_le _ _); simplify_eq; [left; left|by right].
    - simplify_eq. left. left. }
  intros Hm. by destruct (Hf None Hm).
Qed.

(** The entry [find_entry] answers with: a row of that state under the index of
    the name, whose document opens and carries the name. Nothing changes. *)
Record found_entry (d : DB) (key : VaultKey) (name : pystr) (trashed : bool) (entry_id : option Z)
    (id : Z) (e : EntryModel) (doc : EntryDocument) : Prop := {
  fe_row : t_rows (entries d) !! id = Some e;
  fe_name : has_nul name = false;
  fe_index : ∃ index, name_index key name = Ok index ∧ entry_name_index e = CBlob index;
  fe_trashed : is_some (deleted e) = trashed;
  fe_id : forall i, entry_id = Some i -> i = id;
  fe_open : open_entry key id e = Ok doc;
  fe_doc_name : doc_name doc = name;
}.

Lemma find_entry_Ok key name trashed eid w id e doc w' :
  find_entry key name trashed eid w = (Ok (id, e, doc), w') ->
  found_entry (w_db w) key name trashed eid id e doc ∧ w' = w.
Proof.
  unfold find_entry. intros Hf. run_inv Hf. destruct (has_nul name) eqn:En.
  { run_inv R. discriminate. }
  run_inv R. world_inv. destruct (most_recent _) as [[i0 e0]|] eqn:Em; [|discriminate]. run_inv Hf.
  match goal with E : bool_decide _ = false |- _ => apply bool_decide_eq_false, dec_stable in E end.
  apply most_recent_elem, list_elem_of_filter in Em as [Hm Hin%elem_of_rows].
  rewrite !andb_true_iff in Hm. destruct Hm as [[Hi Ht] Hid]. cbn [fst snd] in *. split; [|done].
  split; try done.
  - unfold index_matches in Hi. apply bool_decide_eq_true in Hi. eauto.
  - apply Bool.eqb_prop in Ht. rewrite <- Ht. by destruct (deleted e).
  - intros i ->. by apply Z.eqb_eq in Hid.
Qed.

Lemma open_entry_Ok key id e doc :
  open_entry key id e = Ok doc ->
  entry_times_ok e = true ∧
  (∃ raw, key_open_entry key (entry_uid e) (entry_document e) = Ok raw ∧ load_entry raw = Some doc) ∧
  (∃ index, name_index key (doc_name doc) = Ok index ∧ entry_name_index e = CBlob index).
Proof.
  unfold open_entry. destruct (entry_times_ok e); [|done]. intros Ho. simpl in Ho.
  apply res_bind_Ok in Ho as (d & Hd & Ho). apply res_bind_Ok in Ho as (i & Hi & Ho).
  unfold index_matches in Ho. case_bool_decide; [|done]. injection Ho as ->.
  split; [done|]. split; [|eauto]. unfold decoded in Hd.
  destruct (key_open_entry _ _ _) as [r|[]]; try done. exists r. split; [done|].
  by destruct (load_entry r); simplify_eq/=.
Qed.
End RecordsFacts.
