(* ===== verification/Context.v ===== *)
(** Who a request acts for ([AuthContext] of [backend/crud/auth.py]), the rows of
    the access audit, and the grants in force ([backend/crud/folder.py]). *)
From Stdlib Require Import ZArith Lia Strings.String Strings.Byte.
From stdpp Require Import base list gmap.
From S2P Require Import Prelude Crypto Platform Models Engine.

(** The account, its id, its vault key and, for interactive use, its session token *)
Record AuthContext := {
  ctx_id : Z;
  ctx_user : UserModel;
  ctx_key : VaultKey;
  ctx_token : option pystr;
}.

(** [self.user.service_owner_id or self.user.id] *)
Definition ctx_owner_id (c : AuthContext) : Z :=
  match service_owner_id (ctx_user c) with
  | Some o => if o =? 0 then ctx_id c else o
  | None => ctx_id c
  end.

Definition is_admin (c : AuthContext) : bool := bool_decide (user_role (ctx_user c) = admin).

(** An [AccessAuditModel] with the fields most events leave out unset. *)
Definition audit_row (actor : Z) (act restype : pystr) (resid : Z) : AccessAuditModel :=
  {| audit_created := 0; actor_user_id := Some actor; action := act; resource_type := restype;
     resource_id := resid; target_user_id := None; target_group_id := None;
     audit_permission := None; audit_expires_at := None; previous_permission := None;
     previous_expires_at := None |}.
Definition audit_target_user (u : Z) (a : AccessAuditModel) : AccessAuditModel :=
  set_target_user_id (Some u) a.
Definition audit_target_group (g : Z) (a : AccessAuditModel) : AccessAuditModel :=
  set_target_group_id (Some g) a.
Definition audit_granted (p : SharePermission) (expires : option Z) (a : AccessAuditModel)
    : AccessAuditModel :=
  {| audit_created := audit_created a; actor_user_id := actor_user_id a; action := action a;
     resource_type := resource_type a; resource_id := resource_id a;
     target_user_id := target_user_id a; target_group_id := target_group_id a;
     audit_permission := Some p; audit_expires_at := expires;
     previous_permission := previous_permission a;
     previous_expires_at := previous_expires_at a |}.
(** The previous grant, when there was one *)
Definition audit_previous (g : option GrantModel) (a : AccessAuditModel) : AccessAuditModel :=
  {| audit_created := audit_created a; actor_user_id := actor_user_id a; action := action a;
     resource_type := resource_type a; resource_id := resource_id a;
     target_user_id := target_user_id a; target_group_id := target_group_id a;
     audit_permission := audit_permission a; audit_expires_at := audit_expires_at a;
     previous_permission := grant_permission <$> g;
     previous_expires_at := g ≫= expires_at |}.
Definition audit_at (t : Z) (a : AccessAuditModel) : AccessAuditModel :=
  {| audit_created := t; actor_user_id := actor_user_id a; action := action a;
     resource_type := resource_type a; resource_id := resource_id a;
     target_user_id := target_user_id a; target_group_id := target_group_id a;
     audit_permission := audit_permission a; audit_expires_at := audit_expires_at a;
     previous_permission := previous_permission a; previous_expires_at := previous_expires_at a |}.

(** [expires_at IS NULL OR expires_at > now] *)
Definition grant_active_at (now : Z) (expires : option Z) : bool :=
  match expires with None => true | Some t => now <? t end.

(** The folder grants that reach a user through a group *)
Definition group_grants (d : DB) (folder_id user_id : Z) : list (Z * GrantModel) :=
  filter (fun p => is_Some (group_members d !! (p.1, user_id)))
    (rows_of (folder_group_access d) folder_id).

(** The folder's permissions of a user that are in force at [now]: a direct
    grant and grants through groups *)
Definition folder_permissions (d : DB) (now folder_id user_id : Z) : list SharePermission :=
  let active g := grant_active_at now (expires_at g) in
  let direct :=
    match folder_user_access d !! (folder_id, user_id) with
    | Some g => if active g then [grant_permission g] else []
    | None => []
    end in
  direct ++ map (fun p => grant_permission p.2)
              (filter (fun p => active p.2 = true) (group_grants d folder_id user_id)).

Definition strongest (permissions : list SharePermission) : option SharePermission :=
  if bool_decide (share_write ∈ permissions) then Some share_write
  else if bool_decide (share_read ∈ permissions) then Some share_read
  else None.
Definition entry_permission (p : SharePermission) : EntryPermission :=
  match p with share_read => perm_read | share_write => perm_write end.

Section Context.
Context `{Environment}.

Definition add_audit (a : AccessAuditModel) : M World () :=
  t ← utc_now; _ ← write (insert_audit (audit_at t a)); mret ().

(** [grant_active]: every call reads the clock again. *)
Definition grant_active (expires : option Z) : M World bool :=
  match expires with
  | None => mret true
  | Some t => now ← utc_now; mret (now <? t)
  end.

Lemma frame_add_audit `{!DataFrame R} a : keeps R (add_audit a).
Proof. unfold add_audit. keeps_tac. Qed.
Lemma add_audit_Ok a w u w' :
  add_audit a w = (Ok u, w') ->
  w_db w' = with_access_audit (t_insert (audit_at (utc_clock (w_clock_reads w)) a)) (w_db w).
Proof.
  unfold add_audit. intros Ha. run_inv Ha. world_inv.
  match goal with E : insert_audit _ _ = _ |- _ => unfold insert_audit in E; res_inv E end.
  by simplify_eq.
Qed.
Lemma same_grant_active e : keeps same_state (grant_active e).
Proof. unfold grant_active. keeps_tac. Qed.
End Context.
#[export] Hint Resolve frame_add_audit same_grant_active : keeps.

Lemma strongest_spec ps :
  (strongest ps = Some share_write ↔ share_write ∈ ps) ∧
  (strongest ps = Some share_read ↔ share_write ∉ ps ∧ share_read ∈ ps) ∧
  (strongest ps = None ↔ ps = []).
Proof.
  unfold strongest. repeat case_bool_decide; split_and!; try naive_solver.
  - split; [done|]. intros ->. by apply not_elem_of_nil in H.
  - split; [done|]. intros ->. by apply not_elem_of_nil in H0.
  - split; [|done]. intros _. destruct ps as [|[] ps]; [done|..]; set_solver.
Qed.
