(* ===== verification/Folder.v ===== *)
(** Folders and their grants, and the migration of legacy folder names
    ([backend/crud/folder.py]). *)
From Stdlib Require Import ZArith Lia Strings.String Strings.Byte.
From stdpp Require Import base list gmap.
From S2P Require Import Prelude Crypto Platform Models Engine Records Context.

Record FolderAccessSource := {
  source : pystr;
  source_id : Z;
  source_name : option pystr;
  source_permission : SharePermission;
  source_expires_at : option Z;
  source_expired : bool;
}.

Record FolderResponse := {
  fr_id : Z;
  fr_name : pystr;
  fr_owner_id : Z;
  fr_owner_username : pystr;
  fr_access : option EntryPermission;
  fr_can_manage : bool;
}.

Record FolderGrant := {
  target_type : pystr;
  target_id : Z;
  target_name : pystr;
  fg_permission : SharePermission;
  fg_expires_at : option Z;
  fg_expired : bool;
}.

Record UserFolderAccess := {
  ufa_folder : FolderResponse;
  direct_permission : option SharePermission;
  direct_expires_at : option Z;
  effective_permission : option SharePermission;
  ufa_sources : list FolderAccessSource;
}.

Record AuditEvent := {
  event_id : Z;
  event : AccessAuditModel;
  actor_username : option pystr;
  target_username : option pystr;
  target_group_name : option pystr;
}.

(** [if row.actor_user_id]: the id is neither NULL nor 0 *)
Definition truthy_id (o : option Z) : option Z :=
  match o with Some id => if id =? 0 then None else Some id | None => None end.
Definition username_of (d : DB) (o : option Z) : option pystr :=
  id ← truthy_id o; username <$> t_rows (users d) !! id.
(** The latest 200 events of a resource, newest first *)
Definition audit_rows (d : DB) (restype : pystr) (resid : Z) : list (Z * AccessAuditModel) :=
  take 200 (reverse (filter (fun p => resource_type p.2 = restype ∧ resource_id p.2 = resid)
    (rows (t_rows (access_audit d))))).

Section Folder.
Context `{Cryptography} `{Environment} `{Codec} `{Text}.

(** ** Legacy folder names become folders *)

Definition link_entry (key : VaultKey) (known : gmap (Z * cell) (Z * FolderModel))
    (p : Z * EntryModel) : M World (gmap (Z * cell) (Z * FolderModel)) :=
  let '(id, e) := p in
  match entry_owner_id e with
  | None => throw (InvalidRequest (str "An entry has no owner, so folders cannot be migrated."))
  | Some owner =>
      document ← lift (open_entry key id e);
      match doc_folder document with
      | None | Some [] =>
          raise_if (bool_decide (folder_id e ≠ None))
            (InvalidRequest (str "An entry without a folder has a folder link."));;
          mret known
      | Some name =>
          index ← lift (folder_name_index key owner name);
          '(fid, known) ←
            match known !! (owner, CBlob index) with
            | None =>
                uid ← new_uid;
                f ← seal_folder key {| folder_uid := CBlob uid; folder_owner_id := owner;
                      fl_name_index := CBlob index; folder_document := CBlob [] |} name;
                fid ← write (insert_folder f);
                mret (fid, <[(owner, CBlob index) := (fid, f)]> known)
            | Some (fid, f) =>
                n ← lift (open_folder key fid f);
                raise_if (bool_decide (n ≠ name))
                  (InvalidRequest (str "Two folder names have the same integrity index."));;
                mret (fid, known)
            end;
          raise_if (match folder_id e with None => false | Some x => negb (x =? fid) end)
            (InvalidRequest (str "An entry has a conflicting folder link."));;
          save_entry id (set_folder_id (Some fid) e);;
          mret known
      end
  end.

Definition migrate_folder_links (key : VaultKey) : M World () :=
  v ← query vault;
  match v with
  | None => mret ()
  | Some v =>
      if folder_links_ready v then mret ()
      else
        existing ← query (fun d => rows (t_rows (folders d)));
        let known := foldl (fun m p => <[(folder_owner_id p.2, fl_name_index p.2) := p]> m)
                       (∅ : gmap (Z * cell) (Z * FolderModel)) existing in
        es ← query (fun d => rows (t_rows (entries d)));
        _ ← foldM (link_entry key) es known;
        write_ mark_folder_links_ready
  end.

(** ** [FolderCRUD] *)

Variable context : AuthContext.

Definition folder_audit (act : pystr) (folder_id : Z) : AccessAuditModel :=
  audit_row (ctx_id context) act (str "folder") folder_id.

Definition get_folder (folder_id : Z) : M World FolderModel :=
  f ← query (fun d => t_rows (folders d) !! folder_id);
  lift (ok_or (NotFound (str "Folder not found.")) f).

Definition require_manage (folder_id : Z) : M World FolderModel :=
  f ← get_folder folder_id;
  raise_if (bool_decide (folder_owner_id f ≠ ctx_id context) && negb (is_admin context))
    (Forbidden (str "Only the folder owner or an administrator can manage access."));;
  mret f.

Definition permission_for (folder_id : Z) (f : FolderModel) (user_id : Z)
    : M World (option EntryPermission) :=
  if folder_owner_id f =? user_id then mret (Some perm_owner)
  else
    now ← utc_now;
    ps ← query (fun d => folder_permissions d now folder_id user_id);
    mret (entry_permission <$> strongest ps).

Definition folder_response (id : Z) (f : FolderModel) (key : VaultKey) : M World FolderResponse :=
  owner ← query (fun d => t_rows (users d) !! folder_owner_id f);
  match owner with
  | None => throw (InvalidRequest (str "The folder owner record is missing."))
  | Some owner =>
      permission ← permission_for id f (ctx_id context);
      name ← lift (open_folder key id f);
      mret {| fr_id := id; fr_name := name; fr_owner_id := folder_owner_id f;
              fr_owner_username := username owner; fr_access := permission;
              fr_can_manage := (folder_owner_id f =? ctx_id context) || is_admin context |}
  end.

Definition list_folders (key : VaultKey) : M World (list FolderResponse) :=
  fs ← query (fun d => rows (t_rows (folders d)));
  visible ← (if is_admin context then mret fs
             else foldM (fun (acc : list (Z * FolderModel)) p =>
               perm ← permission_for p.1 p.2 (ctx_id context);
               mret (if is_some perm then acc ++ [p] else acc)) fs []);
  responses ← forM visible (fun p => folder_response p.1 p.2 key);
  mret (sorted_by (fun a b => str_id_le (casefold (fr_name a), fr_id a)
                                        (casefold (fr_name b), fr_id b)) responses).

(** A folder of [owner] with this name index, other than [except] *)
Definition folder_named (owner : Z) (index : bytes) (except : option Z) (d : DB) : bool :=
  bool_decide (Exists (fun p => folder_owner_id p.2 = owner ∧ fl_name_index p.2 = CBlob index
                                ∧ Some p.1 ≠ except) (rows (t_rows (folders d)))).

Definition folder_create (name : pystr) (key : VaultKey) : M World FolderResponse :=
  let owner := ctx_owner_id context in
  index ← lift (folder_name_index key owner name);
  duplicate ← query (folder_named owner index None);
  raise_if duplicate (InvalidRequest (str "A folder with this name already exists."));;
  uid ← new_uid;
  f ← seal_folder key {| folder_uid := CBlob uid; folder_owner_id := owner;
        fl_name_index := CBlob index; folder_document := CBlob [] |} name;
  id ← write (insert_folder f);
  add_audit (folder_audit (str "folder_created") id);;
  folder_response id f key.

(** The entries in a folder *)
Definition folder_entries (d : DB) (fid : Z) : list (Z * EntryModel) :=
  filter (fun p => folder_id p.2 = Some fid) (rows (t_rows (entries d))).

Definition folder_rename (folder_id : Z) (name : pystr) (key : VaultKey) : M World FolderResponse :=
  f ← get_folder folder_id;
  raise_if (bool_decide (folder_owner_id f ≠ ctx_id context))
    (Forbidden (str "Only the folder owner can rename it."));;
  index ← lift (folder_name_index key (folder_owner_id f) name);
  duplicate ← query (folder_named (folder_owner_id f) index (Some folder_id));
  raise_if duplicate (InvalidRequest (str "A folder with this name already exists."));;
  es ← query (fun d => folder_entries d folder_id);
  f' ← seal_folder key f name;
  write (update_folder_row folder_id f');;
  _ ← forM es (fun p =>
    document ← lift (open_entry key p.1 p.2);
    e ← seal_entry key p.2 (doc_with_folder (Some name) document);
    save_entry p.1 e);
  add_audit (folder_audit (str "folder_renamed") folder_id);;
  folder_response folder_id f' key.

Definition folder_remove (folder_id : Z) : M World () :=
  f ← get_folder folder_id;
  raise_if (bool_decide (folder_owner_id f ≠ ctx_id context))
    (Forbidden (str "Only the folder owner can delete it."));;
  es ← query (fun d => folder_entries d folder_id);
  raise_if (bool_decide (es ≠ []))
    (InvalidRequest (str "Move all entries out of the folder before deleting it."));;
  add_audit (folder_audit (str "folder_deleted") folder_id);;
  write (delete_folder_row folder_id).

(** ** Grants *)

Definition list_grants (folder_id : Z) : M World (list FolderGrant) :=
  _ ← require_manage folder_id;
  user_rows ← query (fun d =>
    omap (fun p => u ← t_rows (users d) !! p.1; Some (p, username u))
      (rows_of (folder_user_access d) folder_id));
  group_rows ← query (fun d =>
    omap (fun p => g ← t_rows (groups d) !! p.1; Some (p, g))
      (rows_of (folder_group_access d) folder_id));
  user_grants ← forM user_rows (fun '((uid, g), name) =>
    active ← grant_active (expires_at g);
    mret {| target_type := str "user"; target_id := uid; target_name := name;
            fg_permission := grant_permission g; fg_expires_at := expires_at g;
            fg_expired := negb active |});
  group_grants ← forM group_rows (fun '((gid, g), group) =>
    name ← lift (open_group (ctx_key context) gid group);
    active ← grant_active (expires_at g);
    mret {| target_type := str "group"; target_id := gid; target_name := name;
            fg_permission := grant_permission g; fg_expires_at := expires_at g;
            fg_expired := negb active |});
  mret (sorted_by (fun a b =>
          if bool_decide (target_type a = target_type b)
          then str_le (casefold (target_name a)) (casefold (target_name b))
          else str_le (target_type a) (target_type b)) (user_grants ++ group_grants)).

(** The grant a request leaves: the granter is the caller *)
Definition new_grant (permission : SharePermission) (expires : option Z) : GrantModel :=
  {| grant_permission := permission; expires_at := expires; granted_by := Some (ctx_id context) |}.

Definition set_user_grant (folder_id user_id : Z) (permission : SharePermission)
    (expires : option Z) : M World FolderGrant :=
  f ← require_manage folder_id;
  user ← query (fun d => t_rows (users d) !! user_id);
  match user with
  | None => throw (NotFound (str "Share target not found."))
  | Some user =>
      raise_if (negb (active user)) (NotFound (str "Share target not found."));;
      raise_if (user_id =? folder_owner_id f)
        (InvalidRequest (str "The owner already has full access."));;
      grant ← query (fun d => folder_user_access d !! (folder_id, user_id));
      write (put_folder_user_access folder_id user_id (new_grant permission expires));;
      add_audit (audit_granted permission expires (audit_previous grant (audit_target_user user_id
        (folder_audit (if is_some grant then str "folder_user_grant_updated"
                       else str "folder_user_grant_created") folder_id))));;
      mret {| target_type := str "user"; target_id := user_id; target_name := username user;
              fg_permission := permission; fg_expires_at := expires; fg_expired := false |}
  end.

Definition revoke_user_grant (folder_id user_id : Z) : M World () :=
  _ ← require_manage folder_id;
  grant ← query (fun d => folder_user_access d !! (folder_id, user_id));
  raise_if (negb (is_some grant)) (NotFound (str "Share not found."));;
  add_audit (audit_previous grant (audit_target_user user_id
    (folder_audit (str "folder_user_grant_revoked") folder_id)));;
  write_ (delete_folder_user_access folder_id user_id).

Definition set_group_grant (folder_id group_id : Z) (permission : SharePermission)
    (expires : option Z) : M World FolderGrant :=
  _ ← require_manage folder_id;
  group ← query (fun d => t_rows (groups d) !! group_id);
  match group with
  | None => throw (NotFound (str "Group not found."))
  | Some group =>
      grant ← query (fun d => folder_group_access d !! (folder_id, group_id));
      write (put_folder_group_access folder_id group_id (new_grant permission expires));;
      add_audit (audit_granted permission expires (audit_previous grant (audit_target_group group_id
        (folder_audit (if is_some grant then str "folder_group_grant_updated"
                       else str "folder_group_grant_created") folder_id))));;
      name ← lift (open_group (ctx_key context) group_id group);
      mret {| target_type := str "group"; target_id := group_id; target_name := name;
              fg_permission := permission; fg_expires_at := expires; fg_expired := false |}
  end.

Definition revoke_group_grant (folder_id group_id : Z) : M World () :=
  _ ← require_manage folder_id;
  grant ← query (fun d => folder_group_access d !! (folder_id, group_id));
  raise_if (negb (is_some grant)) (NotFound (str "Share not found."));;
  add_audit (audit_previous grant (audit_target_group group_id
    (folder_audit (str "folder_group_grant_revoked") folder_id)));;
  write_ (delete_folder_group_access folder_id group_id).

Definition granted_source (what : pystr) (id : Z) (name : option pystr) (g : GrantModel)
    : M World FolderAccessSource :=
  active ← grant_active (expires_at g);
  mret {| source := what; source_id := id; source_name := name;
          source_permission := grant_permission g; source_expires_at := expires_at g;
          source_expired := negb active |}.

(** The grants through groups, with the groups *)
Definition group_rows_for (d : DB) (folder_id user_id : Z) : list (Z * GrantModel * GroupModel) :=
  omap (fun p => g ← t_rows (groups d) !! p.1; Some (p, g)) (group_grants d folder_id user_id).

Definition user_folder_access (user_id : Z) (name : pystr) (key : VaultKey) (p : Z * FolderModel)
    : M World UserFolderAccess :=
  let '(id, f) := p in
  response ← folder_response id f key;
  direct ← query (fun d => folder_user_access d !! (id, user_id));
  let owner :=
    if folder_owner_id f =? user_id then
      [{| source := str "owner"; source_id := user_id; source_name := Some name;
          source_permission := share_write; source_expires_at := None; source_expired := false |}]
    else [] in
  direct_sources ← match direct with
    | None => mret []
    | Some g => s ← granted_source (str "direct") user_id (Some name) g; mret [s]
    end;
  group_rows ← query (fun d => group_rows_for d id user_id);
  group_sources ← forM group_rows (fun '((gid, g), group) =>
    n ← lift (open_group key gid group); granted_source (str "group") gid (Some n) g);
  let sources := owner ++ direct_sources ++ group_sources in
  active_permissions ← foldM (fun (acc : list SharePermission) s =>
    active ← grant_active (source_expires_at s);
    mret (if (active : bool) then acc ++ [source_permission s] else acc)) sources [];
  mret {| ufa_folder := response; direct_permission := grant_permission <$> direct;
          direct_expires_at := direct ≫= expires_at;
          effective_permission := (if folder_owner_id f =? user_id then Some share_write
                                   else strongest active_permissions);
          ufa_sources := sources |}.

Definition user_access (user_id : Z) (key : VaultKey) : M World (list UserFolderAccess) :=
  raise_unless (is_admin context) (Forbidden (str "Administrator access is required."));;
  user ← query (fun d => t_rows (users d) !! user_id);
  match user with
  | None => throw (NotFound (str "User not found."))
  | Some user =>
      fs ← query (fun d => rows (t_rows (folders d)));
      forM fs (user_folder_access user_id (username user) key)
  end.

Definition folder_audit_events (folder_id : Z) : M World (list AuditEvent) :=
  _ ← require_manage folder_id;
  audited ← query (fun d => audit_rows d (str "folder") folder_id);
  forM audited (fun '(id, row) =>
    actor ← query (fun d => username_of d (actor_user_id row));
    target ← query (fun d => username_of d (target_user_id row));
    group ← query (fun d => gid ← truthy_id (target_group_id row);
                            g ← t_rows (groups d) !! gid; Some (gid, g));
    group_name ← match group with
      | None => mret None
      | Some (gid, g) => n ← lift (open_group (ctx_key context) gid g); mret (Some n)
      end;
    mret {| event_id := id; event := row; actor_username := actor; target_username := target;
            target_group_name := group_name |}).
End Folder.

Section FolderFrames.
Context `{Cryptography} `{Environment} `{Codec} `{Text}.
Implicit Types context : AuthContext.

Lemma frame_link_entry `{!DataFrame R} key known p : keeps R (link_entry key known p).
Proof. unfold link_entry. keeps_tac. Qed.
#[local] Hint Resolve frame_link_entry : keeps.
Lemma frame_migrate_folder_links `{!DataFrame R} key : keeps R (migrate_folder_links key).
Proof. unfold migrate_folder_links. keeps_tac. Qed.
Lemma same_get_folder i : keeps same_state (get_folder i).
Proof. unfold get_folder. keeps_tac. Qed.
#[local] Hint Resolve same_get_folder : keeps.
Lemma same_require_manage context i : keeps same_state (require_manage context i).
Proof. unfold require_manage. keeps_tac. Qed.
#[local] Hint Resolve same_require_manage : keeps.
Lemma same_permission_for i f u : keeps same_state (permission_for i f u).
Proof. unfold permission_for. keeps_tac. Qed.
#[local] Hint Resolve same_permission_for : keeps.
Lemma same_folder_response context i f key : keeps same_state (folder_response context i f key).
Proof. unfold folder_response. keeps_tac. Qed.
#[local] Hint Resolve same_folder_response : keeps.
Lemma same_list_folders context key : keeps same_state (list_folders context key).
Proof. unfold list_folders. keeps_tac. Qed.
Lemma frame_folder_create `{!DataFrame R} context name key : keeps R (folder_create context name key).
Proof. unfold folder_create. keeps_tac. Qed.
Lemma frame_folder_rename `{!DataFrame R} context i name key :
  keeps R (folder_rename context i name key).
Proof. unfold folder_rename. keeps_tac. Qed.
Lemma frame_folder_remove `{!DataFrame R} context i : keeps R (folder_remove context i).
Proof. unfold folder_remove. keeps_tac. Qed.
Lemma same_list_grants context i : keeps same_state (list_grants context i).
Proof. unfold list_grants. keeps_tac. Qed.
Lemma frame_set_user_grant `{!DataFrame R} context i u p e :
  keeps R (set_user_grant context i u p e).
Proof. unfold set_user_grant. keeps_tac. Qed.
Lemma frame_revoke_user_grant `{!DataFrame R} context i u : keeps R (revoke_user_grant context i u).
Proof. unfold revoke_user_grant. keeps_tac. Qed.
Lemma frame_set_group_grant `{!DataFrame R} context i g p e :
  keeps R (set_group_grant context i g p e).
Proof. unfold set_group_grant. keeps_tac. Qed.
Lemma frame_revoke_group_grant `{!DataFrame R} context i g : keeps R (revoke_group_grant context i g).
Proof. unfold revoke_group_grant. keeps_tac. Qed.
Lemma same_granted_source what i n g : keeps same_state (granted_source what i n g).
Proof. unfold granted_source. keeps_tac. Qed.
#[local] Hint Resolve same_granted_source : keeps.
Lemma same_user_folder_access context u n key p :
  keeps same_state (user_folder_access context u n key p).
Proof. unfold user_folder_access. keeps_tac. Qed.
#[local] Hint Resolve same_user_folder_access : keeps.
Lemma same_user_access context u key : keeps same_state (user_access context u key).
Proof. unfold user_access. keeps_tac. Qed.
Lemma same_folder_audit_events context i : keeps same_state (folder_audit_events context i).
Proof. unfold folder_audit_events. keeps_tac. Qed.
End FolderFrames.
#[export] Hint Resolve frame_migrate_folder_links same_get_folder same_require_manage
  same_permission_for same_folder_response same_list_folders frame_folder_create
  frame_folder_rename frame_folder_remove same_list_grants frame_set_user_grant
  frame_revoke_user_grant frame_set_group_grant frame_revoke_group_grant
  same_granted_source same_user_access same_folder_audit_events : keeps.
