(* ===== verification/Group.v ===== *)
(** Groups and their members ([GroupCRUD] of [backend/crud/folder.py]). *)
From Stdlib Require Import ZArith Lia Strings.String Strings.Byte.
From stdpp Require Import base list gmap.
From S2P Require Import Prelude Crypto Platform Models Engine Records Context Folder.

Record GroupResponse := {
  gr_id : Z;
  gr_name : pystr;
  member_count : Z;
}.
Record GroupMember := {
  gm_user_id : Z;
  gm_username : pystr;
  gm_role : UserRole;
}.

Section Group.
Context `{Cryptography} `{Environment} `{Codec} `{Text}.
Variable context : AuthContext.

Definition group_audit (act : pystr) (group_id : Z) : AccessAuditModel :=
  audit_row (ctx_id context) act (str "group") group_id.

Definition group_require_admin : M World () :=
  raise_unless (is_admin context) (Forbidden (str "Administrator access is required.")).

Definition get_group (group_id : Z) : M World GroupModel :=
  g ← query (fun d => t_rows (groups d) !! group_id);
  lift (ok_or (NotFound (str "Group not found.")) g).

(** The memberships of a group, by user id *)
Definition group_response (id : Z) (g : GroupModel) (key : VaultKey) : M World GroupResponse :=
  count ← query (fun d => Z.of_nat (length (rows_of (group_members d) id)));
  name ← lift (open_group key id g);
  mret {| gr_id := id; gr_name := name; member_count := count |}.

Definition list_groups (key : VaultKey) : M World (list GroupResponse) :=
  gs ← query (fun d => rows (t_rows (groups d)));
  responses ← forM gs (fun p => group_response p.1 p.2 key);
  mret (sorted_by (fun a b => str_id_le (casefold (gr_name a), gr_id a)
                                        (casefold (gr_name b), gr_id b)) responses).

Definition group_named (index : bytes) (except : option Z) (d : DB) : bool :=
  bool_decide (Exists (fun p => gr_name_index p.2 = CBlob index ∧ Some p.1 ≠ except)
    (rows (t_rows (groups d)))).

Definition group_create (name : pystr) (key : VaultKey) : M World GroupResponse :=
  group_require_admin;;
  index ← lift (group_name_index key name);
  duplicate ← query (group_named index None);
  raise_if duplicate (InvalidRequest (str "A group with this name already exists."));;
  uid ← new_uid;
  g ← seal_group key {| group_uid := CBlob uid; gr_name_index := CBlob index;
                        group_document := CBlob [] |} name;
  id ← write (insert_group g);
  add_audit (group_audit (str "group_created") id);;
  group_response id g key.

Definition group_rename (group_id : Z) (name : pystr) (key : VaultKey) : M World GroupResponse :=
  group_require_admin;;
  g ← get_group group_id;
  index ← lift (group_name_index key name);
  duplicate ← query (group_named index (Some group_id));
  raise_if duplicate (InvalidRequest (str "A group with this name already exists."));;
  g' ← seal_group key g name;
  write (update_group_row group_id g');;
  add_audit (group_audit (str "group_renamed") group_id);;
  group_response group_id g' key.

(** The folder grants a group holds *)
Definition grants_of_group (d : DB) (group_id : Z) : list (Z * Z * GrantModel) :=
  filter (fun p => p.1.2 = group_id) (map_to_list (folder_group_access d)).

Definition group_remove (group_id : Z) : M World () :=
  group_require_admin;;
  _ ← get_group group_id;
  grants ← query (fun d => grants_of_group d group_id);
  raise_if (bool_decide (grants ≠ []))
    (InvalidRequest (str "Revoke this group's folder access before deleting the group."));;
  add_audit (group_audit (str "group_deleted") group_id);;
  write_ (delete_group_row group_id).

Definition member_of_user (p : Z * UserModel) : GroupMember :=
  {| gm_user_id := p.1; gm_username := username p.2; gm_role := user_role p.2 |}.

Definition members (group_id : Z) : M World (list GroupMember) :=
  group_require_admin;;
  _ ← get_group group_id;
  us ← query (fun d => omap (fun p => u ← t_rows (users d) !! p.1; Some (p.1, u))
                         (rows_of (group_members d) group_id));
  mret (map member_of_user (sorted_by (fun a b => str_le (username a.2) (username b.2)) us)).

Definition add_member (group_id user_id : Z) : M World GroupMember :=
  group_require_admin;;
  _ ← get_group group_id;
  user ← query (fun d => t_rows (users d) !! user_id);
  match user with
  | None => throw (NotFound (str "User not found."))
  | Some user =>
      raise_if (negb (active user)) (NotFound (str "User not found."));;
      membership ← query (fun d => group_members d !! (group_id, user_id));
      (if is_some membership then mret ()
       else
         write (put_member group_id user_id {| added_by := Some (ctx_id context) |});;
         add_audit (audit_target_user user_id (group_audit (str "group_member_added") group_id)));;
      mret (member_of_user (user_id, user))
  end.

Definition remove_member (group_id user_id : Z) : M World () :=
  group_require_admin;;
  _ ← get_group group_id;
  membership ← query (fun d => group_members d !! (group_id, user_id));
  raise_if (negb (is_some membership)) (NotFound (str "Group membership not found."));;
  add_audit (audit_target_user user_id (group_audit (str "group_member_removed") group_id));;
  write_ (delete_member group_id user_id).

(** The events shown for a group carry no permissions. *)
Definition group_audit_events (group_id : Z) : M World (list AuditEvent) :=
  group_require_admin;;
  _ ← get_group group_id;
  audited ← query (fun d => audit_rows d (str "group") group_id);
  forM audited (fun '(id, row) =>
    actor ← query (fun d => username_of d (actor_user_id row));
    target ← query (fun d => username_of d (target_user_id row));
    mret {| event_id := id;
            event := {| audit_created := audit_created row; actor_user_id := actor_user_id row;
              action := action row; resource_type := resource_type row;
              resource_id := resource_id row; target_user_id := target_user_id row;
              target_group_id := None; audit_permission := None; audit_expires_at := None;
              previous_permission := None; previous_expires_at := None |};
            actor_username := actor; target_username := target; target_group_name := None |}).
End Group.

Section GroupFrames.
Context `{Cryptography} `{Environment} `{Codec} `{Text}.
Implicit Types context : AuthContext.

Lemma same_group_require_admin context : keeps same_state (group_require_admin context).
Proof. unfold group_require_admin. keeps_tac. Qed.
Lemma same_get_group i : keeps same_state (get_group i).
Proof. unfold get_group. keeps_tac. Qed.
Lemma same_group_response i g key : keeps same_state (group_response i g key).
Proof. unfold group_response. keeps_tac. Qed.
#[local] Hint Resolve same_group_require_admin same_get_group same_group_response : keeps.
Lemma same_list_groups key : keeps same_state (list_groups key).
Proof. unfold list_groups. keeps_tac. Qed.
Lemma frame_group_create `{!DataFrame R} context name key : keeps R (group_create context name key).
Proof. unfold group_create. keeps_tac. Qed.
Lemma frame_group_rename `{!DataFrame R} context i name key : keeps R (group_rename context i name key).
Proof. unfold group_rename. keeps_tac. Qed.
Lemma frame_group_remove `{!DataFrame R} context i : keeps R (group_remove context i).
Proof. unfold group_remove. keeps_tac. Qed.
Lemma same_members context i : keeps same_state (members context i).
Proof. unfold members. keeps_tac. Qed.
Lemma frame_add_member `{!DataFrame R} context i u : keeps R (add_member context i u).
Proof. unfold add_member. keeps_tac. Qed.
Lemma frame_remove_member `{!DataFrame R} context i u : keeps R (remove_member context i u).
Proof. unfold remove_member. keeps_tac. Qed.
Lemma same_group_audit_events context i : keeps same_state (group_audit_events context i).
Proof. unfold group_audit_events. keeps_tac. Qed.
End GroupFrames.
#[export] Hint Resolve same_get_group same_list_groups frame_group_create frame_group_rename
  frame_group_remove same_members frame_add_member frame_remove_member
  same_group_audit_events : keeps.
