(* ===== verification/Password.v ===== *)
(** The entries of one owner ([backend/crud/password.py]): create, read, update,
    trash, restore, purge, and imports. *)
From Stdlib Require Import ZArith Lia Strings.String Strings.Byte.
From stdpp Require Import base list gmap.
From S2P Require Import Prelude Crypto Platform Validators Models Engine Records Context Folder.

Definition HISTORY_LIMIT : nat := 10.
Definition REPORTED_IMPORT_PROBLEMS : nat := 3.
Definition REPORTED_IGNORED_ROWS : nat := 100.
Definition MAX_NAME_LENGTH : Z := 255.
Definition NAME_TAKEN : pystr := str "A password with that name already exists.".

(** [schemas.Password] and, with no [pw_folder_id], [schemas.RestoredPassword] *)
Record Password := {
  password_name : pystr;
  pw_kind : Kind;
  pw_username : option pystr;
  password_value : pystr;
  pw_url : option pystr;
  pw_totp_secret : option pystr;
  pw_description : option pystr;
  pw_tags : list pystr;
  pw_custom_fields : list StoredField;
  pw_folder : option pystr;
  pw_folder_id : option Z;
  pw_favorite : bool;
}.

(** [password.model_copy(update=...)] of one field *)
Definition with_password_name (x : pystr) (p : Password) : Password :=
  {| password_name := x; pw_kind := pw_kind p; pw_username := pw_username p;
     password_value := password_value p; pw_url := pw_url p; pw_totp_secret := pw_totp_secret p;
     pw_description := pw_description p; pw_tags := pw_tags p;
     pw_custom_fields := pw_custom_fields p; pw_folder := pw_folder p;
     pw_folder_id := pw_folder_id p; pw_favorite := pw_favorite p |}.
Definition with_pw_folder (x : option pystr) (p : Password) : Password :=
  {| password_name := password_name p; pw_kind := pw_kind p; pw_username := pw_username p;
     password_value := password_value p; pw_url := pw_url p; pw_totp_secret := pw_totp_secret p;
     pw_description := pw_description p; pw_tags := pw_tags p;
     pw_custom_fields := pw_custom_fields p; pw_folder := x;
     pw_folder_id := pw_folder_id p; pw_favorite := pw_favorite p |}.
Definition with_pw_folder_id (x : option Z) (p : Password) : Password :=
  {| password_name := password_name p; pw_kind := pw_kind p; pw_username := pw_username p;
     password_value := password_value p; pw_url := pw_url p; pw_totp_secret := pw_totp_secret p;
     pw_description := pw_description p; pw_tags := pw_tags p;
     pw_custom_fields := pw_custom_fields p; pw_folder := pw_folder p;
     pw_folder_id := x; pw_favorite := pw_favorite p |}.

(** [value or None] of a string *)
Definition or_none (o : option pystr) : option pystr :=
  match o with Some [] => None | _ => o end.

Definition document_from (p : Password) (history : list HistoryItem) : EntryDocument :=
  {| doc_name := password_name p; doc_kind := pw_kind p; doc_username := pw_username p;
     doc_value := password_value p; doc_url := pw_url p; doc_totp_secret := pw_totp_secret p;
     doc_description := pw_description p; doc_tags := pw_tags p;
     doc_custom_fields := pw_custom_fields p; doc_folder := or_none (pw_folder p);
     doc_favorite := pw_favorite p; doc_history := history |}.

Record PasswordResponse := {
  pr_id : Z;
  pr_owner_id : option Z;
  pr_owner_username : option pystr;
  pr_access : option EntryPermission;
  pr_access_sources : list FolderAccessSource;
  pr_document : EntryDocument;
  pr_folder_id : option Z;
  pr_backed_up : bool;
  pr_created : stamp;
  pr_updated : stamp;
  pr_deleted : option stamp;
  pr_attachment_count : Z;
}.

Record ImportRowReport := {
  where_ : pystr;
  report_name : option pystr;
  reason : pystr;
}.
Record PasswordImportResult := {
  imported : Z;
  skipped : Z;
  overwritten : Z;
  total : Z;
  ignored : Z;
  ignored_rows : list ImportRowReport;
  renamed : Z;
  renamed_rows : list ImportRowReport;
  n_trashed : Z;
  n_attachments : Z;
  n_grants_restored : Z;
  settings_restored : bool;
}.
Inductive OnConflict := on_conflict_skip | on_conflict_overwrite.
Inductive Outcome := Imported | Skipped | Overwritten.
Record Counts := { n_imported : Z; n_skipped : Z; n_overwritten : Z }.

Definition count_outcome (o : Outcome) (c : Counts) : Counts :=
  match o with
  | Imported => {| n_imported := n_imported c + 1; n_skipped := n_skipped c;
                   n_overwritten := n_overwritten c |}
  | Skipped => {| n_imported := n_imported c; n_skipped := n_skipped c + 1;
                  n_overwritten := n_overwritten c |}
  | Overwritten => {| n_imported := n_imported c; n_skipped := n_skipped c;
                      n_overwritten := n_overwritten c + 1 |}
  end.

Definition import_result (c : Counts) (ignored renamed : list ImportRowReport)
    : PasswordImportResult :=
  {| imported := n_imported c; skipped := n_skipped c; overwritten := n_overwritten c;
     total := n_imported c + n_skipped c + n_overwritten c;
     ignored := Z.of_nat (length ignored); ignored_rows := take REPORTED_IGNORED_ROWS ignored;
     renamed := Z.of_nat (length renamed); renamed_rows := take REPORTED_IGNORED_ROWS renamed;
     n_trashed := 0; n_attachments := 0; n_grants_restored := 0; settings_restored := false |}.

(** [flush_or_conflict] around the writes it flushes *)
Definition or_conflict {A} (m : M World A) (conflict : pystr) : M World A :=
  catch m (fun e => throw (match e with IntegrityError => InvalidRequest conflict | _ => e end)).

Section Password.
Context `{Cryptography} `{Environment} `{Codec} `{Text}.
(** [self.owner_id] *)
Variable owner_id : option Z.

(** ** Folders of an entry *)

Definition folder_of (d : DB) (owner : Z) (index : bytes) : option (Z * FolderModel) :=
  head (filter (fun p => folder_owner_id p.2 = owner ∧ fl_name_index p.2 = CBlob index)
    (rows (t_rows (folders d)))).

(** [_folder_named]: the folder's id *)
Definition folder_by_name (name : option pystr) (key : VaultKey) : M World (option Z) :=
  match or_none name with
  | None => mret None
  | Some name =>
      match owner_id with
      | None => throw (InvalidRequest (str "A folder owner is required."))
      | Some owner =>
          index ← lift (folder_name_index key owner name);
          found ← query (fun d => folder_of d owner index);
          match found with
          | None =>
              uid ← new_uid;
              f ← seal_folder key {| folder_uid := CBlob uid; folder_owner_id := owner;
                    fl_name_index := CBlob index; folder_document := CBlob [] |} name;
              id ← write (insert_folder f);
              mret (Some id)
          | Some (id, f) => _ ← lift (open_folder key id f); mret (Some id)
          end
      end
  end.

Definition folder_for (p : Password) (key : VaultKey) : M World (option Z * Password) :=
  match pw_folder_id p with
  | Some fid =>
      f ← query (fun d => t_rows (folders d) !! fid);
      match f with
      | None => throw (InvalidRequest (str "The selected folder no longer exists."))
      | Some f =>
          name ← lift (open_folder key fid f);
          raise_if (match or_none (pw_folder p) with
                    | Some n => bool_decide (n ≠ name) | None => false end)
            (InvalidRequest (str "The folder name does not match the selected folder."));;
          mret (Some fid, with_pw_folder (Some name) p)
      end
  | None => fid ← folder_by_name (pw_folder p) key; mret (fid, p)
  end.

(** ** Reading *)

Definition attachment_counts (d : DB) (entry_id : Z) : Z :=
  Z.of_nat (length (filter (fun p => attachment_entry_id p.2 = entry_id)
    (rows (t_rows (attachments d))))).

Definition to_response (id : Z) (e : EntryModel) (doc : EntryDocument) (count : Z)
    : PasswordResponse :=
  {| pr_id := id; pr_owner_id := None; pr_owner_username := None; pr_access := None;
     pr_access_sources := [];
     pr_document :=
       {| doc_name := doc_name doc; doc_kind := doc_kind doc; doc_username := doc_username doc;
          doc_value := doc_value doc; doc_url := doc_url doc;
          doc_totp_secret := normalize_totp_secret_leniently (doc_totp_secret doc);
          doc_description := doc_description doc; doc_tags := doc_tags doc;
          doc_custom_fields := doc_custom_fields doc; doc_folder := or_none (doc_folder doc);
          doc_favorite := doc_favorite doc; doc_history := doc_history doc |};
     pr_folder_id := folder_id e; pr_backed_up := backed_up e; pr_created := entry_created e;
     pr_updated := entry_updated e; pr_deleted := deleted e; pr_attachment_count := count |}.

(** [ORDER BY deleted DESC, id DESC] of rows in id order *)
Definition trash_order (l : list (Z * EntryModel)) : list (Z * EntryModel) :=
  sorted_by (fun a b : Z * EntryModel => stamp_le (deleted b.2) (deleted a.2)) (reverse l).

Definition listed (key : VaultKey) (trashed : bool) (entry_ids : option (list Z))
    : M World (list PasswordResponse) :=
  models ← query (fun d => filter (fun p =>
    match entry_ids with None => true | Some ids => bool_decide (p.1 ∈ ids) end
    && Bool.eqb (is_some (deleted p.2)) trashed = true) (rows (t_rows (entries d))));
  let models := if trashed then trash_order models else models in
  counts ← query attachment_counts;
  responses ← foldM (fun (acc : list PasswordResponse) p =>
    match open_entry key p.1 p.2 with
    | Ok document => mret (acc ++ [to_response p.1 p.2 document (counts p.1)])
    | Err e => if is_damaged e then mret acc else throw e
    end) models [];
  mret (if trashed then responses
        else sorted_by (fun a b => str_le (doc_name (pr_document a)) (doc_name (pr_document b)))
               responses).

Definition get_password (name : pystr) (key : VaultKey) : M World PasswordResponse :=
  '(id, e, document) ← find_entry key name false None;
  count ← query (fun d => attachment_counts d id);
  mret (to_response id e document count).

(** ** Writing *)

(** [EntryModel(owner_id=..., folder_id=...)], with the [uid] its constructor draws *)
Definition new_entry (fid : option Z) : M World EntryModel :=
  uid ← new_uid;
  mret {| entry_uid := CBlob uid; entry_created := BadTime; entry_updated := BadTime;
          deleted := None; entry_owner_id := owner_id; folder_id := fid;
          entry_name_index := CNull; entry_document := CNull; backed_up := false |}.

Definition create_password (p : Password) (key : VaultKey) : M World () :=
  '(fid, resolved) ← folder_for p key;
  e ← new_entry fid;
  e ← seal_entry key e (document_from resolved []);
  _ ← or_conflict (add_entry e) NAME_TAKEN;
  mret ().

(** The history an update leaves: the replaced value first, the oldest dropped *)
Definition updated_history (current : EntryDocument) (p : Password) : M World (list HistoryItem) :=
  if bool_decide (doc_value current ≠ password_value p) && bool_decide (pw_kind p = login) then
    now ← utc_now;
    mret (take HISTORY_LIMIT
      ({| history_value := doc_value current; changed_at := isoformat now |} :: doc_history current))
  else mret (doc_history current).

Definition update_password (name : pystr) (p : Password) (key : VaultKey) : M World () :=
  '(id, e, current) ← find_entry key name false None;
  taken ← (if bool_decide (doc_name current ≠ password_name p)
           then active_entry_exists key (password_name p) else mret false);
  raise_if taken (InvalidRequest NAME_TAKEN);;
  history ← updated_history current p;
  '(fid, resolved) ← folder_for p key;
  e' ← seal_entry key (set_folder_id fid e) (document_from resolved history);
  or_conflict (save_entry id (set_backed_up false e')) NAME_TAKEN.

Definition set_favorite (name : pystr) (favorite : bool) (key : VaultKey) : M World () :=
  '(id, e, document) ← find_entry key name false None;
  e' ← seal_entry key e (doc_with_favorite favorite document);
  save_entry id e'.

Definition delete_password (name : pystr) (key : VaultKey) : M World () :=
  '(id, e, _) ← find_entry key name false None;
  now ← utc_now;
  save_entry id (set_deleted (Some (Time now)) e).

Definition restore_password (name : pystr) (key : VaultKey) (entry_id : option Z) : M World () :=
  '(id, e, _) ← find_entry key name true entry_id;
  let conflict := str "An active password named '" ++ name
    ++ str "' already exists. Rename or delete it before restoring." in
  taken ← active_entry_exists key name;
  raise_if taken (InvalidRequest conflict);;
  or_conflict (save_entry id (set_deleted None e)) conflict.

Definition purge_password (name : pystr) (key : VaultKey) (entry_id : option Z) : M World () :=
  '(id, _, _) ← find_entry key name true entry_id;
  write_ (delete_entry_row id).
End Password.

(** ** Imports *)

(** [str(bytes(index))] of a stored column: SQLite may hand back any value. *)
Definition bytes_of_cell (c : cell) : res bytes :=
  match c with
  | CBlob b => Ok b
  | CInt z => if z <? 0 then Err (ValueError (str "negative count"))
              else Ok (replicate (Z.to_nat z) Byte.x00)
  | CNull | CText _ => Err TypeError
  end.

Record CsvRow := {
  (** [row.get(column)], [None] for a cell the line does not have *)
  csv_cells : list (pystr * option pystr);
}.

(** The fields a row gives, before the schema validates them *)
Record ImportFields := {
  if_name : pystr;
  if_note : bool;
  if_value : pystr;
  if_username : option pystr;
  if_url : option pystr;
  if_totp_secret : option pystr;
  if_description : option pystr;
  if_folder : option pystr;
}.
Inductive ImportItem (F : Type) :=
  | Blank
  | Ignored (name : option pystr) (why : pystr)
  | Fields (f : F).
Arguments Blank {F}.
Arguments Ignored {F} name why.
Arguments Fields {F} f.

Definition CSV_FIELD_ALIASES : list (pystr * list pystr) :=
  [(str "name", [str "name"; str "title"; str "account"; str "login_name"; str "item name"]);
   (str "username", [str "username"; str "login_username"; str "user"; str "email"; str "login"; str "e-mail"]);
   (str "value", [str "password"; str "login_password"; str "pass"]);
   (str "url", [str "url"; str "uri"; str "login_uri"; str "website"; str "web site"; str "site"; str "link"]);
   (str "description", [str "notes"; str "note"; str "description"; str "comment"; str "comments"; str "extra"]);
   (str "folder", [str "folder"; str "grouping"; str "group"; str "category"; str "collection"]);
   (str "type", [str "type"; str "item type"; str "item_type"]);
   (str "totp_secret", [str "totp"; str "login_totp"; str "otpauth"; str "otp"; str "2fa"; str "otp_auth"; str "totpauth"])].
Definition CSV_NOTE_TYPES : list pystr :=
  [str "note"; str "secure note"; str "securenote"; str "secure_note"].
Definition CSV_UNSUPPORTED_TYPES : list pystr :=
  [str "card"; str "creditcard"; str "credit card"; str "identity"; str "alias"; str "sshkey";
   str "ssh key"; str "ssh_key"].

(** [SOURCE_KEYS.get(field, field)] *)
Definition source_key (field : pystr) : pystr :=
  if bool_decide (field = str "password_name") then str "name"
  else if bool_decide (field = str "password_value") then str "value" else field.

Abbreviation Columns := (list (pystr * list pystr)).

Definition assoc {A} (k : pystr) (l : list (pystr * A)) : option A :=
  snd <$> head (filter (fun p => p.1 = k) l).
(** A dictionary built from pairs: the last value of a key wins. *)
Definition assoc_last {A} (k : pystr) (l : list (pystr * A)) : option A := assoc k (reverse l).

Section Importing.
Context `{Cryptography} `{Environment} `{Codec} `{Text}.

Definition map_csv_columns (fieldnames : list pystr) : Columns :=
  let normalized := map (fun n => (lower (strip n), n)) fieldnames in
  omap (fun '(field, aliases) =>
    match omap (fun alias => assoc_last alias normalized) aliases with
    | [] => None
    | columns => Some (field, columns)
    end) CSV_FIELD_ALIASES.

Definition csv_cell (row : CsvRow) (column_for : Columns) (field : pystr) (stripped : bool)
    : option pystr :=
  head (omap (fun column =>
    let raw := default [] (mjoin (assoc_last column (csv_cells row))) in
    let value := if stripped then strip raw else raw in
    if bool_decide (value = []) then None else Some value)
    (default [] (assoc field column_for))).

Definition csv_totp (row : CsvRow) (column_for : Columns) : option pystr :=
  match normalize_totp_secret (csv_cell row column_for (str "totp_secret") true) with
  | Ok v => v
  | Err _ => None
  end.

Definition csv_fields (row : CsvRow) (column_for : Columns) : ImportItem ImportFields :=
  let cell field := csv_cell row column_for field true in
  if negb (existsb (fun p => match p.2 with Some c => bool_decide (strip c ≠ []) | None => false end)
             (csv_cells row)) then Blank
  else
    let name := cell (str "name") in
    let item_type := default [] (cell (str "type")) in
    if bool_decide (lower item_type ∈ CSV_NOTE_TYPES) then
      let body := csv_cell row column_for (str "description") false in
      match name, body with
      | None, _ => Ignored None (str "secure note without a name")
      | Some name, None => Ignored (Some name) (str "secure note without text")
      | Some name, Some body =>
          if bool_decide (strip body = []) then Ignored (Some name) (str "secure note without text")
          else Fields {| if_name := name; if_note := true; if_value := body; if_username := None;
                         if_url := None; if_totp_secret := None; if_description := None;
                         if_folder := cell (str "folder") |}
      end
    else if bool_decide (lower item_type ∈ CSV_UNSUPPORTED_TYPES) then
      Ignored name (str "'" ++ take 40 item_type ++ str "' items can't be imported")
    else
      match name, csv_cell row column_for (str "value") false with
      | None, _ => Ignored None (str "no name")
      | Some name, None => Ignored (Some name) (str "no password")
      | Some name, Some value =>
          Fields {| if_name := name; if_note := false; if_value := value;
                    if_username := cell (str "username"); if_url := cell (str "url");
                    if_totp_secret := csv_totp row column_for;
                    if_description := cell (str "description"); if_folder := cell (str "folder") |}
      end.

Record Validated := {
  v_valid : list (pystr * Password);
  v_ignored : list ImportRowReport;
  v_problems : list pystr;
}.

(** [schema.model_validate] gives the field and message of its first error, or
    the validated entry. *)
Definition validate_row {F} (schema : F -> (pystr * pystr) + Password) (label_for : pystr -> pystr)
    (acc : Validated) (r : pystr * ImportItem F) : Validated :=
  let '(where_, item) := r in
  match item with
  | Blank => acc
  | Ignored name why =>
      {| v_valid := v_valid acc;
         v_ignored := v_ignored acc
           ++ [{| where_ := where_; report_name := take 100 <$> name; reason := why |}];
         v_problems := v_problems acc |}
  | Fields f =>
      match schema f with
      | inr p => {| v_valid := v_valid acc ++ [(where_, p)]; v_ignored := v_ignored acc;
                    v_problems := v_problems acc |}
      | inl (field, msg) =>
          {| v_valid := v_valid acc; v_ignored := v_ignored acc;
             v_problems := v_problems acc ++
               [where_ ++ str " (" ++ label_for field ++ str "): " ++ msg] |}
      end
  end.

Definition validate_import {F} (schema : F -> (pystr * pystr) + Password)
    (rs : list (pystr * ImportItem F)) (label_for : pystr -> pystr)
    : res (list (pystr * Password) * list ImportRowReport) :=
  let v := foldl (validate_row schema label_for)
             {| v_valid := []; v_ignored := []; v_problems := [] |} rs in
  if bool_decide (v_problems v ≠ []) then
    let more := Z.of_nat (length (v_problems v)) - Z.of_nat REPORTED_IMPORT_PROBLEMS in
    Err (InvalidRequest (str "Nothing was imported. "
      ++ joined (str "; ") (take REPORTED_IMPORT_PROBLEMS (v_problems v))
      ++ (if 0 <? more then str "; and " ++ str_of_Z more ++ str " more" else []) ++ str "."))
  else Ok (v_valid v, v_ignored v).

(** [_unique_name]; the loop tries the numbers from [number] on. *)
Definition candidate_name (name : pystr) (number : Z) : pystr :=
  let limit := Z.max MAX_NAME_LENGTH (Z.of_nat (length name)) in
  let suffix := str " (" ++ str_of_Z number ++ str ")" in
  take (Z.to_nat (limit - Z.of_nat (length suffix))) name ++ suffix.

Fixpoint unique_name_from (fuel : nat) (name : pystr) (number : Z) (taken : gset bytes)
    (key : VaultKey) : res pystr :=
  match fuel with
  | O => Err Diverges
  | S fuel =>
      let candidate := candidate_name name number in
      index ← name_index key candidate;
      if bool_decide (index ∈ taken) then unique_name_from fuel name (number + 1) taken key
      else Ok candidate
  end.
Definition unique_name (name : pystr) (taken : gset bytes) (key : VaultKey) : res pystr :=
  unique_name_from (S (size taken)) name 2 taken key.

Variable owner_id : option Z.
(** [self.load_active()] *)
Variable load_active : M World (gmap cell (Z * EntryModel)).

Definition all_active : M World (gmap cell (Z * EntryModel)) :=
  query (fun d => foldl (fun m p => <[entry_name_index p.2 := p]> m) ∅
    (filter (fun p => deleted p.2 = None) (rows (t_rows (entries d))))).

Definition upsert_entry (existing : gmap cell (Z * EntryModel)) (key : VaultKey)
    (on_conflict : OnConflict) (p : Password)
    : M World (Outcome * gmap cell (Z * EntryModel)) :=
  index ← lift (name_index key (password_name p));
  let add outcome :=
    '(fid, resolved) ← folder_for owner_id p key;
    e ← new_entry owner_id fid;
    e ← seal_entry key e (document_from resolved []);
    id ← add_entry e;
    mret (outcome, <[CBlob index := (id, e)]> existing) in
  match existing !! CBlob index with
  | Some (id, current) =>
      _ ← lift (open_entry key id current);
      match on_conflict with
      | on_conflict_skip => mret (Skipped, existing)
      | on_conflict_overwrite =>
          now ← utc_now;
          save_entry id (set_deleted (Some (Time now)) current);;
          add Overwritten
      end
  | None => add Imported
  end.

Record ImportState := {
  is_existing : gmap cell (Z * EntryModel);
  is_taken : gset bytes;
  is_seen : gset bytes;
  is_renamed : list ImportRowReport;
  is_counts : Counts;
}.

Definition import_row (key : VaultKey) (on_conflict : OnConflict) (st : ImportState)
    (r : pystr * Password) : M World ImportState :=
  let '(where_, p) := r in
  let name := password_name p in
  index ← lift (name_index key name);
  let foreign_name := bool_decide (index ∈ is_taken st)
                      && negb (is_some (is_existing st !! CBlob index)) in
  '(p, renamed) ←
    (if bool_decide (index ∈ is_seen st) || foreign_name then
       unique ← lift (unique_name name (is_taken st) key);
       mret (with_password_name unique p,
             is_renamed st ++
             [{| where_ := where_; report_name := Some (take 100 name);
                 reason := str "imported as '" ++ take 120 unique ++ str "' because "
                   ++ (if foreign_name then str "that active name is already in use"
                       else str "the file has another entry with this name") |}])
     else mret (p, is_renamed st));
  index ← lift (name_index key (password_name p));
  '(outcome, existing) ← upsert_entry (is_existing st) key on_conflict p;
  mret {| is_existing := existing; is_taken := {[index]} ∪ is_taken st;
          is_seen := {[index]} ∪ is_seen st; is_renamed := renamed;
          is_counts := count_outcome outcome (is_counts st) |}.

Definition store_import (passwords : list (pystr * Password)) (ignored : list ImportRowReport)
    (key : VaultKey) (on_conflict : OnConflict) : M World PasswordImportResult :=
  existing ← load_active;
  active ← query (fun d => filter (fun p => deleted p.2 = None) (rows (t_rows (entries d))));
  indexes ← forM active (fun p => lift (bytes_of_cell (entry_name_index p.2)));
  st ← or_conflict
    (foldM (import_row key on_conflict) passwords
       {| is_existing := existing; is_taken := list_to_set indexes; is_seen := ∅;
          is_renamed := []; is_counts := {| n_imported := 0; n_skipped := 0; n_overwritten := 0 |} |})
    (str "An entry with the same name was added while importing. Nothing was imported; try again.");
  mret (import_result (is_counts st) ignored (is_renamed st)).

(** [import_passwords_csv] after the decoder and [csv.DictReader] have run *)
Definition import_rows (model_validate : ImportFields -> (pystr * pystr) + Password)
    (fieldnames : list pystr) (rs : list CsvRow) (key : VaultKey) (on_conflict : OnConflict)
    : M World PasswordImportResult :=
  raise_if (bool_decide (fieldnames = [])) (InvalidRequest (str "CSV file has no header row."));;
  let column_for := map_csv_columns fieldnames in
  raise_unless (is_some (assoc (str "name") column_for) && is_some (assoc (str "value") column_for))
    (InvalidRequest (str "CSV must have a name/title column and a password column."));;
  '(passwords, ignored) ← lift (validate_import model_validate
     (imap (fun i r => (str "row " ++ str_of_Z (Z.of_nat i + 2), csv_fields r column_for)) rs)
     (fun field => default field (head (default [] (assoc (source_key field) column_for)))));
  store_import passwords ignored key on_conflict.
End Importing.

Section PasswordFrames.
Context `{Cryptography} `{Environment} `{Codec} `{Text}.
Implicit Types owner_id : option Z.

Lemma frame_or_conflict `{!DataFrame R} {A} (m : M World A) c : keeps R m -> keeps R (or_conflict m c).
Proof. intros Hm. unfold or_conflict. keeps_tac. Qed.
Lemma frame_folder_by_name `{!DataFrame R} owner_id n key : keeps R (folder_by_name owner_id n key).
Proof. unfold folder_by_name. keeps_tac. Qed.
#[local] Hint Resolve frame_or_conflict frame_folder_by_name : keeps.
Lemma frame_folder_for `{!DataFrame R} owner_id p key : keeps R (folder_for owner_id p key).
Proof. unfold folder_for. keeps_tac. Qed.
Lemma same_listed key t ids : keeps same_state (listed key t ids).
Proof. unfold listed. keeps_tac. Qed.
Lemma same_get_password n key : keeps same_state (get_password n key).
Proof. unfold get_password. keeps_tac. Qed.
Lemma same_new_entry owner_id f : keeps same_state (new_entry owner_id f).
Proof. unfold new_entry. keeps_tac. Qed.
Lemma same_updated_history d p : keeps same_state (updated_history d p).
Proof. unfold updated_history. keeps_tac. Qed.
#[local] Hint Resolve frame_folder_for same_new_entry same_updated_history : keeps.
Lemma frame_create_password `{!DataFrame R} owner_id p key : keeps R (create_password owner_id p key).
Proof. unfold create_password. keeps_tac. Qed.
Lemma frame_update_password `{!DataFrame R} owner_id n p key : keeps R (update_password owner_id n p key).
Proof. unfold update_password. keeps_tac. Qed.
Lemma frame_set_favorite `{!DataFrame R} n f key : keeps R (set_favorite n f key).
Proof. unfold set_favorite. keeps_tac. Qed.
Lemma frame_delete_password `{!DataFrame R} n key : keeps R (delete_password n key).
Proof. unfold delete_password. keeps_tac. Qed.
Lemma frame_restore_password `{!DataFrame R} n key i : keeps R (restore_password n key i).
Proof. unfold restore_password. keeps_tac. Qed.
Lemma frame_purge_password `{!DataFrame R} n key i : keeps R (purge_password n key i).
Proof. unfold purge_password. keeps_tac. Qed.
Lemma frame_upsert_entry `{!DataFrame R} owner_id ex key oc p :
  keeps R (upsert_entry owner_id ex key oc p).
Proof. unfold upsert_entry. keeps_tac. Qed.
#[local] Hint Resolve frame_upsert_entry : keeps.
Lemma frame_import_row `{!DataFrame R} owner_id key oc st r : keeps R (import_row owner_id key oc st r).
Proof. unfold import_row. keeps_tac. Qed.
#[local] Hint Resolve frame_import_row : keeps.
Lemma frame_store_import `{!DataFrame R} owner_id la ps ig key oc :
  keeps R la -> keeps R (store_import owner_id la ps ig key oc).
Proof. intros. unfold store_import. keeps_tac. apply frame_or_conflict. keeps_tac. Qed.
#[local] Hint Resolve frame_store_import : keeps.
Lemma frame_import_rows `{!DataFrame R} mv owner_id la fs rs key oc :
  keeps R la -> keeps R (import_rows owner_id la mv fs rs key oc).
Proof. intros. unfold import_rows. keeps_tac. Qed.
End PasswordFrames.
#[export] Hint Resolve frame_or_conflict frame_folder_by_name frame_folder_for
  same_listed same_get_password same_new_entry same_updated_history frame_create_password
  frame_update_password frame_set_favorite frame_delete_password
  frame_restore_password frame_purge_password frame_upsert_entry frame_import_row
  frame_store_import frame_import_rows : keeps.
