(* ===== verification/Schemas.v ===== *)
(** What the API accepts ([backend/schemas.py]): the request bodies with their field
    constraints and validators. A body is given field by field, in the types JSON
    has for it; what is left of a validation is a value or the first error of each
    field, in order. *)
From Stdlib Require Import ZArith Lia Strings.String Strings.Byte.
From stdpp Require Import base list sets.
From S2P Require Import Prelude Crypto Platform Validators Concrete Models Password.

(** White space as pydantic strips it: Unicode's property of that name, which
    [str.isspace] includes. *)
Class Pydantic `{Text} := {
  white_space : N -> bool;
}.
Class PydanticLaws `{Pydantic} : Prop := {
  white_space_is_space c : white_space c = true -> is_space c = true;
}.

(** An error of a field: where, and what *)
Definition problem : Type := pystr * pystr.
Definition field_of {A} (field : string) (r : res A) : problem + A :=
  match r with
  | Ok a => inr a
  | Err (ValueError detail) => inl (str field, str "Value error, " ++ detail)
  | Err _ => inl (str field, [])
  end.

Definition NOT_UNICODE : pystr :=
  str "Input should be a valid string, unable to parse raw data as a unicode string".
Definition at_least (n : nat) : pystr :=
  str "String should have at least " ++ str_of_Z (Z.of_nat n)
  ++ str (if (n =? 1)%nat then " character" else " characters").
Definition at_most (n : nat) : pystr :=
  str "String should have at most " ++ str_of_Z (Z.of_nat n)
  ++ str (if (n =? 1)%nat then " character" else " characters").
Definition too_many (n got : nat) : pystr :=
  str "List should have at most " ++ str_of_Z (Z.of_nat n)
  ++ str " items after validation, not " ++ str_of_Z (Z.of_nat got).

(** Without the characters of [f] at both ends *)
Fixpoint drop_left (f : N -> bool) (s : pystr) : pystr :=
  match s with
  | c :: s' => if f c then drop_left f s' else s
  | [] => []
  end.
Definition drop_both (f : N -> bool) (s : pystr) : pystr := reverse (drop_left f (reverse (drop_left f s))).

Section Schemas.
Context `{Text} `{!Pydantic}.

Definition trim (s : pystr) : pystr := drop_both white_space s.

(** A constrained string: stripped where the schema says so, then measured *)
Definition constrained (field : string) (stripped : bool) (min : nat) (max : option nat) (s : pystr)
    : problem + pystr :=
  match utf8 s with
  | None => inl (str field, NOT_UNICODE)
  | Some _ =>
      let s := if stripped then trim s else s in
      if (length s <? min)%nat then inl (str field, at_least min)
      else match max with
           | Some max => if (max <? length s)%nat then inl (str field, at_most max) else inr s
           | None => inr s
           end
  end.
Definition or_absent {A B} (f : A -> problem + B) (o : option A) : problem + option B :=
  match o with
  | Some a => match f a with inr b => inr (Some b) | inl e => inl e end
  | None => inr None
  end.
Definition then_ {A B} (r : problem + A) (f : A -> problem + B) : problem + B :=
  match r with inr a => f a | inl e => inl e end.

(** ** Accounts *)

Definition is_username_char (c : N) : bool :=
  in_range 97 122 c || in_range 48 57 c || bool_decide (c ∈ [46; 95; 64; 45]%N).
(** [^[a-z0-9][a-z0-9._@-]*$] *)
Definition username_pattern (s : pystr) : bool :=
  match s with
  | c :: s => (in_range 97 122 c || in_range 48 57 c) && forallb is_username_char s
  | [] => false
  end.
(** [Username]: in lower case, stripped, two to 64 characters *)
Definition username_field (s : pystr) : problem + pystr :=
  then_ (constrained "username" true 2 (Some 64%nat) (lower s)) (fun s =>
  if username_pattern s then inr s
  else inl (str "username", str "String should match pattern '^[a-z0-9][a-z0-9._@-]*$'")).

(** A password as accounts enter it, and as the vault's routes take it *)
Definition password_field (field : string) (s : pystr) : problem + pystr :=
  constrained field false 1 (Some 1024%nat) s.
Definition stripped_password_field (field : string) (s : pystr) : problem + pystr :=
  constrained field true 1 (Some 1024%nat) s.
Definition strong (field : string) (s : pystr) : problem + pystr :=
  field_of field (validate_master_password_strength s).

Definition AuthPayload (name password : pystr) : problem + (pystr * pystr) :=
  then_ (username_field name) (fun name =>
  then_ (password_field "password" password) (fun password => inr (name, password))).
Definition AuthBootstrapPayload (name password : pystr) : problem + (pystr * pystr) :=
  then_ (AuthPayload name password) (fun '(name, password) =>
  then_ (strong "password" password) (fun password => inr (name, password))).
Definition UserCreatePayload (name : pystr) (role : UserRole) (temporary_password : option pystr)
    : problem + (pystr * UserRole * option pystr) :=
  then_ (username_field name) (fun name =>
  then_ (or_absent (password_field "temporary_password") temporary_password) (fun password =>
  then_ (field_of "" (if bool_decide (role ≠ service) then
           match password with
           | None => Err (ValueError (str "A temporary password is required for a human user."))
           | Some p => _ ← validate_master_password_strength p; Ok ()
           end
         else if is_some password then Err (ValueError (str "Service users do not use interactive passwords."))
         else Ok ()))
    (fun _ => inr (name, role, password)))).
Definition UserPasswordResetPayload (temporary_password : pystr) : problem + pystr :=
  then_ (password_field "temporary_password" temporary_password) (strong "temporary_password").
Definition PasswordChangePayload (current_password new_password : pystr) : problem + (pystr * pystr) :=
  then_ (password_field "current_password" current_password) (fun current =>
  then_ (then_ (password_field "new_password" new_password) (strong "new_password")) (fun new =>
  inr (current, new))).
Definition MasterPassword (master_password : pystr) : problem + pystr :=
  stripped_password_field "master_password" master_password.
Definition MasterPasswordCreatePayload (master_password : pystr) : problem + pystr :=
  then_ (MasterPassword master_password) (strong "master_password").
Definition MasterPasswordUpdatePayload (master_password new_master_password : pystr)
    : problem + (pystr * pystr) :=
  then_ (stripped_password_field "master_password" master_password) (fun current =>
  then_ (then_ (stripped_password_field "new_master_password" new_master_password)
           (strong "new_master_password")) (fun new =>
  inr (current, new))).

(** ** Folders, groups and settings *)

Definition MAX_FOLDER_LENGTH : nat := 200.
(** [FolderCreatePayload] and [GroupCreatePayload]: a stripped name without NUL *)
Definition named (max : nat) (name : pystr) : problem + pystr :=
  then_ (constrained "name" true 1 (Some max) name) (fun name =>
  then_ (field_of "name" (reject_nul (Some name))) (fun _ => inr name)).
Definition FolderCreatePayload (name : pystr) : problem + pystr := named MAX_FOLDER_LENGTH name.
Definition GroupCreatePayload (name : pystr) : problem + pystr := named 100 name.

(** [Field(ge=..., le=...)] *)
Definition between (field : string) (low high n : Z) : problem + Z :=
  if n <? low then inl (str field, str "Input should be greater than or equal to " ++ str_of_Z low)
  else if high <? n then inl (str field, str "Input should be less than or equal to " ++ str_of_Z high)
  else inr n.
Definition SettingsUpdate (s : SettingsModel) : problem + SettingsModel :=
  then_ (between "inactivity_ms" 30000 3600000 (inactivity_ms s)) (fun _ =>
  then_ (between "warn_before_ms" 5000 600000 (warn_before_ms s)) (fun _ =>
  then_ (between "hidden_ms" 10000 3600000 (hidden_ms s)) (fun _ =>
  then_ (between "debounce_ms" 100 10000 (debounce_ms s)) (fun _ =>
  then_ (between "clipboard_clear_ms" 5000 600000 (clipboard_clear_ms s)) (fun _ =>
  if inactivity_ms s <=? warn_before_ms s
  then inl ([], str "Value error, warn_before_ms must be shorter than inactivity_ms.")
  else inr s))))).

(** ** Entries *)

Definition MAX_TAGS : nat := 20.
Definition MAX_CUSTOM_FIELDS : nat := 30.
Definition MAX_FIELD_LABEL : nat := 100.
Definition MAX_FIELD_VALUE : nat := 4096.
Definition MAX_DESCRIPTION_LENGTH : nat := 10000.

(** A custom field as it may be handed to [Password]: a mapping, a [CustomField],
    which is taken as it is, or an instance of another model *)
Inductive FieldInput :=
  | FieldDict (f : StoredField)
  | FieldModel (f : StoredField)
  | OtherModel (f : StoredField).
Record PasswordInput := {
  in_name : pystr;
  in_kind : pystr;
  in_username : option pystr;
  in_value : pystr;
  in_url : option pystr;
  in_totp_secret : option pystr;
  in_description : option pystr;
  in_tags : list pystr;
  in_custom_fields : list FieldInput;
  in_folder : option pystr;
  in_folder_id : option Z;
  in_favorite : bool;
}.

(** Each item, then the number of them *)
Definition each {A B} (f : A -> problem + B) (l : list A) : problem + list B :=
  foldr (fun a r => then_ (f a) (fun b => then_ r (fun l => inr (b :: l)))) (inr []) l.
Definition list_field {A B} (field : string) (max : nat) (f : A -> problem + B) (l : list A)
    : problem + list B :=
  if (max <? length l)%nat then inl (str field, too_many max (length l)) else each f l.

Definition CustomField (f : StoredField) : problem + StoredField :=
  then_ (constrained "custom_fields" true 0 (Some MAX_FIELD_LABEL) (field_label f)) (fun label =>
  then_ (constrained "custom_fields" true 0 (Some MAX_FIELD_VALUE) (field_value f)) (fun value =>
  inr {| field_label := label; field_value := value; field_hidden := field_hidden f |})).
Definition custom_field (i : FieldInput) : problem + StoredField :=
  match i with
  | FieldDict f => CustomField f
  | FieldModel f => inr f
  | OtherModel _ =>
      inl (str "custom_fields", str "Input should be a valid dictionary or instance of CustomField")
  end.
(** [_clean_custom_fields], [_clean_kind] and [_clean_folder] *)
Definition clean_custom_fields (l : list StoredField) : list StoredField :=
  filter (fun f => field_label f ≠ []) l.
Definition clean_kind (s : pystr) : Kind := if bool_decide (s = str "note") then note else login.
Definition clean_folder (o : option pystr) : option pystr :=
  match o with Some [] => None | _ => o end.

Definition text_field (field : string) (max : nat) : option pystr -> problem + option pystr :=
  or_absent (constrained field true 0 (Some max)).
(** The validators of [password_name] after its constraints *)
Definition name_field (s : pystr) : problem + pystr :=
  then_ (constrained "password_name" true 1 (Some 255%nat) s) (fun s =>
  then_ (field_of "password_name" (reject_nul (Some s))) (fun _ =>
  then_ (field_of "password_name" (addressable_name (Some s))) (fun _ => inr s))).
Definition storable_field (field : string) (max : nat) (o : option pystr) : problem + option pystr :=
  then_ (text_field field max o) (fun o => field_of field (reject_nul o)).
Definition totp_field (o : option pystr) : problem + option pystr :=
  then_ (text_field "totp_secret" 512 o) (fun o => field_of "totp_secret" (normalize_totp_secret o)).
Definition tags_field (l : list pystr) : problem + list pystr :=
  then_ (list_field "tags" MAX_TAGS (constrained "tags" true 0 None) l) (fun l => inr (clean_tags l)).
Definition folder_id_field (o : option Z) : problem + option Z :=
  or_absent (fun n => if 0 <? n then inr n else inl (str "folder_id", str "Input should be greater than 0")) o.

(** [Password.model_validate] *)
Definition validate_password (i : PasswordInput) : problem + Password :=
  then_ (name_field (in_name i)) (fun name =>
  then_ (constrained "kind" true 0 None (in_kind i)) (fun kind =>
  then_ (storable_field "username" 255 (in_username i)) (fun username =>
  then_ (constrained "password_value" false 1 None (in_value i)) (fun value =>
  then_ (text_field "url" 2048 (in_url i)) (fun url =>
  then_ (totp_field (in_totp_secret i)) (fun totp =>
  then_ (storable_field "description" MAX_DESCRIPTION_LENGTH (in_description i)) (fun description =>
  then_ (tags_field (in_tags i)) (fun tags =>
  then_ (list_field "custom_fields" MAX_CUSTOM_FIELDS custom_field (in_custom_fields i)) (fun fields =>
  then_ (text_field "folder" MAX_FOLDER_LENGTH (in_folder i)) (fun folder =>
  then_ (folder_id_field (in_folder_id i)) (fun folder_id =>
  inr {| password_name := name; pw_kind := clean_kind kind; pw_username := username;
         password_value := value; pw_url := url; pw_totp_secret := totp;
         pw_description := description; pw_tags := tags;
         pw_custom_fields := clean_custom_fields fields; pw_folder := clean_folder folder;
         pw_folder_id := folder_id; pw_favorite := in_favorite i |}))))))))))).

Definition kind_text (k : Kind) : pystr := match k with login => str "login" | note => str "note" end.
(** The fields of a row of a CSV file, as [import_csv] hands them to [Password] *)
Definition row_input (f : ImportFields) : PasswordInput :=
  {| in_name := if_name f; in_kind := kind_text (if if_note f then note else login);
     in_username := if_username f; in_value := if_value f; in_url := if_url f;
     in_totp_secret := if_totp_secret f; in_description := if_description f; in_tags := [];
     in_custom_fields := []; in_folder := if_folder f; in_folder_id := None; in_favorite := false |}.
Definition validate_row (f : ImportFields) : problem + Password := validate_password (row_input f).
(** A [Password] given again, field by field *)
Definition as_input (p : Password) : PasswordInput :=
  {| in_name := password_name p; in_kind := kind_text (pw_kind p); in_username := pw_username p;
     in_value := password_value p; in_url := pw_url p; in_totp_secret := pw_totp_secret p;
     in_description := pw_description p; in_tags := pw_tags p;
     in_custom_fields := map FieldDict (pw_custom_fields p); in_folder := pw_folder p;
     in_folder_id := pw_folder_id p; in_favorite := pw_favorite p |}.
End Schemas.

(** ** What a validation leaves *)

Section Edges.
Context (f : N -> bool).
(** [s] neither begins nor ends with a character of [f]. *)
Definition edges (s : pystr) : Prop :=
  (forall c, head s = Some c -> f c = false) ∧ (forall c, last s = Some c -> f c = false).
Lemma drop_left_suffix s : drop_left f s `suffix_of` s.
Proof.
  induction s as [|c s IH]; [done|]. cbn. destruct (f c); [|done]. by apply suffix_cons_r.
Qed.
Lemma drop_left_head s c : head (drop_left f s) = Some c -> f c = false.
Proof. induction s as [|d s IH]; [done|]. cbn. destruct (f d) eqn:E; [done|]. by intros [= <-]. Qed.
Lemma drop_left_fixed s : (forall c, head s = Some c -> f c = false) -> drop_left f s = s.
Proof. destruct s as [|c s]; [done|]. intros Hc. cbn. by rewrite Hc. Qed.
Lemma last_reverse (s : pystr) : last (reverse s) = head s.
Proof. destruct s as [|c s]; [done|]. by rewrite reverse_cons, last_snoc. Qed.
Lemma head_reverse (s : pystr) : head (reverse s) = last s.
Proof. by rewrite <- (reverse_involutive s) at 2; rewrite last_reverse. Qed.
Lemma drop_both_edges s : edges (drop_both f s).
Proof.
  unfold drop_both. split; intros c.
  - rewrite head_reverse. intros Hl. destruct (drop_left_suffix (reverse (drop_left f s))) as [k Hk].
    apply (f_equal last) in Hk. rewrite last_reverse, last_app, Hl in Hk. by apply drop_left_head in Hk.
  - rewrite last_reverse. apply drop_left_head.
Qed.
Lemma drop_both_fixed s : edges s -> drop_both f s = s.
Proof.
  intros [Hh Hl]. unfold drop_both. rewrite (drop_left_fixed s) by done.
  rewrite drop_left_fixed; [apply reverse_involutive|]. intros c. rewrite head_reverse. apply Hl.
Qed.
Lemma drop_both_incl s c : c ∈ drop_both f s -> c ∈ s.
Proof.
  unfold drop_both. rewrite elem_of_reverse. intros Hc. destruct (drop_left_suffix (reverse (drop_left f s))) as [k Hk].
  assert (c ∈ drop_left f s) as Hd by (rewrite <- elem_of_reverse, Hk; set_solver).
  destruct (drop_left_suffix s) as [k' Hk']. rewrite Hk'. set_solver.
Qed.
Lemma length_drop_both s : (length (drop_both f s) ≤ length s)%nat.
Proof.
  unfold drop_both. rewrite length_reverse. etrans; [apply suffix_length, drop_left_suffix|].
  rewrite length_reverse. apply suffix_length, drop_left_suffix.
Qed.
End Edges.

Lemma edges_mono (f g : N -> bool) s : (forall c, f c = true -> g c = true) -> edges g s -> edges f s.
Proof.
  intros Hfg [Hh Hl]. split; intros c Hc; (destruct (f c) eqn:E; [|done]); apply Hfg in E;
    [apply Hh in Hc|apply Hl in Hc]; congruence.
Qed.
Lemma utf8_forall s : is_Some (utf8 s) ↔ Forall (fun c => is_Some (utf8_char c)) s.
Proof.
  induction s as [|c s IH]; [by split; [constructor|eexists]|]. rewrite Forall_cons, <- IH.
  change (utf8 (c :: s)) with (match utf8_char c, utf8 s with Some x, Some y => Some (x ++ y) | _, _ => None end). split.
  - intros [x Hx]. destruct (utf8_char c); [|done]. destruct (utf8 s); [|done]. split; by eexists.
  - intros [[a ->] [b ->]]. by eexists.
Qed.
Lemma utf8_incl s t : (forall c, c ∈ t -> c ∈ s) -> is_Some (utf8 s) -> is_Some (utf8 t).
Proof. rewrite !utf8_forall, !Forall_forall. eauto. Qed.

Section Validated.
Context `{Text} `{!Pydantic} `{!TextLaws} `{!PydanticLaws}.

Lemma trim_incl s c : c ∈ trim s -> c ∈ s.
Proof. apply drop_both_incl. Qed.
Lemma trim_trim s : trim (trim s) = trim s.
Proof. apply drop_both_fixed, drop_both_edges. Qed.
Lemma strip_drop s : strip s = drop_both is_space s.
Proof.
  assert (forall s, lstrip s = drop_left is_space s) as E by (clear s; induction s as [|c s IH]; [done|]; cbn; by rewrite IH).
  unfold strip, drop_both. by rewrite !E.
Qed.
Lemma trim_stripped s : edges is_space s -> trim s = s.
Proof. intros Hs. apply drop_both_fixed. eapply edges_mono; [apply white_space_is_space|done]. Qed.

(** A constrained string satisfies its constraints, and is accepted again. *)
Definition text_ok (min : nat) (max : option nat) (s : pystr) : Prop :=
  is_Some (utf8 s) ∧ (min ≤ length s)%nat ∧ match max with Some n => (length s ≤ n)%nat | None => True end.
Lemma constrained_ok field st min max s t :
  constrained field st min max s = inr t ->
  text_ok min max t ∧ (st = true -> trim t = t) ∧ forall c, c ∈ t -> c ∈ s.
Proof.
  unfold constrained, text_ok. destruct (utf8 s) as [b|] eqn:Eu; [|done].
  set (u := if st then trim s else s). intros Hc.
  assert (forall c, c ∈ u -> c ∈ s) as Hin by (unfold u; destruct st; [intros c; apply trim_incl|done]).
  assert (is_Some (utf8 u)) as Hu by (apply (utf8_incl s); [done|by eexists]).
  assert (st = true -> trim u = u) as Ht by (unfold u; intros ->; apply trim_trim).
  destruct (length u <? min)%nat eqn:E1; [done|]. apply Nat.ltb_ge in E1.
  destruct max as [n|]; [destruct (n <? length u)%nat eqn:E2; [done|]; apply Nat.ltb_ge in E2|];
    injection Hc as <-; done.
Qed.
Lemma constrained_again field st min max t :
  text_ok min max t -> (st = true -> trim t = t) -> constrained field st min max t = inr t.
Proof.
  intros (Hu & Hmin & Hmax) Ht. unfold constrained. destruct (utf8 t); [|by destruct Hu].
  replace (if st then trim t else t) with t by (destruct st; [by rewrite Ht|done]).
  rewrite (proj2 (Nat.ltb_ge _ _) Hmin). destruct max as [n|]; [|done]. by rewrite (proj2 (Nat.ltb_ge _ _) Hmax).
Qed.

Lemma then_inr {A B} (r : problem + A) (f : A -> problem + B) b :
  then_ r f = inr b ↔ ∃ a, r = inr a ∧ f a = inr b.
Proof. destruct r as [e|a]; cbn; [split; [done|by intros (? & [=] & _)]|]. split; [eauto|by intros (? & [= ->] & ?)]. Qed.
Lemma or_absent_inr {A B} (f : A -> problem + B) o b :
  or_absent f o = inr b ↔ match o with Some a => ∃ x, f a = inr x ∧ b = Some x | None => b = None end.
Proof.
  destruct o as [a|]; cbn; [|split; congruence]. destruct (f a) as [e|x].
  - split; [done|]. by intros (? & [=] & _).
  - split; [intros [= <-]; eauto|by intros (? & [= ->] & ->)].
Qed.
Lemma field_of_inr {A} field (r : res A) a : field_of field r = inr a ↔ r = Ok a.
Proof. destruct r as [x|e]; cbn; [split; congruence|]. by destruct e. Qed.

Lemma each_inr {A B} (f : A -> problem + B) l m : each f l = inr m ↔ Forall2 (fun a b => f a = inr b) l m.
Proof.
  revert m. induction l as [|a l IH]; intros m; cbn.
  - split; [intros [= <-]; constructor|by inversion 1].
  - rewrite then_inr. split.
    + intros (b & Hb & (m' & Hm & [= <-])%then_inr). constructor; [done|]. by apply IH.
    + inversion 1 as [|? b ? m' Hb Hm]; subst. exists b. split; [done|]. apply then_inr. exists m'. split; [by apply IH|done].
Qed.

Definition stripped (s : pystr) : Prop := trim s = s.
Lemma field_again field max s t :
  constrained field true 0 max s = inr t -> constrained field true 0 max t = inr t.
Proof. intros (Hok & Ht & _)%constrained_ok. by apply constrained_again. Qed.
Lemma text_field_again field max o o' :
  text_field field max o = inr o' -> text_field field max o' = inr o'.
Proof.
  unfold text_field. rewrite !or_absent_inr. destruct o as [s|]; [|by intros ->].
  intros (t & Ht%field_again & ->). by exists t.
Qed.

(** [clean_tags] keeps what it has cleaned. *)
Lemma clean_tag_fixed t :
  edges is_space t -> (length t ≤ MAX_TAG_LENGTH)%nat -> strip (take MAX_TAG_LENGTH (strip t)) = t.
Proof.
  intros He Hl. rewrite !strip_drop, (drop_both_fixed _ t) by done.
  rewrite take_ge by done. by apply drop_both_fixed.
Qed.
Lemma clean_tags_facts tags :
  Forall (fun t => edges is_space t ∧ forall c, c ∈ t -> ∃ s, s ∈ tags ∧ c ∈ s) (clean_tags tags) ∧
  (length (clean_tags tags) ≤ length tags)%nat.
Proof.
  unfold clean_tags. set (f := fun cleaned tag => _).
  assert (forall l acc, (forall t, t ∈ acc -> edges is_space t ∧ forall c, c ∈ t -> ∃ s, s ∈ tags ∧ c ∈ s) ->
    (forall s, s ∈ l -> s ∈ tags) ->
    Forall (fun t => edges is_space t ∧ forall c, c ∈ t -> ∃ s, s ∈ tags ∧ c ∈ s) (foldl f acc l) ∧
    (length (foldl f acc l) ≤ length acc + length l)%nat) as Hgen.
  { induction l as [|t l IH]; intros acc Hacc Hl; cbn [foldl].
    - split; [by apply Forall_forall|cbn; lia].
    - destruct (IH (f acc t)) as [HF HL].
      + intros u Hu. unfold f in Hu. destruct (_ && _); [|by apply Hacc].
        apply elem_of_app in Hu as [Hu| ->%list_elem_of_singleton]; [by apply Hacc|].
        split; [rewrite strip_drop; apply drop_both_edges|]. intros c Hc. exists t. split; [apply Hl; by left|].
        rewrite strip_drop in Hc. apply drop_both_incl in Hc. apply subseteq_take in Hc.
        rewrite strip_drop in Hc. by apply drop_both_incl in Hc.
      + intros s Hs. apply Hl. by right.
      + split; [done|]. assert (length (f acc t) ≤ S (length acc))%nat as Hs
          by (unfold f; destruct (_ && _); rewrite ?length_app; cbn; lia).
        cbn [length]. lia. }
  destruct (Hgen tags []) as [HF HL]; [by intros t ?%elem_of_nil|done|]. split; [done|]. cbn in HL. lia.
Qed.
Lemma clean_tags_again tags :
  NoDup tags -> Forall (fun t => t ≠ [] ∧ (length t ≤ MAX_TAG_LENGTH)%nat) tags -> Forall (edges is_space) tags ->
  clean_tags tags = tags.
Proof.
  intros Hn Ht He. unfold clean_tags.
  assert (forall l acc, NoDup (acc ++ l) -> Forall (fun t => t ≠ [] ∧ (length t ≤ MAX_TAG_LENGTH)%nat) l ->
    Forall (edges is_space) l -> foldl (fun cleaned tag =>
      let tag := strip (take MAX_TAG_LENGTH (strip tag)) in
      if bool_decide (tag ≠ []) && bool_decide (tag ∉ cleaned) then cleaned ++ [tag] else cleaned) acc l = acc ++ l) as Hgen.
  { induction l as [|t l IH]; intros acc Hnd Hl Hel; cbn [foldl]; [by rewrite app_nil_r|].
    apply Forall_cons in Hl as [[Hne Hlen] Hl]. apply Forall_cons in Hel as [Het Hel]. cbv zeta.
    rewrite clean_tag_fixed by done. apply NoDup_app in Hnd as (Ha & Hdis & Hnd).
    rewrite bool_decide_eq_true_2 by done. rewrite bool_decide_eq_true_2.
    2: { intros Hin. apply (Hdis t Hin). by left. }
    cbn [andb]. rewrite IH; [by rewrite <- app_assoc| |done|done].
    rewrite <- app_assoc. by apply NoDup_app. }
  by apply (Hgen tags []).
Qed.
Lemma tags_again l t : tags_field l = inr t -> tags_field t = inr t.
Proof.
  unfold tags_field, list_field. rewrite !then_inr. intros (m & Hm & [= <-]).
  destruct (MAX_TAGS <? length l)%nat eqn:El; [done|]. apply Nat.ltb_ge in El. apply each_inr in Hm.
  destruct (clean_tags_ok m) as [Hn Hok]. destruct (clean_tags_facts m) as [Hf Hlen].
  pose proof (Forall2_length _ _ _ Hm) as Hlm.
  exists (clean_tags m). split.
  - rewrite (proj2 (Nat.ltb_ge _ _)) by lia. apply each_inr. apply Forall_Forall2_diag.
    rewrite Forall_forall in Hf |- *. intros t Ht. destruct (Hf t Ht) as [He Hin].
    apply constrained_again; [|intros _; by apply trim_stripped]. split_and!; [|lia|done].
    apply utf8_forall, Forall_forall. intros c Hc. destruct (Hin c Hc) as (s & Hs & Hcs).
    apply list_elem_of_lookup in Hs as [i Hi]. eapply Forall2_lookup_r in Hm as (s0 & _ & Hs0); [|exact Hi].
    apply constrained_ok in Hs0 as ((Hu & _) & _ & _). apply utf8_forall in Hu. rewrite Forall_forall in Hu. by apply Hu.
  - f_equal. apply clean_tags_again; [done..|]. eapply Forall_impl; [exact Hf|]. by intros t [He _].
Qed.

Lemma name_again s t : name_field s = inr t -> name_field t = inr t.
Proof.
  unfold name_field. rewrite !then_inr. intros (u & (Hok & Ht & _)%constrained_ok & Hrest).
  assert (u = t) as ->.
  { apply then_inr in Hrest as (? & _ & Hrest). by apply then_inr in Hrest as (? & _ & [= ->]). }
  exists t. split; [by apply constrained_again|done].
Qed.
Lemma storable_again field max o o' : storable_field field max o = inr o' -> storable_field field max o' = inr o'.
Proof.
  unfold storable_field. rewrite !then_inr. intros (u & Hu & Hn).
  assert (u = o') as ->.
  { apply field_of_inr in Hn. unfold reject_nul in Hn. destruct u as [s|]; [|congruence]. case_bool_decide; congruence. }
  exists o'. split; [by eapply text_field_again|done].
Qed.
Lemma ascii_text s : Forall (fun c => is_ascii_alnum c = true) s -> is_Some (utf8 s) ∧ edges is_space s.
Proof.
  intros Hs. rewrite Forall_forall in Hs. split.
  - apply utf8_forall, Forall_forall. intros c Hc. apply Hs in Hc. unfold utf8_char.
    assert (Z.of_N c <? 128 = true) as ->; [|by eexists]. apply Z.ltb_lt.
    unfold is_ascii_alnum, in_range in Hc. rewrite !orb_true_iff, !andb_true_iff, !N.leb_le in Hc. lia.
  - split; intros c Hc; apply is_space_alnum, Hs; [by apply head_Some_elem_of|by apply last_Some_elem_of].
Qed.
Lemma totp_again o o' :
  totp_field o = inr o' -> match o' with Some v => (length v ≤ 512)%nat | None => True end -> totp_field o' = inr o'.
Proof.
  unfold totp_field. rewrite !then_inr. intros (u & _ & Hn%field_of_inr) Hl. exists o'.
  destruct o' as [v|]; [|split; [done|by apply field_of_inr]].
  apply normalize_totp_Ok in Hn as [Hne Hb]. split; [|by apply field_of_inr, normalize_base32].
  assert (Forall (fun c => is_ascii_alnum c = true) v) as Ha
    by (eapply Forall_impl; [exact Hb|]; intros c Hc; by apply base32_facts in Hc as (_ & ? & _)).
  apply ascii_text in Ha as [Hu He]. unfold text_field. apply or_absent_inr. exists v. split; [|done].
  apply constrained_again; [|intros _; by apply trim_stripped]. split_and!; [done|lia|done].
Qed.
Lemma custom_fields_again l l' :
  (forall i, i ∈ l -> ∃ f, i = FieldDict f) ->
  list_field "custom_fields" MAX_CUSTOM_FIELDS custom_field l = inr l' ->
  list_field "custom_fields" MAX_CUSTOM_FIELDS custom_field (map FieldDict (clean_custom_fields l'))
    = inr (clean_custom_fields l').
Proof.
  intros Hd. unfold list_field. destruct (MAX_CUSTOM_FIELDS <? length l)%nat eqn:El; [done|].
  apply Nat.ltb_ge in El. intros Hm%each_inr. pose proof (Forall2_length _ _ _ Hm) as Hlen.
  assert (length (clean_custom_fields l') ≤ length l')%nat as Hc by apply length_filter.
  rewrite length_map, (proj2 (Nat.ltb_ge _ _)) by lia. apply each_inr. apply Forall2_fmap_l, Forall_Forall2_diag.
  apply Forall_forall. intros f [_ Hf]%list_elem_of_filter. apply list_elem_of_lookup in Hf as [i Hi].
  eapply Forall2_lookup_r in Hm as (x & Hx & Hxf); [|exact Hi].
  destruct (Hd x) as [g ->]; [by eapply list_elem_of_lookup_2|]. cbn in Hxf. unfold CustomField in Hxf.
  apply then_inr in Hxf as (label & (Hlo & Hlt & _)%constrained_ok & Hxf).
  apply then_inr in Hxf as (value & (Hvo & Hvt & _)%constrained_ok & [= <-]).
  cbn. unfold CustomField. cbn [field_label field_value field_hidden].
  by rewrite !constrained_again.
Qed.
Lemma clean_custom_fields_again l : clean_custom_fields (clean_custom_fields l) = clean_custom_fields l.
Proof. unfold clean_custom_fields. rewrite list_filter_filter. apply list_filter_iff. naive_solver. Qed.
Lemma kind_again k : constrained "kind" true 0 None (kind_text k) = inr (kind_text k) ∧ clean_kind (kind_text k) = k.
Proof.
  split; [|by destruct k]. assert (Forall (fun c => is_ascii_alnum c = true) (kind_text k)) as Ha
    by (destruct k; repeat constructor).
  apply ascii_text in Ha as [Hu He]. apply constrained_again; [|intros _; by apply trim_stripped]. split_and!; [done|lia|done].
Qed.

(** What an entry of the API satisfies *)
Definition password_ok (p : Password) : Prop :=
  text_ok 1 (Some 255%nat) (password_name p) ∧ trim (password_name p) = password_name p ∧
  0%N ∉ password_name p ∧ password_name p ∉ [str "."; str ".."; str "trash"] ∧
  text_ok 1 None (password_value p) ∧
  NoDup (pw_tags p) ∧ (length (pw_tags p) ≤ MAX_TAGS)%nat ∧
  Forall (fun t => t ≠ [] ∧ (length t ≤ MAX_TAG_LENGTH)%nat) (pw_tags p) ∧
  Forall (fun f => field_label f ≠ []) (pw_custom_fields p) ∧
  (length (pw_custom_fields p) ≤ MAX_CUSTOM_FIELDS)%nat ∧
  match pw_totp_secret p with Some v => v ≠ [] ∧ base32_text v | None => True end ∧
  pw_folder p ≠ Some [].

Lemma name_ok s t :
  name_field s = inr t ->
  text_ok 1 (Some 255%nat) t ∧ trim t = t ∧ 0%N ∉ t ∧ t ∉ [str "."; str ".."; str "trash"].
Proof.
  unfold name_field. intros (u & (Hok & Ht & _)%constrained_ok & Hn)%then_inr.
  apply then_inr in Hn as (v & Hnul%field_of_inr & Hn). apply then_inr in Hn as (w & Ha%field_of_inr & [= ->]).
  unfold reject_nul in Hnul. case_bool_decide as E0; [done|]. unfold addressable_name in Ha.
  case_bool_decide as E1; [done|]. case_bool_decide as E2; [done|]. split_and!; [apply Hok..|by apply Ht|done|].
  rewrite !elem_of_cons, elem_of_nil. naive_solver.
Qed.
Lemma tags_ok l t :
  tags_field l = inr t ->
  NoDup t ∧ (length t ≤ MAX_TAGS)%nat ∧ Forall (fun t => t ≠ [] ∧ (length t ≤ MAX_TAG_LENGTH)%nat) t.
Proof.
  unfold tags_field, list_field. intros (m & Hm & [= <-])%then_inr.
  destruct (MAX_TAGS <? length l)%nat eqn:El; [done|]. apply Nat.ltb_ge in El.
  apply each_inr, Forall2_length in Hm. destruct (clean_tags_ok m) as [? ?]. destruct (clean_tags_facts m) as [_ ?].
  split_and!; [done|lia|done].
Qed.
Lemma fields_ok l l' :
  list_field "custom_fields" MAX_CUSTOM_FIELDS custom_field l = inr l' ->
  Forall (fun f => field_label f ≠ []) (clean_custom_fields l') ∧
  (length (clean_custom_fields l') ≤ MAX_CUSTOM_FIELDS)%nat.
Proof.
  unfold list_field. destruct (_ <? length l)%nat eqn:El; [done|]. apply Nat.ltb_ge in El.
  intros Hm%each_inr%Forall2_length. split; [apply Forall_forall; by intros f [? _]%list_elem_of_filter|].
  pose proof (length_filter (fun f => field_label f ≠ []) l'). unfold clean_custom_fields. lia.
Qed.
Lemma folder_id_again o o' : folder_id_field o = inr o' -> folder_id_field o' = inr o'.
Proof.
  unfold folder_id_field. rewrite !or_absent_inr. destruct o as [n|]; [|by intros ->].
  intros (m & Hm & ->). destruct (0 <? n) eqn:E; [|done]. injection Hm as <-. exists n. by rewrite E.
Qed.
Lemma folder_again o o' :
  text_field "folder" MAX_FOLDER_LENGTH o = inr o' ->
  text_field "folder" MAX_FOLDER_LENGTH (clean_folder o') = inr (clean_folder o') ∧
  clean_folder (clean_folder o') = clean_folder o'.
Proof. intros ?%text_field_again. by destruct o' as [[|c s]|]. Qed.

End Validated.

(** ** A schema for the ASCII part of Unicode, and an entry it accepts *)

#[export] Instance demo_pydantic : Pydantic := {| white_space c := in_range 9 13 c || (c =? 32)%N |}.
#[export] Instance demo_pydantic_laws : PydanticLaws.
Proof. by split. Qed.

Definition untidy_entry : PasswordInput :=
  {| in_name := str "  mail "; in_kind := str "card"; in_username := Some (str " root "); in_value := str " s3cret ";
     in_url := None; in_totp_secret := Some (str "jbsw y3dp"); in_description := Some (str "");
     in_tags := [str "home"; str " "; str "work "; str "home"];
     in_custom_fields := [FieldDict {| field_label := str " pin "; field_value := str "1234"; field_hidden := true |};
                          FieldDict {| field_label := str " "; field_value := str "lost"; field_hidden := false |}];
     in_folder := Some (str " "); in_folder_id := Some 3; in_favorite := true |}.
Definition tidy_entry : Password :=
  {| password_name := str "mail"; pw_kind := login; pw_username := Some (str "root"); password_value := str " s3cret ";
     pw_url := None; pw_totp_secret := Some (str "JBSWY3DP"); pw_description := Some (str "");
     pw_tags := [str "home"; str "work"];
     pw_custom_fields := [{| field_label := str "pin"; field_value := str "1234"; field_hidden := true |}];
     pw_folder := None; pw_folder_id := Some 3; pw_favorite := true |}.
Lemma untidy_entry_accepted : validate_password untidy_entry = inr tidy_entry.
Proof. vm_compute. reflexivity. Qed.

