(* ===== verification/Attachment.v ===== *)
(** Attachments ([backend/crud/attachment.py]) and damaged rows
    ([backend/crud/damage.py]). *)
From Stdlib Require Import ZArith Lia Strings.String Strings.Byte.
From stdpp Require Import base list gmap.
From S2P Require Import Prelude Crypto Platform Models Engine Records.

Definition MAX_ATTACHMENT_BYTES : Z := 5 * 1024 * 1024.
Definition MAX_ATTACHMENTS_PER_ENTRY : Z := 20.
Definition MAX_TOTAL_BYTES : Z := 25 * 1024 * 1024.

Record AttachmentResponse := {
  ar_id : Z;
  ar_filename : pystr;
  ar_content_type : option pystr;
  ar_size_bytes : cell;
  ar_created : stamp;
}.

Definition attachment_response (id : Z) (a : AttachmentModel) (m : AttachmentMetadata)
    : AttachmentResponse :=
  {| ar_id := id; ar_filename := meta_filename m; ar_content_type := meta_content_type m;
     ar_size_bytes := size_bytes a; ar_created := attachment_created a |}.

(** The attachments of an entry, by id *)
Definition entry_attachments (d : DB) (entry_id : Z) : list (Z * AttachmentModel) :=
  filter (fun p => attachment_entry_id p.2 = entry_id) (rows (t_rows (attachments d))).
(** [sum(size_bytes)] *)
Definition attachment_bytes (l : list (Z * AttachmentModel)) : Z :=
  foldr (fun p acc => int_of (size_bytes p.2) + acc) 0 l.

Section Attachment.
Context `{Cryptography} `{Environment} `{Codec}.

Definition get_attachment (entry_id attachment_id : Z) : M World AttachmentModel :=
  a ← query (fun d => a ← t_rows (attachments d) !! attachment_id;
                      if attachment_entry_id a =? entry_id then Some a else None);
  lift (ok_or (NotFound (str "Attachment not found.")) a).

Definition list_attachments (name : pystr) (key : VaultKey) : M World (list AttachmentResponse) :=
  '(id, e, _) ← find_entry key name false None;
  models ← query (fun d => entry_attachments d id);
  foldM (fun (acc : list AttachmentResponse) p =>
    match open_attachment_metadata key p.1 p.2 (entry_uid e) with
    | Ok m => mret (acc ++ [attachment_response p.1 p.2 m])
    | Err x => if is_damaged x then mret acc else throw x
    end)
    (sorted_by (fun a b : Z * AttachmentModel =>
       stamp_le (Some (attachment_created a.2)) (Some (attachment_created b.2))) models) [].

Definition check_capacity (entry_id size : Z) : M World () :=
  l ← query (fun d => entry_attachments d entry_id);
  raise_if (MAX_ATTACHMENTS_PER_ENTRY <=? Z.of_nat (length l))
    (InvalidRequest (str "This entry already has the maximum of 20 attachments."));;
  raise_if (MAX_TOTAL_BYTES <? attachment_bytes l + size)
    (InvalidRequest (str "Attachments for this entry would exceed the 25 MB total limit.")).

Definition add_attachment (name filename : pystr) (content_type : option pystr) (data : bytes)
    (key : VaultKey) : M World AttachmentResponse :=
  raise_if (bool_decide (data = [])) (InvalidRequest (str "Attachment is empty."));;
  raise_if (MAX_ATTACHMENT_BYTES <? Z.of_nat (length data))
    (InvalidRequest (str "Attachment too large. Maximum size is 5 MB."));;
  '(eid, e, _) ← find_entry key name false None;
  check_capacity eid (Z.of_nat (length data));;
  uid ← new_uid;
  let metadata := {| meta_filename := filename; meta_content_type := content_type |} in
  a ← seal_attachment key
        {| attachment_uid := CBlob uid; attachment_created := BadTime; attachment_entry_id := eid;
           size_bytes := CNull; meta := CNull; content := CNull |} (entry_uid e) metadata data;
  id ← add_attachment_row a;
  saved ← query (fun d => default a (t_rows (attachments d) !! id));
  mret (attachment_response id saved metadata).

Definition get_attachment_data (name : pystr) (attachment_id : Z) (key : VaultKey)
    : M World (pystr * option pystr * bytes) :=
  '(eid, e, _) ← find_entry key name false None;
  a ← get_attachment eid attachment_id;
  m ← lift (open_attachment_metadata key attachment_id a (entry_uid e));
  data ← lift (open_attachment_content key attachment_id a (entry_uid e));
  mret (meta_filename m, meta_content_type m, data).

Definition delete_attachment (name : pystr) (attachment_id : Z) (key : VaultKey) : M World () :=
  '(eid, _, _) ← find_entry key name false None;
  _ ← get_attachment eid attachment_id;
  write_ (delete_attachment_row attachment_id).

(** ** Damage *)

Inductive DamagedKind := damaged_entries | damaged_attachments.

(** Whether opening fails as damage; anything else it raises is raised. *)
Definition fails_as_damage {A} (r : res A) : res bool :=
  match r with
  | Ok _ => Ok false
  | Err e => if is_damaged e then Ok true else Err e
  end.

Definition entry_is_damaged (key : VaultKey) (id : Z) (e : EntryModel) : res bool :=
  fails_as_damage (open_entry key id e).

Definition attachment_is_damaged (key : VaultKey) (d : DB) (id : Z) (a : AttachmentModel) : res bool :=
  match t_rows (entries d) !! attachment_entry_id a with
  | None => Ok true
  | Some e =>
      fails_as_damage
        (_ ← open_attachment_metadata key id a (entry_uid e);
         open_attachment_content key id a (entry_uid e))
  end.

Record DamagedRows := { dr_entries : list Z; dr_attachments : list Z }.

(** [self.entry_ids] and [self.owner_id] *)
Variable entry_ids : option (list Z).
Variable owner_id : option Z.

Definition in_scope (id : Z) : bool :=
  match entry_ids with None => true | Some ids => bool_decide (id ∈ ids) end.

Definition find_damaged (key : VaultKey) : M World DamagedRows :=
  d ← query (fun d => d);
  es ← foldM (fun (acc : list Z) p =>
         bad ← lift (entry_is_damaged key p.1 p.2); mret (if (bad : bool) then acc ++ [p.1] else acc))
         (filter (fun p => in_scope p.1 = true) (rows (t_rows (entries d)))) [];
  ats ← foldM (fun (acc : list Z) p =>
         bad ← lift (attachment_is_damaged key d p.1 p.2);
         mret (if (bad : bool) then acc ++ [p.1] else acc))
         (filter (fun p => in_scope (attachment_entry_id p.2) = true)
            (rows (t_rows (attachments d)))) [];
  mret {| dr_entries := es; dr_attachments := ats |}.

Definition remove_damaged (key : VaultKey) (kind : DamagedKind) (row_id : Z) : M World () :=
  let no_such_row := NotFound (str "No such row.") in
  let not_damaged := InvalidRequest (str "That row is not damaged; nothing was removed.") in
  match kind with
  | damaged_entries =>
      row ← query (fun d => t_rows (entries d) !! row_id);
      match row with
      | None => throw no_such_row
      | Some e =>
          raise_if (is_some owner_id && bool_decide (entry_owner_id e ≠ owner_id)) no_such_row;;
          bad ← lift (entry_is_damaged key row_id e);
          raise_unless bad not_damaged;;
          write_ (delete_entry_row row_id)
      end
  | damaged_attachments =>
      row ← query (fun d => t_rows (attachments d) !! row_id);
      match row with
      | None => throw no_such_row
      | Some a =>
          entry ← query (fun d => t_rows (entries d) !! attachment_entry_id a);
          raise_if (is_some owner_id && match entry with
                    | None => true
                    | Some e => bool_decide (entry_owner_id e ≠ owner_id)
                    end) no_such_row;;
          d ← query (fun d => d);
          bad ← lift (attachment_is_damaged key d row_id a);
          raise_unless bad not_damaged;;
          write_ (delete_attachment_row row_id)
      end
  end.

(** ** Frame conditions *)

Lemma same_get_attachment e a : keeps same_state (get_attachment e a).
Proof. unfold get_attachment. keeps_tac. Qed.
Lemma same_list_attachments n key : keeps same_state (list_attachments n key).
Proof. unfold list_attachments. keeps_tac. Qed.
Lemma same_check_capacity e s : keeps same_state (check_capacity e s).
Proof. unfold check_capacity. keeps_tac. Qed.
#[local] Hint Resolve same_get_attachment same_check_capacity : keeps.
Lemma frame_add_attachment `{!DataFrame R} n f c data key : keeps R (add_attachment n f c data key).
Proof. unfold add_attachment. keeps_tac. Qed.
Lemma same_get_attachment_data n i key : keeps same_state (get_attachment_data n i key).
Proof. unfold get_attachment_data. keeps_tac. Qed.
Lemma frame_delete_attachment `{!DataFrame R} n i key : keeps R (delete_attachment n i key).
Proof. unfold delete_attachment. keeps_tac. Qed.
Lemma same_find_damaged key : keeps same_state (find_damaged key).
Proof. unfold find_damaged. keeps_tac. Qed.
Lemma frame_remove_damaged `{!DataFrame R} key k i : keeps R (remove_damaged key k i).
Proof. unfold remove_damaged. keeps_tac. Qed.
End Attachment.
#[export] Hint Resolve same_get_attachment same_list_attachments same_check_capacity
  frame_add_attachment same_get_attachment_data frame_delete_attachment same_find_damaged
  frame_remove_damaged : keeps.
