(* ===== verification/Acl.v ===== *)
(** Who may do what to an entry ([EntryACL] of [backend/crud/access.py]) and the
    operations of an account on the entries it can reach
    ([AuthorizedPasswordCRUD], [AuthorizedAttachmentCRUD]). *)
From Stdlib Require Import ZArith Lia Strings.String Strings.Byte.
From stdpp Require Import base list gmap.
From S2P Require Import Prelude Crypto Platform Models Engine Records Context Folder Password Attachment.

Record EntryAccess := {
  ea_entry_id : Z;
  ea_owner_id : Z;
  ea_owner_username : pystr;
  ea_access : EntryPermission;
  ea_sources : list FolderAccessSource;
}.
Record ShareGrant := {
  sg_user_id : Z;
  sg_username : pystr;
  sg_role : UserRole;
  sg_permission : SharePermission;
  sg_expires_at : option Z;
}.
Record ShareTarget := {
  st_id : Z;
  st_username : pystr;
  st_role : UserRole;
}.

Definition not_found {A} : M World A := throw (NotFound (str "Password not found.")).

(** The permission of a user on an entry at a time: ownership of the entry or of
    its folder, or else the strongest grant in force. *)
Definition granted_permissions (d : DB) (now user_id entry_id : Z) (folder_id : option Z)
    : list SharePermission :=
  (match entry_access d !! (entry_id, user_id) with
   | Some g => if grant_active_at now (expires_at g) then [grant_permission g] else []
   | None => []
   end)
  ++ match folder_id with
     | Some fid => folder_permissions d now fid user_id
     | None => []
     end.
Definition owns_entry (d : DB) (user_id : Z) (e : EntryModel) : bool :=
  bool_decide (entry_owner_id e = Some user_id)
  || bool_decide ((fid ← folder_id e; folder_owner_id <$> t_rows (folders d) !! fid) = Some user_id).
Definition effective_permission_of (d : DB) (now user_id : Z) (entry_id : Z) (e : EntryModel)
    : option EntryPermission :=
  if owns_entry d user_id e then Some perm_owner
  else entry_permission <$> strongest (granted_permissions d now user_id entry_id (folder_id e)).

Section Acl.
Context `{Cryptography} `{Environment} `{Codec} `{Text}.
Variable context : AuthContext.

(** ** [EntryACL] *)

Definition permission (entry_id : Z) : M World EntryPermission :=
  row ← query (fun d => t_rows (entries d) !! entry_id);
  match row with
  | None => not_found
  | Some e =>
      if bool_decide (entry_owner_id e = Some (ctx_id context)) then mret perm_owner
      else
        now ← utc_now;
        folder_owner ← query (fun d => fid ← folder_id e;
                                       folder_owner_id <$> t_rows (folders d) !! fid);
        if bool_decide (folder_owner = Some (ctx_id context)) then mret perm_owner
        else
          ps ← query (fun d => granted_permissions d now (ctx_id context) entry_id (folder_id e));
          match strongest ps with
          | Some p => mret (entry_permission p)
          | None => not_found
          end
  end.

Definition sources (entry_id : Z) : M World (list FolderAccessSource) :=
  row ← query (fun d => t_rows (entries d) !! entry_id);
  match row with
  | None => not_found
  | Some e =>
      let user_id := ctx_id context in
      if bool_decide (entry_owner_id e = Some user_id) then
        mret [{| source := str "owner"; source_id := user_id; source_name := None;
                 source_permission := share_write; source_expires_at := None;
                 source_expired := false |}]
      else
        direct ← query (fun d => entry_access d !! (entry_id, user_id));
        direct_sources ← match direct with
          | None => mret []
          | Some g => s ← granted_source (str "entry") entry_id None g; mret [s]
          end;
        folder ← query (fun d => fid ← folder_id e; f ← t_rows (folders d) !! fid; Some (fid, f));
        match folder with
        | None => mret direct_sources
        | Some (fid, f) =>
            name ← lift (open_folder (ctx_key context) fid f);
            let owned :=
              if folder_owner_id f =? user_id then
                [{| source := str "folder_owner"; source_id := fid; source_name := Some name;
                    source_permission := share_write; source_expires_at := None;
                    source_expired := false |}]
              else [] in
            folder_direct ← query (fun d => folder_user_access d !! (fid, user_id));
            folder_sources ← match folder_direct with
              | None => mret []
              | Some g => s ← granted_source (str "folder") fid (Some name) g; mret [s]
              end;
            group_rows ← query (fun d => group_rows_for d fid user_id);
            group_sources ← forM group_rows (fun '((gid, g), group) =>
              n ← lift (open_group (ctx_key context) gid group);
              granted_source (str "group") gid (Some n) g);
            mret (direct_sources ++ owned ++ folder_sources ++ group_sources)
        end
  end.

Definition require (entry_id : Z) (needed : EntryPermission) : M World EntryPermission :=
  p ← permission entry_id;
  raise_if (bool_decide (needed = perm_owner) && bool_decide (p ≠ perm_owner))
    (Forbidden (str "Only the entry owner can perform this action."));;
  raise_if (bool_decide (needed = perm_write) && bool_decide (p = perm_read))
    (Forbidden (str "Write access is required."));;
  mret p.

Definition entry_by_name (name : pystr) (key : VaultKey) (needed : EntryPermission)
    (trashed : bool) (entry_id : option Z) : M World (Z * EntryModel) :=
  '(id, e, _) ← find_entry key name trashed entry_id;
  _ ← require id needed;
  mret (id, e).

(** The [WHERE] of [visible_ids], one [EXISTS] each *)
Definition visible (d : DB) (now : Z) (p : Z * EntryModel) : bool :=
  let user_id := ctx_id context in
  let active g := grant_active_at now (expires_at g) in
  bool_decide (entry_owner_id p.2 = Some user_id)
  || match entry_access d !! (p.1, user_id) with Some g => active g | None => false end
  || match folder_id p.2 with
     | None => false
     | Some fid =>
         match t_rows (folders d) !! fid with
         | Some f => folder_owner_id f =? user_id
         | None => false
         end
         || match folder_user_access d !! (fid, user_id) with Some g => active g | None => false end
         || existsb (fun x => active x.2) (group_grants d fid user_id)
     end.

Definition visible_ids (trashed : bool) : M World (list Z) :=
  now ← utc_now;
  query (fun d => map fst (filter (fun p =>
    Bool.eqb (is_some (deleted p.2)) trashed && visible d now p = true)
    (rows (t_rows (entries d))))).

Definition access_map (trashed : bool) : M World (list EntryAccess) :=
  ids ← visible_ids trashed;
  owned ← query (fun d => omap (fun id =>
    e ← t_rows (entries d) !! id; o ← entry_owner_id e; u ← t_rows (users d) !! o;
    Some (id, o, username u)) ids);
  forM owned (fun '(id, o, name) =>
    access ← permission id;
    ss ← sources id;
    mret {| ea_entry_id := id; ea_owner_id := o; ea_owner_username := name; ea_access := access;
            ea_sources := ss |}).

Definition list_shares (entry_id : Z) : M World (list ShareGrant) :=
  _ ← require entry_id perm_owner;
  query (fun d => sorted_by (fun a b => str_le (sg_username a) (sg_username b))
    (omap (fun p : Z * GrantModel => u ← t_rows (users d) !! p.1;
       Some {| sg_user_id := p.1; sg_username := username u; sg_role := user_role u;
               sg_permission := grant_permission p.2; sg_expires_at := expires_at p.2 |})
       (rows_of (entry_access d) entry_id))).

Definition entry_audit (act : pystr) (entry_id : Z) : AccessAuditModel :=
  audit_row (ctx_id context) act (str "entry") entry_id.

Definition set_share (entry_id user_id : Z) (p : SharePermission) (expires : option Z)
    : M World ShareGrant :=
  _ ← require entry_id perm_owner;
  e ← query (fun d => t_rows (entries d) !! entry_id);
  target ← query (fun d => t_rows (users d) !! user_id);
  match target with
  | None => throw (NotFound (str "Share target not found."))
  | Some u =>
      raise_if (negb (active u)) (NotFound (str "Share target not found."));;
      raise_if (bool_decide ((e ≫= entry_owner_id) = Some user_id))
        (InvalidRequest (str "The owner already has full access."));;
      grant ← query (fun d => entry_access d !! (entry_id, user_id));
      write (put_entry_access entry_id user_id
        {| grant_permission := p; expires_at := expires; granted_by := Some (ctx_id context) |});;
      add_audit (audit_granted p expires (audit_previous grant (audit_target_user user_id
        (entry_audit (if is_some grant then str "entry_grant_updated"
                      else str "entry_grant_created") entry_id))));;
      mret {| sg_user_id := user_id; sg_username := username u; sg_role := user_role u;
              sg_permission := p; sg_expires_at := expires |}
  end.

Definition revoke_share (entry_id user_id : Z) : M World () :=
  _ ← require entry_id perm_owner;
  grant ← query (fun d => entry_access d !! (entry_id, user_id));
  raise_if (negb (is_some grant)) (NotFound (str "Share not found."));;
  add_audit (audit_previous grant (audit_target_user user_id
    (entry_audit (str "entry_grant_revoked") entry_id)));;
  write_ (delete_entry_access entry_id user_id).

Definition entry_audit_events (entry_id : Z) : M World (list AuditEvent) :=
  _ ← require entry_id perm_owner;
  query (fun d => map (fun '(id, row) =>
    {| event_id := id; event := set_target_group_id None row;
       actor_username := username_of d (actor_user_id row);
       target_username := username_of d (target_user_id row); target_group_name := None |})
    (audit_rows d (str "entry") entry_id)).

Definition relinquish (entry_id : Z) : M World (option EntryPermission) :=
  p ← permission entry_id;
  raise_if (bool_decide (p = perm_owner))
    (Forbidden (str "The owner cannot relinquish their own entry."));;
  grant ← query (fun d => entry_access d !! (entry_id, ctx_id context));
  raise_if (negb (is_some grant))
    (InvalidRequest (str "This access is inherited from a folder or group and cannot be relinquished from the entry."));;
  add_audit (audit_previous grant (audit_target_user (ctx_id context)
    (entry_audit (str "entry_grant_relinquished") entry_id)));;
  write_ (delete_entry_access entry_id (ctx_id context));;
  catch (Some <$> permission entry_id)
    (fun x => match x with NotFound _ => mret None | _ => throw x end).

Definition share_targets : M World (list ShareTarget) :=
  query (fun d => sorted_by (fun a b => str_le (st_username a) (st_username b))
    (map (fun p => {| st_id := p.1; st_username := username p.2; st_role := user_role p.2 |})
       (filter (fun p => active p.2 = true ∧ p.1 ≠ ctx_id context) (rows (t_rows (users d)))))).

(** ** [AuthorizedPasswordCRUD] *)

Definition owner : option Z := Some (ctx_owner_id context).

Definition load_active : M World (gmap cell (Z * EntryModel)) :=
  query (fun d => foldl (fun m p => <[entry_name_index p.2 := p]> m) ∅
    (filter (fun p => deleted p.2 = None ∧ entry_owner_id p.2 = owner) (rows (t_rows (entries d))))).

Definition with_access (listing : list PasswordResponse) (trashed : bool)
    : M World (list PasswordResponse) :=
  access ← access_map trashed;
  forM listing (fun r =>
    match head (filter (fun a => ea_entry_id a = pr_id r) access) with
    | None => throw KeyError
    | Some a =>
        mret {| pr_id := pr_id r; pr_owner_id := Some (ea_owner_id a);
                pr_owner_username := Some (ea_owner_username a); pr_access := Some (ea_access a);
                pr_access_sources := ea_sources a; pr_document := pr_document r;
                pr_folder_id := pr_folder_id r; pr_backed_up := pr_backed_up r;
                pr_created := pr_created r; pr_updated := pr_updated r; pr_deleted := pr_deleted r;
                pr_attachment_count := pr_attachment_count r |}
    end).

Definition auth_get_passwords (key : VaultKey) : M World (list PasswordResponse) :=
  ids ← visible_ids false; l ← listed key false (Some ids); with_access l false.
Definition auth_get_trash (key : VaultKey) : M World (list PasswordResponse) :=
  ids ← visible_ids true; l ← listed key true (Some ids); with_access l true.

Definition auth_get_password (name : pystr) (key : VaultKey) : M World PasswordResponse :=
  '(id, e) ← entry_by_name name key perm_read false None;
  r ← get_password name key;
  o ← query (fun d => i ← entry_owner_id e; u ← t_rows (users d) !! i; Some u);
  match o with
  | None => throw NoResultFound
  | Some u =>
      access ← permission id;
      ss ← sources id;
      mret {| pr_id := pr_id r; pr_owner_id := entry_owner_id e;
              pr_owner_username := Some (username u); pr_access := Some access;
              pr_access_sources := ss; pr_document := pr_document r;
              pr_folder_id := pr_folder_id r; pr_backed_up := pr_backed_up r;
              pr_created := pr_created r; pr_updated := pr_updated r; pr_deleted := pr_deleted r;
              pr_attachment_count := pr_attachment_count r |}
  end.

(** [permission not in (EntryPermission.owner, EntryPermission.write)] *)
Definition may_write (p : option EntryPermission) : bool :=
  match p with Some perm_owner | Some perm_write => true | _ => false end.

Definition auth_create_password (p : Password) (key : VaultKey) : M World () :=
  folder ← match pw_folder_id p with
    | None => mret None
    | Some fid =>
        f ← get_folder fid;
        perm ← permission_for fid f (ctx_id context);
        raise_unless (may_write perm) (Forbidden (str "Write access to the folder is required."));;
        mret (Some f)
    end;
  create_password owner p key;;
  '(id, e, _) ← find_entry key (password_name p) false None;
  let o := match folder with Some f => folder_owner_id f | None => ctx_owner_id context end in
  save_entry id (set_entry_owner_id (Some o) e);;
  match folder_id e with
  | Some fid => add_audit (audit_row (ctx_id context) (str "entry_added") (str "folder") fid)
  | None => mret ()
  end;;
  if bool_decide (user_role (ctx_user context) = service) && bool_decide (folder_id e = None) then
    write (put_entry_access id (ctx_id context)
      {| grant_permission := share_write; expires_at := None; granted_by := owner |})
  else mret ().

Definition auth_update_password (name : pystr) (p : Password) (key : VaultKey) : M World () :=
  '(id, e) ← entry_by_name name key perm_write false None;
  current ← lift (open_entry key id e);
  let p := if bool_decide (pw_folder_id p = None) && bool_decide (folder_id e ≠ None)
              && bool_decide (pw_folder p = doc_folder current)
           then with_pw_folder_id (folder_id e) p else p in
  (if bool_decide (pw_folder_id p = folder_id e) then mret ()
   else
     _ ← require id perm_owner;
     match pw_folder_id p with
     | None => mret ()
     | Some fid =>
         f ← get_folder fid;
         perm ← permission_for fid f (ctx_id context);
         raise_unless (may_write perm) (Forbidden (str "Write access to the folder is required."));;
         raise_if (bool_decide (Some (folder_owner_id f) ≠ entry_owner_id e))
           (InvalidRequest (str "An entry can only be moved into a folder owned by its owner."))
     end;;
     match folder_id e with
     | Some fid => add_audit (audit_row (ctx_id context) (str "entry_removed") (str "folder") fid)
     | None => mret ()
     end;;
     match pw_folder_id p with
     | Some fid => add_audit (audit_row (ctx_id context) (str "entry_added") (str "folder") fid)
     | None => mret ()
     end);;
  update_password owner name p key.

Definition auth_set_favorite (name : pystr) (favorite : bool) (key : VaultKey) : M World () :=
  _ ← entry_by_name name key perm_write false None; set_favorite name favorite key.
Definition auth_delete_password (name : pystr) (key : VaultKey) : M World () :=
  _ ← entry_by_name name key perm_write false None; delete_password name key.
Definition auth_restore_password (name : pystr) (key : VaultKey) (entry_id : option Z) : M World () :=
  _ ← entry_by_name name key perm_write true entry_id; restore_password name key entry_id.
Definition auth_purge_password (name : pystr) (key : VaultKey) (entry_id : option Z) : M World () :=
  _ ← entry_by_name name key perm_owner true entry_id; purge_password name key entry_id.

Definition auth_import_rows (model_validate : ImportFields -> (pystr * pystr) + Password)
    (fieldnames : list pystr) (rs : list CsvRow) (key : VaultKey) (on_conflict : OnConflict)
    : M World PasswordImportResult :=
  import_rows owner load_active model_validate fieldnames rs key on_conflict.

(** ** [AuthorizedAttachmentCRUD] *)

Definition auth_list_attachments (name : pystr) (key : VaultKey) : M World (list AttachmentResponse) :=
  _ ← entry_by_name name key perm_read false None; list_attachments name key.
Definition auth_add_attachment (name filename : pystr) (content_type : option pystr) (data : bytes)
    (key : VaultKey) : M World AttachmentResponse :=
  _ ← entry_by_name name key perm_write false None; add_attachment name filename content_type data key.
Definition auth_get_attachment_data (name : pystr) (attachment_id : Z) (key : VaultKey)
    : M World (pystr * option pystr * bytes) :=
  _ ← entry_by_name name key perm_read false None; get_attachment_data name attachment_id key.
Definition auth_delete_attachment (name : pystr) (attachment_id : Z) (key : VaultKey) : M World () :=
  _ ← entry_by_name name key perm_write false None; delete_attachment name attachment_id key.
End Acl.

Section AclFrames.
Context `{Cryptography} `{Environment} `{Codec} `{Text}.
Implicit Types context : AuthContext.

Lemma same_not_found {A} : keeps same_state (not_found : M World A).
Proof. unfold not_found. keeps_tac. Qed.
#[local] Hint Resolve same_not_found : keeps.
Lemma same_permission context i : keeps same_state (permission context i).
Proof. unfold permission. keeps_tac. Qed.
Lemma same_sources context i : keeps same_state (sources context i).
Proof. unfold sources. keeps_tac. Qed.
#[local] Hint Resolve same_permission same_sources : keeps.
Lemma same_require context i n : keeps same_state (require context i n).
Proof. unfold require. keeps_tac. Qed.
#[local] Hint Resolve same_require : keeps.
Lemma same_entry_by_name context n key p t i : keeps same_state (entry_by_name context n key p t i).
Proof. unfold entry_by_name. keeps_tac. Qed.
Lemma same_visible_ids context t : keeps same_state (visible_ids context t).
Proof. unfold visible_ids. keeps_tac. Qed.
#[local] Hint Resolve same_entry_by_name same_visible_ids : keeps.
Lemma same_access_map context t : keeps same_state (access_map context t).
Proof. unfold access_map. keeps_tac. Qed.
#[local] Hint Resolve same_access_map : keeps.
Lemma same_list_shares context i : keeps same_state (list_shares context i).
Proof. unfold list_shares. keeps_tac. Qed.
Lemma frame_set_share `{!DataFrame R} context i u p e : keeps R (set_share context i u p e).
Proof. unfold set_share. keeps_tac. Qed.
Lemma frame_revoke_share `{!DataFrame R} context i u : keeps R (revoke_share context i u).
Proof. unfold revoke_share. keeps_tac. Qed.
Lemma same_entry_audit_events context i : keeps same_state (entry_audit_events context i).
Proof. unfold entry_audit_events. keeps_tac. Qed.
Lemma frame_relinquish `{!DataFrame R} context i : keeps R (relinquish context i).
Proof. unfold relinquish. keeps_tac. Qed.
Lemma same_share_targets context : keeps same_state (share_targets context).
Proof. unfold share_targets. keeps_tac. Qed.
Lemma same_load_active context : keeps same_state (load_active context).
Proof. unfold load_active. keeps_tac. Qed.
Lemma same_with_access context l t : keeps same_state (with_access context l t).
Proof. unfold with_access. keeps_tac. Qed.
#[local] Hint Resolve same_with_access same_load_active : keeps.
Lemma same_auth_get_passwords context key : keeps same_state (auth_get_passwords context key).
Proof. unfold auth_get_passwords. keeps_tac. Qed.
Lemma same_auth_get_trash context key : keeps same_state (auth_get_trash context key).
Proof. unfold auth_get_trash. keeps_tac. Qed.
Lemma same_auth_get_password context n key : keeps same_state (auth_get_password context n key).
Proof. unfold auth_get_password. keeps_tac. Qed.
Lemma frame_auth_create_password `{!DataFrame R} context p key :
  keeps R (auth_create_password context p key).
Proof. unfold auth_create_password. keeps_tac. Qed.
Lemma frame_auth_update_password `{!DataFrame R} context n p key :
  keeps R (auth_update_password context n p key).
Proof. unfold auth_update_password. keeps_tac. Qed.
Lemma frame_auth_set_favorite `{!DataFrame R} context n f key :
  keeps R (auth_set_favorite context n f key).
Proof. unfold auth_set_favorite. keeps_tac. Qed.
Lemma frame_auth_delete_password `{!DataFrame R} context n key :
  keeps R (auth_delete_password context n key).
Proof. unfold auth_delete_password. keeps_tac. Qed.
Lemma frame_auth_restore_password `{!DataFrame R} context n key i :
  keeps R (auth_restore_password context n key i).
Proof. unfold auth_restore_password. keeps_tac. Qed.
Lemma frame_auth_purge_password `{!DataFrame R} context n key i :
  keeps R (auth_purge_password context n key i).
Proof. unfold auth_purge_password. keeps_tac. Qed.
Lemma frame_auth_import_rows `{!DataFrame R} context mv fs rs key oc :
  keeps R (auth_import_rows context mv fs rs key oc).
Proof. unfold auth_import_rows. auto with keeps. Qed.
Lemma same_auth_list_attachments context n key :
  keeps same_state (auth_list_attachments context n key).
Proof. unfold auth_list_attachments. keeps_tac. Qed.
Lemma frame_auth_add_attachment `{!DataFrame R} context n f c data key :
  keeps R (auth_add_attachment context n f c data key).
Proof. unfold auth_add_attachment. keeps_tac. Qed.
Lemma same_auth_get_attachment_data context n i key :
  keeps same_state (auth_get_attachment_data context n i key).
Proof. unfold auth_get_attachment_data. keeps_tac. Qed.
Lemma frame_auth_delete_attachment `{!DataFrame R} context n i key :
  keeps R (auth_delete_attachment context n i key).
Proof. unfold auth_delete_attachment. keeps_tac. Qed.
End AclFrames.
#[export] Hint Resolve same_permission same_require same_entry_by_name same_visible_ids
  same_access_map same_list_shares frame_set_share frame_revoke_share
  same_entry_audit_events frame_relinquish same_share_targets same_load_active
  same_auth_get_passwords same_auth_get_trash same_auth_get_password frame_auth_create_password
  frame_auth_update_password frame_auth_set_favorite frame_auth_delete_password
  frame_auth_restore_password frame_auth_purge_password frame_auth_import_rows
  same_auth_list_attachments frame_auth_add_attachment same_auth_get_attachment_data
  frame_auth_delete_attachment : keeps.

Section AclFacts.
Context `{Cryptography} `{Environment} `{Codec} `{Text}.
Implicit Types context : AuthContext.

(** [permission] computes the effective permission at the time it reads. *)
Lemma permission_run context id w :
  (permission context id w).1 =
    match t_rows (entries (w_db w)) !! id with
    | None => Err (NotFound (str "Password not found."))
    | Some e =>
        ok_or (NotFound (str "Password not found."))
          (effective_permission_of (w_db w) (utc_clock (w_clock_reads w)) (ctx_id context) id e)
    end.
Proof.
  unfold permission, effective_permission_of, owns_entry.
  cbv [mbind M_bind query gets]. cbn beta iota.
  destruct (t_rows (entries (w_db w)) !! id) as [e|] eqn:E; [|done].
  case_bool_decide; [done|]. cbn [orb utc_now].
  change (w_db (w_set_clock_reads _ w)) with (w_db w). case_bool_decide; [done|].
  cbn. destruct (strongest _); done.
Qed.

Lemma permission_Ok context id w p w' :
  permission context id w = (Ok p, w') ->
  ∃ e, t_rows (entries (w_db w)) !! id = Some e ∧
    effective_permission_of (w_db w) (utc_clock (w_clock_reads w)) (ctx_id context) id e = Some p.
Proof.
  intros Hp. pose proof (permission_run context id w) as Hr. rewrite Hp in Hr. cbn in Hr.
  destruct (t_rows _ !! id) as [e|]; [|done].
  destruct (effective_permission_of _ _ _ _ _) eqn:Ee; [|done]. eexists. split; [done|].
  rewrite Ee. cbn in Hr. congruence.
Qed.

Lemma strongest_is_some ps : is_some (strongest ps) = negb (bool_decide (ps = [])).
Proof.
  destruct (strongest ps) as [p|] eqn:E.
  - rewrite bool_decide_eq_false_2; [done|]. by intros ->.
  - apply strongest_spec in E. subst. done.
Qed.

Lemma is_nil_app {A} (l k : list A) :
  negb (bool_decide (l ++ k = [])) = negb (bool_decide (l = [])) || negb (bool_decide (k = [])).
Proof. by destruct l, k. Qed.
Lemma is_nil_existsb {A B} (f : A -> B) (P : A -> bool) l :
  negb (bool_decide (map f (filter (fun x => P x = true) l) = [])) = existsb P l.
Proof.
  induction l as [|x l IH]; [done|]. rewrite filter_cons. simpl. by destruct (P x).
Qed.
Lemma is_nil_grant now (o : option GrantModel) :
  negb (bool_decide (match o with
    | Some g => if grant_active_at now (expires_at g) then [grant_permission g] else []
    | None => []
    end = [])) = match o with Some g => grant_active_at now (expires_at g) | None => false end.
Proof. destruct o as [g|]; [|done]. by destruct (grant_active_at _ _). Qed.

(** Listing and permission agree: an entry is in the visible list exactly when
    the caller has some permission on it. *)
Lemma visible_effective context d now id e :
  visible context d now (id, e) =
  is_some (effective_permission_of d now (ctx_id context) id e).
Proof.
  unfold visible, effective_permission_of, owns_entry. cbn [fst snd]. set (u := ctx_id context).
  destruct (bool_decide (entry_owner_id e = _)); [done|]. cbn [orb].
  assert (is_some (entry_permission <$> strongest (granted_permissions d now u id (folder_id e))) =
    match entry_access d !! (id, u) with Some g => grant_active_at now (expires_at g) | None => false end
    || match folder_id e with
       | None => false
       | Some fid =>
           match folder_user_access d !! (fid, u) with
           | Some g => grant_active_at now (expires_at g) | None => false end
           || existsb (fun x => grant_active_at now (expires_at x.2)) (group_grants d fid u)
       end) as Hg.
  { transitivity (is_some (strongest (granted_permissions d now u id (folder_id e))));
      [by destruct (strongest _)|].
    rewrite strongest_is_some. unfold granted_permissions. rewrite is_nil_app, is_nil_grant.
    f_equal. destruct (folder_id e) as [fid|]; [|done].
    unfold folder_permissions. by rewrite is_nil_app, is_nil_grant, is_nil_existsb. }
  destruct (folder_id e) as [fid|]; cbn [mbind option_bind].
  - destruct (t_rows (folders d) !! fid) as [f|]; cbn [fmap option_fmap option_map].
    + destruct (folder_owner_id f =? u) eqn:Ef.
      * apply Z.eqb_eq in Ef. rewrite bool_decide_eq_true_2 by congruence. simpl. by rewrite orb_true_r.
      * apply Z.eqb_neq in Ef. rewrite bool_decide_eq_false_2 by congruence. by rewrite Hg.
    + rewrite bool_decide_eq_false_2 by done. by rewrite Hg.
  - rewrite bool_decide_eq_false_2 by done. rewrite Hg. by rewrite orb_false_r.
Qed.
End AclFacts.
