(* ===== verification/MasterPassword.v ===== *)
(** Key records and the KDF ([create_key_material] and its neighbours in
    [backend/helpers.py], [backend/crud/master_password.py]), the vault's settings
    ([backend/crud/settings.py]) and master password sessions
    ([backend/crud/vault_access.py]). *)
From Stdlib Require Import ZArith Lia Strings.String Strings.Byte.
From stdpp Require Import base list gmap.
From S2P Require Import Prelude Crypto Platform Sessions Models Engine Records.

(** What the environment configures *)
Class Config := {
  (** [get_vault_defaults()] *)
  vault_defaults : SettingsModel;
  (** [get_api_settings().version] *)
  app_version : pystr;
}.

Definition INVALID_KEY : pystr := str "Invalid or expired vault key. Unlock the vault again.".
Definition MASTER_DAMAGED : pystr :=
  str "The vault's key record does not verify with this master password. The vault file may be damaged; restore a snapshot (docs/UPDATING.md).".
Definition ACCOUNT_DAMAGED : pystr :=
  str "An account key record failed to verify. The vault file may be damaged; restore a snapshot (docs/UPDATING.md).".
Definition UNREADABLE_KEY_FORMAT : pystr :=
  str "The vault uses a key format this release cannot read.".
Definition UNREADABLE_ACCOUNT_FORMAT : pystr :=
  str "The account uses a key format this release cannot read.".
Definition NO_KEY_RECORD : pystr :=
  str "The vault file holds records but no key record, so it is damaged. Restore a snapshot, or move it aside with 'ciphermoth-admin set-aside' to start a new vault (docs/UPDATING.md).".
Definition ENDED_SESSION : pystr :=
  str "Your session expired or was locked. Unlock the vault again.".

(** A key record read from its columns, none of which is trusted to have its type *)
Definition material_from (damaged_detail format_detail : pystr) (k : KeyColumns) : res KeyMaterial :=
  if negb (is_blob_of_length 16 (kdf_salt k) && is_blob_of_length 32 (password_check k)
           && is_blob_of_length 61 (wrapped_key k) && is_blob_of_length 32 (key_check k))
  then Err (InvalidRequest damaged_detail)
  else if bool_decide (kdf k ≠ CText KDF_NAME) then Err (InvalidRequest format_detail)
  else
    match require_supported (kdf_params k) with
    | Err (UnsupportedKdf detail) => Err (InvalidRequest detail)
    | Err e => Err e
    | Ok _ =>
        Ok {| km_params := kdf_params k; km_salt := blob_of (kdf_salt k);
              km_password_check := blob_of (password_check k);
              km_wrapped_key := blob_of (wrapped_key k); km_key_check := blob_of (key_check k) |}
    end.

Definition key_material (v : VaultModel) : res KeyMaterial :=
  material_from MASTER_DAMAGED UNREADABLE_KEY_FORMAT (vault_keys v).
Definition user_key_material (u : UserModel) : res KeyMaterial :=
  material_from ACCOUNT_DAMAGED UNREADABLE_ACCOUNT_FORMAT (user_keys u).

Definition stored_material (m : KeyMaterial) : KeyColumns :=
  {| kdf := CText KDF_NAME; kdf_params := km_params m; kdf_salt := CBlob (km_salt m);
     password_check := CBlob (km_password_check m); wrapped_key := CBlob (km_wrapped_key m);
     key_check := CBlob (km_key_check m) |}.
(** [_store] *)
Definition store_vault_material (m : KeyMaterial) (v : VaultModel) : VaultModel :=
  {| format_version := CInt FORMAT_VERSION; folder_links_ready := folder_links_ready v;
     owner_user_id := owner_user_id v; vault_keys := stored_material m |}.
Definition store_user_material (m : KeyMaterial) (u : UserModel) : UserModel :=
  set_user_keys (stored_material m) u.
(** [VaultModel(id=1)] before [_store] *)
Definition new_vault (owner : option Z) (m : KeyMaterial) : VaultModel :=
  {| format_version := CInt FORMAT_VERSION; folder_links_ready := false; owner_user_id := owner;
     vault_keys := stored_material m |}.

Section MasterPassword.
Context `{Cryptography} `{Environment} `{Codec} `{Config}.

(** ** The KDF, off the event loop *)

Definition derive (password : pystr) (salt : bytes) (params : KdfParams) : M World bytes :=
  suspend;; lift (argon2id password salt params).

Definition create_key_material (password : pystr) : M World (KeyMaterial * VaultKey) :=
  salt ← os_urandom SALT_BYTES;
  raw_key ← os_urandom KEY_BYTES;
  derived ← derive password salt DEFAULT_KDF;
  nonce ← os_urandom NONCE_BYTES;
  material ← lift (seal_key_material derived raw_key DEFAULT_KDF salt nonce);
  key ← lift (make_vault_key raw_key);
  mret (material, key).

Definition wrap_key_material (password : pystr) (key : VaultKey) : M World KeyMaterial :=
  salt ← os_urandom SALT_BYTES;
  derived ← derive password salt DEFAULT_KDF;
  nonce ← os_urandom NONCE_BYTES;
  lift (seal_key_material derived (vk_raw key) DEFAULT_KDF salt nonce).

(** [unlock_key_material] with the callers' [except] clauses *)
Definition open_with (damaged_detail password : pystr) (material : KeyMaterial)
    : M World (option VaultKey) :=
  catch (derived ← derive password (km_salt material) (km_params material);
         lift (open_key_material derived material))
    (fun e => throw (match e with
       | UnsupportedKdf detail => InvalidRequest detail
       | DecryptionFailed => InvalidRequest damaged_detail
       | _ => e
       end)).
Definition open_master (password : pystr) (m : KeyMaterial) : M World (option VaultKey) :=
  open_with MASTER_DAMAGED password m.
Definition open_material (password : pystr) (m : KeyMaterial) : M World (option VaultKey) :=
  open_with ACCOUNT_DAMAGED password m.

(** ** [SettingsCRUD] *)

Definition stored_settings : M World SettingsModel :=
  s ← query settings; mret (default vault_defaults s).
Definition stored_inactivity_ms : M World Z :=
  query (fun d => match settings d with None => inactivity_ms vault_defaults
                                      | Some s => inactivity_ms s end).

(** [update_settings]: every field is set; the row is created when there is none. *)
Definition update_settings (data : SettingsModel) : M World SettingsModel :=
  write_ (put_settings data);;
  after_commit (HookSetIdleTimeout (inactivity_ms data));;
  mret data.

Definition refresh_idle_timeout : M World () :=
  ms ← stored_inactivity_ms;
  now ← read_system_clock;
  on_sessions (fun v => (tt, set_idle_timeout ms now v)).

(** ** [MasterPasswordCRUD] *)

Definition fetch_vault : M World (option VaultModel) := query vault.

Definition is_initialized : M World bool := is_some <$> fetch_vault.

Definition get_model : M World VaultModel :=
  v ← fetch_vault;
  match v with
  | None => throw (NotFound (str "No master password found."))
  | Some v =>
      raise_if (bool_decide (format_version v ≠ CInt FORMAT_VERSION))
        (InvalidRequest UNREADABLE_KEY_FORMAT);;
      mret v
  end.

Definition verify_vault_key (key : option VaultKey) : M World VaultKey :=
  match key with
  | None => throw (InvalidKey (str "Vault key is missing."))
  | Some key =>
      v ← fetch_vault;
      match v with
      | None => throw (Forbidden (str "No master password set."))
      | Some v =>
          raise_unless (key_matches key (key_check (vault_keys v))) (InvalidKey INVALID_KEY);;
          mret key
      end
  end.

Definition unlock (password : pystr) : M World (option VaultKey) :=
  v ← get_model;
  material ← lift (key_material v);
  session_commit;;
  key ← open_master password material;
  match key with
  | None => mret None
  | Some key =>
      current ← fetch_vault;
      mret (match current with
            | Some v => if key_matches key (key_check (vault_keys v)) then Some key else None
            | None => None
            end)
  end.

Definition create_master_password (password : pystr) : M World VaultKey :=
  initialized ← is_initialized;
  raise_if initialized (Forbidden (str "Master password already exists."));;
  records ← query (fun d => bool_decide (t_rows (entries d) ≠ ∅)
                            || bool_decide (t_rows (attachments d) ≠ ∅));
  raise_if records (InvalidRequest NO_KEY_RECORD);;
  session_commit;;
  '(material, key) ← create_key_material password;
  initialized ← is_initialized;
  raise_if initialized (Forbidden (str "Master password already exists."));;
  write (put_vault (new_vault None material));;
  mret key.

Definition check_master_password (password : pystr) : M World VaultKey :=
  v ← get_model;
  material ← lift (key_material v);
  session_commit;;
  opened ← open_master password material;
  lift (ok_or (Forbidden (str "Incorrect master password.")) opened).

Definition confirm_same_key (opened key : VaultKey) : M World () :=
  _ ← verify_vault_key (Some key);
  raise_unless (key_matches opened (CBlob (vk_check key))) (InvalidKey INVALID_KEY).

(** The rows are sealed again one by one, in the order of their ids. *)
Definition reencrypt_entry (old_key new_key : VaultKey) (id : Z) : M World () :=
  row ← query (fun d => t_rows (entries d) !! id);
  match row with
  | None => throw NoResultFound
  | Some e =>
      document ← lift (open_entry old_key id e);
      e' ← seal_entry new_key e document;
      (** [flag_modified(entry, "updated")]: the time is written as it was *)
      write (update_entry_row id e')
  end.
Definition reencrypt_entries (old_key new_key : VaultKey) : M World () :=
  ids ← query (fun d => map fst (rows (t_rows (entries d))));
  _ ← forM ids (reencrypt_entry old_key new_key);
  mret ().

Definition update_attachment_row (id : Z) (a : AttachmentModel) (d : DB) : DB :=
  with_attachments (t_put id a) d.
Definition reencrypt_attachment (old_key new_key : VaultKey) (p : Z * AttachmentModel) : M World () :=
  let '(id, a) := p in
  entry ← query (fun d => t_rows (entries d) !! attachment_entry_id a);
  match entry with
  | None => throw (damaged (attachment_what id))
  | Some e =>
      metadata ← lift (open_attachment_metadata old_key id a (entry_uid e));
      data ← lift (open_attachment_content old_key id a (entry_uid e));
      a' ← seal_attachment new_key a (entry_uid e) metadata data;
      write_ (update_attachment_row id a')
  end.
Definition reencrypt_attachments (old_key new_key : VaultKey) : M World () :=
  ats ← query (fun d => rows (t_rows (attachments d)));
  _ ← forM ats (reencrypt_attachment old_key new_key);
  mret ().

Definition update_master_password (password new_password : pystr) : M World () :=
  v ← get_model;
  observed ← lift (key_material v);
  session_commit;;
  old_key ← open_master password observed;
  match old_key with
  | None => throw (Forbidden (str "Current master password is incorrect."))
  | Some old_key =>
      '(material, new_key) ← create_key_material new_password;
      v ← get_model;
      current ← lift (key_material v);
      raise_if (bool_decide (current ≠ observed)) (InvalidKey INVALID_KEY);;
      reencrypt_entries old_key new_key;;
      reencrypt_attachments old_key new_key;;
      write (put_vault (store_vault_material material v))
  end.

(** ** [VaultAccess] *)

(** [_open]: a session of the pre-account kind, revoked if the request fails *)
Definition open_vault_session (key : VaultKey) : M World pystr :=
  token ← new_token;
  now ← read_system_clock;
  on_sessions (fun v => (tt, open_session key 0 None token now v));;
  after_rollback (HookRevoke token);;
  mret token.

Definition vault_unlock (password : pystr) : M World (option (pystr * Z)) :=
  key ← unlock password;
  match key with
  | None => mret None
  | Some key =>
      refresh_idle_timeout;;
      token ← open_vault_session key;
      ms ← gets (fun w => idle_timeout_ms (w_sessions w));
      mret (Some (token, ms))
  end.

Definition vault_create (password : pystr) : M World (pystr * Z) :=
  key ← create_master_password password;
  refresh_idle_timeout;;
  token ← open_vault_session key;
  ms ← gets (fun w => idle_timeout_ms (w_sessions w));
  mret (token, ms).

Definition authorize (token : pystr) (refresh : bool) : M World VaultKey :=
  now ← read_system_clock;
  key ← in_sessions (resolve (Some token) refresh now);
  catch (verify_vault_key (Some key))
    (fun e => match e with
              | InvalidKey _ =>
                  _ ← on_sessions (revoke (Some token));
                  throw (SessionRequired ENDED_SESSION)
              | _ => throw e
              end).

Definition change_master_password (token password new_password : pystr) : M World () :=
  catch (update_master_password password new_password)
    (fun e => match e with
              | InvalidKey _ =>
                  _ ← on_sessions (revoke (Some token));
                  throw (SessionRequired ENDED_SESSION)
              | _ => throw e
              end);;
  after_commit HookRevokeAll.

(** ** Frame conditions *)

Lemma frame_derive `{!SuspendFrame R} p s k : keeps R (derive p s k).
Proof. unfold derive. keeps_tac. Qed.
#[local] Hint Resolve frame_derive : keeps.
Lemma frame_create_key_material `{!SuspendFrame R} p : keeps R (create_key_material p).
Proof. unfold create_key_material. keeps_tac. Qed.
Lemma frame_wrap_key_material `{!SuspendFrame R} p k : keeps R (wrap_key_material p k).
Proof. unfold wrap_key_material. keeps_tac. Qed.
Lemma frame_open_with `{!SuspendFrame R} d p m : keeps R (open_with d p m).
Proof. unfold open_with. keeps_tac. Qed.
Lemma frame_open_master `{!SuspendFrame R} p m : keeps R (open_master p m).
Proof. apply frame_open_with. Qed.
Lemma frame_open_material `{!SuspendFrame R} p m : keeps R (open_material p m).
Proof. apply frame_open_with. Qed.
#[local] Hint Resolve frame_create_key_material frame_wrap_key_material
  frame_open_master : keeps.
Lemma frame_update_settings `{!DataFrame R} s : keeps R (update_settings s).
Proof. unfold update_settings. keeps_tac. Qed.
Lemma frame_refresh_idle_timeout `{!DataFrame R} : keeps R refresh_idle_timeout.
Proof. unfold refresh_idle_timeout, stored_inactivity_ms. keeps_tac. Qed.
Lemma same_fetch_vault : keeps same_state fetch_vault.
Proof. apply same_query. Qed.
#[local] Hint Resolve frame_refresh_idle_timeout same_fetch_vault : keeps.
Lemma same_is_initialized : keeps same_state is_initialized.
Proof. unfold is_initialized. keeps_tac. Qed.
Lemma same_get_model : keeps same_state get_model.
Proof. unfold get_model. keeps_tac. Qed.
Lemma same_verify_vault_key k : keeps same_state (verify_vault_key k).
Proof. unfold verify_vault_key. keeps_tac. Qed.
#[local] Hint Resolve same_is_initialized same_get_model same_verify_vault_key : keeps.
Lemma integrity_unlock p : keeps integrity (unlock p).
Proof. unfold unlock. keeps_tac. Qed.
Lemma frame_check_master_password `{!CommitFrame R} p : keeps R (check_master_password p).
Proof. unfold check_master_password. keeps_tac. Qed.
Lemma same_confirm_same_key o k : keeps same_state (confirm_same_key o k).
Proof. unfold confirm_same_key. keeps_tac. Qed.
Lemma integrity_create_master_password p : keeps integrity (create_master_password p).
Proof. unfold create_master_password. keeps_tac. Qed.
#[local] Hint Resolve integrity_unlock integrity_create_master_password : keeps.
Lemma frame_open_vault_session `{!DataFrame R} k : keeps R (open_vault_session k).
Proof. unfold open_vault_session. keeps_tac. Qed.
#[local] Hint Resolve frame_open_vault_session : keeps.
Lemma integrity_vault_unlock p : keeps integrity (vault_unlock p).
Proof. unfold vault_unlock. keeps_tac. Qed.
Lemma integrity_vault_create p : keeps integrity (vault_create p).
Proof. unfold vault_create. keeps_tac. Qed.
Lemma frame_authorize `{!DataFrame R} t r : keeps R (authorize t r).
Proof. unfold authorize. keeps_tac. Qed.
Lemma frame_reencrypt_entry `{!DataFrame R} k k' i : keeps R (reencrypt_entry k k' i).
Proof. unfold reencrypt_entry. keeps_tac. Qed.
#[local] Hint Resolve frame_reencrypt_entry : keeps.
Lemma frame_reencrypt_entries `{!DataFrame R} k k' : keeps R (reencrypt_entries k k').
Proof. unfold reencrypt_entries. keeps_tac. Qed.
End MasterPassword.
#[export] Hint Resolve frame_derive frame_create_key_material frame_wrap_key_material
  frame_open_material frame_open_master frame_update_settings
  frame_refresh_idle_timeout same_fetch_vault same_is_initialized same_get_model
  same_verify_vault_key integrity_unlock integrity_create_master_password
  frame_open_vault_session integrity_vault_unlock integrity_vault_create frame_authorize
  frame_reencrypt_entries frame_check_master_password same_confirm_same_key : keeps.
