(* ===== verification/Auth.v ===== *)
(** Accounts ([backend/crud/auth.py]): bootstrap, login, the context a session
    token stands for, and the administration of accounts and their credentials. *)
From Stdlib Require Import ZArith Lia Strings.String Strings.Byte.
From stdpp Require Import base list gmap.
From S2P Require Import Prelude Sha256 Crypto Platform Sessions Models Engine Records Context Folder.
From S2P Require Import MasterPassword.

Definition SESSION_ENDED : pystr :=
  str "Your session expired, was revoked, or the account was disabled.".
Definition ALREADY_INITIALIZED : exn := Forbidden (str "CipherMoth is already initialized.").
Definition ADMIN_REQUIRED : exn := Forbidden (str "Administrator access is required.").

Record AuthUser := {
  au_id : Z;
  au_username : pystr;
  au_role : UserRole;
  au_active : bool;
  au_must_change_password : bool;
}.
Definition to_user (id : Z) (u : UserModel) : AuthUser :=
  {| au_id := id; au_username := username u; au_role := user_role u; au_active := active u;
     au_must_change_password := must_change_password u |}.

(** [AuthResponse(valid=...)]: [None] is [valid=False] *)
Record OpenedSession := {
  os_user : option AuthUser;
  os_token : option pystr;
  os_idle_timeout_ms : option Z;
}.
Abbreviation AuthResponse := (option OpenedSession).

Definition token_digest (token : pystr) : res bytes := t ← encode_utf8 token; Ok (sha256 t).

(** The revision of an account's credentials: a digest of length-prefixed values *)
Definition fingerprint_parts (m : KeyMaterial) : res (list bytes) :=
  name ← encode_utf8 KDF_NAME;
  mem ← int_to_bytes 8 (int_of (memory_kib (km_params m)));
  it ← int_to_bytes 8 (int_of (iterations (km_params m)));
  la ← int_to_bytes 8 (int_of (lanes (km_params m)));
  Ok [name; mem; it; la; km_salt m; km_password_check m; km_wrapped_key m; km_key_check m].
Fixpoint length_prefixed (parts : list bytes) : res bytes :=
  match parts with
  | [] => Ok []
  | p :: ps =>
      n ← int_to_bytes 4 (Z.of_nat (length p));
      rest ← length_prefixed ps;
      Ok (n ++ p ++ rest)
  end.
Definition credential_fingerprint (u : UserModel) : res bytes :=
  m ← user_key_material u;
  parts ← fingerprint_parts m;
  message ← length_prefixed parts;
  Ok (sha256 message).

Section Auth.
Context `{Cryptography} `{Environment} `{Codec} `{Config}.

Definition fetch_user (id : Z) : M World (option UserModel) :=
  query (fun d => t_rows (users d) !! id).

Definition validate_vault_material (v : VaultModel) : M World KeyMaterial :=
  material ← lift (key_material v);
  match owner_user_id v with
  | None => mret material
  | Some o =>
      owner ← fetch_user o;
      match owner with
      | None => throw (InvalidRequest ACCOUNT_DAMAGED)
      | Some u =>
          m ← lift (user_key_material u);
          raise_if (bool_decide (m ≠ material)) (InvalidRequest ACCOUNT_DAMAGED);;
          mret material
      end
  end.

Definition status : M World bool := query (fun d => bool_decide (t_rows (users d) ≠ ∅)).

Definition auth_open_session (id : Z) (u : UserModel) (key : VaultKey) : M World OpenedSession :=
  fp ← lift (credential_fingerprint u);
  token ← new_token;
  now ← read_system_clock;
  on_sessions (fun v => (tt, open_session key id (Some fp) token now v));;
  after_rollback (HookRevoke token);;
  ms ← gets (fun w => idle_timeout_ms (w_sessions w));
  mret {| os_user := Some (to_user id u); os_token := Some token; os_idle_timeout_ms := Some ms |}.

(** [select(UserModel.id).limit(1)] finds somebody *)
Definition any_user (d : DB) : bool := bool_decide (t_rows (users d) ≠ ∅).

Definition first_admin (name : pystr) (m : KeyMaterial) : UserModel :=
  {| username := name; user_role := admin; active := true; must_change_password := false;
     service_owner_id := None; service_token_hash := None; user_keys := stored_material m |}.

(** [UPDATE entries SET owner_id = ..., updated = ... WHERE owner_id IS NULL] *)
Definition adopt_entries (owner : Z) : M World () :=
  orphans ← query (fun d => filter (fun p => entry_owner_id p.2 = None) (rows (t_rows (entries d))));
  u ← utc_now;
  _ ← forM orphans (fun p => write (update_entry_row p.1
        (set_entry_updated (Time u) (set_entry_owner_id (Some owner) p.2))));
  mret ().

Definition bootstrap (name password : pystr) : M World AuthResponse :=
  v ← fetch_vault;
  some_user ← query any_user;
  (if (some_user : bool) then
     match v with
     | None => throw (InvalidRequest ACCOUNT_DAMAGED)
     | Some _ => throw ALREADY_INITIALIZED
     end
   else mret ());;
  made ← match v with
    | None =>
        records ← query (fun d => bool_decide (t_rows (entries d) ≠ ∅)
                                  || bool_decide (t_rows (attachments d) ≠ ∅));
        raise_if records (InvalidRequest NO_KEY_RECORD);;
        session_commit;;
        '(material, key) ← create_key_material password;
        some_user ← query any_user;
        raise_if some_user ALREADY_INITIALIZED;;
        v ← fetch_vault;
        raise_if (is_some v) ALREADY_INITIALIZED;;
        id ← write (insert_user (first_admin name material));
        write (put_vault (new_vault (Some id) material));;
        mret (Some (id, first_admin name material, key))
    | Some v =>
        observed ← lift (key_material v);
        session_commit;;
        key ← open_material password observed;
        match key with
        | None => mret None
        | Some key =>
            some_user ← query any_user;
            raise_if some_user ALREADY_INITIALIZED;;
            current ← fetch_vault;
            match current with
            | None => throw (Forbidden (str "The vault changed while the account was created."))
            | Some current =>
                m ← lift (key_material current);
                raise_if (bool_decide (m ≠ observed))
                  (Forbidden (str "The vault changed while the account was created."));;
                id ← write (insert_user (first_admin name observed));
                write (put_vault (set_owner_user_id (Some id) current));;
                mret (Some (id, first_admin name observed, key))
            end
        end
    end;
  match made with
  | None => mret None
  | Some (id, u, key) =>
      adopt_entries id;;
      migrate_folder_links key;;
      refresh_idle_timeout;;
      s ← auth_open_session id u key;
      mret (Some s)
  end.

Definition login_candidate (name : pystr) (d : DB) : option (Z * UserModel) :=
  head (filter (fun p => username p.2 = name ∧ active p.2 = true ∧ user_role p.2 ≠ service)
    (rows (t_rows (users d)))).

Definition login (name password : pystr) : M World AuthResponse :=
  candidate ← query (login_candidate name);
  match candidate with
  | None => session_commit;; _ ← create_key_material password; mret None
  | Some (id, u) =>
      observed ← lift (user_key_material u);
      v ← fetch_vault;
      match v with
      | None => throw (InvalidRequest ACCOUNT_DAMAGED)
      | Some v =>
          _ ← lift (key_material v);
          session_commit;;
          opened ← open_material password observed;
          match opened with
          | None => mret None
          | Some key =>
              current ← fetch_user id;
              v ← fetch_vault;
              match v with
              | None => throw (InvalidRequest ACCOUNT_DAMAGED)
              | Some v =>
                  canonical ← validate_vault_material v;
                  match current with
                  | None => mret None
                  | Some u =>
                      if negb (active u) || bool_decide (user_role u = service) then mret None
                      else
                        m ← lift (user_key_material u);
                        if bool_decide (m ≠ observed) then mret None
                        else
                          raise_unless (key_matches key (CBlob (km_key_check canonical)))
                            (InvalidRequest ACCOUNT_DAMAGED);;
                          migrate_folder_links key;;
                          refresh_idle_timeout;;
                          s ← auth_open_session id u key;
                          mret (Some s)
                  end
              end
          end
      end
  end.

Definition login_primary (password : pystr) : M World AuthResponse :=
  v ← fetch_vault;
  match v with
  | None => throw (NotFound (str "No master password found."))
  | Some v =>
      match owner_user_id v with
      | None => bootstrap (str "admin") password
      | Some o =>
          u ← fetch_user o;
          match u with
          | None => throw (InvalidRequest ACCOUNT_DAMAGED)
          | Some u => login (username u) password
          end
      end
  end.

(** ** The context of a session token *)

Definition end_session {A} (token : pystr) : M World A :=
  _ ← on_sessions (revoke (Some token)); throw (SessionRequired SESSION_ENDED).

(** [except InvalidRequest: None] *)
Definition fingerprint_or_none (u : option UserModel) : res (option bytes) :=
  match u with
  | None => Ok None
  | Some u =>
      match credential_fingerprint u with
      | Ok f => Ok (Some f)
      | Err (InvalidRequest _) => Ok None
      | Err e => Err e
      end
  end.

(** Each call of the session store reads the clock itself. *)
Definition auth_context (token : pystr) (refresh allow_password_change : bool)
    : M World AuthContext :=
  now ← read_system_clock;
  key ← in_sessions (resolve (Some token) refresh now);
  now ← read_system_clock;
  id ← in_sessions (session_user_id (Some token) now);
  now ← read_system_clock;
  fp ← in_sessions (session_fingerprint (Some token) now);
  user ← fetch_user id;
  v ← fetch_vault;
  current_fp ← lift (fingerprint_or_none user);
  match user, v with
  | Some u, Some v =>
      if negb (active u) || bool_decide (user_role u = service) || bool_decide (fp ≠ current_fp)
      then end_session token
      else
        canonical ← catch (Some <$> validate_vault_material v)
          (fun e => match e with InvalidRequest _ => mret None | _ => throw e end);
        match canonical with
        | None => end_session token
        | Some m =>
            if negb (key_matches key (CBlob (km_key_check m))) then end_session token
            else
              raise_if (must_change_password u && negb allow_password_change)
                (Forbidden (str "Password change is required before accessing the vault."));;
              mret {| ctx_id := id; ctx_user := u; ctx_key := key; ctx_token := Some token |}
        end
  | _, _ => end_session token
  end.

(** ** Administration *)

Definition auth_require_admin (actor : AuthContext) : M World () :=
  raise_unless (active (ctx_user actor) && is_admin actor) ADMIN_REQUIRED.

Definition list_users (actor : AuthContext) : M World (list AuthUser) :=
  auth_require_admin actor;;
  query (fun d => map (fun p => to_user p.1 p.2)
    (sorted_by (fun a b => str_le (username a.2) (username b.2)) (rows (t_rows (users d))))).

Definition username_taken (name : pystr) (d : DB) : bool :=
  bool_decide (Exists (fun p => username p.2 = name) (rows (t_rows (users d)))).

(** After a KDF the actor must still be an active administrator of this vault. *)
Definition still_admin (actor_id : Z) (key : VaultKey) (d : DB) : bool :=
  match t_rows (users d) !! actor_id, vault d with
  | Some a, Some v =>
      active a && bool_decide (user_role a = admin) && key_matches key (key_check (vault_keys v))
  | _, _ => false
  end.

Definition create_user (actor : AuthContext) (name : pystr) (role : UserRole)
    (temporary_password : option pystr) : M World (AuthUser * option pystr) :=
  auth_require_admin actor;;
  taken ← query (username_taken name);
  raise_if taken (InvalidRequest (str "A user with that username already exists."));;
  credential ← (if bool_decide (role = service) then Some <$> new_token else mret None);
  match (match credential with Some c => Some c | None => temporary_password end) with
  | None => throw (InvalidRequest (str "A temporary password is required."))
  | Some password =>
      session_commit;;
      material ← wrap_key_material password (ctx_key actor);
      allowed ← query (still_admin (ctx_id actor) (ctx_key actor));
      raise_unless allowed ADMIN_REQUIRED;;
      taken ← query (username_taken name);
      raise_if taken (InvalidRequest (str "A user with that username already exists."));;
      hash ← match credential with
        | None => mret None
        | Some c => h ← lift (token_digest c); mret (Some h)
        end;
      let u := {| username := name; user_role := role; active := true;
                  must_change_password := bool_decide (role ≠ service);
                  service_owner_id := if bool_decide (role = service) then Some (ctx_id actor)
                                      else None;
                  service_token_hash := hash; user_keys := stored_material material |} in
      id ← write (insert_user u);
      mret (to_user id u, credential)
  end.

Definition target (actor : AuthContext) (user_id : Z) : M World UserModel :=
  auth_require_admin actor;;
  u ← fetch_user user_id;
  lift (ok_or (NotFound (str "User not found.")) u).

(** The other active administrators *)
Definition other_admins (d : DB) (user_id : Z) : list (Z * UserModel) :=
  filter (fun p => p.1 ≠ user_id ∧ active p.2 = true ∧ user_role p.2 = admin)
    (rows (t_rows (users d))).

Definition update_user (actor : AuthContext) (user_id : Z) (role : option UserRole)
    (new_active : option bool) : M World AuthUser :=
  u ← target actor user_id;
  let current_role := user_role u in
  let next_role := default current_role role in
  raise_if (negb (Bool.eqb (bool_decide (current_role = service)) (bool_decide (next_role = service))))
    (Forbidden (str "Service user type cannot be changed."));;
  let removes_admin := active u && bool_decide (current_role = admin)
    && (bool_decide (new_active = Some false) || bool_decide (next_role ≠ admin)) in
  (if removes_admin then
     others ← query (fun d => other_admins d user_id);
     raise_if (bool_decide (others = []))
       (Forbidden (str "Cannot remove the last active administrator."))
   else mret ());;
  let u' := set_active (default (active u) new_active) (set_user_role next_role u) in
  (if is_some role || bool_decide (new_active = Some false)
   then after_commit (HookRevokeUser user_id) else mret ());;
  write (update_user_row user_id u');;
  mret (to_user user_id u').

Definition revoke_user_sessions (actor : AuthContext) (user_id : Z) : M World Z :=
  _ ← target actor user_id;
  after_commit (HookRevokeUser user_id);;
  ids ← gets (fun w => user_ids (w_sessions w));
  mret (Z.of_nat (length (filter (fun i => i = user_id) ids))).

Definition require_password_change (actor : AuthContext) (user_id : Z) : M World AuthUser :=
  u ← target actor user_id;
  raise_if (bool_decide (user_role u = service))
    (Forbidden (str "Service users do not use interactive passwords."));;
  let u' := set_must_change_password true u in
  write (update_user_row user_id u');;
  mret (to_user user_id u').

Definition rotate_service_token (actor : AuthContext) (user_id : Z)
    : M World (AuthUser * option pystr) :=
  u ← target actor user_id;
  raise_if (bool_decide (user_role u ≠ service))
    (Forbidden (str "Only service users have service tokens."));;
  token ← new_token;
  session_commit;;
  material ← wrap_key_material token (ctx_key actor);
  allowed ← query (still_admin (ctx_id actor) (ctx_key actor));
  current ← fetch_user user_id;
  match current with
  | None => throw ADMIN_REQUIRED
  | Some u =>
      raise_unless (allowed && bool_decide (user_role u = service)) ADMIN_REQUIRED;;
      hash ← lift (token_digest token);
      let u' := set_service_token_hash (Some hash) (store_user_material material u) in
      write (update_user_row user_id u');;
      mret (to_user user_id u', Some token)
  end.

(** [_store(vault, material)] when the account is the vault's owner *)
Definition store_if_owner (user_id : Z) (m : KeyMaterial) : M World () :=
  v ← fetch_vault;
  match v with
  | Some v => if bool_decide (owner_user_id v = Some user_id)
              then write (put_vault (store_vault_material m v)) else mret ()
  | None => mret ()
  end.

Definition reset_password (actor : AuthContext) (user_id : Z) (temporary_password : pystr)
    : M World AuthUser :=
  u ← target actor user_id;
  raise_if (bool_decide (user_role u = service))
    (Forbidden (str "Service users do not use interactive passwords."));;
  session_commit;;
  material ← wrap_key_material temporary_password (ctx_key actor);
  allowed ← query (still_admin (ctx_id actor) (ctx_key actor));
  current ← fetch_user user_id;
  match current with
  | None => throw ADMIN_REQUIRED
  | Some u =>
      raise_unless (allowed && bool_decide (user_role u ≠ service)) ADMIN_REQUIRED;;
      let u' := set_must_change_password true (store_user_material material u) in
      write (update_user_row user_id u');;
      store_if_owner user_id material;;
      after_commit (HookRevokeUser user_id);;
      mret (to_user user_id u')
  end.

Definition delete_user (actor : AuthContext) (user_id : Z) : M World () :=
  _ ← target actor user_id;
  raise_if (user_id =? ctx_id actor)
    (Forbidden (str "Administrators cannot delete their own account."));;
  v ← fetch_vault;
  raise_if (bool_decide ((v ≫= owner_user_id) = Some user_id))
    (Forbidden (str "The primary vault owner cannot be deleted."));;
  es ← query (fun d => negb (no_other None (fun e => bool_decide (entry_owner_id e = Some user_id)) (entries d)));
  raise_if es (Forbidden (str "User owns vault entries and cannot be deleted."));;
  fs ← query (fun d => negb (no_other None (fun f => bool_decide (folder_owner_id f = user_id)) (folders d)));
  raise_if fs (Forbidden (str "User owns vault folders and cannot be deleted."));;
  ss ← query (fun d => negb (no_other None (fun u => bool_decide (service_owner_id u = Some user_id)) (users d)));
  raise_if ss (Forbidden (str "User owns service accounts and cannot be deleted."));;
  write_ (delete_user_grants user_id);;
  write (delete_user_row user_id);;
  after_commit (HookRevokeUser user_id).

(** ** The account's own credentials *)

(** What [change_password] and [verify_current_password] require after the KDF *)
Definition still_current (user_id : Z) (observed : KeyMaterial) (key : VaultKey)
    : M World (option UserModel) :=
  user ← fetch_user user_id;
  v ← fetch_vault;
  canonical ← match v with
    | Some v => m ← validate_vault_material v; mret (Some m)
    | None => mret None
    end;
  match user with
  | None => mret None
  | Some u =>
      if negb (active u) then mret None
      else
        m ← lift (user_key_material u);
        mret (match canonical with
              | Some c => if bool_decide (m = observed) && key_matches key (CBlob (km_key_check c))
                          then Some u else None
              | None => None
              end)
  end.

Definition change_password (c : AuthContext) (current_password new_password : pystr)
    (open_new_session : bool) : M World AuthResponse :=
  raise_if (bool_decide (user_role (ctx_user c) = service))
    (Forbidden (str "Service users do not use interactive passwords."));;
  observed ← lift (user_key_material (ctx_user c));
  session_commit;;
  opened ← open_material current_password observed;
  raise_unless (match opened with
                | Some k => key_matches k (CBlob (vk_check (ctx_key c))) | None => false end)
    (Forbidden (str "Current password is incorrect."));;
  raise_if (bool_decide (new_password = current_password))
    (InvalidRequest (str "New password must be different from the current password."));;
  replacement ← wrap_key_material new_password (ctx_key c);
  user ← still_current (ctx_id c) observed (ctx_key c);
  match user with
  | None => throw (SessionRequired SESSION_ENDED)
  | Some u =>
      let u' := set_must_change_password false (store_user_material replacement u) in
      write (update_user_row (ctx_id c) u');;
      store_if_owner (ctx_id c) replacement;;
      refresh_idle_timeout;;
      if negb open_new_session then
        after_commit (HookRevokeUser (ctx_id c));;
        mret (Some {| os_user := None; os_token := None; os_idle_timeout_ms := None |})
      else
        s ← auth_open_session (ctx_id c) u' (ctx_key c);
        match os_token s with
        | None => throw AssertionError
        | Some token => after_commit (HookRevokeUserExcept (ctx_id c) token);; mret (Some s)
        end
  end.

Definition verify_current_password (c : AuthContext) (current_password : pystr) : M World () :=
  observed ← lift (user_key_material (ctx_user c));
  session_commit;;
  opened ← open_material current_password observed;
  raise_unless (match opened with
                | Some k => key_matches k (CBlob (vk_check (ctx_key c))) | None => false end)
    (Forbidden (str "Current password is incorrect."));;
  user ← still_current (ctx_id c) observed (ctx_key c);
  raise_unless (is_some user) (SessionRequired SESSION_ENDED).

Definition INVALID_SERVICE_TOKEN : exn := SessionRequired (str "Invalid service token.").

Definition service_account (hash : bytes) (d : DB) : option (Z * UserModel) :=
  head (filter (fun p => service_token_hash p.2 = Some hash ∧ user_role p.2 = service
                         ∧ active p.2 = true) (rows (t_rows (users d)))).

Definition resolve_service_token (token : pystr) : M World AuthContext :=
  hash ← lift (token_digest token);
  found ← query (service_account hash);
  match found with
  | None => throw INVALID_SERVICE_TOKEN
  | Some (id, u) =>
      material ← lift (user_key_material u);
      v ← fetch_vault;
      match v with
      | None => throw INVALID_SERVICE_TOKEN
      | Some v =>
          _ ← lift (key_material v);
          session_commit;;
          opened ← open_material token material;
          current ← fetch_user id;
          v ← fetch_vault;
          canonical ← match v with
            | Some v => m ← validate_vault_material v; mret (Some m)
            | None => mret None
            end;
          match opened, current with
          | Some key, Some u =>
              if negb (active u) || bool_decide (user_role u ≠ service) then throw INVALID_SERVICE_TOKEN
              else
                m ← lift (user_key_material u);
                match canonical with
                | Some c =>
                    raise_unless (bool_decide (m = material) && key_matches key (CBlob (km_key_check c)))
                      INVALID_SERVICE_TOKEN;;
                    mret {| ctx_id := id; ctx_user := u; ctx_key := key; ctx_token := None |}
                | None => throw INVALID_SERVICE_TOKEN
                end
          | _, _ => throw INVALID_SERVICE_TOKEN
          end
      end
  end.
End Auth.

Section AuthFrames.
Context `{Cryptography} `{Environment} `{Codec} `{Config}.
Implicit Types actor : AuthContext.

Lemma same_fetch_user i : keeps same_state (fetch_user i).
Proof. apply same_query. Qed.
#[local] Hint Resolve same_fetch_user : keeps.
Lemma same_validate_vault_material v : keeps same_state (validate_vault_material v).
Proof. unfold validate_vault_material. keeps_tac. Qed.
#[local] Hint Resolve same_validate_vault_material : keeps.
Lemma frame_auth_open_session `{!DataFrame R} i u k : keeps R (auth_open_session i u k).
Proof. unfold auth_open_session. keeps_tac. Qed.
Lemma frame_adopt_entries `{!DataFrame R} o : keeps R (adopt_entries o).
Proof. unfold adopt_entries. keeps_tac. Qed.
#[local] Hint Resolve frame_auth_open_session frame_adopt_entries : keeps.
Lemma integrity_bootstrap n p : keeps integrity (bootstrap n p).
Proof. unfold bootstrap. keeps_tac. Qed.
Lemma integrity_login n p : keeps integrity (login n p).
Proof. unfold login. keeps_tac. Qed.
#[local] Hint Resolve integrity_bootstrap integrity_login : keeps.
Lemma integrity_login_primary p : keeps integrity (login_primary p).
Proof. unfold login_primary. keeps_tac. Qed.
Lemma frame_end_session `{!DataFrame R} {A} t : keeps R (end_session t : M World A).
Proof. unfold end_session. keeps_tac. Qed.
#[local] Hint Resolve frame_end_session : keeps.
Lemma frame_auth_context `{!DataFrame R} t r a : keeps R (auth_context t r a).
Proof. unfold auth_context. keeps_tac. Qed.
Lemma same_auth_require_admin actor : keeps same_state (auth_require_admin actor).
Proof. unfold auth_require_admin. keeps_tac. Qed.
#[local] Hint Resolve same_auth_require_admin : keeps.
Lemma same_list_users actor : keeps same_state (list_users actor).
Proof. unfold list_users. keeps_tac. Qed.
Lemma integrity_create_user actor n r p : keeps integrity (create_user actor n r p).
Proof. unfold create_user. keeps_tac. Qed.
Lemma same_target actor i : keeps same_state (target actor i).
Proof. unfold target. keeps_tac. Qed.
#[local] Hint Resolve same_target : keeps.
Lemma frame_update_user `{!AccountFrame R} actor i r a : keeps R (update_user actor i r a).
Proof. unfold update_user. keeps_tac. Qed.
Lemma frame_revoke_user_sessions `{!AccountFrame R} actor i : keeps R (revoke_user_sessions actor i).
Proof. unfold revoke_user_sessions. keeps_tac. Qed.
Lemma frame_require_password_change `{!AccountFrame R} actor i : keeps R (require_password_change actor i).
Proof. unfold require_password_change. keeps_tac. Qed.
Lemma integrity_rotate_service_token actor i : keeps integrity (rotate_service_token actor i).
Proof. unfold rotate_service_token. keeps_tac. Qed.
Lemma frame_store_if_owner `{!AccountFrame R} i m : keeps R (store_if_owner i m).
Proof. unfold store_if_owner. keeps_tac. Qed.
#[local] Hint Resolve frame_store_if_owner : keeps.
Lemma integrity_reset_password actor i p : keeps integrity (reset_password actor i p).
Proof. unfold reset_password. keeps_tac. Qed.
Lemma frame_delete_user `{!AccountFrame R} actor i : keeps R (delete_user actor i).
Proof. unfold delete_user. keeps_tac. Qed.
Lemma same_still_current i m k : keeps same_state (still_current i m k).
Proof. unfold still_current. keeps_tac. Qed.
#[local] Hint Resolve same_still_current : keeps.
Lemma integrity_change_password c p q b : keeps integrity (change_password c p q b).
Proof. unfold change_password. keeps_tac. Qed.
Lemma frame_verify_current_password `{!CommitFrame R} c p : keeps R (verify_current_password c p).
Proof. unfold verify_current_password. keeps_tac. Qed.
Lemma integrity_resolve_service_token t : keeps integrity (resolve_service_token t).
Proof. unfold resolve_service_token. keeps_tac. Qed.
End AuthFrames.
#[export] Hint Resolve same_fetch_user same_validate_vault_material frame_auth_open_session
  same_auth_require_admin frame_adopt_entries
  integrity_bootstrap integrity_login integrity_login_primary frame_auth_context
  same_list_users integrity_create_user same_target frame_update_user
  frame_revoke_user_sessions frame_require_password_change integrity_rotate_service_token
  frame_store_if_owner integrity_reset_password frame_delete_user same_still_current
  integrity_change_password frame_verify_current_password integrity_resolve_service_token : keeps.

Section AuthFacts.
Context `{Cryptography} `{Environment} `{Codec} `{Config}.

Lemma db_same_end_session {A} t : keeps db_same (end_session t : M World A).
Proof. unfold end_session. keeps_tac. Qed.
#[local] Hint Resolve db_same_end_session : keeps.
Lemma db_same_auth_context t r a : keeps db_same (auth_context t r a).
Proof. unfold auth_context. keeps_tac. Qed.

Lemma in_sessions_Ok {A} (m : M VaultSessions A) w a w' :
  in_sessions m w = (Ok a, w') ->
  ∃ v, m (w_sessions w) = (Ok a, v) ∧ w' = w_set_sessions v w.
Proof.
  unfold in_sessions. destruct (m (w_sessions w)) as [r v]. intros [= -> <-]. eauto.
Qed.

Lemma end_session_Ok {A} t w (a : A) w' : end_session t w ≠ (Ok a, w').
Proof.
  unfold end_session. intros Hr. apply bind_Ok in Hr as (? & ? & _ & Hr). discriminate.
Qed.
(** [try: m except E: None] answers with a value only when [m] did. *)
Lemma catch_some_Ok {A} (m : M World A) h w a w' :
  catch (Some <$> m) h w = (Ok (Some a), w') ->
  (forall e w1 w2, h e w1 ≠ (Ok (Some a), w2)) -> m w = (Ok a, w').
Proof.
  unfold catch, fmap, M_fmap. destruct (m w) as [[b|e] w1]; intros Hc Hh; [by simplify_eq|].
  by apply Hh in Hc.
Qed.

(** The vault row's key record agrees with its owner's account. *)
Definition canonical_material (d : DB) (v : VaultModel) (m : KeyMaterial) : Prop :=
  key_material v = Ok m ∧
  match owner_user_id v with
  | None => True
  | Some o => ∃ u, t_rows (users d) !! o = Some u ∧ user_key_material u = Ok m
  end.

Lemma validate_vault_material_Ok v w m w' :
  validate_vault_material v w = (Ok m, w') -> canonical_material (w_db w) v m ∧ w' = w.
Proof.
  unfold validate_vault_material, canonical_material. intros Hv. run_inv Hv.
  destruct (owner_user_id v) as [o|]; [|by run_inv Hv]. unfold fetch_user in Hv. run_inv Hv. world_inv.
  destruct (t_rows _ !! o) as [u|]; [|discriminate]. run_inv Hv.
  match goal with E : bool_decide _ = false |- _ => apply bool_decide_eq_false, dec_stable in E; subst end.
  eauto 10.
Qed.

Lemma material_from_key_check a b k m :
  material_from a b k = Ok m -> key_check k = CBlob (km_key_check m).
Proof.
  unfold material_from. destruct (negb _) eqn:E; [done|]. case_bool_decide; [done|].
  destruct (require_supported _); [|by destruct e]. intros [= <-]. simpl.
  apply negb_false_iff in E. rewrite !andb_true_iff in E. destruct E as (_ & E).
  by destruct (key_check k).
Qed.

(** What a successful [auth_context] establishes. *)
Record authenticated (w : World) (token : pystr) (allow_password_change : bool) (c : AuthContext)
    : Prop := {
  au_session : ∃ s, token_fullmatch token = true ∧
    od_get (digest token) (sessions (w_sessions w)) = Some s ∧
    0 < remaining_us (w_sessions w) s (system_clock (w_clock_reads w)) true ∧
    s_key s = ctx_key c ∧ s_user_id s = ctx_id c ∧
    fingerprint_or_none (Some (ctx_user c)) = Ok (s_credential_fingerprint s);
  au_account : t_rows (users (w_db w)) !! ctx_id c = Some (ctx_user c);
  au_enabled : active (ctx_user c) = true;
  au_interactive : user_role (ctx_user c) ≠ service;
  au_vault : ∃ v m, vault (w_db w) = Some v ∧ canonical_material (w_db w) v m ∧
    key_matches (ctx_key c) (key_check (vault_keys v)) = true;
  au_changed : must_change_password (ctx_user c) = true -> allow_password_change = true;
  au_token : ctx_token c = Some token;
}.

Lemma auth_context_Ok token refresh allow w c w' :
  auth_context token refresh allow w = (Ok c, w') ->
  authenticated w token allow c ∧ db_same w w'.
Proof.
  intros Hc. split; [|pose proof (db_same_auth_context token refresh allow w) as Hs; by rewrite Hc in Hs].
  unfold auth_context, fetch_user, fetch_vault in Hc. run_inv Hc. world_inv.
  repeat match goal with
  | H : in_sessions _ _ = (Ok _, _) |- _ => apply in_sessions_Ok in H as (? & H & ->)
  end. simpl in *.
  apply resolve_Ok in R0 as (s & s' & Hm & Hg & Hrem & Hk & Hg' & Hu & Hf).
  apply session_user_id_Ok in R2 as (s1 & Hg1 & <- & ->).
  apply session_fingerprint_Ok in R4 as (s2 & Hg2 & <- & ->).
  simplify_eq. destruct (t_rows _ !! _) as [u|] eqn:Eu; [|by apply end_session_Ok in Hc].
  destruct (vault _) as [v|] eqn:Ev; [|by apply end_session_Ok in Hc].
  destruct (_ || _) eqn:Eo; [by apply end_session_Ok in Hc|].
  rewrite !orb_false_iff, negb_false_iff, !bool_decide_eq_false in Eo. destruct Eo as [[Ea Es] Efp].
  apply dec_stable in Efp. run_inv Hc. destruct x as [m|]; [|by apply end_session_Ok in Hc].
  apply catch_some_Ok in R as Hv; [|by intros [] ? ?].
  apply validate_vault_material_Ok in Hv as [Hv ->].
  destruct (negb _) eqn:Em; [by apply end_session_Ok in Hc|]. run_inv Hc.
  apply negb_false_iff in Em. simpl in *. split; simpl; try done.
  - exists s. split_and!; try done; try congruence.
  - exists v, m. split_and!; [done..|]. destruct Hv as [Hv _].
    apply material_from_key_check in Hv. by rewrite Hv.
  - intros Hmust. match goal with E : _ && _ = false |- _ => rewrite Hmust in E end. by destruct allow.
Qed.
End AuthFacts.
#[export] Hint Resolve db_same_end_session db_same_auth_context : keeps.
