(* ===== verification/Backup.v ===== *)
(** Complete backups ([backend/crud/backup.py]): the payload of a backup, how a
    vault is written into one, and how one is restored. Backup ZIPs of earlier
    releases are in Legacy.v. *)
From Stdlib Require Import ZArith Lia Strings.String Strings.Byte.
From stdpp Require Import base list gmap.
From S2P Require Import Prelude Sha256 Crypto Platform Validators Models BackupFormat Engine Records.
From S2P Require Import Context Folder Password Attachment MasterPassword Auth.

Definition MAX_MIGRATED_TOTAL_ATTACHMENT_BYTES : Z := 50 * 1024 * 1024.
Definition WRONG_PASSWORD : pystr :=
  str "Incorrect backup password. Use the account password that created the backup.".
Definition DAMAGED : pystr :=
  str "The backup file is damaged or incomplete. Nothing was imported.".

(** ** The payload

    The models that pydantic validates strictly. A [datetime] is a number of
    microseconds: [_utc] and [_stamp] only change how it is written. *)

Record BackupAttachment := {
  ba_filename : pystr;
  ba_content_type : option pystr;
  ba_size : Z;
  ba_sha256 : pystr;
  ba_created : Z;
}.
Record BackupFolder := {
  bf_uid : pystr;
  bf_name : pystr;
}.
(** The twelve fields of [document.model_dump()] and those a backup adds *)
Record BackupEntry := {
  be_document : EntryDocument;
  be_folder_uid : option pystr;
  be_created : Z;
  be_updated : Z;
  be_deleted : option Z;
  be_attachments : list BackupAttachment;
}.
(** [settings] has the fields of [BackupSettings]; [format] is a literal. *)
Record BackupManifest := {
  bm_version : Z;
  bm_exported_at : Z;
  bm_app_version : pystr;
  bm_settings : SettingsModel;
  bm_entries_count : Z;
  bm_folders : list BackupFolder;
}.

Definition is_hex_digit (c : N) : bool := in_range 48 57 c || in_range 97 102 c.
(** The pattern [^[0-9a-f]{n}$] *)
Definition hex_text (n : nat) (s : pystr) : bool :=
  (length s =? n)%nat && forallb is_hex_digit s.
Definition unicode (s : pystr) : bool := is_ok (require_unicode_text s).
Definition unicode_or_none (o : option pystr) : bool :=
  match o with Some s => unicode s | None => true end.

Definition valid_attachment (a : BackupAttachment) : bool :=
  unicode (ba_filename a) && unicode_or_none (ba_content_type a)
  && (1 <=? ba_size a) && (ba_size a <=? MAX_ATTACHMENT_FRAME_BYTES)
  && hex_text 64 (ba_sha256 a).
Definition valid_folder (f : BackupFolder) : bool := hex_text 32 (bf_uid f) && unicode (bf_name f).
Definition valid_entry (e : BackupEntry) : bool :=
  match be_folder_uid e with Some u => hex_text 32 u | None => true end
  && (Z.of_nat (length (be_attachments e)) <=? MAX_ATTACHMENTS_PER_ENTRY)
  && forallb valid_attachment (be_attachments e).
Definition valid_manifest (m : BackupManifest) : bool :=
  ((bm_version m =? 2) || (bm_version m =? 3))
  && (0 <=? bm_entries_count m) && (bm_entries_count m <=? MAX_FRAMES - 1)
  && forallb valid_folder (bm_folders m).
(** [SettingsUpdate] *)
Definition valid_settings (s : SettingsModel) : bool :=
  (30000 <=? inactivity_ms s) && (inactivity_ms s <=? 3600000)
  && (5000 <=? warn_before_ms s) && (warn_before_ms s <=? 600000)
  && (10000 <=? hidden_ms s) && (hidden_ms s <=? 3600000)
  && (100 <=? debounce_ms s) && (debounce_ms s <=? 10000)
  && (5000 <=? clipboard_clear_ms s) && (clipboard_clear_ms s <=? 600000)
  && (warn_before_ms s <? inactivity_ms s).

(** [error.errors()[0]] of a [ValidationError]: where, and the message *)
Inductive Loc := LKey (name : pystr) | LIndex (i : Z).
Record ValidationError := { ve_loc : list Loc; ve_msg : pystr }.

(** [json.dumps(...).encode()] of a payload, and [model_validate_json(...,
    strict=True)] *)
Class BackupCodec := {
  dump_manifest : BackupManifest -> res bytes;
  load_manifest : bytes -> ValidationError + BackupManifest;
  dump_backup_entry : BackupEntry -> res bytes;
  load_backup_entry : bytes -> ValidationError + BackupEntry;
}.

(** Only valid payloads load, and a valid one loads as it was dumped; the texts of
    a document that loaded from a record are valid texts. *)
Class BackupCodecLaws `{Codec} `{BackupCodec} : Prop := {
  load_manifest_valid b m : load_manifest b = inr m -> valid_manifest m = true;
  load_dump_manifest m b :
    valid_manifest m = true -> dump_manifest m = Ok b -> load_manifest b = inr m;
  load_backup_entry_valid b e : load_backup_entry b = inr e -> valid_entry e = true;
  load_dump_backup_entry e b raw :
    load_entry raw = Some (be_document e) -> valid_entry e = true ->
    dump_backup_entry e = Ok b -> load_backup_entry b = inr e;
}.

Definition loc_part (l : Loc) : pystr := match l with LKey s => s | LIndex i => str_of_Z i end.
Definition location (l : list Loc) : pystr :=
  let field := joined (str ".") (map loc_part (drop 2 l)) in
  if bool_decide (field = []) then str "content" else field.
Definition problem (place : pystr) (e : ValidationError) : exn :=
  InvalidRequest (str "Nothing was imported. " ++ place ++ str " (" ++ location (ve_loc e)
    ++ str "): " ++ ve_msg e ++ str ".").
(** [_manifest_problem]; pydantic locates an item of a list by its index. *)
Definition manifest_problem (e : ValidationError) : exn :=
  match ve_loc e with
  | LKey k :: LIndex i :: _ =>
      if bool_decide (k = str "entries") then problem (str "entry " ++ str_of_Z (i + 1)) e
      else problem (str "the backup") e
  | LKey k :: LKey _ :: _ =>
      if bool_decide (k = str "entries") then ValueError (str "invalid literal for int()")
      else problem (str "the backup") e
  | _ => problem (str "the backup") e
  end.

(** [value.hex()] of a column *)
Definition hex_of_cell (c : cell) : res pystr :=
  match c with CBlob b => Ok (hex b) | _ => Err AttributeError end.
(** pydantic's [ValidationError] is a [ValueError]. *)
Definition validated {A} (valid : A -> bool) (a : A) : res A :=
  if valid a then Ok a else Err (ValueError (str "validation error")).
(** [value.replace(...)] of a time read from a row *)
Definition time_of (s : stamp) : res Z :=
  match s with Time t => Ok t | BadTime => Err AttributeError end.

(** ** [RestoredPassword] *)

Definition field_error {A} (field : string) (r : res A) : option (pystr * pystr) :=
  match r with
  | Err (ValueError detail) => Some (str field, str "Value error, " ++ detail)
  | _ => None
  end.
Definition too_short (field : string) (s : pystr) : option (pystr * pystr) :=
  if bool_decide (s = []) then Some (str field, str "String should have at least 1 character") else None.
Definition optional {A B} (f : A -> res B) (o : option A) : res () :=
  match o with Some a => _ ← f a; Ok () | None => Ok () end.
Definition first_bad {A} (f : pystr -> res A) (l : list pystr) : res () :=
  foldr (fun s r => _ ← f s; r) (Ok ()) l.

Section Restored.
Context `{Text}.

(** The errors in the order pydantic meets them *)
Definition restored_errors (d : EntryDocument) : list (pystr * pystr) :=
  omap id
    [too_short "password_name" (doc_name d);
     field_error "password_name" (require_unicode_text (doc_name d));
     field_error "password_name" (reject_nul (Some (doc_name d)));
     field_error "username" (optional require_unicode_text (doc_username d));
     field_error "username" (reject_nul (doc_username d));
     too_short "password_value" (doc_value d);
     field_error "password_value" (require_unicode_text (doc_value d));
     field_error "url" (optional require_unicode_text (doc_url d));
     field_error "totp_secret" (optional require_unicode_text (doc_totp_secret d));
     field_error "description" (optional require_unicode_text (doc_description d));
     field_error "description" (reject_nul (doc_description d));
     field_error "tags" (first_bad require_unicode_text (doc_tags d));
     field_error "custom_fields"
       (first_bad require_unicode_text (doc_custom_fields d ≫= fun f => [field_label f; field_value f]));
     field_error "folder" (optional require_unicode_text (doc_folder d))].

Definition restored (d : EntryDocument) : Password :=
  {| password_name := doc_name d; pw_kind := doc_kind d; pw_username := doc_username d;
     password_value := doc_value d; pw_url := doc_url d;
     pw_totp_secret := normalize_totp_secret_leniently (doc_totp_secret d);
     pw_description := doc_description d; pw_tags := doc_tags d;
     pw_custom_fields := doc_custom_fields d; pw_folder := or_none (doc_folder d);
     pw_folder_id := None; pw_favorite := doc_favorite d |}.

Definition restored_password (d : EntryDocument) : (pystr * pystr) + Password :=
  match restored_errors d with
  | e :: _ => inl e
  | [] => inr (restored d)
  end.

(** [_restorable] *)
Definition restorable (e : BackupEntry) : ImportItem EntryDocument :=
  let d := be_document e in
  if bool_decide (doc_name d = []) then Ignored None (str "no name")
  else if bool_decide (doc_value d = []) then Ignored (Some (doc_name d)) (str "no password or note text")
  else Fields d.

(** [_check_entry] *)
Definition check_entry (e : BackupEntry) (index : Z) : res (Password * list HistoryItem) :=
  let place := str "entry " ++ str_of_Z index in
  '(valid, ignored) ← validate_import restored_password [(place, restorable e)] source_key;
  match ignored with
  | r :: _ => Err (InvalidRequest (str "Nothing was imported. " ++ where_ r ++ str ": "
                     ++ reason r ++ str "."))
  | [] =>
      if MAX_MIGRATED_TOTAL_ATTACHMENT_BYTES <? foldr (fun a acc => ba_size a + acc) 0 (be_attachments e)
      then Err (InvalidRequest (str "Nothing was imported. " ++ place
                  ++ str ": its attachments exceed the 50 MB migration limit."))
      else
        match valid with
        | (_, p) :: _ => Ok (p, doc_history (be_document e))
        | [] => Err IndexError
        end
  end.
End Restored.

(** What became of the entries of a backup *)
Record RestoreCounts := {
  rc_imported : Z;
  rc_skipped : Z;
  rc_overwritten : Z;
  rc_trashed : Z;
}.
Definition no_counts : RestoreCounts :=
  {| rc_imported := 0; rc_skipped := 0; rc_overwritten := 0; rc_trashed := 0 |}.
Definition count_imported (c : RestoreCounts) : RestoreCounts :=
  {| rc_imported := rc_imported c + 1; rc_skipped := rc_skipped c;
     rc_overwritten := rc_overwritten c; rc_trashed := rc_trashed c |}.
Definition count_skipped (c : RestoreCounts) : RestoreCounts :=
  {| rc_imported := rc_imported c; rc_skipped := rc_skipped c + 1;
     rc_overwritten := rc_overwritten c; rc_trashed := rc_trashed c |}.
Definition count_overwritten (c : RestoreCounts) : RestoreCounts :=
  {| rc_imported := rc_imported c; rc_skipped := rc_skipped c;
     rc_overwritten := rc_overwritten c + 1; rc_trashed := rc_trashed c |}.
Definition count_trashed (c : RestoreCounts) : RestoreCounts :=
  {| rc_imported := rc_imported c; rc_skipped := rc_skipped c;
     rc_overwritten := rc_overwritten c; rc_trashed := rc_trashed c + 1 |}.

(** [summary.model_copy(update=...)] *)
Definition restore_result (total_ attached grants : Z) (with_settings : bool) (c : RestoreCounts)
    (renamed_ : list ImportRowReport) : PasswordImportResult :=
  let r := import_result {| n_imported := rc_imported c; n_skipped := rc_skipped c;
                            n_overwritten := rc_overwritten c |} [] renamed_ in
  {| imported := imported r; skipped := skipped r; overwritten := overwritten r; total := total_;
     ignored := ignored r; ignored_rows := ignored_rows r; renamed := renamed r;
     renamed_rows := renamed_rows r; n_trashed := rc_trashed c; n_attachments := attached;
     n_grants_restored := grants; settings_restored := with_settings |}.

(** [active] and [trashed]: the entries in the vault by name index, and by name
    index and deletion time *)
Record Targets := {
  tg_active : gmap bytes Z;
  tg_trashed : gmap (bytes * stamp) Z;
}.

Section Backup.
Context `{Cryptography} `{Environment} `{Codec} `{BackupCodec} `{Text} `{Config}.
(** [self.owner_id], [self.entry_ids] and [self.restore_settings] *)
Variable owner_id : option Z.
Variable entry_ids : option (list Z).
Variable restore_settings : bool.

(** [BackupCRUD.load_active] *)
Definition load_own : M World (gmap cell (Z * EntryModel)) :=
  query (fun d => foldl (fun m p => <[entry_name_index p.2 := p]> m) ∅
    (filter (fun p => deleted p.2 = None ∧ (owner_id = None ∨ entry_owner_id p.2 = owner_id))
      (rows (t_rows (entries d))))).

(** ** Keys *)

Definition new_backup_key (password : pystr) (params : KdfParams) : M World (bytes * BackupKey) :=
  salt ← os_urandom SALT_BYTES;
  derived ← derive password salt params;
  mret (salt, make_backup_key derived).
Definition backup_key_for (password : pystr) (h : BackupHeader) : M World BackupKey :=
  derived ← derive password (bh_salt h) (bh_params h);
  mret (make_backup_key derived).

Definition recheck_session (token : option pystr) : M World () :=
  match token with
  | None => mret ()
  | Some t => _ ← auth_context t false false; mret ()
  end.

(** ** Export *)

(** [_attachment] *)
Definition backup_attachment (key : VaultKey) (e : EntryModel) (id : Z)
    : M World (bytes * AttachmentMetadata * stamp) :=
  row ← query (fun d => t_rows (attachments d) !! id);
  a ← lift (ok_or NoResultFound row);
  m ← lift (open_attachment_metadata key id a (entry_uid e));
  data ← lift (open_attachment_content key id a (entry_uid e));
  mret (data, m, attachment_created a).

Definition describe_attachment (data : bytes) (m : AttachmentMetadata) (created : stamp)
    : res BackupAttachment :=
  t ← time_of created;
  validated valid_attachment
    {| ba_filename := meta_filename m; ba_content_type := meta_content_type m;
       ba_size := Z.of_nat (length data); ba_sha256 := hex (sha256 data); ba_created := t |}.

(** [_attachments_of] *)
Definition attachments_of (key : VaultKey) (id : Z) (e : EntryModel)
    : M World (list (Z * BackupAttachment)) :=
  ids ← query (fun d => map fst (entry_attachments d id));
  forM ids (fun i =>
    '(data, m, created) ← backup_attachment key e i;
    described ← lift (describe_attachment data m created);
    mret (i, described)).

(** Each frame draws its nonce. *)
Definition writer_write (plaintext : bytes) (w : BackupWriter) : M World BackupWriter :=
  nonce ← os_urandom NONCE_BYTES; lift (write_frame nonce plaintext w).

(** An attachment whose entry is gone *)
Definition orphan (d : DB) : option Z :=
  fst <$> head (filter (fun p => t_rows (entries d) !! attachment_entry_id p.2 = None)
                  (rows (t_rows (attachments d)))).

(** The entries a backup holds, by id *)
Definition exported_ids (d : DB) : list Z :=
  match entry_ids with
  | None => map fst (rows (t_rows (entries d)))
  | Some ids => sorted_by Z.leb ids
  end.

(** The folders that go into the backup of the entries [ids] *)
Definition exported_folders (ids : list Z) (d : DB) : list (Z * FolderModel) :=
  let linked := omap (fun p => if bool_decide (p.1 ∈ ids) then folder_id p.2 else None)
                  (rows (t_rows (entries d))) in
  filter (fun p =>
    match entry_ids with
    | None => true
    | Some _ => match owner_id with
                | None => bool_decide (p.1 ∈ linked)
                | Some o => (folder_owner_id p.2 =? o) || bool_decide (p.1 ∈ linked)
                end
    end = true) (rows (t_rows (folders d))).

(** A folder's id, and what the manifest says of it *)
Definition describe_folder (key : VaultKey) (p : Z * FolderModel) : M World (Z * BackupFolder) :=
  uid ← lift (hex_of_cell (folder_uid p.2));
  name ← lift (open_folder key p.1 p.2);
  f ← lift (validated valid_folder {| bf_uid := uid; bf_name := name |});
  mret (p.1, f).

Definition attachment_count (ids : list Z) (d : DB) : Z :=
  Z.of_nat (length (filter (fun p =>
    match entry_ids with None => true | Some _ => bool_decide (attachment_entry_id p.2 ∈ ids) end = true)
    (rows (t_rows (attachments d))))).

(** One entry's frame, then a frame for each attachment *)
Definition write_entry (key : VaultKey) (folder_uids : list (Z * pystr)) (w : BackupWriter) (id : Z)
    : M World BackupWriter :=
  row ← query (fun d => t_rows (entries d) !! id);
  e ← lift (ok_or NoResultFound row);
  document ← lift (open_entry key id e);
  described ← attachments_of key id e;
  created ← lift (time_of (entry_created e));
  updated ← lift (time_of (entry_updated e));
  del ← lift (match deleted e with None => Ok None | Some t => Some <$> time_of t end);
  let payload := {| be_document := document;
       be_folder_uid := fid ← folder_id e; snd <$> head (filter (fun p => p.1 = fid) folder_uids);
       be_created := created; be_updated := updated; be_deleted := del;
       be_attachments := map snd described |} in
  encoded ← lift (dump_backup_entry payload);
  raise_if (MAX_ENTRY_FRAME_BYTES <? Z.of_nat (length encoded))
    (InvalidRequest (str "Entry #" ++ str_of_Z id ++ str " exceeds the per-entry backup limit."));;
  w ← writer_write encoded w;
  foldM (fun w p => '(data, _, _) ← backup_attachment key e p.1; writer_write data w) described w.

(** The snapshot [create_backup] writes into a file. Closing the temporary file
    after a failure changes nothing that is modelled. *)
Definition write_backup (salt : bytes) (backup_key : BackupKey) (key : VaultKey) : M World bytes :=
  lost ← query orphan;
  match lost with
  | Some id => throw (VaultDamaged (str "Attachment #" ++ str_of_Z id ++ str " has no entry."))
  | None => mret ()
  end;;
  ids ← query exported_ids;
  models ← query (exported_folders ids);
  described ← forM models (describe_folder key);
  n ← query (attachment_count ids);
  let frames_count := 1 + Z.of_nat (length ids) + n in
  raise_if (MAX_FRAMES <? frames_count)
    (InvalidRequest (str "The vault has too many records for one backup."));;
  now ← utc_now;
  current ← stored_settings;
  let manifest := {| bm_version := 3; bm_exported_at := now; bm_app_version := app_version;
       bm_settings := current; bm_entries_count := Z.of_nat (length ids);
       bm_folders := map snd described |} in
  encoded ← lift (dump_manifest manifest);
  raise_if (MAX_MANIFEST_BYTES <? Z.of_nat (length encoded))
    (InvalidRequest (str "The backup settings frame is too large."));;
  lift (match load_manifest encoded with
        | inl _ => Err (ValueError (str "validation error")) | inr _ => Ok () end);;
  w ← lift (make_writer [] backup_key
        {| bh_params := DEFAULT_KDF; bh_salt := salt; bh_frames := frames_count;
           bh_commitment := bk_commitment backup_key |});
  w ← writer_write encoded w;
  w ← foldM (write_entry key (map (fun p => (p.1, bf_uid p.2)) described)) ids w;
  lift (finish_writer w);;
  raise_if (MAX_BACKUP_BYTES <? Z.of_nat (length (bw_target w)))
    (InvalidRequest (str "The vault exceeds the 1 GiB complete-backup limit. Nothing was written."));;
  mret (bw_target w).

Definition create_backup (master_password : pystr) (key : VaultKey) (verify_current : bool)
    : M World bytes :=
  opened ← (if verify_current then Some <$> check_master_password master_password else mret None);
  '(salt, backup_key) ← new_backup_key master_password DEFAULT_KDF;
  match opened with Some o => confirm_same_key o key | None => mret () end;;
  write_backup salt backup_key key.

(** ** Restore *)

Definition all_targets (d : DB) : res Targets :=
  let rs := rows (t_rows (entries d)) in
  act ← foldl (fun m p => m ← m; index ← bytes_of_cell (entry_name_index p.2); Ok (<[index := p.1]> m))
          (Ok ∅) (filter (fun p => deleted p.2 = None) rs);
  tra ← foldl (fun m p => m ← m;
            match deleted p.2 with
            | Some t => index ← bytes_of_cell (entry_name_index p.2); Ok (<[(index, t) := p.1]> m)
            | None => Ok m
            end) (Ok ∅) rs;
  Ok {| tg_active := act; tg_trashed := tra |}.

(** The new entry of a backup's entry *)
Definition add_restored (p : Password) (history : list HistoryItem) (be : BackupEntry)
    (fid : option Z) (key : VaultKey) : M World (Z * EntryModel) :=
  let document := document_from p history in
  fid ← (if is_some fid then mret fid else folder_by_name owner_id (doc_folder document) key);
  e ← new_entry owner_id fid;
  e ← seal_entry key
        {| entry_uid := entry_uid e; entry_created := Time (be_created be);
           entry_updated := Time (be_updated be); deleted := Time <$> be_deleted be;
           entry_owner_id := entry_owner_id e; folder_id := folder_id e;
           entry_name_index := entry_name_index e; entry_document := entry_document e;
           backed_up := true |} document;
  id ← write (insert_entry e);
  mret (id, e).

(** A new entry, and its place among the targets *)
Definition add_target (p : Password) (history : list HistoryItem) (be : BackupEntry)
    (targets : Targets) (index : bytes) (key : VaultKey) (fid : option Z) (counts : RestoreCounts)
    : M World (option (Z * EntryModel) * Targets * RestoreCounts) :=
  '(id, e) ← add_restored p history be fid key;
  mret (Some (id, e),
    match be_deleted be with
    | None => {| tg_active := <[index := id]> (tg_active targets); tg_trashed := tg_trashed targets |}
    | Some t => {| tg_active := tg_active targets;
                   tg_trashed := <[(index, Time t) := id]> (tg_trashed targets) |}
    end, counts).

(** [_restore_target]: [None] when the entry is skipped *)
Definition restore_target (p : Password) (history : list HistoryItem) (be : BackupEntry)
    (targets : Targets) (key : VaultKey) (on_conflict : OnConflict) (moved_at : Z)
    (counts : RestoreCounts) (fid : option Z)
    : M World (option (Z * EntryModel) * Targets * RestoreCounts) :=
  index ← lift (name_index key (password_name p));
  match be_deleted be with
  | Some t =>
      match tg_trashed targets !! (index, Time t) with
      | Some id =>
          row ← query (fun d => t_rows (entries d) !! id);
          e ← lift (ok_or NoResultFound row);
          _ ← lift (open_entry key id e);
          if negb (is_some owner_id) || bool_decide (entry_owner_id e = owner_id)
          then mret (None, targets, count_skipped counts)
          else add_target p history be targets index key fid (count_trashed counts)
      | None => add_target p history be targets index key fid (count_trashed counts)
      end
  | None =>
      match tg_active targets !! index with
      | Some id =>
          row ← query (fun d => t_rows (entries d) !! id);
          e ← lift (ok_or NoResultFound row);
          _ ← lift (open_entry key id e);
          match on_conflict with
          | on_conflict_skip => mret (None, targets, count_skipped counts)
          | on_conflict_overwrite =>
              raise_if (is_some owner_id && bool_decide (entry_owner_id e ≠ owner_id))
                (Forbidden (str "An entry with this name belongs to another account and cannot be overwritten. Import with conflict handling set to skip, or rename the entry first."));;
              save_entry id (set_deleted (Some (Time moved_at)) e);;
              add_target p history be targets index key fid (count_overwritten counts)
          end
      | None => add_target p history be targets index key fid (count_imported counts)
      end
  end.

(** A row for an attachment of the restored entry *)
Definition add_restored_attachment (key : VaultKey) (target : Z * EntryModel) (filename : pystr)
    (content_type : option pystr) (created : Z) (data : bytes) : M World () :=
  uid ← new_uid;
  a ← seal_attachment key
        {| attachment_uid := CBlob uid; attachment_created := Time created;
           attachment_entry_id := target.1; size_bytes := CNull; meta := CNull; content := CNull |}
        (entry_uid target.2) {| meta_filename := filename; meta_content_type := content_type |} data;
  _ ← write (insert_attachment a);
  mret ().

Definition restore_attachment (backup_key : BackupKey) (key : VaultKey)
    (target : option (Z * EntryModel)) (acc : BackupReader * Z) (described : BackupAttachment)
    : M World (BackupReader * Z) :=
  '(data, reader) ← lift (read_frame backup_key MAX_ATTACHMENT_FRAME_BYTES acc.1);
  raise_if (negb (Z.of_nat (length data) =? ba_size described)
            || bool_decide (hex (sha256 data) ≠ ba_sha256 described)) (InvalidRequest DAMAGED);;
  match target with
  | None => mret (reader, acc.2)
  | Some t =>
      add_restored_attachment key t (ba_filename described) (ba_content_type described)
        (ba_created described) data;;
      mret (reader, acc.2 + 1)
  end.

Record RestoreState := {
  rs_reader : BackupReader;
  rs_targets : Targets;
  rs_counts : RestoreCounts;
  rs_attachments : Z;
  rs_seen : gmap pystr Z;
}.

(** The folder an entry of the backup goes to *)
Definition linked_folder (version : Z) (folder_targets : gmap pystr (Z * pystr)) (be : BackupEntry)
    : res (option Z) :=
  match be_folder_uid be with
  | Some uid =>
      match folder_targets !! uid with
      | Some (fid, name) =>
          if bool_decide (Some name = doc_folder (be_document be)) then Ok (Some fid)
          else Err (InvalidRequest (str "Nothing was imported. An entry has an invalid folder link."))
      | None => Err (InvalidRequest (str "Nothing was imported. An entry has an invalid folder link."))
      end
  | None =>
      if (version =? 3) && is_some (doc_folder (be_document be))
      then Err (InvalidRequest (str "Nothing was imported. An entry is missing its folder identity."))
      else Ok None
  end.

Definition see_active (be : BackupEntry) (index : Z) (seen : gmap pystr Z) : res (gmap pystr Z) :=
  let name := doc_name (be_document be) in
  match be_deleted be, seen !! name with
  | Some _, _ => Ok seen
  | None, Some first =>
      Err (InvalidRequest (str "Nothing was imported. entry " ++ str_of_Z index
             ++ str " has the same name as entry " ++ str_of_Z first
             ++ str "; a vault cannot hold both."))
  | None, None => Ok (<[name := index]> seen)
  end.

Definition read_entry (backup_key : BackupKey) (reader : BackupReader)
    : res (BackupEntry * BackupReader) :=
  '(data, reader) ← read_frame backup_key MAX_ENTRY_FRAME_BYTES reader;
  match load_backup_entry data with
  | inl e => Err (manifest_problem e)
  | inr be => Ok (be, reader)
  end.

(** The loop of [_restore], one entry with its attachments *)
Definition restore_entry (backup_key : BackupKey) (version : Z)
    (folder_targets : gmap pystr (Z * pystr)) (key : VaultKey) (on_conflict : OnConflict)
    (moved_at : Z) (st : RestoreState) (index : Z) : M World RestoreState :=
  '(be, reader) ← lift (read_entry backup_key (rs_reader st));
  fid ← lift (linked_folder version folder_targets be);
  '(p, history) ← lift (check_entry be index);
  seen ← lift (see_active be index (rs_seen st));
  '(target, targets, counts) ←
    restore_target p history be (rs_targets st) key on_conflict moved_at (rs_counts st) fid;
  '(reader, attached) ← foldM (restore_attachment backup_key key target)
    (be_attachments be) (reader, rs_attachments st);
  mret {| rs_reader := reader; rs_targets := targets; rs_counts := counts;
          rs_attachments := attached; rs_seen := seen |}.

Definition folder_target (key : VaultKey) (acc : gmap pystr (Z * pystr)) (described : BackupFolder)
    : M World (gmap pystr (Z * pystr)) :=
  raise_if (is_some (acc !! bf_uid described))
    (InvalidRequest (str "The backup contains a duplicate folder identity."));;
  fid ← folder_by_name owner_id (Some (bf_name described)) key;
  fid ← lift (ok_or AssertionError fid);
  mret (<[bf_uid described := (fid, bf_name described)]> acc).

(** [_restore] *)
Definition restore (reader : BackupReader) (backup_key : BackupKey) (manifest : BackupManifest)
    (key : VaultKey) (on_conflict : OnConflict) : M World PasswordImportResult :=
  folder_targets ← foldM (folder_target key) (bm_folders manifest) ∅;
  vault_was_empty ← query (fun d => bool_decide (t_rows (entries d) = ∅));
  d ← query (fun d => d);
  targets ← lift (all_targets d);
  moved_at ← utc_now;
  st ← foldM (restore_entry backup_key (bm_version manifest) folder_targets key on_conflict moved_at)
         (seqZ 1 (bm_entries_count manifest))
         {| rs_reader := reader; rs_targets := targets; rs_counts := no_counts;
            rs_attachments := 0; rs_seen := ∅ |};
  lift (finish_reader (rs_reader st));;
  let with_settings := vault_was_empty && restore_settings in
  (if with_settings then _ ← update_settings (bm_settings manifest); mret () else mret ());;
  mret (restore_result (bm_entries_count manifest) (rs_attachments st) 0 with_settings (rs_counts st) []).

(** [except (BackupFormatError, DecryptionFailed): raise InvalidRequest(_DAMAGED)] *)
Definition or_damaged (e : exn) : exn :=
  match e with BackupFormatError _ | DecryptionFailed => InvalidRequest DAMAGED | _ => e end.
Definition read_manifest (backup_key : BackupKey) (reader : BackupReader)
    : res (BackupManifest * BackupReader) :=
  match read_frame backup_key MAX_MANIFEST_BYTES reader with
  | Err e => Err (or_damaged e)
  | Ok (data, reader) =>
      match load_manifest data with
      | inl e => Err (manifest_problem e)
      | inr m => Ok (m, reader)
      end
  end.

(** [import_backup] of a complete backup *)
Definition import_format_2 (upload : bytes) (password : pystr) (key : VaultKey)
    (on_conflict : OnConflict) (session_token : option pystr) : M World PasswordImportResult :=
  reader ← lift (match make_reader upload with
                 | Err (BackupFormatError detail) => Err (InvalidRequest detail)
                 | r => r
                 end);
  session_commit;;
  backup_key ← backup_key_for password (br_header reader);
  raise_unless (backup_key_matches backup_key (br_header reader)) (Forbidden WRONG_PASSWORD);;
  recheck_session session_token;;
  '(manifest, reader) ← lift (read_manifest backup_key reader);
  raise_if (remaining reader <? bm_entries_count manifest) (InvalidRequest DAMAGED);;
  raise_unless (valid_settings (bm_settings manifest))
    (InvalidRequest (str "Nothing was imported. The backup's settings are invalid."));;
  verify_vault_key (Some key);;
  catch (restore reader backup_key manifest key on_conflict) (fun e => throw (or_damaged e)).
End Backup.

Section BackupFrames.
Context `{Cryptography} `{Environment} `{Codec} `{BackupCodec} `{Text} `{Config}.
Implicit Types (owner_id : option Z) (entry_ids : option (list Z)).

Lemma frame_new_backup_key `{!SuspendFrame R} p k : keeps R (new_backup_key p k).
Proof. unfold new_backup_key. keeps_tac. Qed.
Lemma frame_backup_key_for `{!SuspendFrame R} p h : keeps R (backup_key_for p h).
Proof. unfold backup_key_for. keeps_tac. Qed.
Lemma frame_recheck_session `{!Frame R} t : keeps R (recheck_session t).
Proof. unfold recheck_session. keeps_tac. Qed.
Lemma same_load_own owner_id : keeps same_state (load_own owner_id).
Proof. apply same_query. Qed.
Lemma same_backup_attachment key e i : keeps same_state (backup_attachment key e i).
Proof. unfold backup_attachment. keeps_tac. Qed.
#[local] Hint Resolve frame_new_backup_key frame_backup_key_for frame_recheck_session
  same_backup_attachment : keeps.
Lemma same_attachments_of key i e : keeps same_state (attachments_of key i e).
Proof. unfold attachments_of. keeps_tac. Qed.
Lemma same_writer_write p w : keeps same_state (writer_write p w).
Proof. unfold writer_write. keeps_tac. Qed.
#[local] Hint Resolve same_attachments_of same_writer_write : keeps.
Lemma same_write_entry key us w i : keeps same_state (write_entry key us w i).
Proof. unfold write_entry. keeps_tac. Qed.
Lemma same_stored_settings : keeps same_state stored_settings.
Proof. unfold stored_settings. keeps_tac. Qed.
#[local] Hint Resolve same_write_entry same_stored_settings : keeps.
Lemma same_describe_folder key p : keeps same_state (describe_folder key p).
Proof. unfold describe_folder. keeps_tac. Qed.
#[local] Hint Resolve same_describe_folder : keeps.
Lemma same_write_backup owner_id entry_ids salt bk key :
  keeps same_state (write_backup owner_id entry_ids salt bk key).
Proof. unfold write_backup. keeps_tac. Qed.
#[local] Hint Resolve same_write_backup : keeps.
Lemma frame_create_backup `{!CommitFrame R} owner_id entry_ids p key b :
  keeps R (create_backup owner_id entry_ids p key b).
Proof. unfold create_backup. keeps_tac. Qed.
Lemma frame_create_backup_unverified `{!SuspendFrame R} owner_id entry_ids p key :
  keeps R (create_backup owner_id entry_ids p key false).
Proof. unfold create_backup. cbn match. keeps_tac. Qed.

Lemma frame_add_restored `{!DataFrame R} owner_id p h be fid key :
  keeps R (add_restored owner_id p h be fid key).
Proof. unfold add_restored. keeps_tac. Qed.
#[local] Hint Resolve frame_add_restored : keeps.
Lemma frame_add_target `{!DataFrame R} owner_id p h be t ix key fid c : keeps R (add_target owner_id p h be t ix key fid c).
Proof. unfold add_target. keeps_tac. Qed.
#[local] Hint Resolve frame_add_target : keeps.
Lemma frame_restore_target `{!DataFrame R} owner_id p h be t key oc at_ c fid :
  keeps R (restore_target owner_id p h be t key oc at_ c fid).
Proof. unfold restore_target. keeps_tac. Qed.
Lemma frame_add_restored_attachment `{!DataFrame R} key t f c cr data :
  keeps R (add_restored_attachment key t f c cr data).
Proof. unfold add_restored_attachment. keeps_tac. Qed.
#[local] Hint Resolve frame_restore_target frame_add_restored_attachment : keeps.
Lemma frame_restore_attachment `{!DataFrame R} bk key t acc a :
  keeps R (restore_attachment bk key t acc a).
Proof. unfold restore_attachment. keeps_tac. Qed.
#[local] Hint Resolve frame_restore_attachment : keeps.
Lemma frame_restore_entry `{!DataFrame R} owner_id bk v fts key oc at_ st i :
  keeps R (restore_entry owner_id bk v fts key oc at_ st i).
Proof. unfold restore_entry. keeps_tac. Qed.
Lemma frame_folder_target `{!DataFrame R} owner_id key acc f : keeps R (folder_target owner_id key acc f).
Proof. unfold folder_target. keeps_tac. Qed.
#[local] Hint Resolve frame_restore_entry frame_folder_target : keeps.
Lemma frame_restore `{!DataFrame R} owner_id rs r bk m key oc : keeps R (restore owner_id rs r bk m key oc).
Proof. unfold restore. keeps_tac. Qed.
#[local] Hint Resolve frame_restore : keeps.
Lemma frame_import_format_2 `{!DataFrame R} `{!CommitFrame R} owner_id rs u p key oc t :
  keeps R (import_format_2 owner_id rs u p key oc t).
Proof. unfold import_format_2. keeps_tac. Qed.
End BackupFrames.
#[export] Hint Resolve same_write_backup frame_new_backup_key frame_backup_key_for frame_recheck_session
  same_load_own frame_create_backup frame_create_backup_unverified frame_add_restored frame_restore_target
  frame_add_restored_attachment frame_restore_attachment frame_restore_entry frame_restore
  frame_import_format_2 : keeps.
