(* ===== verification/Legacy.v ===== *)
(** Backup ZIPs of earlier releases ([backend/crud/backup.py],
    [read_legacy_backup] of [backend/helpers.py]): their JSON payload, the
    entry-by-entry import and the migration of an archive with its shares; and
    [import_backup], which takes either format. *)
From Stdlib Require Import ZArith Lia Strings.String Strings.Byte SpecFloat.
From stdpp Require Import base list gmap sets.
From S2P Require Import Prelude Sha256 Crypto Platform Validators Models BackupFormat Engine Records.
From S2P Require Import Context Folder Password Attachment MasterPassword Auth Backup.

Definition MAX_LEGACY_JSON_BYTES : Z := 64 * 1024 * 1024.
Definition MAX_LEGACY_FILE_BYTES : Z := MAX_LEGACY_JSON_BYTES + 1024 * 1024.
Definition LEGACY_MAGIC : bytes := [Byte.x50; Byte.x4b; Byte.x03; Byte.x04].
Definition LEGACY_BACKUP_MEMBER : pystr := str "ciphermoth_backup.json".

(** ** JSON values, as [json.loads] gives them *)

Inductive json :=
  | JNull
  | JBool (b : bool)
  | JInt (z : Z)
  | JFloat (f : spec_float)
  | JStr (s : pystr)
  | JArr (l : list json)
  | JObj (o : list (pystr * json)).

Definition float_one : spec_float := S754_finite false 4503599627370496 (-52).
Definition equals_one (j : json) : bool :=
  match j with
  | JBool b => b
  | JInt z => z =? 1
  | JFloat f => SFeqb f float_one
  | _ => false
  end.
(** [bool(value)] *)
Definition truthy (j : json) : bool :=
  match j with
  | JNull => false
  | JBool b => b
  | JInt z => negb (z =? 0)
  | JFloat f => negb (SFeqb f (S754_zero false))
  | JStr s => bool_decide (s ≠ [])
  | JArr l => match l with [] => false | _ => true end
  | JObj o => match o with [] => false | _ => true end
  end.
(** [item.get(key)] *)
Definition get (key : string) (o : list (pystr * json)) : json :=
  default JNull (assoc_last (str key) o).

(** ** Outside libraries: the archive reader, the JSON parser, pydantic *)

Inductive ZipRead := ZipData (b : bytes) | ZipRuntimeError | ZipOtherError.
Record ZipMember := {
  zm_flag_bits : Z;
  (** [member.read(size)] after [setpassword(password)] *)
  zm_read : bytes -> Z -> ZipRead;
}.

(** The fields [_legacy_fields] hands to the schema *)
Record LegacyFields := {
  lf_name : json;
  lf_value : json;
  lf_kind : Kind;
  lf_username : json;
  lf_url : json;
  lf_totp_secret : json;
  lf_description : json;
  lf_tags : json;
  lf_custom_fields : list StoredField;
  lf_folder : json;
  lf_favorite : bool;
}.

Record LegacyMigrationShare := {
  ls_username : pystr;
  ls_role : UserRole;
  ls_permission : SharePermission;
}.
Record LegacyMigrationAttachment := {
  la_filename : pystr;
  la_content_type : option pystr;
  la_data : pystr;
  la_created : Z;
}.
(** The document's fields, [password_history] being its history, and the rest *)
Record LegacyMigrationEntry := {
  lm_legacy_id : Z;
  lm_owner_username : pystr;
  lm_created : Z;
  lm_updated : Z;
  lm_deleted : option Z;
  lm_document : EntryDocument;
  lm_shares : list LegacyMigrationShare;
  lm_attachments : list LegacyMigrationAttachment;
}.

Class LegacyLibraries := {
  (** [AESZipFile(...)]: the members by name, or an exception *)
  aes_zip : bytes -> option (list (pystr * ZipMember));
  json_loads : bytes -> option json;
  (** [str(value)] of a number that is no integer, a list or an object *)
  str_of_json : json -> pystr;
  (** [RestoredPassword.model_validate] *)
  validate_legacy : LegacyFields -> (pystr * pystr) + Password;
  (** [LegacyMigrationEntry.model_validate_json] of one entry of the archive *)
  load_migration_entry : json -> ValidationError + LegacyMigrationEntry;
}.

(** ** Attachments are base64 text *)

Definition b64_value (c : N) : option Z :=
  if in_range 65 90 c then Some (Z.of_N c - 65)
  else if in_range 97 122 c then Some (Z.of_N c - 71)
  else if in_range 48 57 c then Some (Z.of_N c + 4)
  else if (c =? 45)%N || (c =? 43)%N then Some 62
  else if (c =? 95)%N || (c =? 47)%N then Some 63
  else None.
Definition PAD : N := 61%N.

(** [base64.b64decode(..., altchars=b"-_", validate=True)] *)
Fixpoint b64_decode (s : pystr) : option bytes :=
  match s with
  | [] => Some []
  | a :: b :: c :: d :: rest =>
      a' ← b64_value a;
      b' ← b64_value b;
      let high := [byte_of_Z (a' * 4 + b' `div` 16)] in
      match b64_value c, b64_value d with
      | Some c', Some d' =>
          more ← b64_decode rest;
          Some (high ++ [byte_of_Z (b' * 16 + c' `div` 4); byte_of_Z (c' * 64 + d')] ++ more)
      | Some c', None =>
          if (d =? PAD)%N && bool_decide (rest = [])
          then Some (high ++ [byte_of_Z (b' * 16 + c' `div` 4)]) else None
      | None, _ =>
          if (c =? PAD)%N && (d =? PAD)%N && bool_decide (rest = []) then Some high else None
      end
  | _ => None
  end.

Example b64_decode_example : b64_decode (str "-_8AZg==") = Some [Byte.xfb; Byte.xff; Byte.x00; Byte.x66].
Proof. reflexivity. Qed.

(** [_migration_attachment_data] *)
Definition migration_attachment_data (a : LegacyMigrationAttachment) : res bytes :=
  let s := la_data a in
  let padding := Z.to_nat ((- Z.of_nat (length s)) `mod` 4) in
  match (if forallb (fun c => (c <? 128)%N) s then b64_decode (s ++ replicate padding PAD) else None) with
  | None => Err (InvalidRequest (str "Nothing was imported. Invalid attachment data."))
  | Some data =>
      if bool_decide (data = []) || (MAX_ATTACHMENT_FRAME_BYTES <? Z.of_nat (length data))
      then Err (InvalidRequest (str "Nothing was imported. An attachment exceeds the migration limit."))
      else Ok data
  end.

Section Payload.
Context `{Text} `{LegacyLibraries}.

(** [read_legacy_backup] *)
Definition read_legacy_backup (data : bytes) (password : pystr) (max_bytes : Z) : res bytes :=
  let unreadable := BackupFormatError (str "The ZIP file could not be read.") in
  match aes_zip data with
  | None => Err unreadable
  | Some archive =>
      match assoc_last LEGACY_BACKUP_MEMBER archive with
      | None => Err (BackupFormatError (str "The ZIP file is not a CipherMoth backup."))
      | Some m =>
          if Z.land (zm_flag_bits m) 1 =? 0
          then Err (BackupFormatError (str "The ZIP file is not encrypted."))
          else
            match utf8 password with
            | None => Err unreadable
            | Some pw =>
                match zm_read m pw (max_bytes + 1) with
                | ZipRuntimeError => Err DecryptionFailed
                | ZipOtherError => Err unreadable
                | ZipData content =>
                    if max_bytes <? Z.of_nat (length content)
                    then Err (BackupFormatError (str "The backup content is too large."))
                    else Ok content
                end
            end
      end
  end.

(** [str(value)] *)
Definition text_of (j : json) : pystr :=
  match j with
  | JNull => str "None"
  | JBool b => if b then str "True" else str "False"
  | JInt z => str_of_Z z
  | JStr s => s
  | _ => str_of_json j
  end.

(** [normalize_custom_fields] *)
Definition normalize_custom_fields (raw : json) : list StoredField :=
  match raw with
  | JArr l =>
      omap (fun item =>
        match item with
        | JObj o =>
            if truthy (get "label" o) then
              Some {| field_label := text_of (get "label" o);
                      field_value := text_of (default (JStr []) (assoc_last (str "value") o));
                      field_hidden := truthy (get "hidden" o) |}
            else None
        | _ => None
        end) l
  | _ => []
  end.

Definition legacy_tags (raw : json) : json :=
  match raw with
  | JArr l => JArr (omap (fun tag => match tag with JNull => None | _ => Some (JStr (text_of tag)) end) l)
  | _ => if truthy raw then raw else JArr []
  end.

Definition legacy_fields (item : json) : ImportItem LegacyFields :=
  match item with
  | JObj o =>
      let name := get "name" o in
      let value := get "value" o in
      if negb (truthy name) || match name with JStr s => bool_decide (strip s = []) | _ => false end
      then Ignored None (str "no name")
      else if negb (truthy value)
      then Ignored (match name with JStr s => Some s | _ => None end) (str "no password or note text")
      else Fields {| lf_name := name; lf_value := value;
             lf_kind := match get "kind" o with
                        | JStr s => if bool_decide (s = str "note") then note else Platform.login
                        | _ => Platform.login
                        end;
             lf_username := get "username" o; lf_url := get "url" o;
             lf_totp_secret := get "totp_secret" o; lf_description := get "description" o;
             lf_tags := legacy_tags (get "tags" o);
             lf_custom_fields := normalize_custom_fields (get "custom_fields" o);
             lf_folder := get "folder" o; lf_favorite := truthy (get "favorite" o) |}
  | _ => Ignored None (str "not an entry")
  end.

(** [enumerate(..., start=1)] *)
Definition legacy_rows (l : list json) : list (pystr * ImportItem LegacyFields) :=
  imap (fun i item => (str "entry " ++ str_of_Z (Z.of_nat i + 1), legacy_fields item)) l.

(** [payload["passwords"]] when it is a list, with the payload *)
Definition legacy_payload (raw : bytes) : res (list (pystr * json) * list json) :=
  match json_loads raw with
  | Some (JObj o) =>
      match assoc_last (str "passwords") o with
      | Some (JArr l) => Ok (o, l)
      | _ => Err (InvalidRequest (str "Invalid backup file format."))
      end
  | _ => Err (InvalidRequest (str "Invalid backup file format."))
  end.

Definition parse_migration (acc : list LegacyMigrationEntry * list pystr) (p : Z * json)
    : list LegacyMigrationEntry * list pystr :=
  match load_migration_entry p.2 with
  | inr e => (acc.1 ++ [e], acc.2)
  | inl e => (acc.1, acc.2 ++ [str "entry " ++ str_of_Z p.1 ++ str ": " ++ ve_msg e])
  end.
End Payload.

(** A share of the archive against the accounts that exist *)
Definition check_share (owner_id : option Z) (targets : gmap pystr (Z * UserModel)) (legacy_id : Z)
    (seen : gset pystr) (share : LegacyMigrationShare) : res (gset pystr) :=
  match targets !! ls_username share with
  | None => Err KeyError
  | Some (id, u) =>
      if bool_decide (ls_username share ∈ seen) || bool_decide (Some id = owner_id)
      then Err (InvalidRequest (str "Nothing was imported. Entry " ++ str_of_Z legacy_id
                  ++ str " has duplicate or self-directed access grants."))
      else if bool_decide (user_role u ≠ ls_role share)
      then Err (InvalidRequest (str "Nothing was imported. The role for share target "
                  ++ ls_username share ++ str " does not match the backup."))
      else Ok ({[ls_username share]} ∪ seen)
  end.
Fixpoint check_shares (owner_id : option Z) (targets : gmap pystr (Z * UserModel)) (legacy_id : Z)
    (seen : gset pystr) (shares : list LegacyMigrationShare) : res () :=
  match shares with
  | [] => Ok ()
  | s :: shares =>
      seen ← check_share owner_id targets legacy_id seen s;
      check_shares owner_id targets legacy_id seen shares
  end.

Record MigrationState := {
  ms_targets : Targets;
  ms_taken : gset bytes;
  ms_seen : gset bytes;
  ms_counts : RestoreCounts;
  ms_attachments : Z;
  ms_grants : Z;
  ms_renamed : list ImportRowReport;
}.

(** The backup's form of an entry of the archive *)
Definition migrated_attachment (a : LegacyMigrationAttachment) (data : bytes) : BackupAttachment :=
  {| ba_filename := la_filename a; ba_content_type := la_content_type a;
     ba_size := Z.of_nat (length data); ba_sha256 := hex (sha256 data); ba_created := la_created a |}.
Definition migrated_entry (s : LegacyMigrationEntry) (contents : list bytes) : BackupEntry :=
  {| be_document := lm_document s; be_folder_uid := None; be_created := lm_created s;
     be_updated := lm_updated s; be_deleted := lm_deleted s;
     be_attachments := zip_with migrated_attachment (lm_attachments s) contents |}.
Definition be_with_name (name : pystr) (e : BackupEntry) : BackupEntry :=
  let d := be_document e in
  {| be_document :=
       {| doc_name := name; doc_kind := doc_kind d; doc_username := doc_username d;
          doc_value := doc_value d; doc_url := doc_url d; doc_totp_secret := doc_totp_secret d;
          doc_description := doc_description d; doc_tags := doc_tags d;
          doc_custom_fields := doc_custom_fields d; doc_folder := doc_folder d;
          doc_favorite := doc_favorite d; doc_history := doc_history d |};
     be_folder_uid := be_folder_uid e; be_created := be_created e; be_updated := be_updated e;
     be_deleted := be_deleted e; be_attachments := be_attachments e |}.

Section Legacy.
Context `{Cryptography} `{Environment} `{Codec} `{BackupCodec} `{Text} `{Config} `{LegacyLibraries}.
(** [self.owner_id] and [self.restore_settings] *)
Variable owner_id : option Z.
Variable restore_settings : bool.

(** The accounts an archive shares with, by name *)
Definition share_targets_of (names : gset pystr) (d : DB) : gmap pystr (Z * UserModel) :=
  list_to_map (map (fun p => (username p.2, p))
    (filter (fun p => username p.2 ∈ names ∧ active p.2 = true) (rows (t_rows (users d))))).

(** [owners]: who owns the active entries *)
Definition owner_of (d : DB) (ids : list Z) (id : Z) : option Z :=
  if bool_decide (id ∈ ids) then t_rows (entries d) !! id ≫= entry_owner_id else None.

(** One entry of the archive with its attachments and grants *)
Definition migrate_entry (targets : gmap pystr (Z * UserModel)) (owners : Z -> option Z)
    (key : VaultKey) (on_conflict : OnConflict) (moved_at : Z) (st : MigrationState)
    (p : Z * LegacyMigrationEntry) : M World MigrationState :=
  let '(index, source) := p in
  let place := str "entry " ++ str_of_Z index in
  contents ← forM (lm_attachments source) (fun a => lift (migration_attachment_data a));
  raise_if (MAX_MIGRATED_TOTAL_ATTACHMENT_BYTES
      <? foldr (fun c acc => Z.of_nat (length c) + acc) 0 contents)
    (InvalidRequest (str "Nothing was imported. " ++ place
       ++ str ": its attachments exceed the 50 MB migration limit."));;
  be ← lift (validated valid_entry (migrated_entry source contents));
  '(be, taken, seen, renamed_) ←
    match lm_deleted source with
    | Some _ => mret (be, ms_taken st, ms_seen st, ms_renamed st)
    | None =>
        let name := doc_name (be_document be) in
        index ← lift (name_index key name);
        let foreign := match tg_active (ms_targets st) !! index, owner_id with
                       | Some id, Some _ => bool_decide (owners id ≠ owner_id)
                       | _, _ => false
                       end in
        if foreign || bool_decide (index ∈ ms_seen st) then
          unique ← lift (unique_name name (ms_taken st) key);
          index ← lift (name_index key unique);
          mret (be_with_name unique be, {[index]} ∪ ms_taken st, {[index]} ∪ ms_seen st,
            ms_renamed st ++
            [{| where_ := place; report_name := Some (take 100 name);
                reason := str "imported as '" ++ take 120 unique
                  ++ str "' because that active name is already in use" |}])
        else mret (be, {[index]} ∪ ms_taken st, {[index]} ∪ ms_seen st, ms_renamed st)
    end;
  '(pw, history) ← lift (check_entry be index);
  '(target, tgs, counts) ←
    restore_target owner_id pw history be (ms_targets st) key on_conflict moved_at (ms_counts st) None;
  match target with
  | None =>
      mret {| ms_targets := tgs; ms_taken := taken; ms_seen := seen; ms_counts := counts;
              ms_attachments := ms_attachments st; ms_grants := ms_grants st; ms_renamed := renamed_ |}
  | Some t =>
      _ ← forM (zip (lm_attachments source) contents) (fun '(a, data) =>
            add_restored_attachment key t (la_filename a) (la_content_type a) (la_created a) data);
      _ ← forM (lm_shares source) (fun s =>
            u ← lift (ok_or KeyError (targets !! ls_username s));
            write (put_entry_access t.1 u.1
              {| grant_permission := ls_permission s; expires_at := None; granted_by := owner_id |}));
      mret {| ms_targets := tgs; ms_taken := taken; ms_seen := seen; ms_counts := counts;
              ms_attachments := ms_attachments st + Z.of_nat (length contents);
              ms_grants := ms_grants st + Z.of_nat (length (lm_shares source));
              ms_renamed := renamed_ |}
  end.

(** [_import_legacy_migration] *)
Definition import_legacy_migration (items : list json) (key : VaultKey) (on_conflict : OnConflict)
    : M World PasswordImportResult :=
  raise_if (MAX_FRAMES - 1 <? Z.of_nat (length items))
    (InvalidRequest (str "Nothing was imported. The backup has too many entries."));;
  let '(parsed, problems) := foldl parse_migration ([], []) (imap (fun i j => (Z.of_nat i + 1, j)) items) in
  raise_if (bool_decide (problems ≠ []))
    (InvalidRequest (str "Nothing was imported. " ++ joined (str "; ") (take 5 problems) ++ str "."));;
  raise_unless (bool_decide (NoDup (map lm_legacy_id parsed)))
    (InvalidRequest (str "Nothing was imported. Duplicate legacy entry IDs."));;
  owner_username ← query (fun d => o ← owner_id; username <$> t_rows (users d) !! o);
  raise_unless (match owner_username with
                | None => false
                | Some n => bool_decide ((list_to_set (map lm_owner_username parsed) : gset pystr) = {[n]})
                end)
    (Forbidden (str "Nothing was imported. Sign in as the archive's exact legacy owner."));;
  let names : gset pystr := list_to_set (parsed ≫= fun e => map ls_username (lm_shares e)) in
  targets ← query (share_targets_of names);
  let missing := sorted_by str_le (elements (names ∖ dom targets)) in
  raise_if (bool_decide (missing ≠ []))
    (InvalidRequest (str "Nothing was imported. Create and activate these share targets first: "
       ++ joined (str ", ") missing ++ str "."));;
  _ ← forM parsed (fun e => lift (check_shares owner_id targets (lm_legacy_id e) ∅ (lm_shares e)));
  d ← query (fun d => d);
  tgs ← lift (all_targets d);
  moved_at ← utc_now;
  let owners := owner_of d (map snd (map_to_list (tg_active tgs))) in
  st ← foldM (migrate_entry targets owners key on_conflict moved_at)
    (imap (fun i e => (Z.of_nat i + 1, e)) parsed)
    {| ms_targets := tgs; ms_taken := dom (tg_active tgs); ms_seen := ∅; ms_counts := no_counts;
       ms_attachments := 0; ms_grants := 0; ms_renamed := [] |};
  mret (restore_result (Z.of_nat (length parsed)) (ms_attachments st) (ms_grants st) false
          (ms_counts st) (ms_renamed st)).

(** [_import_legacy]; other requests can run once the lock is released. *)
Definition import_legacy (upload : bytes) (password : pystr) (key : VaultKey)
    (on_conflict : OnConflict) (session_token : option pystr) : M World PasswordImportResult :=
  raise_if (MAX_LEGACY_FILE_BYTES <? Z.of_nat (length upload))
    (InvalidRequest (str "The backup ZIP exceeds the legacy migration limit."));;
  session_commit;;
  suspend;;
  raw ← lift (match read_legacy_backup upload password MAX_LEGACY_JSON_BYTES with
              | Err DecryptionFailed => Err (Forbidden WRONG_PASSWORD)
              | Err (BackupFormatError detail) =>
                  Err (InvalidRequest (detail ++ str " Ensure it is a valid CipherMoth backup."))
              | r => r
              end);
  recheck_session session_token;;
  '(payload, items) ← lift (legacy_payload raw);
  if equals_one (get "migration_version" payload) then
    _ ← verify_vault_key (Some key);
    import_legacy_migration items key on_conflict
  else
    '(passwords, ignored_) ← lift (validate_import validate_legacy (legacy_rows items) source_key);
    _ ← verify_vault_key (Some key);
    store_import owner_id (load_own owner_id) passwords ignored_ key on_conflict.

(** [import_backup] *)
Definition import_backup (upload : bytes) (password : pystr) (key : VaultKey)
    (on_conflict : OnConflict) (session_token : option pystr) : M World PasswordImportResult :=
  if bool_decide (take 4 upload = LEGACY_MAGIC)
  then import_legacy upload password key on_conflict session_token
  else import_format_2 owner_id restore_settings upload password key on_conflict session_token.
End Legacy.

Section LegacyFrames.
Context `{Cryptography} `{Environment} `{Codec} `{BackupCodec} `{Text} `{Config} `{LegacyLibraries}.
Implicit Types owner_id : option Z.

Lemma frame_migrate_entry `{!DataFrame R} owner_id ts os key oc at_ st p :
  keeps R (migrate_entry owner_id ts os key oc at_ st p).
Proof. unfold migrate_entry. keeps_tac. Qed.
#[local] Hint Resolve frame_migrate_entry : keeps.
Lemma frame_import_legacy_migration `{!DataFrame R} owner_id items key oc :
  keeps R (import_legacy_migration owner_id items key oc).
Proof. unfold import_legacy_migration. keeps_tac. Qed.
#[local] Hint Resolve frame_import_legacy_migration : keeps.
Lemma frame_import_legacy `{!DataFrame R} `{!CommitFrame R} owner_id u p key oc t :
  keeps R (import_legacy owner_id u p key oc t).
Proof. unfold import_legacy. keeps_tac. Qed.
#[local] Hint Resolve frame_import_legacy : keeps.
Lemma frame_import_backup `{!DataFrame R} `{!CommitFrame R} owner_id rs u p key oc t :
  keeps R (import_backup owner_id rs u p key oc t).
Proof. unfold import_backup. keeps_tac. Qed.
End LegacyFrames.
#[export] Hint Resolve frame_migrate_entry frame_import_legacy_migration frame_import_legacy
  frame_import_backup : keeps.
