(* ===== verification/Storage.v ===== *)
(** The vault's files ([backend/storage.py]): checks before a vault is opened, the
    lock of the data folder, snapshots, migrations, and the operations that move
    whole vaults: restoring a snapshot and setting a vault aside. Every operation
    that touches a disk may fail or be the last one before the process is killed. *)
From Stdlib Require Import ZArith Lia Strings.String Strings.Byte.
From stdpp Require Import base list gmap strings.
From S2P Require Import Prelude Crypto.

(** ** Disks

    A folder holds its files by name; [events] says what becomes of the operations
    to come. [Fails n] is an error of the operating system, [Killed_at n] the end of
    the process; [n] is how far the operation got. *)

Abbreviation dir := (list pystr).
Abbreviation folder := (gmap pystr bytes).
(** [folder / name] *)
Definition path : Type := dir * pystr.

Inductive Event := Runs | Fails (n : nat) | Killed_at (n : nat).
Inductive LockState := Unlocked | Locked_here | Locked_elsewhere.

Record Disk := {
  dk_dirs : gmap dir folder;
  dk_events : list Event;
  dk_lock : LockState;
  dk_clock : nat;
}.
Definition set_dirs (m : gmap dir folder) (d : Disk) : Disk :=
  {| dk_dirs := m; dk_events := dk_events d; dk_lock := dk_lock d; dk_clock := dk_clock d |}.
Definition set_lock (l : LockState) (d : Disk) : Disk :=
  {| dk_dirs := dk_dirs d; dk_events := dk_events d; dk_lock := l; dk_clock := dk_clock d |}.
Definition set_clock (n : nat) (d : Disk) : Disk :=
  {| dk_dirs := dk_dirs d; dk_events := dk_events d; dk_lock := dk_lock d; dk_clock := n |}.
Definition set_events (es : list Event) (d : Disk) : Disk :=
  {| dk_dirs := dk_dirs d; dk_events := es; dk_lock := dk_lock d; dk_clock := dk_clock d |}.

Definition next_event : M Disk Event := fun d =>
  match dk_events d with
  | [] => (Ok Runs, d)
  | e :: es => (Ok e, set_events es d)
  end.

Definition file_at (p : path) (d : Disk) : option bytes := dk_dirs d !! p.1 ≫= fun f => f !! p.2.
Definition dir_exists (p : dir) (d : Disk) : bool := is_some (dk_dirs d !! p).
(** [path.is_file()], [path.exists()] *)
Definition is_file (p : path) (d : Disk) : bool := is_some (file_at p d).
Definition exists_ (p : path) (d : Disk) : bool := is_file p d || dir_exists (p.1 ++ [p.2]) d.
(** [path.is_file() and path.stat().st_size > 0] *)
Definition has_bytes (p : path) (d : Disk) : bool :=
  match file_at p d with Some (_ :: _) => true | _ => false end.

Definition put_file (p : path) (b : bytes) (d : Disk) : Disk :=
  match dk_dirs d !! p.1 with
  | Some f => set_dirs (<[p.1 := <[p.2 := b]> f]> (dk_dirs d)) d
  | None => d
  end.
Definition remove_file (p : path) (d : Disk) : Disk :=
  match dk_dirs d !! p.1 with
  | Some f => set_dirs (<[p.1 := delete p.2 f]> (dk_dirs d)) d
  | None => d
  end.
(** [path.with_name(path.name + suffix)] *)
Definition beside (p : path) (suffix : pystr) : path := (p.1, p.2 ++ suffix).

(** An operation that happens as a whole or not at all *)
Definition atomically {A} (op : M Disk A) : M Disk A :=
  e ← next_event;
  match e with
  | Runs => op
  | Fails _ => throw OSError
  | Killed_at _ => throw Killed
  end.
(** An operation that may stop on its way *)
Definition gradually (part : nat -> M Disk ()) (failure : exn) (op : M Disk ()) : M Disk () :=
  e ← next_event;
  match e with
  | Runs => op
  | Fails n => part n;; throw failure
  | Killed_at n => part n;; throw Killed
  end.

(** [except] and [finally] clauses do not run in a process that was killed. *)
Definition handling {S A} (m : M S A) (h : exn -> M S A) : M S A :=
  catch m (fun e => match e with Killed => throw Killed | _ => h e end).
(** [except BaseException: cleanup; raise] *)
Definition cleaning_up {S A} (m : M S A) (cleanup : M S ()) : M S A :=
  handling m (fun e => cleanup;; throw e).
Definition finally {S A} (m : M S A) (cleanup : M S ()) : M S A :=
  a ← cleaning_up m cleanup; cleanup;; mret a.

(** [mkdir(parents=True, exist_ok=True)]: an existing file of that name, or of a
    parent's, is an error. *)
Fixpoint inits_from (done rest : dir) : list dir :=
  match rest with
  | [] => []
  | n :: rest => (done ++ [n]) :: inits_from (done ++ [n]) rest
  end.
Definition make_dir (p : dir) (d : Disk) : Disk :=
  if dir_exists p d then d else set_dirs (<[p := ∅]> (dk_dirs d)) d.
Definition name_taken (p : dir) (d : Disk) : bool :=
  match reverse p with
  | n :: up => is_file (reverse up, n) d
  | [] => false
  end.
Definition mkdir_parents (p : dir) : M Disk () :=
  foldM (fun (_ : ()) q =>
    there ← gets (dir_exists q);
    if there : bool then mret ()
    else atomically (taken ← gets (name_taken q);
                     raise_if taken OSError;; modify (make_dir q)))
    (inits_from [] p) ().
(** [mkdir()] *)
Definition mkdir_new (p : dir) : M Disk () :=
  atomically (taken ← gets (fun d => name_taken p d || dir_exists p d);
              raise_if taken OSError;; modify (make_dir p)).
(** [os.close(os.open(path, O_WRONLY | O_CREAT | O_EXCL))] *)
Definition create_file (p : path) : M Disk () :=
  atomically (blocked ← gets (fun d => exists_ p d || negb (dir_exists p.1 d));
              raise_if blocked OSError;; modify (put_file p [])).
(** [unlink(missing_ok=True)] *)
Definition unlink_missing_ok (p : path) : M Disk () :=
  atomically (is_dir ← gets (dir_exists (p.1 ++ [p.2]));
              raise_if is_dir OSError;; modify (remove_file p)).
(** [os.replace] of a file *)
Definition replace (source target : path) : M Disk () :=
  atomically (b ← gets (file_at source);
    match b with
    | None => throw OSError
    | Some b =>
        blocked ← gets (fun d => dir_exists (target.1 ++ [target.2]) d || negb (dir_exists target.1 d));
        raise_if blocked OSError;; modify (fun d => put_file target b (remove_file source d))
    end).
(** [os.replace] of a folder. The folders this module renames have no folders in
    them. *)
Definition replace_dir (source target : dir) : M Disk () :=
  atomically (f ← gets (fun d => dk_dirs d !! source);
    match f with
    | None => throw OSError
    | Some f =>
        blocked ← gets (fun d => match dk_dirs d !! target with
                                 | Some g => negb (bool_decide (g = ∅))
                                 | None => name_taken target d
                                 end);
        raise_if blocked OSError;;
        modify (fun d => set_dirs (<[target := f]> (delete source (dk_dirs d))) d)
    end).
(** [shutil.copyfile]: an interrupted copy leaves the first bytes. *)
Definition copyfile (source target : path) : M Disk () :=
  b ← gets (file_at source);
  match b with
  | None => throw OSError
  | Some b => gradually (fun n => modify (put_file target (take n b))) OSError (modify (put_file target b))
  end.
(** [_fsync], [_fsync_dir] and [os.chmod]: they change no contents. *)
Definition fsync (p : path) : M Disk () := atomically (mret ()).
Definition fsync_dir (p : dir) : M Disk () := atomically (mret ()).
Definition chmod (p : path) : M Disk () := atomically (mret ()).
(** [shutil.rmtree(ignore_errors=True)] removes what it can. *)
Definition rmtree (p : dir) : M Disk () :=
  e ← next_event;
  match e with
  | Runs => modify (fun d => set_dirs (delete p (dk_dirs d)) d)
  | Fails n => modify (fun d => set_dirs (alter (fun f : folder => list_to_map (drop n (map_to_list f))) p (dk_dirs d)) d)
  | Killed_at n =>
      modify (fun d => set_dirs (alter (fun f : folder => list_to_map (drop n (map_to_list f))) p (dk_dirs d)) d);;
      throw Killed
  end.

(** ** SQLite *)

(** A database file and the journals SQLite keeps beside it *)
Record VaultFiles := {
  f_main : option bytes;
  f_wal : option bytes;
  f_shm : option bytes;
  f_journal : option bytes;
}.

Definition WAL : pystr := str "-wal".
Definition SHM : pystr := str "-shm".
Definition JOURNAL : pystr := str "-journal".
(** [_SIDECARS] *)
Definition SIDECARS : list pystr := [WAL; SHM; JOURNAL].

Definition files_at (p : path) (d : Disk) : VaultFiles :=
  {| f_main := file_at p d; f_wal := file_at (beside p WAL) d;
     f_shm := file_at (beside p SHM) d; f_journal := file_at (beside p JOURNAL) d |}.
Definition put_or_remove (p : path) (b : option bytes) (d : Disk) : Disk :=
  match b with Some b => put_file p b d | None => remove_file p d end.
Definition put_files (p : path) (f : VaultFiles) (d : Disk) : Disk :=
  put_or_remove (beside p JOURNAL) (f_journal f)
    (put_or_remove (beside p SHM) (f_shm f)
      (put_or_remove (beside p WAL) (f_wal f) (put_or_remove p (f_main f) d))).

(** What SQLite does with files. [sq_connect] is what a connection sees in them.
    The functions with a number are that operation interrupted on its way. *)
Class Sqlite := {
  database : Type;
  sqlite_version : Z * Z * Z;
  sq_connect : VaultFiles -> res database;
  pragma_integrity_check : database -> res (list pystr);
  pragma_quick_check : database -> res (list pystr);
  pragma_foreign_key_check : database -> res (list (pystr * pystr * pystr));
  pragma_application_id : database -> res Z;
  pragma_user_version : database -> res Z;
  count_schema_objects : database -> res Z;
  select_formats : database -> res (list cell);
  (** a statement, and [BaseModel.metadata.create_all] *)
  sq_execute : pystr -> database -> res database;
  create_all : database -> res database;
  (** the file [backup] and a journal mode leave, once its connection is closed *)
  sq_image : database -> pystr -> bytes;
  (** the files after a transaction that ends with this database *)
  sq_commit : database -> VaultFiles -> VaultFiles;
  sq_committing : nat -> database -> VaultFiles -> VaultFiles;
  (** taken in exclusive locking mode, and closed without a checkpoint *)
  sq_take : VaultFiles -> res () * VaultFiles;
  (** [wal_checkpoint(TRUNCATE)] and [journal_mode=DELETE] *)
  sq_fold : VaultFiles -> VaultFiles;
  sq_folding : nat -> VaultFiles -> VaultFiles;
}.

(** The operating system: texts of errors, users, and what may be written *)
Class Host := {
  win32 : bool;
  error_text : exn -> pystr;
  path_text : path -> pystr;
  dir_text : dir -> pystr;
  owner_uid : dir -> Z;
  my_uid : Z;
  my_gid : Z;
  dir_writable : dir -> bool;
  file_writable : path -> bool;
  (** [strftime('%Y%m%dT%H%M%S%fZ')] of the n-th reading of the clock *)
  utc_stamp : nat -> pystr;
}.

(** ** What may be opened *)

Definition MIN_SQLITE_VERSION : Z * Z * Z := (3, 51, 3).
Definition APPLICATION_ID : Z := 0x434D5448.
Definition SCHEMA_VERSION : Z := 4.
Definition MULTIUSER_SCHEMA_VERSION : Z := 3.
Definition PREVIOUS_SCHEMA_VERSION : Z := 2.
Definition FORMAT_1_SCHEMA : Z := 1.
Definition VAULT_FILE : pystr := str "vault.db".
Definition LOCK_FILE : pystr := str "vault.lock".
Definition SNAPSHOT_DIR : pystr := str "snapshots".
Definition SET_ASIDE_PENDING : pystr := str "set-aside-in-progress".
Definition RESTORING_SUFFIX : pystr := str ".restoring".
Definition UNREADABLE : list Z := [11; 26].

Definition vault_file (data_dir : dir) : path := (data_dir, VAULT_FILE).
Definition snapshot_dir (data_dir : dir) : dir := data_dir ++ [SNAPSHOT_DIR].

Definition FORMAT_1_VAULT : pystr :=
  str "was created by CipherMoth 2.0 or earlier (vault format 1), which this release no longer opens. Nothing was changed. To move your entries, make a backup with CipherMoth 2.0, stop CipherMoth, run 'ciphermoth-admin set-aside' to move the old vault into the snapshot folder, start this release, create a new vault and import the backup (docs/UPDATING.md)".

Definition identity_problem (application_id user_version : Z) : option pystr :=
  if negb (application_id =? APPLICATION_ID) then Some (str "is not a CipherMoth vault")
  else if user_version =? FORMAT_1_SCHEMA then Some FORMAT_1_VAULT
  else if user_version =? PREVIOUS_SCHEMA_VERSION then
    Some (str "uses the single-user schema from CipherMoth 3.1; stop CipherMoth and run 'ciphermoth-admin migrate-users'")
  else if user_version =? MULTIUSER_SCHEMA_VERSION then
    Some (str "uses the multi-user schema without stable folders; stop CipherMoth and run 'ciphermoth-admin migrate-folders'")
  else if SCHEMA_VERSION <? user_version then
    Some (str "was written by a newer CipherMoth (vault schema " ++ str_of_Z user_version
          ++ str ", this release understands " ++ str_of_Z SCHEMA_VERSION ++ str "); update CipherMoth")
  else if negb (user_version =? SCHEMA_VERSION) then
    Some (str "has an unsupported vault schema (" ++ str_of_Z user_version ++ str ")")
  else None.

Definition format_problem (formats : list cell) : option pystr :=
  match formats with
  | [] => None
  | _ :: _ :: _ => Some (str "has more than one vault key row")
  | [CInt v] =>
      if v =? FORMAT_VERSION then None
      else if FORMAT_VERSION <? v then
        Some (str "was written by a newer CipherMoth (vault format " ++ str_of_Z v
              ++ str ", this release understands " ++ str_of_Z FORMAT_VERSION ++ str "); update CipherMoth")
      else Some (str "has an unsupported vault format (" ++ str_of_Z v ++ str ")")
  | [_] => Some (str "has an invalid vault format marker")
  end.

Definition version_lt (a b : Z * Z * Z) : bool :=
  let '(a1, a2, a3) := a in
  let '(b1, b2, b3) := b in
  (a1 <? b1) || ((a1 =? b1) && ((a2 <? b2) || ((a2 =? b2) && (a3 <? b3)))).
Definition dotted (v : Z * Z * Z) : pystr :=
  let '(a, b, c) := v in joined (str ".") [str_of_Z a; str_of_Z b; str_of_Z c].

Section Storage.
Context `{Sqlite} `{Host}.

Definition require_supported_sqlite : res () :=
  if version_lt sqlite_version MIN_SQLITE_VERSION then
    Err (StorageError (str "SQLite " ++ dotted sqlite_version ++ str " is too old for a CipherMoth vault: "
      ++ dotted MIN_SQLITE_VERSION ++ str " or newer fixes the WAL-reset corruption bug that concurrent connections can trigger. Use the official images or a uv-managed Python."))
  else Ok ().

(** [identity_problem], then [format_problem] *)
Definition vault_problem (db : database) (application_id user_version : Z) : res (option pystr) :=
  match identity_problem application_id user_version with
  | Some p => Ok (Some p)
  | None => formats ← select_formats db; Ok (format_problem formats)
  end.

Definition ensure_schema (db : database) : res database :=
  application_id ← pragma_application_id db;
  user_version ← pragma_user_version db;
  objects ← count_schema_objects db;
  if (application_id =? 0) && (user_version =? 0) && (objects =? 0) then
    db ← create_all db;
    db ← sq_execute (str "PRAGMA application_id=" ++ str_of_Z APPLICATION_ID) db;
    sq_execute (str "PRAGMA user_version=" ++ str_of_Z SCHEMA_VERSION) db
  else
    problem ← vault_problem db application_id user_version;
    match problem with
    | Some p => Err (StorageError (str "The vault file " ++ p ++ str "."))
    | None => Ok db
    end.

(** The rows of a check other than [ok] *)
Definition damage_of (rows : list pystr) : list pystr := filter (fun r => r ≠ str "ok") rows.
Definition missing_rows (l : list (pystr * pystr * pystr)) : list pystr :=
  map (fun '(t, r, p) => t ++ str " row " ++ r ++ str " references a missing row of " ++ p) l.
Definition check_connection (db : database) : res (list pystr) :=
  damage ← pragma_integrity_check db;
  missing ← pragma_foreign_key_check db;
  application_id ← pragma_application_id db;
  user_version ← pragma_user_version db;
  problem ← vault_problem db application_id user_version;
  Ok (damage_of damage ++ missing_rows missing
      ++ match problem with Some p => [str "the file " ++ p] | None => [] end).

(** [_connect_existing]; SQLite opens the file with the first statement. *)
Definition connect_existing (p : path) : M Disk VaultFiles :=
  there ← gets (is_file p);
  raise_unless there (StorageError (path_text p ++ str " does not exist."));;
  gets (files_at p).

Definition check_file (p : path) : M Disk (list pystr) :=
  lift require_supported_sqlite;;
  catch (f ← connect_existing p; lift (db ← sq_connect f; check_connection db))
    (fun e => match e with
              | DatabaseError _ => mret [str "SQLite cannot read the file: " ++ error_text e]
              | _ => throw e
              end).

Definition unwritable (data_dir : dir) : M Disk pystr :=
  there ← gets (dir_exists data_dir);
  let message := str "CipherMoth cannot write its vault in " ++ dir_text data_dir ++ str ": "
                 ++ error_text OSError ++ str "." in
  mret (if negb win32 && there && negb (owner_uid data_dir =? my_uid)
        then message ++ str " The folder belongs to uid " ++ str_of_Z (owner_uid data_dir)
             ++ str " but CipherMoth runs as uid " ++ str_of_Z my_uid ++ str "; give it to that user (chown -R "
             ++ str_of_Z my_uid ++ str ":" ++ str_of_Z my_gid ++ str ")."
        else message).
Definition or_unwritable {A} (m : M Disk A) (data_dir : dir) : M Disk A :=
  catch m (fun e => match e with
                    | OSError => message ← unwritable data_dir; throw (StorageError message)
                    | _ => throw e
                    end).

Definition refuse_pending_set_aside (data_dir : dir) : M Disk () :=
  pending ← gets (exists_ (snapshot_dir data_dir, SET_ASIDE_PENDING));
  raise_if pending (StorageError (str "A vault set-aside was interrupted. Nothing was changed. Run 'ciphermoth-admin set-aside' again to finish moving the vault and its journals together before starting or restoring CipherMoth.")).

Definition refuse_orphaned_journals (p : path) : M Disk () :=
  live ← gets (has_bytes p);
  if live : bool then mret ()
  else
    foldM (fun (_ : ()) suffix =>
      orphaned ← gets (has_bytes (beside p suffix));
      raise_if orphaned (StorageError (p.2 ++ suffix ++ str " exists but " ++ p.2
        ++ str " is missing or empty, so the journal belongs to a vault that is not there. Nothing was changed. Run 'ciphermoth-admin set-aside' again to move it next to the vault it belongs to, or put that vault file back (docs/UPDATING.md).")))
      [WAL; JOURNAL] ().

Definition unusable (db : database) : res (list pystr) :=
  application_id ← pragma_application_id db;
  user_version ← pragma_user_version db;
  objects ← count_schema_objects db;
  if (application_id =? 0) && (user_version =? 0) && (objects =? 0) then Ok []
  else
    problem ← vault_problem db application_id user_version;
    match problem with
    | Some p => Err (StorageError (str "The vault file " ++ p ++ str "."))
    | None => damage_of <$> pragma_quick_check db
    end.
Definition refuse_unusable_file (p : path) : M Disk () :=
  live ← gets (has_bytes p);
  if negb live then mret ()
  else
    damage ← catch (f ← connect_existing p; lift (db ← sq_connect f; unusable db))
      (fun e => match e with
                | DatabaseError _ =>
                    throw (StorageError (str "SQLite cannot open the vault file " ++ path_text p ++ str ": "
                             ++ error_text e ++ str ". Restore a snapshot (docs/UPDATING.md)."))
                | _ => throw e
                end);
    raise_unless (bool_decide (damage = []))
      (StorageError (str "The vault file failed SQLite's integrity check: " ++ joined (str "; ") (take 5 damage)
         ++ str ". Restore a snapshot (docs/UPDATING.md).")).

Definition prepare_data_dir (data_dir : dir) : M Disk path :=
  or_unwritable (mkdir_parents data_dir) data_dir;;
  let p := vault_file data_dir in
  refuse_pending_set_aside data_dir;;
  refuse_orphaned_journals p;;
  refuse_unusable_file p;;
  or_unwritable
    (there ← gets (exists_ p);
     (if there : bool then mret () else create_file p);;
     raise_unless (dir_writable data_dir && file_writable p) OSError) data_dir;;
  mret p.

(** ** The lock of the data folder *)

(** [VaultLock.acquire] *)
Definition acquire (data_dir : dir) : M Disk () :=
  or_unwritable
    (mkdir_parents data_dir;;
     atomically (blocked ← gets (fun d => dir_exists (data_dir ++ [LOCK_FILE]) d || negb (dir_exists data_dir d));
       raise_if blocked OSError;;
       there ← gets (is_file (data_dir, LOCK_FILE));
       if there : bool then mret () else modify (put_file (data_dir, LOCK_FILE) []))) data_dir;;
  catch (atomically (l ← gets dk_lock;
           match l with Unlocked => modify (set_lock Locked_here) | _ => throw OSError end))
    (fun e => throw (match e with
       | OSError => StorageError (str "Another CipherMoth process is using " ++ dir_text data_dir
                                  ++ str ". Stop it first.")
       | _ => e end)).
(** [with VaultLock(data_dir)] *)
Definition with_lock {A} (data_dir : dir) (body : M Disk A) : M Disk A :=
  acquire data_dir;; finally body (modify (set_lock Unlocked)).

(** ** Copies *)

(** [_discard] *)
Definition discard (p : path) : M Disk () :=
  foldM (fun (_ : ()) suffix => unlink_missing_ok (beside p suffix)) ([] :: SIDECARS) ().

(** [src.backup(dst)] into an existing file *)
Definition backup_into (target : path) (db : database) (mode : pystr) : M Disk () :=
  gradually (fun n => modify (put_file target (take n (sq_image db mode)))) (DatabaseError (Some 10))
    (modify (put_file target (sq_image db mode))).

Definition partial_of (destination : path) : path := beside destination (str ".partial").
(** The copy under its partial name, and its check *)
Definition checked_backup (source partial : path) (mode : pystr) : M Disk () :=
  f ← connect_existing source;
  db ← lift (sq_connect f);
  backup_into partial db mode;;
  copied ← gets (files_at partial);
  problems ← lift (db ← sq_connect copied; check_connection db);
  raise_unless (bool_decide (problems = []))
    (StorageError (str "The copy of " ++ source.2 ++ str " failed its integrity check: "
       ++ joined (str "; ") (take 5 problems))).
(** [_copy] *)
Definition copy_vault (source destination : path) (mode : pystr) : M Disk () :=
  let partial := partial_of destination in
  discard partial;;
  create_file partial;;
  cleaning_up
    (checked_backup source partial mode;;
     fsync partial;;
     replace partial destination;;
     fsync_dir destination.1)
    (discard partial).

(** [timestamped], without its [.db] *)
Definition timestamp (prefix : string) : M Disk pystr :=
  n ← gets dk_clock;
  modify (set_clock (S n));;
  mret (str prefix ++ str "-" ++ utc_stamp n).
Definition timestamped (prefix : string) : M Disk pystr :=
  s ← timestamp prefix; mret (s ++ str ".db").

(** Where [snapshot] writes, checked *)
Definition snapshot_target (data_dir : dir) (destination : option path) : M Disk path :=
  lift require_supported_sqlite;;
  let folder := snapshot_dir data_dir in
  catch (mkdir_parents folder)
    (fun e => throw (match e with
       | OSError => StorageError (str "Could not create " ++ dir_text folder ++ str ": " ++ error_text e)
       | _ => e end));;
  target ← match destination with
           | Some p => mret p
           | None => s ← timestamped "vault"; mret (folder, s)
           end;
  raise_if (bool_decide (target.1 = data_dir) && bool_decide (take (length VAULT_FILE) target.2 = VAULT_FILE))
    (StorageError (target.2 ++ str " is a name the vault itself uses; choose another name."));;
  there ← gets (exists_ target);
  raise_if there (StorageError (path_text target ++ str " already exists."));;
  mret target.
Definition snapshot (data_dir : dir) (destination : option path) : M Disk path :=
  target ← snapshot_target data_dir destination;
  catch (copy_vault (vault_file data_dir) target (str "DELETE"))
    (fun e => throw (match e with
       | DatabaseError _ => StorageError (str "Could not copy the vault: " ++ error_text e)
       | OSError => StorageError (str "Could not write the snapshot: " ++ error_text e)
       | _ => e end));;
  mret target.
End Storage.

(** ** Migrations *)

Definition FOLDER_SCHEMA_SQL : pystr := str "
    ALTER TABLE vault ADD COLUMN folder_links_ready BOOLEAN NOT NULL DEFAULT 0;
    CREATE TABLE folders (
        id INTEGER PRIMARY KEY AUTOINCREMENT,
        uid BLOB NOT NULL UNIQUE,
        owner_id INTEGER NOT NULL REFERENCES users(id) ON DELETE RESTRICT,
        name_index BLOB NOT NULL,
        document BLOB NOT NULL,
        created TIMESTAMP NOT NULL DEFAULT CURRENT_TIMESTAMP,
        updated TIMESTAMP NOT NULL DEFAULT CURRENT_TIMESTAMP,
        CONSTRAINT uq_folders_owner_name UNIQUE (owner_id, name_index),
        CONSTRAINT ck_folders_uid CHECK (length(uid) = 16),
        CONSTRAINT ck_folders_name_index CHECK (length(name_index) = 32)
    );
    CREATE INDEX ix_folders_owner_id ON folders(owner_id);
    ALTER TABLE entries ADD COLUMN folder_id INTEGER
        REFERENCES folders(id) ON DELETE RESTRICT;
    CREATE INDEX ix_entries_folder_id ON entries(folder_id);
    ALTER TABLE entry_access ADD COLUMN expires_at TIMESTAMP;
    CREATE TABLE groups (
        id INTEGER PRIMARY KEY AUTOINCREMENT,
        uid BLOB NOT NULL UNIQUE,
        name_index BLOB NOT NULL UNIQUE,
        document BLOB NOT NULL,
        created TIMESTAMP NOT NULL DEFAULT CURRENT_TIMESTAMP,
        updated TIMESTAMP NOT NULL DEFAULT CURRENT_TIMESTAMP,
        CONSTRAINT ck_groups_uid CHECK (length(uid) = 16),
        CONSTRAINT ck_groups_name_index CHECK (length(name_index) = 32)
    );
    CREATE TABLE group_members (
        group_id INTEGER NOT NULL REFERENCES groups(id) ON DELETE CASCADE,
        user_id INTEGER NOT NULL REFERENCES users(id) ON DELETE CASCADE,
        added_by INTEGER REFERENCES users(id) ON DELETE SET NULL,
        created TIMESTAMP NOT NULL DEFAULT CURRENT_TIMESTAMP,
        PRIMARY KEY (group_id, user_id)
    );
    CREATE TABLE folder_user_access (
        folder_id INTEGER NOT NULL REFERENCES folders(id) ON DELETE CASCADE,
        user_id INTEGER NOT NULL REFERENCES users(id) ON DELETE CASCADE,
        permission VARCHAR(16) NOT NULL,
        expires_at TIMESTAMP,
        granted_by INTEGER REFERENCES users(id) ON DELETE SET NULL,
        created TIMESTAMP NOT NULL DEFAULT CURRENT_TIMESTAMP,
        PRIMARY KEY (folder_id, user_id),
        CONSTRAINT ck_folder_user_access_permission
            CHECK (permission IN ('read', 'write'))
    );
    CREATE TABLE folder_group_access (
        folder_id INTEGER NOT NULL REFERENCES folders(id) ON DELETE CASCADE,
        group_id INTEGER NOT NULL REFERENCES groups(id) ON DELETE CASCADE,
        permission VARCHAR(16) NOT NULL,
        expires_at TIMESTAMP,
        granted_by INTEGER REFERENCES users(id) ON DELETE SET NULL,
        created TIMESTAMP NOT NULL DEFAULT CURRENT_TIMESTAMP,
        PRIMARY KEY (folder_id, group_id),
        CONSTRAINT ck_folder_group_access_permission
            CHECK (permission IN ('read', 'write'))
    );
    CREATE TABLE access_audit (
        id INTEGER PRIMARY KEY AUTOINCREMENT,
        created TIMESTAMP NOT NULL DEFAULT CURRENT_TIMESTAMP,
        actor_user_id INTEGER REFERENCES users(id) ON DELETE SET NULL,
        action VARCHAR(64) NOT NULL,
        resource_type VARCHAR(32) NOT NULL,
        resource_id INTEGER NOT NULL,
        target_user_id INTEGER REFERENCES users(id) ON DELETE SET NULL,
        target_group_id INTEGER REFERENCES groups(id) ON DELETE SET NULL,
        permission VARCHAR(16),
        expires_at TIMESTAMP,
        previous_permission VARCHAR(16),
        previous_expires_at TIMESTAMP
    );
    CREATE INDEX ix_access_audit_created ON access_audit(created);
    CREATE INDEX ix_access_audit_resource_id ON access_audit(resource_id);
".
(** The statements of [migrate_users] *)
Definition USERS_SCHEMA_SQL : pystr := str "
                        CREATE TABLE users (
                            id INTEGER PRIMARY KEY AUTOINCREMENT,
                            created TIMESTAMP NOT NULL DEFAULT CURRENT_TIMESTAMP,
                            updated TIMESTAMP NOT NULL DEFAULT CURRENT_TIMESTAMP,
                            username VARCHAR(64) NOT NULL UNIQUE,
                            role VARCHAR(16) NOT NULL,
                            active BOOLEAN NOT NULL DEFAULT 1,
                            must_change_password BOOLEAN NOT NULL DEFAULT 0,
                            service_owner_id INTEGER
                                REFERENCES users(id) ON DELETE RESTRICT,
                            service_token_hash BLOB UNIQUE,
                            kdf VARCHAR NOT NULL,
                            kdf_memory_kib INTEGER NOT NULL,
                            kdf_iterations INTEGER NOT NULL,
                            kdf_lanes INTEGER NOT NULL,
                            kdf_salt BLOB NOT NULL,
                            password_check BLOB NOT NULL,
                            wrapped_key BLOB NOT NULL,
                            key_check BLOB NOT NULL,
                            CONSTRAINT ck_users_role
                                CHECK (role IN ('admin', 'member', 'service')),
                            CONSTRAINT ck_users_salt CHECK (length(kdf_salt) = 16),
                            CONSTRAINT ck_users_password_check
                                CHECK (length(password_check) = 32),
                            CONSTRAINT ck_users_key_check CHECK (length(key_check) = 32)
                        );
                        CREATE INDEX ix_users_service_owner_id
                            ON users(service_owner_id);
                        ALTER TABLE vault ADD COLUMN owner_user_id INTEGER
                            REFERENCES users(id) ON DELETE RESTRICT;
                        ALTER TABLE entries ADD COLUMN owner_id INTEGER
                            REFERENCES users(id) ON DELETE RESTRICT;
                        CREATE INDEX ix_entries_owner_id ON entries(owner_id);
                        CREATE TABLE entry_access (
                            entry_id INTEGER NOT NULL
                                REFERENCES entries(id) ON DELETE CASCADE,
                            user_id INTEGER NOT NULL
                                REFERENCES users(id) ON DELETE CASCADE,
                            permission VARCHAR(16) NOT NULL,
                            granted_by INTEGER REFERENCES users(id) ON DELETE SET NULL,
                            created TIMESTAMP NOT NULL DEFAULT CURRENT_TIMESTAMP,
                            PRIMARY KEY (entry_id, user_id),
                            CONSTRAINT ck_entry_access_permission
                                CHECK (permission IN ('read', 'write'))
                        );
                        ".

(** [text.split(";")] *)
Fixpoint split_at_semicolons (s : pystr) : list pystr :=
  match s with
  | [] => [[]]
  | c :: s =>
      match split_at_semicolons s with
      | first :: rest => if (c =? 59)%N then [] :: first :: rest else (c :: first) :: rest
      | [] => [[]]
      end
  end.
(** [statement.strip()] is not empty; the texts above are ASCII. *)
Definition is_statement (s : pystr) : bool := existsb (fun c => negb (bool_decide (c ∈ [32%N; 10%N]))) s.
Definition statements (text : pystr) : list pystr := filter (fun s => is_statement s = true) (split_at_semicolons text).

Section Whole.
Context `{Sqlite} `{Host}.

Definition run_statements (l : list pystr) (db : database) : res database :=
  foldl (fun db s => db ← db; sq_execute s db) (Ok db) l.
(** A transaction on the live vault; a statement or a commit that fails is rolled
    back. *)
Definition transact (live : path) (body : database -> res database) : M Disk () :=
  f ← connect_existing live;
  db ← lift (sq_connect f);
  db ← lift (body db);
  e ← next_event;
  match e with
  | Runs => modify (put_files live (sq_commit db f))
  | Fails _ => throw (DatabaseError (Some 10))
  | Killed_at n => modify (put_files live (sq_committing n db f));; throw Killed
  end.

Definition reset_settings (data_dir : dir) : M Disk path :=
  lift require_supported_sqlite;;
  with_lock data_dir
    (saved ← snapshot data_dir None;
     catch (transact (vault_file data_dir) (sq_execute (str "DELETE FROM settings")))
       (fun e => throw (match e with
          | DatabaseError _ => StorageError (str "Could not reset settings: " ++ error_text e)
          | _ => e end));;
     mret saved).

(** The checks before a migration *)
Definition wrong_schema (expected application_id user_version : Z) : res () :=
  if negb (application_id =? APPLICATION_ID) || negb (user_version =? expected)
  then Err (StorageError (str "Expected a CipherMoth schema-" ++ str_of_Z expected ++ str " vault; found application "
         ++ str_of_Z application_id ++ str ", schema " ++ str_of_Z user_version ++ str "."))
  else Ok ().
Definition cannot_migrate (db : database) (problems : list pystr) : res () :=
  formats ← select_formats db;
  let problems := problems ++ match format_problem formats with Some p => [str "the file " ++ p] | None => [] end in
  if bool_decide (problems = []) then Ok ()
  else Err (StorageError (str "The vault cannot be migrated: " ++ joined (str "; ") (take 5 problems))).
Definition ready_for_users (db : database) : res () :=
  application_id ← pragma_application_id db;
  user_version ← pragma_user_version db;
  damage ← pragma_integrity_check db;
  missing ← pragma_foreign_key_check db;
  _ ← wrong_schema PREVIOUS_SCHEMA_VERSION application_id user_version;
  cannot_migrate db (damage_of damage ++ missing_rows missing).
Definition ready_for_folders (db : database) : res () :=
  application_id ← pragma_application_id db;
  user_version ← pragma_user_version db;
  _ ← wrong_schema MULTIUSER_SCHEMA_VERSION application_id user_version;
  damage ← pragma_integrity_check db;
  missing ← pragma_foreign_key_check db;
  cannot_migrate db (damage_of damage ++ missing_rows missing).

(** The copy a migration makes first, under its final name *)
Definition copy_before_migration (live target : path) (ready : database -> res ()) : M Disk () :=
  f ← connect_existing live;
  db ← lift (sq_connect f);
  lift (ready db);;
  there ← gets (exists_ target);
  raise_if there (StorageError (path_text target ++ str " already exists."));;
  create_file target;;
  cleaning_up (backup_into target db (str "DELETE")) (discard target);;
  fsync target;;
  fsync_dir target.1.

(** What [migrate_users] and [migrate_folders] share *)
Definition migrate (data_dir : dir) (prefix : string) (ready : database -> res ()) (schema : list pystr) : M Disk path :=
  lift require_supported_sqlite;;
  let live := vault_file data_dir in
  let folder := snapshot_dir data_dir in
  mkdir_parents folder;;
  name ← timestamped prefix;
  let target := (folder, name) in
  with_lock data_dir
    (catch (copy_before_migration live target ready;;
            transact live (run_statements (schema ++ [str "PRAGMA user_version=" ++ str_of_Z SCHEMA_VERSION])))
       (fun e => throw (match e with
          | DatabaseError _ => StorageError (str "Could not migrate the vault: " ++ error_text e)
          | _ => e end)));;
  problems ← check_file live;
  raise_unless (bool_decide (problems = []))
    (StorageError (str "The migrated vault failed verification; restore the " ++ str prefix ++ str " snapshot: "
       ++ joined (str "; ") (take 5 problems)));;
  mret target.
Definition migrate_users (data_dir : dir) : M Disk path :=
  migrate data_dir "pre-users" ready_for_users (statements USERS_SCHEMA_SQL ++ statements FOLDER_SCHEMA_SQL).
Definition migrate_folders (data_dir : dir) : M Disk path :=
  migrate data_dir "pre-folders" ready_for_folders (statements FOLDER_SCHEMA_SQL).

Definition migrate_users_if_needed (data_dir : dir) : M Disk (option path) :=
  let live := vault_file data_dir in
  filled ← gets (has_bytes live);
  if negb filled then mret None
  else
    found ← catch (f ← connect_existing live;
                   lift (db ← sq_connect f;
                         application_id ← pragma_application_id db;
                         user_version ← pragma_user_version db;
                         Ok (Some (application_id, user_version))))
              (fun e => match e with DatabaseError _ => mret None | _ => throw e end);
    match found with
    | Some (application_id, user_version) =>
        if negb (application_id =? APPLICATION_ID) then mret None
        else if user_version =? PREVIOUS_SCHEMA_VERSION then Some <$> migrate_users data_dir
        else if user_version =? MULTIUSER_SCHEMA_VERSION then Some <$> migrate_folders data_dir
        else mret None
    | None => mret None
    end.

(** ** Replacing a vault *)

Definition primary_code (code : option Z) : option Z := (fun c => Z.land c 0xFF) <$> code.
Definition is_busy (code : option Z) : bool :=
  match primary_code code with Some c => (c =? 5) || (c =? 6) | None => false end.
Definition is_unreadable (code : option Z) : bool :=
  match primary_code code with Some c => bool_decide (c ∈ UNREADABLE) | None => false end.

(** [_take_exclusively]: whether there is a connection. Another program that uses
    the file is a failure to come. *)
Definition take_exclusively (live : path) : M Disk bool :=
  f ← connect_existing live;
  e ← next_event;
  outcome ← match e with
            | Runs => modify (put_files live (sq_take f).2);; mret (sq_take f).1
            | Fails _ => mret (Err (DatabaseError (Some 5)))
            | Killed_at n => (if Nat.odd n then modify (put_files live (sq_take f).2) else mret ());; throw Killed
            end;
  match outcome with
  | Ok _ => mret true
  | Err (DatabaseError code as e) =>
      if is_busy code then
        throw (StorageError (path_text live ++ str " is open in another program. Stop CipherMoth and anything else using the vault, then restore again. Nothing was changed."))
      else if is_unreadable code then mret false
      else throw (StorageError (str "Could not take " ++ path_text live ++ str " for the restore: " ++ error_text e
                                ++ str ". Nothing was changed."))
  | Err e => throw e
  end.

(** [_kept_folder] *)
Definition kept_folder (folder : dir) : M Disk dir :=
  name ← timestamp "replaced";
  mkdir_new (folder ++ [name]);;
  mret (folder ++ [name]).

(** [_keep_raw] *)
Definition keep_raw (live : path) (kept : dir) : M Disk () :=
  foldM (fun (_ : ()) suffix =>
    let source := beside live suffix in
    there ← gets (exists_ source);
    if there : bool then
      let target := (kept, source.2) in
      copyfile source target;; chmod target;; fsync target
    else mret ()) [[]; WAL] ();;
  fsync_dir kept;;
  fsync_dir (removelast kept).

(** [_move_sidecars] *)
Definition move_sidecars (live : path) (kept : dir) : M Disk () :=
  foldM (fun (_ : ()) suffix =>
    let sidecar := beside live suffix in
    there ← gets (exists_ sidecar);
    if there : bool then replace sidecar (kept, sidecar.2 ++ str ".unfolded") else mret ()) SIDECARS ();;
  fsync_dir kept;;
  fsync_dir live.1.

(** The two pragmas that fold the journal in; [DatabaseError] is suppressed. *)
Definition fold_in (live : path) : M Disk () :=
  f ← gets (files_at live);
  e ← next_event;
  match e with
  | Runs => modify (put_files live (sq_fold f))
  | Fails n => modify (put_files live (sq_folding n f))
  | Killed_at n => modify (put_files live (sq_folding n f));; throw Killed
  end.

(** [_retire]. Closing the connection changes nothing. *)
Definition retire (live : path) (folder : dir) : M Disk (option dir) :=
  has_vault ← gets (has_bytes live);
  sidecars ← gets (fun d => existsb (fun s => exists_ (beside live s) d) SIDECARS);
  if negb has_vault && negb sidecars then mret None
  else
    connection ← (if has_vault : bool then take_exclusively live else mret false);
    kept ← kept_folder folder;
    cleaning_up (if has_vault : bool then keep_raw live kept else mret ()) (rmtree kept);;
    (if connection : bool then fold_in live else mret ());;
    move_sidecars live kept;;
    mret (Some kept).

Definition staged_of (live : path) : path := beside live RESTORING_SUFFIX.
(** What [restore] does while it holds the lock *)
Definition replace_vault (data_dir : dir) (source : path) : M Disk (option dir) :=
  let live := vault_file data_dir in
  let folder := snapshot_dir data_dir in
  let staged := staged_of live in
  refuse_pending_set_aside data_dir;;
  mkdir_parents folder;;
  catch (copy_vault source staged (str "WAL"))
    (fun e => throw (match e with
       | DatabaseError _ => StorageError (str "Could not copy " ++ path_text source ++ str ": " ++ error_text e)
       | _ => e end));;
  kept ← retire live folder;
  replace staged live;;
  fsync_dir data_dir;;
  mret kept.
Definition restore (data_dir : dir) (source : path) : M Disk (option dir) :=
  lift require_supported_sqlite;;
  problems ← check_file source;
  raise_unless (bool_decide (problems = []))
    (StorageError (path_text source ++ str " cannot be restored: " ++ joined (str "; ") (take 5 problems)));;
  let staged := staged_of (vault_file data_dir) in
  handling (with_lock data_dir (replace_vault data_dir source))
    (fun e => match e with
       | StorageError _ => discard staged;; throw e
       | OSError => discard staged;;
           throw (StorageError (str "The restore failed: " ++ error_text e ++ str ". Nothing was replaced."))
       | _ => throw e
       end).

(** ** Setting a vault aside *)

Definition pending_dir (data_dir : dir) : dir := snapshot_dir data_dir ++ [SET_ASIDE_PENDING].
(** One file of the vault to the pending folder *)
Definition move_to_pending (pending : dir) (p : path) : M Disk () :=
  there ← gets (exists_ p);
  if negb there then mret ()
  else
    let target := (pending, p.2) in
    blocked ← gets (exists_ target);
    raise_if blocked (StorageError (str "Both " ++ path_text p ++ str " and " ++ path_text target
      ++ str " exist. Nothing was overwritten; keep both copies and resolve the interrupted set-aside."));;
    replace p target.

(** What [set_aside] does while it holds the lock *)
Definition move_aside (data_dir : dir) : M Disk (option dir) :=
  let live := vault_file data_dir in
  let files := map (beside live) ([] :: SIDECARS) in
  let folder := snapshot_dir data_dir in
  let pending := pending_dir data_dir in
  unfinished ← gets (fun d => exists_ (folder, SET_ASIDE_PENDING) d || existsb (fun p => exists_ p d) files);
  if negb unfinished then mret None
  else
    filled ← gets (has_bytes live);
    (if filled : bool then _ ← take_exclusively live; mret () else mret ());;
    mkdir_parents folder;;
    mkdir_parents pending;;
    fsync_dir folder;;
    fsync_dir data_dir;;
    foldM (fun (_ : ()) p => move_to_pending pending p) files ();;
    fsync_dir pending;;
    fsync_dir data_dir;;
    name ← timestamp "set-aside";
    let kept := folder ++ [name] in
    replace_dir pending kept;;
    fsync_dir folder;;
    fsync_dir data_dir;;
    mret (Some kept).
Definition set_aside (data_dir : dir) : M Disk (option dir) :=
  lift require_supported_sqlite;;
  catch (with_lock data_dir (move_aside data_dir))
    (fun e => throw (match e with
       | OSError => StorageError (str "Could not move the vault aside: " ++ error_text e)
       | _ => e end)).
End Whole.
