(* ===== verification/Api.v ===== *)
(** The HTTP operations ([backend/api/endpoints]): what every route calls, as
    whom, and in which kind of transaction. Requests are already parsed; request
    sizes, rate limits and response headers are not part of this model. *)
From Stdlib Require Import ZArith Lia Strings.String Strings.Byte.
From stdpp Require Import base list gmap.
From S2P Require Import Prelude Crypto Platform Sessions Models Engine Records Context Folder Group.
From S2P Require Import Password Attachment Acl MasterPassword Auth Backup Legacy.

(** The routes that act for an account, by router: [auth.py], [users.py],
    [master_password.py], [folders.py], [groups.py], [password_access.py],
    [password.py], [settings.py] and [vault.py] *)
Inductive auth_route :=
  | Me | EntryDraftKey
  | ChangePassword (current new : pystr).
Inductive users_route :=
  | ShareTargets | ListUsers
  | UserFolderAccessOf (user_id : Z)
  | CreateUser (name : pystr) (role : UserRole) (temporary_password : option pystr)
  | UpdateUser (user_id : Z) (role : option UserRole) (new_active : option bool)
  | RevokeSessions (user_id : Z)
  | RequirePasswordChange (user_id : Z)
  | RotateServiceToken (user_id : Z)
  | ResetPassword (user_id : Z) (temporary_password : pystr)
  | DeleteUser (user_id : Z).
Inductive master_route :=
  | SessionStatus | SessionActivity
  | UpdateMasterPassword (current new : pystr).
Inductive folders_route :=
  | ListFolders
  | CreateFolder (name : pystr)
  | RenameFolder (id : Z) (name : pystr)
  | DeleteFolder (id : Z)
  | ListFolderGrants (id : Z)
  | SetUserGrant (id user_id : Z) (p : SharePermission) (expires : option Z)
  | RevokeUserGrant (id user_id : Z)
  | SetGroupGrant (id group_id : Z) (p : SharePermission) (expires : option Z)
  | RevokeGroupGrant (id group_id : Z)
  | FolderAudit (id : Z).
Inductive groups_route :=
  | ListGroups
  | CreateGroup (name : pystr)
  | RenameGroup (id : Z) (name : pystr)
  | DeleteGroup (id : Z)
  | ListMembers (id : Z)
  | AddMember (id user_id : Z)
  | RemoveMember (id user_id : Z)
  | GroupAudit (id : Z).
Inductive access_route :=
  | AccessMap (trash : bool)
  | ListShares (id : Z)
  | SetShare (id user_id : Z) (p : SharePermission) (expires : option Z)
  | RevokeShare (id user_id : Z)
  | EntryAudit (id : Z)
  | Relinquish (id : Z).
Inductive passwords_route :=
  | GetPasswords | GetTrash
  | GetPassword (name : pystr)
  | CreatePassword (p : Password)
  | UpdatePassword (name : pystr) (p : Password)
  | SetFavorite (name : pystr) (favorite : bool)
  | DeletePassword (name : pystr)
  | RestorePassword (name : pystr) (id : option Z)
  | PurgePassword (name : pystr) (id : option Z)
  | ListAttachments (name : pystr)
  | AddAttachment (name filename : pystr) (content_type : option pystr) (data : bytes)
  | DownloadAttachment (name : pystr) (id : Z)
  | DeleteAttachment (name : pystr) (id : Z)
  | ImportCsv (fieldnames : list pystr) (rs : list CsvRow) (on_conflict : OnConflict)
  | ImportBackup (upload : bytes) (password : pystr) (on_conflict : OnConflict)
  | Backup (master_password : pystr).
Inductive vault_route :=
  | GetSettings
  | UpdateSettings (data : SettingsModel)
  | GetDamaged
  | RemoveDamaged (kind : DamagedKind) (id : Z).
Inductive operation :=
  | OnAuth (r : auth_route)
  | OnUsers (r : users_route)
  | OnMaster (r : master_route)
  | OnFolders (r : folders_route)
  | OnGroups (r : groups_route)
  | OnAccess (r : access_route)
  | OnPasswords (r : passwords_route)
  | OnVault (r : vault_route).
Coercion OnAuth : auth_route >-> operation.
Coercion OnUsers : users_route >-> operation.
Coercion OnMaster : master_route >-> operation.
Coercion OnFolders : folders_route >-> operation.
Coercion OnGroups : groups_route >-> operation.
Coercion OnAccess : access_route >-> operation.
Coercion OnPasswords : passwords_route >-> operation.
Coercion OnVault : vault_route >-> operation.

(** The routes for a client without an account's session *)
Inductive public_request :=
  | Status
  | Bootstrap (name password : pystr)
  | Login (name password : pystr)
  | Unlock (password : pystr)
  | CreateMaster (password : pystr)
  | Lock (token : option pystr).

(** GET routes, and the POST routes [deps._READ_ONLY_ROUTES] names *)
Definition is_read_only (o : operation) : bool :=
  match o with
  | OnAuth (Me | EntryDraftKey)
  | OnUsers (ShareTargets | ListUsers | UserFolderAccessOf _)
  | OnMaster (SessionStatus | SessionActivity)
  | OnFolders (ListFolders | ListFolderGrants _ | FolderAudit _)
  | OnGroups (ListGroups | ListMembers _ | GroupAudit _)
  | OnAccess (AccessMap _ | ListShares _ | EntryAudit _)
  | OnPasswords (GetPasswords | GetTrash | GetPassword _ | ListAttachments _ | DownloadAttachment _ _
                 | Backup _)
  | OnVault (GetSettings | GetDamaged) => true
  | _ => false
  end.

(** Routes that take [AdminContextDep] *)
Definition needs_admin (o : operation) : bool :=
  match o with
  | OnUsers ShareTargets => false
  | OnUsers _ => true
  | OnGroups ListGroups => false
  | OnGroups _ => true
  | OnVault (UpdateSettings _) => true
  | _ => false
  end.

(** Routes that take [PasswordChangeContextDep], or the quiet context *)
Definition allows_password_change (o : operation) : bool :=
  match o with OnAuth (Me | ChangePassword _ _) => true | _ => false end.
Definition is_activity (o : operation) : bool :=
  match o with OnMaster SessionStatus => false | _ => true end.

(** Runs [m] for its effects. *)
Definition ignoring {A} (m : M World A) : M World () := _ ← m; mret ().

Section Api.
Context `{Cryptography} `{Environment} `{Codec} `{BackupCodec} `{Text} `{Config} `{LegacyLibraries}.
Variable model_validate : ImportFields -> (pystr * pystr) + Password.

(** [[*visible_ids(deleted=False), *visible_ids(deleted=True)]] *)
Definition all_visible (c : AuthContext) : M World (list Z) :=
  active ← visible_ids c false;
  trashed ← visible_ids c true;
  mret (active ++ trashed).

(** [get_damage_crud]: an administrator sees every row *)
Definition damage_scope (c : AuthContext) : M World (option (list Z) * option Z) :=
  if is_admin c then mret (None, None)
  else ids ← all_visible c; mret (Some ids, Some (ctx_owner_id c)).

(** [backup_passwords], with [get_backup_crud]: the visible entries are listed
    before the password is checked. *)
Definition backup_passwords (c : AuthContext) (master_password : pystr) : M World bytes :=
  ids ← all_visible c;
  verify_current_password c master_password;;
  file ← create_backup (Some (ctx_owner_id c)) (Some ids) master_password (ctx_key c) false;
  recheck_session (ctx_token c);;
  mret file.

(** [import_passwords] in its transaction *)
Definition import_passwords (c : AuthContext) (upload : bytes) (password : pystr)
    (on_conflict : OnConflict) : M World PasswordImportResult :=
  _ ← all_visible c;
  import_backup (Some (ctx_owner_id c)) (is_admin c) upload password (ctx_key c) on_conflict (ctx_token c).

Definition session_status_of (c : AuthContext) : M World SessionInfo :=
  now ← read_system_clock;
  in_sessions (session_info (ctx_token c) now).

Definition run_auth_route (r : auth_route) (c : AuthContext) : M World () :=
  match r with
  | Me => ignoring (mret (to_user (ctx_id c) (ctx_user c)))
  | EntryDraftKey => ignoring (lift (entry_draft_key (ctx_key c) (ctx_id c)))
  | ChangePassword current new => ignoring (change_password c current new true)
  end.
Definition run_users_route (r : users_route) (c : AuthContext) : M World () :=
  match r with
  | ShareTargets => ignoring (share_targets c)
  | ListUsers => ignoring (list_users c)
  | UserFolderAccessOf id => ignoring (user_access c id (ctx_key c))
  | CreateUser name role pw => ignoring (create_user c name role pw)
  | UpdateUser id role act => ignoring (update_user c id role act)
  | RevokeSessions id => ignoring (revoke_user_sessions c id)
  | RequirePasswordChange id => ignoring (require_password_change c id)
  | RotateServiceToken id => ignoring (rotate_service_token c id)
  | ResetPassword id pw => ignoring (reset_password c id pw)
  | DeleteUser id => delete_user c id
  end.
Definition run_master_route (r : master_route) (c : AuthContext) : M World () :=
  match r with
  | SessionStatus | SessionActivity => ignoring (session_status_of c)
  | UpdateMasterPassword current new => ignoring (change_password c current new false)
  end.
Definition run_folders_route (r : folders_route) (c : AuthContext) : M World () :=
  let key := ctx_key c in
  match r with
  | ListFolders => ignoring (list_folders c key)
  | CreateFolder name => ignoring (folder_create c name key)
  | RenameFolder id name => ignoring (folder_rename c id name key)
  | DeleteFolder id => folder_remove c id
  | ListFolderGrants id => ignoring (list_grants c id)
  | SetUserGrant id u p e => ignoring (set_user_grant c id u p e)
  | RevokeUserGrant id u => revoke_user_grant c id u
  | SetGroupGrant id g p e => ignoring (set_group_grant c id g p e)
  | RevokeGroupGrant id g => revoke_group_grant c id g
  | FolderAudit id => ignoring (folder_audit_events c id)
  end.
Definition run_groups_route (r : groups_route) (c : AuthContext) : M World () :=
  let key := ctx_key c in
  match r with
  | ListGroups => ignoring (list_groups key)
  | CreateGroup name => ignoring (group_create c name key)
  | RenameGroup id name => ignoring (group_rename c id name key)
  | DeleteGroup id => group_remove c id
  | ListMembers id => ignoring (members c id)
  | AddMember id u => ignoring (add_member c id u)
  | RemoveMember id u => remove_member c id u
  | GroupAudit id => ignoring (group_audit_events c id)
  end.
Definition run_access_route (r : access_route) (c : AuthContext) : M World () :=
  match r with
  | AccessMap trash => ignoring (access_map c trash)
  | ListShares id => ignoring (list_shares c id)
  | SetShare id u p e => ignoring (set_share c id u p e)
  | RevokeShare id u => revoke_share c id u
  | EntryAudit id => ignoring (entry_audit_events c id)
  | Relinquish id => ignoring (relinquish c id)
  end.
Definition run_passwords_route (r : passwords_route) (c : AuthContext) : M World () :=
  let key := ctx_key c in
  match r with
  | GetPasswords => ignoring (auth_get_passwords c key)
  | GetTrash => ignoring (auth_get_trash c key)
  | GetPassword name => ignoring (auth_get_password c name key)
  | CreatePassword p => auth_create_password c p key
  | UpdatePassword name p => auth_update_password c name p key
  | SetFavorite name f => auth_set_favorite c name f key
  | DeletePassword name => auth_delete_password c name key
  | RestorePassword name id => auth_restore_password c name key id
  | PurgePassword name id => auth_purge_password c name key id
  | ListAttachments name => ignoring (auth_list_attachments c name key)
  | AddAttachment name f ct data => ignoring (auth_add_attachment c name f ct data key)
  | DownloadAttachment name id => ignoring (auth_get_attachment_data c name id key)
  | DeleteAttachment name id => auth_delete_attachment c name id key
  | ImportCsv fs rs oc => ignoring (auth_import_rows c model_validate fs rs key oc)
  | ImportBackup upload password oc => ignoring (import_passwords c upload password oc)
  | Backup pw => ignoring (backup_passwords c pw)
  end.
Definition run_vault_route (r : vault_route) (c : AuthContext) : M World () :=
  match r with
  | GetSettings => ignoring stored_settings
  | UpdateSettings data => ignoring (update_settings data)
  | GetDamaged => '(ids, o) ← damage_scope c; ignoring (find_damaged ids (ctx_key c))
  | RemoveDamaged kind id => '(ids, o) ← damage_scope c; remove_damaged o (ctx_key c) kind id
  end.
Definition run_operation (o : operation) (c : AuthContext) : M World () :=
  match o with
  | OnAuth r => run_auth_route r c
  | OnUsers r => run_users_route r c
  | OnMaster r => run_master_route r c
  | OnFolders r => run_folders_route r c
  | OnGroups r => run_groups_route r c
  | OnAccess r => run_access_route r c
  | OnPasswords r => run_passwords_route r c
  | OnVault r => run_vault_route r c
  end.

(** [get_credential], before the request's transaction begins *)
Definition credential (token : option pystr) : M World pystr :=
  match token with
  | None => throw (SessionRequired (str "The vault is locked. Unlock it first."))
  | Some t =>
      now ← read_system_clock;
      _ ← in_sessions (resolve (Some t) false now);
      mret t
  end.

Definition serve (token : option pystr) (o : operation) : M World () :=
  t ← credential token;
  transaction (negb (is_read_only o))
    (c ← auth_context t (is_activity o) (allows_password_change o);
     raise_if (needs_admin o && negb (is_admin c)) (Forbidden (str "Administrator access is required."));;
     run_operation o c).

Definition serve_public (r : public_request) : M World () :=
  match r with
  | Status => transaction false (ignoring status)
  | Bootstrap name pw => transaction true (ignoring (bootstrap name pw))
  | Login name pw => transaction true (ignoring (login name pw))
  | Unlock pw => transaction false (ignoring (login_primary pw))
  | CreateMaster pw => transaction true (ignoring (bootstrap (str "admin") pw))
  | Lock token => ignoring (on_sessions (revoke token))
  end.

(** A request of either kind, and a server's life: one request after another *)
Inductive request :=
  | Public (r : public_request)
  | ForAccount (token : option pystr) (o : operation).

Definition handle (r : request) : M World () :=
  match r with
  | Public r => serve_public r
  | ForAccount token o => serve token o
  end.

Definition run_requests (rs : list request) (w : World) : World :=
  foldl (fun w r => (handle r w).2) w rs.
End Api.

(** [by_route o] splits on the route of an operation. *)
Ltac by_route o :=
  destruct o as [[]|[]|[]|[]|[]|[]|[]|[]];
  cbn [run_operation run_auth_route run_users_route run_master_route run_folders_route
    run_groups_route run_access_route run_passwords_route run_vault_route].

Section ApiFrames.
Context `{Cryptography} `{Environment} `{Codec} `{BackupCodec} `{Text} `{Config} `{LegacyLibraries}.
Variable model_validate : ImportFields -> (pystr * pystr) + Password.

Lemma same_ignoring {A} (m : M World A) : keeps same_state m -> keeps same_state (ignoring m).
Proof. intros Hm. unfold ignoring. keeps_tac. Qed.
Lemma integrity_ignoring {A} (m : M World A) : keeps integrity m -> keeps integrity (ignoring m).
Proof. intros Hm. unfold ignoring. keeps_tac. Qed.
#[local] Hint Resolve same_ignoring integrity_ignoring : keeps.

Lemma same_all_visible c : keeps same_state (all_visible c).
Proof. unfold all_visible. keeps_tac. Qed.
#[local] Hint Resolve same_all_visible : keeps.
Lemma same_damage_scope c : keeps same_state (damage_scope c).
Proof. unfold damage_scope. keeps_tac. Qed.
Lemma frame_session_status_of `{!Frame R} c : keeps R (session_status_of c).
Proof. unfold session_status_of. keeps_tac. Qed.
Lemma frame_backup_passwords `{!CommitFrame R} c p : keeps R (backup_passwords c p).
Proof. unfold backup_passwords. keeps_tac. Qed.
Lemma frame_import_passwords `{!DataFrame R} `{!CommitFrame R} c u p oc : keeps R (import_passwords c u p oc).
Proof. unfold import_passwords. keeps_tac. Qed.
#[local] Hint Resolve same_damage_scope frame_session_status_of frame_backup_passwords
  frame_import_passwords : keeps.

Lemma integrity_run_operation o c : keeps integrity (run_operation model_validate o c).
Proof.
  by_route o; try apply integrity_ignoring; auto 3 with keeps; keeps_tac.
  all: unfold stored_settings; keeps_tac.
Qed.
End ApiFrames.
#[export] Hint Resolve same_ignoring same_all_visible frame_backup_passwords frame_import_passwords
  same_damage_scope frame_session_status_of integrity_run_operation : keeps.
