(* ===== verification/Asgi.v ===== *)
(** The middleware around the HTTP operations ([backend/api] and [backend/main.py]).

    An ASGI application is a conversation with the server: it receives the messages
    of a request, sends those of its response, and returns or raises. Middleware
    changes the scope an application is called with and what passes in either
    direction. *)
From Stdlib Require Import ZArith Lia Strings.String Strings.Byte.
From stdpp Require Import base list.
From S2P Require Import Prelude Platform BackupFormat.

(** ** Conversations *)

Abbreviation headers_list := (list (bytes * bytes)).
Record Scope := {
  is_http : bool;
  method : pystr;
  path : pystr;
  raw_path : option bytes;
  headers : headers_list;
}.
Definition with_path (p : pystr) (s : Scope) : Scope :=
  {| is_http := is_http s; method := method s; path := p; raw_path := raw_path s; headers := headers s |}.

(** What an exception is, as far as the code tells them apart; [OSErr] is an [OSError]
    with its number, and [Cancelled] is no [Exception]. *)
Inductive failure :=
  | AnException (e : exn)
  | OSErr (errno : Z)
  | RecursionError
  | RequestTooLarge (limit : Z)
  | ResponseTooLarge
  | Cancelled.
#[export] Instance failure_eq_dec : EqDecision failure.
Proof. solve_decision. Defined.
Definition is_exception (e : failure) : bool := match e with Cancelled => false | _ => true end.

Inductive message_in :=
  | Request (body : bytes) (more : bool)
  | Disconnect.
Inductive message_out :=
  | Start (status : Z) (response_headers : headers_list)
  | Body (body : bytes) (more : bool).
Definition is_start (m : message_out) : bool := match m with Start _ _ => true | Body _ _ => false end.

Inductive App :=
  | Return
  | Raise (e : failure)
  | Receive (k : message_in + failure -> App)
  | Send (m : message_out) (k : option failure -> App).
Definition ASGIApp : Type := Scope -> App.

(** A conversation with a client that sends [ins], and whose receipt of the messages
    ends as [outs] says, and well when that says nothing *)
Inductive ending := Returned | Raised (e : failure) | Waiting.
Fixpoint run (a : App) (ins : list (message_in + failure)) (outs : list (option failure))
    : list message_out * ending :=
  match a with
  | Return => ([], Returned)
  | Raise e => ([], Raised e)
  | Receive k =>
      match ins with
      | m :: ins => run (k m) ins outs
      | [] => ([], Waiting)
      end
  | Send m k =>
      let '(ms, e) := match outs with
                      | r :: outs => run (k r) ins outs
                      | [] => run (k None) ins []
                      end in
      (m :: ms, e)
  end.

(** Starlette's part: the headers of a message as a mapping without regard to case,
    and the messages of a JSON response *)
Definition lower_byte (b : Byte.byte) : Byte.byte := byte_of_Z (Z.of_N (ascii_lower (Byte.to_N b))).
Definition lower_bytes (b : bytes) : bytes := map lower_byte b.
Definition header_value (name : bytes) (hs : headers_list) : option bytes :=
  snd <$> head (filter (fun h => lower_bytes h.1 = lower_bytes name) hs).
Class Starlette := {
  set_header : bytes -> bytes -> headers_list -> headers_list;
  json_headers : list (pystr * pystr) -> headers_list -> headers_list;
  json_body : list (pystr * pystr) -> bytes;
  (** [bytes.decode("utf-8", "replace")] *)
  utf8_replace : bytes -> pystr;
}.
Class StarletteLaws `{Starlette} : Prop := {
  set_header_this n v hs : header_value n (set_header n v hs) = Some v;
  set_header_other n v m hs :
    lower_bytes m ≠ lower_bytes n -> header_value m (set_header n v hs) = header_value m hs;
  utf8_replace_valid s b : utf8 s = Some b -> utf8_replace b = s;
  (** an ASCII character ends what came before it *)
  utf8_replace_ascii a c b :
    (Byte.to_N c < 128)%N -> utf8_replace (a ++ c :: b) = utf8_replace a ++ Byte.to_N c :: utf8_replace b;
  (** ... and stands for itself only *)
  utf8_replace_elem c b : (c < 128)%N -> c ∈ utf8_replace b -> byte_of_Z (Z.of_N c) ∈ b;
}.

Section Middleware.
Context `{Starlette}.

(** [JSONResponse(content, status_code, headers)], called as an application *)
Definition json_response (status : Z) (content : list (pystr * pystr)) (hs : headers_list) : list message_out :=
  [Start status (json_headers content hs); Body (json_body content) false].
Fixpoint respond (ms : list message_out) : App :=
  match ms with
  | m :: ms => Send m (fun r => match r with None => respond ms | Some e => Raise e end)
  | [] => Return
  end.
Definition respond_json (status : Z) (content : list (pystr * pystr)) (hs : headers_list) : App :=
  respond (json_response status content hs).

(** ** Security headers *)

Definition set_headers (hs : headers_list) (l : headers_list) : headers_list :=
  foldl (fun l h => set_header h.1 h.2 l) l hs.
Definition with_headers (hs : headers_list) (m : message_out) : message_out :=
  match m with Start status l => Start status (set_headers hs l) | Body _ _ => m end.
Fixpoint map_sends (f : message_out -> message_out) (a : App) : App :=
  match a with
  | Return => Return
  | Raise e => Raise e
  | Receive k => Receive (fun r => map_sends f (k r))
  | Send m k => Send (f m) (fun r => map_sends f (k r))
  end.
Definition SecurityHeaders (hs : headers_list) (app : ASGIApp) : ASGIApp := fun scope =>
  if negb (is_http scope) then app scope else map_sends (with_headers hs) (app scope).

(** ** Unhandled errors *)

Definition INTERNAL_ERROR : list (pystr * pystr) :=
  [(str "detail", str "An internal server error occurred.")].
Fixpoint catch_errors (hs : headers_list) (response_started : bool) (a : App) : App :=
  match a with
  | Return => Return
  | Raise e =>
      if is_exception e then
        if response_started then Return else respond_json 500 INTERNAL_ERROR hs
      else Raise e
  | Receive k => Receive (fun r => catch_errors hs response_started (k r))
  | Send m k => Send m (fun r => catch_errors hs (response_started || is_start m) (k r))
  end.
Definition UnhandledErrorMiddleware (hs : headers_list) (app : ASGIApp) : ASGIApp := fun scope =>
  if negb (is_http scope) then app scope else catch_errors hs false (app scope).

(** [vault_error_handler]: the status, code and extra headers of an error *)
Definition vault_error (e : exn) : option (Z * pystr * option pystr) :=
  match e with
  | SessionRequired d => Some (401, d, Some (str "invalid_session"))
  | InvalidKey d => Some (403, d, Some (str "invalid_key"))
  | Forbidden d => Some (403, d, None)
  | NotFound d => Some (404, d, None)
  | InvalidRequest d => Some (400, d, None)
  | VaultBusy d => Some (503, d, Some (str "busy"))
  | VaultDamaged d => Some (500, d, Some (str "vault_damaged"))
  | _ => None
  end.
Definition error_headers (status : Z) : headers_list :=
  if status =? 401 then [(raw "WWW-Authenticate", raw "CipherMoth-Session")]
  else if status =? 503 then [(raw "Retry-After", raw "2")] else [].
Definition vault_error_handler (e : exn) : option (list message_out) :=
  '(status, d, code) ← vault_error e;
  Some (json_response status
    ((str "detail", d) :: match code with Some c => [(str "code", c)] | None => [] end) (error_headers status)).

(** ** Body limits *)

Definition MIB : Z := 1024 * 1024.
Definition DEFAULT_MAX_BODY_BYTES : Z := 16 * MIB.
Definition ATTACHMENT_MAX_BODY_BYTES : Z := 6 * MIB.
Definition CSV_IMPORT_MAX_BODY_BYTES : Z := 11 * MIB.
Definition BACKUP_IMPORT_MAX_BODY_BYTES : Z := MAX_BACKUP_BYTES + MIB.

(** [s.split(sep)] *)
Definition SLASH : N := 47.
Fixpoint split_on (c : N) (s : pystr) : list pystr :=
  match s with
  | [] => [[]]
  | d :: s' =>
      match split_on c s' with
      | seg :: segs => if (d =? c)%N then [] :: seg :: segs else (d :: seg) :: segs
      | [] => [[d]]
      end
  end.
(** [$] also matches before a line feed at the end *)
Definition ends_as (word segment : pystr) : bool := bool_decide (segment = word ∨ segment = word ++ [10%N]).
Definition body_limit_for (m p : pystr) : Z :=
  if bool_decide (m ≠ str "POST") then DEFAULT_MAX_BODY_BYTES
  else match reverse (split_on SLASH p) with
       | last :: rest =>
           match rest with
           | name :: before :: _ :: _ =>
               if ends_as (str "attachments") last && negb (bool_decide (name = []))
                  && bool_decide (before = str "passwords") then ATTACHMENT_MAX_BODY_BYTES
               else if ends_as (str "csv") last && bool_decide (name = str "import")
                  && bool_decide (before = str "passwords") then CSV_IMPORT_MAX_BODY_BYTES
               else if ends_as (str "import") last && bool_decide (name = str "passwords")
               then BACKUP_IMPORT_MAX_BODY_BYTES
               else DEFAULT_MAX_BODY_BYTES
           | name :: _ :: _ =>
               if ends_as (str "import") last && bool_decide (name = str "passwords")
               then BACKUP_IMPORT_MAX_BODY_BYTES else DEFAULT_MAX_BODY_BYTES
           | _ => DEFAULT_MAX_BODY_BYTES
           end
       | [] => DEFAULT_MAX_BODY_BYTES
       end.
Definition too_large (limit : Z) : pystr :=
  str "Request is too large. The limit for this request is " ++ str_of_Z (limit / MIB) ++ str " MB.".

(** [int(value)] of bytes: digits, single underscores between them, a sign, and white
    space around; at most 4300 digits *)
Definition byte_space (b : Byte.byte) : bool := in_range 9 13 (Byte.to_N b) || (Byte.to_N b =? 32)%N.
Fixpoint strip_left (l : bytes) : bytes :=
  match l with b :: l' => if byte_space b then strip_left l' else l | [] => [] end.
Definition byte_digit (b : Byte.byte) : option Z :=
  if in_range 48 57 (Byte.to_N b) then Some (Z.of_N (Byte.to_N b) - 48) else None.
Fixpoint digits (l : bytes) (acc : Z) (count : nat) : option (Z * nat) :=
  match l with
  | [] => Some (acc, count)
  | b :: l' =>
      match byte_digit b with
      | Some d => digits l' (10 * acc + d) (S count)
      | None =>
          match l' with
          | c :: _ =>
              if (Byte.to_N b =? 95)%N && is_some (byte_digit c) && (0 <? count)%nat then digits l' acc count else None
          | [] => None
          end
      end
  end.
Definition unsigned (l : bytes) : option Z :=
  match l with
  | [] => None
  | _ => '(n, count) ← digits l 0 0; if (4300 <? count)%nat then None else Some n
  end.
Definition int_bytes (l : bytes) : option Z :=
  let l := reverse (strip_left (reverse (strip_left l))) in
  match l with
  | b :: l' =>
      if (Byte.to_N b =? 43)%N then unsigned l'
      else if (Byte.to_N b =? 45)%N then Z.opp <$> unsigned l'
      else unsigned l
  | [] => None
  end.
(** [_declared_length] *)
Definition declared_length (s : Scope) : option Z :=
  match head (filter (fun h => h.1 = raw "content-length") (headers s)) with
  | Some h => int_bytes h.2
  | None => None
  end.

(** [limited_receive], after [received] bytes *)
Fixpoint limit_body (limit received : Z) (a : App) : App :=
  match a with
  | Return => Return
  | Raise e => Raise e
  | Receive k => Receive (fun r =>
      match r with
      | inl (Request body more) =>
          let received := received + Z.of_nat (length body) in
          limit_body limit received
            (k (if limit <? received then inr (RequestTooLarge limit) else inl (Request body more)))
      | _ => limit_body limit received (k r)
      end)
  | Send m k => Send m (fun r => limit_body limit received (k r))
  end.
Definition BodySizeLimitMiddleware (app : ASGIApp) : ASGIApp := fun scope =>
  if negb (is_http scope) then app scope
  else
    let limit := body_limit_for (method scope) (path scope) in
    if match declared_length scope with Some n => limit <? n | None => false end
    then respond_json 413 [(str "detail", too_large limit)] []
    else limit_body limit 0 (app scope).

(** ** Entry names in paths *)

Definition ENCODED_SLASH : N := 0.
Definition entry_name (value : pystr) : pystr := map (fun c => if (c =? ENCODED_SLASH)%N then SLASH else c) value.
Definition hide_slash (segment : pystr) : pystr := map (fun c => if (c =? SLASH)%N then ENCODED_SLASH else c) segment.

(** [urllib.parse.unquote] *)
Definition hex_digit (c : N) : option N :=
  if in_range 48 57 c then Some (c - 48)%N
  else if in_range 65 70 c then Some (c - 55)%N
  else if in_range 97 102 c then Some (c - 87)%N
  else None.
Fixpoint unquote_to_bytes (s : bytes) : bytes :=
  match s with
  | [] => []
  | b :: s' =>
      if (Byte.to_N b =? 37)%N then
        match s' with
        | h :: l :: s'' =>
            match hex_digit (Byte.to_N h), hex_digit (Byte.to_N l) with
            | Some x, Some y => byte_of_Z (Z.of_N (16 * x + y)) :: unquote_to_bytes s''
            | _, _ => b :: unquote_to_bytes s'
            end
        | _ => b :: unquote_to_bytes s'
        end
      else b :: unquote_to_bytes s'
  end.
(** The runs of ASCII characters are decoded, the others are kept. *)
Definition is_ascii_char (c : N) : bool := (c <? 128)%N.
Definition ascii_byte (c : N) : Byte.byte := byte_of_Z (Z.of_N c).
Fixpoint unquote_runs (run s : pystr) : pystr :=
  let decoded := match run with [] => [] | _ => utf8_replace (unquote_to_bytes (map ascii_byte (reverse run))) end in
  match s with
  | [] => decoded
  | c :: s' => if is_ascii_char c then unquote_runs (c :: run) s' else decoded ++ c :: unquote_runs [] s'
  end.
Definition unquote (s : pystr) : pystr :=
  if bool_decide (37%N ∈ s) then unquote_runs [] s else s.

Definition latin1 (b : bytes) : pystr := map Byte.to_N b.
Definition _route_path (raw_path : bytes) : pystr :=
  joined [SLASH] (map (fun segment => hide_slash (unquote segment)) (split_on SLASH (latin1 raw_path))).

(** [pattern in s], without regard to the case of letters *)
Fixpoint begins_with (pattern s : bytes) : bool :=
  match pattern, s with
  | [], _ => true
  | p :: pattern, b :: s => bool_decide (p = b) && begins_with pattern s
  | _ :: _, [] => false
  end.
Fixpoint contains (pattern s : bytes) : bool :=
  begins_with pattern s || match s with [] => false | _ :: s' => contains pattern s' end.
Definition NUL_IN_PATH_DETAIL : pystr := str "Entry names cannot contain NUL characters.".
Definition EntryNamePaths (app : ASGIApp) : ASGIApp := fun scope =>
  match (if is_http scope then raw_path scope else None) with
  | None | Some [] => app scope
  | Some p =>
      if contains (raw "%00") p then respond_json 400 [(str "detail", NUL_IN_PATH_DETAIL)] []
      else if contains (raw "%2f") (lower_bytes p) then app (with_path (_route_path p) scope)
      else app scope
  end.

(** [get_entry_name]: the name a route is called with, and the header that repeats it *)
Definition PATH_CHANGED : pystr :=
  str "The entry name in the request path was changed before it reached CipherMoth, so nothing was done. A reverse proxy in front of the API is probably decoding %2F; configure it to pass the request path unchanged.".
Definition get_entry_name (password_name : pystr) (x_ciphermoth_entry : option pystr) : res pystr :=
  let name := entry_name password_name in
  match x_ciphermoth_entry with
  | Some h => if bool_decide (unquote h ≠ name) then Err (InvalidRequest PATH_CHANGED) else Ok name
  | None => Ok name
  end.

(** ** Retired clients *)

Definition RETIRED_KEY_HEADER : bytes := raw "x-ciphermoth-key-derivation".
Definition RETIRED_UNLOCK : pystr * pystr := (str "POST", str "/api/master_password/check").
Definition UPGRADE_REQUIRED : pystr :=
  str "This CipherMoth server no longer hands out or accepts the vault key. Reload the browser tab, or update the CipherMoth CLI to 1.5.0 or newer, and unlock again.".
Definition refuse (status : Z) (code : pystr) : App :=
  respond_json status [(str "detail", UPGRADE_REQUIRED); (str "code", code)] [].
Definition RetiredClients (app : ASGIApp) : ASGIApp := fun scope =>
  if is_http scope then
    if existsb (fun h => bool_decide (lower_bytes h.1 = RETIRED_KEY_HEADER)) (headers scope)
    then refuse 403 (str "invalid_key")
    else if bool_decide ((method scope, path scope) = RETIRED_UNLOCK) then refuse 410 (str "upgrade_required")
    else app scope
  else app scope.

(** ** The application

    [get_application] adds the middleware from the innermost outwards; [cors] is
    Starlette's, [routes] what FastAPI makes of the routes. *)
Definition SECURITY_HEADERS : headers_list :=
  [(raw "X-Content-Type-Options", raw "nosniff"); (raw "X-Frame-Options", raw "DENY");
   (raw "Content-Security-Policy", raw "frame-ancestors 'none'; object-src 'none'");
   (raw "Strict-Transport-Security", raw "max-age=63072000; includeSubDomains");
   (raw "X-XSS-Protection", raw "0");
   (raw "Permissions-Policy", raw "clipboard-write=(self), camera=(), microphone=(), geolocation=()");
   (raw "Cache-Control", raw "no-store"); (raw "Referrer-Policy", raw "strict-origin-when-cross-origin")].
Definition get_application (cors : ASGIApp -> ASGIApp) (routes : ASGIApp) : ASGIApp :=
  SecurityHeaders SECURITY_HEADERS (cors (RetiredClients (EntryNamePaths (BodySizeLimitMiddleware
    (UnhandledErrorMiddleware SECURITY_HEADERS routes))))).
End Middleware.

(** ** The client's side of a path ([cli.py])

    [urllib.parse.quote(name, safe="")] of a text with this UTF-8 form, and
    [Session.entry_path]: [None] when the client gives up *)
Definition hex_upper (n : N) : N := if (n <? 10)%N then (n + 48)%N else (n + 55)%N.
Definition unreserved (c : N) : bool := is_ascii_alnum c || bool_decide (c ∈ [95; 46; 45; 126]%N).
Definition quote_byte (b : Byte.byte) : pystr :=
  let n := Byte.to_N b in
  if unreserved n then [n] else [37%N; hex_upper (n / 16)%N; hex_upper (n mod 16)%N].
Definition quote (name : pystr) : option pystr := (fun b => mjoin (map quote_byte b)) <$> utf8 name.
Definition entry_path (slash_names : bool) (name suffix : pystr) : option pystr :=
  if bool_decide (SLASH ∈ name) && negb slash_names then None
  else
    encoded ← quote name;
    let encoded := if bool_decide (encoded ∈ [str "."; str ".."])
                   then mjoin (map (fun c => if (c =? 46)%N then str "%2E" else [c]) encoded) else encoded in
    Some (str "/passwords/" ++ encoded ++ suffix).

(** ** Access log ([access_log.py]) *)

Section AccessLog.
(** [\d] *)
Variable is_decimal : N -> bool.

Fixpoint strip_prefix (p s : pystr) : option pystr :=
  match p, s with
  | [], _ => Some s
  | c :: p, d :: s => if (c =? d)%N then strip_prefix p s else None
  | _ :: _, [] => None
  end.
(** What follows the first [p] in [s], and what comes before it, with it *)
Fixpoint partition_after (p s : pystr) : option (pystr * pystr) :=
  match strip_prefix p s with
  | Some rest => Some (p, rest)
  | None => match s with
            | [] => None
            | c :: s => '(before, rest) ← partition_after p s; Some (c :: before, rest)
            end
  end.
Definition LF : N := 10.
(** A text the end of which [.+$] or [[^/]+$] reaches: without a line feed, or with one at its end, which is left out *)
Definition chomp (s : pystr) : pystr :=
  match reverse s with
  | c :: s' => if (c =? LF)%N then reverse s' else s
  | [] => []
  end.
(** [_ENTRIES_PREFIX] *)
Definition entries_prefix (p : pystr) : option (pystr * pystr) :=
  '(before, rest) ← partition_after (str "/passwords/") p;
  let rest := chomp rest in
  if bool_decide (LF ∈ before ++ rest) || bool_decide (rest = []) then None else Some (before, rest).
(** [_ENTRY_ROUTE], of a text without line feeds *)
Fixpoint span_segment (s : pystr) : pystr * pystr :=
  match s with
  | c :: s' => if (c =? SLASH)%N then ([], s) else let '(a, b) := span_segment s' in (c :: a, b)
  | [] => ([], [])
  end.
Definition entry_suffix (suffix : pystr) : bool :=
  bool_decide (suffix ∈ [[]; str "/favorite"; str "/restore"; str "/purge"; str "/attachments"])
  || match strip_prefix (str "/attachments/") suffix with
     | Some id => negb (bool_decide (id = [])) && forallb is_decimal id
     | None => false
     end.
Definition entry_route (rest : pystr) : option pystr :=
  let '(name, suffix) := span_segment rest in
  if bool_decide (name ≠ []) && entry_suffix suffix then Some suffix else None.
Definition LITERAL_ROUTES : list (pystr * pystr) :=
  [(str "GET", str "trash"); (str "POST", str "create"); (str "PATCH", str "update"); (str "POST", str "import");
   (str "POST", str "import/csv"); (str "POST", str "backup")].
Definition before_query (p : pystr) : pystr * bool :=
  match partition_after [63%N] p with
  | Some (before, _) => (removelast before, true)
  | None => (p, false)
  end.
Definition redact_path (m path_with_query : pystr) : pystr :=
  let '(p, has_query) := before_query path_with_query in
  (match entries_prefix p with
   | Some (before, rest) =>
       if bool_decide ((m, rest) ∉ LITERAL_ROUTES) then
         before ++ match entry_route rest with
                   | Some suffix => str "{password_name}" ++ suffix
                   | None => str "{redacted}"
                   end
       else p
   | None => p
   end) ++ (if has_query then str "?{redacted}" else []).
End AccessLog.
