(* ===== verification/AsgiDemo.v ===== *)
(** A Starlette for concrete runs of the middleware: headers as a list, and UTF-8 with
    replacement, which satisfy the laws [Asgi] relies on. *)
From Stdlib Require Import ZArith Lia Strings.String Strings.Byte.
From stdpp Require Import base list sets.
From S2P Require Import Prelude Platform Asgi.

Section Decoder.
Definition REPLACEMENT : N := 65533.
Definition continues (b : Byte.byte) : bool := (128 <=? Z_of_byte b) && (Z_of_byte b <? 192).
Definition low6 (b : Byte.byte) : Z := Z_of_byte b - 128.
Definition two (x y : Byte.byte) : option Z :=
  let v := (Z_of_byte x - 192) * 64 + low6 y in
  if (192 <=? Z_of_byte x) && (Z_of_byte x <? 224) && continues y && (128 <=? v) then Some v else None.
Definition three (x y y' : Byte.byte) : option Z :=
  let v := (Z_of_byte x - 224) * 4096 + low6 y * 64 + low6 y' in
  if (224 <=? Z_of_byte x) && (Z_of_byte x <? 240) && continues y && continues y' && (128 <=? v) then Some v else None.
Definition four (x y y' y'' : Byte.byte) : option Z :=
  let v := (Z_of_byte x - 240) * 262144 + low6 y * 4096 + low6 y' * 64 + low6 y'' in
  if (240 <=? Z_of_byte x) && (Z_of_byte x <? 248) && continues y && continues y' && continues y'' && (128 <=? v)
  then Some v else None.
(** UTF-8, an unreadable byte at a time replaced *)
Fixpoint demo_decode (b : bytes) : pystr :=
  match b with
  | [] => []
  | x :: r1 =>
      if Z_of_byte x <? 128 then Byte.to_N x :: demo_decode r1
      else
        match r1 with
        | y :: r2 =>
            match two x y with
            | Some v => Z.to_N v :: demo_decode r2
            | None =>
                match r2 with
                | y' :: r3 =>
                    match three x y y' with
                    | Some v => Z.to_N v :: demo_decode r3
                    | None =>
                        match r3 with
                        | y'' :: r4 =>
                            match four x y y' y'' with
                            | Some v => Z.to_N v :: demo_decode r4
                            | None => REPLACEMENT :: demo_decode r1
                            end
                        | [] => REPLACEMENT :: demo_decode r1
                        end
                    end
                | [] => REPLACEMENT :: demo_decode r1
                end
            end
        | [] => [REPLACEMENT]
        end
  end.

Lemma continues_range b : continues b = true -> 128 <= Z_of_byte b < 192.
Proof. unfold continues. rewrite andb_true_iff, Z.leb_le, Z.ltb_lt. done. Qed.
Lemma continuation z : 0 <= z < 64 -> continues (byte_of_Z (128 + z)) = true ∧ low6 (byte_of_Z (128 + z)) = z.
Proof.
  intros Hz. unfold continues, low6. rewrite Z_of_byte_of_Z, Z.mod_small by lia.
  rewrite andb_true_iff, Z.leb_le, Z.ltb_lt. lia.
Qed.
Lemma lead_byte z : 0 <= z < 256 -> Z_of_byte (byte_of_Z z) = z.
Proof. intros Hz. rewrite Z_of_byte_of_Z. by apply Z.mod_small. Qed.
Lemma two_lead x y : 224 <= Z_of_byte x -> two x y = None.
Proof. intros Hx. unfold two. rewrite (proj2 (Z.ltb_ge (Z_of_byte x) 224)) by done. by rewrite andb_false_r. Qed.
Lemma three_lead x y y' : 240 <= Z_of_byte x -> three x y y' = None.
Proof. intros Hx. unfold three. rewrite (proj2 (Z.ltb_ge (Z_of_byte x) 240)) by done. by rewrite andb_false_r. Qed.
Lemma two_valid a b : 2 <= a < 32 -> 0 <= b < 64 -> two (byte_of_Z (192 + a)) (byte_of_Z (128 + b)) = Some (a * 64 + b).
Proof.
  intros Ha Hb. unfold two. destruct (continuation b Hb) as [-> ->]. rewrite lead_byte by lia.
  replace (192 + a - 192) with a by lia. rewrite (proj2 (Z.leb_le 192 _)), (proj2 (Z.ltb_lt _ 224)) by lia.
  by rewrite (proj2 (Z.leb_le 128 _)) by lia.
Qed.
Lemma three_valid a b b' :
  0 <= a < 16 -> 0 <= b < 64 -> 0 <= b' < 64 -> 128 <= a * 4096 + b * 64 + b' ->
  three (byte_of_Z (224 + a)) (byte_of_Z (128 + b)) (byte_of_Z (128 + b')) = Some (a * 4096 + b * 64 + b').
Proof.
  intros Ha Hb Hb' Hv. unfold three. destruct (continuation b Hb) as [-> ->]. destruct (continuation b' Hb') as [-> ->].
  rewrite lead_byte by lia. replace (224 + a - 224) with a by lia.
  rewrite (proj2 (Z.leb_le 224 _)), (proj2 (Z.ltb_lt _ 240)) by lia. by rewrite (proj2 (Z.leb_le 128 _)) by lia.
Qed.
Lemma four_valid a b b' b'' :
  0 <= a < 8 -> 0 <= b < 64 -> 0 <= b' < 64 -> 0 <= b'' < 64 -> 128 <= a * 262144 + b * 4096 + b' * 64 + b'' ->
  four (byte_of_Z (240 + a)) (byte_of_Z (128 + b)) (byte_of_Z (128 + b')) (byte_of_Z (128 + b''))
    = Some (a * 262144 + b * 4096 + b' * 64 + b'').
Proof.
  intros Ha Hb Hb' Hb'' Hv. unfold four. destruct (continuation b Hb) as [-> ->]. destruct (continuation b' Hb') as [-> ->].
  destruct (continuation b'' Hb'') as [-> ->]. rewrite lead_byte by lia. replace (240 + a - 240) with a by lia.
  rewrite (proj2 (Z.leb_le 240 _)), (proj2 (Z.ltb_lt _ 248)) by lia. by rewrite (proj2 (Z.leb_le 128 _)) by lia.
Qed.
Lemma demo_decode_valid s b : utf8 s = Some b -> demo_decode b = s.
Proof.
  revert b. induction s as [|c s IH]; intros b Hb; [by change (Some [] = Some b) in Hb; injection Hb as <-|].
  change (utf8 (c :: s)) with
    (match utf8_char c, utf8 s with Some x, Some y => Some (x ++ y) | _, _ => None end) in Hb.
  destruct (utf8_char c) as [u|] eqn:Eu; [|done]. destruct (utf8 s) as [v|]; [|done]. injection Hb as <-.
  specialize (IH v eq_refl). unfold utf8_char in Eu.
  assert (0 <= Z.of_N c) as Hc by lia. assert (forall z, Z.to_N z = c ↔ z = Z.of_N c ∨ (z <= 0 ∧ c = 0%N)) as HN by lia.
  destruct (Z.of_N c <? 128) eqn:E1.
  { apply Z.ltb_lt in E1. injection Eu as <-. cbn [app demo_decode]. rewrite Z_of_byte_of_Z, Z.mod_small by lia.
    rewrite (proj2 (Z.ltb_lt _ _)) by lia. rewrite IH. f_equal. pose proof (Z_of_byte_of_Z (Z.of_N c)) as Hz.
    rewrite Z.mod_small in Hz by lia. unfold Z_of_byte in Hz. lia. }
  apply Z.ltb_ge in E1. set (z := Z.of_N c) in *.
  assert (0 <= z mod 64 < 64) as Hm by (apply Z.mod_pos_bound; lia).
  assert (0 <= (z / 64) mod 64 < 64) as Hm1 by (apply Z.mod_pos_bound; lia).
  assert (0 <= (z / 4096) mod 64 < 64) as Hm2 by (apply Z.mod_pos_bound; lia).
  destruct (z <? 2048) eqn:E2.
  { apply Z.ltb_lt in E2. injection Eu as <-. cbn [app demo_decode].
    rewrite lead_byte, (proj2 (Z.ltb_ge _ _)), two_valid by (Z.to_euclidean_division_equations; lia).
    rewrite IH. f_equal. apply HN. left. Z.to_euclidean_division_equations; lia. }
  apply Z.ltb_ge in E2. destruct ((55296 <=? z) && (z <=? 57343)); [done|].
  destruct (z <? 65536) eqn:E3.
  { apply Z.ltb_lt in E3. injection Eu as <-. cbn [app demo_decode].
    rewrite lead_byte, (proj2 (Z.ltb_ge _ _)) by (Z.to_euclidean_division_equations; lia).
    rewrite two_lead by (rewrite lead_byte; Z.to_euclidean_division_equations; lia).
    rewrite three_valid by (Z.to_euclidean_division_equations; lia).
    rewrite IH. f_equal. apply HN. left. Z.to_euclidean_division_equations; lia. }
  apply Z.ltb_ge in E3. destruct (z <? 1114112) eqn:E4; [|done].
  apply Z.ltb_lt in E4. injection Eu as <-. cbn [app demo_decode].
  rewrite lead_byte, (proj2 (Z.ltb_ge _ _)) by (Z.to_euclidean_division_equations; lia).
  rewrite two_lead by (rewrite lead_byte; Z.to_euclidean_division_equations; lia).
  rewrite three_lead by (rewrite lead_byte; Z.to_euclidean_division_equations; lia).
  rewrite four_valid by (Z.to_euclidean_division_equations; lia).
  rewrite IH. f_equal. apply HN. left. Z.to_euclidean_division_equations; lia.
Qed.

(** What an ASCII character is never part of *)
Lemma ascii_continues c : Z_of_byte c < 128 -> continues c = false.
Proof. intros Hc. unfold continues. by rewrite (proj2 (Z.leb_gt _ _)) by lia. Qed.
Lemma two_ascii x c : Z_of_byte c < 128 -> two x c = None.
Proof. intros Hc. unfold two. by rewrite (ascii_continues c Hc), andb_false_r. Qed.
Lemma three_ascii x y y' : Z_of_byte y < 128 ∨ Z_of_byte y' < 128 -> three x y y' = None.
Proof. intros [Hc|Hc]; unfold three; by rewrite (ascii_continues _ Hc), !andb_false_r. Qed.
Lemma four_ascii x y y' y'' : Z_of_byte y < 128 ∨ Z_of_byte y' < 128 ∨ Z_of_byte y'' < 128 -> four x y y' y'' = None.
Proof. intros [Hc|[Hc|Hc]]; unfold four; by rewrite (ascii_continues _ Hc), !andb_false_r. Qed.
Lemma demo_decode_cons x r :
  demo_decode (x :: r) =
  if Z_of_byte x <? 128 then Byte.to_N x :: demo_decode r
  else match r with
       | y :: r2 =>
           match two x y with
           | Some v => Z.to_N v :: demo_decode r2
           | None =>
               match r2 with
               | y' :: r3 =>
                   match three x y y' with
                   | Some v => Z.to_N v :: demo_decode r3
                   | None =>
                       match r3 with
                       | y'' :: r4 =>
                           match four x y y' y'' with
                           | Some v => Z.to_N v :: demo_decode r4
                           | None => REPLACEMENT :: demo_decode r
                           end
                       | [] => REPLACEMENT :: demo_decode r
                       end
                   end
               | [] => REPLACEMENT :: demo_decode r
               end
           end
       | [] => [REPLACEMENT]
       end.
Proof. by destruct r. Qed.
Lemma demo_decode_ascii a c b :
  Z_of_byte c < 128 -> demo_decode (a ++ c :: b) = demo_decode a ++ Byte.to_N c :: demo_decode b.
Proof.
  intros Hc. induction a as [a IH] using (induction_ltof1 _ (@length _)). unfold ltof in IH.
  assert (demo_decode (c :: b) = Byte.to_N c :: demo_decode b) as E0
    by (rewrite demo_decode_cons; by rewrite (proj2 (Z.ltb_lt _ _)) by done).
  destruct a as [|x r]; [done|]. cbn [app]. rewrite !demo_decode_cons. destruct (Z_of_byte x <? 128).
  { rewrite IH by (cbn; lia). done. }
  assert (REPLACEMENT :: demo_decode (r ++ c :: b) = (REPLACEMENT :: demo_decode r) ++ Byte.to_N c :: demo_decode b) as Er
    by (rewrite IH by (cbn; lia); done).
  destruct r as [|y [|y' [|y'' r4]]]; cbn [app] in *.
  - rewrite two_ascii by done. destruct b as [|? [|? b]]; rewrite ?three_ascii, ?four_ascii by auto; by rewrite E0.
  - destruct (two x y); [by rewrite E0|]. rewrite three_ascii by auto.
    destruct b as [|? b]; rewrite ?four_ascii by auto; exact Er.
  - pose proof (IH [y'] ltac:(cbn; lia)) as E1. cbn [app] in E1.
    destruct (two x y); [by rewrite E1|]. destruct (three x y y'); [by rewrite E0|].
    rewrite four_ascii by auto. exact Er.
  - pose proof (IH (y' :: y'' :: r4) ltac:(cbn; lia)) as E1. pose proof (IH (y'' :: r4) ltac:(cbn; lia)) as E2.
    pose proof (IH r4 ltac:(cbn; lia)) as E3. cbn [app] in E1, E2.
    destruct (two x y); [by rewrite E1|]. destruct (three x y y'); [by rewrite E2|].
    destruct (four x y y' y''); [by rewrite E3|exact Er].
Qed.
Lemma two_large x y v : two x y = Some v -> 128 <= v.
Proof. unfold two. destruct (_ && (128 <=? _)) eqn:E; [|done]. intros [= <-]. apply andb_true_iff in E as [_ E%Z.leb_le]. done. Qed.
Lemma three_large x y y' v : three x y y' = Some v -> 128 <= v.
Proof. unfold three. destruct (_ && (128 <=? _)) eqn:E; [|done]. intros [= <-]. apply andb_true_iff in E as [_ E%Z.leb_le]. done. Qed.
Lemma four_large x y y' y'' v : four x y y' y'' = Some v -> 128 <= v.
Proof. unfold four. destruct (_ && (128 <=? _)) eqn:E; [|done]. intros [= <-]. apply andb_true_iff in E as [_ E%Z.leb_le]. done. Qed.
Lemma demo_decode_elem c b : (c < 128)%N -> c ∈ demo_decode b -> byte_of_Z (Z.of_N c) ∈ b.
Proof.
  intros Hc. induction b as [b IH] using (induction_ltof1 _ (@length _)). unfold ltof in IH.
  destruct b as [|x r]; [by intros ?%elem_of_nil|]. rewrite demo_decode_cons.
  assert (forall v l l', 128 <= v -> (length l' < length (x :: r))%nat -> (forall z, z ∈ l' -> z ∈ x :: r) ->
    l = demo_decode l' -> c ∈ Z.to_N v :: l -> byte_of_Z (Z.of_N c) ∈ x :: r) as Hrest.
  { intros v l l' Hv Hl Hsub -> [->|Hin]%elem_of_cons; [lia|]. by apply Hsub, IH. }
  destruct (Z_of_byte x <? 128) eqn:Ex.
  { intros [->|Hin]%elem_of_cons; [|right; apply IH; [cbn; lia|done]].
    change (byte_of_Z (Z_of_byte x) ∈ x :: r). rewrite byte_of_Z_of_byte. left. }
  assert (c ∈ REPLACEMENT :: demo_decode r -> byte_of_Z (Z.of_N c) ∈ x :: r) as Hrep
    by (apply (Hrest 65533 _ r); [lia|cbn; lia|by right|done]).
  destruct r as [|y r2]; [exact Hrep|]. destruct (two x y) as [v|] eqn:E2.
  { apply (Hrest v _ r2); [by eapply two_large|cbn; lia|set_solver|done]. }
  destruct r2 as [|y' r3]; [exact Hrep|]. destruct (three x y y') as [v|] eqn:E3.
  { apply (Hrest v _ r3); [by eapply three_large|cbn; lia|set_solver|done]. }
  destruct r3 as [|y'' r4]; [exact Hrep|]. destruct (four x y y' y'') as [v|] eqn:E4; [|exact Hrep].
  apply (Hrest v _ r4); [by eapply four_large|cbn; lia|set_solver|done].
Qed.
End Decoder.

#[export] Instance demo_starlette : Starlette := {|
  set_header n v hs := (n, v) :: filter (fun h => lower_bytes h.1 ≠ lower_bytes n) hs;
  json_headers content hs := hs;
  json_body content := mjoin (map (fun p => default [] (utf8 p.2)) content);
  utf8_replace := demo_decode;
|}.
#[export] Instance demo_starlette_laws : StarletteLaws.
Proof.
  split.
  - intros n v hs. cbn. unfold header_value. rewrite filter_cons_True by done. done.
  - intros n v m hs Hne. cbn. unfold header_value. rewrite filter_cons_False by (cbn [fst]; congruence).
    rewrite list_filter_filter. do 2 f_equal. apply list_filter_iff. intros h. cbn beta. split; [by intros []|]. intros E. split; congruence.
  - intros s b. apply demo_decode_valid.
  - intros a c b Hc. apply demo_decode_ascii. unfold Z_of_byte. lia.
  - intros c b. apply demo_decode_elem.
Qed.

(** ** Requests and routes *)

Definition scope_of (m : string) (p : pystr) (hs : headers_list) : Scope :=
  {| is_http := true; method := str m; path := unquote p; raw_path := Some (map ascii_byte p); headers := hs |}.
(** Routes that answer, or fail before or after they began to *)
Definition echo : ASGIApp := fun scope =>
  Receive (fun r => match r with
    | inl (Request body _) => Send (Start 200 []) (fun _ => Send (Body body false) (fun _ => Return))
    | inl Disconnect => Return
    | inr e => Raise e
    end).
Definition failing (started : bool) : ASGIApp := fun _ =>
  if started then Send (Start 200 []) (fun _ => Raise (AnException OSError)) else Raise (AnException KeyError).
Definition get_meta : Scope := scope_of "GET" (str "/api/meta") [].

