(* ===== verification/AsgiSpec.v ===== *)
(** What the middleware guarantees around any application: headers on every
    response, an answer to every error, bounded bodies. *)
From Stdlib Require Import ZArith Lia Strings.String Strings.Byte.
From stdpp Require Import base list sets.
From S2P Require Import Prelude Platform BackupFormat Asgi AsgiDemo.

Lemma run_send m k ins outs :
  run (Send m k) ins outs =
  let '(ms, e) := run (k (default None (head outs))) ins (tail outs) in (m :: ms, e).
Proof. by destruct outs. Qed.

(** Every message a conversation may send satisfies [P]. *)
Fixpoint all_sends (P : message_out -> Prop) (a : App) : Prop :=
  match a with
  | Return | Raise _ => True
  | Receive k => forall r, all_sends P (k r)
  | Send m k => P m ∧ forall r, all_sends P (k r)
  end.
Lemma all_sends_run P a ins outs : all_sends P a -> Forall P (run a ins outs).1.
Proof.
  revert ins outs. induction a as [|e|k IH|m k IH]; intros ins outs Ha.
  - constructor.
  - constructor.
  - cbn [run]. destruct ins as [|r ins]; [constructor|]. by apply IH.
  - destruct Ha as [Hm Hk]. rewrite run_send. specialize (IH (default None (head outs)) ins (tail outs) (Hk _)).
    destruct (run _ _ _) as [ms e]. by constructor.
Qed.
Lemma all_sends_map P f a : (forall m, P (f m)) -> all_sends P (map_sends f a).
Proof. intros Hf. induction a; cbn; auto. Qed.

Section Guarantees.
Context `{Starlette} `{!StarletteLaws}.

(** ** Security headers *)

Lemma set_headers_other n hs l :
  lower_bytes n ∉ map (fun h => lower_bytes h.1) hs -> header_value n (set_headers hs l) = header_value n l.
Proof.
  revert l. induction hs as [|h hs IH]; intros l Hn; [done|]. cbn in Hn. apply not_elem_of_cons in Hn as [Hh Hn].
  cbn [set_headers foldl]. change (header_value n (set_headers hs (set_header h.1 h.2 l)) = header_value n l).
  rewrite IH by done. by apply set_header_other.
Qed.
Lemma set_headers_this n v hs l :
  NoDup (map (fun h => lower_bytes h.1) hs) -> (n, v) ∈ hs -> header_value n (set_headers hs l) = Some v.
Proof.
  revert l. induction hs as [|h hs IH]; intros l Hd Hin; [by apply elem_of_nil in Hin|].
  cbn in Hd. apply NoDup_cons in Hd as [Hn Hd].
  change (header_value n (set_headers hs (set_header h.1 h.2 l)) = Some v).
  apply elem_of_cons in Hin as [<-|Hin]; [|by apply IH].
  rewrite set_headers_other by done. apply set_header_this.
Qed.
Definition carries (hs : headers_list) (m : message_out) : Prop :=
  match m with Start _ l => forall n v, (n, v) ∈ hs -> header_value n l = Some v | Body _ _ => True end.
Lemma security_headers_distinct : NoDup (map (fun h => lower_bytes h.1) SECURITY_HEADERS).
Proof. apply (bool_decide_eq_true_1 _). vm_compute. reflexivity. Qed.

(** Whatever the routes and the CORS middleware answer, and whether an error or a
    guard answers instead, every response that leaves the application carries all
    the security headers. *)
Theorem responses_carry_headers cors routes scope ins outs :
  is_http scope = true ->
  Forall (carries SECURITY_HEADERS) (run (get_application cors routes scope) ins outs).1.
Proof.
  intros Hh. apply all_sends_run. unfold get_application, SecurityHeaders. rewrite Hh. cbn [negb].
  apply all_sends_map. intros [status l|b more]; [|done]. intros n v Hin.
  by apply set_headers_this; [apply security_headers_distinct|].
Qed.

(** ** Errors *)

(** What the client sees of a conversation whose exceptions are caught *)
Definition caught (hs : headers_list) (r : list message_out * ending) : list message_out * ending :=
  match r with
  | (ms, Raised e) =>
      if is_exception e then
        (if existsb is_start ms then ms else ms ++ json_response 500 INTERNAL_ERROR hs, Returned)
      else r
  | _ => r
  end.
Lemma run_respond ms ins : run (respond ms) ins [] = (ms, Returned).
Proof. induction ms as [|m ms IH]; [done|]. cbn [respond]. rewrite run_send. cbn. by rewrite IH. Qed.
Lemma run_catch_errors hs started a ins :
  run (catch_errors hs started a) ins [] =
  match run a ins [] with
  | (ms, Raised e) =>
      if is_exception e then
        (if started || existsb is_start ms then ms else ms ++ json_response 500 INTERNAL_ERROR hs, Returned)
      else (ms, Raised e)
  | r => r
  end.
Proof.
  revert started ins. induction a as [|e|k IH|m k IH]; intros started ins; cbn [catch_errors].
  - done.
  - change (run (Raise e) ins []) with ([] : list message_out, Raised e). cbv iota.
    destruct (is_exception e) eqn:E; [|done]. rewrite orb_false_r.
    destruct started; [done|]. apply (run_respond (json_response 500 INTERNAL_ERROR hs)).
  - cbn [run]. destruct ins as [|r ins]; [done|]. apply IH.
  - rewrite !run_send. cbn [head default tail]. rewrite IH. destruct (run (k None) ins []) as [ms []]; [done| |done]. cbn [existsb].
    destruct (is_exception e); [|done]. rewrite orb_assoc. by destruct (_ || existsb is_start ms).
Qed.

(** To a client whose connection holds, an application under
    [UnhandledErrorMiddleware] is the application itself, except that no exception
    leaves it: one raised before the response began is answered with a response of
    its own, status 500; one raised later only ends what was sent so far - and the
    conversation returns, as if that were the whole response. *)
Theorem unhandled_errors_answered hs routes scope ins :
  is_http scope = true ->
  run (UnhandledErrorMiddleware hs routes scope) ins [] = caught hs (run (routes scope) ins []).
Proof.
  intros Hh. unfold UnhandledErrorMiddleware. rewrite Hh. cbn [negb]. rewrite run_catch_errors. unfold caught.
  by destruct (run (routes scope) ins []) as [ms []].
Qed.

(** ** Bodies *)

(** The messages an application gets to see: none that takes the bytes over the limit *)
Fixpoint limited (limit received : Z) (ins : list (message_in + failure)) : list (message_in + failure) :=
  match ins with
  | inl (Request body more) :: ins =>
      let received := received + Z.of_nat (length body) in
      (if limit <? received then inr (RequestTooLarge limit) else inl (Request body more))
        :: limited limit received ins
  | r :: ins => r :: limited limit received ins
  | [] => []
  end.
Definition body_bytes (r : message_in + failure) : Z :=
  match r with inl (Request body _) => Z.of_nat (length body) | _ => 0 end.
Fixpoint total_bytes (ins : list (message_in + failure)) : Z :=
  match ins with r :: ins => body_bytes r + total_bytes ins | [] => 0 end.

Lemma total_nonneg ins : 0 <= total_bytes ins.
Proof. induction ins as [|[[]|] ins IH]; cbn; lia. Qed.
Lemma limited_over limit received ins : limit < received -> total_bytes (limited limit received ins) = 0.
Proof.
  revert received. induction ins as [|[[body more|]|e] ins IH]; intros r Hr; cbn; [done| |by apply IH|by apply IH].
  rewrite (proj2 (Z.ltb_lt _ _)) by lia. cbn. apply IH. lia.
Qed.
Lemma limited_bytes limit received ins :
  received <= limit -> received + total_bytes (limited limit received ins) <= limit.
Proof.
  revert received. induction ins as [|[[body more|]|e] ins IH]; intros r Hr; cbn; [lia| |by apply IH|by apply IH].
  destruct (limit <? r + Z.of_nat (length body)) eqn:E; cbn.
  - apply Z.ltb_lt in E. rewrite limited_over by done. lia.
  - apply Z.ltb_ge in E. apply IH in E. lia.
Qed.
Lemma limited_within limit received ins : received + total_bytes ins <= limit -> limited limit received ins = ins.
Proof.
  revert received. induction ins as [|[[body more|]|e] ins IH]; intros r Hr; cbn in *; [done| |by rewrite IH|by rewrite IH].
  pose proof (total_nonneg ins). rewrite (proj2 (Z.ltb_ge _ _)) by lia. by rewrite IH by lia.
Qed.
Lemma run_limit_body limit received a ins outs :
  run (limit_body limit received a) ins outs = run a (limited limit received ins) outs.
Proof.
  revert received ins outs. induction a as [|e|k IH|m k IH]; intros r ins outs; cbn [limit_body].
  - done.
  - done.
  - destruct ins as [|[[body more|]|e] ins]; cbn [run limited]; [done|apply IH..].
  - rewrite !run_send. by rewrite IH.
Qed.
Lemma body_limit_positive m p : 0 <= body_limit_for m p.
Proof.
  unfold body_limit_for, DEFAULT_MAX_BODY_BYTES, ATTACHMENT_MAX_BODY_BYTES, CSV_IMPORT_MAX_BODY_BYTES,
    BACKUP_IMPORT_MAX_BODY_BYTES. assert (0 <= MAX_BACKUP_BYTES) by (by vm_compute). assert (0 <= MIB) by (by vm_compute).
  repeat first [case_bool_decide | destruct (_ && _) | destruct (reverse _) | match goal with |- context [match ?l with _ => _ end] => destruct l end]; lia.
Qed.

(** C39: Behind [BodySizeLimitMiddleware] an application sees at most as many bytes of a
    body as its route may get, whatever the client sends: a request that declares more
    never reaches it, and from the message on that goes over the limit it receives
    an error instead. A body within the limit is not touched. *)
Theorem bodies_within_limit routes scope ins outs :
  is_http scope = true ->
  let limit := body_limit_for (method scope) (path scope) in
  let seen := limited limit 0 ins in
  total_bytes seen <= limit ∧ (total_bytes ins <= limit -> seen = ins) ∧
  run (BodySizeLimitMiddleware routes scope) ins outs =
    (if match declared_length scope with Some n => limit <? n | None => false end
     then run (respond_json 413 [(str "detail", too_large limit)] []) ins outs
     else run (routes scope) seen outs).
Proof.
  intros Hh limit seen. split_and!.
  - pose proof (body_limit_positive (method scope) (path scope)). apply (limited_bytes limit 0). done.
  - apply (limited_within limit 0).
  - unfold BodySizeLimitMiddleware. rewrite Hh. cbn [negb]. fold limit.
    destruct (match declared_length scope with Some n => _ | None => _ end); [done|]. apply run_limit_body.
Qed.
End Guarantees.

(** ** The guarantees at concrete requests *)

Lemma responses_carry_headers_witness :
  Forall (carries SECURITY_HEADERS) (run (get_application (fun app => app) (failing false) get_meta) [] []).1 ∧
  existsb is_start (run (get_application (fun app => app) (failing false) get_meta) [] []).1 = true.
Proof.
  split; [|vm_compute; reflexivity].
  exact (responses_carry_headers (fun app => app) (failing false) get_meta [] [] eq_refl).
Defined.
Lemma unhandled_errors_answered_witness :
  run (UnhandledErrorMiddleware [] (failing true) get_meta) [] [] = ([Start 200 []], Returned).
Proof.
  rewrite (unhandled_errors_answered [] (failing true) get_meta [] eq_refl). reflexivity.
Defined.
Lemma bodies_within_limit_witness :
  run (BodySizeLimitMiddleware echo get_meta) [inl (Request (raw "hello") false)] [] =
  run (echo get_meta) [inl (Request (raw "hello") false)] [].
Proof.
  destruct (bodies_within_limit echo get_meta [inl (Request (raw "hello") false)] [] eq_refl) as (_ & Hw & E).
  rewrite E. rewrite Hw; [reflexivity|]. apply Z.leb_le. vm_compute. reflexivity.
Defined.
