(* ===== verification/PathSpec.v ===== *)
(** Entry names in paths: what a client quotes is what the routes see, segment by
    segment, and the access log never names an entry. *)
From Stdlib Require Import ZArith Lia Strings.String Strings.Byte.
From stdpp Require Import base list sets.
From S2P Require Import Prelude Platform Asgi AsgiDemo.

(** ** Paths *)

Lemma split_on_nonempty c s : split_on c s ≠ [].
Proof. destruct s as [|d s]; cbn; [done|]. destruct (split_on c s), (d =? c)%N; done. Qed.
Lemma split_on_cons c s : ∃ seg segs, split_on c s = seg :: segs.
Proof. pose proof (split_on_nonempty c s). destruct (split_on c s) as [|seg segs]; [done|eauto]. Qed.
Lemma split_on_plain c s : c ∉ s -> split_on c s = [s].
Proof.
  induction s as [|d s IH]; [done|]. intros [Hd Hs]%not_elem_of_cons. cbn. rewrite IH by done.
  by rewrite (proj2 (N.eqb_neq d c)) by done.
Qed.
Lemma split_on_app c a b : c ∉ a -> split_on c (a ++ c :: b) = a :: split_on c b.
Proof.
  induction a as [|d a IH]; intros Ha.
  - cbn. rewrite N.eqb_refl. by destruct (split_on_cons c b) as (x & l & ->).
  - apply not_elem_of_cons in Ha as [Hd Ha]. cbn. rewrite IH by done. by rewrite (proj2 (N.eqb_neq d c)) by done.
Qed.
Lemma split_on_parts c s : Forall (fun seg => c ∉ seg) (split_on c s).
Proof.
  induction s as [|d s IH]; cbn; [by repeat constructor; intros ?%elem_of_nil|].
  destruct (split_on_cons c s) as (seg & segs & E). rewrite E in *. apply Forall_cons in IH as [Hseg Hsegs].
  destruct (d =? c)%N eqn:Ed; repeat constructor; try done; [by intros ?%elem_of_nil|].
  apply N.eqb_neq in Ed. by apply not_elem_of_cons.
Qed.
Lemma joined_cons sep x y l : joined sep (x :: y :: l) = x ++ sep ++ joined sep (y :: l).
Proof. done. Qed.
Lemma split_joined c l : l ≠ [] -> Forall (fun seg => c ∉ seg) l -> split_on c (joined [c] l) = l.
Proof.
  induction l as [|x l IH]; [done|]. intros _ [Hx Hl]%Forall_cons. destruct l as [|y l].
  - by apply split_on_plain.
  - rewrite joined_cons. cbn [app]. rewrite split_on_app by done. f_equal. by apply IH.
Qed.
Lemma joined_split c s : joined [c] (split_on c s) = s.
Proof.
  induction s as [|d s IH]; [done|]. cbn [split_on]. destruct (split_on_cons c s) as (seg & segs & E).
  rewrite E in *. destruct (d =? c)%N eqn:Ed.
  - apply N.eqb_eq in Ed as ->. rewrite joined_cons, IH. done.
  - destruct segs as [|y l]; [by cbn in *; rewrite IH|]. rewrite joined_cons in IH |- *. cbn [app].
    f_equal. exact IH.
Qed.
Lemma split_on_elem c s seg x : seg ∈ split_on c s -> x ∈ seg -> x ∈ s.
Proof.
  intros Hseg Hx. rewrite <- (joined_split c s). revert Hseg. generalize (split_on c s) as l. intros l.
  induction l as [|y l IH]; [by intros ?%elem_of_nil|]. destruct l as [|z l].
  - intros ->%list_elem_of_singleton. done.
  - rewrite joined_cons. intros [->|Hin]%elem_of_cons; [set_solver|]. apply IH in Hin. set_solver.
Qed.

Lemma latin1_bytes b : map ascii_byte (latin1 b) = b.
Proof.
  unfold latin1. rewrite map_map. rewrite <- (map_id b) at 2. apply map_ext. intros x. apply byte_of_Z_of_byte.
Qed.
Definition ascii (b : bytes) : Prop := Forall (fun x => is_ascii_char (Byte.to_N x) = true) b.
Lemma utf8_ascii b : ascii b -> utf8 (latin1 b) = Some b.
Proof.
  induction b as [|x b IH]; [done|]. intros [Hx Hb]%Forall_cons. change (utf8 (latin1 (x :: b))) with
    (match utf8_char (Byte.to_N x), utf8 (latin1 b) with Some u, Some v => Some (u ++ v) | _, _ => None end).
  rewrite IH by done. unfold utf8_char. unfold is_ascii_char in Hx. apply N.ltb_lt in Hx.
  rewrite (proj2 (Z.ltb_lt _ _)) by lia. cbn [app].
  do 2 f_equal. apply byte_of_Z_of_byte.
Qed.

(** *** Percent escapes *)

Definition pct : Byte.byte := Byte.x25.
Lemma unquote_to_bytes_plain b : pct ∉ b -> unquote_to_bytes b = b.
Proof.
  induction b as [|x b IH]; [done|]. intros [Hx Hb]%not_elem_of_cons. cbn [unquote_to_bytes].
  rewrite (proj2 (N.eqb_neq _ _)); [by rewrite IH|]. intros E. apply Hx. by destruct x.
Qed.
Definition escape (h l : Byte.byte) : option Byte.byte :=
  x ← hex_digit (Byte.to_N h); y ← hex_digit (Byte.to_N l); Some (byte_of_Z (Z.of_N (16 * x + y))).
(** [unquote_to_bytes] reads an escape, or keeps a byte. *)
Lemma unquote_to_bytes_cons b s :
  (∃ h l s' x, b = pct ∧ s = h :: l :: s' ∧ escape h l = Some x ∧ unquote_to_bytes (b :: s) = x :: unquote_to_bytes s') ∨
  (unquote_to_bytes (b :: s) = b :: unquote_to_bytes s ∧
   (b = pct -> forall h l s', s = h :: l :: s' -> escape h l = None)).
Proof.
  cbn [unquote_to_bytes]. destruct (Byte.to_N b =? 37)%N eqn:Eb; [|right; split; [done|]; by intros ->].
  assert (b = pct) as -> by (apply N.eqb_eq in Eb; by destruct b). unfold escape.
  destruct s as [|h [|l s']]; [by right|right; by split|].
  destruct (hex_digit (Byte.to_N h)) as [x|] eqn:Ex; [|right; split; [done|]; intros _ ? ? ? [= <- <- <-]; by rewrite Ex].
  destruct (hex_digit (Byte.to_N l)) as [y|] eqn:Ey; [left|right; split; [done|]; intros _ ? ? ? [= <- <- <-]; by rewrite Ex, Ey].
  exists h, l, s', (byte_of_Z (Z.of_N (16 * x + y))). by rewrite Ex, Ey.
Qed.
Lemma unquote_to_bytes_split a c b :
  hex_digit (Byte.to_N c) = None -> c ≠ pct ->
  unquote_to_bytes (a ++ c :: b) = unquote_to_bytes a ++ c :: unquote_to_bytes b.
Proof.
  intros Hc Hp. induction a as [a IH] using (induction_ltof1 _ (@length _)). unfold ltof in IH. destruct a as [|x a].
  - cbn [app]. destruct (unquote_to_bytes_cons c b) as [(? & ? & ? & ? & E & _)|[-> _]]; [done|done].
  - cbn [app]. destruct (unquote_to_bytes_cons x a) as [(h & l & a' & y & -> & -> & Hy & ->)|[E Hn]].
    + cbn [app]. rewrite <- IH by (cbn; lia).
      destruct (unquote_to_bytes_cons pct (h :: l :: a' ++ c :: b)) as [(h1 & l1 & s1 & y1 & _ & [= <- <- <-] & Hy1 & ->)|[_ Hn]];
        [congruence|]. by rewrite (Hn eq_refl _ _ _ eq_refl) in Hy.
    + rewrite E. cbn [app]. rewrite <- IH by (cbn; lia).
      destruct (unquote_to_bytes_cons x (a ++ c :: b)) as [(h1 & l1 & s1 & y1 & -> & Hs & Hy1 & _)|[-> _]]; [|done].
      exfalso. destruct a as [|h [|l a]]; simplify_eq/=.
      * unfold escape in Hy1. by rewrite Hc in Hy1.
      * unfold escape in Hy1. rewrite Hc in Hy1. by destruct (hex_digit (Byte.to_N h1)).
      * by rewrite (Hn eq_refl _ _ _ eq_refl) in Hy1.
Qed.
Lemma unquote_to_bytes_elem s x :
  x ∈ unquote_to_bytes s -> x ∈ s ∨ ∃ a h l b, s = a ++ pct :: h :: l :: b ∧ escape h l = Some x.
Proof.
  induction s as [s IH] using (induction_ltof1 _ (@length _)). unfold ltof in IH. destruct s as [|b s]; [by intros ?%elem_of_nil|].
  destruct (unquote_to_bytes_cons b s) as [(h & l & s' & y & -> & -> & Hy & ->)|[-> _]];
    intros [->|Hin]%elem_of_cons.
  - right. by exists [], h, l, s'.
  - apply IH in Hin as [?|(a & h1 & l1 & b1 & -> & He)]; [left; set_solver| |cbn; lia].
    right. by exists (pct :: h :: l :: a), h1, l1, b1.
  - left. left.
  - apply IH in Hin as [?|(a & h1 & l1 & b1 & -> & He)]; [left; by right| |cbn; lia].
    right. by exists (b :: a), h1, l1, b1.
Qed.
Lemma hex_digit_cases h x : hex_digit (Byte.to_N h) = Some x ->
  (x < 16)%N ∧ (x = 0%N -> h = Byte.x30) ∧ (x = 2%N -> h = Byte.x32) ∧ (x = 15%N -> lower_byte h = Byte.x66).
Proof. destruct h; vm_compute; try discriminate; intros [= <-]; split_and!; first [done | by intros [=]]. Qed.
Lemma escape_cases h l x : escape h l = Some x ->
  (x = Byte.x2f -> lower_bytes [h; l] = raw "2f") ∧ (x = Byte.x00 -> [h; l] = raw "00").
Proof.
  unfold escape. destruct (hex_digit (Byte.to_N h)) as [a|] eqn:Ea; [|done].
  destruct (hex_digit (Byte.to_N l)) as [b|] eqn:Eb; [|done]. cbn. intros [= <-].
  apply hex_digit_cases in Ea as (Ha & Ha0 & Ha2 & _). apply hex_digit_cases in Eb as (Hb & Hb0 & _ & Hb15).
  assert (forall z, 0 <= z < 256 -> forall y, byte_of_Z z = y -> z = Z_of_byte y) as Hz
    by (intros z ? y <-; rewrite Z_of_byte_of_Z; symmetry; by apply Z.mod_small).
  split; intros E; apply Hz in E; [|lia| |lia]; cbn in E.
  - assert (a = 2%N) as ->%Ha2 by lia. assert (b = 15%N) as Hl%Hb15 by lia. cbn. by rewrite Hl.
  - assert (a = 0%N) as ->%Ha0 by lia. by assert (b = 0%N) as ->%Hb0 by lia.
Qed.

Section Unquote.
Context `{Starlette} `{!StarletteLaws}.
Definition ascii_text (s : pystr) : Prop := Forall (fun c => is_ascii_char c = true) s.

Lemma latin1_ascii b : ascii b -> ascii_text (latin1 b).
Proof. intros Hb. unfold ascii_text, latin1. by apply Forall_map. Qed.
Lemma ascii_latin1 s : ascii_text s -> latin1 (map ascii_byte s) = s ∧ ascii (map ascii_byte s).
Proof.
  induction s as [|c s IH]; [by repeat constructor|]. intros [Hc Hs]%Forall_cons. destruct (IH Hs) as [E Ha].
  assert (Byte.to_N (ascii_byte c) = c) as Ec.
  { unfold is_ascii_char in Hc. apply N.ltb_lt in Hc. pose proof (Z_of_byte_of_Z (Z.of_N c)) as Hz.
    rewrite Z.mod_small in Hz by lia. unfold Z_of_byte, ascii_byte in *. lia. }
  cbn. unfold latin1 in E. rewrite Ec, E. split; [done|]. constructor; [by rewrite Ec|done].
Qed.
Lemma unquote_runs_ascii run s :
  ascii_text s ->
  unquote_runs run s = match reverse run ++ s with [] => [] | l => utf8_replace (unquote_to_bytes (map ascii_byte l)) end.
Proof.
  revert run. induction s as [|c s IH]; intros run Hs.
  - cbn. rewrite app_nil_r. destruct run as [|c run]; [done|]. rewrite reverse_cons. by destruct (reverse run).
  - apply Forall_cons in Hs as [Hc Hs]. cbn [unquote_runs]. rewrite Hc, IH by done. by rewrite reverse_cons, <- app_assoc.
Qed.
Lemma utf8_replace_nil : utf8_replace [] = [].
Proof. by apply utf8_replace_valid. Qed.
Lemma unquote_ascii s : ascii_text s -> unquote s = utf8_replace (unquote_to_bytes (map ascii_byte s)).
Proof.
  intros Hs. unfold unquote. destruct (ascii_latin1 s Hs) as [E Ha]. case_bool_decide as Hp.
  - rewrite unquote_runs_ascii by done. destruct s; [by rewrite utf8_replace_valid with (s := []) |done].
  - rewrite unquote_to_bytes_plain.
    + symmetry. apply utf8_replace_valid. rewrite <- E at 1. by apply utf8_ascii.
    + intros Hin. apply Hp. rewrite <- E. unfold latin1. apply list_elem_of_fmap. by exists pct.
Qed.
Lemma unquote_slash a b :
  ascii_text a -> ascii_text b -> unquote (a ++ SLASH :: b) = unquote a ++ SLASH :: unquote b.
Proof.
  intros Ha Hb. assert (ascii_text (a ++ SLASH :: b)) as Hab by (apply Forall_app; split; [done|by constructor]).
  rewrite (unquote_ascii (a ++ SLASH :: b)), (unquote_ascii a), (unquote_ascii b) by done.
  rewrite map_app. cbn [map]. rewrite unquote_to_bytes_split by done. by apply utf8_replace_ascii.
Qed.
Lemma unquote_joined l :
  Forall ascii_text l -> unquote (joined [SLASH] l) = joined [SLASH] (map unquote l) ∧ ascii_text (joined [SLASH] l).
Proof.
  induction l as [|x l IH]; [by repeat constructor|]. intros [Hx Hl]%Forall_cons. destruct (IH Hl) as [E Ha]. destruct l as [|y l]; [done|].
  change (map unquote (x :: y :: l)) with (unquote x :: unquote y :: map unquote l). rewrite !joined_cons. split.
  - cbn [app]. rewrite unquote_slash, E by done. done.
  - unfold ascii_text. rewrite !Forall_app. split_and!; [done|by constructor|done].
Qed.
Lemma unquote_elem s c :
  ascii_text s -> is_ascii_char c = true -> c ∈ unquote s ->
  c ∈ s ∨ ∃ a h l b, map ascii_byte s = a ++ pct :: h :: l :: b ∧ escape h l = Some (ascii_byte c).
Proof.
  intros Hs Hc. rewrite unquote_ascii by done. intros Hin. apply utf8_replace_elem in Hin; [|by apply N.ltb_lt in Hc].
  apply unquote_to_bytes_elem in Hin as [Hin|(a & h & l & b & E & He)]; [left|right; by exists a, h, l, b].
  destruct (ascii_latin1 s Hs) as [E _]. destruct (ascii_latin1 [c]) as [Ec _]; [by constructor|].
  rewrite <- E. injection Ec as Ec. rewrite <- Ec. apply list_elem_of_fmap. by eexists.
Qed.
End Unquote.

Section EntryPaths.
Context `{Starlette} `{!StarletteLaws}.

Lemma begins_with_app p s : begins_with p (p ++ s) = true.
Proof. induction p as [|b p IH]; [done|]. cbn. by rewrite bool_decide_eq_true_2, IH. Qed.
Lemma contains_app p a s : contains p (a ++ p ++ s) = true.
Proof.
  induction a as [|b a IH].
  - cbn [app]. assert (forall t, contains p t = begins_with p t || match t with [] => false | _ :: t' => contains p t' end)
      as -> by (by intros []). by rewrite begins_with_app.
  - cbn. rewrite IH. apply orb_true_r.
Qed.

(** The path the routes see for a raw path *)
Definition guarded_path (p : bytes) : pystr :=
  if contains (raw "%2f") (lower_bytes p) then _route_path p else unquote (latin1 p).

Lemma segments_ascii p : ascii p -> Forall ascii_text (split_on SLASH (latin1 p)).
Proof.
  intros Hp. apply Forall_forall. intros seg Hseg. apply Forall_forall. intros c Hc.
  pose proof (latin1_ascii p Hp) as Ha. unfold ascii_text in Ha. rewrite Forall_forall in Ha.
  apply Ha. by eapply split_on_elem.
Qed.
(** An escape in a segment is one in the path. *)
Lemma segment_bytes p seg : ascii p -> seg ∈ split_on SLASH (latin1 p) -> ∃ a b, p = a ++ map ascii_byte seg ++ b.
Proof.
  intros Hp Hseg. rewrite <- (latin1_bytes p). rewrite <- (joined_split SLASH (latin1 p)). revert Hseg.
  generalize (split_on SLASH (latin1 p)) as l. intros l. induction l as [|x l IH]; [by intros ?%elem_of_nil|].
  destruct l as [|y l].
  - intros ->%list_elem_of_singleton. exists [], []. by rewrite app_nil_r.
  - rewrite joined_cons, !map_app. intros [->|Hin]%elem_of_cons.
    + exists [], (map ascii_byte ([SLASH] ++ joined [SLASH] (y :: l))). done.
    + destruct (IH Hin) as (a & b & ->). exists (map ascii_byte x ++ map ascii_byte [SLASH] ++ a), b.
      by rewrite <- !app_assoc.
Qed.
Lemma unquote_no_nul p seg :
  ascii p -> Byte.x00 ∉ p -> contains (raw "%00") p = false -> seg ∈ split_on SLASH (latin1 p) -> 0%N ∉ unquote seg.
Proof.
  intros Hp Hn Hc Hseg Hin. pose proof (segments_ascii p Hp) as Ha. rewrite Forall_forall in Ha.
  destruct (segment_bytes p seg Hp Hseg) as (a & b & E).
  apply unquote_elem in Hin as [Hin|(a' & h & l & b' & Es & [_ He]%escape_cases)]; [| |by apply Ha|done].
  - apply Hn. rewrite E. apply elem_of_app. right. apply elem_of_app. left. apply list_elem_of_fmap. by exists 0%N.
  - specialize (He eq_refl). rewrite E, Es in Hc.
    assert (a ++ (a' ++ pct :: h :: l :: b') ++ b = (a ++ a') ++ raw "%00" ++ b' ++ b) as Ep.
    { injection He as -> ->. by rewrite <- !app_assoc. }
    rewrite Ep, contains_app in Hc. discriminate.
Qed.
Lemma unquote_no_slash p seg :
  ascii p -> contains (raw "%2f") (lower_bytes p) = false -> seg ∈ split_on SLASH (latin1 p) -> SLASH ∉ unquote seg.
Proof.
  intros Hp Hc Hseg Hin. pose proof (segments_ascii p Hp) as Ha. rewrite Forall_forall in Ha.
  destruct (segment_bytes p seg Hp Hseg) as (a & b & E).
  apply unquote_elem in Hin as [Hin|(a' & h & l & b' & Es & [He _]%escape_cases)]; [| |by apply Ha|done].
  - pose proof (split_on_parts SLASH (latin1 p)) as Hs. rewrite Forall_forall in Hs. by apply (Hs seg).
  - specialize (He eq_refl). rewrite E, Es in Hc. unfold lower_bytes in Hc. rewrite !map_app in Hc. cbn [map] in Hc.
    injection He as Hh Hl. change (lower_byte pct) with Byte.x25 in Hc. rewrite Hh, Hl in Hc.
    rewrite <- app_assoc in Hc. rewrite app_assoc in Hc.
    change (?x ++ (Byte.x25 :: Byte.x32 :: Byte.x66 :: ?y) ++ ?z) with (x ++ raw "%2f" ++ y ++ z) in Hc.
    rewrite contains_app in Hc. discriminate.
Qed.
Lemma hide_slash_spec s : 0%N ∉ s -> SLASH ∉ hide_slash s ∧ entry_name (hide_slash s) = s.
Proof.
  induction s as [|c s IH]; [by split; [intros ?%elem_of_nil|]|]. intros [Hc Hs]%not_elem_of_cons.
  destruct (IH Hs) as [Hn He]. cbn.
  destruct (c =? SLASH)%N eqn:E.
  - apply N.eqb_eq in E as ->. split; [by apply not_elem_of_cons|]. cbn. by f_equal.
  - apply N.eqb_neq in E. split; [by apply not_elem_of_cons|]. rewrite (proj2 (N.eqb_neq _ _)) by done. by f_equal.
Qed.
Lemma entry_name_plain s : 0%N ∉ s -> entry_name s = s.
Proof.
  induction s as [|c s IH]; [done|]. intros [Hc Hs]%not_elem_of_cons. cbn. rewrite (proj2 (N.eqb_neq _ _)) by done.
  f_equal. by apply IH.
Qed.
Lemma guarded_segments p :
  ascii p -> Byte.x00 ∉ p -> contains (raw "%00") p = false ->
  map entry_name (split_on SLASH (guarded_path p)) = map unquote (split_on SLASH (latin1 p)).
Proof.
  intros Hp Hn Hc. set (l := split_on SLASH (latin1 p)).
  assert (forall seg, seg ∈ l -> 0%N ∉ unquote seg) as Hnul by (intros seg; by apply unquote_no_nul).
  unfold guarded_path. destruct (contains (raw "%2f") (lower_bytes p)) eqn:E.
  - unfold _route_path. fold l. rewrite split_joined.
    + rewrite map_map. apply map_ext_in. intros seg Hseg%list_elem_of_In. by apply hide_slash_spec, Hnul.
    + intros E0%map_eq_nil. by apply (split_on_nonempty SLASH (latin1 p)).
    + apply Forall_map, Forall_forall. intros seg Hseg. by apply hide_slash_spec, Hnul.
  - rewrite <- (joined_split SLASH (latin1 p)). fold l. destruct (unquote_joined l (segments_ascii p Hp)) as [-> _].
    rewrite split_joined.
    + rewrite map_map. apply map_ext_in. intros seg Hseg%list_elem_of_In. by apply entry_name_plain, Hnul.
    + intros E0%map_eq_nil. by apply (split_on_nonempty SLASH (latin1 p)).
    + apply Forall_map, Forall_forall. intros seg Hseg. by apply (unquote_no_slash p).
Qed.

Lemma guarded_path_seen scope p app :
  is_http scope = true -> raw_path scope = Some p -> p ≠ [] -> path scope = unquote (latin1 p) ->
  contains (raw "%00") p = false -> EntryNamePaths app scope = app (with_path (guarded_path p) scope).
Proof.
  intros Hh Hr Hne Hpath Hc. unfold EntryNamePaths, guarded_path. rewrite Hh, Hr. destruct p as [|b p]; [done|].
  rewrite Hc. destruct (contains _ (lower_bytes _)); [done|]. rewrite <- Hpath. by destruct scope.
Qed.

(** Whatever a client percent-encodes, the routes see the segments it sent: the path
    they match splits at the slashes of the raw path and nowhere else, and each
    segment, with the marker turned back, is the decoded one - an encoded slash stays
    in its segment. A path with an encoded NUL never reaches them. *)
Theorem paths_keep_their_segments scope p :
  is_http scope = true -> raw_path scope = Some p -> p ≠ [] -> ascii p -> Byte.x00 ∉ p ->
  path scope = unquote (latin1 p) ->
  if contains (raw "%00") p then
    forall app, EntryNamePaths app scope = respond_json 400 [(str "detail", NUL_IN_PATH_DETAIL)] []
  else
    ∃ q, (forall app, EntryNamePaths app scope = app (with_path q scope)) ∧
      map entry_name (split_on SLASH q) = map unquote (split_on SLASH (latin1 p)).
Proof.
  intros Hh Hr Hne Hp Hn Hpath. destruct (contains (raw "%00") p) eqn:Ec.
  - intros app. unfold EntryNamePaths. rewrite Hh, Hr. destruct p; [done|]. by rewrite Ec.
  - exists (guarded_path p). split; [intros app; by apply guarded_path_seen|by apply guarded_segments].
Qed.
End EntryPaths.

(** ** A name a client quotes *)

Section Quoted.
Context `{Starlette} `{!StarletteLaws}.

Lemma not_nul_byte z : 0 < z < 256 -> byte_of_Z z ≠ Byte.x00.
Proof.
  intros Hz E. pose proof (Z_of_byte_of_Z z) as Hb. rewrite E, Z.mod_small in Hb by lia. cbn in Hb. lia.
Qed.
Lemma utf8_char_nul c u : utf8_char c = Some u -> c ≠ 0%N -> Byte.x00 ∉ u.
Proof.
  unfold utf8_char. intros Hu Hc.
  repeat match type of Hu with (if ?b then _ else _) = _ => destruct b eqn:?; [|] end; simplify_eq;
    rewrite ?Z.ltb_lt, ?Z.ltb_ge in *; rewrite ?not_elem_of_cons.
  all: split_and?; try apply not_elem_of_nil; apply not_eq_sym, not_nul_byte; Z.to_euclidean_division_equations; lia.
Qed.
Lemma utf8_nul s b : utf8 s = Some b -> 0%N ∉ s -> Byte.x00 ∉ b.
Proof.
  revert b. induction s as [|c s IH]; intros b Hb Hn.
  { change (Some [] = Some b) in Hb. injection Hb as <-. apply not_elem_of_nil. }
  apply not_elem_of_cons in Hn as [Hc Hn]. change (utf8 (c :: s)) with
    (match utf8_char c, utf8 s with Some x, Some y => Some (x ++ y) | _, _ => None end) in Hb.
  destruct (utf8_char c) as [u|] eqn:Eu; [|done]. destruct (utf8 s) as [v|]; [|done]. injection Hb as <-.
  intros [Hin|Hin]%elem_of_app; [by apply (utf8_char_nul c u)|by apply (IH v)].
Qed.

Definition quoted (b : bytes) : pystr := mjoin (map quote_byte b).
(** ASCII characters, none of them a slash or NUL *)
Definition tame (s : pystr) : Prop := ascii_text s ∧ SLASH ∉ s ∧ 0%N ∉ s.
Lemma tame_nil : tame [].
Proof. split_and!; [constructor|apply not_elem_of_nil..]. Qed.
Lemma tame_app s t : tame s -> tame t -> tame (s ++ t).
Proof. intros (? & ? & ?) (? & ? & ?). split_and!; [by apply Forall_app|rewrite elem_of_app; tauto..]. Qed.
Lemma quote_byte_tame x : tame (quote_byte x).
Proof.
  split_and!; [|apply (bool_decide_eq_true_1 (_ ∉ _))..]; destruct x; repeat constructor.
Qed.
Lemma quoted_tame b : tame (quoted b).
Proof. induction b as [|x b IH]; [apply tame_nil|]. apply tame_app; [apply quote_byte_tame|exact IH]. Qed.
Lemma unquote_quote_byte x s :
  unquote_to_bytes (map ascii_byte (quote_byte x) ++ s) = x :: unquote_to_bytes s ∧
  contains (raw "%00") (map ascii_byte (quote_byte x) ++ s) = bool_decide (x = Byte.x00) || contains (raw "%00") s.
Proof. split; destruct x; reflexivity. Qed.
(** A dot that is escaped, so that it is no path segment of its own, reads back too. *)
Definition dot_escaped (l : pystr) : pystr := mjoin (map (fun c => if (c =? 46)%N then str "%2E" else [c]) l).
Definition encoded_name (b : bytes) : pystr :=
  if bool_decide (quoted b ∈ [str "."; str ".."]) then dot_escaped (quoted b) else quoted b.
Lemma quoted_reads_back b s :
  Byte.x00 ∉ b ->
  unquote_to_bytes (map ascii_byte (quoted b) ++ s) = b ++ unquote_to_bytes s ∧
  contains (raw "%00") (map ascii_byte (quoted b) ++ s) = contains (raw "%00") s.
Proof.
  induction b as [|x b IH]; [done|]. intros [Hx Hn]%not_elem_of_cons. destruct (IH Hn) as [E1 E2].
  change (quoted (x :: b)) with (quote_byte x ++ quoted b). rewrite map_app, <- app_assoc.
  destruct (unquote_quote_byte x (map ascii_byte (quoted b) ++ s)) as [-> ->].
  rewrite bool_decide_eq_false_2 by done. by rewrite E1, E2.
Qed.
Lemma encoded_name_tame b : tame (encoded_name b).
Proof.
  unfold encoded_name. case_bool_decide as E; [|apply quoted_tame].
  assert (quoted b = str "." ∨ quoted b = str "..") as [->| ->] by set_solver;
    (split_and!; [repeat constructor|by apply (bool_decide_eq_true_1 (_ ∉ _))..]).
Qed.
Lemma encoded_name_reads_back b s :
  Byte.x00 ∉ b ->
  unquote_to_bytes (map ascii_byte (encoded_name b) ++ s) = b ++ unquote_to_bytes s ∧
  contains (raw "%00") (map ascii_byte (encoded_name b) ++ s) = contains (raw "%00") s.
Proof.
  intros Hn. destruct (quoted_reads_back b [] Hn) as [Eb _]. rewrite !app_nil_r in Eb.
  unfold encoded_name. case_bool_decide as E; [|by apply quoted_reads_back].
  assert (quoted b = str "." ∨ quoted b = str "..") as [Eq|Eq] by set_solver; rewrite Eq in Eb |- *; rewrite <- Eb; done.
Qed.
Lemma unquote_encoded_name name b : utf8 name = Some b -> 0%N ∉ name -> unquote (encoded_name b) = name.
Proof.
  intros Hb Hn. pose proof (utf8_nul _ _ Hb Hn) as Hz. rewrite unquote_ascii by apply encoded_name_tame.
  destruct (encoded_name_reads_back b [] Hz) as [E _]. rewrite !app_nil_r in E. rewrite E. by apply utf8_replace_valid.
Qed.

Lemma header_agrees name segment :
  0%N ∉ name -> entry_name segment = name -> get_entry_name segment (quote name) = Ok name.
Proof.
  intros Hn Hs. unfold get_entry_name, quote. rewrite Hs. destruct (utf8 name) as [b|] eqn:Eb; [|done].
  change ((fun b => mjoin (map quote_byte b)) <$> Some b) with (Some (quoted b)). cbv iota beta.
  rewrite unquote_ascii by apply quoted_tame. destruct (quoted_reads_back b [] (utf8_nul _ _ Eb Hn)) as [E _].
  rewrite !app_nil_r in E. rewrite E, (utf8_replace_valid _ _ Eb). by rewrite bool_decide_eq_false_2 by naive_solver.
Qed.

Lemma contains_skip c p a s : c ∉ a -> contains (c :: p) (a ++ s) = contains (c :: p) s.
Proof.
  induction a as [|b a IH]; [done|]. intros [Hb Ha]%not_elem_of_cons. cbn [app].
  change (contains (c :: p) (b :: a ++ s)) with ((bool_decide (c = b) && begins_with p (a ++ s)) || contains (c :: p) (a ++ s)).
  rewrite bool_decide_eq_false_2 by done. by rewrite IH.
Qed.
(** What may follow a name: nothing, or segments without escapes *)
Definition plain_suffix (suffix : pystr) : Prop :=
  suffix = [] ∨ ∃ t, suffix = SLASH :: t ∧ ascii_text t ∧ 37%N ∉ t ∧ 0%N ∉ t.
Definition suffix_segments (suffix : pystr) : list pystr :=
  match suffix with [] => [] | _ :: t => split_on SLASH t end.
Definition api_path (e : pystr) : bytes := map ascii_byte (str "/api" ++ e).

Lemma split_after_name (n suffix : pystr) :
  SLASH ∉ n -> plain_suffix suffix -> split_on SLASH (n ++ suffix) = n :: suffix_segments suffix.
Proof.
  intros Hn [->|(t & -> & _)]; [rewrite app_nil_r; by apply split_on_plain|by apply split_on_app].
Qed.
Lemma plain_suffix_text suffix : plain_suffix suffix -> ascii_text suffix ∧ 37%N ∉ suffix ∧ 0%N ∉ suffix.
Proof.
  intros [->|(t & -> & Ha & Hp & Hn)]; [by split_and!; [constructor|apply not_elem_of_nil..]|].
  split_and!; [by constructor|by apply not_elem_of_cons..].
Qed.
Lemma ascii_byte_notin c s : ascii_text s -> is_ascii_char c = true -> c ∉ s -> ascii_byte c ∉ map ascii_byte s.
Proof.
  intros Hs Hc Hn (d & E & Hd)%list_elem_of_fmap. apply Hn. destruct (ascii_latin1 [c]) as [Ec _]; [by constructor|].
  unfold ascii_text in Hs. rewrite Forall_forall in Hs. destruct (ascii_latin1 [d]) as [Ed _]; [constructor; [by apply Hs|constructor]|].
  injection Ec as Ec. injection Ed as Ed. congruence.
Qed.

(** C38: The path the command line client builds for an entry's name, sent to a server
    that decodes it as they all do, reaches the routes with that name in its place:
    whatever slashes, dots, percent signs or other characters the name has. *)
Theorem entry_path_names_the_entry scope name suffix e :
  entry_path true name suffix = Some e -> 0%N ∉ name -> plain_suffix suffix ->
  is_http scope = true -> raw_path scope = Some (api_path e) -> path scope = unquote (latin1 (api_path e)) ->
  ∃ q, (forall app, EntryNamePaths app scope = app (with_path q scope)) ∧
    map entry_name (split_on SLASH q) =
      [] :: str "api" :: str "passwords" :: name :: map unquote (suffix_segments suffix) ∧
    forall segment, entry_name segment = name -> get_entry_name segment (quote name) = Ok name.
Proof.
  intros He Hn Hs Hh Hr Hpath. assert (forall segment, entry_name segment = name -> get_entry_name segment (quote name) = Ok name)
    as Hheader by (intros; by apply header_agrees). unfold entry_path in He. rewrite andb_false_r in He. unfold quote in He.
  destruct (utf8 name) as [b|] eqn:Eb; [|discriminate]. cbn [mbind option_bind fmap option_fmap option_map] in He.
  assert (e = str "/passwords/" ++ encoded_name b ++ suffix) as -> by (injection He as <-; reflexivity). clear He.
  pose proof (utf8_nul _ _ Eb Hn) as Hz. destruct (plain_suffix_text suffix Hs) as (Ha & Hp & H0').
  destruct (encoded_name_tame b) as (Hea & Hes & Hez).
  set (whole := [] ++ SLASH :: str "api" ++ SLASH :: str "passwords" ++ SLASH :: encoded_name b ++ suffix).
  assert (api_path (str "/passwords/" ++ encoded_name b ++ suffix) = map ascii_byte whole) as Ep by reflexivity.
  rewrite Ep in Hr, Hpath.
  assert (ascii_text whole) as Hw by (unfold whole, ascii_text; repeat first [apply Forall_app; split | apply Forall_cons; split]; try done;
    repeat constructor).
  destruct (ascii_latin1 whole Hw) as [El Hb].
  assert (contains (raw "%00") (map ascii_byte whole) = false) as Hc.
  { assert (map ascii_byte whole = map ascii_byte (str "/api/passwords/") ++ map ascii_byte (encoded_name b) ++ map ascii_byte suffix)
      as -> by (rewrite <- !map_app; reflexivity).
    change (raw "%00") with (pct :: raw "00"). rewrite contains_skip by (apply (bool_decide_eq_true_1 (_ ∉ _)); reflexivity).
    change (pct :: raw "00") with (raw "%00"). rewrite (proj2 (encoded_name_reads_back b _ Hz)).
    rewrite <- (app_nil_r (map ascii_byte suffix)). change (raw "%00") with (pct :: raw "00").
    rewrite contains_skip; [done|]. by apply (ascii_byte_notin 37). }
  assert (Byte.x00 ∉ map ascii_byte whole) as Hz0.
  { apply (ascii_byte_notin 0); [done..|]. change whole with (str "/api/passwords/" ++ encoded_name b ++ suffix).
    rewrite !elem_of_app. intros [Hin|[?|?]]; [|done..]. revert Hin. apply (bool_decide_eq_true_1 (_ ∉ _)). reflexivity. }
  exists (guarded_path (map ascii_byte whole)). split_and!.
  - intros f. apply guarded_path_seen; done.
  - rewrite guarded_segments by done. rewrite El. unfold whole.
    rewrite !split_on_app by (apply (bool_decide_eq_true_1 (_ ∉ _)); reflexivity).
    rewrite split_after_name by done. cbn [map]. by rewrite (unquote_encoded_name name b).
  - exact Hheader.
Qed.
End Quoted.

(** ** The access log *)

Section Redaction.
Variable is_decimal : N -> bool.
Hypothesis decimal_line_feed : is_decimal LF = false.
Hypothesis decimal_question : is_decimal 63 = false.

Lemma strip_prefix_app p s : strip_prefix p (p ++ s) = Some s.
Proof. induction p as [|c p IH]; [done|]. cbn. by rewrite N.eqb_refl. Qed.
Lemma strip_prefix_Some p s t : strip_prefix p s = Some t -> s = p ++ t.
Proof.
  revert s. induction p as [|c p IH]; intros s Hs; [by injection Hs as ->|]. destruct s as [|d s]; [done|].
  cbn in Hs. destruct (c =? d)%N eqn:E; [|done]. apply N.eqb_eq in E as ->. cbn. f_equal. by apply IH.
Qed.
Lemma chomp_plain s : LF ∉ s -> chomp s = s.
Proof.
  intros Hn. unfold chomp. destruct (reverse s) as [|c t] eqn:E; [by apply (f_equal reverse) in E; rewrite reverse_involutive in E|].
  rewrite (proj2 (N.eqb_neq _ _)); [done|]. intros ->. apply Hn. rewrite <- elem_of_reverse, E. left.
Qed.
Lemma span_segment_app n suffix :
  SLASH ∉ n -> match suffix with [] => True | c :: _ => c = SLASH end -> span_segment (n ++ suffix) = (n, suffix).
Proof.
  intros Hn Hs. induction n as [|c n IH].
  - destruct suffix as [|c s]; [done|]. by subst.
  - apply not_elem_of_cons in Hn as [Hc Hn]. cbn. rewrite (proj2 (N.eqb_neq _ _)) by done. by rewrite IH.
Qed.
Lemma partition_char c a b : c ∉ a -> partition_after [c] (a ++ c :: b) = Some (a ++ [c], b).
Proof.
  induction a as [|d a IH]; intros Ha; [cbn; by rewrite N.eqb_refl|]. apply not_elem_of_cons in Ha as [Hd Ha].
  cbn. rewrite (proj2 (N.eqb_neq _ _)) by done. cbn in IH. by rewrite IH.
Qed.
Lemma partition_none c a : c ∉ a -> partition_after [c] a = None.
Proof.
  induction a as [|d a IH]; intros Ha; [done|]. apply not_elem_of_cons in Ha as [Hd Ha].
  cbn. rewrite (proj2 (N.eqb_neq _ _)) by done. cbn in IH. by rewrite IH.
Qed.
Lemma entry_suffix_shape suffix :
  entry_suffix is_decimal suffix = true ->
  match suffix with [] => True | c :: _ => c = SLASH end ∧ LF ∉ suffix ∧ 63%N ∉ suffix.
Proof.
  unfold entry_suffix. intros [Hs|Hs]%orb_true_iff.
  - apply bool_decide_eq_true in Hs. rewrite !elem_of_cons, elem_of_nil in Hs.
    destruct Hs as [->|[->|[->|[->|[->|[]]]]]]; (split; [done|]); split; by apply (bool_decide_eq_true_1 (_ ∉ _)).
  - destruct (strip_prefix _ suffix) as [id|] eqn:E; [|done]. apply strip_prefix_Some in E as ->.
    apply andb_true_iff in Hs as [_ Hd]. rewrite forallb_forall in Hd.
    assert (forall c, is_decimal c = false -> c ∉ id) as Hid
      by (intros c Hc Hin; apply list_elem_of_In, Hd in Hin; congruence).
    split; [done|]. rewrite !elem_of_app. split; intros [Hin|Hin];
      first [by eapply Hid; [|exact Hin] | revert Hin; by apply (bool_decide_eq_true_1 (_ ∉ _))].
Qed.

(** The log of a request on an entry is the same whatever the entry's name. *)
Theorem redaction_hides_names m name suffix query :
  name ≠ [] -> SLASH ∉ name -> LF ∉ name -> 63%N ∉ name ->
  entry_suffix is_decimal suffix = true -> (m, name ++ suffix) ∉ LITERAL_ROUTES ->
  redact_path is_decimal m (str "/api/passwords/" ++ name ++ suffix) = str "/api/passwords/{password_name}" ++ suffix ∧
  redact_path is_decimal m (str "/api/passwords/" ++ name ++ suffix ++ 63%N :: query) =
    str "/api/passwords/{password_name}" ++ suffix ++ str "?{redacted}".
Proof.
  intros Hne Hns Hnl Hnq Hsuf Hlit. destruct (entry_suffix_shape suffix Hsuf) as (Hhead & Hsl & Hsq).
  set (p := str "/api/passwords/" ++ name ++ suffix).
  assert (63%N ∉ p) as Hq by (unfold p; rewrite !elem_of_app; intros [Hin|[?|?]]; [|done..]; revert Hin;
    by apply (bool_decide_eq_true_1 (_ ∉ _))).
  assert (entries_prefix p = Some (str "/api/passwords/", name ++ suffix)) as Ep.
  { unfold entries_prefix. change (partition_after (str "/passwords/") p) with (Some (str "/api/passwords/", name ++ suffix)).
    cbn [mbind option_bind]. rewrite chomp_plain by (rewrite elem_of_app; tauto).
    rewrite bool_decide_eq_false_2, bool_decide_eq_false_2; [done|by destruct name|].
    rewrite !elem_of_app. intros [Hin|[?|?]]; [|done..]. revert Hin. by apply (bool_decide_eq_true_1 (_ ∉ _)). }
  assert (entry_route is_decimal (name ++ suffix) = Some suffix) as Er.
  { unfold entry_route. rewrite span_segment_app by done. by rewrite bool_decide_eq_true_2, Hsuf by done. }
  unfold redact_path, before_query. split.
  - rewrite partition_none by done. rewrite Ep, bool_decide_eq_true_2, Er by done. rewrite app_nil_r. reflexivity.
  - assert (str "/api/passwords/" ++ name ++ suffix ++ 63%N :: query = p ++ 63%N :: query) as ->
      by (unfold p; by rewrite <- !app_assoc).
    rewrite partition_char by done. rewrite removelast_last. rewrite Ep, bool_decide_eq_true_2, Er by done.
    by rewrite <- !app_assoc.
Qed.
End Redaction.

(** ** At concrete requests *)

Definition purge_path : pystr := str "/api/passwords/x%2Fpurge".
Lemma paths_keep_their_segments_witness :
  ∃ q, (forall app, EntryNamePaths app (scope_of "DELETE" purge_path []) = app (with_path q (scope_of "DELETE" purge_path []))) ∧
    map entry_name (split_on SLASH q) = [[]; str "api"; str "passwords"; str "x/purge"].
Proof.
  pose proof (paths_keep_their_segments (scope_of "DELETE" purge_path []) (map ascii_byte purge_path) eq_refl eq_refl) as Hp.
  destruct Hp as (q & Hq & Hs).
  - discriminate.
  - repeat constructor.
  - apply (bool_decide_eq_true_1 (_ ∉ _)). vm_compute. reflexivity.
  - vm_compute. reflexivity.
  - exists q. split; [exact Hq|]. rewrite Hs. vm_compute. reflexivity.
Defined.
Definition odd_name : pystr := str "../50% off?".
Definition odd_path : pystr := default [] (entry_path true odd_name (str "/favorite")).
Lemma entry_path_names_the_entry_witness :
  ∃ q, (forall app, EntryNamePaths app (scope_of "PATCH" (str "/api" ++ odd_path) []) =
          app (with_path q (scope_of "PATCH" (str "/api" ++ odd_path) []))) ∧
    map entry_name (split_on SLASH q) = [[]; str "api"; str "passwords"; odd_name; str "favorite"].
Proof.
  destruct (entry_path_names_the_entry (scope_of "PATCH" (str "/api" ++ odd_path) []) odd_name (str "/favorite") odd_path)
    as (q & Hq & Hs & _).
  - vm_compute. reflexivity.
  - apply (bool_decide_eq_true_1 (_ ∉ _)). vm_compute. reflexivity.
  - right. exists (str "favorite"). split; [reflexivity|]. split; [repeat constructor|].
    split; apply (bool_decide_eq_true_1 (_ ∉ _)); vm_compute; reflexivity.
  - reflexivity.
  - reflexivity.
  - vm_compute. reflexivity.
  - exists q. split; [exact Hq|]. rewrite Hs. vm_compute. reflexivity.
Defined.
Lemma redaction_hides_names_witness :
  redact_path (in_range 48 57) (str "GET") (str "/api/passwords/" ++ str "bank" ++ str "/attachments/7")
    = str "/api/passwords/{password_name}/attachments/7".
Proof.
  refine (proj1 (redaction_hides_names (in_range 48 57) eq_refl eq_refl (str "GET") (str "bank") (str "/attachments/7") []
    _ _ _ _ eq_refl _)).
  - discriminate.
  - apply (bool_decide_eq_true_1 (_ ∉ _)). vm_compute. reflexivity.
  - apply (bool_decide_eq_true_1 (_ ∉ _)). vm_compute. reflexivity.
  - apply (bool_decide_eq_true_1 (_ ∉ _)). vm_compute. reflexivity.
  - apply (bool_decide_eq_true_1 (_ ∉ _)). vm_compute. reflexivity.
Defined.
