(* ===== verification/Bridge.v ===== *)
(** The desktop core's way into the application: a request of a frame as an ASGI call
    ([desktop_core/asgi_bridge.py]), and backups streamed to and from files
    ([desktop_core/native_files.py]). *)
From Stdlib Require Import ZArith Lia Strings.String Strings.Byte.
From stdpp Require Import base list gmap.
From S2P Require Import Prelude Platform BackupFormat Asgi Framing.

(** ** Outcomes of a call *)

(** [Hangs] is no exception: the call waits, until it is cancelled. *)
Inductive bridge_error := NoResponse | Fails (e : failure) | Hangs.
#[export] Instance bridge_error_eq_dec : EqDecision bridge_error.
Proof. solve_decision. Defined.
Abbreviation outcome A := (bridge_error + A)%type.
#[export] Instance outcome_bind : MBind (sum bridge_error) := fun A B f r =>
  match r with inl e => inl e | inr a => f a end.
Definition lift {A} (r : res A) : outcome A :=
  match r with Ok a => inr a | Err e => inl (Fails (AnException e)) end.
Record Answer := { status : Z; response_headers : list (pystr * pystr); content : bytes }.
#[export] Instance answer_eq_dec : EqDecision Answer.
Proof. solve_decision. Defined.

(** [str.encode("ascii")] and [str.encode("latin-1")] *)
Definition encode_below (bound : N) (s : pystr) : res bytes :=
  if forallb (fun c => (c <? bound)%N) s then Ok (map ascii_byte s) else Err UnicodeEncodeError.
Definition encode_ascii : pystr -> res bytes := encode_below 128.
Definition encode_latin1 : pystr -> res bytes := encode_below 256.

(** A file open for writing: from what is in it and a chunk, what is in it then, and
    the number of the [OSError] the write raises *)
Definition Output : Type := bytes -> bytes -> bytes * option Z.
Definition WHOLE_BODY_BYTES : Z := 24 * 1024 * 1024.

(** The variables of a call; of [input_chunks] the chunks, and the exceptions, still to
    come *)
Record Bridge := {
  request_sent : bool;
  chunks_in : option (list (failure + bytes));
  finished : bool;
  start : option (Z * list (pystr * pystr));
  chunks_out : list bytes;
  size : Z;
  file : bytes;
}.
Definition with_sent (b : Bridge) : Bridge :=
  {| request_sent := true; chunks_in := chunks_in b; finished := finished b; start := start b;
     chunks_out := chunks_out b; size := size b; file := file b |}.
Definition with_chunks_in (l : list (failure + bytes)) (b : Bridge) : Bridge :=
  {| request_sent := request_sent b; chunks_in := Some l; finished := finished b; start := start b;
     chunks_out := chunks_out b; size := size b; file := file b |}.
Definition with_finished (b : Bridge) : Bridge :=
  {| request_sent := request_sent b; chunks_in := chunks_in b; finished := true; start := start b;
     chunks_out := chunks_out b; size := size b; file := file b |}.
Definition with_start (st : Z) (hs : list (pystr * pystr)) (b : Bridge) : Bridge :=
  {| request_sent := request_sent b; chunks_in := chunks_in b; finished := finished b; start := Some (st, hs);
     chunks_out := chunks_out b; size := size b; file := file b |}.
Definition with_size (n : Z) (b : Bridge) : Bridge :=
  {| request_sent := request_sent b; chunks_in := chunks_in b; finished := finished b; start := start b;
     chunks_out := chunks_out b; size := n; file := file b |}.
Definition with_chunks_out (l : list bytes) (b : Bridge) : Bridge :=
  {| request_sent := request_sent b; chunks_in := chunks_in b; finished := finished b; start := start b;
     chunks_out := l; size := size b; file := file b |}.
Definition with_file (f : bytes) (b : Bridge) : Bridge :=
  {| request_sent := request_sent b; chunks_in := chunks_in b; finished := finished b; start := start b;
     chunks_out := chunks_out b; size := size b; file := f |}.

Section Call.
Context `{Text} `{Starlette}.

Definition scope_for (m raw_path query : pystr) (hs : list (pystr * pystr)) (input_size : Z) : res Scope :=
  raw_bytes ← encode_ascii raw_path;
  _ ← encode_ascii query;
  hs ← mapM (fun h : pystr * pystr =>
         name ← encode_latin1 (lower h.1); value ← encode_latin1 h.2; Ok (name, value))
       (hs ++ [(str "content-length", str_of_Z input_size)]);
  Ok {| is_http := true; method := m; path := unquote raw_path; raw_path := Some raw_bytes; headers := hs |}.

(** [None]: the event the call waits for is not set *)
Definition receive (body : bytes) (b : Bridge) : option ((message_in + failure) * Bridge) :=
  match chunks_in b, request_sent b with
  | Some (inr chunk :: l), false => Some (inl (Request chunk true), with_chunks_in l b)
  | Some (inl e :: _), false => Some (inr e, with_chunks_in [] b)
  | Some [], false => Some (inl (Request [] false), with_sent b)
  | None, false => Some (inl (Request body false), with_sent b)
  | _, true => if finished b then Some (inl Disconnect, b) else None
  end.
Definition send (max_response : Z) (output : option Output) (m : message_out) (b : Bridge) : option failure * Bridge :=
  match m with
  | Start st hs => (None, with_start st (map (fun h => (latin1 h.1, latin1 h.2)) hs) b)
  | Body chunk more =>
      let b := with_size (size b + Z.of_nat (length chunk)) b in
      let done b := (None, if more then b else with_finished b) in
      if max_response <? size b then (Some ResponseTooLarge, b)
      else
        match output, bool_decide (fst <$> start b = Some 200) with
        | Some write, true =>
            match write (file b) chunk with
            | (f, None) => done (with_file f b)
            | (f, Some errno) => (Some (OSErr errno), with_file f b)
            end
        | _, _ =>
            if WHOLE_BODY_BYTES <? size b then (Some ResponseTooLarge, b)
            else done (with_chunks_out (chunks_out b ++ [chunk]) b)
        end
  end.
Fixpoint converse (body : bytes) (max_response : Z) (output : option Output) (a : App) (b : Bridge) : Bridge * ending :=
  match a with
  | Return => (b, Returned)
  | Raise e => (b, Raised e)
  | Receive k =>
      match receive body b with
      | Some (m, b) => converse body max_response output (k m) b
      | None => (b, Waiting)
      end
  | Send m k =>
      let '(r, b) := send max_response output m b in converse body max_response output (k r) b
  end.
Definition opened (input_chunks : option (list (failure + bytes))) : Bridge :=
  {| request_sent := false; chunks_in := input_chunks; finished := false; start := None; chunks_out := []; size := 0; file := [] |}.
Definition answer (r : Bridge * ending) : outcome Answer :=
  match r with
  | (b, Returned) =>
      match start b with
      | Some (st, hs) => inr {| status := st; response_headers := hs; content := mjoin (chunks_out b) |}
      | None => inl NoResponse
      end
  | (_, Raised e) => inl (Fails e)
  | (_, Waiting) => inl Hangs
  end.
(** The answer, and what [output] was written *)
Definition call (app : ASGIApp) (m raw_path query : pystr) (hs : list (pystr * pystr)) (body : bytes) (max_response : Z)
    (output : option Output) (input_chunks : option (list (failure + bytes))) (input_size : option Z)
    : outcome Answer * bytes :=
  match scope_for m raw_path query hs (default (Z.of_nat (length body)) input_size) with
  | Err e => (inl (Fails (AnException e)), [])
  | Ok scope =>
      let r := converse body max_response output (app scope) (opened input_chunks) in
      (answer r, file r.1)
  end.
End Call.

(** ** Files *)

Definition CHUNK : Z := 256 * 1024.
Definition MAX_BACKUP : Z := 1024 * 1024 * 1024.
Definition EPERM : Z := 1.
Definition ENOENT : Z := 2.
Definition EACCES : Z := 13.
Definition EEXIST : Z := 17.
Definition ENOSPC : Z := 28.
Definition EROFS : Z := 30.

(** A path as [pathlib] keeps it on POSIX, and the files there are *)
Abbreviation FilePath := (list pystr).
Abbreviation Files := (gmap FilePath bytes).
Definition is_absolute (p : pystr) : bool := match p with c :: _ => (c =? SLASH)%N | [] => false end.
Definition parse_path (p : pystr) : FilePath := filter (fun c => c ≠ [] ∧ c ≠ str ".") (split_on SLASH p).
Definition parent (p : FilePath) : FilePath := removelast p.
(** [path.suffix == ".cmbackup"] *)
Definition backup_suffix (p : FilePath) : bool :=
  match last p with
  | Some name => (9 <? length name)%nat && bool_decide (drop (length name - 9) name = str ".cmbackup")
  | None => false
  end.

Definition get (k : string) (l : list (pystr * json)) : option json := snd <$> head (filter (fun e => e.1 = str k) l).
Definition detail (s : string) : bytes := raw "{" ++ [Byte.x22] ++ raw "detail" ++ [Byte.x22] ++ raw ":" ++ [Byte.x22]
  ++ raw s ++ [Byte.x22] ++ raw "}".
Definition refused (s : string) : Answer := {| status := 400; response_headers := []; content := detail s |}.
Definition SAVED : bytes := raw "{" ++ [Byte.x22] ++ raw "saved" ++ [Byte.x22] ++ raw ":true}".
Definition saved : Answer := {| status := 200; response_headers := []; content := SAVED |}.

(** The system calls of an export that fail, with their error numbers *)
Record Faults := {
  mkstemp_fails : option Z;
  flush_fails : option Z; (** [output.flush()] and [os.fsync] of it *)
  close_fails : option Z;
  link_fails : option Z;
  directory_fails : option Z; (** [os.open], [os.fsync] and [os.close] of the folder *)
  unlink_fails : option Z;
}.
Definition no_faults : Faults := {| mkstemp_fails := None; flush_fails := None; close_fails := None; link_fails := None;
  directory_fails := None; unlink_fails := None |}.
Definition os_error {A} (errno : Z) : outcome A := inl (Fails (OSErr errno)).
(** What comes after a step that may fail: the step's error replaces it. *)
Definition after {A} (fails : option Z) (r : outcome A) : outcome A :=
  match fails with Some errno => os_error errno | None => r end.

Section Native.
Context `{Text} `{Starlette} `{Json}.

Definition header_of (token : json) : outcome (list (pystr * pystr)) :=
  match token with JString t => inr [(str "x-ciphermoth-session", t)] | _ => inl (Fails (AnException AttributeError)) end.

(** The branch for [backup_export]. [name] is the one [tempfile.mkstemp] finds,
    [others] what other programs do to the files while the backup is made. *)
Definition backup_export (faults : Faults) (name : pystr) (others : Files -> Files) (write : Output)
    (app : ASGIApp) (path : FilePath) (token : json) (body : bytes) (files : Files) : outcome Answer * Files :=
  if negb (backup_suffix path) || bool_decide (is_Some (files !! path))
  then (inr (refused "Choose a new .cmbackup filename. Existing files are never replaced."), files)
  else
    match mkstemp_fails faults with
    | Some errno => (os_error errno, files)
    | None =>
        let partial := parent path ++ [name] in
        let '(result, output) :=
          match header_of token with
          | inl e => (inl e, [])
          | inr hs =>
              call app (str "POST") (str "/api/passwords/backup") []
                (hs ++ [(str "content-type", str "application/json")]) body MAX_BACKUP (Some write) None None
          end in
        let files := <[partial := output]> (others (<[partial := []]> files)) in
        let finally (r : outcome Answer) (files : Files) :=
          match unlink_fails faults with
          | Some errno => (os_error errno, files)
          | None => (r, delete partial files)
          end in
        match result with
        | inl Hangs => (inl Hangs, files)
        | inl e => finally (after (close_fails faults) (inl e)) files
        | inr a =>
            if negb (status a =? 200) then finally (after (close_fails faults) (inr a)) files
            else
              match after (flush_fails faults) (after (close_fails faults) (after (link_fails faults) (inr a))) with
              | inl e => finally (inl e) files
              | inr _ =>
                  if bool_decide (is_Some (files !! path)) then finally (os_error EEXIST) files
                  else finally (after (directory_fails faults) (inr saved)) (<[path := output]> files)
              end
        end
    end.

(** The branch for [backup_import]. [source] is what opening the file gives, with its
    size and whether it is a regular file; [boundary] the random one. *)
Record Source := { regular : bool; st_size : Z; readable : bytes }.
Definition CRLF : pystr := [13; 10]%N.
Definition quoted (s : pystr) : pystr := [34%N] ++ s ++ [34%N].
Definition form_field (boundary key value : pystr) : pystr :=
  str "--" ++ boundary ++ CRLF ++ str "Content-Disposition: form-data; name=" ++ quoted key ++ CRLF ++ CRLF ++ value ++ CRLF.
Definition field_bytes (boundary : pystr) (fields : json) (key : string) : outcome bytes :=
  match fields with
  | JObject l =>
      match get key l with
      | Some (JString value) =>
          if (4096 <? Z.of_nat (length value)) then inl (Fails (AnException (ValueError (str "invalid form field"))))
          else
            match utf8 (form_field boundary (str key) value) with
            | Some b => inr b
            | None => inl (Fails (AnException UnicodeEncodeError))
            end
      | Some _ => inl (Fails (AnException (ValueError (str "invalid form field"))))
      | None => inl (Fails (AnException KeyError))
      end
  | _ => inl (Fails (AnException TypeError))
  end.
Definition file_field (boundary : pystr) : bytes :=
  default [] (utf8 (str "--" ++ boundary ++ CRLF ++ str "Content-Disposition: form-data; name=" ++ quoted (str "file")
    ++ str "; filename=" ++ quoted (str "vault.cmbackup") ++ CRLF
    ++ str "Content-Type: application/octet-stream" ++ CRLF ++ CRLF)).
Definition closing (boundary : pystr) : bytes := default [] (utf8 (CRLF ++ str "--" ++ boundary ++ str "--" ++ CRLF)).
(** The chunks of a source from which [remaining] bytes are still to be read *)
Fixpoint source_chunks (fuel : nat) (remaining : Z) (s : bytes) (suffix : bytes) : list (failure + bytes) :=
  if remaining =? 0 then [inr suffix]
  else
    match fuel with
    | O => [inl (AnException Diverges)]
    | S fuel =>
        match take (Z.to_nat (Z.min CHUNK remaining)) s with
        | [] => [inl (AnException OSError)]
        | chunk =>
            inr chunk :: source_chunks fuel (remaining - Z.of_nat (length chunk)) (drop (length chunk) s) suffix
        end
    end.
Definition backup_import (boundary : pystr) (app : ASGIApp) (source : Z + Source) (token fields : json) : outcome Answer :=
  match source with
  | inl errno => os_error errno
  | inr source =>
      if negb (regular source) || (MAX_BACKUP <? st_size source)
      then inr (refused "Choose a backup file no larger than 1 GiB.")
      else
        p1 ← field_bytes boundary fields "master_password";
        p2 ← field_bytes boundary fields "on_conflict";
        let prefix := p1 ++ p2 ++ file_field boundary in
        let suffix := closing boundary in
        hs ← header_of token;
        (call app (str "POST") (str "/api/passwords/import") []
          (hs ++ [(str "content-type", str "multipart/form-data; boundary=" ++ boundary)]) [] WHOLE_BODY_BYTES None
          (Some (inr prefix :: source_chunks (S (length (readable source))) (st_size source) (readable source) suffix))
          (Some (Z.of_nat (length prefix) + st_size source + Z.of_nat (length suffix)))).1
  end.

(** [_call] and [call]: the answer and the files afterwards. [open_source] opens a file
    to be read. *)
Definition decoded (b : bytes) : outcome json :=
  match loads b with
  | inr j => inr j
  | inl TooDeep => inl (Fails RecursionError)
  | inl _ => inl (Fails (AnException (ValueError [])))
  end.
Definition _call (faults : Faults) (name boundary : pystr) (others : Files -> Files) (write : Output)
    (open_source : FilePath -> Files -> Z + Source) (app : ASGIApp) (header : list (pystr * json)) (body : bytes)
    (files : Files) : outcome Answer * Files :=
  match get "file" header with
  | None => (inl (Fails (AnException KeyError)), files)
  | Some (JString p) =>
      if negb (is_absolute p) then (inl (Fails (AnException (ValueError (str "absolute file required")))), files)
      else
        match decoded body with
        | inl e => (inl e, files)
        | inr fields =>
            let token := default (JString []) (get "session" header) in
            match get "native" header with
            | Some (JString operation) =>
                if bool_decide (operation = str "backup_export")
                then backup_export faults name others write app (parse_path p) token body files
                else if bool_decide (operation = str "backup_import")
                then (backup_import boundary app (open_source (parse_path p) files) token fields, files)
                else (inl (Fails (AnException (ValueError (str "unknown file operation")))), files)
            | _ => (inl (Fails (AnException (ValueError (str "unknown file operation")))), files)
            end
        end
  | Some _ => (inl (Fails (AnException TypeError)), files)
  end.
Definition os_detail (errno : option Z) : string :=
  if bool_decide (errno = Some ENOSPC) then "Not enough free disk space. Free space and try again."
  else if bool_decide (errno ∈ [Some EACCES; Some EPERM; Some EROFS])
  then "The selected file or folder is not accessible. Choose a writable folder."
  else if bool_decide (errno = Some EEXIST) then "A file already exists there. Choose a new filename."
  else "The file operation could not finish safely. Check the selected file, available disk space, and folder permissions.".
Definition os_answer (errno : option Z) : Answer :=
  {| status := 400; response_headers := []; content := dumps_spaced (JObject [(str "detail", JString (str (os_detail errno)))]) |}.
Definition native_call (faults : Faults) (name boundary : pystr) (others : Files -> Files) (write : Output)
    (open_source : FilePath -> Files -> Z + Source) (app : ASGIApp) (header : list (pystr * json)) (body : bytes)
    (files : Files) : outcome Answer * Files :=
  let '(r, files) := _call faults name boundary others write open_source app header body files in
  (match r with
   | inl (Fails (OSErr errno)) => inr (os_answer (Some errno))
   | inl (Fails (AnException OSError)) => inr (os_answer None)
   | _ => r
   end, files).
End Native.
