(* ===== verification/BridgeSpec.v ===== *)
(** What the desktop core's bridge promises: a response that was completed is returned
    as it was sent, an export publishes nothing but what was written and replaces no
    file, and an import announces the bytes it sends. *)
From Stdlib Require Import ZArith Lia Strings.String Strings.Byte.
From stdpp Require Import base list gmap.
From S2P Require Import Prelude Platform BackupFormat Concrete Framing FramingSpec Asgi AsgiDemo Bridge.

(** ** A conversation with the bridge *)

Fixpoint chunk_messages (l : list (failure + bytes)) : list (message_in + failure) :=
  match l with
  | inr chunk :: l => inl (Request chunk true) :: chunk_messages l
  | inl e :: _ => [inr e; inl (Request [] false)]
  | [] => [inl (Request [] false)]
  end.
(** The messages a request consists of *)
Definition request_messages (body : bytes) (input_chunks : option (list (failure + bytes))) : list (message_in + failure) :=
  match input_chunks with
  | Some l => chunk_messages l
  | None => [inl (Request body false)]
  end.
Definition remaining (body : bytes) (b : Bridge) : list (message_in + failure) :=
  if request_sent b then [] else request_messages body (chunks_in b).
Definition sent_so_far (b : Bridge) := (start b, chunks_out b, size b, file b).
(** The bridge after it took all of [ms] without an error *)
Fixpoint accept (limit : Z) (output : option Output) (ms : list message_out) (b : Bridge) : option Bridge :=
  match ms with
  | [] => Some b
  | m :: ms =>
      match send limit output m b with
      | (None, b) => accept limit output ms b
      | (Some _, _) => None
      end
  end.

Lemma send_congr limit output m b c :
  sent_so_far b = sent_so_far c ->
  (send limit output m b).1 = (send limit output m c).1 ∧
  sent_so_far (send limit output m b).2 = sent_so_far (send limit output m c).2.
Proof.
  destruct b, c. unfold sent_so_far. cbn. intros [= <- <- <- <-]. unfold send. cbn.
  repeat case_match; simplify_eq; cbn in *; done.
Qed.
Lemma send_remaining body limit output m b : remaining body (send limit output m b).2 = remaining body b.
Proof. destruct b. unfold send. cbn. repeat case_match; simplify_eq; cbn in *; done. Qed.
Lemma receive_remaining body b m ms :
  remaining body b = m :: ms ->
  ∃ b', receive body b = Some (m, b') ∧ remaining body b' = ms ∧ sent_so_far b' = sent_so_far b.
Proof.
  destruct b as [sent chunks fin bs bo bz bf]. unfold remaining, receive. cbn [request_sent chunks_in finished].
  destruct sent; [done|]. destruct chunks as [[|[e|chunk] l]|]; cbn; intros [= <- <-]; eexists; eauto.
Qed.
Lemma run_Send m k ins : run (Send m k) ins [] = (m :: (run (k None) ins []).1, (run (k None) ins []).2).
Proof. cbn [run]. by destruct (run (k None) ins []). Qed.
(** An application that answers from the messages of the request alone, and whose
    messages the bridge takes, is answered for. *)
Lemma converse_run body limit output a b c c' ms e :
  run a (remaining body b) [] = (ms, e) -> e ≠ Waiting -> sent_so_far b = sent_so_far c ->
  accept limit output ms c = Some c' ->
  ∃ b', converse body limit output a b = (b', e) ∧ sent_so_far b' = sent_so_far c'.
Proof.
  revert b c ms. induction a as [|f|k IH|m k IH]; intros b c ms Hr He Hbc Ha.
  - injection Hr as <- <-. injection Ha as <-. by exists b.
  - injection Hr as <- <-. injection Ha as <-. by exists b.
  - cbn [run] in Hr. destruct (remaining body b) as [|m l] eqn:Er; [by injection Hr as <- <-|].
    destruct (receive_remaining _ _ _ _ Er) as (b1 & Hb1 & Er1 & Es1). cbn [converse]. rewrite Hb1.
    apply (IH m b1 c ms); [by rewrite Er1|done|congruence|done].
  - rewrite run_Send in Hr. injection Hr as <- Hr. cbn [accept] in Ha.
    destruct (send_congr limit output m b c Hbc) as [E1 E2]. pose proof (send_remaining body limit output m b) as Er.
    cbn [converse]. destruct (send limit output m b) as [r b1], (send limit output m c) as [r' c1]. cbn [fst snd] in *.
    subst r'. destruct r; [done|]. apply (IH None b1 c1 (run (k None) (remaining body b) []).1); [|done..|exact Ha].
    by rewrite Er, <- Hr; destruct (run _ _ _).
Qed.

(** ** Responses *)

Definition body_of (m : message_out) : bytes := match m with Start _ _ => [] | Body chunk _ => chunk end.
Definition joined (ms : list message_out) : bytes := mjoin (map body_of ms).
Definition decoded_headers (hs : headers_list) : list (pystr * pystr) := map (fun h => (latin1 h.1, latin1 h.2)) hs.
Definition streamed (output : option Output) (st : Z) : bool :=
  match output with Some _ => st =? 200 | None => false end.
Definition writes (output : option Output) : Prop :=
  ∀ write f chunk, output = Some write -> write f chunk = (f ++ chunk, None).
Lemma mjoin_snoc (l : list bytes) c : mjoin (l ++ [c]) = mjoin l ++ c.
Proof. rewrite join_app. cbn. by rewrite app_nil_r. Qed.
Lemma send_body limit output st hs chunk more b :
  writes output -> start b = Some (st, hs) -> size b + Z.of_nat (length chunk) <= limit ->
  (streamed output st = false -> size b + Z.of_nat (length chunk) <= WHOLE_BODY_BYTES) ->
  ∃ b', send limit output (Body chunk more) b = (None, b') ∧ start b' = start b ∧
    size b' = size b + Z.of_nat (length chunk) ∧
    file b' = file b ++ (if streamed output st then chunk else []) ∧
    mjoin (chunks_out b') = mjoin (chunks_out b) ++ (if streamed output st then [] else chunk).
Proof.
  intros Hw Hs Hl Hwhole. destruct b as [? ? ? bs bo bz bf]. cbn [start size file chunks_out] in *. subst bs.
  unfold send. cbn. rewrite (proj2 (Z.ltb_ge _ _)) by lia.
  assert (bool_decide (Some st = Some 200) = (st =? 200)) as ->.
  { destruct (st =? 200) eqn:E; [apply Z.eqb_eq in E as ->; by apply bool_decide_eq_true|].
    apply Z.eqb_neq in E. apply bool_decide_eq_false. congruence. }
  unfold streamed in *. destruct output as [write|]; [destruct (st =? 200)|].
  - rewrite (Hw write _ _ eq_refl). destruct more; eexists; (split_and!; [reflexivity..|symmetry; apply app_nil_r]).
  - rewrite (proj2 (Z.ltb_ge _ _)) by (by apply Hwhole).
    destruct more; eexists; (split_and!; [reflexivity..|symmetry; apply app_nil_r|apply mjoin_snoc]).
  - rewrite (proj2 (Z.ltb_ge _ _)) by (by apply Hwhole).
    destruct more; eexists; (split_and!; [reflexivity..|symmetry; apply app_nil_r|apply mjoin_snoc]).
Qed.
Lemma accept_bodies limit output st hs bodies b :
  writes output -> start b = Some (st, hs) -> forallb (fun m => negb (is_start m)) bodies = true ->
  size b + Z.of_nat (length (joined bodies)) <= limit ->
  (streamed output st = false -> size b + Z.of_nat (length (joined bodies)) <= WHOLE_BODY_BYTES) ->
  ∃ b', accept limit output bodies b = Some b' ∧ start b' = Some (st, hs) ∧
    file b' = file b ++ (if streamed output st then joined bodies else []) ∧
    mjoin (chunks_out b') = mjoin (chunks_out b) ++ (if streamed output st then [] else joined bodies).
Proof.
  intros Hw. revert b. induction bodies as [|[?|chunk more] bodies IH]; intros b Hs Hb Hl Hwhole; [|done|].
  { exists b. split_and!; [done|done|by destruct (streamed _ _); rewrite app_nil_r..]. }
  change (joined (Body chunk more :: bodies)) with (chunk ++ joined bodies) in *. rewrite length_app in Hl, Hwhole.
  edestruct (send_body limit output st hs chunk more b) as (b1 & E & E0 & E1 & E2 & E3); [done..|lia|intros Eo; specialize (Hwhole Eo); lia|].
  cbn [accept]. rewrite E.
  edestruct (IH b1) as (b2 & -> & F1 & F2 & F3); [congruence|done|lia|intros Eo; specialize (Hwhole Eo); lia|]. exists b2.
  rewrite F2, F3, E2, E3, <- !app_assoc. by destruct (streamed _ _).
Qed.

Section Calls.
Context `{Text} `{Starlette}.
Lemma answer_complete (app : ASGIApp) scope body limit output chunks st hs bodies :
  run (app scope) (request_messages body chunks) [] = (Start st hs :: bodies, Returned) ->
  forallb (fun m => negb (is_start m)) bodies = true -> writes output ->
  Z.of_nat (length (joined bodies)) <= limit ->
  (streamed output st = false -> Z.of_nat (length (joined bodies)) <= WHOLE_BODY_BYTES) ->
  let r := converse body limit output (app scope) (opened chunks) in
  answer r = inr {| status := st; response_headers := decoded_headers hs;
                    content := if streamed output st then [] else joined bodies |} ∧
  file r.1 = if streamed output st then joined bodies else [].
Proof.
  intros Hr Hb Hw Hl Hwhole. cbv zeta.
  destruct (accept_bodies limit output st (decoded_headers hs) bodies (with_start st (decoded_headers hs) (opened chunks)))
    as (c & Ha & E0 & E1 & E2); [done..|].
  destruct (converse_run body limit output (app scope) (opened chunks) (opened chunks) c (Start st hs :: bodies) Returned)
    as (b & -> & Eb); [exact Hr|done|done|exact Ha|].
  injection Eb as F0 F1 F2 F3. cbn [answer fst]. rewrite F0, F1, F3, E0, E1, E2. done.
Qed.

(** A response the application completes is returned as it was sent: status,
    headers and the bytes of all of its chunks, as the body or, for a status of 200 with
    an output, in that file - when they are within the limit, and within 24 MiB where
    they are not written to a file. *)
Theorem complete_response_returned (app : ASGIApp) m raw_path query hs body limit output chunks input_size scope st rhs bodies :
  scope_for m raw_path query hs (default (Z.of_nat (length body)) input_size) = Ok scope ->
  run (app scope) (request_messages body chunks) [] = (Start st rhs :: bodies, Returned) ->
  forallb (fun m => negb (is_start m)) bodies = true -> writes output ->
  Z.of_nat (length (joined bodies)) <= limit ->
  (streamed output st = false -> Z.of_nat (length (joined bodies)) <= WHOLE_BODY_BYTES) ->
  call app m raw_path query hs body limit output chunks input_size =
    (inr {| status := st; response_headers := decoded_headers rhs;
            content := if streamed output st then [] else joined bodies |},
     if streamed output st then joined bodies else []).
Proof.
  intros Hs Hr Hb Hw Hl Hwhole. unfold call. rewrite Hs.
  destruct (answer_complete app scope body limit output chunks st rhs bodies) as [-> ->]; done.
Qed.
End Calls.

(** ** Exports *)

Section Exports.
Context `{Text} `{Starlette} `{Json}.
Definition inr_of {A B} (x : A + B) : option B := match x with inr b => Some b | inl _ => None end.
Lemma finally_files (faults : Faults) (partial : FilePath) (r : outcome Answer) (files : Files) :
  ∃ r', match unlink_fails faults with
        | Some errno => (os_error errno, files)
        | None => (r, delete partial files)
        end = (r', match unlink_fails faults with Some _ => files | None => delete partial files end).
Proof. destruct (unlink_fails faults); eauto. Qed.

(** What the response wrote, of an export that got so far *)
Definition written (app : ASGIApp) (write : Output) (token : json) (body : bytes) : outcome Answer * bytes :=
  match header_of token with
  | inl e => (inl e, [])
  | inr hs => call app (str "POST") (str "/api/passwords/backup") []
                (hs ++ [(str "content-type", str "application/json")]) body MAX_BACKUP (Some write) None None
  end.


(** An export for which the application completes a response of 200 saves exactly
    that response: when the path is free and nothing fails, the bytes of all its chunks
    are the file at the path, its staging file is gone, and every other file is as the
    others left it. *)
Theorem complete_export_is_saved name others write (app : ASGIApp) path session body files scope rhs bodies :
  backup_suffix path = true -> files !! path = None -> path ≠ parent path ++ [name] ->
  let during := others (<[parent path ++ [name] := []]> files) in
  during !! path = None ->
  scope_for (str "POST") (str "/api/passwords/backup") []
    [(str "x-ciphermoth-session", session); (str "content-type", str "application/json")]
    (Z.of_nat (length body)) = Ok scope ->
  run (app scope) [inl (Request body false)] [] = (Start 200 rhs :: bodies, Returned) ->
  forallb (fun m => negb (is_start m)) bodies = true -> writes (Some write) ->
  Z.of_nat (length (joined bodies)) <= MAX_BACKUP ->
  backup_export no_faults name others write app path (JString session) body files =
    (inr saved, <[path := joined bodies]> (delete (parent path ++ [name]) during)).
Proof.
  cbv zeta. intros Hx Hf Hp Hd Hs Hr Hb Hw Hl. unfold backup_export. rewrite Hx, Hf.
  rewrite bool_decide_eq_false_2 by (intros [? [=]]). cbn [negb orb mkstemp_fails no_faults header_of].
  unfold call. unfold default. cbn [List.app]. rewrite Hs.
  destruct (answer_complete app scope body MAX_BACKUP (Some write) None 200 rhs bodies) as [-> ->]; [done..|].
  cbn [streamed status]. change (200 =? 200) with true.
  cbn [negb flush_fails close_fails link_fails directory_fails unlink_fails no_faults after].
  rewrite lookup_insert_ne by congruence. rewrite Hd. rewrite bool_decide_eq_false_2 by (intros [? [=]]).
  rewrite delete_insert_ne by congruence. by rewrite delete_insert_eq.
Qed.

(** ** Imports *)

Lemma source_chunks_whole fuel n s suffix :
  (length s < fuel)%nat -> 0 <= n ->
  if n <=? Z.of_nat (length s)
  then ∃ l, source_chunks fuel n s suffix = map inr l ++ [inr suffix] ∧ mjoin l = take (Z.to_nat n) s ∧
            Forall (fun c => Z.of_nat (length c) <= CHUNK) l
  else ∃ l, source_chunks fuel n s suffix = map inr l ++ [inl (AnException OSError)] ∧ mjoin l = s.
Proof.
  revert n s. induction fuel as [|fuel IH]; intros n s Hf Hn; [lia|]. cbn [source_chunks].
  destruct (n =? 0) eqn:E0; [apply Z.eqb_eq in E0 as ->; rewrite (proj2 (Z.leb_le _ _)) by lia; by exists []|].
  apply Z.eqb_neq in E0. set (chunk := take (Z.to_nat (Z.min CHUNK n)) s).
  assert (length chunk = Nat.min (Z.to_nat (Z.min CHUNK n)) (length s)) as Hc by apply length_take.
  destruct chunk as [|b chunk'] eqn:Ec.
  - cbn in Hc. unfold CHUNK in Hc. assert (length s = O) as Hl by lia. rewrite Hl. rewrite (proj2 (Z.leb_gt _ _)) by lia.
    exists []. by destruct s.
  - rewrite <- Ec in *. assert (s = chunk ++ drop (length chunk) s) as Es.
    { rewrite Hc. unfold chunk. rewrite <- (take_drop (Z.to_nat (Z.min CHUNK n)) s) at 1. f_equal.
      destruct (decide (Z.to_nat (Z.min CHUNK n) <= length s)%nat); [by rewrite Nat.min_l|].
      rewrite Nat.min_r by lia. by rewrite !drop_ge by lia. }
    assert (0 < length chunk)%nat as Hpos by (rewrite Ec; cbn; lia).
    specialize (IH (n - Z.of_nat (length chunk)) (drop (length chunk) s)). rewrite length_drop in IH.
    unfold CHUNK in *. specialize (IH ltac:(lia) ltac:(lia)).
    destruct (n <=? Z.of_nat (length s)) eqn:El.
    + apply Z.leb_le in El. rewrite (proj2 (Z.leb_le _ _)) in IH by lia. destruct IH as (l & -> & Ej & Hall).
      exists (chunk :: l). split_and!; [done| |constructor; [lia|done]]. change (mjoin (chunk :: l)) with (chunk ++ mjoin l).
      rewrite Ej. rewrite Es at 2. rewrite take_app_ge by lia. do 2 f_equal. lia.
    + apply Z.leb_gt in El. rewrite (proj2 (Z.leb_gt _ _)) in IH by lia. destruct IH as (l & -> & Ej).
      exists (chunk :: l). split; [done|]. change (mjoin (chunk :: l)) with (chunk ++ mjoin l). by rewrite Ej.
Qed.

(** An import announces exactly the bytes it sends: the form fields, the file as
    large as it was when it was opened, read in pieces of at most 256 KiB, and the
    closing delimiter; more that was appended since is not sent, and of a file that
    became shorter the request breaks off with an error before its end. *)
Theorem import_announces_what_it_sends boundary (app : ASGIApp) source session fields p1 p2 :
  field_bytes boundary fields "master_password" = inr p1 -> field_bytes boundary fields "on_conflict" = inr p2 ->
  regular source = true -> 0 <= st_size source <= MAX_BACKUP ->
  let prefix := p1 ++ p2 ++ file_field boundary in
  ∃ chunks last announced,
    backup_import boundary app (inr source) (JString session) fields =
      (call app (str "POST") (str "/api/passwords/import") []
         [(str "x-ciphermoth-session", session); (str "content-type", str "multipart/form-data; boundary=" ++ boundary)]
         [] WHOLE_BODY_BYTES None (Some (inr prefix :: map inr chunks ++ [last])) (Some announced)).1 ∧
    announced = Z.of_nat (length prefix) + st_size source + Z.of_nat (length (closing boundary)) ∧
    if st_size source <=? Z.of_nat (length (readable source))
    then last = inr (closing boundary) ∧ mjoin chunks = take (Z.to_nat (st_size source)) (readable source) ∧
         announced = Z.of_nat (length (prefix ++ mjoin chunks ++ closing boundary)) ∧
         Forall (fun c => Z.of_nat (length c) <= CHUNK) chunks
    else last = inl (AnException OSError) ∧ mjoin chunks = readable source.
Proof.
  intros E1 E2 Hr Hz. cbv zeta. unfold backup_import. rewrite Hr, E1, E2. rewrite (proj2 (Z.ltb_ge _ _)) by lia.
  cbn [negb orb mbind outcome_bind header_of].
  pose proof (source_chunks_whole (S (length (readable source))) (st_size source) (readable source) (closing boundary)) as Hc.
  specialize (Hc ltac:(lia) ltac:(lia)).
  destruct (st_size source <=? _) eqn:El.
  - apply Z.leb_le in El. destruct Hc as (l & -> & Ej & Hl). do 3 eexists. split_and!; [reflexivity|reflexivity|done|done| |done].
    rewrite !length_app, Ej, length_take. lia.
  - destruct Hc as (l & -> & Ej). do 3 eexists. split_and!; [reflexivity|reflexivity|done|done].
Qed.
End Exports.

(** ** Concrete runs *)

Definition quiet_json : Json := printing_json (fun _ => inr (JObject [])).
#[local] Existing Instance quiet_json.
Definition home : FilePath := [str "home"; str "vault.cmbackup"].
Definition export_header : list (pystr * json) :=
  [(str "native", JString (str "backup_export")); (str "file", JString (str "/home/vault.cmbackup"));
   (str "session", JString (str "token"))].
Definition untouched (f : Files) : Files := f.
(** A disk with room for [n] bytes *)
Definition room (n : nat) : Output := fun f chunk =>
  if (length f + length chunk <=? n)%nat then (f ++ chunk, None) else (f, Some ENOSPC).
(** Routes that stream a response *)
Definition streaming (st : Z) (chunks : list bytes) : ASGIApp := fun _ =>
  Receive (fun _ => respond (Start st [] :: map (fun c => Body c true) chunks ++ [Body [] false])).
Definition no_source (p : FilePath) (f : Files) : Z + Source := inl ENOENT.

(** A disk that is full while an export is written does not stop the export: the
    write's error is the application's, whose [UnhandledErrorMiddleware] drops an error
    that comes after the response began, and the bridge does not ask whether the response
    was finished; so the part that was written is published as the backup, and answered
    to be saved. The same disk refusing to flush is reported. *)
Theorem full_disk_export_is_saved :
  native_call no_faults (str "tmp") [] untouched (room 6) no_source
    (get_application (fun app => app) (streaming 200 [raw "first,"; raw "second"])) export_header (raw "{}") ∅
  = (inr saved, {[home := raw "first,"]}) ∧
  native_call {| mkstemp_fails := None; flush_fails := Some ENOSPC; close_fails := None; link_fails := None;
                 directory_fails := None; unlink_fails := None |} (str "tmp") [] untouched (room 6) no_source
    (get_application (fun app => app) (streaming 200 [raw "first,"])) export_header (raw "{}") ∅
  = (inr (os_answer (Some ENOSPC)), ∅) ∧
  native_call no_faults (str "tmp") [] untouched (room 12) no_source
    (get_application (fun app => app) (streaming 200 [raw "first,"; raw "second"])) export_header (raw "{}") ∅
  = (inr saved, {[home := raw "first,second"]}).
Proof. split_and!; vm_compute; reflexivity. Qed.

Lemma complete_response_returned_witness :
  call echo (str "POST") (str "/api/x") [] [] (raw "hello") 10 None None None =
  (inr {| status := 200; response_headers := []; content := raw "hello" |}, []).
Proof.
  refine (complete_response_returned echo (str "POST") (str "/api/x") [] [] (raw "hello") 10 None None None
    {| is_http := true; method := str "POST"; path := str "/api/x"; raw_path := Some (raw "/api/x");
       headers := [(raw "content-length", raw "5")] |} 200 [] [Body (raw "hello") false] _ _ _ _ _ _);
    [vm_compute; reflexivity|reflexivity|reflexivity|intros ? ? ? [=]|apply Z.leb_le; vm_compute; reflexivity|].
  intros _. apply Z.leb_le. vm_compute. reflexivity.
Defined.
Lemma streaming_written :
  written (streaming 200 [raw "first,"; raw "second"]) (room 12) (JString (str "token")) (raw "{}") =
  (inr {| status := 200; response_headers := []; content := [] |}, raw "first,second").
Proof. vm_compute. reflexivity. Qed.
Definition their_file (f : Files) : Files := <[home := raw "theirs"]> f.
Definition endless : Output := fun f chunk => (f ++ chunk, None).
Lemma complete_export_is_saved_witness :
  backup_export no_faults (str "tmp") untouched endless (streaming 200 [raw "first,"; raw "second"]) home
    (JString (str "token")) (raw "{}") ∅ =
  (inr saved, <[home := raw "first,second"]> (delete (parent home ++ [str "tmp"]) (<[parent home ++ [str "tmp"] := []]> ∅))).
Proof.
  refine (complete_export_is_saved (str "tmp") untouched endless (streaming 200 [raw "first,"; raw "second"]) home
    (str "token") (raw "{}") ∅
    {| is_http := true; method := str "POST"; path := str "/api/passwords/backup"; raw_path := Some (raw "/api/passwords/backup");
       headers := [(raw "x-ciphermoth-session", raw "token"); (raw "content-type", raw "application/json");
                   (raw "content-length", raw "2")] |}
    [] [Body (raw "first,") true; Body (raw "second") true; Body [] false] _ _ _ _ _ _ _ _ _);
    [vm_compute; reflexivity|reflexivity|vm_compute; discriminate|reflexivity|vm_compute; reflexivity|reflexivity|reflexivity| |].
  - intros write f chunk [= <-]. reflexivity.
  - apply Z.leb_le. vm_compute. reflexivity.
Defined.
Definition wrong_password : json :=
  JObject [(str "master_password", JString (str "pw")); (str "on_conflict", JString (str "skip"))].
Definition ok_of_field (key : string) : bytes := default [] (inr_of (field_bytes (str "b") wrong_password key)).
Lemma import_announces_what_it_sends_witness :
  ∃ chunks last announced,
    backup_import (str "b") echo (inr {| regular := true; st_size := 6; readable := raw "backup, grown since" |})
      (JString (str "token")) wrong_password =
      (call echo (str "POST") (str "/api/passwords/import") []
         [(str "x-ciphermoth-session", str "token"); (str "content-type", str "multipart/form-data; boundary=" ++ str "b")]
         [] WHOLE_BODY_BYTES None
         (Some (inr (ok_of_field "master_password" ++ ok_of_field "on_conflict" ++ file_field (str "b"))
                :: map inr chunks ++ [last])) (Some announced)).1 ∧
    last = inr (closing (str "b")) ∧ mjoin chunks = raw "backup".
Proof.
  destruct (import_announces_what_it_sends (str "b") echo
    {| regular := true; st_size := 6; readable := raw "backup, grown since" |} (str "token") wrong_password
    (ok_of_field "master_password") (ok_of_field "on_conflict")) as (chunks & last & n & E & _ & Hl & Hj & _);
    [vm_compute; reflexivity|vm_compute; reflexivity|reflexivity|split; apply Z.leb_le; vm_compute; reflexivity|].
  exists chunks, last, n. split_and!; [exact E|exact Hl|exact Hj].
Defined.
