(* ===== verification/CoreServer.v ===== *)
(** The desktop core's server ([desktop_core/server.py]): it takes the frames its reader
    delivers one after another, runs the requests among them as tasks, and answers
    through a bounded queue.

    The event loop runs one thing at a time: an [event] is what runs between two points
    where another may run, and [step] what it does, if it can happen. *)
From Stdlib Require Import ZArith Lia Strings.String Strings.Byte.
From stdpp Require Import base list gmap.
From S2P Require Import Prelude Platform Sessions BackupFormat Framing Asgi Bridge.

Definition MAX_IN_FLIGHT : nat := 16.
Definition MAX_PATH : Z := 8192.
Definition MAX_HEADERS : Z := 64.
Definition METHODS : list pystr := [str "GET"; str "POST"; str "PUT"; str "PATCH"; str "DELETE"].
Definition DROPPED_HEADERS : list pystr :=
  [str "content-length"; str "transfer-encoding"; str "connection"; str "host"].

(** ** Requests *)

Inductive bad_request := BadRequest (message : pystr) | Escapes (e : failure).
Abbreviation parsed A := (bad_request + A)%type.
#[export] Instance parsed_bind : MBind (sum bad_request) := fun A B f r =>
  match r with inl e => inl e | inr a => f a end.
Definition unless (ok : bool) (message : string) : parsed () := if ok then inr () else inl (BadRequest (str message)).
Record HttpRequest := {
  req_method : pystr;
  req_path : pystr;
  req_query : pystr;
  req_headers : list (pystr * pystr);
}.
Inductive CoreRequest := Native (header : list (pystr * json)) | Http (r : HttpRequest).

Definition isascii (s : pystr) : bool := forallb (fun c => (c <? 128)%N) s.
Definition is_control (c : N) : bool := (c <? 33)%N || (c =? 127)%N.
Definition path_ok (p : pystr) : bool :=
  match p with c :: _ => (c =? SLASH)%N | [] => false end && negb (MAX_PATH <? Z.of_nat (length p))
  && isascii p && negb (existsb is_control p).
Definition query_ok (q : pystr) : bool := isascii q && negb (MAX_PATH <? Z.of_nat (length q)).
Definition breaks_lines (c : N) : bool := bool_decide (c ∈ [13; 10; 0]%N).
Definition header_part_ok (p : pystr) : bool := isascii p && negb (existsb breaks_lines p).

Section Server.
Context `{Json} `{Text}.

(** [method not in METHODS]: what cannot be hashed cannot be looked for. *)
Definition method_in (m : option json) : parsed pystr :=
  match m with
  | Some (JString s) => if bool_decide (s ∈ METHODS) then inr s else inl (BadRequest (str "method"))
  | Some (JList _) | Some (JObject _) => inl (Escapes (AnException TypeError))
  | _ => inl (BadRequest (str "method"))
  end.
Definition text_of (default_text : pystr) (v : option json) : option pystr :=
  match v with None => Some default_text | Some (JString s) => Some s | Some _ => None end.
Fixpoint clean_headers (pairs : list json) : parsed (list (pystr * pystr)) :=
  match pairs with
  | [] => inr []
  | JList [JString name; JString value] :: pairs =>
      unless (header_part_ok name && header_part_ok value) "header pair" ≫= fun _ =>
      clean_headers pairs ≫= fun clean =>
      inr (if bool_decide (lower name ∈ DROPPED_HEADERS) then clean else (name, value) :: clean)
  | _ :: _ => inl (BadRequest (str "header pair"))
  end.
(** Its header is [decoded] when it is JSON. *)
Definition parse_request (header_bytes : bytes) : parsed HttpRequest :=
  match loads header_bytes with
  | inl TooDeep => inl (Escapes RecursionError)
  | inl _ => inl (BadRequest (str "header is not JSON"))
  | inr (JObject header) =>
      m ← method_in (get "method" header);
      p ← match get "path" header with
          | Some (JString p) => if path_ok p then inr p else inl (BadRequest (str "path"))
          | _ => inl (BadRequest (str "path"))
          end;
      q ← match text_of [] (get "query" header) with
          | Some q => if query_ok q then inr q else inl (BadRequest (str "query"))
          | None => inl (BadRequest (str "query"))
          end;
      hs ← match get "headers" header with
           | None => inr []
           | Some (JList l) => if MAX_HEADERS <? Z.of_nat (length l) then inl (BadRequest (str "headers")) else inr l
           | Some _ => inl (BadRequest (str "headers"))
           end;
      clean ← clean_headers hs;
      inr {| req_method := m; req_path := p; req_query := q; req_headers := clean |}
  | inr _ => inl (BadRequest (str "header is not an object"))
  end.
(** The request in [_start] *)
Definition decode_request (header : bytes) : parsed CoreRequest :=
  match loads header with
  | inl TooDeep => inl (Escapes RecursionError)
  | inl (NotUnicode message) | inl (NotJson message) => inl (BadRequest message)
  | inr (JObject l) =>
      if is_some (get "native" l) then inr (Native l) else parse_request header ≫= fun r => inr (Http r)
  | inr _ => parse_request header ≫= fun r => inr (Http r)
  end.

(** ** Tasks *)

(** A task that was cancelled before it began never enters [_handle]'s [try]. [Done] is
    one whose callback is still to run. *)
Inductive Stage := Scheduled | CancelledEarly | Running | Done (cancelled : bool).
Record Task := { t_request : CoreRequest; t_body : bytes; stage : Stage }.
Definition at_stage (s : Stage) (t : Task) : Task := {| t_request := t_request t; t_body := t_body t; stage := s |}.
Definition cancel (t : Task) : Task :=
  match stage t with Scheduled => at_stage CancelledEarly t | _ => t end.

(** [Exited] is [os._exit]. *)
Inductive Phase := Serving | Draining | Stopped (code : Z) | Crashed (e : failure) | Exited (code : Z).
Record Frame := { fr_kind : Z; fr_request_id : Z; fr_header : json; fr_body : bytes }.
(** [queue] and [written] are the writer's queue and what its thread has written;
    [served], [sent] and [lost] record the items the loop took, the frames put in the
    queue, and the requests whose answer could not be. *)
Record Server := {
  in_flight : gmap Z Task;
  incoming : list Incoming;
  phase : Phase;
  exit_code : Z;
  queue : list bytes;
  written : bytes;
  vault : VaultSessions;
  served : list Incoming;
  sent : list Frame;
  lost : list Z;
}.
Definition with_in_flight (f : gmap Z Task -> gmap Z Task) (s : Server) : Server :=
  {| in_flight := f (in_flight s); incoming := incoming s; phase := phase s; exit_code := exit_code s; queue := queue s;
     written := written s; vault := vault s; served := served s; sent := sent s; lost := lost s |}.
Definition with_phase (p : Phase) (s : Server) : Server :=
  {| in_flight := in_flight s; incoming := incoming s; phase := p; exit_code := exit_code s; queue := queue s;
     written := written s; vault := vault s; served := served s; sent := sent s; lost := lost s |}.
Definition with_exit_code (c : Z) (s : Server) : Server :=
  {| in_flight := in_flight s; incoming := incoming s; phase := phase s; exit_code := c; queue := queue s;
     written := written s; vault := vault s; served := served s; sent := sent s; lost := lost s |}.
Definition with_vault (v : VaultSessions) (s : Server) : Server :=
  {| in_flight := in_flight s; incoming := incoming s; phase := phase s; exit_code := exit_code s; queue := queue s;
     written := written s; vault := v; served := served s; sent := sent s; lost := lost s |}.
Definition enqueue (data : bytes) (fr : Frame) (s : Server) : Server :=
  {| in_flight := in_flight s; incoming := incoming s; phase := phase s; exit_code := exit_code s; queue := queue s ++ [data];
     written := written s; vault := vault s; served := served s; sent := sent s ++ [fr]; lost := lost s |}.
Definition dequeue (data : bytes) (rest : list bytes) (s : Server) : Server :=
  {| in_flight := in_flight s; incoming := incoming s; phase := phase s; exit_code := exit_code s; queue := rest;
     written := written s ++ data; vault := vault s; served := served s; sent := sent s; lost := lost s |}.
Definition take_item (i : Incoming) (rest : list Incoming) (s : Server) : Server :=
  {| in_flight := in_flight s; incoming := rest; phase := phase s; exit_code := exit_code s; queue := queue s;
     written := written s; vault := vault s; served := served s ++ [i]; sent := sent s; lost := lost s |}.
Definition lose (request_id : Z) (s : Server) : Server :=
  {| in_flight := in_flight s; incoming := incoming s; phase := phase s; exit_code := exit_code s; queue := queue s;
     written := written s; vault := vault s; served := served s; sent := sent s; lost := lost s ++ [request_id] |}.

(** [ProtocolWriter.send]: what it raises *)
Definition send_frame (kind request_id : Z) (header : json) (body : bytes) (s : Server) : option failure * Server :=
  match encode kind request_id header body with
  | Err e => (Some (AnException e), s)
  | Ok data =>
      if (length (queue s) <? MAX_IN_FLIGHT)%nat
      then (None, enqueue data {| fr_kind := kind; fr_request_id := request_id; fr_header := header; fr_body := body |} s)
      else (None, with_phase (Exited 3) s)
  end.
Definition error (request_id : Z) (code message : pystr) (s : Server) : option failure * Server :=
  send_frame ERROR request_id (JObject [(str "code", JString code); (str "message", JString message)]) [] s.
(** [ready]: [info] is what the core tells of itself *)
Definition ready (info : list (pystr * json)) (s : Server) : option failure * Server :=
  send_frame READY 0 (JObject ((str "ready", JBool true) :: (str "protocol", JNumber PROTOCOL_VERSION) :: info)) [] s.

(** ** The loop *)

(** [_start]: what it raises *)
Definition _start (request_id : Z) (header body : bytes) (s : Server) : option failure * Server :=
  if request_id =? 0 then error 0 (str "bad_request") (str "request id 0 is reserved") s
  else if bool_decide (is_Some (in_flight s !! request_id)) then error request_id (str "duplicate_id") [] s
  else if (MAX_IN_FLIGHT <=? base.size (in_flight s))%nat then error request_id (str "busy") [] s
  else
    match decode_request header with
    | inl (BadRequest message) => error request_id (str "bad_request") message s
    | inl (Escapes e) => (Some e, s)
    | inr r => (None, with_in_flight <[request_id := {| t_request := r; t_body := body; stage := Scheduled |}]> s)
    end.
(** [_drain] begins by cancelling every task. *)
Definition drain (p : Phase) (s : Server) : Server := with_phase p (with_in_flight (fmap cancel) s).
(** A round of [serve]: an exception ends it, and the event loop with it, which cancels
    what still runs. *)
Definition serve_item (i : Incoming) (s : Server) : Server :=
  let go_on (r : option failure * Server) : Server :=
    match r with
    | (Some e, s) => drain (Crashed e) s
    | (None, s) => s
    end in
  match i with
  | Eof => drain Draining s
  | DesyncItem =>
      match error 0 (str "desync") (str "bad magic or version") s with
      | (None, s) =>
          match phase s with Exited _ => s | _ => drain Draining (with_exit_code 2 s) end
      | r => go_on r
      end
  | Rejected p reason => go_on (error (px_request_id p) reason [] s)
  | FrameItem p header body =>
      if px_kind p =? REQUEST then go_on (_start (px_request_id p) header body s)
      else if px_kind p =? CANCEL then with_in_flight (alter cancel (px_request_id p)) s
      else if px_kind p =? SHUTDOWN then drain Draining s
      else go_on (error (px_request_id p) (str "unexpected_kind") [] s)
  end.

(** ** Answers *)

(** [not token] *)
Definition falsy (j : json) : bool :=
  match j with
  | JNull | JBool false | JNumber 0 | JString [] | JList [] | JObject [] => true
  | _ => false
  end.
Definition session_header (hs : list (pystr * pystr)) : option pystr :=
  snd <$> head (filter (fun h => lower h.1 = str "x-ciphermoth-session") hs).
Definition UNLOCKING : list pystr := [str "/api/master_password/create"; str "/api/master_password/unlock"].
Definition session_token (r : CoreRequest) (a : Answer) : failure + json :=
  match r with
  | Native header => inr (default JNull (get "session" header))
  | Http r =>
      if (status a =? 200) && bool_decide (req_path r ∈ UNLOCKING) then
        match loads (content a) with
        | inr (JObject l) => inr (default JNull (get "session_token" l))
        | inr _ => inl (AnException AttributeError)
        | inl TooDeep => inl RecursionError
        | inl _ => inl (AnException (ValueError []))
        end
      else inr (match session_header (req_headers r) with Some t => JString t | None => JNull end)
  end.
(** [_session_info] *)
Definition _session_info (r : CoreRequest) (a : Answer) (now : Instant) (v : VaultSessions)
    : (failure + json) * VaultSessions :=
  match session_token r a with
  | inl e => (inl e, v)
  | inr token =>
      if falsy token then (inr JNull, v)
      else
        match token with
        | JString t =>
            match session_info (Some t) now v with
            | (Ok i, v) => (inr (JObject [(str "expires_in_ms", JNumber (info_expires_in_ms i))]), v)
            | (Err (SessionRequired _), v) => (inr (JObject [(str "expires_in_ms", JNumber 0)]), v)
            | (Err e, v) => (inl (AnException e), v)
            end
        | _ => (inl (AnException TypeError), v)
        end
  end.
Definition response_header (a : Answer) (info : json) : json :=
  JObject [(str "status", JNumber (status a));
           (str "headers", JList (map (fun h => JList [JString h.1; JString h.2]) (response_headers a)));
           (str "session", info)].
(** The end of [_handle], once the application's call has this outcome *)
Definition respond_to (request_id : Z) (r : CoreRequest) (o : outcome Answer) (now : Instant) (s : Server)
    : option failure * Server :=
  match o with
  | inl (Fails Cancelled) => error request_id (str "cancelled") [] s
  | inl (Fails ResponseTooLarge) => error request_id (str "response_too_large") [] s
  | inl _ => error request_id (str "internal") [] s
  | inr a =>
      let '(info, v) := _session_info r a now (vault s) in
      let s := with_vault v s in
      match info with
      | inl e => (Some e, s)
      | inr info => send_frame RESPONSE request_id (response_header a info) (content a) s
      end
  end.

(** ** Events *)

Inductive event :=
  | ServeNext
  | Begin (request_id : Z)
  | Finish (request_id : Z) (o : outcome Answer) (v : VaultSessions) (now : Instant)
      (** the call has outcome [o]; [v] are the sessions it leaves *)
  | Callback (request_id : Z)
  | WriteOut
  | WriteFails
  | DrainEnds. (** every task is done, or two seconds have passed *)
Definition or_lost (request_id : Z) (r : option failure * Server) : Server :=
  match r with
  | (Some _, s) => lose request_id s
  | (None, s) => s
  end.
Definition step (e : event) (s : Server) : option Server :=
  match phase s with
  | Stopped _ | Exited _ => None
  | _ =>
      match e with
      | ServeNext =>
          match phase s, incoming s with
          | Serving, i :: rest => Some (serve_item i (take_item i rest s))
          | _, _ => None
          end
      | Begin id =>
          match in_flight s !! id with
          | Some t =>
              match stage t with
              | Scheduled => Some (with_in_flight <[id := at_stage Running t]> s)
              | CancelledEarly => Some (with_in_flight <[id := at_stage (Done true) t]> s)
              | _ => None
              end
          | None => None
          end
      | Finish id o v now =>
          match in_flight s !! id, o with
          | Some t, inl Hangs => None
          | Some t, _ =>
              match stage t with
              | Running =>
                  Some (or_lost id (respond_to id (t_request t) o now
                    (with_vault v (with_in_flight <[id := at_stage (Done false) t]> s))))
              | _ => None
              end
          | None, _ => None
          end
      | Callback id =>
          match in_flight s !! id with
          | Some t =>
              match stage t with
              | Done cancelled =>
                  let s := with_in_flight (delete id) s in
                  Some (if cancelled : bool then or_lost id (error id (str "cancelled") [] s) else s)
              | _ => None
              end
          | None => None
          end
      | WriteOut =>
          match queue s with
          | data :: rest => Some (dequeue data rest s)
          | [] => None
          end
      | WriteFails => Some (with_phase (Exited 3) s)
      | DrainEnds =>
          match phase s with
          | Draining => Some (with_phase (Stopped (exit_code s)) s)
          | _ => None
          end
      end
  end.
Fixpoint steps (es : list event) (s : Server) : option Server :=
  match es with
  | [] => Some s
  | e :: es => s ← step e s; steps es s
  end.
(** A server that is about to serve *)
Definition started (items : list Incoming) (v : VaultSessions) : Server :=
  {| in_flight := ∅; incoming := items; phase := Serving; exit_code := 0; queue := []; written := []; vault := v;
     served := []; sent := []; lost := [] |}.
End Server.
