(* ===== verification/CoreServerSpec.v ===== *)
(** What the desktop core's server promises: the requests it lets through are clean,
    each is answered once, what is in flight and queued is bounded, and what its shell
    reads is what it sent. *)
From Stdlib Require Import ZArith Lia Strings.String Strings.Byte.
From stdpp Require Import base list gmap.
From S2P Require Import Prelude Platform Concrete Sessions BackupFormat Framing FramingSpec Asgi AsgiDemo PathSpec Bridge CoreServer.

(** ** Requests *)

Section Requests.
Context `{Json} `{Text} `{!TextLaws}.

Definition printable (c : N) : Prop := (33 <= c < 127)%N.
Definition ascii_only (s : pystr) : Prop := Forall (fun c => (c < 128)%N) s.
Definition clean_header (h : pystr * pystr) : Prop :=
  ascii_only h.1 ∧ ascii_only h.2 ∧ Forall (fun c => c ∉ [13; 10; 0]%N) (h.1 ++ h.2) ∧ lower h.1 ∉ DROPPED_HEADERS.
Lemma isascii_ascii s : isascii s = true -> ascii_only s.
Proof. unfold isascii, ascii_only. rewrite forallb_forall, Forall_forall. intros Hs c Hc. by apply N.ltb_lt, Hs, list_elem_of_In. Qed.
Lemma existsb_none {A} (f : A -> bool) l : existsb f l = false -> Forall (fun c => f c = false) l.
Proof.
  intros Hf. rewrite Forall_forall. intros c Hc%list_elem_of_In. destruct (f c) eqn:E; [|done].
  assert (existsb f l = true) by (apply existsb_exists; eauto). congruence.
Qed.
Lemma header_part_clean p :
  header_part_ok p = true -> ascii_only p ∧ Forall (fun c => c ∉ [13; 10; 0]%N) p.
Proof.
  unfold header_part_ok. rewrite andb_true_iff, negb_true_iff. intros [Ha%isascii_ascii Hb%existsb_none]. split; [done|].
  eapply Forall_impl; [exact Hb|]. intros c Hc. by apply bool_decide_eq_false in Hc.
Qed.
Lemma path_ok_clean p :
  path_ok p = true -> head p = Some SLASH ∧ Forall printable p ∧ Z.of_nat (length p) <= MAX_PATH.
Proof.
  unfold path_ok. rewrite !andb_true_iff, !negb_true_iff. intros [[[Hs Hl%Z.ltb_ge] Ha%isascii_ascii] Hc%existsb_none].
  split_and!; [|apply Forall_forall; intros c Hin|done].
  - destruct p as [|c p]; [done|]. apply N.eqb_eq in Hs. by subst.
  - pose proof (proj1 (Forall_forall _ _) Ha c Hin). pose proof (proj1 (Forall_forall _ _) Hc c Hin) as Hcc.
    unfold is_control in Hcc. cbv beta in *. apply orb_false_iff in Hcc as [?%N.ltb_ge ?%N.eqb_neq]. unfold printable. lia.
Qed.
Lemma clean_headers_clean l hs :
  clean_headers l = inr hs -> Forall clean_header hs ∧ (length hs <= length l)%nat.
Proof.
  revert hs. induction l as [|p l IH]; intros hs; cbn [clean_headers]; [intros [= <-]; by split; [constructor|]|].
  destruct p as [| | | |[|[| | |name| |] [|[| | |value| |] []]]|]; try done. unfold unless. destruct (_ && _) eqn:Ep; [|done].
  apply andb_true_iff in Ep as [[Hn Hn']%header_part_clean [Hv Hv']%header_part_clean]. cbn [mbind parsed_bind].
  destruct (clean_headers l) as [|clean]; [done|]. destruct (IH clean eq_refl) as [Hc Hl]. cbn [mbind parsed_bind].
  intros [= <-]. destruct (bool_decide _) eqn:Ed; [split; [done|cbn; lia]|]. apply bool_decide_eq_false in Ed.
  split; [|cbn; lia]. constructor; [|done]. split_and!; [done|done|by apply Forall_app|done].
Qed.
(** What [parse_request] makes sure of *)
Record clean_request (r : HttpRequest) : Prop := {
  cr_method : req_method r ∈ METHODS;
  cr_path : head (req_path r) = Some SLASH ∧ Forall printable (req_path r) ∧ Z.of_nat (length (req_path r)) <= MAX_PATH;
  cr_query : ascii_only (req_query r) ∧ Z.of_nat (length (req_query r)) <= MAX_PATH;
  cr_headers : Forall clean_header (req_headers r) ∧ Z.of_nat (length (req_headers r)) <= MAX_HEADERS;
}.
Lemma parsed_bind_inr {A B} (x : parsed A) (f : A -> parsed B) b : x ≫= f = inr b -> ∃ a, x = inr a ∧ f a = inr b.
Proof. destruct x as [|a]; [done|]. eauto. Qed.
Lemma parse_request_clean header r : parse_request header = inr r -> clean_request r.
Proof.
  unfold parse_request. destruct (loads header) as [[]|[| | | | |l]]; try done. intros Hr.
  apply parsed_bind_inr in Hr as (m & Hm & Hr). apply parsed_bind_inr in Hr as (p & Hp & Hr).
  apply parsed_bind_inr in Hr as (q & Hq & Hr). apply parsed_bind_inr in Hr as (hs & Hhs & Hr).
  apply parsed_bind_inr in Hr as (clean & Hc & Hr). injection Hr as <-. constructor; cbn.
  - destruct (get "method" l) as [[]|]; try done. unfold method_in in Hm. destruct (bool_decide _) eqn:E; [|done].
    injection Hm as <-. by apply bool_decide_eq_true in E.
  - destruct (get "path" l) as [[]|]; try done. destruct (path_ok _) eqn:E; [|done]. injection Hp as <-. by apply path_ok_clean.
  - destruct (text_of _ _) as [q'|]; [|done]. destruct (query_ok q') eqn:E; [|done]. injection Hq as <-.
    unfold query_ok in E. rewrite andb_true_iff, negb_true_iff in E. destruct E as [E%isascii_ascii El%Z.ltb_ge]. done.
  - apply clean_headers_clean in Hc as [Hc Hl]. split; [done|].
    assert (Z.of_nat (length hs) <= MAX_HEADERS); [|lia].
    destruct (get "headers" l) as [[]|]; try done; [|by injection Hhs as <-]. destruct (_ <? _) eqn:E; [done|].
    apply Z.ltb_ge in E. by injection Hhs as <-.
Qed.

Lemma mapM_Ok {A B} (f : A -> res B) g l : (∀ a, a ∈ l -> f a = Ok (g a)) -> mapM f l = Ok (map g l).
Proof.
  induction l as [|a l IH]; intros Hf; [done|]. cbn [mapM]. rewrite Hf by apply list_elem_of_here. cbn [mbind res_bind].
  rewrite IH by (intros ? ?; apply Hf; by apply list_elem_of_further). done.
Qed.
Lemma encode_below_Ok bound s : Forall (fun c => (c < bound)%N) s -> encode_below bound s = Ok (map ascii_byte s).
Proof.
  intros Hs. unfold encode_below. rewrite (proj2 (forallb_forall _ _)); [done|].
  intros c Hc%list_elem_of_In. apply N.ltb_lt. by apply (proj1 (Forall_forall _ _) Hs).
Qed.
Lemma ascii_below s : ascii_only s -> Forall (fun c => (c < 256)%N) s.
Proof. intros Hs. eapply Forall_impl; [exact Hs|]. cbv beta. lia. Qed.
Lemma str_below s : Forall (fun c => (c < 256)%N) (str s).
Proof.
  unfold str. apply Forall_map, Forall_forall. intros c _. cbv beta. destruct c as [[] [] [] [] [] [] [] []]; by vm_compute.
Qed.
Lemma ascii_byte_inj s t : ascii_only s -> ascii_only t -> map ascii_byte s = map ascii_byte t -> s = t.
Proof.
  assert (∀ s, ascii_only s -> ascii_text s) as Ht.
  { intros u Hu. eapply Forall_impl; [exact Hu|]. intros c. by apply N.ltb_lt. }
  intros [Es _]%Ht%ascii_latin1 [Et _]%Ht%ascii_latin1 E. by rewrite <- Es, <- Et, E.
Qed.
Lemma lower_below s : ascii_only s -> ascii_only (lower s).
Proof.
  intros Hs. rewrite lower_ascii by done. apply Forall_map. eapply Forall_impl; [exact Hs|]. intros c. cbv beta. unfold ascii_lower.
  destruct (_ && _) eqn:E; [|done]. apply andb_true_iff in E as [?%N.leb_le ?%N.leb_le]. lia.
Qed.
Definition CONTENT_LENGTH : bytes := raw "content-length".

(** C35: What the core lets through to the application is clean: a method of its list; a
    path that begins with a slash, of printable ASCII without spaces, at most 8,192
    characters; an ASCII query of at most 8,192; at most 64 headers, of ASCII without a
    line break or NUL, none of which frames the message. So the call is made - none of
    its encodings fails - and its one Content-Length is the bridge's own. *)
Theorem parsed_requests_are_clean `{Starlette} header r :
  parse_request header = inr r ->
  clean_request r ∧
  ∀ n, ∃ scope, scope_for (req_method r) (req_path r) (req_query r) (req_headers r) n = Ok scope ∧
    filter (fun h => h.1 = CONTENT_LENGTH) (headers scope) = [(CONTENT_LENGTH, map ascii_byte (str_of_Z n))].
Proof.
  intros Hc%parse_request_clean. split; [done|]. intros n. destruct Hc as [_ (_ & Hp & _) [Hq _] [Hh _]].
  assert (ascii_only (req_path r)) as Hp' by (eapply Forall_impl; [exact Hp|]; unfold printable; cbv beta; lia).
  unfold scope_for, encode_ascii, encode_latin1. rewrite !(encode_below_Ok 128) by done. cbn [mbind res_bind].
  set (g := fun h : pystr * pystr => (map ascii_byte (lower h.1), map ascii_byte h.2)).
  assert (Forall (fun h => ascii_only h.1 ∧ Forall (fun c => (c < 256)%N) h.2)
    (req_headers r ++ [(str "content-length", str_of_Z n)])) as Hall.
  { apply Forall_app. split; [|constructor; [split; [repeat constructor|apply str_below]|constructor]].
    eapply Forall_impl; [exact Hh|]. intros h (Hn & Hv & _). split; [done|by apply ascii_below]. }
  rewrite (mapM_Ok _ g).
  2: { intros h Hin. destruct (proj1 (Forall_forall _ _) Hall h Hin) as [Hn Hv].
       rewrite !encode_below_Ok by (done || by apply ascii_below, lower_below). done. }
  cbn [mbind res_bind]. eexists. split; [reflexivity|]. cbn [headers]. rewrite map_app, filter_app.
  assert (filter (fun h => h.1 = CONTENT_LENGTH) (map g (req_headers r)) = []) as ->.
  { clear Hall. induction Hh as [|h hs (Hn & _ & _ & Hd) _ IH]; [done|]. cbn [map]. rewrite filter_cons_False; [done|].
    intros E. apply Hd. change CONTENT_LENGTH with (map ascii_byte (str "content-length")) in E.
    apply ascii_byte_inj in E as ->; [by left|by apply lower_below|repeat constructor]. }
  cbn [app map]. unfold g. cbn [fst snd]. rewrite lower_ascii by (repeat constructor). reflexivity.
Qed.
End Requests.

(** ** The server *)

Section Invariants.
Context `{Json} `{Text}.

Inductive reachable (items : list Incoming) (v : VaultSessions) (info : list (pystr * json)) : Server -> Prop :=
  | Started s : ready info (started items v) = (None, s) -> reachable items v info s
  | Stepped e s s' : reachable items v info s -> step e s = Some s' -> reachable items v info s'.

(** What sending a frame does *)
Inductive sending (kind request_id : Z) (s : Server) : option failure -> Server -> Prop :=
  | Refused e : sending kind request_id s (Some e) s
  | Full : sending kind request_id s None (with_phase (Exited 3) s)
  | Queued header body data :
      encode kind request_id header body = Ok data -> (length (queue s) < MAX_IN_FLIGHT)%nat ->
      sending kind request_id s None
        (enqueue data {| fr_kind := kind; fr_request_id := request_id; fr_header := header; fr_body := body |} s).
Lemma send_frame_sending k id h b s r s' : send_frame k id h b s = (r, s') -> sending k id s r s'.
Proof.
  unfold send_frame. destruct (encode _ _ _ _) eqn:E; [|intros [= <- <-]; constructor].
  destruct (_ <? _)%nat eqn:El; intros [= <- <-]; [|constructor]. apply Nat.ltb_lt in El. by constructor.
Qed.
Lemma error_sending id c m s r s' : error id c m s = (r, s') -> sending ERROR id s r s'.
Proof. apply send_frame_sending. Qed.
Lemma respond_to_sending id rq o now s r s' :
  respond_to id rq o now s = (r, s') -> ∃ k v, (k = ERROR ∨ k = RESPONSE) ∧ sending k id (with_vault v s) r s'.
Proof.
  assert (s = with_vault (vault s) s) as Es by by destruct s.
  unfold respond_to. destruct o as [[| [] |]|a]; try (intros Hs%error_sending; exists ERROR, (vault s); rewrite <- Es; auto).
  destruct (_session_info rq a now (vault s)) as [[e|info] v].
  - intros [= <- <-]. exists ERROR, v. split; [auto|constructor].
  - intros Hs%send_frame_sending. exists RESPONSE, v. auto.
Qed.

(** *** Bounds *)

Definition flights_ok (m : gmap Z Task) : Prop := (base.size m <= MAX_IN_FLIGHT)%nat ∧ m !! 0 = None.
Definition queue_ok (s : Server) : Prop :=
  (length (queue s) <= MAX_IN_FLIGHT)%nat ∧
  ∃ out, written s = mjoin out ∧
    Forall2 (fun fr data => encode (fr_kind fr) (fr_request_id fr) (fr_header fr) (fr_body fr) = Ok data ∧
                            fr_kind fr ∈ [READY; RESPONSE; ERROR]) (sent s) (out ++ queue s).
Lemma sending_flights k id s r s' : sending k id s r s' -> in_flight s' = in_flight s.
Proof. by intros []. Qed.
Lemma sending_queue k id s r s' : k ∈ [READY; RESPONSE; ERROR] -> sending k id s r s' -> queue_ok s -> queue_ok s'.
Proof.
  intros Hk [e| |h b data He Hl] Hq; [done|done|]. destruct Hq as (_ & out & Hw & Hs). split.
  - cbn. rewrite length_app. cbn. lia.
  - exists out. split; [done|]. cbn [sent queue enqueue]. rewrite app_assoc. apply Forall2_app; [done|].
    constructor; [by split|constructor].
Qed.
Lemma flights_insert m id t : id ≠ 0 -> (base.size m < MAX_IN_FLIGHT)%nat -> flights_ok m -> flights_ok (<[id := t]> m).
Proof.
  intros Hid Hl [_ H0']. split; [|by rewrite lookup_insert_ne].
  rewrite map_size_insert. destruct (m !! id); cbn; lia.
Qed.
Lemma flights_update m id t t' : m !! id = Some t -> flights_ok m -> flights_ok (<[id := t']> m).
Proof.
  intros Hm [Hl H0']. split; [rewrite map_size_insert, Hm; done|]. rewrite lookup_insert_ne; [done|]. intros ->. congruence.
Qed.
Lemma flights_delete m id : flights_ok m -> flights_ok (delete id m).
Proof.
  intros [Hl H0']. split; [|by apply lookup_delete_None; right].
  rewrite map_size_delete. destruct (m !! id); cbn; lia.
Qed.
Lemma flights_fmap f m : flights_ok m -> flights_ok (f <$> m).
Proof. intros [Hl H0']. split; [by rewrite map_size_fmap|by rewrite lookup_fmap, H0']. Qed.
Lemma flights_alter f id m : flights_ok m -> flights_ok (alter f id m).
Proof.
  intros [Hl H0']. split; [by rewrite <- (size_dom (D := gset Z)), dom_alter_L, size_dom|].
  destruct (decide (id = 0)) as [->|]; [by rewrite lookup_alter_eq, H0'|by rewrite lookup_alter_ne].
Qed.

(** *** Each request and its answer *)

Definition count {A} (f : A -> bool) (l : list A) : nat := length (List.filter f l).
Lemma count_snoc {A} (f : A -> bool) l a : count f (l ++ [a]) = (count f l + if f a then 1 else 0)%nat.
Proof. unfold count. rewrite List.filter_app, length_app. cbn. by destruct (f a). Qed.
Definition answers (id : Z) (fr : Frame) : bool :=
  ((fr_kind fr =? RESPONSE) || (fr_kind fr =? ERROR)) && (fr_request_id fr =? id).
(** The items that call for an answer under the request id [id] *)
Definition calls_for (id : Z) (i : Incoming) : bool :=
  match i with
  | Eof => false
  | DesyncItem => 0 =? id
  | Rejected p _ => px_request_id p =? id
  | FrameItem p _ _ => negb ((px_kind p =? CANCEL) || (px_kind p =? SHUTDOWN)) && (px_request_id p =? id)
  end.
Definition unanswered (t : Task) : bool := match stage t with Done false => false | _ => true end.
Definition pending (id : Z) (m : gmap Z Task) : nat :=
  match m !! id with Some t => if unanswered t then 1 else 0 | None => 0 end.
Definition answered (id : Z) (s : Server) : nat := count (answers id) (sent s).
Definition lost_answers (id : Z) (s : Server) : nat := count (Z.eqb id) (lost s).
Definition called_for (id : Z) (s : Server) : nat := count (calls_for id) (served s).
Definition tally (id : Z) (s : Server) : nat := (answered id s + pending id (in_flight s) + lost_answers id s)%nat.
Definition running (p : Phase) : bool := match p with Crashed _ | Exited _ => false | _ => true end.
Definition tally_ok (s : Server) : Prop :=
  ∀ id, (tally id s <= called_for id s)%nat ∧ (running (phase s) = true -> tally id s = called_for id s).

(** The effect of sending an answer on the tally, as long as the process runs *)
Lemma sending_tally k id s r s' :
  k = ERROR ∨ k = RESPONSE -> sending k id s r s' ->
  served s' = served s ∧ lost s' = lost s ∧ in_flight s' = in_flight s ∧ incoming s' = incoming s ∧ exit_code s' = exit_code s ∧
  ((r = None ∧ phase s' = phase s ∧ ∀ i, answered i s' = (answered i s + if (id =? i)%Z then 1 else 0)%nat) ∨
   (is_Some r ∧ s' = s) ∨
   (r = None ∧ phase s' = Exited 3 ∧ ∀ i, answered i s' = answered i s)).
Proof.
  intros Hk [e| |h b data He Hl]; split_and!; try done; [by right; left|by right; right|]. left. split_and!; [done|done|].
  intros i. unfold answered. cbn [sent enqueue]. rewrite count_snoc. unfold answers at 2. cbn [fr_kind fr_request_id].
  by destruct Hk as [-> | ->].
Qed.
Lemma pending_insert id t m i :
  pending i (<[id := t]> m) = if (id =? i)%Z then if unanswered t then 1%nat else 0%nat else pending i m.
Proof.
  unfold pending. destruct (id =? i) eqn:E; [apply Z.eqb_eq in E as ->; by rewrite lookup_insert_eq|].
  apply Z.eqb_neq in E. by rewrite lookup_insert_ne.
Qed.
Lemma pending_delete id m i : pending i (delete id m) = if (id =? i)%Z then 0%nat else pending i m.
Proof.
  unfold pending. destruct (id =? i) eqn:E; [apply Z.eqb_eq in E as ->; by rewrite lookup_delete_eq|].
  apply Z.eqb_neq in E. by rewrite lookup_delete_ne.
Qed.
Lemma unanswered_cancel t : unanswered (cancel t) = unanswered t.
Proof. unfold cancel, unanswered. by destruct t as [? ? []]. Qed.
Lemma pending_fmap_cancel m i : pending i (cancel <$> m) = pending i m.
Proof. unfold pending. rewrite lookup_fmap. destruct (m !! i); cbn; [by rewrite unanswered_cancel|done]. Qed.
Lemma pending_alter_cancel id m i : pending i (alter cancel id m) = pending i m.
Proof.
  unfold pending. destruct (decide (id = i)) as [->|]; [|by rewrite lookup_alter_ne].
  rewrite lookup_alter_eq. destruct (m !! i); cbn; [by rewrite unanswered_cancel|done].
Qed.

(** One answer under [id] is still owed. *)
Definition owes (id : Z) (s : Server) : Prop :=
  ∀ i, (tally i s + (if (id =? i)%Z then 1 else 0) <= called_for i s)%nat ∧
       (running (phase s) = true -> (tally i s + (if (id =? i)%Z then 1 else 0))%nat = called_for i s).
Definition crash_or (r : option failure * Server) : Server :=
  match r with (Some e, s) => drain (Crashed e) s | (None, s) => s end.
Lemma drain_tally p i s : tally i (drain p s) = tally i s ∧ called_for i (drain p s) = called_for i s.
Proof. unfold tally, drain. cbn [in_flight with_phase with_in_flight]. by rewrite pending_fmap_cancel. Qed.
Lemma drained_ok p s : (running p = true -> running (phase s) = true) -> tally_ok s -> tally_ok (drain p s).
Proof.
  intros Hp Hs i. destruct (drain_tally p i s) as [-> ->]. destruct (Hs i) as [Hl He].
  split; [done|]. intros Hr. by apply He, Hp.
Qed.
Lemma crashed_ok e s : (∀ i, (tally i s <= called_for i s)%nat) -> tally_ok (drain (Crashed e) s).
Proof. intros Hs i. destruct (drain_tally (Crashed e) i s) as [-> ->]. by split. Qed.
Lemma owes_sent id k s r s' :
  k = ERROR ∨ k = RESPONSE -> owes id s -> sending k id s r s' ->
  match r with
  | None => tally_ok s'
  | Some _ => s' = s
  end.
Proof.
  intros Hk Ho (Es & El & Ef & _ & _ & Hc)%sending_tally; [|done].
  destruct Hc as [(-> & Ep & Ea)|[[[e ->] ->]|(-> & Ep & Ea)]]; [|done|]; intros i; destruct (Ho i) as [Hl He];
    unfold tally, called_for, lost_answers in *; rewrite Ea, Ef, El, Es, Ep.
  - split; [lia|]. intros Hr. specialize (He Hr). lia.
  - split; [lia|done].
Qed.
Lemma owes_le id s i : owes id s -> (tally i s <= called_for i s)%nat.
Proof. intros Ho. destruct (Ho i). lia. Qed.
Lemma owes_crash id k s r s' :
  k = ERROR ∨ k = RESPONSE -> owes id s -> sending k id s r s' -> tally_ok (crash_or (r, s')).
Proof.
  intros Hk Ho Hs. pose proof (owes_sent _ _ _ _ _ Hk Ho Hs) as Hr. destruct r; [|done]. subst s'.
  apply crashed_ok. intros i. by apply (owes_le id).
Qed.
Lemma owes_lost id k s r s' :
  k = ERROR ∨ k = RESPONSE -> owes id s -> sending k id s r s' -> tally_ok (or_lost id (r, s')).
Proof.
  intros Hk Ho Hs. pose proof (owes_sent _ _ _ _ _ Hk Ho Hs) as Hr. destruct r; [|done]. subst s'.
  intros i. destruct (Ho i) as [Hl He]. cbn [or_lost]. unfold tally, called_for, lost_answers, answered in *.
  cbn [lost lose sent in_flight served phase]. rewrite count_snoc, Z.eqb_sym. split; [|intros Hr; specialize (He Hr)]; lia.
Qed.
Lemma take_item_owes id i rest s :
  tally_ok s -> (∀ j, calls_for j i = (id =? j)) -> owes id (take_item i rest s).
Proof.
  intros Hs Hc j. destruct (Hs j) as [Hl He]. unfold tally, called_for, lost_answers, answered in *.
  cbn [lost take_item sent in_flight served phase]. rewrite count_snoc, Hc.
  split; [|intros Hr; specialize (He Hr)]; lia.
Qed.
Lemma take_item_ok i rest s :
  tally_ok s -> (∀ j, calls_for j i = false) -> tally_ok (take_item i rest s).
Proof.
  intros Hs Hc j. destruct (Hs j) as [Hl He]. unfold tally, called_for, lost_answers, answered in *.
  cbn [lost take_item sent in_flight served phase]. rewrite count_snoc, Hc.
  split; [|intros Hr; specialize (He Hr)]; lia.
Qed.
Lemma start_tally id header body s :
  owes id s -> running (phase s) = true -> tally_ok (crash_or (_start id header body s)).
Proof.
  intros Ho Hr. unfold _start.
  assert (∀ c m, tally_ok (crash_or (error id c m s))) as Herr.
  { intros c m. destruct (error id c m s) as [r s'] eqn:E. apply error_sending in E. by apply (owes_crash id ERROR s); [left| |]. }
  destruct (id =? 0) eqn:E0; [apply Z.eqb_eq in E0 as ->; apply Herr|].
  destruct (bool_decide _) eqn:Ef; [apply Herr|]. apply bool_decide_eq_false in Ef. rewrite <- eq_None_not_Some in Ef.
  destruct (_ <=? _)%nat; [apply Herr|]. destruct (decode_request header) as [[message|e]|rq]; [apply Herr| |].
  - apply crashed_ok. intros i. by apply (owes_le id).
  - cbn [crash_or]. intros i. destruct (Ho i) as [Hl He]. unfold tally, called_for, answered, lost_answers in *.
    cbn [in_flight served sent lost with_in_flight]. rewrite pending_insert. cbn [unanswered stage].
    destruct (id =? i) eqn:E.
    + apply Z.eqb_eq in E as <-. unfold pending in Hl, He. rewrite Ef in Hl, He. split; [lia|]. intros Hr'. specialize (He Hr'). lia.
    + split; [lia|]. intros Hr'. specialize (He Hr'). lia.
Qed.
Lemma serve_item_tally i rest s :
  phase s = Serving -> tally_ok s -> tally_ok (serve_item i (take_item i rest s)).
Proof.
  intros Hp Hs. unfold serve_item. fold crash_or.
  assert (∀ id c m, (∀ j, calls_for j i = (id =? j)) -> tally_ok (crash_or (error id c m (take_item i rest s)))) as Herr.
  { intros id c m Hc. destruct (error id c m _) as [r s'] eqn:E. apply error_sending in E.
    eapply owes_crash; [by left|by apply (take_item_owes id)|done]. }
  destruct i as [| |p reason|p header body].
  - apply drained_ok; [by cbn; rewrite Hp|]. by apply take_item_ok.
  - destruct (error 0 _ _ _) as [[e|] s'] eqn:E.
    + specialize (Herr 0 (str "desync") (str "bad magic or version") (fun j => eq_refl)). by rewrite E in Herr.
    + apply error_sending in E. pose proof (sending_tally ERROR 0 _ _ _ (or_introl eq_refl) E) as (_ & _ & _ & _ & _ & Hc).
      apply (owes_sent 0 ERROR) in E; [|by left|by apply (take_item_owes 0)].
      destruct Hc as [(_ & Ep & _)|[[[? ?] _]|(_ & Ep & _)]]; [|done|by rewrite Ep].
      cbn [phase take_item] in Ep. rewrite Hp in Ep. rewrite Ep. apply drained_ok; [by cbn; rewrite Ep|]. exact E.
  - by apply Herr.
  - destruct (px_kind p =? REQUEST) eqn:Er; [|destruct (px_kind p =? CANCEL) eqn:Ec; [|destruct (px_kind p =? SHUTDOWN) eqn:Ed]].
    + apply start_tally; [|by cbn; rewrite Hp]. apply take_item_owes; [done|]. intros j. cbn [calls_for].
      apply Z.eqb_eq in Er. by rewrite Er.
    + intros j. assert (tally_ok (take_item (FrameItem p header body) rest s)) as Hk.
      { apply take_item_ok; [done|]. intros k. cbn [calls_for]. by rewrite Ec. }
      destruct (Hk j) as [Hl He]. unfold tally in *. cbn [in_flight with_in_flight]. rewrite pending_alter_cancel. by split.
    + apply drained_ok; [by cbn; rewrite Hp|]. apply take_item_ok; [done|]. intros k. cbn [calls_for]. by rewrite Ed, orb_true_r.
    + apply Herr. intros j. cbn [calls_for]. by rewrite Ec, Ed.
Qed.

Lemma owes_pending id t t' s :
  tally_ok s -> in_flight s !! id = Some t -> unanswered t = true -> unanswered t' = false ->
  owes id (with_in_flight <[id := t']> s) ∧ owes id (with_in_flight (delete id) s).
Proof.
  intros Hs Ht Hu Hu'. split; intros i; destruct (Hs i) as [Hl He]; unfold tally, called_for, lost_answers, answered in *;
    cbn [in_flight with_in_flight sent served lost phase]; rewrite ?pending_insert, ?pending_delete, ?Hu';
    (destruct (id =? i) eqn:E; [apply Z.eqb_eq in E as <-; unfold pending in Hl, He; rewrite Ht, Hu in Hl, He|]);
    (split; [lia|intros Hr; specialize (He Hr); lia]).
Qed.
Lemma tally_in_flight f s :
  tally_ok s -> (∀ i, pending i (f (in_flight s)) = pending i (in_flight s)) -> tally_ok (with_in_flight f s).
Proof.
  intros Hs Hf i. destruct (Hs i) as [Hl He]. unfold tally, called_for, lost_answers, answered in *.
  cbn [in_flight with_in_flight sent served lost phase]. by rewrite Hf.
Qed.
Lemma step_tally e s s' : step e s = Some s' -> tally_ok s -> tally_ok s'.
Proof.
  unfold step. intros Hst Hs.
  assert (∀ p, (running p = true -> running (phase s) = true) -> tally_ok (with_phase p s)) as Hphase.
  { intros p Hp i. destruct (Hs i) as [Hl He]. split; [done|]. intros Hr. by apply He, Hp. }
  destruct e as [|id|id o v now|id| | |].
  - destruct (phase s) eqn:Ep; [|done..]. destruct (incoming s); [done|]. injection Hst as <-. by apply serve_item_tally.
  - destruct (in_flight s !! id) as [t|] eqn:Et; [|by destruct (phase s)].
    assert (∀ g, unanswered t = true -> unanswered (at_stage g t) = true -> tally_ok (with_in_flight <[id:=at_stage g t]> s)) as Hg.
    { intros g Hu Hu'. apply tally_in_flight; [done|]. intros i. rewrite pending_insert, Hu'.
      destruct (id =? i) eqn:E; [|done]. apply Z.eqb_eq in E as <-. unfold pending. by rewrite Et, Hu. }
    destruct (phase s), (stage t) eqn:Eg; try done; injection Hst as <-; (apply Hg; [unfold unanswered; by rewrite Eg|done]).
  - destruct (in_flight s !! id) as [t|] eqn:Et; [|by destruct (phase s)].
    destruct (stage t) eqn:Eg; try (destruct (phase s), o as [[| |]|]; discriminate Hst).
    assert (Some (or_lost id (respond_to id (t_request t) o now
      (with_vault v (with_in_flight <[id:=at_stage (Done false) t]> s)))) = Some s') as [= <-]
      by by destruct (phase s), o as [[| |]|].
    destruct (respond_to _ _ _ _ _) as [r s1] eqn:Er. apply respond_to_sending in Er as (k & v' & Hk & Hsd).
    apply (owes_lost id k) in Hsd; [exact Hsd|tauto|].
    destruct (owes_pending id t (at_stage (Done false) t) s) as [Ho _]; [done|done|unfold unanswered; by rewrite Eg|done|exact Ho].
  - destruct (in_flight s !! id) as [t|] eqn:Et; [|by destruct (phase s)].
    destruct (stage t) as [| | |cancelled] eqn:Eg; try (by destruct (phase s)).
    assert (Some (if cancelled then or_lost id (error id (str "cancelled") [] (with_in_flight (delete id) s))
                  else with_in_flight (delete id) s) = Some s') as [= <-] by by destruct (phase s).
    destruct cancelled.
    + destruct (error _ _ _ _) as [r s1] eqn:Er. apply error_sending in Er. apply (owes_lost id ERROR) in Er; [done|by left|].
      by destruct (owes_pending id t (at_stage (Done false) t) s) as [_ Ho]; [done|done|unfold unanswered; by rewrite Eg|done|].
    + apply tally_in_flight; [done|]. intros i. rewrite pending_delete. destruct (id =? i) eqn:E; [|done].
      apply Z.eqb_eq in E as <-. unfold pending, unanswered. by rewrite Et, Eg.
  - destruct (queue s) as [|data rest]; [by destruct (phase s)|].
    assert (Some (dequeue data rest s) = Some s') as [= <-] by by destruct (phase s). exact Hs.
  - assert (Some (with_phase (Exited 3) s) = Some s') as [= <-] by by destruct (phase s). by apply Hphase.
  - destruct (phase s); try done. injection Hst as <-. by apply Hphase.
Qed.

Lemma crash_flights r s' : flights_ok (in_flight s') -> flights_ok (in_flight (crash_or (r, s'))).
Proof. intros Hf. destruct r; [|done]. by apply flights_fmap. Qed.
Lemma error_flights id c m s : flights_ok (in_flight s) -> flights_ok (in_flight (crash_or (error id c m s))).
Proof.
  intros Hf. destruct (error id c m s) as [r s'] eqn:E. apply error_sending, sending_flights in E. apply crash_flights. by rewrite E.
Qed.
Lemma start_flights id header body s :
  flights_ok (in_flight s) -> flights_ok (in_flight (crash_or (_start id header body s))).
Proof.
  intros Hf. unfold _start. destruct (id =? 0) eqn:E0; [by apply error_flights|]. apply Z.eqb_neq in E0.
  destruct (bool_decide _); [by apply error_flights|].
  destruct (_ <=? _)%nat eqn:El; [by apply error_flights|]. apply Nat.leb_gt in El.
  destruct (decode_request header) as [[]|]; [by apply error_flights|by apply flights_fmap|by apply flights_insert].
Qed.
Lemma serve_item_flights i s : flights_ok (in_flight s) -> flights_ok (in_flight (serve_item i s)).
Proof.
  intros Hf. unfold serve_item. fold crash_or. destruct i as [| |p reason|p header body].
  - by apply flights_fmap.
  - pose proof (error_flights 0 (str "desync") (str "bad magic or version") s Hf) as He.
    destruct (error _ _ _ _) as [[e|] s']; [done|]. destruct (phase s'); try done; by apply flights_fmap.
  - by apply error_flights.
  - destruct (_ =? _); [by apply start_flights|]. destruct (_ =? _); [by apply flights_alter|].
    destruct (_ =? _); [by apply flights_fmap|by apply error_flights].
Qed.
Lemma lost_in_flight id r : in_flight (or_lost id r) = in_flight r.2.
Proof. by destruct r as [[]]. Qed.
Lemma respond_flights id rq o now s : in_flight (respond_to id rq o now s).2 = in_flight s.
Proof.
  destruct (respond_to _ _ _ _ _) as [r s'] eqn:E. apply respond_to_sending in E as (k & v & _ & Hs).
  apply sending_flights in Hs. exact Hs.
Qed.
Lemma error_in_flight id c m s : in_flight (error id c m s).2 = in_flight s.
Proof. destruct (error id c m s) as [r s'] eqn:E. by apply error_sending, sending_flights in E. Qed.
Lemma step_flights e s s' : step e s = Some s' -> flights_ok (in_flight s) -> flights_ok (in_flight s').
Proof.
  unfold step. intros Hst Hf. destruct (phase s) eqn:Ep; try done;
    (destruct e as [|id|id o v now|id| | |]; repeat case_match; simplify_eq; try done;
     rewrite ?lost_in_flight, ?respond_flights, ?error_in_flight;
     first [ by apply serve_item_flights | by eapply flights_update | by apply flights_delete ]).
Qed.

Lemma crash_queue r s' : queue_ok s' -> queue_ok (crash_or (r, s')).
Proof. by destruct r. Qed.
Lemma error_queue id c m s : queue_ok s -> queue_ok (error id c m s).2.
Proof.
  intros Hq. destruct (error id c m s) as [r s'] eqn:E. apply error_sending in E.
  eapply sending_queue; [|exact E|done]. do 2 apply list_elem_of_further. apply list_elem_of_here.
Qed.
Lemma respond_queue id rq o now s : queue_ok s -> queue_ok (respond_to id rq o now s).2.
Proof.
  intros Hq. destruct (respond_to _ _ _ _ _) as [r s'] eqn:E. apply respond_to_sending in E as (k & v & Hk & Hs).
  eapply sending_queue; [|exact Hs|done]. destruct Hk as [-> | ->].
  - do 2 apply list_elem_of_further. apply list_elem_of_here.
  - apply list_elem_of_further, list_elem_of_here.
Qed.
Lemma start_queue id header body s : queue_ok s -> queue_ok (_start id header body s).2.
Proof.
  intros Hq. unfold _start. repeat case_match; try done; by apply error_queue.
Qed.
Lemma crash_or_queue r : queue_ok r.2 -> queue_ok (crash_or r).
Proof. destruct r. apply crash_queue. Qed.
Lemma serve_item_queue i s : queue_ok s -> queue_ok (serve_item i s).
Proof.
  intros Hq. unfold serve_item. fold crash_or. destruct i as [| |p reason|p header body].
  - done.
  - pose proof (error_queue 0 (str "desync") (str "bad magic or version") s Hq) as He.
    destruct (error _ _ _ _) as [[e|] s']; [done|]. by destruct (phase s').
  - by apply crash_or_queue, error_queue.
  - destruct (_ =? _); [by apply crash_or_queue, start_queue|]. destruct (_ =? _); [done|].
    destruct (_ =? _); [done|by apply crash_or_queue, error_queue].
Qed.
Lemma lost_queue id r : queue_ok r.2 -> queue_ok (or_lost id r).
Proof. by destruct r as [[]]. Qed.
Lemma dequeue_queue data rest s : queue s = data :: rest -> queue_ok s -> queue_ok (dequeue data rest s).
Proof.
  intros Hd [Hl (out & Hw & Hs)]. rewrite Hd in *. split; [cbn in *; lia|]. exists (out ++ [data]). cbn [written queue dequeue sent].
  split; [by rewrite Hw, join_app; cbn; rewrite app_nil_r|]. by rewrite <- app_assoc.
Qed.
Lemma step_queue e s s' : step e s = Some s' -> queue_ok s -> queue_ok s'.
Proof.
  unfold step. intros Hst Hq. destruct (phase s) eqn:Ep; try done;
    (destruct e as [|id|id o v now|id| | |]; repeat case_match; simplify_eq; try done;
     first [ by apply serve_item_queue | by apply lost_queue, respond_queue | by apply lost_queue, error_queue | by apply dequeue_queue ]).
Qed.

Lemma reachable_ok items v info s :
  reachable items v info s -> flights_ok (in_flight s) ∧ queue_ok s ∧ tally_ok s.
Proof.
  induction 1 as [s Hr|e s s' _ (Hf & Hq & Ht) Hst].
  - unfold ready in Hr. apply send_frame_sending in Hr.
    assert (flights_ok (in_flight (started items v))) as Hf by (split; [apply Nat.leb_le; reflexivity|done]).
    assert (queue_ok (started items v)) as Hq.
    { split; [apply Nat.leb_le; reflexivity|]. exists []. split; [done|constructor]. }
    split_and!.
    + by rewrite (sending_flights _ _ _ _ _ Hr).
    + eapply sending_queue; [|exact Hr|done]. apply list_elem_of_here.
    + intros i. inversion Hr; subst; [by split|]. by split.
  - split_and!; [by eapply step_flights|by eapply step_queue|by eapply step_tally].
Qed.


(** What the core holds is bounded, whatever its shell does: at most 16 requests are
    in flight, none under the id 0, and at most 16 frames wait for the shell to read. *)
Theorem core_is_bounded items v info s :
  reachable items v info s ->
  (base.size (in_flight s) <= 16)%nat ∧ in_flight s !! 0 = None ∧ (length (queue s) <= 16)%nat.
Proof. intros ([Hl Hz] & [Hq _] & _)%reachable_ok. done. Qed.

Definition incoming_of (fr : Frame) : Incoming :=
  FrameItem {| px_kind := fr_kind fr; px_request_id := fr_request_id fr;
               px_header_len := Z.of_nat (length (dumps (fr_header fr))); px_body_len := Z.of_nat (length (fr_body fr)) |}
    (dumps (fr_header fr)) (fr_body fr).
(** A reader of the protocol on the other side - the core's own - reads from what
    the core has written the frames that were sent, in order, and nothing else: those
    that are not still in the queue; however its pipe cuts them up. *)
Theorem shell_reads_what_was_sent items v info s fd :
  reachable items v info s -> stream fd = written s ->
  reader fd = Ok (map incoming_of (take (length (sent s) - length (queue s)) (sent s)) ++ [Eof]).
Proof.
  intros (_ & [_ (out & Hw & Hs)] & _)%reachable_ok Hfd.
  apply Forall2_app_inv_r in Hs as (before & after & Hb & Ha & ->).
  rewrite length_app, (Forall2_length _ _ _ Ha), Nat.add_sub, take_app_length.
  rewrite reader_reads_the_stream, Hfd, Hw. clear Ha Hfd Hw. f_equal.
  induction Hb as [|fr data before out [He Hk] _ IH]; [reflexivity|].
  change (mjoin (data :: out)) with (data ++ mjoin out). rewrite (frames_in_sent (incoming_of fr)); [by rewrite IH|].
  constructor; [done|]. apply list_elem_of_In in Hk. apply list_elem_of_In. cbn in *. tauto.
Qed.
End Invariants.

(** ** What ends the loop *)

Section Ends.
Context `{Json} `{Text}.

(** A header whose method is a JSON array or object, or one nested too deep for
    [json.loads], is not answered as a bad request: the exception is neither
    [BadRequest] nor [ValueError], leaves [_start] and [serve], and ends the core, with
    the frames behind it unread. *)
Theorem odd_header_ends_the_core s p header body rest :
  phase s = Serving -> incoming s = FrameItem p header body :: rest -> px_kind p = REQUEST -> px_request_id p ≠ 0 ->
  in_flight s !! px_request_id p = None -> (base.size (in_flight s) < MAX_IN_FLIGHT)%nat ->
  loads header = inl TooDeep ∨
  (∃ l m, loads header = inr (JObject l) ∧ get "native" l = None ∧
          (get "method" l = Some (JList m) ∨ ∃ o, get "method" l = Some (JObject o))) ->
  ∃ e s', step ServeNext s = Some s' ∧ phase s' = Crashed e ∧ sent s' = sent s ∧ incoming s' = rest ∧
    step ServeNext s' = None.
Proof.
  intros Hp Hi Hk Hid Hf Hl Hh.
  assert (∃ e, decode_request header = inl (Escapes e)) as [e He].
  { unfold decode_request, parse_request. destruct Hh as [-> |(l & m & -> & -> & Hm)]; [by eexists|].
    cbn [is_some]. destruct Hm as [-> |[o ->]]; by eexists. }
  exists e, (drain (Crashed e) (take_item (FrameItem p header body) rest s)).
  unfold step. rewrite Hp, Hi. cbn [serve_item]. rewrite Hk. cbn [Z.eqb REQUEST Pos.eqb]. unfold _start.
  rewrite (proj2 (Z.eqb_neq _ _)) by done. cbn [in_flight take_item]. rewrite Hf, bool_decide_eq_false_2 by (intros [? [=]]).
  rewrite (proj2 (Nat.leb_gt _ _)) by done. rewrite He. split_and!; reflexivity.
Qed.
End Ends.

(** ** A concrete run *)

Lemma steps_reachable `{Json} `{Text} items v info es s s' :
  reachable items v info s -> steps es s = Some s' -> reachable items v info s'.
Proof.
  revert s. induction es as [|e es IH]; intros s Hr; cbn [steps]; [by intros [= <-]|].
  destruct (step e s) as [s1|] eqn:E; [|done]. cbn. apply IH. by eapply Stepped.
Qed.
Definition lock_header : json := JObject [(str "method", JString (str "POST")); (str "path", JString (str "/api/lock"))].
Definition core_json : Json := printing_json (fun b =>
  if bool_decide (b = raw "lock") then inr lock_header
  else if bool_decide (b = raw "odd") then inr (JObject [(str "method", JList [])]) else inl (NotJson (str "Expecting value"))).
#[local] Existing Instance core_json.
Definition request_item (id : Z) (header : bytes) : Incoming :=
  FrameItem {| px_kind := REQUEST; px_request_id := id; px_header_len := Z.of_nat (length header); px_body_len := 0 |} header [].
Definition cancel_item (id : Z) : Incoming :=
  FrameItem {| px_kind := CANCEL; px_request_id := id; px_header_len := 2; px_body_len := 0 |} (raw "{}") [].
(** Two requests, one of them under the id of the other, one that is not JSON, and the
    cancellation of the first before it began *)
Definition demo_items : list Incoming :=
  [request_item 1 (raw "lock"); request_item 1 (raw "lock"); request_item 2 (raw "lock"); request_item 3 (raw "?");
   cancel_item 1; Eof].
Definition no_sessions : VaultSessions := with_sessions [] one_session_store.
Definition demo_events : list event :=
  [ServeNext; ServeNext; ServeNext; Begin 2; ServeNext; ServeNext;
   Finish 2 (inr {| status := 204; response_headers := []; content := [] |}) no_sessions (at_ms 0); WriteOut; WriteOut; WriteOut;
   ServeNext; Begin 1; Callback 1; Callback 2].
Definition demo_core : Server :=
  default (started demo_items no_sessions)
    (steps demo_events (ready [] (started demo_items no_sessions)).2).
Lemma demo_core_reachable : reachable demo_items no_sessions [] demo_core.
Proof.
  apply (steps_reachable _ _ _ demo_events (ready [] (started demo_items no_sessions)).2); [constructor|]; vm_compute; reflexivity.
Qed.
Lemma core_is_bounded_witness : (base.size (in_flight demo_core) <= 16)%nat ∧ in_flight demo_core !! 0 = None.
Proof.
  destruct (core_is_bounded demo_items no_sessions [] demo_core demo_core_reachable) as (Hs & Hz & _).
  split; [exact Hs|exact Hz].
Defined.
Definition demo_pipe : Pipe := [take 7 (written demo_core); drop 7 (written demo_core)].
Lemma demo_pipe_stream : stream demo_pipe = written demo_core.
Proof. vm_compute. reflexivity. Qed.
Lemma shell_reads_what_was_sent_witness :
  reader demo_pipe =
  Ok (map incoming_of (take (length (sent demo_core) - length (queue demo_core)) (sent demo_core)) ++ [Eof]) ∧
  map fr_request_id (take (length (sent demo_core) - length (queue demo_core)) (sent demo_core)) = [0; 1; 3].
Proof.
  split; [|vm_compute; reflexivity].
  exact (shell_reads_what_was_sent demo_items no_sessions [] demo_core demo_pipe demo_core_reachable demo_pipe_stream).
Defined.
Definition odd_core : Server := started [request_item 5 (raw "odd"); request_item 6 (raw "lock")] no_sessions.
Lemma odd_header_ends_the_core_witness :
  ∃ e s', step ServeNext odd_core = Some s' ∧ phase s' = Crashed e ∧ sent s' = [] ∧
    incoming s' = [request_item 6 (raw "lock")] ∧ step ServeNext s' = None.
Proof.
  refine (odd_header_ends_the_core odd_core _ (raw "odd") [] [request_item 6 (raw "lock")] eq_refl eq_refl eq_refl _ _ _ _).
  - discriminate.
  - reflexivity.
  - apply Nat.leb_le. reflexivity.
  - right. exists [(str "method", JList [])], []. split_and!; [vm_compute; reflexivity|vm_compute; reflexivity|].
    left. vm_compute. reflexivity.
Defined.
Lemma parsed_requests_are_clean_witness :
  ∃ scope, scope_for (str "POST") (str "/api/lock") [] [] 2 = Ok scope ∧
    filter (fun h => h.1 = CONTENT_LENGTH) (headers scope) = [(CONTENT_LENGTH, raw "2")].
Proof.
  destruct (parsed_requests_are_clean (raw "lock")
    {| req_method := str "POST"; req_path := str "/api/lock"; req_query := []; req_headers := [] |}) as [_ Hs];
    [vm_compute; reflexivity|].
  exact (Hs 2).
Defined.
