(* ===== verification/Cli.v ===== *)
(** The command line client ([cli.py]): the commands as programs that talk to a server,
    a person at a terminal and a file system.

    What the outside answers is a function of everything that happened before
    ([Outside]); what happened is recorded in [trace]. Text is shown without the colours
    of the terminal. *)
From Stdlib Require Import ZArith Lia Strings.String Strings.Byte.
From stdpp Require Import base list.
From S2P Require Import Prelude Platform Framing Asgi Bridge CoreServer.

(** ** The outside *)

Record Response := { rs_status : Z; rs_json : json_error + json; rs_text : pystr }.
Inductive Payload :=
  | NoPayload
  | JsonPayload (j : json)
  | FormPayload (fields : list (pystr * pystr)) (filename mime : pystr).
Record HttpReq := {
  rq_method : pystr;
  rq_url : pystr;
  rq_headers : list (pystr * pystr);
  rq_params : list (pystr * Z);
  rq_payload : Payload;
}.
(** A response that is read as it arrives: its chunks, and whether the transfer fails
    after them *)
Record Streamed := { st_response : Response; st_chunks : list bytes; st_fails : bool }.
Inductive FileOp :=
  | MakeDirs (dir : pystr)
  | NewStaged (dir prefix : pystr)
  | WriteChunk (b : bytes)
  | FlushStaged
  | LinkTo (source target : pystr)
  | UnlinkMissingOk (p : pystr)
  | OpenUpload (p : pystr).
Inductive Event :=
  | Sent (q : HttpReq) (r : bool + Response)
  | Streaming (q : HttpReq) (r : bool + Streamed)
  | Typed (label : pystr) (hidden : bool) (s : option pystr)
  | Confirmed (label : pystr) (yes : bool)
  | Printed (err : bool) (s : pystr)
  | Tabled (columns : list pystr) (rows : list (list pystr))
  | Filed (op : FileOp) (r : option Z).
(** A failed request is [true] when the server could not be reached, [ConnectError], and
    [false] for any other [httpx.HTTPError]; a prompt is answered with [None] when it is
    interrupted; a file operation fails with an error number. *)
Class Outside := {
  answers : list Event -> HttpReq -> bool + Response;
  streams : list Event -> HttpReq -> bool + Streamed;
  types : list Event -> pystr -> option pystr;
  consents : list Event -> pystr -> bool;
  files : list Event -> FileOp -> option Z;
  is_a_file : list Event -> pystr -> bool;
  (** the name [tempfile.NamedTemporaryFile] finds, between its prefix and suffix *)
  random_part : list Event -> pystr;
  stamp_now : list Event -> pystr;
  totp : list Event -> pystr -> option pystr;
}.
(** The environment variable [CIPHERMOTH_API_URL], the parts of it [urlparse] finds, and
    rich's [escape]; [py_str] is [str()] of a value that is not a text. *)
Class Terminal := {
  api_url : pystr;
  api_scheme : pystr;
  api_host : option pystr;
  escape : pystr -> pystr;
  py_str : json -> pystr;
}.

(** ** Commands as programs *)

(** The variables of a command: the attributes of its [_Vault], and [staged] *)
Record Client := {
  meta_known : bool;
  features : list pystr;
  master : pystr;
  auth : option pystr;
  staged : option pystr;
  trace : list Event;
}.
Definition no_client : Client :=
  {| meta_known := false; features := []; master := []; auth := None; staged := None; trace := [] |}.
Definition with_meta (known : bool) (l : list pystr) (c : Client) : Client :=
  {| meta_known := known; features := l; master := master c; auth := auth c; staged := staged c; trace := trace c |}.
Definition with_master (m : pystr) (c : Client) : Client :=
  {| meta_known := meta_known c; features := features c; master := m; auth := auth c; staged := staged c; trace := trace c |}.
Definition with_auth (a : option pystr) (c : Client) : Client :=
  {| meta_known := meta_known c; features := features c; master := master c; auth := a; staged := staged c; trace := trace c |}.
Definition with_staged (p : option pystr) (c : Client) : Client :=
  {| meta_known := meta_known c; features := features c; master := master c; auth := auth c; staged := p; trace := trace c |}.
Definition record (e : Event) (c : Client) : Client :=
  {| meta_known := meta_known c; features := features c; master := master c; auth := auth c; staged := staged c;
     trace := trace c ++ [e] |}.
Abbreviation C := (M Client).
Abbreviation ret x := (@mret (M Client) _ _ x).
Abbreviation attempt r := (@Prelude.lift Client _ r).
Abbreviation fail e := (@throw Client _ e).
Definition cleaning {A} (m : C A) (cleanup : C ()) : C A := fun c =>
  match m c with
  | (r, c) =>
      match cleanup c with
      | (Ok _, c) => (r, c)
      | (Err e, c) => (Err e, c)
      end
  end.

Section Cli.
Context `{Outside} `{Terminal} `{Text}.

Definition say (err : bool) (s : pystr) : C () := modify (record (Printed err s)).
Definition table (columns : list pystr) (rows : list (list pystr)) : C () := modify (record (Tabled columns rows)).
Definition CROSS : N := 10007.
Definition CHECK : N := 10003.
Definition BULLETS : pystr := repeat 8226%N 8.
Definition _die {A} (msg : pystr) : C A := say true ([CROSS] ++ str "  " ++ escape msg);; fail (Exit 1).
Definition _ok (msg : pystr) : C () := say false ([CHECK] ++ str "  " ++ msg).

Definition http (q : HttpReq) : C Response := fun c =>
  let r := answers (trace c) q in
  (match r with inl connect => Err (HttpError connect) | inr r => Ok r end, record (Sent q r) c).
Definition http_stream (q : HttpReq) : C Streamed := fun c =>
  let r := streams (trace c) q in
  (match r with inl connect => Err (HttpError connect) | inr r => Ok r end, record (Streaming q r) c).
Definition file_op (op : FileOp) : C () := fun c =>
  let r := files (trace c) op in
  (match r with Some _ => Err OSError | None => Ok () end, record (Filed op r) c).
(** [typer.prompt]: an empty answer is the default, where there is one; it asks for
    another where there is none, which [types] answers with at once. *)
Definition prompt (label : pystr) (hidden : bool) (default_text : option pystr) : C pystr := fun c =>
  let r := types (trace c) label in
  (match r with
   | Some [] => Ok (default [] default_text)
   | Some s => Ok s
   | None => Err Aborted
   end, record (Typed label hidden r) c).
(** [typer.confirm(_, abort=True)] *)
Definition confirm (label : pystr) : C () := fun c =>
  let r := consents (trace c) label in
  (if r : bool then Ok () else Err Aborted, record (Confirmed label r) c).
Definition at_trace {A} (f : list Event -> A) : C A := gets (fun c => f (trace c)).

(** *** JSON values *)

Definition get_of (key : string) (j : json) : res (option json) :=
  match j with JObject l => Ok (get key l) | _ => Err AttributeError end.
Definition field_of (key : string) (j : json) : res json :=
  match j with JObject l => ok_or KeyError (get key l) | _ => Err TypeError end.
Definition truthy (j : option json) : option json :=
  match j with Some j => if falsy j then None else Some j | None => None end.
(** Whether a value is this text *)
Definition is_text (s : pystr) (j : option json) : bool :=
  match j with Some (JString t) => bool_decide (t = s) | _ => false end.
Definition to_str (j : json) : pystr := match j with JString s => s | _ => py_str j end.
(** [escape] of a value *)
Definition escaped (j : json) : res pystr := match j with JString s => Ok (escape s) | _ => Err TypeError end.
(** [for item in items], of what a response holds *)
Definition items_of (j : json) : res (list json) :=
  match j with JList l => Ok l | _ => Err TypeError end.
Definition json_of (r : Response) : res json :=
  match rs_json r with
  | inr j => Ok j
  | inl TooDeep => Err RecursionLimit
  | inl _ => Err (ValueError [])
  end.
Definition is_success (r : Response) : bool := (200 <=? rs_status r) && (rs_status r <=? 299).

(** *** Requests *)

Definition RETRY_HINT : pystr :=
  str " Every command unlocks the vault once, so a batch of them can hit this. Raise CIPHERMOTH_RATE_LIMIT on the backend to lift it.".
Definition _check (r : Response) : C () :=
  if is_success r then ret ()
  else
    detail ← (match rs_json r with
             | inr j =>
                 d ← attempt (get_of "detail" j);
                 e ← attempt (get_of "error" j);
                 ret match truthy d with
                      | Some d => to_str d
                      | None => match truthy e with Some e => to_str e | None => rs_text r end
                      end
             | inl TooDeep => fail RecursionLimit
             | inl _ => ret (rs_text r)
             end);
    if rs_status r =? 429 then _die (detail ++ RETRY_HINT) else _die detail.
Definition LOCAL_HOSTS : list pystr := [str "localhost"; str "127.0.0.1"; str "::1"].
Definition _warn_plaintext_transport : C () :=
  let host := default [] api_host in
  if bool_decide (api_scheme = str "https") || bool_decide (host ∈ LOCAL_HOSTS) then ret ()
  else say true (str "!  " ++ escape host ++ str " is reached over plain HTTP, so your master password crosses the network unencrypted. Put the API behind HTTPS.").
Definition CANNOT_REACH : pystr :=
  str "Cannot reach the API at '" ++ api_url ++ str "'. Is the service running?".
(** [client.get("/meta")] and the like: without the session's headers *)
Definition request (m url : string) (hs : list (pystr * pystr)) (params : list (pystr * Z)) (p : Payload) : HttpReq :=
  {| rq_method := str m; rq_url := str url; rq_headers := hs; rq_params := params; rq_payload := p |}.
Definition _features : C (option (list pystr)) :=
  r ← catch (r ← http (request "GET" "/meta" [] [] NoPayload); ret (Some r))
        (fun e => match e with
                  | HttpError true => _die CANNOT_REACH
                  | HttpError false => ret None
                  | _ => fail e
                  end);
  match r with
  | None => ret None
  | Some r =>
      if negb (is_success r) then ret None
      else
        match rs_json r with
        | inr (JObject l) =>
            match get "features" l with
            | None => ret (Some [])
            | Some (JList l) => ret (Some (omap (fun j => match j with JString s => Some s | _ => None end) l))
            | Some _ => ret None
            end
        | inl TooDeep => fail RecursionLimit
        | _ => ret None
        end
  end.

(** *** The vault of a command *)

Definition SESSIONS : pystr := str "vault-sessions".
Definition SLASH_NAMES : pystr := str "entry-names-with-slash".
Definition SESSION_HEADER : pystr := str "x-ciphermoth-session".
Definition SERVER_TOO_OLD : pystr :=
  str "This server runs a CipherMoth release older than 1.5.0, which this CLI no longer supports. Update the server, or use CipherMoth CLI 1.5.x.".
Definition NO_UNLOCK_ROUTE : pystr :=
  str "No CipherMoth unlock route at '" ++ api_url ++ str "'. Check that CIPHERMOTH_API_URL ends in /api. A server older than 1.5.0 also answers like this: update it, or use CipherMoth CLI 1.5.x.".
(** [_Vault.__init__] *)
Definition new_vault : C () :=
  l ← _features;
  modify (fun c => with_auth None (with_master [] (with_meta (is_some l) (default [] l) c))).
Definition _post_password (url : string) : C Response :=
  m ← gets master;
  catch (http (request "POST" url [] [] (JsonPayload (JObject [(str "master_password", JString m)]))))
    (fun e => match e with HttpError true => _die CANNOT_REACH | _ => fail e end).
Definition no_unlock_route (known : list pystr) (r : Response) : bool :=
  if bool_decide (SESSIONS ∈ known) || negb ((rs_status r =? 404) || (rs_status r =? 405)) then false
  else match rs_json r with
       | inr (JObject l) =>
           match get "detail" l with
           | Some (JString d) => bool_decide (d ∈ [str "Not Found"; str "Method Not Allowed"])
           | _ => false
           end
       | _ => false
       end.
(** The token of an answer to an unlock. A header is a text. *)
Definition granted (r : Response) : res (option pystr) :=
  data ← json_of r;
  valid ← get_of "valid" data;
  match truthy valid with
  | None => Ok None
  | Some _ =>
      token ← field_of "session_token" data;
      match token with JString t => Ok (Some t) | _ => Err TypeError end
  end.
(** What [_authenticate] makes of the answer *)
Definition accept_unlock (r : Response) : C () :=
  c ← gets (fun c => c);
  if no_unlock_route (features c) r then _die (if meta_known c then SERVER_TOO_OLD else NO_UNLOCK_ROUTE)
  else
    _check r;;
    token ← attempt (granted r);
    match token with
    | None => _die (str "Invalid master password.")
    | Some t => modify (with_auth (Some t))
    end.
Definition _authenticate : C () := r ← _post_password "/master_password/unlock"; accept_unlock r.
Definition unlock : C () :=
  m ← prompt (str "Master password") true None;
  modify (with_master m);;
  _authenticate.
Definition auth_headers (a : option pystr) : list (pystr * pystr) :=
  match a with Some t => [(SESSION_HEADER, t)] | None => [] end.
Definition headers_for (name : option pystr) : C (list (pystr * pystr)) :=
  a ← gets auth;
  match name with
  | None => ret (auth_headers a)
  | Some n => q ← attempt (ok_or UnicodeEncodeError (quote n)); ret (auth_headers a ++ [(str "x-ciphermoth-entry", q)])
  end.
Definition has_auth (a : option pystr) : bool := is_some a.
Definition send_at (m : string) (url : pystr) (name : option pystr) (params : list (pystr * Z)) (p : Payload) : C Response :=
  let once :=
    hs ← headers_for name;
    http {| rq_method := str m; rq_url := url; rq_headers := hs; rq_params := params; rq_payload := p |} in
  r ← once;
  a ← gets auth;
  if (rs_status r =? 401) && has_auth a then _authenticate;; once else ret r.
(** The first attempt of a stream whose session ended is read and given up. *)
Definition stream_at (m : string) (url : pystr) (p : Payload) : C Streamed :=
  let once :=
    hs ← headers_for None;
    http_stream {| rq_method := str m; rq_url := url; rq_headers := hs; rq_params := []; rq_payload := p |} in
  r ← once;
  a ← gets auth;
  if (rs_status (st_response r) =? 401) && has_auth a then _authenticate;; once else ret r.
Definition SLASH_REFUSED : pystr :=
  str "This server can't address entry names containing '/'. Update CipherMoth, or rename the entry in the web UI.".
Definition path_of (name suffix : pystr) : C pystr :=
  known ← gets features;
  if bool_decide (SLASH ∈ name) && negb (bool_decide (SLASH_NAMES ∈ known)) then _die SLASH_REFUSED
  else attempt (ok_or UnicodeEncodeError (entry_path true name suffix)).
Definition lock : C () :=
  a ← gets auth;
  (if has_auth a then
     catch (http (request "POST" "/master_password/lock" (auth_headers a) [] NoPayload);; ret ())
       (fun e => match e with HttpError _ => ret () | _ => fail e end)
   else ret ());;
  modify (fun c => with_master [] (with_auth None c)).
(** [with _vault() as vault: body] *)
Definition _vault {A} (body : C A) : C A :=
  _warn_plaintext_transport;;
  new_vault;;
  cleaning (unlock;; body) lock.

(** *** Entries *)

Definition send_entry (m : string) (name suffix : pystr) (params : list (pystr * Z)) : C Response :=
  url ← path_of name suffix;
  send_at m url (Some name) params NoPayload.
Definition _entry (r : Response) (name : pystr) : C json :=
  _check r;;
  item ← attempt (json_of r);
  match item with
  | JObject _ => ret item
  | _ => _die (str "'" ++ name ++ str "' can't be opened by name. Rename the entry in the web UI to manage it from the CLI.")
  end.
Definition opt_json (s : pystr) : json := match s with [] => JNull | _ => JString s end.
(** [_optional]: [current] is what the server sent for a text *)
Definition default_text (current : option json) : pystr :=
  match truthy current with Some j => to_str j | None => [] end.
Definition _optional (label : string) (current : option json) : C json :=
  s ← prompt (str label) false (Some (default_text current)); ret (opt_json s).
(** With [confirmation_prompt] it asks until two answers agree. *)
Definition _prompt_secret (label : string) : C pystr := prompt (str label) true None.
Definition _prompt_optional_secret (label : pystr) : C (option pystr) :=
  value ← prompt label true (Some []);
  match value with
  | [] => ret None
  | _ =>
      again ← prompt (str "Repeat for confirmation") true None;
      if bool_decide (again ≠ value) then _die (str "The two entries did not match.") else ret (Some value)
  end.

(** [_detail_rows] *)
Definition _totp_code (secret : json) : C pystr :=
  match secret with
  | JString s => code ← at_trace (fun t => totp t s); ret (default (str "unreadable 2FA secret") code)
  | _ => fail AttributeError
  end.
Definition custom_row (field : json) : res (pystr * pystr) :=
  hidden ← get_of "hidden" field;
  value ← get_of "value" field;
  label ← field_of "label" field;
  Ok (to_str label, match truthy hidden with
                    | Some _ => BULLETS
                    | None => match value with Some v => to_str v | None => [] end
                    end).
Definition texts_of (j : json) : res (list pystr) :=
  l ← items_of j; mapM (fun j => match j with JString s => Ok s | _ => Err TypeError end) l.
Definition _detail_rows (item : json) : C (list (pystr * pystr)) :=
  kind ← attempt (get_of "kind" item);
  value ← attempt (field_of "password_value" item);
  username ← attempt (get_of "username" item);
  url ← attempt (get_of "url" item);
  secret ← attempt (get_of "totp_secret" item);
  code ← match truthy secret with Some s => code ← _totp_code s; ret [(str "2FA code", code)] | None => ret [] end;
  folder ← attempt (get_of "folder" item);
  tags ← attempt (get_of "tags" item);
  tag_rows ← match truthy tags with
             | Some t => l ← attempt (texts_of t); ret [(str "Tags", joined (str ", ") l)]
             | None => ret []
             end;
  fields ← attempt (get_of "custom_fields" item);
  field_rows ← match truthy fields with Some f => attempt (l ← items_of f; mapM custom_row l) | None => ret [] end;
  description ← attempt (get_of "description" item);
  let row (label : string) (v : option json) :=
    match truthy v with Some j => [(str label, to_str j)] | None => [] end in
  ret ([(if is_text (str "note") kind then str "Note" else str "Value", to_str value)]
        ++ row "Username"%string username ++ row "URL"%string url ++ code ++ row "Folder"%string folder ++ tag_rows ++ field_rows
        ++ row "Description"%string description).
Definition LABEL_WIDTH : nat := 13.
Definition spaces (n : nat) : pystr := repeat 32%N n.
Definition lines_of (width : nat) (row : pystr * pystr) : list pystr :=
  match split_on LF row.2 with
  | [] => []
  | head :: rest =>
      (str "  " ++ escape row.1 ++ spaces (width - length row.1) ++ escape head)
        :: map (fun l => str "  " ++ spaces width ++ escape l) rest
  end.
Definition _print_details (item : json) : C () :=
  rows ← _detail_rows item;
  let width := foldr Nat.max LABEL_WIDTH (map (fun r => length r.1 + 2)%nat rows) in
  name ← attempt (j ← field_of "password_name" item; escaped j);
  say false ([10%N] ++ str "  " ++ name);;
  forM (mjoin (map (lines_of width) rows)) (say false);;
  say false [].

(** *** Commands on entries *)

Definition or_dash (j : option json) : res pystr :=
  match truthy j with Some j => escaped j | None => Ok (escape (str "-")) end.
Definition list_row (item : json) : res (list pystr) :=
  j ← field_of "password_name" item; name ← escaped j;
  d ← get_of "description" item; description ← or_dash d;
  Ok [name; description].
(** [if not items], and the table otherwise *)
Definition show_items (r : Response) (empty : string) (columns : list pystr) (row : json -> res (list pystr)) : C () :=
  _check r;;
  items ← attempt (json_of r);
  if falsy items then say false (str empty)
  else l ← attempt (l ← items_of items; mapM row l); table columns l.
Definition pw_list : C () :=
  r ← _vault (send_at "GET" (str "/passwords") None [] NoPayload);
  show_items r "The vault is empty." [str "Name"; str "Description"] list_row.
Definition pw_get (name : pystr) : C () :=
  r ← _vault (send_entry "GET" name [] []);
  item ← _entry r name;
  _print_details item.
Definition entry_json (name : json) (kind value username url secret description folder : json) : json :=
  JObject [(str "password_name", name); (str "kind", kind); (str "username", username); (str "password_value", value);
           (str "url", url); (str "totp_secret", secret); (str "description", description); (str "folder", folder)].
Definition unless_note (is_note : bool) (m : C json) : C json := if is_note then ret JNull else m.
Definition pw_create (name kind : pystr) : C () :=
  (if bool_decide (kind ∉ [str "login"; str "note"]) then _die (str "--kind must be 'login' or 'note'.") else ret ());;
  let is_note := bool_decide (kind = str "note") in
  r ← _vault (
    existing ← send_entry "GET" name [] [];
    (if is_success existing then
       j ← attempt (json_of existing);
       match j with
       | JObject _ => _die (str "An entry named '" ++ name ++ str "' already exists.")
       | _ => ret ()
       end
     else ret ());;
    value ← _prompt_secret (if is_note then "Note body"%string else "Password value"%string);
    username ← unless_note is_note (_optional "Username / email" None);
    url ← unless_note is_note (_optional "URL" None);
    secret ← unless_note is_note (_optional "TOTP secret" None);
    description ← _optional "Description" None;
    folder ← _optional "Folder" None;
    send_at "POST" (str "/passwords/create") (Some name) []
      (JsonPayload (entry_json (JString name) (JString kind) (JString value) username url secret description folder)));
  _check r;;
  _ok (str "Created " ++ escape name).
(** The entry as it was read, and as it was changed, in an update *)
Definition versions_json (name : pystr) (current : json) (g : string -> option json) (value username url secret description folder : json)
    (old_value : json) : json :=
  let shared := [(str "password_name", JString name);
                 (str "kind", default (JString (str "login")) (g "kind"%string));
                 (str "tags", default (JList []) (g "tags"%string));
                 (str "custom_fields", default (JList []) (g "custom_fields"%string));
                 (str "favorite", default (JBool false) (g "favorite"%string))] in
  let rest u v l t d f := [(str "username", u); (str "password_value", v); (str "url", l); (str "totp_secret", t);
                           (str "description", d); (str "folder", f)] in
  let cur k := default JNull (g k) in
  JObject [(str "password", JObject (shared ++ rest (cur "username"%string) old_value (cur "url"%string) (cur "totp_secret"%string)
                                                    (cur "description"%string) (cur "folder"%string)));
           (str "new_password", JObject (shared ++ rest username value url secret description folder))].
Definition pw_update (name : pystr) : C () :=
  r ← _vault (
    r ← send_entry "GET" name [] [];
    current ← _entry r name;
    let g k := match current with JObject l => get k l | _ => None end in
    let is_note := is_text (str "note") (g "kind"%string) in
    typed ← _prompt_optional_secret ((if is_note then str "New note" else str "New password value")
                                     ++ str " (blank to keep the current one)");
    old_value ← attempt (match typed with Some _ => Ok JNull | None => field_of "password_value" current end);
    username ← unless_note is_note (_optional "Username / email" (g "username"%string));
    url ← unless_note is_note (_optional "URL" (g "url"%string));
    secret ← unless_note is_note (_optional "TOTP secret" (g "totp_secret"%string));
    description ← _optional "Description" (g "description"%string);
    folder ← _optional "Folder" (g "folder"%string);
    kept ← attempt (field_of "password_value" current);
    send_at "PATCH" (str "/passwords/update") (Some name) []
      (JsonPayload (versions_json name current g (match typed with Some s => JString s | None => old_value end)
                      username url secret description folder kept)));
  _check r;;
  _ok (str "Updated " ++ escape name).
Definition pw_delete (name : pystr) (yes : bool) : C () :=
  r ← _vault (
    exists_ ← send_entry "GET" name [] [];
    (if rs_status exists_ =? 404 then _check exists_ else ret ());;
    (if yes then ret () else confirm (str "Move '" ++ name ++ str "' to trash?"));;
    send_entry "DELETE" name [] []);
  _check r;;
  _ok (str "Moved " ++ escape name ++ str " to trash").

(** *** The trash *)

(** [(item.get("deleted") or "-")[:19].replace("T", " ")] *)
Definition deleted_text (j : option json) : res pystr :=
  match truthy j with
  | None => Ok (str "-")
  | Some (JString s) => Ok (map (fun c => if (c =? 84)%N then 32%N else c) (take 19 s))
  | Some _ => Err TypeError
  end.
Definition trash_row (item : json) : res (list pystr) :=
  id ← get_of "id" item;
  j ← field_of "password_name" item; name ← escaped j;
  d ← get_of "description" item; description ← or_dash d;
  w ← get_of "deleted" item; deleted ← deleted_text w;
  Ok [match id with Some i => to_str i | None => str "-" end; name; description; deleted].
Definition pw_trash : C () :=
  r ← _vault (send_at "GET" (str "/passwords/trash") None [] NoPayload);
  show_items r "The trash is empty." [str "ID"; str "Name"; str "Description"; str "Deleted"] trash_row.
(** [row.get("id") == entry_id]: a [bool] is an [int] *)
Definition is_id (j : option json) (id : Z) : bool :=
  match j with
  | Some (JNumber n) => n =? id
  | Some (JBool b) => (if b then 1 else 0) =? id
  | _ => false
  end.
Fixpoint any_row (rows : list json) (id : Z) (name : pystr) : res bool :=
  match rows with
  | [] => Ok false
  | row :: rows =>
      i ← get_of "id" row;
      n ← get_of "password_name" row;
      if is_id i id && is_text name n then Ok true else any_row rows id name
  end.
Definition NO_TRASH_ROW : pystr :=
  str "No matching Trash row ID. Refresh 'password trash' and use this release's server.".
Definition _trash_params (name : pystr) (entry_id : option Z) : C (list (pystr * Z)) :=
  match entry_id with
  | None => ret []
  | Some id =>
      r ← send_at "GET" (str "/passwords/trash") None [] NoPayload;
      _check r;;
      found ← attempt (j ← json_of r; l ← items_of j; any_row l id name);
      if found : bool then ret [(str "entry_id", id)] else _die NO_TRASH_ROW
  end.
Definition pw_restore (name : pystr) (entry_id : option Z) : C () :=
  r ← _vault (params ← _trash_params name entry_id; send_entry "POST" name (str "/restore") params);
  _check r;;
  _ok (str "Restored " ++ escape name).
Definition pw_purge (name : pystr) (yes : bool) (entry_id : option Z) : C () :=
  (if yes then ret ()
   else confirm (str "Permanently delete '" ++ name ++ str "'"
                 ++ match entry_id with Some id => str " (row #" ++ str_of_Z id ++ str ")" | None => str " (newest)" end
                 ++ str " from trash?"));;
  r ← _vault (params ← _trash_params name entry_id; send_entry "DELETE" name (str "/purge") params);
  _check r;;
  _ok (str "Permanently deleted " ++ escape name).

(** *** Backups *)

Definition STAGED_SUFFIX : pystr := str ".partial".
(** The file [tempfile.NamedTemporaryFile] makes, without its last suffix *)
Definition backup_name (out_dir stamp random : pystr) : pystr :=
  out_dir ++ str "/ciphermoth_backup_" ++ stamp ++ str "_" ++ random ++ str ".cmbackup".
(** [resp.iter_bytes], written chunk by chunk *)
Definition save_chunks (r : Streamed) : C () :=
  forM (st_chunks r) (fun b => file_op (WriteChunk b));;
  (if st_fails r then fail (HttpError false) else ret ()).
Definition save_backup (out_dir : pystr) : C pystr :=
  m ← gets master;
  r ← stream_at "POST" (str "/passwords/backup") (JsonPayload (JObject [(str "master_password", JString m)]));
  _check (st_response r);;
  file_op (MakeDirs out_dir);;
  stamp ← at_trace stamp_now;
  file_op (NewStaged out_dir (str "ciphermoth_backup_" ++ stamp ++ str "_"));;
  random ← at_trace random_part;
  let dest := backup_name out_dir stamp random in
  modify (with_staged (Some (dest ++ STAGED_SUFFIX)));;
  save_chunks r;;
  file_op FlushStaged;;
  file_op (LinkTo (dest ++ STAGED_SUFFIX) dest);;
  ret dest.
Definition NOT_SAVED : pystr := str "Backup could not be saved. Check the connection and destination space.".
Definition unlink_staged : C () :=
  p ← gets staged;
  match p with Some p => file_op (UnlinkMissingOk p) | None => ret () end.
Definition cmd_backup (out_dir : pystr) : C () :=
  dest ← cleaning
    (catch (_vault (save_backup out_dir))
       (fun e => match e with HttpError _ | OSError => _die NOT_SAVED | _ => fail e end))
    unlink_staged;
  _ok (str "Backup saved to " ++ escape dest).

(** *** Damage *)

Definition damaged_rows (j : json) : res (list (pystr * json)) :=
  e ← field_of "entries" j; es ← items_of e;
  a ← field_of "attachments" j; al ← items_of a;
  Ok (map (fun i => (str "entries", i)) es ++ map (fun i => (str "attachments", i)) al).
Definition DAMAGED_HINT : pystr :=
  str "Restore a snapshot (docs/UPDATING.md), or run 'ciphermoth damaged --remove'. Removing an entry also removes its attachments.".
Definition count_of {A} (l : list A) : pystr := str_of_Z (Z.of_nat (length l)).
(** [None]: returned before anything was removed *)
Definition cmd_damaged (remove yes : bool) : C () :=
  removed ← _vault (
    r ← send_at "GET" (str "/vault/damaged") None [] NoPayload;
    _check r;;
    rows ← attempt (j ← json_of r; damaged_rows j);
    match rows with
    | [] => _ok (str "Nothing is damaged.");; ret None
    | _ =>
        forM rows (fun row =>
          say true (str "!  " ++ (if bool_decide (row.1 = str "entries") then str "entry" else str "attachment")
                    ++ str " #" ++ to_str row.2 ++ str " cannot be read"));;
        if negb remove then say false DAMAGED_HINT;; ret None
        else
          (if yes then ret () else confirm (str "Permanently remove " ++ count_of rows ++ str " damaged row(s)?"));;
          forM rows (fun row =>
            r ← send_at "DELETE" (str "/vault/damaged/" ++ row.1 ++ str "/" ++ to_str row.2) None [] NoPayload;
            _check r);;
          ret (Some rows)
    end);
  match removed with
  | Some rows => _ok (str "Removed " ++ count_of rows ++ str " damaged row(s)")
  | None => ret ()
  end.

(** *** Imports *)

Definition import_row (row : json) : res pystr :=
  name ← get_of "name" row;
  suffix ← match truthy name with Some _ => j ← field_of "name" row; Ok (str " (" ++ to_str j ++ str ")") | None => Ok [] end;
  w ← field_of "where" row;
  why ← field_of "reason" row;
  match w, why with
  | JString w, JString why => Ok (str "   " ++ escape (w ++ suffix) ++ str ": " ++ escape why)
  | _, _ => Err TypeError
  end.
Definition number_of (j : json) : res Z :=
  match j with JNumber n => Ok n | JBool b => Ok (if b then 1 else 0) | _ => Err TypeError end.
Definition report_rows (payload : json) (key title : string) : C () :=
  n ← attempt (get_of key payload);
  match truthy n with
  | None => ret ()
  | Some n =>
      say true (str "!  " ++ to_str n ++ str " record(s) " ++ str title ++ str ":");;
      rows ← attempt (r ← get_of (String.append key "_rows") payload; match r with Some j => items_of j | None => Ok [] end);
      forM rows (fun row => s ← attempt (import_row row); say true s);;
      count ← attempt (number_of n);
      if Z.of_nat (length rows) <? count
      then say true (str "   and " ++ str_of_Z (count - Z.of_nat (length rows)) ++ str " more") else ret ()
  end.
Definition _report_import (payload : json) : C () :=
  i ← attempt (field_of "imported" payload);
  o ← attempt (field_of "overwritten" payload);
  s ← attempt (field_of "skipped" payload);
  _ok (str "Import complete - " ++ to_str i ++ str " added, " ++ to_str o ++ str " overwritten, " ++ to_str s ++ str " skipped");;
  t ← attempt (get_of "trashed" payload);
  a ← attempt (get_of "attachments" payload);
  set ← attempt (get_of "settings_restored" payload);
  let counted j label := match truthy j with Some j => [to_str j ++ str label] | None => [] end in
  let restored := counted t " in the trash"%string ++ counted a " attachment(s)"%string
                  ++ match truthy set with Some _ => [str "settings"] | None => [] end in
  match restored with [] => ret () | _ => _ok (str "Also restored: " ++ joined (str ", ") restored) end;;
  report_rows payload "renamed" "were imported under a new name";;
  report_rows payload "ignored" "were not imported".
Definition _validate_import_file (file on_conflict : pystr) : C () :=
  is_file ← at_trace (fun t => is_a_file t file);
  (if is_file : bool then ret () else _die (str "File not found: " ++ file));;
  if bool_decide (on_conflict ∉ [str "skip"; str "overwrite"])
  then _die (str "--on-conflict must be 'skip' or 'overwrite'.") else ret ().
(** [file.name] *)
Definition base_name (p : pystr) : pystr := List.last (split_on SLASH p) [].
Definition BACKUP_PASSWORD : pystr := str "Backup password (Enter if it is the current master password)".
Definition cmd_import (file on_conflict : pystr) : C () :=
  _validate_import_file file on_conflict;;
  r ← _vault (
    file_op (OpenUpload file);;
    typed ← prompt BACKUP_PASSWORD true (Some []);
    m ← gets master;
    send_at "POST" (str "/passwords/import") None []
      (FormPayload [(str "master_password", match typed with [] => m | _ => typed end); (str "on_conflict", on_conflict)]
         (base_name file) (str "application/octet-stream")));
  _check r;;
  j ← attempt (json_of r);
  _report_import j.
Definition cmd_import_csv (file on_conflict : pystr) : C () :=
  _validate_import_file file on_conflict;;
  r ← _vault (
    file_op (OpenUpload file);;
    send_at "POST" (str "/passwords/import/csv") None []
      (FormPayload [(str "on_conflict", on_conflict)] (base_name file) (str "text/csv")));
  _check r;;
  j ← attempt (json_of r);
  _report_import j.
End Cli.
