(* ===== verification/CliSpec.v ===== *)
(** What the command line client promises: every command locks the session it opened,
    whatever the server and the person answer, and deletes nothing unasked. *)
From Stdlib Require Import ZArith Lia Strings.String Strings.Byte.
From stdpp Require Import base list.
From S2P Require Import Prelude Platform Concrete Framing Asgi Bridge CoreServer Cli.

Section Commands.
Context `{Outside} `{Terminal} `{Text}.

(** The commands, with their arguments *)
Inductive Command :=
  | List_ | Get (name : pystr) | Create (name kind : pystr) | Update (name : pystr) | Delete (name : pystr) (yes : bool)
  | Trash | Restore (name : pystr) (entry_id : option Z) | Purge (name : pystr) (yes : bool) (entry_id : option Z)
  | Backup (out_dir : pystr) | Damaged (remove yes : bool) | Import (file on_conflict : pystr)
  | ImportCsv (file on_conflict : pystr).
Definition run_command (c : Command) : C () :=
  match c with
  | List_ => pw_list
  | Get name => pw_get name
  | Create name kind => pw_create name kind
  | Update name => pw_update name
  | Delete name yes => pw_delete name yes
  | Trash => pw_trash
  | Restore name entry_id => pw_restore name entry_id
  | Purge name yes entry_id => pw_purge name yes entry_id
  | Backup out_dir => cmd_backup out_dir
  | Damaged remove yes => cmd_damaged remove yes
  | Import file on_conflict => cmd_import file on_conflict
  | ImportCsv file on_conflict => cmd_import_csv file on_conflict
  end.

(** ** What a command does between unlocking and locking

    [R] is kept by everything but the requests; [okay] tells of which method and URL
    they may be. *)
Definition is_request (e : Event) : bool := match e with Sent _ _ | Streaming _ _ => true | _ => false end.
Record quiet (R : Client -> Client -> Prop) : Prop := {
  framed_order : PreOrder R;
  framed_event e c : is_request e = false -> R c (record e c);
  framed_staged p c : R c (with_staged p c);
}.
Record framed (R : Client -> Client -> Prop) (okay : pystr -> pystr -> Prop) : Prop := {
  framed_quiet : quiet R;
  framed_sent q r c : okay (rq_method q) (rq_url q) -> R c (record (Sent q r) c);
  framed_streaming q r c : R c (record (Streaming q r) c);
  framed_authenticate : keeps R _authenticate;
}.

Lemma keeps_cleaning {A} (R : Client -> Client -> Prop) `{!PreOrder R} (m : C A) cleanup :
  keeps R m -> keeps R cleanup -> keeps R (cleaning m cleanup).
Proof.
  intros Hm Hc c. unfold cleaning. specialize (Hm c). destruct (m c) as [r c1]. specialize (Hc c1).
  destruct (cleanup c1) as [[[]|e] c2]; cbn [snd] in *; by etransitivity.
Qed.
Lemma path_of_Ok name suffix c url c' :
  path_of name suffix c = (Ok url, c') -> entry_path true name suffix = Some url ∧ c' = c.
Proof.
  unfold path_of. intros Hr. apply bind_Ok in Hr as (known & c1 & [= <- <-] & Hr). destruct (_ && _); [by run_inv Hr|].
  apply lift_Ok in Hr as [Hu ->]. destruct (entry_path true name suffix); [|done]. by injection Hu as ->.
Qed.
Ltac framed_tac := repeat first [ solve [auto with keeps] | keeps_step ].

Section Quiet.
Context {R : Client -> Client -> Prop} (Q : quiet R).
#[local] Instance quiet_preorder : PreOrder R := framed_order R Q.
Lemma keeps_say err s : keeps R (say err s).
Proof. intros c. by apply (framed_event R Q). Qed.
Lemma keeps_table columns rows : keeps R (table columns rows).
Proof. intros c. by apply (framed_event R Q). Qed.
Lemma keeps_die {A} msg : keeps R (_die msg : C A).
Proof. apply keeps_bind; [apply _|apply keeps_say|intros ?; apply keeps_throw; apply _]. Qed.
Lemma keeps_ok msg : keeps R (_ok msg).
Proof. apply keeps_say. Qed.
Lemma keeps_file_op op : keeps R (file_op op).
Proof. intros c. by apply (framed_event R Q). Qed.
Lemma keeps_prompt label hidden d : keeps R (prompt label hidden d).
Proof. intros c. by apply (framed_event R Q). Qed.
Lemma keeps_confirm label : keeps R (confirm label).
Proof. intros c. by apply (framed_event R Q). Qed.
Lemma keeps_staged p : keeps R (modify (with_staged p)).
Proof. intros c. apply (framed_staged R Q). Qed.
Lemma keeps_at_trace {A} (f : list Event -> A) : keeps R (at_trace f).
Proof. apply keeps_gets, _. Qed.
#[local] Hint Resolve keeps_say keeps_table keeps_die keeps_ok keeps_file_op keeps_prompt keeps_confirm
  keeps_staged keeps_at_trace : keeps.
Lemma keeps_check r : keeps R (_check r).
Proof. unfold _check. framed_tac. Qed.
Lemma keeps_headers_for name : keeps R (headers_for name).
Proof. unfold headers_for. framed_tac. Qed.
Lemma keeps_path_of name suffix : keeps R (path_of name suffix).
Proof. unfold path_of. framed_tac. Qed.
#[local] Hint Resolve keeps_check : keeps.
Lemma keeps_entry r name : keeps R (_entry r name).
Proof. unfold _entry. framed_tac. Qed.
Lemma keeps_optional label current : keeps R (_optional label current).
Proof. unfold _optional. framed_tac. Qed.
Lemma keeps_prompt_secret label : keeps R (_prompt_secret label).
Proof. unfold _prompt_secret. framed_tac. Qed.
Lemma keeps_prompt_optional_secret label : keeps R (_prompt_optional_secret label).
Proof. unfold _prompt_optional_secret. framed_tac. Qed.
Lemma keeps_unless_note is_note m : keeps R m -> keeps R (unless_note is_note m).
Proof. intros Hm. unfold unless_note. framed_tac. Qed.
Lemma keeps_show_items r empty columns row : keeps R (show_items r empty columns row).
Proof. unfold show_items. framed_tac. Qed.
Lemma keeps_totp_code j : keeps R (_totp_code j).
Proof. unfold _totp_code. framed_tac. Qed.
#[local] Hint Resolve keeps_totp_code : keeps.
Lemma keeps_print_details item : keeps R (_print_details item).
Proof. unfold _print_details, _detail_rows. framed_tac. Qed.
Lemma keeps_report_rows payload key title : keeps R (report_rows payload key title).
Proof. unfold report_rows. framed_tac. Qed.
#[local] Hint Resolve keeps_report_rows : keeps.
Lemma keeps_report_import payload : keeps R (_report_import payload).
Proof. unfold _report_import. framed_tac. Qed.
Lemma keeps_validate_import_file file on_conflict : keeps R (_validate_import_file file on_conflict).
Proof. unfold _validate_import_file. framed_tac. Qed.
Lemma keeps_save_chunks r : keeps R (save_chunks r).
Proof. unfold save_chunks. framed_tac. Qed.
Lemma keeps_unlink_staged : keeps R unlink_staged.
Proof. unfold unlink_staged. framed_tac. Qed.
Lemma keeps_warn : keeps R _warn_plaintext_transport.
Proof. unfold _warn_plaintext_transport. framed_tac. Qed.
End Quiet.
#[local] Hint Resolve keeps_say keeps_table keeps_die keeps_ok keeps_file_op keeps_prompt keeps_confirm
  keeps_staged keeps_at_trace keeps_check keeps_headers_for keeps_path_of keeps_entry keeps_optional keeps_prompt_secret
  keeps_prompt_optional_secret keeps_unless_note keeps_show_items keeps_print_details keeps_report_import
  keeps_validate_import_file keeps_save_chunks keeps_unlink_staged keeps_warn : keeps.

(** The URLs of requests that concern no session *)
Definition UNLOCK : pystr := str "/master_password/unlock".
Definition LOCK : pystr := str "/master_password/lock".
Definition plain_url (url : pystr) : Prop := url ≠ UNLOCK ∧ url ≠ LOCK.
Lemma entry_path_plain name suffix url : entry_path true name suffix = Some url -> plain_url url.
Proof.
  unfold entry_path. rewrite andb_false_r. destruct (quote name); [|done]. cbn [mbind option_bind]. intros [= <-].
  by split.
Qed.
Lemma damaged_path_plain kind id : plain_url (str "/vault/damaged/" ++ kind ++ str "/" ++ id).
Proof. by split. Qed.

Section Framed.
Context {R : Client -> Client -> Prop} {okay : pystr -> pystr -> Prop} (F : framed R okay).
Context (Hokay : forall m url, m ≠ "DELETE"%string -> plain_url url -> okay (str m) url).
Lemma framed_is_quiet : quiet R.
Proof. apply (framed_quiet R okay F). Qed.
#[local] Instance framed_preorder : PreOrder R := framed_order R framed_is_quiet.

Lemma keeps_authenticate : keeps R _authenticate.
Proof. apply (framed_authenticate R okay F). Qed.
Lemma keeps_http q : okay (rq_method q) (rq_url q) -> keeps R (http q).
Proof. intros Hq c. by apply (framed_sent R okay F). Qed.
Lemma keeps_http_stream q : keeps R (http_stream q).
Proof. intros c. by apply (framed_streaming R okay F). Qed.
#[local] Hint Resolve framed_is_quiet keeps_authenticate keeps_http_stream : keeps.
Lemma keeps_send_at m url name params p : okay (str m) url -> keeps R (send_at m url name params p).
Proof.
  intros Hq. unfold send_at.
  assert (forall hs, keeps R (http {| rq_method := str m; rq_url := url; rq_headers := hs; rq_params := params; rq_payload := p |}))
    as Hh by (intros hs; by apply keeps_http).
  framed_tac; apply Hh.
Qed.
Lemma keeps_stream_at m url p : keeps R (stream_at m url p).
Proof. unfold stream_at. framed_tac. Qed.
Lemma keeps_send_entry m name suffix params :
  (forall url, plain_url url -> okay (str m) url) -> keeps R (send_entry m name suffix params).
Proof.
  intros Hq c. unfold send_entry, mbind, M_bind. destruct (path_of name suffix c) as [[url|e] c1] eqn:Ep.
  - apply path_of_Ok in Ep as [Eu ->]. apply keeps_send_at, Hq. by eapply entry_path_plain.
  - pose proof (keeps_path_of framed_is_quiet name suffix c) as Hk. by rewrite Ep in Hk.
Qed.
End Framed.

(** ** The commands *)

Section Whole.
Context {R R' : Client -> Client -> Prop} {okay : pystr -> pystr -> Prop} (F : framed R okay) (Q' : quiet R').
Context (Hokay : forall m url, m ≠ "DELETE"%string -> plain_url url -> okay (str m) url).
Context (Hvault : forall A (m : C A), keeps R m -> keeps R' (_vault m)).
#[local] Instance outer_preorder : PreOrder R' := framed_order R' Q'.
#[local] Instance inner_preorder : PreOrder R := framed_preorder F.
Lemma inner_quiet : quiet R.
Proof. apply (framed_quiet R okay F). Qed.
Lemma keeps_stream_at' m url p : keeps R (stream_at m url p).
Proof. by apply (keeps_stream_at F). Qed.
Lemma outer_quiet : quiet R'.
Proof. exact Q'. Qed.
#[local] Hint Resolve inner_quiet outer_quiet keeps_stream_at' : keeps.
Ltac request_tac :=
  match goal with
  | |- keeps R (send_at _ _ _ _ _) => apply (keeps_send_at F), Hokay; [done|by split]
  | |- keeps R (send_entry _ _ _ _) => apply (keeps_send_entry F); intros ? ?; by apply Hokay
  | |- keeps R' (_vault _) => apply Hvault
  | |- keeps _ (unless_note _ _) => apply keeps_unless_note
  | |- keeps _ (cleaning _ _) => apply keeps_cleaning; [apply _| |]
  end.
Ltac command_tac := repeat first [ request_tac | solve [auto with keeps] | keeps_step ].
Lemma keeps_list : keeps R' pw_list.
Proof. unfold pw_list. command_tac. Qed.
Lemma keeps_get name : keeps R' (pw_get name).
Proof. unfold pw_get. command_tac. Qed.
Lemma keeps_create name kind : keeps R' (pw_create name kind).
Proof. unfold pw_create. command_tac. Qed.
Lemma keeps_update name : keeps R' (pw_update name).
Proof. unfold pw_update. command_tac. Qed.
Lemma keeps_trash : keeps R' pw_trash.
Proof. unfold pw_trash. command_tac. Qed.
Lemma keeps_trash_params name entry_id : keeps R (_trash_params name entry_id).
Proof. unfold _trash_params. command_tac. Qed.
#[local] Hint Resolve keeps_trash_params : keeps.
Lemma keeps_restore name entry_id : keeps R' (pw_restore name entry_id).
Proof. unfold pw_restore. command_tac. Qed.
Lemma keeps_save_backup out_dir : keeps R (save_backup out_dir).
Proof. unfold save_backup. command_tac. Qed.
#[local] Hint Resolve keeps_save_backup : keeps.
Lemma keeps_backup out_dir : keeps R' (cmd_backup out_dir).
Proof. unfold cmd_backup. command_tac. Qed.
Lemma keeps_import file on_conflict : keeps R' (cmd_import file on_conflict).
Proof. unfold cmd_import. command_tac. Qed.
Lemma keeps_import_csv file on_conflict : keeps R' (cmd_import_csv file on_conflict).
Proof. unfold cmd_import_csv. command_tac. Qed.

(** Those that delete, when they may *)
Context (Hdelete : forall url, plain_url url -> okay (str "DELETE") url).
Lemma keeps_damaged remove yes : keeps R' (cmd_damaged remove yes).
Proof.
  unfold cmd_damaged. command_tac. apply (keeps_send_at F), Hdelete, damaged_path_plain.
Qed.
Lemma keeps_delete name yes : keeps R' (pw_delete name yes).
Proof.
  unfold pw_delete. command_tac. by apply (keeps_send_entry F).
Qed.
Lemma keeps_purge name yes entry_id : keeps R' (pw_purge name yes entry_id).
Proof.
  unfold pw_purge. command_tac. by apply (keeps_send_entry F).
Qed.
End Whole.

(** ** Every session is locked *)

Definition is_post (q : HttpReq) (url : pystr) : bool := bool_decide (rq_method q = str "POST" ∧ rq_url q = url).
Definition token_granted (r : Response) : option pystr :=
  if is_success r then match granted r with Ok t => t | Err _ => None end else None.
(** The token of the session a client holds: one the server granted, and that it did
    not ask to be locked since *)
Definition hold (h : option pystr) (e : Event) : option pystr :=
  match e with
  | Sent q (inr r) =>
      if is_post q UNLOCK then match token_granted r with Some t => Some t | None => h end
      else if is_post q LOCK && bool_decide (rq_headers q = auth_headers h) then None else h
  | Sent q (inl _) => if is_post q LOCK && bool_decide (rq_headers q = auth_headers h) then None else h
  | _ => h
  end.
Definition held (tr : list Event) : option pystr := foldl hold None tr.
Definition tracked (c c' : Client) : Prop :=
  ∃ t, trace c' = trace c ++ t ∧ foldl hold (auth c) t = auth c'.
Lemma tracked_order : PreOrder tracked.
Proof.
  split.
  - intros c. exists []. by rewrite app_nil_r.
  - intros a b c (t & Et & Ht) (u & Eu & Hu). exists (t ++ u). by rewrite Eu, Et, foldl_app, Ht, app_assoc.
Qed.
Lemma tracked_event e c : (forall h, hold h e = h) -> tracked c (record e c).
Proof. intros He. exists [e]. cbn. by rewrite He. Qed.
Lemma hold_plain q r h : plain_url (rq_url q) -> hold h (Sent q r) = h.
Proof.
  intros [Hu Hl]. unfold hold. assert (is_post q UNLOCK = false) as -> by (apply bool_decide_eq_false; intros [_ ?]; congruence).
  assert (is_post q LOCK = false) as -> by (apply bool_decide_eq_false; intros [_ ?]; congruence). by destruct r.
Qed.
Lemma tracked_quiet : quiet tracked.
Proof.
  split; [apply tracked_order| |].
  - intros e c He. apply tracked_event. by destruct e.
  - intros p c. exists []. by rewrite app_nil_r.
Qed.
#[local] Instance tracked_preorder : PreOrder tracked := tracked_order.
Lemma check_Ok r c u c' : _check r c = (Ok u, c') -> is_success r = true ∧ c' = c.
Proof.
  unfold _check. destruct (is_success r); [by intros [= _ <-]|]. intros Hr.
  apply bind_Ok in Hr as (d & c1 & _ & Hr). destruct (_ =? 429); unfold _die in Hr; by apply bind_Ok in Hr as (? & ? & _ & Hr).
Qed.
Lemma die_trace {A} msg c : tracked c (_die msg c : res A * Client).2.
Proof. apply (keeps_die tracked_quiet). Qed.
Definition or_unreachable (e : exn) : C Response :=
  match e with HttpError true => _die CANNOT_REACH | _ => fail e end.
Lemma or_unreachable_fails e c a : (or_unreachable e c).1 ≠ Ok a.
Proof. destruct e; try done. by destruct connect. Qed.
Lemma or_unreachable_tracked e : keeps tracked (or_unreachable e).
Proof. destruct e; try (apply keeps_throw, _). destruct connect; [apply (keeps_die tracked_quiet)|apply keeps_throw, _]. Qed.
(** A password is posted; the server answers with [r], or the command ends. *)
Lemma post_password_run c r c' :
  _post_password "/master_password/unlock" c = (r, c') ->
  match r with
  | Ok a => ∃ q, is_post q UNLOCK = true ∧ c' = record (Sent q (inr a)) c
  | Err _ => tracked c c'
  end.
Proof.
  unfold _post_password. fold or_unreachable. intros Hr.
  change (catch (http (request "POST" "/master_password/unlock" [] []
    (JsonPayload (JObject [(str "master_password", JString (master c))])))) or_unreachable c = (r, c')) in Hr.
  unfold catch, http in Hr. set (q := request _ _ _ _ _) in *. destruct (answers (trace c) q) as [b|a].
  - assert (tracked c c') as Ht.
    { assert (c' = (or_unreachable (HttpError b) (record (Sent q (inl b)) c)).2) as -> by (by rewrite Hr).
      etransitivity; [|apply or_unreachable_tracked]. by apply tracked_event. }
    destruct r as [a|e]; [|done]. exfalso. apply (or_unreachable_fails (HttpError b) (record (Sent q (inl b)) c) a). by rewrite Hr.
  - injection Hr as <- <-. by exists q.
Qed.
Lemma no_route_fails known a : no_unlock_route known a = true -> is_success a = false.
Proof.
  unfold no_unlock_route, is_success. destruct (_ || negb _) eqn:E; [done|]. apply orb_false_iff in E as [_ E].
  apply negb_false_iff, orb_true_iff in E as [->%Z.eqb_eq | ->%Z.eqb_eq]; reflexivity.
Qed.
Lemma check_success r c : is_success r = true -> _check r c = (Ok (), c).
Proof. unfold _check. by intros ->. Qed.
Lemma accept_unlock_run a c :
  match token_granted a with
  | Some t => (accept_unlock a c).2 = with_auth (Some t) c
  | None => tracked c (accept_unlock a c).2
  end.
Proof.
  unfold accept_unlock. erewrite bind_run_Ok by reflexivity. unfold token_granted.
  destruct (no_unlock_route (features c) a) eqn:Er.
  { rewrite (no_route_fails _ _ Er). apply (keeps_die tracked_quiet). }
  destruct (is_success a) eqn:Es.
  - rewrite (bind_run_Ok _ _ _ _ _ (check_success a c Es)). destruct (granted a) as [[t|]|e] eqn:Eg.
    + by erewrite bind_run_Ok by reflexivity.
    + erewrite bind_run_Ok by reflexivity. apply (keeps_die tracked_quiet).
    + erewrite bind_run_Err by reflexivity. reflexivity.
  - destruct (_check a c) as [[u|e] c2] eqn:Ec; [apply check_Ok in Ec as [? _]; congruence|].
    rewrite (bind_run_Err _ _ _ _ _ Ec). pose proof (keeps_check tracked_quiet a c) as Hk. by rewrite Ec in Hk.
Qed.
Lemma authenticate_tracked : keeps tracked _authenticate.
Proof.
  intros c. unfold _authenticate. destruct (_post_password "/master_password/unlock" c) as [[a|e] c1] eqn:Ep.
  - rewrite (bind_run_Ok _ _ _ _ _ Ep). apply post_password_run in Ep as (q & Hq & ->).
    assert (∀ x, hold x (Sent q (inr a)) = match token_granted a with Some t => Some t | None => x end) as Hhold
      by (intros x; cbn [hold]; by rewrite Hq).
    pose proof (accept_unlock_run a (record (Sent q (inr a)) c)) as Ha. destruct (token_granted a) as [t|].
    + rewrite Ha. exists [Sent q (inr a)]. cbn [foldl]. by rewrite Hhold.
    + destruct Ha as (t & Et & Ht). exists (Sent q (inr a) :: t). rewrite Et. cbn [trace record]. rewrite <- app_assoc.
      split; [done|]. cbn [foldl]. by rewrite Hhold.
  - rewrite (bind_run_Err _ _ _ _ _ Ep). by apply post_password_run in Ep.
Qed.
Lemma tracked_framed : framed tracked (fun _ => plain_url).
Proof.
  split; [apply tracked_quiet| | |apply authenticate_tracked].
  - intros q r c Hq. apply tracked_event. intros h. by apply hold_plain.
  - intros q r c. by apply tracked_event.
Qed.

(** Outside of [_vault] no session is held. *)
Definition holds_none (c c' : Client) : Prop :=
  auth c = None -> auth c' = None ∧ ∃ t, trace c' = trace c ++ t ∧ foldl hold None t = None.
Lemma holds_none_order : PreOrder holds_none.
Proof.
  split.
  - intros c Hc. split; [done|]. exists []. by rewrite app_nil_r.
  - intros a b c Hab Hbc Ha. destruct (Hab Ha) as (Hb & t & Et & Ht). destruct (Hbc Hb) as (Hc & u & Eu & Hu).
    split; [done|]. exists (t ++ u). by rewrite Eu, Et, foldl_app, Ht, app_assoc.
Qed.
Lemma tracked_holds_none c c' : tracked c c' -> auth c' = None -> holds_none c c'.
Proof. intros (t & Et & Ht) Hc' Hc. rewrite Hc, Hc' in Ht. split; [done|]. by exists t. Qed.
Lemma holds_none_quiet : quiet holds_none.
Proof.
  split; [apply holds_none_order| |].
  - intros e c He Hc. split; [done|]. exists [e]. split; [done|]. by destruct e.
  - intros p c Hc. split; [done|]. exists []. by rewrite app_nil_r.
Qed.
#[local] Instance holds_none_preorder : PreOrder holds_none := holds_none_order.
Lemma hold_lock a r : hold (Some a) (Sent (request "POST" "/master_password/lock" (auth_headers (Some a)) [] NoPayload) r) = None.
Proof.
  unfold hold. assert (is_post (request "POST" "/master_password/lock" (auth_headers (Some a)) [] NoPayload) UNLOCK = false) as ->
    by by apply bool_decide_eq_false; intros [_ [=]].
  assert (is_post (request "POST" "/master_password/lock" (auth_headers (Some a)) [] NoPayload) LOCK = true) as ->
    by by apply bool_decide_eq_true.
  cbn [rq_headers request]. rewrite bool_decide_eq_true_2 by done. by destruct r.
Qed.
(** [lock] asks for the session to be locked, and never fails. *)
Lemma lock_run c : (lock c).1 = Ok () ∧ tracked c (lock c).2 ∧ auth (lock c).2 = None.
Proof.
  unfold lock. erewrite bind_run_Ok by reflexivity. destruct (auth c) as [a|] eqn:Ea; cbn [has_auth is_some].
  - set (q := request _ _ _ _ _). unfold mbind, M_bind, catch, http. destruct (answers (trace c) q) as [b|r] eqn:Er; cbn;
      (split_and!; [done| |done]); (eexists [Sent q _]); cbn; rewrite Ea; (split; [reflexivity|]); apply hold_lock.
  - erewrite bind_run_Ok by reflexivity. cbn. split_and!; [done| |done]. exists []. cbn. by rewrite app_nil_r, Ea.
Qed.
Lemma http_holds_none q : plain_url (rq_url q) -> keeps holds_none (http q).
Proof.
  intros Hq c Hc. split; [done|]. exists [Sent q (answers (trace c) q)]. split; [done|]. by apply hold_plain.
Qed.
Lemma new_vault_holds_none : keeps holds_none new_vault.
Proof.
  unfold new_vault, _features.
  assert (keeps holds_none (http (request "GET" "/meta" [] [] NoPayload))) as Hh by by apply http_holds_none.
  assert (∀ l, keeps holds_none (modify (fun c => with_auth None (with_master [] (with_meta (is_some l) (default [] l) c))))) as Hm.
  { intros l c Hc. split; [done|]. exists []. by rewrite app_nil_r. }
  pose proof (fun A => @keeps_die holds_none holds_none_quiet A CANNOT_REACH) as Hd.
  repeat first [ apply Hh | apply Hm | apply Hd | keeps_step ].
Qed.
Lemma unlock_tracked : keeps tracked unlock.
Proof.
  unfold unlock. apply keeps_bind; [apply _|apply (keeps_prompt tracked_quiet)|]. intros m.
  apply keeps_bind; [apply _| |intros ?; apply authenticate_tracked].
  intros c. exists []. by rewrite app_nil_r.
Qed.
Lemma vault_holds_none {A} (m : C A) : keeps tracked m -> keeps holds_none (_vault m).
Proof.
  intros Hm. unfold _vault. apply keeps_bind; [apply _|apply (keeps_warn holds_none_quiet)|]. intros ?.
  apply keeps_bind; [apply _|apply new_vault_holds_none|]. intros ?. intros c. unfold cleaning.
  assert (keeps tracked (unlock;; m)) as Hu by (apply keeps_bind; [apply _|apply unlock_tracked|done]).
  specialize (Hu c). destruct ((unlock;; m) c) as [r c1]. pose proof (lock_run c1) as (Hok & Ht & Hn).
  destruct (lock c1) as [[u|e] c2]; [|done]. cbn [fst snd] in *. apply tracked_holds_none; [by etransitivity|done].
Qed.
Lemma command_holds_none cmd : keeps holds_none (run_command cmd).
Proof.
  assert (∀ m url, m ≠ "DELETE"%string -> plain_url url -> (fun _ : pystr => plain_url) (str m) url) as Hokay by auto.
  assert (∀ url, plain_url url -> (fun _ : pystr => plain_url) (str "DELETE") url) as Hdelete by auto.
  assert (∀ A (m : C A), keeps tracked m -> keeps holds_none (_vault m)) as Hv by (intros A m; apply vault_holds_none).
  destruct cmd; cbn [run_command].
  - apply (keeps_list tracked_framed holds_none_quiet); done.
  - apply (keeps_get tracked_framed holds_none_quiet); done.
  - apply (keeps_create tracked_framed holds_none_quiet); done.
  - apply (keeps_update tracked_framed holds_none_quiet); done.
  - apply (keeps_delete tracked_framed holds_none_quiet); done.
  - apply (keeps_trash tracked_framed holds_none_quiet); done.
  - apply (keeps_restore tracked_framed holds_none_quiet); done.
  - apply (keeps_purge tracked_framed holds_none_quiet); done.
  - apply (keeps_backup tracked_framed holds_none_quiet); done.
  - apply (keeps_damaged tracked_framed holds_none_quiet); done.
  - apply (keeps_import tracked_framed holds_none_quiet); done.
  - apply (keeps_import_csv tracked_framed holds_none_quiet); done.
Qed.


(** ** Nothing is deleted unasked *)

Definition deletes (e : Event) : bool := match e with Sent q _ => bool_decide (rq_method q = str "DELETE") | _ => false end.
Definition consent (e : Event) : bool := match e with Confirmed _ yes => yes | _ => false end.
Definition guarded (tr : list Event) : Prop :=
  ∀ before e later, tr = before ++ e :: later -> deletes e = true -> existsb consent before = true.
Lemma guarded_snoc tr e : guarded tr -> deletes e = false ∨ existsb consent tr = true -> guarded (tr ++ [e]).
Proof.
  intros Hg He before d later E Hd. destruct later as [|x later] using rev_ind; [|clear IHlater].
  - apply app_inj_tail in E as [-> ->]. destruct He as [He|He]; [congruence|done].
  - rewrite app_comm_cons, app_assoc in E. apply app_inj_tail in E as [-> ->]. by eapply Hg.
Qed.
Definition extends (c c' : Client) : Prop := ∃ t, trace c' = trace c ++ t.
(** [asked] says whether the person was asked before. *)
Definition minds (asked : bool) (c c' : Client) : Prop :=
  extends c c' ∧ (asked = false ∨ existsb consent (trace c) = true -> guarded (trace c) -> guarded (trace c')).
Lemma minds_order asked : PreOrder (minds asked).
Proof.
  split.
  - intros c. split; [exists []; by rewrite app_nil_r|done].
  - intros a b c [(t & Et) Hab] [(u & Eu) Hbc]. split; [exists (t ++ u); by rewrite Eu, Et, app_assoc|].
    intros Ha Hg. apply Hbc; [|by apply Hab]. destruct Ha as [|Ha]; [by left|right]. by rewrite Et, existsb_app, Ha.
Qed.
Lemma minds_event asked e c : (deletes e = true -> asked = true) -> minds asked c (record e c).
Proof.
  intros He. split; [by exists [e]|]. intros Ha Hg. cbn [trace record]. apply guarded_snoc; [done|].
  destruct (deletes e); [|by left]. right. destruct Ha as [->|Ha]; [by specialize (He eq_refl)|done].
Qed.
Lemma minds_same asked c c' : trace c' = trace c -> minds asked c c'.
Proof. intros E. split; [exists []; by rewrite app_nil_r|]. by rewrite E. Qed.
Lemma minds_quiet asked : quiet (minds asked).
Proof.
  split; [apply minds_order| |].
  - intros e c He. apply minds_event. by destruct e.
  - intros p c. by apply minds_same.
Qed.
#[local] Instance minds_preorder asked : PreOrder (minds asked) := minds_order asked.
Lemma minds_http asked q : (rq_method q = str "DELETE" -> asked = true) -> keeps (minds asked) (http q).
Proof. intros Hq c. apply minds_event. cbn. intros Hd. apply Hq. by apply bool_decide_eq_true in Hd. Qed.
Lemma minds_modify asked f : (∀ c, trace (f c) = trace c) -> keeps (minds asked) (modify f).
Proof. intros Hf c. apply minds_same, Hf. Qed.
Lemma minds_authenticate asked : keeps (minds asked) _authenticate.
Proof.
  unfold _authenticate, _post_password, accept_unlock.
  repeat first [ apply minds_http; intros Em; discriminate Em | by apply minds_modify | apply (keeps_die (minds_quiet asked))
               | apply (keeps_check (minds_quiet asked)) | keeps_step ].
Qed.
Lemma minds_framed asked : framed (minds asked) (fun m _ => m = str "DELETE" -> asked = true).
Proof.
  split; [apply minds_quiet| | |apply minds_authenticate].
  - intros q r c Hq. apply minds_event. cbn. intros Hd. apply Hq. by apply bool_decide_eq_true in Hd.
  - intros q r c. by apply minds_event.
Qed.
Lemma minds_vault asked {A} (m : C A) : keeps (minds asked) m -> keeps (minds asked) (_vault m).
Proof.
  intros Hm. unfold _vault, new_vault, _features, unlock, lock.
  repeat first [ apply Hm | apply minds_http; intros Em; discriminate Em | by apply minds_modify | apply (keeps_die (minds_quiet asked))
               | apply (keeps_warn (minds_quiet asked)) | apply (keeps_prompt (minds_quiet asked)) | apply minds_authenticate
               | apply keeps_cleaning; [apply _| |] | keeps_step ].
Qed.
Lemma minds_confirmed {A} label (m : C A) : keeps (minds true) m -> keeps (minds false) (confirm label;; m).
Proof.
  intros Hm c. unfold mbind, M_bind, confirm. destruct (consents (trace c) label) eqn:Ec.
  - destruct (Hm (record (Confirmed label true) c)) as [(t & Et) Hg]. split.
    + exists (Confirmed label true :: t). rewrite Et. cbn. by rewrite <- app_assoc.
    + intros _ Hc. apply Hg; [right; cbn; rewrite existsb_app; cbn; by rewrite orb_true_r|].
      cbn. apply guarded_snoc; [done|by left].
  - apply minds_event. done.
Qed.
(** The commands that were not told on the command line not to ask *)
Definition asks (cmd : Command) : bool :=
  match cmd with Delete _ yes | Purge _ yes _ | Damaged _ yes => negb yes | _ => true end.
Lemma str_literal_inj s t : str s = str t -> s = t.
Proof.
  unfold str. revert t. induction s as [|a s IH]; intros [|b t]; cbn; try done. intros [= Ha Hs].
  apply IH in Hs as ->. f_equal. by rewrite <- (Ascii.ascii_N_embedding a), Ha, Ascii.ascii_N_embedding.
Qed.
Lemma free_method asked m (url : pystr) : m ≠ "DELETE"%string -> plain_url url -> str m = str "DELETE" -> asked = true.
Proof. intros Hm _ E%str_literal_inj. done. Qed.
Lemma minds_send_entry m name suffix params : keeps (minds true) (send_entry m name suffix params).
Proof. apply (keeps_send_entry (minds_framed true)). done. Qed.
Lemma command_minds cmd : asks cmd = true -> keeps (minds false) (run_command cmd).
Proof.
  intros Ha. pose proof (minds_framed false) as F. pose proof (minds_quiet false) as Q. pose proof (free_method false) as Hokay.
  pose proof (fun A m => @minds_vault false A m) as Hv.
  destruct cmd as [| | | |name yes| | |name yes id| |remove yes| |]; cbn [run_command asks] in *;
    try (apply negb_true_iff in Ha as ->).
  - by apply (keeps_list F Q).
  - by apply (keeps_get F Q).
  - by apply (keeps_create F Q).
  - by apply (keeps_update F Q).
  - unfold pw_delete. apply keeps_bind; [apply _| |].
    + apply Hv. apply keeps_bind; [apply _|refine (keeps_send_entry F "GET" name [] [] _); by auto|]. intros r.
      apply keeps_bind; [apply _|destruct (_ =? _); [apply (keeps_check Q)|apply keeps_ret, _]|]. intros ?.
      apply minds_confirmed, minds_send_entry.
    + intros r. apply keeps_bind; [apply _|apply (keeps_check Q)|intros ?; apply (keeps_ok Q)].
  - by apply (keeps_trash F Q).
  - by apply (keeps_restore F Q).
  - apply minds_confirmed.
    apply (keeps_purge (minds_framed true) (minds_quiet true) (free_method true) (fun A m => @minds_vault true A m)
             (fun url _ _ => eq_refl) name true id).
  - by apply (keeps_backup F Q).
  - pose proof (minds_framed true) as F'. unfold cmd_damaged. apply keeps_bind; [apply _| |].
    + apply Hv. apply keeps_bind; [apply _|refine (keeps_send_at F "GET" (str "/vault/damaged") None [] NoPayload _); apply (Hokay "GET"%string (str "/vault/damaged")); [done|by split]|]. intros r.
      apply keeps_bind; [apply _|apply (keeps_check Q)|]. intros ?.
      apply keeps_bind; [apply _|apply keeps_lift, _|]. intros [|row rows]; [apply keeps_bind; [apply _|apply (keeps_ok Q)|intros ?; apply keeps_ret, _]|].
      apply keeps_bind; [apply _|apply keeps_forM; [apply _|intros ?; apply (keeps_say Q)]|]. intros ?.
      destruct (negb remove); [apply keeps_bind; [apply _|apply (keeps_say Q)|intros ?; apply keeps_ret, _]|].
      apply minds_confirmed. apply keeps_bind; [apply _| |intros ?; apply keeps_ret, _].
      apply keeps_forM; [apply _|]. intros row'. apply keeps_bind; [apply _|by apply (keeps_send_at F')|].
      intros ?. apply (keeps_check (minds_quiet true)).
    + intros [rows|]; [apply (keeps_ok Q)|apply keeps_ret, _].
  - by apply (keeps_import F Q).
  - by apply (keeps_import_csv F Q).
Qed.

(** A command that was not told not to ask deletes nothing unasked: whatever the
    server answers, every DELETE request comes after a question the person said yes
    to. *)
Theorem commands_ask_before_deleting cmd r c before e later :
  asks cmd = true -> run_command cmd no_client = (r, c) ->
  trace c = before ++ e :: later -> deletes e = true -> ∃ label, Confirmed label true ∈ before.
Proof.
  intros Ha Hr Ht Hd. destruct (command_minds cmd Ha no_client) as [_ Hg]. rewrite Hr in Hg.
  assert (existsb consent before = true) as Hb.
  { apply (Hg (or_introl eq_refl)) with e later; [|done|done]. intros b x l E. by destruct b. }
  apply existsb_exists in Hb as (x & Hx%list_elem_of_In & Hc). destruct x as [| | |label []| | |]; try done. by exists label.
Qed.
End Commands.

(** ** A server and a person that answer *)

Module Scene.
Definition ok (j : json) : Response := {| rs_status := 200; rs_json := inr j; rs_text := [] |}.
Definition refused (status : Z) : Response := {| rs_status := status; rs_json := inl (NotJson []); rs_text := str "no" |}.
Definition granting : json := JObject [(str "valid", JBool true); (str "session_token", JString (str "token"))].
Definition is_unlock (e : Event) : bool := match e with Sent q _ => is_post q UNLOCK | _ => false end.
(** The first request of a session finds it ended; the entry is there. *)
Definition respond (tr : list Event) (q : HttpReq) : bool + Response :=
  if bool_decide (rq_url q = str "/meta") then inr (ok (JObject [(str "features", JList [JString SESSIONS])]))
  else if is_post q UNLOCK then inr (ok granting)
  else if is_post q LOCK then inl false
  else if (length (List.filter is_unlock tr) <? 2)%nat then inr (refused 401)
  else inr (ok (JObject [])).
#[local] Instance scene : Outside := {|
  answers := respond;
  streams := fun _ _ => inl true;
  types := fun _ _ => Some (str "password");
  consents := fun _ _ => true;
  files := fun _ _ => None;
  is_a_file := fun _ _ => true;
  random_part := fun _ => str "x";
  stamp_now := fun _ => str "20260101_000000";
  totp := fun _ _ => None;
|}.
#[local] Instance terminal : Terminal := {|
  api_url := str "http://localhost:8000/api";
  api_scheme := str "http";
  api_host := Some (str "localhost");
  escape := fun s => s;
  py_str := fun _ => [];
|}.
Definition removal : res () * Client := Eval vm_compute in run_command (Delete (str "mail") false) no_client.
Lemma removal_run : run_command (Delete (str "mail") false) no_client = removal.
Proof. vm_compute. reflexivity. Qed.
Definition asked_first : list Event := Eval vm_compute in take 7 (trace removal.2).
Lemma removal_deletes :
  ∃ e later, trace removal.2 = asked_first ++ e :: later ∧ deletes e = true.
Proof. eexists _, _. split; vm_compute; reflexivity. Qed.
End Scene.
Import Scene.
#[local] Existing Instances scene terminal.
Lemma commands_ask_before_deleting_witness : ∃ label, Confirmed label true ∈ asked_first.
Proof.
  destruct removal_deletes as (e & later & Ht & Hd).
  exact (commands_ask_before_deleting (Delete (str "mail") false) removal.1 removal.2 asked_first e later
           eq_refl removal_run Ht Hd).
Defined.
