(* ===== verification/Mcp.v ===== *)
(** The tools of the MCP server ([backend/mcp_server.py]): what a service account may
    ask for. The protocol itself, which decodes a tool's arguments and finds the
    bearer token of its request, is the library's. *)
From Stdlib Require Import ZArith Lia Strings.String Strings.Byte.
From stdpp Require Import base list gmap.
From S2P Require Import Prelude Crypto Platform Models Engine Records Context Folder.
From S2P Require Import Group Password Schemas Attachment Acl MasterPassword Auth BackupFormat Backup Api.

(** What [EntryChanges] may name: a field that is absent keeps its value. *)
Record EntryChanges := {
  ch_name : option pystr;
  ch_kind : option pystr;
  ch_username : option (option pystr);
  ch_value : option pystr;
  ch_url : option (option pystr);
  ch_totp_secret : option (option pystr);
  ch_description : option (option pystr);
  ch_tags : option (list pystr);
  ch_custom_fields : option (list StoredField);
  ch_folder : option (option pystr);
  ch_favorite : option bool;
}.
(** [not changes] *)
Definition no_changes (ch : EntryChanges) : bool :=
  negb (is_some (ch_name ch) || is_some (ch_kind ch) || is_some (ch_username ch) || is_some (ch_value ch)
    || is_some (ch_url ch) || is_some (ch_totp_secret ch) || is_some (ch_description ch)
    || is_some (ch_tags ch) || is_some (ch_custom_fields ch) || is_some (ch_folder ch)
    || is_some (ch_favorite ch)).

(** [values = {field: getattr(current, field) ...}; values.update(changes)]: the custom
    fields of an entry that was read are [StoredCustomField]s, those of the changes
    [CustomField]s. *)
Definition changed_values (r : PasswordResponse) (ch : EntryChanges) : PasswordInput :=
  let d := pr_document r in
  {| in_name := default (doc_name d) (ch_name ch);
     in_kind := default (kind_text (doc_kind d)) (ch_kind ch);
     in_username := default (doc_username d) (ch_username ch);
     in_value := default (doc_value d) (ch_value ch);
     in_url := default (doc_url d) (ch_url ch);
     in_totp_secret := default (doc_totp_secret d) (ch_totp_secret ch);
     in_description := default (doc_description d) (ch_description ch);
     in_tags := default (doc_tags d) (ch_tags ch);
     in_custom_fields := match ch_custom_fields ch with
                         | Some l => map FieldModel l
                         | None => map OtherModel (doc_custom_fields d)
                         end;
     in_folder := default (doc_folder d) (ch_folder ch);
     in_folder_id := pr_folder_id r;
     in_favorite := default (doc_favorite d) (ch_favorite ch) |}.
(** [Password.model_validate(values)]: a [ValidationError] is a [ValueError]. *)
Definition valid_password `{Text} `{!Pydantic} (i : PasswordInput) : res Password :=
  match validate_password i with
  | inr p => Ok p
  | inl (field, message) => Err (ValueError (field ++ str ": " ++ message))
  end.

(** What the bearer token of a request stands for *)
Record AccessToken := { at_token : pystr; at_client_id : pystr; at_subject : pystr; at_scopes : list pystr }.
Definition MCP_SCOPE : pystr := str "vault".

(** An item of [list_entries]: neither the password nor the other secrets of an entry *)
Record IndexItem := {
  ix_id : Z;
  ix_name : pystr;
  ix_kind : Kind;
  ix_username : option pystr;
  ix_url : option pystr;
  ix_description : option pystr;
  ix_tags : list pystr;
  ix_folder : option pystr;
  ix_folder_id : option Z;
  ix_favorite : bool;
  ix_owner : pystr;
  ix_access : EntryPermission;
  ix_access_sources : list FolderAccessSource;
}.

Section Tools.
Context `{Cryptography} `{Environment} `{Codec} `{BackupCodec} `{Text} `{!Pydantic} `{Config}.

Definition verify_token (token : pystr) : M World (option AccessToken) :=
  user ← transaction false (hash ← lift (token_digest token); query (service_account hash));
  mret (match user with
    | None => None
    | Some (id, _) =>
        Some {| at_token := token; at_client_id := str "ciphermoth-service-" ++ str_of_Z id;
                at_subject := str_of_Z id; at_scopes := [MCP_SCOPE] |}
    end).

(** [_current_token] of the request with this access token *)
Definition current_token (access : option AccessToken) : res pystr :=
  match access with
  | None => Err (SessionRequired (str "Authentication is required."))
  | Some a => Ok (at_token a)
  end.

(** [model_copy(update={"access_sources": ...})] *)
Definition with_sources (ss : list FolderAccessSource) (r : PasswordResponse) : PasswordResponse :=
  {| pr_id := pr_id r; pr_owner_id := pr_owner_id r; pr_owner_username := pr_owner_username r;
     pr_access := pr_access r; pr_access_sources := ss; pr_document := pr_document r;
     pr_folder_id := pr_folder_id r; pr_backed_up := pr_backed_up r; pr_created := pr_created r;
     pr_updated := pr_updated r; pr_deleted := pr_deleted r; pr_attachment_count := pr_attachment_count r |}.
(** [_detail] *)
Definition detail (owner : pystr) (access : EntryPermission) (r : PasswordResponse) : PasswordResponse :=
  {| pr_id := pr_id r; pr_owner_id := pr_owner_id r; pr_owner_username := Some owner;
     pr_access := Some access; pr_access_sources := pr_access_sources r; pr_document := pr_document r;
     pr_folder_id := pr_folder_id r; pr_backed_up := pr_backed_up r; pr_created := pr_created r;
     pr_updated := pr_updated r; pr_deleted := pr_deleted r; pr_attachment_count := pr_attachment_count r |}.
Definition index (owner : pystr) (access : EntryPermission) (r : PasswordResponse) : IndexItem :=
  let d := pr_document r in
  {| ix_id := pr_id r; ix_name := doc_name d; ix_kind := doc_kind d; ix_username := doc_username d;
     ix_url := doc_url d; ix_description := doc_description d; ix_tags := doc_tags d;
     ix_folder := doc_folder d; ix_folder_id := pr_folder_id r; ix_favorite := doc_favorite d;
     ix_owner := owner; ix_access := access; ix_access_sources := pr_access_sources r |}.

(** [_by_id] *)
Definition by_id (c : AuthContext) (entry_id : Z) (needed : EntryPermission)
    : M World (PasswordResponse * pystr * EntryPermission) :=
  access ← require c entry_id needed;
  model ← query (fun d => t_rows (entries d) !! entry_id);
  match model with
  | None => throw (SessionRequired (str "Entry is no longer available."))
  | Some e =>
      document ← lift (open_entry (ctx_key c) entry_id e);
      count ← query (fun d => attachment_counts d entry_id);
      owner ← query (fun d => o ← entry_owner_id e; u ← t_rows (users d) !! o; Some (username u));
      match owner with
      | None => throw (SessionRequired (str "Entry owner is missing."))
      | Some owner =>
          ss ← sources c entry_id;
          mret (with_sources ss (to_response entry_id e document count), owner, access)
      end
  end.

(** The bodies of the tools, for the account their token stands for *)
Definition list_entries_as (c : AuthContext) : M World (list IndexItem) :=
  entries ← auth_get_passwords c (ctx_key c);
  access ← access_map c false;
  forM entries (fun r =>
    match last (filter (fun a => ea_entry_id a = pr_id r) access) with
    | None => throw KeyError
    | Some a => mret (index (ea_owner_username a) (ea_access a) r)
    end).
Definition get_entry_as (c : AuthContext) (entry_id : Z) : M World PasswordResponse :=
  '(entry, owner, access) ← by_id c entry_id perm_read;
  mret (detail owner access entry).
(** [select(EntryModel).where(name_index == ..., deleted IS NULL)] *)
Definition active_with_index (index : bytes) (d : DB) : option Z :=
  fst <$> head (filter (fun p => entry_name_index p.2 = CBlob index ∧ deleted p.2 = None)
    (rows (t_rows (entries d)))).
Definition create_entry_as (c : AuthContext) (entry : Password) : M World PasswordResponse :=
  auth_create_password c entry (ctx_key c);;
  index ← lift (name_index (ctx_key c) (password_name entry));
  model ← query (active_with_index index);
  match model with
  | None => throw AssertionError
  | Some id =>
      '(created, owner, access) ← by_id c id perm_write;
      mret (detail owner access created)
  end.
Definition update_entry_as (c : AuthContext) (entry_id : Z) (changes : EntryChanges)
    : M World PasswordResponse :=
  '(current, _, _) ← by_id c entry_id perm_write;
  updated ← lift (valid_password (changed_values current changes));
  auth_update_password c (doc_name (pr_document current)) updated (ctx_key c);;
  '(result, owner, access) ← by_id c entry_id perm_write;
  mret (detail owner access result).
Definition delete_entry_as (c : AuthContext) (entry_id : Z) : M World Z :=
  '(current, _, _) ← by_id c entry_id perm_write;
  auth_delete_password c (doc_name (pr_document current)) (ctx_key c);;
  mret entry_id.
Definition relinquish_entry_as (c : AuthContext) (entry_id : Z) : M World (Z * option EntryPermission) :=
  remaining ← relinquish c entry_id;
  mret (entry_id, remaining).

(** The tools: each in a transaction of its own, which begins with the token *)
Definition tool_transaction {A} (write : bool) (access : option AccessToken) (body : AuthContext -> M World A)
    : M World A :=
  transaction write (token ← lift (current_token access); c ← resolve_service_token token; body c).

Definition list_entries (access : option AccessToken) : M World (list IndexItem) :=
  tool_transaction false access list_entries_as.
Definition get_entry (access : option AccessToken) (entry_id : Z) : M World PasswordResponse :=
  tool_transaction false access (fun c => get_entry_as c entry_id).
Definition create_entry (access : option AccessToken) (entry : Password) : M World PasswordResponse :=
  tool_transaction true access (fun c => create_entry_as c entry).
Definition update_entry (access : option AccessToken) (entry_id : Z) (changes : EntryChanges)
    : M World PasswordResponse :=
  raise_if (no_changes changes) (ValueError (str "At least one field must be changed."));;
  tool_transaction true access (fun c => update_entry_as c entry_id changes).
Definition delete_entry (access : option AccessToken) (entry_id : Z) : M World Z :=
  tool_transaction true access (fun c => delete_entry_as c entry_id).
Definition relinquish_entry (access : option AccessToken) (entry_id : Z) : M World (Z * option EntryPermission) :=
  tool_transaction true access (fun c => relinquish_entry_as c entry_id).

(** A call of any of them *)
Inductive tool :=
  | ListEntries
  | GetEntry (entry_id : Z)
  | CreateEntry (entry : Password)
  | UpdateEntry (entry_id : Z) (changes : EntryChanges)
  | DeleteEntry (entry_id : Z)
  | RelinquishEntry (entry_id : Z).
Definition writes (t : tool) : bool := match t with ListEntries | GetEntry _ => false | _ => true end.
Definition run_tool_as (t : tool) (c : AuthContext) : M World () :=
  match t with
  | ListEntries => ignoring (list_entries_as c)
  | GetEntry id => ignoring (get_entry_as c id)
  | CreateEntry p => ignoring (create_entry_as c p)
  | UpdateEntry id changes => ignoring (update_entry_as c id changes)
  | DeleteEntry id => ignoring (delete_entry_as c id)
  | RelinquishEntry id => ignoring (relinquish_entry_as c id)
  end.
Definition call_tool (t : tool) (access : option AccessToken) : M World () :=
  match t with
  | ListEntries => ignoring (list_entries access)
  | GetEntry id => ignoring (get_entry access id)
  | CreateEntry p => ignoring (create_entry access p)
  | UpdateEntry id changes => ignoring (update_entry access id changes)
  | DeleteEntry id => ignoring (delete_entry access id)
  | RelinquishEntry id => ignoring (relinquish_entry access id)
  end.
End Tools.
