(* ===== verification/Demo.v ===== *)
(** Concrete runs: a small vault built by requests on the demonstration platform
    of [Concrete.v]. The witnesses of the properties evaluate them. *)
From Stdlib Require Import ZArith Lia Strings.String Strings.Byte.
From stdpp Require Import base list gmap.
From S2P Require Import Prelude Crypto Platform Concrete Sessions Models Engine Records Context Folder.
From S2P Require Import Group Password Attachment Acl MasterPassword Auth BackupFormat Backup Legacy Api.

#[export] Instance demo_config : Config := {|
  vault_defaults := {| inactivity_ms := 300000; warn_before_ms := 60000; hidden_ms := 60000;
    debounce_ms := 1000; clipboard_clear_ms := 30000; update_check_enabled := true |};
  app_version := str "2.1.0"
|}.

(** Integers and the payload of a backup as tokens *)
#[export] Instance tokens_Z : Tokens Z.
Proof.
  refine (tokens_via (fun z : Z => (bool_decide (z < 0), [Z.to_N (Z.abs z)] : pystr))
    (fun p => let n := match p.2 with [n] => Z.of_N n | _ => 0 end in if p.1 : bool then - n else n) _).
  intros z. cbn [fst snd]. rewrite Z2N.id by lia. case_bool_decide; lia.
Defined.
#[export] Instance tokens_attachment : Tokens BackupAttachment.
Proof.
  refine (tokens_via
    (fun a => (ba_filename a, ba_content_type a, ba_size a, ba_sha256 a, ba_created a))
    (fun '(f, c, n, h, t) => {| ba_filename := f; ba_content_type := c; ba_size := n;
                                ba_sha256 := h; ba_created := t |}) _).
  by intros [].
Defined.
#[export] Instance tokens_folder : Tokens BackupFolder.
Proof.
  refine (tokens_via (fun f => (bf_uid f, bf_name f)) (fun '(u, n) => {| bf_uid := u; bf_name := n |}) _).
  by intros [].
Defined.
#[export] Instance tokens_entry : Tokens BackupEntry.
Proof.
  refine (tokens_via
    (fun e => (be_document e, be_folder_uid e, be_created e, be_updated e, be_deleted e, be_attachments e))
    (fun '(d, f, c, u, x, a) => {| be_document := d; be_folder_uid := f; be_created := c;
                                   be_updated := u; be_deleted := x; be_attachments := a |}) _).
  by intros [].
Defined.
#[export] Instance tokens_settings : Tokens SettingsModel.
Proof.
  refine (tokens_via
    (fun s => (inactivity_ms s, warn_before_ms s, hidden_ms s, debounce_ms s, clipboard_clear_ms s,
               update_check_enabled s))
    (fun '(a, b, c, d, e, f) => {| inactivity_ms := a; warn_before_ms := b; hidden_ms := c;
       debounce_ms := d; clipboard_clear_ms := e; update_check_enabled := f |}) _).
  by intros [].
Defined.
#[export] Instance tokens_manifest : Tokens BackupManifest.
Proof.
  refine (tokens_via
    (fun m => (bm_version m, bm_exported_at m, bm_app_version m, bm_settings m, bm_entries_count m, bm_folders m))
    (fun '(v, t, a, s, n, f) => {| bm_version := v; bm_exported_at := t; bm_app_version := a;
       bm_settings := s; bm_entries_count := n; bm_folders := f |}) _).
  by intros [].
Defined.

Definition demo_load_valid `{Tokens A} (valid : A -> bool) (l : bytes) : ValidationError + A :=
  match demo_load l with
  | Some a => if valid a then inr a else inl {| ve_loc := []; ve_msg := str "invalid" |}
  | None => inl {| ve_loc := []; ve_msg := str "Invalid JSON" |}
  end.
Lemma demo_load_valid_Ok `{Tokens A} (valid : A -> bool) l a :
  demo_load_valid valid l = inr a -> valid a = true.
Proof. unfold demo_load_valid. destruct (demo_load l) as [b|]; [|done]. destruct (valid b) eqn:E; [|done]. congruence. Qed.
Lemma demo_load_valid_dump `{Tokens A} (valid : A -> bool) a :
  valid a = true -> demo_load_valid valid (demo_dump a) = inr a.
Proof.
  intros Hv. unfold demo_load_valid. pose proof (demo_load_dump a 0) as E. rewrite app_nil_r in E.
  by rewrite E, Hv.
Qed.
#[export] Instance demo_backup_codec : BackupCodec := {|
  dump_manifest m := Ok (demo_dump m); load_manifest := demo_load_valid valid_manifest;
  dump_backup_entry e := Ok (demo_dump e); load_backup_entry := demo_load_valid valid_entry;
|}.
#[export] Instance demo_backup_codec_laws : BackupCodecLaws.
Proof.
  split.
  - intros b m. apply demo_load_valid_Ok.
  - intros m b Hv [= <-]. by apply demo_load_valid_dump.
  - intros b e. apply demo_load_valid_Ok.
  - intros e b raw _ Hv [= <-]. by apply demo_load_valid_dump.
Qed.

(** No archive of an earlier release can be read. *)
#[export] Instance demo_legacy : LegacyLibraries := {|
  aes_zip _ := None; json_loads _ := None; str_of_json _ := [];
  validate_legacy _ := inl ([], []); load_migration_entry _ := inl {| ve_loc := []; ve_msg := [] |};
|}.

(** A schema that accepts every row as it is *)
Definition demo_validate (f : ImportFields) : (pystr * pystr) + Password :=
  inr {| password_name := if_name f; pw_kind := if if_note f then note else Platform.login;
         pw_username := if_username f; password_value := if_value f; pw_url := if_url f;
         pw_totp_secret := if_totp_secret f; pw_description := if_description f; pw_tags := [];
         pw_custom_fields := []; pw_folder := if_folder f; pw_folder_id := None;
         pw_favorite := false |}.

Definition demo_sessions : VaultSessions :=
  {| idle_timeout_ms := 300000; tolerance_ms := EXPIRY_TOLERANCE_MS;
     max_lifetime_ms := MAX_LIFETIME_MS; max_sessions := DEFAULT_MAX_SESSIONS; sessions := [] |}.
Definition demo_start : World := fresh_world empty_db demo_sessions.

Definition demo_password : pystr := str "correct horse battery".
Definition demo_bootstrap : request := Public (Bootstrap (str "root") demo_password).
Definition demo_token : pystr := token_urlsafe 0.

(** A login entry *)
Definition demo_entry (name value : pystr) : Password :=
  {| password_name := name; pw_kind := Platform.login; pw_username := None;
     password_value := value; pw_url := None; pw_totp_secret := None; pw_description := None;
     pw_tags := []; pw_custom_fields := []; pw_folder := None; pw_folder_id := None;
     pw_favorite := false |}.
Definition with_folder_id (fid : option Z) (p : Password) : Password := with_pw_folder_id fid p.

Definition demo_run (rs : list request) : World := run_requests demo_validate rs demo_start.
(** The root account, signed in *)
Definition demo_root : World := demo_run [demo_bootstrap].
(** ... and with one entry *)
Definition demo_create_mail : request :=
  ForAccount (Some demo_token) (CreatePassword (demo_entry (str "mail") (str "s3cret"))).
Definition demo_mail : World := demo_run [demo_bootstrap; demo_create_mail].

Lemma demo_start_ok : world_ok demo_start.
Proof. split; [apply empty_db_ok..|constructor]. Qed.

(** A second account: [bob], who may write the entry [mail] *)
Definition demo_temporary : pystr := str "temporary pass phrase".
Definition demo_bob_password : pystr := str "bobs own pass phrase".
Definition demo_login_token : pystr := token_urlsafe 1.
Definition demo_bob_token : pystr := token_urlsafe 2.
Definition demo_add_bob : list request :=
  [ForAccount (Some demo_token) (CreateUser (str "bob") member (Some demo_temporary));
   Public (Login (str "bob") demo_temporary);
   ForAccount (Some demo_login_token) (ChangePassword demo_temporary demo_bob_password)].
Definition demo_share : request := ForAccount (Some demo_token) (SetShare 1 2 share_write None).
Definition demo_shared : World :=
  demo_run ([demo_bootstrap; demo_create_mail] ++ demo_add_bob ++ [demo_share]).

(** The contexts of the two accounts in a world *)
Definition demo_context (token : pystr) (w : World) : option AuthContext :=
  match (auth_context token false false (begin_transaction w)).1 with
  | Ok c => Some c
  | Err _ => None
  end.
Definition no_key : VaultKey := {| vk_raw := []; vk_records := []; vk_index := []; vk_check := [] |}.
Definition no_account : UserModel :=
  {| username := []; user_role := member; active := false; must_change_password := false;
     service_owner_id := None; service_token_hash := None;
     user_keys := {| kdf := CNull; kdf_params := DEFAULT_KDF; kdf_salt := CNull;
                     password_check := CNull; wrapped_key := CNull; key_check := CNull |} |}.
Definition no_context : AuthContext :=
  {| ctx_id := 0; ctx_user := no_account; ctx_key := no_key; ctx_token := None |}.

(** ** A database given row by row, for what needs no cryptography

    Account 1 owns entry 1, shared with account 2 for reading, and entry 2, in its
    folder 1, which group 1, with account 3 in it, may write until [demo_epoch]
    plus one hour. *)
Definition account (name : string) (r : UserRole) : UserModel :=
  {| username := str name; user_role := r; active := true; must_change_password := false;
     service_owner_id := None; service_token_hash := None; user_keys := user_keys no_account |}.
Definition plain_entry (fid : option Z) (n : Z) : EntryModel :=
  {| entry_uid := CBlob (be_encode 16 n); entry_created := Time 0; entry_updated := Time 0;
     deleted := None; entry_owner_id := Some 1; folder_id := fid;
     entry_name_index := CBlob (be_encode 32 n); entry_document := CBlob []; backed_up := false |}.
Definition plain_grant (p : SharePermission) (e : option Z) : GrantModel :=
  {| grant_permission := p; expires_at := e; granted_by := Some 1 |}.
Definition table_of {A} (l : list (Z * A)) : Table A :=
  {| t_rows := list_to_map l; t_seq := Z.of_nat (length l) |}.
Definition plain_db (group_grant_ends : Z) : DB :=
  {| vault := None;
     users := table_of [(1, account "root" admin); (2, account "bob" member); (3, account "eve" member)];
     entries := table_of [(1, plain_entry None 1); (2, plain_entry (Some 1) 2)];
     entry_access := {[ (1, 2) := plain_grant share_read None ]};
     folders := table_of [(1, {| folder_uid := CBlob (be_encode 16 3); folder_owner_id := 1;
                                 fl_name_index := CBlob (be_encode 32 3);
                                 folder_document := CBlob [] |})];
     groups := table_of [(1, {| group_uid := CBlob (be_encode 16 4);
                                gr_name_index := CBlob (be_encode 32 4);
                                group_document := CBlob [] |})];
     group_members := {[ (1, 3) := {| added_by := Some 1 |} ]};
     folder_user_access := ∅;
     folder_group_access := {[ (1, 1) := plain_grant share_write (Some group_grant_ends) ]};
     access_audit := t_empty; attachments := t_empty; settings := None |}.
Definition plain_world : World := fresh_world (plain_db (demo_epoch + 3600000000)) demo_sessions.
Definition plain_context (id : Z) (name : string) (r : UserRole) : AuthContext :=
  {| ctx_id := id; ctx_user := account name r; ctx_key := no_key; ctx_token := None |}.
Definition plain_root : AuthContext := plain_context 1 "root" admin.
Definition plain_bob : AuthContext := plain_context 2 "bob" member.
Definition plain_eve : AuthContext := plain_context 3 "eve" member.

(** The root account's request on the vault with one entry *)
Definition demo_root_view : World := begin_transaction demo_mail.
Definition demo_root_context : AuthContext := default no_context (demo_context demo_token demo_mail).

(** The entry and a folder of root's to move it to *)
Definition demo_filed : World :=
  demo_run [demo_bootstrap; demo_create_mail; ForAccount (Some demo_token) (CreateFolder (str "work"))].
Definition demo_filed_view : World := begin_transaction demo_filed.

(** ** A vault with one account and nothing else *)
Definition small_user : UserModel :=
  set_user_keys {| kdf := CText KDF_NAME; kdf_params := DEFAULT_KDF; kdf_salt := CBlob (be_encode 16 0);
    password_check := CBlob (be_encode 32 0); wrapped_key := CBlob []; key_check := CBlob (be_encode 32 0) |}
    (account "root" admin).
Definition small_db : DB :=
  match insert_user small_user empty_db with Ok (_, d) => d | Err _ => empty_db end.
Definition small_world : World := fresh_world small_db demo_sessions.
Definition small_key : VaultKey :=
  match make_vault_key (be_encode 32 7) with Ok k => k | Err _ => no_key end.
(** ... and then with one entry *)
Definition small_create : M World () :=
  create_password (Some 1) (demo_entry (str "mail") (str "s3cret")) small_key.
Definition small_mail : World := (small_create small_world).2.

Lemma small_world_ok : world_ok small_world.
Proof.
  assert (db_ok small_db) as Hok.
  { unfold small_db. destruct (insert_user small_user empty_db) as [[i d]|e] eqn:E; [|apply empty_db_ok].
    exact (insert_user_ok _ _ _ _ E empty_db_ok). }
  split; [exact Hok..|constructor].
Qed.
Lemma small_mail_ok : world_ok small_mail.
Proof. exact (frame_create_password _ _ _ (R := integrity) small_world small_world_ok). Qed.
