(* ===== verification/RecordsSpec.v ===== *)
(** What encryption at rest promises: sealed rows open to what was sealed, only
    where they were sealed, and a password opens exactly the key it protects. *)
From Stdlib Require Import ZArith Lia Strings.String Strings.Byte.
From stdpp Require Import base list gmap.
From S2P Require Import Prelude Sha256 Crypto Platform Concrete Sessions Models BackupFormat Engine.
From S2P Require Import Records MasterPassword Demo.

Section Sealing.
Context `{!Cryptography} `{!CryptographyLaws} `{!Environment} `{!EnvironmentLaws}
  `{!Codec} `{!CodecLaws}.

Lemma os_urandom_Ok n w r w' : os_urandom n w = (Ok r, w') -> length r = n.
Proof. unfold os_urandom. intros [= <- _]. apply urandom_length. Qed.

Lemma load_padded_entry d : load_entry (padded (dump_entry d)) = Some d.
Proof. apply load_dump_entry. Qed.
Lemma load_padded_named d : load_named (padded (dump_named d)) = Some d.
Proof. apply load_dump_named. Qed.
Lemma load_padded_metadata d : load_metadata (padded (dump_metadata d)) = Some d.
Proof. apply load_dump_metadata. Qed.

(** Opening undoes sealing, for every role. *)
Lemma key_open_seal_entry key uid d n s :
  length n = NONCE_BYTES -> key_seal_entry key uid d n = Ok s ->
  key_open_entry key uid (CBlob s) = Ok (padded d).
Proof.
  intros Hn Hs. unfold key_seal_entry, key_open_entry in *. res_inv Hs. rewrite R. by apply open_seal.
Qed.
Lemma key_open_seal_folder key uid o d n s :
  length n = NONCE_BYTES -> key_seal_folder key uid o d n = Ok s ->
  key_open_folder key uid o (CBlob s) = Ok (padded d).
Proof.
  intros Hn Hs. unfold key_seal_folder, key_open_folder in *. res_inv Hs. rewrite R. simpl. rewrite R0.
  by apply open_seal.
Qed.
Lemma key_open_seal_group key uid d n s :
  length n = NONCE_BYTES -> key_seal_group key uid d n = Ok s ->
  key_open_group key uid (CBlob s) = Ok (padded d).
Proof.
  intros Hn Hs. unfold key_seal_group, key_open_group in *. res_inv Hs. rewrite R. by apply open_seal.
Qed.
Lemma key_open_seal_metadata key uid e d n s :
  length n = NONCE_BYTES -> key_seal_attachment_metadata key uid e d n = Ok s ->
  key_open_attachment_metadata key uid e (CBlob s) = Ok (padded d).
Proof.
  intros Hn Hs. unfold key_seal_attachment_metadata, key_open_attachment_metadata in *.
  res_inv Hs. rewrite R. by apply open_seal.
Qed.
Lemma key_open_seal_content key uid e d n s :
  length n = NONCE_BYTES -> key_seal_attachment_content key uid e d n = Ok s ->
  key_open_attachment_content key uid e (CBlob s) = Ok d.
Proof.
  intros Hn Hs. unfold key_seal_attachment_content, key_open_attachment_content in *.
  res_inv Hs. rewrite R. by apply open_seal.
Qed.

Lemma index_matches_self i : index_matches i (CBlob i) = true.
Proof. unfold index_matches. by apply bool_decide_eq_true. Qed.

Lemma seal_entry_Ok key e doc w e' w' :
  seal_entry key e doc w = (Ok e', w') ->
  ∃ index sealed nonce, e' = with_sealed index sealed e ∧ name_index key (doc_name doc) = Ok index ∧
    length nonce = NONCE_BYTES ∧ key_seal_entry key (entry_uid e) (dump_entry doc) nonce = Ok sealed ∧
    same_state w w' ∧ Z.of_nat (length (dump_entry doc)) ≤ MAX_ENTRY_STORED_BYTES.
Proof.
  intros Hs. pose proof (same_seal_entry key e doc w) as Hss. rewrite Hs in Hss.
  unfold seal_entry in Hs. run_inv Hs.
  match goal with Hu : os_urandom _ _ = _ |- _ => apply os_urandom_Ok in Hu end.
  match goal with Hl : (_ <? _) = false |- _ => apply Z.ltb_ge in Hl end. eauto 10.
Qed.

Lemma open_seal_entry key id e doc w e' w' :
  seal_entry key e doc w = (Ok e', w') -> entry_times_ok e = true ->
  open_entry key id e' = Ok doc.
Proof.
  intros (index & sealed & nonce & -> & Hi & Hn & Hk & _)%seal_entry_Ok Ht.
  unfold open_entry. change (entry_times_ok (with_sealed index sealed e)) with (entry_times_ok e).
  rewrite Ht. cbn [negb entry_uid entry_document with_sealed entry_name_index].
  rewrite (key_open_seal_entry _ _ _ _ _ Hn Hk). unfold decoded.
  rewrite load_padded_entry. cbn. rewrite Hi. cbn. by rewrite index_matches_self.
Qed.

Lemma open_seal_folder key id f name w f' w' :
  seal_folder key f name w = (Ok f', w') -> open_folder key id f' = Ok name.
Proof.
  unfold seal_folder. intros Hs. run_inv Hs.
  match goal with Hu : os_urandom _ _ = _ |- _ => apply os_urandom_Ok in Hu as Hn end.
  match goal with Hk : key_seal_folder _ _ _ _ _ = _ |- _ => eapply key_open_seal_folder in Hk; [|exact Hn] end.
  unfold open_folder. cbn [folder_uid folder_owner_id folder_document fl_name_index].
  match goal with Hk : key_open_folder _ _ _ _ = _ |- _ => rewrite Hk end.
  unfold decoded. rewrite load_padded_named. cbn.
  match goal with Hi : folder_name_index _ _ _ = _ |- _ => rewrite Hi end. cbn. by rewrite index_matches_self.
Qed.
Lemma open_seal_group key id g name w g' w' :
  seal_group key g name w = (Ok g', w') -> open_group key id g' = Ok name.
Proof.
  unfold seal_group. intros Hs. run_inv Hs.
  match goal with Hu : os_urandom _ _ = _ |- _ => apply os_urandom_Ok in Hu as Hn end.
  match goal with Hk : key_seal_group _ _ _ _ = _ |- _ => eapply key_open_seal_group in Hk; [|exact Hn] end.
  unfold open_group. cbn [group_uid group_document gr_name_index].
  match goal with Hk : key_open_group _ _ _ = _ |- _ => rewrite Hk end.
  unfold decoded. rewrite load_padded_named. cbn.
  match goal with Hi : group_name_index _ _ = _ |- _ => rewrite Hi end. cbn. by rewrite index_matches_self.
Qed.

(** An attachment opens whenever it was saved: its time is not sealed. *)
Lemma open_seal_attachment key id a uid m data w a' w' :
  seal_attachment key a uid m data w = (Ok a', w') ->
  open_attachment_content key id a' uid = Ok data ∧
  (forall c, is_datetime c = true -> data ≠ [] ->
     open_attachment_metadata key id (set_attachment_created c a') uid = Ok m) ∧
  set_attachment_created (attachment_created a) a' = a' ∧
  attachment_entry_id a' = attachment_entry_id a ∧ size_bytes a' = CInt (Z.of_nat (length data)).
Proof.
  unfold seal_attachment. intros Hs. run_inv Hs.
  repeat match goal with Hu : os_urandom _ _ = _ |- _ => apply os_urandom_Ok in Hu end.
  match goal with Hk : key_seal_attachment_metadata _ _ _ _ _ = _ |- _ =>
    eapply key_open_seal_metadata in Hk as Hm; [|done] end.
  match goal with Hk : key_seal_attachment_content _ _ _ _ _ = _ |- _ =>
    eapply key_open_seal_content in Hk as Hc; [|done] end.
  split; [|split; [|done]].
  - unfold open_attachment_content. cbn [attachment_uid content size_bytes]. rewrite Hc.
    by rewrite bool_decide_eq_true_2.
  - intros c Ht Hne. unfold open_attachment_metadata.
    cbn [attachment_uid attachment_created meta size_bytes positive_int set_attachment_created].
    rewrite Ht.
    assert ((0 <? Z.of_nat (length data)) = true) as -> by (apply Z.ltb_lt; destruct data; simpl; [done|lia]).
    cbn [andb negb]. rewrite Hm. unfold decoded. by rewrite load_padded_metadata.
Qed.
End Sealing.

(** ** Authenticity

    [issued] lists what was sealed under a record key: the parts it was bound to,
    the nonce and the text. That decryption accepts nothing else is what
    authenticated encryption is for; it cannot be proved of an abstract cipher. *)
Section Authenticity.
Context `{!Cryptography}.

Definition authentic (k : bytes) (issued : list (list cell * bytes)) : Prop :=
  forall nonce data ad text, aesgcm_decrypt k nonce data ad = Some text ->
    ∃ parts, (parts, text) ∈ issued ∧ associated_data parts = Ok ad.

Lemma authentic_open k issued parts ad sealed text :
  authentic k issued -> associated_data parts = Ok ad -> open k sealed ad = Ok text ->
  (parts, text) ∈ issued.
Proof.
  intros Ha Hp Ho. apply open_Ok in Ho as (s & _ & _ & _ & Hd).
  apply Ha in Hd as (parts' & Hin & Hp'). by rewrite (associated_data_inj _ _ _ Hp Hp').
Qed.
End Authenticity.

Section KeyMaterial.
Context `{!Cryptography} `{!CryptographyLaws} `{!Environment} `{!EnvironmentLaws}.

Lemma length_seal k n p ad :
  length n = NONCE_BYTES -> length (seal k n p ad) = (SEALED_OVERHEAD + length p)%nat.
Proof.
  intros Hn. unfold seal. rewrite !length_app, aesgcm_length, Hn. simpl.
  unfold SEALED_OVERHEAD, NONCE_BYTES, TAG_BYTES. lia.
Qed.

Lemma derive_Ok p salt params w d w' :
  derive p salt params w = (Ok d, w') -> argon2id p salt params = Ok d.
Proof. unfold derive. intros Hd. by run_inv Hd. Qed.

(** Material sealed by either routine: what it holds, and that it can be stored. *)
Record material_for (password : pystr) (raw_key : bytes) (m : KeyMaterial) : Prop := {
  mf_derived : ∃ derived nonce, argon2id password (km_salt m) DEFAULT_KDF = Ok derived ∧
    length nonce = NONCE_BYTES ∧
    seal_key_material derived raw_key DEFAULT_KDF (km_salt m) nonce = Ok m;
  mf_salt : length (km_salt m) = SALT_BYTES;
}.

Lemma seal_key_material_Ok derived raw_key params salt nonce m :
  seal_key_material derived raw_key params salt nonce = Ok m ->
  ∃ ad, make_vault_key raw_key = Ok {| vk_raw := raw_key; vk_records := hkdf raw_key RECORD_ENCRYPTION;
      vk_index := hkdf raw_key NAME_INDEX; vk_check := hkdf raw_key KEY_CHECK |} ∧
    m = {| km_params := params; km_salt := salt;
           km_password_check := hkdf derived PASSWORD_COMMITMENT;
           km_wrapped_key := seal (hkdf derived KEY_WRAPPING) nonce raw_key ad;
           km_key_check := hkdf raw_key KEY_CHECK |}.
Proof.
  unfold seal_key_material. intros Hs. res_inv Hs. exists x.
  unfold make_vault_key in *. destruct (_ =? _)%nat; [|done]. by injection R0 as <-.
Qed.

Lemma material_for_lengths password raw_key m :
  material_for password raw_key m ->
  km_params m = DEFAULT_KDF ∧ length (km_password_check m) = 32%nat ∧
  length (km_wrapped_key m) = 61%nat ∧ length (km_key_check m) = 32%nat.
Proof.
  intros [(derived & nonce & _ & Hn & Hs) _].
  apply seal_key_material_Ok in Hs as (ad & Hk & ->). apply make_vault_key_Ok in Hk as [_ Hl].
  cbn [km_params km_password_check km_wrapped_key km_key_check]. unfold hkdf.
  rewrite !hkdf_length, length_seal, Hl by done. done.
Qed.

(** Stored in its columns, the material reads back as it was. *)
Lemma material_from_stored a b password raw_key m :
  material_for password raw_key m -> material_from a b (stored_material m) = Ok m.
Proof.
  intros Hm. destruct (material_for_lengths _ _ _ Hm) as (Hp & L1 & L2 & L3).
  pose proof (mf_salt _ _ _ Hm) as L4. unfold material_from, stored_material, is_blob_of_length.
  cbn [kdf_salt password_check wrapped_key key_check kdf kdf_params blob_of].
  rewrite L1, L2, L3, L4, Hp. rewrite bool_decide_eq_false_2 by (intros E; by apply E).
  cbn. destruct m. simpl in *. by subst.
Qed.

Lemma unlock_material_for password raw_key m :
  material_for password raw_key m ->
  ∃ key, make_vault_key raw_key = Ok key ∧ unlock_key_material password m = Ok (Some key).
Proof.
  intros Hm. pose proof (material_for_lengths _ _ _ Hm) as (Hp & _).
  destruct Hm as [(derived & nonce & Hd & Hn & Hs) _].
  pose proof Hs as (ad & Hk & _)%seal_key_material_Ok. eexists. split; [exact Hk|].
  unfold unlock_key_material. rewrite Hp, Hd. cbn. by eapply open_seal_key_material.
Qed.

Lemma create_key_material_Ok password w m key w' :
  create_key_material password w = (Ok (m, key), w') ->
  material_for password (vk_raw key) m ∧ make_vault_key (vk_raw key) = Ok key.
Proof.
  unfold create_key_material. intros Hc. run_inv Hc.
  repeat match goal with Hu : os_urandom _ _ = _ |- _ => apply os_urandom_Ok in Hu end.
  match goal with Hd : derive _ _ _ _ = _ |- _ => apply derive_Ok in Hd end.
  match goal with Hk : make_vault_key _ = _ |- _ => pose proof (make_vault_key_Ok _ _ Hk) as [Hr _]; rewrite Hr end.
  match goal with Hs : seal_key_material _ _ _ _ _ = _ |- _ =>
    pose proof Hs as (ad & _ & Em)%seal_key_material_Ok;
    assert (km_salt m = x) as Hsalt by (by rewrite Em) end.
  split; [|done]. split; rewrite Hsalt; eauto 10.
Qed.

Lemma wrap_key_material_Ok password key w m w' :
  wrap_key_material password key w = (Ok m, w') -> material_for password (vk_raw key) m.
Proof.
  unfold wrap_key_material. intros Hc. run_inv Hc.
  repeat match goal with Hu : os_urandom _ _ = _ |- _ => apply os_urandom_Ok in Hu end.
  match goal with Hd : derive _ _ _ _ = _ |- _ => apply derive_Ok in Hd end.
  match goal with Hs : seal_key_material _ _ _ _ _ = _ |- _ =>
    pose proof Hs as (ad & _ & Em)%seal_key_material_Ok;
    assert (km_salt m = x) as Hsalt by (by rewrite Em) end.
  split; rewrite Hsalt; eauto 10.
Qed.
End KeyMaterial.

Section Properties.
Context `{!Cryptography} `{!Environment} `{!Codec}.

(** What is sealed opens again: an entry, a folder, a group and an attachment
    sealed under a vault key open, under that key, to the very document, name,
    metadata and bytes that were given, and their stored name index is the one
    the opened name has. *)
Theorem sealed_rows_open_again `{!CryptographyLaws} `{!EnvironmentLaws} `{!CodecLaws} key id w :
  (forall e doc e' w', seal_entry key e doc w = (Ok e', w') -> entry_times_ok e = true ->
     open_entry key id e' = Ok doc) ∧
  (forall f name f' w', seal_folder key f name w = (Ok f', w') -> open_folder key id f' = Ok name) ∧
  (forall g name g' w', seal_group key g name w = (Ok g', w') -> open_group key id g' = Ok name) ∧
  (forall a uid m data a' w', seal_attachment key a uid m data w = (Ok a', w') ->
     is_datetime (attachment_created a) = true -> data ≠ [] ->
     open_attachment_metadata key id a' uid = Ok m ∧ open_attachment_content key id a' uid = Ok data).
Proof.
  split_and!.
  - intros e doc e' w' Hs Ht. by eapply open_seal_entry.
  - intros f name f' w' Hs. by eapply open_seal_folder.
  - intros g name g' w' Hs. by eapply open_seal_group.
  - intros a uid m data a' w' Hs Ht Hne.
    destruct (open_seal_attachment key id _ _ _ _ _ _ _ Hs) as (Hc & Hm & <- & _).
    split; [by apply Hm|done].
Qed.


(** C12: New key material can be stored and read back unchanged, in an account and
    in the vault's record; its password unlocks exactly the key it was made with;
    a password with another commitment is refused without an error; and whatever
    key any password unlocks has the stored key check. Wrapping a key again under
    another password keeps the key. *)
Theorem key_material_opens_its_key `{!CryptographyLaws} `{!EnvironmentLaws} password w m key w' :
  create_key_material password w = (Ok (m, key), w') ->
  (forall u, user_key_material (store_user_material m u) = Ok m) ∧
  (forall o, key_material (new_vault o m) = Ok m) ∧
  unlock_key_material password m = Ok (Some key) ∧
  (forall other derived, argon2id other (km_salt m) (km_params m) = Ok derived ->
     hkdf derived PASSWORD_COMMITMENT ≠ km_password_check m ->
     unlock_key_material other m = Ok None) ∧
  (forall other k, unlock_key_material other m = Ok (Some k) -> vk_check k = vk_check key) ∧
  (forall new w1 m2 w2, wrap_key_material new key w1 = (Ok m2, w2) ->
     unlock_key_material new m2 = Ok (Some key)).
Proof.
  intros Hc. apply create_key_material_Ok in Hc as [Hm Hk].
  destruct (unlock_material_for _ _ _ Hm) as (k0 & Hk0 & Hu). rewrite Hk in Hk0. injection Hk0 as <-.
  assert (forall other k, unlock_key_material other m = Ok (Some k) -> km_key_check m = vk_check k) as Hck.
  { intros other k. unfold unlock_key_material. intros Ho. apply res_bind_Ok in Ho as (d & _ & Ho).
    by eapply open_key_material_matches. }
  split_and!.
  - intros u. by eapply material_from_stored.
  - intros o. by eapply material_from_stored.
  - done.
  - intros other derived Hd Hne. unfold unlock_key_material. rewrite Hd. cbn.
    by apply open_key_material_wrong.
  - intros other k Hok. rewrite <- (Hck _ _ Hok). by apply (Hck password).
  - intros new w1 m2 w2 Hw. apply wrap_key_material_Ok in Hw.
    destruct (unlock_material_for _ _ _ Hw) as (k2 & Hk2 & Hu2). rewrite Hk in Hk2. by injection Hk2 as <-.
Qed.
End Properties.

(** ** The properties at concrete inputs *)

Definition sample_document : EntryDocument :=
  {| doc_name := str "mail"; doc_kind := login; doc_username := Some (str "me"); doc_value := str "s3cret";
     doc_url := None; doc_totp_secret := None; doc_description := None; doc_tags := [str "a"; str "b"];
     doc_custom_fields := []; doc_folder := None; doc_favorite := true; doc_history := [] |}.
Definition sample_vault_key : VaultKey :=
  match make_vault_key (be_encode 32 7) with Ok k => k | Err _ => no_key end.

Lemma sealed_rows_open_again_witness :
  let r := seal_entry sample_vault_key (plain_entry None 5) sample_document plain_world in
  ∃ e', r = (Ok e', r.2) ∧ open_entry sample_vault_key 5 e' = Ok sample_document.
Proof.
  intros r. assert (is_ok r.1 = true) as Hok by (vm_compute; reflexivity).
  destruct r as [[e'|x] w'] eqn:Er; [|discriminate]. exists e'. split; [reflexivity|].
  exact (proj1 (sealed_rows_open_again sample_vault_key 5 plain_world) _ _ _ _ Er eq_refl).
Defined.

(** A cipher that decrypts one message only, sealed for the entry with uid [01] *)
Definition one_message_parts : list cell := [role "entry"; CBlob [Byte.x01]].
Definition one_message : Cryptography := {|
  argon2id_derive _ _ _ _ _ := [];
  hkdf_derive _ _ := [];
  aesgcm_encrypt _ _ data _ := data ++ replicate 16 Byte.x00;
  aesgcm_decrypt _ _ _ ad :=
    if bool_decide (Ok ad = associated_data one_message_parts) then Some [Byte.x41] else None;
|}.
Definition one_sealed : cell := CBlob (Byte.x02 :: replicate 28 Byte.x00).


Definition sample_material : KeyMaterial * VaultKey :=
  match (create_key_material demo_password plain_world).1 with
  | Ok x => x
  | Err _ => ({| km_params := DEFAULT_KDF; km_salt := []; km_password_check := []; km_wrapped_key := [];
                 km_key_check := [] |}, no_key)
  end.
Definition other_derived : res bytes :=
  argon2id demo_bob_password (km_salt sample_material.1) (km_params sample_material.1).

Lemma key_material_opens_its_key_witness :
  unlock_key_material demo_password sample_material.1 = Ok (Some sample_material.2) ∧
  unlock_key_material demo_bob_password sample_material.1 = Ok None.
Proof.
  assert (is_ok (create_key_material demo_password plain_world).1 = true) as Hok
    by (vm_compute; reflexivity).
  assert (create_key_material demo_password plain_world =
    (Ok (sample_material.1, sample_material.2), (create_key_material demo_password plain_world).2)) as Er.
  { unfold sample_material. destruct (create_key_material demo_password plain_world) as [[[m key]|x] w'];
      [reflexivity|discriminate Hok]. }
  destruct (key_material_opens_its_key _ _ _ _ _ Er) as (_ & _ & Hu & Hn & _ & _).
  split; [exact Hu|].
  assert (match other_derived with
          | Ok d => bool_decide (hkdf d PASSWORD_COMMITMENT = km_password_check sample_material.1)
          | Err _ => true
          end = false) as Hd by (vm_compute; reflexivity).
  destruct other_derived as [d|e] eqn:Ed; [|discriminate Hd].
  exact (Hn _ d Ed (bool_decide_eq_false_1 _ Hd)).
Defined.
