(* ===== verification/EntriesSpec.v ===== *)
(** What the operations on entries promise (Password.v): what is created or
    updated reads back, histories are bounded, deletion goes through the trash. *)
From Stdlib Require Import ZArith Lia Strings.String Strings.Byte.
From stdpp Require Import base list gmap sorting.
From S2P Require Import Prelude Crypto Platform Concrete Sessions Models Engine Records Context Folder.
From S2P Require Import Password Attachment MasterPassword Demo RecordsSpec.

Section Facts.
Context `{!Cryptography} `{!CryptographyLaws} `{!Environment} `{!EnvironmentLaws}
  `{!Codec} `{!CodecLaws} `{!Text}.

(** ** Finding an entry *)

Lemma most_recent_None l : most_recent l = None -> l = [].
Proof.
  unfold most_recent. set (f := fun best q => _).
  assert (forall b k, foldl f (Some b) k ≠ None) as Hf.
  { intros b k. revert b. induction k as [|q k IH]; intros b; [done|]. simpl.
    destruct (stamp_le _ _); apply IH. }
  destruct l as [|q l]; [done|]. simpl. intros Hn. by apply Hf in Hn.
Qed.

Lemma most_recent_only l p : p ∈ l -> (forall q, q ∈ l -> q = p) -> most_recent l = Some p.
Proof.
  intros Hp Hall. destruct (most_recent l) as [q|] eqn:E.
  - apply most_recent_elem in E. by rewrite (Hall q E).
  - apply most_recent_None in E. subst. by apply not_elem_of_nil in Hp.
Qed.

(** An active entry is found by its name: no other active row has its index. *)
Lemma find_active_in key name id e doc index w :
  (forall i j x y, t_rows (entries (w_db w)) !! i = Some x -> t_rows (entries (w_db w)) !! j = Some y ->
     deleted x = None -> deleted y = None -> entry_name_index x = entry_name_index y -> i = j) ->
  t_rows (entries (w_db w)) !! id = Some e -> deleted e = None ->
  has_nul name = false -> name_index key name = Ok index -> entry_name_index e = CBlob index ->
  open_entry key id e = Ok doc -> doc_name doc = name ->
  find_entry key name false None w = (Ok (id, e, doc), w).
Proof.
  intros Hok Hr Hd Hn Hi Hix Ho Hdn. unfold find_entry. rewrite Hn.
  cbv [mbind M_bind lift query gets]. rewrite Hi. cbn beta iota.
  rewrite (most_recent_only _ (id, e)).
  - cbn beta iota. rewrite Ho, bool_decide_eq_false_2 by (intros E; by apply E). done.
  - rewrite list_elem_of_filter, elem_of_rows. cbn [fst snd]. split; [|done].
    rewrite Hix, Hd, index_matches_self. done.
  - intros [j x] [Hm Hin%elem_of_rows]%list_elem_of_filter. cbn [fst snd] in Hm.
    rewrite !andb_true_iff in Hm. destruct Hm as [[Hm Hdx] _].
    unfold index_matches in Hm. apply bool_decide_eq_true in Hm. apply Bool.eqb_prop in Hdx.
    assert (deleted x = None) as Hx by (by destruct (deleted x)).
    assert (j = id) as -> by (apply (Hok j id x e); [done..|congruence]).
    congruence.
Qed.

Lemma find_active key name id e doc index w :
  db_ok (w_db w) -> t_rows (entries (w_db w)) !! id = Some e -> deleted e = None ->
  has_nul name = false -> name_index key name = Ok index -> entry_name_index e = CBlob index ->
  open_entry key id e = Ok doc -> doc_name doc = name ->
  find_entry key name false None w = (Ok (id, e, doc), w).
Proof. intros Hok. apply find_active_in. apply (ok_active_name _ Hok). Qed.

(** ** Saving a row *)

(** The columns a document opens from *)
Record same_sealed (e e' : EntryModel) : Prop := {
  sd_uid : entry_uid e' = entry_uid e;
  sd_index : entry_name_index e' = entry_name_index e;
  sd_document : entry_document e' = entry_document e;
}.

Lemma open_same_sealed key id e e' doc :
  same_sealed e e' -> entry_times_ok e' = true -> open_entry key id e = Ok doc ->
  open_entry key id e' = Ok doc.
Proof.
  intros [Eu Ei Ed] Ht Ho. unfold open_entry in *. rewrite Ht, Eu, Ei, Ed.
  by destruct (entry_times_ok e).
Qed.

(** Sealing does not look at the times of the row. *)
Lemma open_sealed_as key id e doc w e1 w' e' :
  seal_entry key e doc w = (Ok e1, w') -> same_sealed e1 e' -> entry_times_ok e' = true ->
  open_entry key id e' = Ok doc ∧
  ∃ index, name_index key (doc_name doc) = Ok index ∧ entry_name_index e' = CBlob index.
Proof.
  intros (index & sealed & nonce & -> & Hi & Hn & Hk & _)%seal_entry_Ok [Eu Ei Ed] Ht.
  cbn [entry_uid entry_name_index entry_document with_sealed] in *.
  split; [|exists index; split; [done|congruence]]. unfold open_entry. rewrite Ht, Eu, Ei, Ed.
  cbn [negb]. rewrite (key_open_seal_entry _ _ _ _ _ Hn Hk). unfold decoded.
  rewrite load_padded_entry. cbn. rewrite Hi. cbn. by rewrite index_matches_self.
Qed.

(** The database after one entry row was saved *)
Definition with_entry_row (id : Z) (e : EntryModel) (d : DB) : DB :=
  with_entries (t_put id e) d.

Lemma t_put_same {A} (t : Table A) id a : t_rows t !! id = Some a -> t_put id a t = t.
Proof. intros Ha. destruct t as [m s]. unfold t_put. simpl in *. by rewrite insert_id. Qed.

Lemma save_entry_Ok id e w u w' :
  save_entry id e w = (Ok u, w') ->
  ∃ e', w_db w' = with_entry_row id e' (w_db w) ∧ (e' = e ∨ ∃ t, e' = set_entry_updated (Time t) e).
Proof.
  unfold save_entry. intros Hs. run_inv Hs. world_inv.
  destruct (bool_decide _) eqn:E in Hs.
  - run_inv Hs. apply bool_decide_eq_true in E. exists e. split; [|by left].
    unfold with_entry_row. destruct (w_db w') eqn:Ed. unfold with_entries. cbn in *. by rewrite t_put_same.
  - run_inv Hs. world_inv.
    match goal with Hu : update_entry_row _ _ _ = _ |- _ => unfold update_entry_row in Hu;
      apply res_bind_Ok in Hu as (_ & _ & [= Hu]) end.
    subst d. cbn [w_db w_set_db]. eauto 10.
Qed.

Lemma or_conflict_Ok {A} (m : M World A) c w a w' :
  or_conflict m c w = (Ok a, w') -> m w = (Ok a, w').
Proof. unfold or_conflict, catch. destruct (m w) as [[b|e] w1]; [done|]. by destruct e. Qed.

Lemma add_entry_Ok e w id w' :
  add_entry e w = (Ok id, w') ->
  ∃ c u, id = next_id (entries (w_db w)) ∧
    w_db w' = with_entries (t_insert (set_entry_created (Time c) (set_entry_updated (Time u) e))) (w_db w).
Proof.
  unfold add_entry. intros Ha. run_inv Ha. world_inv.
  match goal with Hu : insert_entry _ _ = _ |- _ => unfold insert_entry in Hu;
    apply res_bind_Ok in Hu as (_ & _ & [= <- Hu]) end.
  subst d. eauto.
Qed.

(** ** Folders of an entry *)

Lemma with_pw_folder_id_eta p : with_pw_folder (pw_folder p) p = p.
Proof. by destruct p. Qed.

Lemma folder_by_name_entries owner name key w fid w' :
  folder_by_name owner name key w = (Ok fid, w') -> entries (w_db w') = entries (w_db w).
Proof.
  unfold folder_by_name. destruct (or_none name) as [n|]; intros Hf; [|by run_inv Hf].
  destruct owner as [o|]; [|discriminate]. run_inv Hf. world_inv.
  destruct (folder_of _ _ _) as [[i f]|].
  - run_inv Hf. by world_inv.
  - run_inv Hf. world_inv.
    match goal with Hs : new_uid _ = _ |- _ => unfold new_uid in Hs end. world_inv.
    match goal with Hs : seal_folder ?k ?f ?n ?w0 = (Ok _, _) |- _ =>
      pose proof (same_seal_folder k f n w0) as Hss; rewrite Hs in Hss; destruct Hss as [Hdb _ _ _ _ _] end.
    match goal with Hu : insert_folder _ _ = _ |- _ => unfold insert_folder in Hu;
      apply res_bind_Ok in Hu as (_ & _ & [= _ Hu]) end.
    subst d. cbn in Hdb |- *. by rewrite Hdb.
Qed.

(** The folder an entry goes to: the folder of the given id, or the owner's
    folder of the given name. *)
Lemma folder_for_Ok owner p key w fid p' w' :
  folder_for owner p key w = (Ok (fid, p'), w') ->
  (∃ folder, p' = with_pw_folder folder p ∧ (pw_folder_id p = None -> folder = pw_folder p)) ∧
  (pw_folder_id p ≠ None -> fid = pw_folder_id p) ∧ entries (w_db w') = entries (w_db w).
Proof.
  unfold folder_for. destruct (pw_folder_id p) as [f|] eqn:Ep; intros Hf; run_inv Hf.
  - world_inv. destruct (t_rows _ !! f) as [x|]; [|discriminate]. run_inv Hf. split; [|done].
    eexists. by split.
  - split_and!; try done.
    + eexists. split; [symmetry; apply with_pw_folder_id_eta|done].
    + by eapply folder_by_name_entries.
Qed.
End Facts.

Section Operations.
Context `{!Cryptography} `{!CryptographyLaws} `{!Environment} `{!EnvironmentLaws}
  `{!Codec} `{!CodecLaws} `{!Text}.

Lemma same_state_entries w w' : same_state w w' -> entries (w_db w') = entries (w_db w).
Proof. by intros [-> _ _ _ _ _]. Qed.

Lemma integrity_run {A} (m : M World A) w a w' :
  keeps integrity m -> m w = (Ok a, w') -> world_ok w -> world_ok w'.
Proof. intros Hm E. specialize (Hm w). by rewrite E in Hm. Qed.

Lemma new_entry_Ok owner fid w e w' :
  new_entry owner fid w = (Ok e, w') ->
  same_state w w' ∧ entry_owner_id e = owner ∧ folder_id e = fid ∧ deleted e = None.
Proof.
  intros He. pose proof (same_new_entry owner fid w) as Hs. rewrite He in Hs. split; [done|].
  unfold new_entry in He. by run_inv He.
Qed.

Lemma create_password_Ok owner p key w w' :
  world_ok w -> has_nul (password_name p) = false ->
  create_password owner p key w = (Ok tt, w') ->
  let id := next_id (entries (w_db w)) in
  ∃ e folder, find_entry key (password_name p) false None w'
      = (Ok (id, e, document_from (with_pw_folder folder p) []), w') ∧
    (pw_folder_id p = None -> folder = pw_folder p) ∧
    (pw_folder_id p ≠ None -> folder_id e = pw_folder_id p) ∧
    entry_owner_id e = owner ∧ deleted e = None ∧
    entries (w_db w') = t_insert e (entries (w_db w)).
Proof.
  intros Hw Hnul Hc id. pose proof (frame_create_password owner p key (R := integrity)) as Hi.
  pose proof (wok_db _ (integrity_run _ _ _ _ Hi Hc Hw)) as Hok. clear Hi Hw.
  unfold create_password in Hc. run_inv Hc. destruct x as [fid p']. run_inv Hc.
  match goal with Hf : folder_for _ _ _ _ = _ |- _ => apply folder_for_Ok in Hf as ((folder & -> & Hnone) & Hsome & Hent) end.
  match goal with Hn : new_entry _ _ _ = _ |- _ => apply new_entry_Ok in Hn as (Hs1 & Hown & Hfid & Hdel) end.
  match goal with Hs : seal_entry _ _ _ _ = _ |- _ => pose proof (seal_entry_Ok _ _ _ _ _ _ Hs)
    as (ix & sealed & nonce & -> & _ & _ & _ & Hs2 & _); rename Hs into Hseal end.
  match goal with Ha : or_conflict _ _ _ = _ |- _ =>
    apply or_conflict_Ok, add_entry_Ok in Ha as (tc & tu & -> & Hdb) end.
  assert (entries (w_db s1) = entries (w_db w)) as Ew.
  { by rewrite (same_state_entries _ _ Hs2), (same_state_entries _ _ Hs1). }
  set (e1 := with_sealed ix sealed x) in *.
  set (e := set_entry_created (Time tc) (set_entry_updated (Time tu) e1)) in *.
  assert (entries (w_db w') = t_insert e (entries (w_db w))) as Ee.
  { rewrite Hdb. cbn [entries with_entries]. by rewrite Ew. }
  exists e, folder. split_and!; try done.
  - destruct (open_sealed_as key id x (document_from (with_pw_folder folder p) []) s0 e1 s1 e Hseal)
      as (Hopen & index & Hix & Hex); [by split|unfold entry_times_ok; simpl; by rewrite Hdel|].
    apply (find_active key (password_name p) id e _ index); try done.
    rewrite Ee. apply lookup_insert_eq.
  - intros Hp. rewrite <- (Hsome Hp). done.
Qed.

(** The history an update leaves *)
Definition history_after (current : EntryDocument) (p : Password) (h : list HistoryItem) : Prop :=
  if bool_decide (doc_value current ≠ password_value p) && bool_decide (pw_kind p = login) then
    ∃ t, h = take HISTORY_LIMIT
      ({| history_value := doc_value current; changed_at := isoformat t |} :: doc_history current)
  else h = doc_history current.

Lemma updated_history_Ok current p w h w' :
  updated_history current p w = (Ok h, w') -> history_after current p h.
Proof.
  unfold updated_history, history_after. destruct (_ && _); intros Hu; run_inv Hu; [|done].
  world_inv. eauto.
Qed.

Lemma same_sealed_trans e1 e2 e3 : same_sealed e1 e2 -> same_sealed e2 e3 -> same_sealed e1 e3.
Proof. intros [] []. split; congruence. Qed.

(** After a save the row is the saved one, times apart. *)
Lemma saved_row e e' :
  e' = e ∨ (∃ t, e' = set_entry_updated (Time t) e) ->
  same_sealed e e' ∧ deleted e' = deleted e ∧ entry_owner_id e' = entry_owner_id e ∧
  folder_id e' = folder_id e ∧ entry_created e' = entry_created e ∧ backed_up e' = backed_up e ∧
  (entry_times_ok e = true -> entry_times_ok e' = true).
Proof.
  intros [->|[t ->]]; (split; [by split|]); split_and!; try done.
  unfold entry_times_ok. simpl. rewrite !andb_true_iff. naive_solver.
Qed.

Lemma update_password_Ok owner name p key w w' :
  world_ok w -> has_nul (password_name p) = false ->
  update_password owner name p key w = (Ok tt, w') ->
  ∃ id e current e' folder history,
    found_entry (w_db w) key name false None id e current ∧
    find_entry key (password_name p) false None w'
      = (Ok (id, e', document_from (with_pw_folder folder p) history), w') ∧
    history_after current p history ∧
    (pw_folder_id p = None -> folder = pw_folder p) ∧
    (pw_folder_id p ≠ None -> folder_id e' = pw_folder_id p) ∧
    entry_owner_id e' = entry_owner_id e ∧ entry_uid e' = entry_uid e ∧
    entry_created e' = entry_created e ∧ backed_up e' = false ∧
    entries (w_db w') = t_put id e' (entries (w_db w)).
Proof.
  intros Hw Hnul Hc. pose proof (frame_update_password owner name p key (R := integrity)) as Hi.
  pose proof (wok_db _ (integrity_run _ _ _ _ Hi Hc Hw)) as Hok. clear Hi Hw.
  unfold update_password in Hc. run_inv Hc. destruct x as [[id e] current]. run_inv Hc.
  match goal with Hf : find_entry _ _ _ _ _ = _ |- _ => apply find_entry_Ok in Hf as [Hfound ->] end.
  assert (same_state w s0) as Hs0.
  { match goal with Ha : (if _ then _ else _) w = _ |- _ => rename Ha into Hact end.
    destruct (bool_decide _); [|by run_inv Hact].
    pose proof (same_active_entry_exists key (password_name p) w) as Hs. by rewrite Hact in Hs. }
  match goal with Hu : updated_history _ _ _ = _ |- _ =>
    pose proof (same_updated_history current p s0) as Hs1; rewrite Hu in Hs1; cbn [snd] in Hs1;
    apply updated_history_Ok in Hu as Hhist end.
  destruct x1 as [fid p']. run_inv Hc.
  match goal with Hf : folder_for _ _ _ _ = _ |- _ => apply folder_for_Ok in Hf as ((folder & -> & Hnone) & Hsome & Hent) end.
  match goal with Hs : seal_entry _ _ _ _ = _ |- _ => pose proof (seal_entry_Ok _ _ _ _ _ _ Hs)
    as (ix & sealed & nonce & -> & _ & _ & _ & Hs2 & _); rename Hs into Hseal end.
  apply or_conflict_Ok, save_entry_Ok in Hc as (e' & Hdb & He').
  apply saved_row in He' as ([Eu Ei Ed] & Hdel & Hown & Hfid & Hcre & Hbk & Ht).
  cbn [entry_uid entry_name_index entry_document deleted entry_owner_id folder_id entry_created backed_up
    with_sealed set_folder_id set_backed_up] in *.
  assert (entries (w_db w') = t_put id e' (entries (w_db w))) as Ee.
  { rewrite Hdb. unfold with_entry_row. cbn [entries with_entries]. f_equal.
    rewrite (same_state_entries _ _ Hs2), Hent. by rewrite (same_state_entries _ _ Hs1), (same_state_entries _ _ Hs0). }
  assert (entry_times_ok e = true) as Hte by (by destruct (open_entry_Ok _ _ _ _ (fe_open _ _ _ _ _ _ _ _ Hfound))).
  exists id, e, current, e', folder, x. split_and!; try done.
  - destruct (open_sealed_as key id _ _ _ _ _ e' Hseal) as (Hopen & index & Hix & Hex);
      [by split|by apply Ht|].
    apply (find_active key (password_name p) id e' _ index); try done.
    + rewrite Ee. apply lookup_insert_eq.
    + rewrite Hdel. pose proof (fe_trashed _ _ _ _ _ _ _ _ Hfound) as Htr. by destruct (deleted e).
  - intros Hp. rewrite <- (Hsome Hp). done.
Qed.

Lemma length_history_after current p h :
  history_after current p h -> (length (doc_history current) ≤ HISTORY_LIMIT)%nat ->
  (length h ≤ HISTORY_LIMIT)%nat.
Proof.
  unfold history_after. destruct (_ && _); [|by intros ->].
  intros [t ->] _. rewrite length_take. lia.
Qed.

(** ** The trash *)

Lemma delete_password_Ok name key w w' :
  delete_password name key w = (Ok tt, w') ->
  ∃ id e doc t e', found_entry (w_db w) key name false None id e doc ∧
    w_db w' = with_entry_row id e' (w_db w) ∧ deleted e' = Some (Time t) ∧
    same_sealed e e' ∧ entry_owner_id e' = entry_owner_id e ∧ folder_id e' = folder_id e ∧
    entry_times_ok e' = true.
Proof.
  unfold delete_password. intros Hd. run_inv Hd. destruct x as [[id e] doc]. run_inv Hd. world_inv.
  match goal with Hf : find_entry _ _ _ _ _ = _ |- _ => apply find_entry_Ok in Hf as [Hfound ->] end.
  apply save_entry_Ok in Hd as (e' & Hdb & He').
  apply saved_row in He' as ([Eu Ei Ed] & Hdel & Hown & Hfid & Hcre & Hbk & Ht). cbn in *.
  assert (entry_times_ok e = true) as Hte by (by destruct (open_entry_Ok _ _ _ _ (fe_open _ _ _ _ _ _ _ _ Hfound))).
  exists id, e, doc. eexists _, e'. split_and!; [done..|by split|done|done|]. apply Ht.
  revert Hte. unfold entry_times_ok. cbn. rewrite !andb_true_iff. tauto.
Qed.

Lemma restore_password_Ok name key eid w w' :
  restore_password name key eid w = (Ok tt, w') ->
  ∃ id e doc e', found_entry (w_db w) key name true eid id e doc ∧
    w_db w' = with_entry_row id e' (w_db w) ∧ deleted e' = None ∧
    same_sealed e e' ∧ entry_owner_id e' = entry_owner_id e ∧ folder_id e' = folder_id e ∧
    entry_times_ok e' = true.
Proof.
  unfold restore_password. intros Hd. run_inv Hd. destruct x as [[id e] doc]. run_inv Hd.
  match goal with Hf : find_entry _ _ _ _ _ = _ |- _ => apply find_entry_Ok in Hf as [Hfound ->] end.
  match goal with Ha : active_entry_exists ?k ?n ?w0 = (_, ?w1) |- _ =>
    pose proof (same_active_entry_exists k n w0) as Hs; rewrite Ha in Hs; destruct Hs as [Hw0 _ _ _ _ _] end.
  apply or_conflict_Ok, save_entry_Ok in Hd as (e' & Hdb & He'). cbn [snd] in Hw0. rewrite Hw0 in Hdb.
  apply saved_row in He' as ([Eu Ei Ed] & Hdel & Hown & Hfid & Hcre & Hbk & Ht). cbn in *.
  assert (entry_times_ok e = true) as Hte by (by destruct (open_entry_Ok _ _ _ _ (fe_open _ _ _ _ _ _ _ _ Hfound))).
  exists id, e, doc, e'. split_and!; [done..|by split|done|done|]. apply Ht.
  revert Hte. unfold entry_times_ok. cbn. rewrite !andb_true_iff. tauto.
Qed.

Lemma find_entry_none key name w :
  (forall i e index, t_rows (entries (w_db w)) !! i = Some e -> name_index key name = Ok index ->
     entry_name_index e = CBlob index -> is_some (deleted e) = true) ->
  is_ok (find_entry key name false None w).1 = false.
Proof.
  intros Hn. destruct (find_entry key name false None w) as [[[[id e] doc]|x] w'] eqn:E; [|done].
  apply find_entry_Ok in E as [[Hr _ (index & Hi & Hix) Ht _ _ _] _].
  exfalso. specialize (Hn _ _ _ Hr Hi Hix). congruence.
Qed.
End Operations.

(** ** Imports *)

Lemma elem_of_rows' {A} (m : gmap Z A) p : p ∈ rows m -> m !! p.1 = Some p.2.
Proof. destruct p. by rewrite elem_of_rows. Qed.

Section Importing.
Context `{!Cryptography} `{!Environment} `{!Codec} `{!Text}.

(** What an import leaves of a row that was there *)
Definition left_alone (oc : OnConflict) (e e' : EntryModel) : Prop :=
  e' = e ∨
  (oc = on_conflict_overwrite ∧ deleted e = None ∧ same_sealed e e' ∧
   entry_owner_id e' = entry_owner_id e ∧ folder_id e' = folder_id e ∧ backed_up e' = backed_up e ∧
   entry_created e' = entry_created e ∧ ∃ t, deleted e' = Some (Time t)).

Definition all_left_alone (oc : OnConflict) (d d' : DB) : Prop :=
  forall id e, t_rows (entries d) !! id = Some e ->
    ∃ e', t_rows (entries d') !! id = Some e' ∧ left_alone oc e e'.

(** The rows an import may overwrite, as they were *)
Definition from_rows (d : DB) (m : gmap cell (Z * EntryModel)) : Prop :=
  forall ix id cur e, m !! ix = Some (id, cur) -> t_rows (entries d) !! id = Some e ->
    cur = e ∧ deleted cur = None.

Lemma foldl_insert_elem {K} `{Countable K} {A} (f : A -> K) (l : list A) m k x :
  foldl (fun m p => <[f p := p]> m) m l !! k = Some x -> x ∈ l ∨ (m : gmap K A) !! k = Some x.
Proof.
  revert m. induction l as [|a l IH]; intros m Hm; [by right|]. simpl in Hm.
  apply IH in Hm as [Hin|Hm]; [left; by right|].
  apply lookup_insert_Some in Hm as [[_ ->]|[_ Hm]]; [left; left|by right].
Qed.

Lemma folder_for_entries owner p key w r w' :
  folder_for owner p key w = (Ok r, w') -> entries (w_db w') = entries (w_db w).
Proof. destruct r as [fid p']. intros Hf. by apply folder_for_Ok in Hf as (_ & _ & Hf). Qed.

Lemma same_state_run {A} (m : M World A) w a w' :
  keeps same_state m -> m w = (Ok a, w') -> w_db w' = w_db w.
Proof. intros Hm E. specialize (Hm w). rewrite E in Hm. by destruct Hm. Qed.

Lemma all_left_alone_entries oc d0 d d' :
  entries d' = entries d -> all_left_alone oc d0 d -> all_left_alone oc d0 d'.
Proof. intros E Hl id e He. rewrite E. by apply Hl. Qed.

Lemma all_left_alone_insert oc d0 d e :
  all_left_alone oc d0 d -> all_left_alone oc d0 (with_entries (t_insert e) d) ∧
  t_rows (entries d0) !! next_id (entries d) = None.
Proof.
  intros Hl. assert (t_rows (entries d0) !! next_id (entries d) = None) as Hf.
  { destruct (t_rows (entries d0) !! _) as [x|] eqn:E; [|done].
    apply Hl in E as (x' & E & _). by rewrite next_id_fresh in E. }
  split; [|done]. intros id x Hx. cbn. rewrite lookup_insert_ne by congruence. by apply Hl.
Qed.

(** The new entry of an import *)
Lemma import_add_Ok owner p key (outcome : Outcome) existing oc d0 w r w' index :
  all_left_alone oc d0 (w_db w) -> from_rows d0 existing ->
  ('(fid, resolved) ← folder_for owner p key;
   e ← new_entry owner fid;
   e ← seal_entry key e (document_from resolved []);
   id ← add_entry e;
   mret (outcome, <[CBlob index := (id, e)]> existing)) w = (Ok r, w') ->
  r.1 = outcome ∧ all_left_alone oc d0 (w_db w') ∧ from_rows d0 r.2.
Proof.
  intros Hl Hf Hr. run_inv Hr. destruct x as [fid p']. run_inv Hr.
  match goal with Hx : folder_for _ _ _ _ = _ |- _ => apply folder_for_entries in Hx as E1 end.
  match goal with Hx : new_entry _ _ _ = _ |- _ => apply same_state_run in Hx as E2; [|apply same_new_entry] end.
  match goal with Hx : seal_entry _ _ _ _ = _ |- _ => apply same_state_run in Hx as E3; [|apply same_seal_entry] end.
  match goal with Hx : add_entry _ _ = _ |- _ => apply add_entry_Ok in Hx as (tc & tu & -> & E4) end.
  cbn [fst snd]. rewrite E4, E3, E2. apply (all_left_alone_entries _ _ _ _ E1) in Hl.
  edestruct all_left_alone_insert as [Hl1 Hl2]; [exact Hl|]. split; [done|]. split; [exact Hl1|].
  intros ix i cur e0 Hm He0. apply lookup_insert_Some in Hm as [[_ [= <- <-]]|[_ Hm]]; [congruence|by eapply Hf].
Qed.

Lemma upsert_entry_Ok owner existing key oc p d0 w r w' :
  all_left_alone oc d0 (w_db w) -> from_rows d0 existing ->
  upsert_entry owner existing key oc p w = (Ok r, w') ->
  all_left_alone oc d0 (w_db w') ∧ from_rows d0 r.2.
Proof.
  intros Hl Hf Hu. unfold upsert_entry in Hu. run_inv Hu.
  destruct (existing !! CBlob x) as [[id cur]|] eqn:Ex; [|by apply (import_add_Ok _ _ _ _ _ oc d0) in Hu as (_ & ? & ?)].
  apply bind_Ok in Hu as (doc & w1 & [_ ->]%lift_Ok & Hu). destruct oc; [by run_inv Hu|].
  apply bind_Ok in Hu as (now & w2 & Hnow & Hu). apply bind_Ok in Hu as (u & w3 & Hsave & Hu).
  unfold utc_now in Hnow. run_value Hnow.
  apply save_entry_Ok in Hsave as (e' & Hdb & He'). cbn in Hdb. apply saved_row in He' as (Hsd & Hdel & Hown & Hfid & Hcre & Hbk & _).
  apply (import_add_Ok _ _ _ _ _ on_conflict_overwrite d0) in Hu as (_ & ? & ?); [done| |done].
  intros i e He. rewrite Hdb. cbn. destruct (decide (i = id)) as [->|Hne].
  - rewrite lookup_insert_eq. exists e'. split; [done|]. right. destruct (Hf _ _ _ _ Ex He) as [-> Hd0].
    destruct Hsd. split_and!; try done. eexists. exact Hdel.
  - rewrite lookup_insert_ne by done. by apply Hl.
Qed.

Lemma import_row_Ok owner key oc st row d0 w st' w' :
  all_left_alone oc d0 (w_db w) -> from_rows d0 (is_existing st) ->
  import_row owner key oc st row w = (Ok st', w') ->
  all_left_alone oc d0 (w_db w') ∧ from_rows d0 (is_existing st').
Proof.
  intros Hl Hf Hi. destruct row as [where0 p]. unfold import_row in Hi. run_inv Hi.
  destruct x0 as [p' ren]. run_inv Hi. destruct x1 as [outcome ex]. run_inv Hi.
  apply (upsert_entry_Ok _ _ _ _ _ d0) in R2; [done| |done].
  assert (s = w) as ->; [|done]. destruct (_ || _) in R0; by run_inv R0.
Qed.

Lemma import_row_count owner key oc st row w st' w' :
  import_row owner key oc st row w = (Ok st', w') ->
  let total c := n_imported c + n_skipped c + n_overwritten c in
  total (is_counts st') = total (is_counts st) + 1.
Proof.
  intros Hi total. destruct row as [where0 p]. unfold import_row in Hi. run_inv Hi.
  destruct x0 as [p' ren]. run_inv Hi. destruct x1 as [outcome ex]. run_inv Hi.
  unfold total. cbn [is_counts]. destruct outcome; simpl; lia.
Qed.

(** What [load_active] must answer: rows of the database that are not deleted. *)
Definition loads_active (la : M World (gmap cell (Z * EntryModel))) : Prop :=
  forall w m w', la w = (Ok m, w') -> w_db w' = w_db w ∧
    forall ix id cur, m !! ix = Some (id, cur) ->
      t_rows (entries (w_db w)) !! id = Some cur ∧ deleted cur = None.

Lemma store_import_Ok owner la passwords ignored key oc w r w' :
  loads_active la ->
  store_import owner la passwords ignored key oc w = (Ok r, w') ->
  all_left_alone oc (w_db w) (w_db w') ∧
  imported r + skipped r + overwritten r = Z.of_nat (length passwords) ∧
  total r = Z.of_nat (length passwords).
Proof.
  intros Hla Hs. unfold store_import in Hs. run_inv Hs. world_inv.
  match goal with Hx : la w = _ |- _ => apply Hla in Hx as [Edb Hm] end.
  apply same_state_run in R1 as Edb1; [|keeps_tac]. apply or_conflict_Ok in R2 as Hf.
  pose proof (foldM_count (fun st => n_imported (is_counts st) + n_skipped (is_counts st) + n_overwritten (is_counts st))
    _ _ _ _ _ _ (fun st row w0 st' w1 Hi => import_row_count owner key oc st row w0 st' w1 Hi) Hf) as Hc.
  apply (foldM_inv (fun st w0 => all_left_alone oc (w_db w) (w_db w0) ∧ from_rows (w_db w) (is_existing st)))
    in Hf as [Hl _].
  - split; [done|]. cbn in *. lia.
  - intros st row w0 st' w1 [? ?] Hi. by eapply import_row_Ok.
  - rewrite Edb1, Edb. split; [intros i e He; exists e; split; [done|by left]|].
    intros ix i cur e Hx He. apply Hm in Hx as [Hx ?]. split; [congruence|done].
Qed.

Lemma foldl_active_rows (d : DB) (l : list (Z * EntryModel)) ix id cur :
  (forall p, p ∈ l -> t_rows (entries d) !! p.1 = Some p.2 ∧ deleted p.2 = None) ->
  foldl (fun m p => <[entry_name_index p.2 := p]> m) (∅ : gmap cell (Z * EntryModel)) l !! ix
    = Some (id, cur) ->
  t_rows (entries d) !! id = Some cur ∧ deleted cur = None.
Proof.
  intros Hl Hm. apply foldl_insert_elem in Hm as [Hin|Hm]; [by apply Hl in Hin|done].
Qed.

Lemma all_active_loads : loads_active all_active.
Proof.
  intros w m w' Ha. unfold all_active, query in Ha. run_inv Ha. split; [done|].
  intros ix id cur. apply foldl_active_rows. intros p [? ?%elem_of_rows']%list_elem_of_filter. done.
Qed.
End Importing.

(** ** Unique names *)

Section UniqueName.
Context `{!Cryptography}.

(** No two of the candidates tried have the same name index. *)
Definition candidates_distinct (key : VaultKey) (name : pystr) (last : Z) : Prop :=
  forall i j x y, 2 ≤ i -> i < j -> j ≤ last ->
    name_index key (candidate_name name i) = Ok x ->
    name_index key (candidate_name name j) = Ok y -> x ≠ y.

Lemma name_index_Err key name e : name_index key name = Err e -> e = UnicodeEncodeError.
Proof.
  unfold name_index, encode_utf8. destruct (utf8 name); cbn; [discriminate|]. by intros [= <-].
Qed.

Lemma unique_name_from_Err fuel name k taken key e :
  unique_name_from fuel name k taken key = Err e ->
  e = UnicodeEncodeError ∨
  (e = Diverges ∧ forall j, k ≤ j -> j < k + Z.of_nat fuel ->
     ∃ x, name_index key (candidate_name name j) = Ok x ∧ x ∈ taken).
Proof.
  revert k. induction fuel as [|fuel IH]; intros k; cbn [unique_name_from].
  { intros [= <-]. right. split; [done|]. intros. lia. }
  destruct (name_index key (candidate_name name k)) as [x|e'] eqn:Ei; cbn [mbind res_bind];
    [|intros [= <-]; left; by eapply name_index_Err].
  case_bool_decide as Ht; [|discriminate]. intros Hu. destruct (IH _ Hu) as [|[-> Hall]]; [by left|right].
  split; [done|]. intros j Hk Hj. destruct (decide (j = k)) as [->|]; [eauto|]. apply Hall; lia.
Qed.

Lemma unique_name_from_Ok fuel name k taken key v :
  unique_name_from fuel name k taken key = Ok v ->
  ∃ x, name_index key v = Ok x ∧ x ∉ taken.
Proof.
  revert k. induction fuel as [|fuel IH]; intros k; cbn [unique_name_from]; [done|].
  destruct (name_index key (candidate_name name k)) as [x|e'] eqn:Ei; cbn [mbind res_bind]; [|done].
  case_bool_decide as Ht; [apply IH|]. intros [= <-]. eauto.
Qed.

Lemma distinct_indexes (n : nat) (key : VaultKey) (name : pystr) (k last : Z) (taken : gset bytes) :
  candidates_distinct key name last -> 2 ≤ k -> k + Z.of_nat n ≤ last + 1 ->
  (forall j, k ≤ j -> j < k + Z.of_nat n ->
     ∃ x, name_index key (candidate_name name j) = Ok x ∧ x ∈ taken) ->
  ∃ l : list bytes, length l = n ∧ NoDup l ∧
    forall x, x ∈ l -> x ∈ taken ∧ ∃ j, k ≤ j ∧ j < k + Z.of_nat n ∧
      name_index key (candidate_name name j) = Ok x.
Proof.
  intros Hd. revert k. induction n as [|n IH]; intros k Hk Hl Hall.
  { exists []. split_and!; [done|constructor|]. by intros x ?%not_elem_of_nil. }
  destruct (IH (k + 1)) as (l & Hlen & Hnd & Hin); [lia|lia|intros j ? ?; apply Hall; lia|].
  destruct (Hall k) as (x & Hx & Ht); [lia|lia|]. exists (x :: l). split_and!; [simpl; lia| |].
  - constructor; [|done]. intros Hxl. destruct (Hin x Hxl) as (_ & j & ? & ? & Hj).
    exact (Hd k j x x Hk ltac:(lia) ltac:(lia) Hx Hj eq_refl).
  - intros y [->|Hy]%elem_of_cons; [split; [done|]; exists k; split_and!; [lia|lia|done]|].
    destruct (Hin y Hy) as (? & j & ? & ? & ?). split; [done|]. exists j. split_and!; [lia|lia|done].
Qed.

Lemma unique_name_total (key : VaultKey) (name : pystr) (taken : gset bytes) :
  candidates_distinct key name (Z.of_nat (size taken) + 2) ->
  (∃ v x, unique_name name taken key = Ok v ∧ name_index key v = Ok x ∧ x ∉ taken) ∨
  unique_name name taken key = Err UnicodeEncodeError.
Proof.
  intros Hd. unfold unique_name. destruct (unique_name_from _ _ _ _ _) as [v|e] eqn:E.
  - left. exists v. apply unique_name_from_Ok in E as (x & ? & ?). eauto.
  - right. apply unique_name_from_Err in E as [->|[-> Hall]]; [done|]. exfalso.
    destruct (distinct_indexes (S (size taken)) key name 2 _ taken Hd) as (l & Hlen & Hnd & Hin);
      [lia|lia|done|].
    assert (size (list_to_set l : gset bytes) ≤ size taken)%nat as Hs.
    { apply subseteq_size. intros x Hx%elem_of_list_to_set. by apply Hin. }
    rewrite size_list_to_set in Hs by done. lia.
Qed.
End UniqueName.

(** ** Attachments *)

Section Attachments.
Context `{!Cryptography} `{!CryptographyLaws} `{!Environment} `{!EnvironmentLaws}
  `{!Codec} `{!CodecLaws}.

Lemma entry_attachments_insert d a :
  Permutation (entry_attachments (with_attachments (t_insert a) d) (attachment_entry_id a))
    ((next_id (attachments d), a) :: entry_attachments d (attachment_entry_id a)).
Proof.
  unfold entry_attachments, rows. cbn. rewrite !merge_sort_Permutation.
  rewrite map_to_list_insert by apply next_id_fresh. by rewrite filter_cons_True.
Qed.
Lemma attachment_bytes_perm l k : Permutation l k -> attachment_bytes l = attachment_bytes k.
Proof. unfold attachment_bytes. induction 1; simpl; lia. Qed.

Lemma add_attachment_Ok name f ct data key w r w' :
  add_attachment name f ct data key w = (Ok r, w') ->
  ∃ eid e doc a0 a t w0 w1, found_entry (w_db w) key name false None eid e doc ∧
    seal_attachment key a0 (entry_uid e) {| meta_filename := f; meta_content_type := ct |} data w0
      = (Ok a, w1) ∧
    w_db w' = with_attachments (t_insert (set_attachment_created (Time t) a)) (w_db w) ∧
    attachment_entry_id a = eid ∧ size_bytes a = CInt (Z.of_nat (length data)) ∧
    data ≠ [] ∧ Z.of_nat (length data) ≤ MAX_ATTACHMENT_BYTES ∧
    Z.of_nat (length (entry_attachments (w_db w) eid)) < MAX_ATTACHMENTS_PER_ENTRY ∧
    attachment_bytes (entry_attachments (w_db w) eid) + Z.of_nat (length data) ≤ MAX_TOTAL_BYTES ∧
    ar_id r = next_id (attachments (w_db w)).
Proof.
  unfold add_attachment. intros Ha. run_inv Ha. destruct x1 as [[eid e] doc]. run_inv Ha.
  match goal with Hf : find_entry _ _ _ _ _ = _ |- _ => apply find_entry_Ok in Hf as [Hfound ->] end.
  match goal with Hc : check_capacity ?i ?n ?w0 = (Ok _, ?w1) |- _ =>
    assert (w_db w1 = w_db w0) as E1 by (by eapply same_state_run; [apply same_check_capacity|exact Hc]);
    unfold check_capacity in Hc; run_inv Hc end.
  unfold new_uid in *. world_inv.
  match goal with Hs : seal_attachment _ _ _ _ _ ?w0 = (Ok _, ?w1) |- _ => rename Hs into Hseal;
    assert (w_db w1 = w_db w0) as E2 by (by eapply same_state_run; [apply same_seal_attachment|exact Hseal]) end.
  unfold add_attachment_row in *. world_inv.
  match goal with Hu : insert_attachment _ _ = _ |- _ => unfold insert_attachment in Hu; rename Hu into Hins end.
  apply res_bind_Ok in Hins as (_ & _ & Hins). apply res_bind_Ok in Hins as (_ & _ & Hins).
  apply res_bind_Ok in Hins as (_ & _ & [= <- <-]).
  pose proof (open_seal_attachment key 0 _ _ _ _ _ _ _ Hseal) as (_ & _ & _ & Eid & Esz).
  eexists eid, e, doc, _, _, _, _, _. split; [exact Hfound|]. split; [exact Hseal|].
  cbn in E2, Eid |- *. rewrite E2.
  repeat match goal with Hz : (_ <? _) = false |- _ => apply Z.ltb_ge in Hz end.
  match goal with Hz : (_ <=? _) = false |- _ => apply Z.leb_gt in Hz end.
  match goal with Hz : bool_decide _ = false |- _ => apply bool_decide_eq_false in Hz end.
  by split_and!.
Qed.
End Attachments.

(** ** The properties *)

Section Properties.
Context `{!Cryptography} `{!Environment} `{!Codec} `{!Text}.



(** C24: Deleting an entry only moves it to the trash: the row keeps its sealed
    document, owner and folder, gets a deletion time, and the name no longer
    finds an entry; restoring that row later clears the deletion time and
    changes nothing else that was sealed, so it opens to the same document. *)
Theorem trash_keeps_the_entry `{!CryptographyLaws} name key w w1 :
  world_ok w -> delete_password name key w = (Ok tt, w1) ->
  ∃ id e doc, found_entry (w_db w) key name false None id e doc ∧
    is_ok (find_entry key name false None w1).1 = false ∧
    (∃ e1 t, t_rows (entries (w_db w1)) !! id = Some e1 ∧ deleted e1 = Some (Time t) ∧
       same_sealed e e1 ∧ entry_owner_id e1 = entry_owner_id e ∧ folder_id e1 = folder_id e) ∧
    forall w2, restore_password name key (Some id) w1 = (Ok tt, w2) ->
      ∃ e2, t_rows (entries (w_db w2)) !! id = Some e2 ∧ deleted e2 = None ∧ same_sealed e e2 ∧
        entry_owner_id e2 = entry_owner_id e ∧ folder_id e2 = folder_id e ∧
        open_entry key id e2 = Ok doc.
Proof.
  intros Hw Hd. destruct (delete_password_Ok _ _ _ _ Hd) as (id & e & doc & t & e1 & Hf & Hdb & Hdel & Hsd & Ho & Hfo & Ht).
  pose proof Hf as [Hrow _ (index & Hi & Hix) Htr _ Hopen _].
  assert (t_rows (entries (w_db w1)) !! id = Some e1) as Hr1 by (rewrite Hdb; apply lookup_insert_eq).
  exists id, e, doc. split_and!; [done| |by eauto 10|].
  - apply find_entry_none. intros i x index' Hx Hi' Hix'. rewrite Hi in Hi'. injection Hi' as <-.
    rewrite Hdb in Hx. cbn in Hx. apply lookup_insert_Some in Hx as [[_ <-]|[Hne Hx]]; [by rewrite Hdel|].
    destruct (deleted x) eqn:Ex; [done|]. destruct Hne.
    apply (ok_active_name _ (wok_db _ Hw) id i e x); [done..| |done|congruence].
    clear -Htr. by destruct (deleted e).
  - intros w2 Hr. apply restore_password_Ok in Hr as (id2 & x & d2 & e2 & Hf2 & Hdb2 & Hdel2 & Hsd2 & Ho2 & Hfo2 & Ht2).
    pose proof (fe_id _ _ _ _ _ _ _ _ Hf2 id eq_refl) as ->.
    pose proof (fe_row _ _ _ _ _ _ _ _ Hf2) as Hx. rewrite Hr1 in Hx. injection Hx as <-.
    exists e2. pose proof (same_sealed_trans _ _ _ Hsd Hsd2) as Hs. split_and!; try done; try congruence.
    + rewrite Hdb2. apply lookup_insert_eq.
    + by apply (open_same_sealed _ _ e).
Qed.


(** Choosing a unique name ends: unless two of the names it may try have the
    same name index, the loop finds, within one more try than there are taken
    names, a name whose index is not taken (or the name cannot be encoded). *)
Theorem unique_name_terminates (key : VaultKey) (name : pystr) (taken : gset bytes) :
  candidates_distinct key name (Z.of_nat (size taken) + 2) ->
  (∃ v x, unique_name name taken key = Ok v ∧ name_index key v = Ok x ∧ x ∉ taken) ∨
  unique_name name taken key = Err UnicodeEncodeError.
Proof. apply unique_name_total. Qed.

(** C29: An added attachment reads back, and the limits hold: downloading it gives
    the file name, type and bytes that were sent; it is between one byte and
    [MAX_ATTACHMENT_BYTES] long; and the entry then has at most
    [MAX_ATTACHMENTS_PER_ENTRY] attachments of at most [MAX_TOTAL_BYTES]
    together. *)
Theorem attachment_reads_back `{!CryptographyLaws} `{!EnvironmentLaws} `{!CodecLaws}
    name f ct data key w r w' :
  world_ok w -> add_attachment name f ct data key w = (Ok r, w') ->
  ∃ eid e doc, found_entry (w_db w) key name false None eid e doc ∧
    get_attachment_data name (ar_id r) key w' = (Ok (f, ct, data), w') ∧
    (0 < length data)%nat ∧ Z.of_nat (length data) ≤ MAX_ATTACHMENT_BYTES ∧
    let ats := entry_attachments (w_db w') eid in
    Z.of_nat (length ats) ≤ MAX_ATTACHMENTS_PER_ENTRY ∧ attachment_bytes ats ≤ MAX_TOTAL_BYTES.
Proof.
  intros Hw Ha. apply add_attachment_Ok in Ha
    as (eid & e & doc & a0 & a & t & w0 & w1 & Hf & Hseal & Hdb & Heid & Hsz & Hne & Hmax & Hn & Hb & Hid).
  set (a' := set_attachment_created (Time t) a) in *.
  assert (Permutation (entry_attachments (w_db w') eid)
    ((next_id (attachments (w_db w)), a') :: entry_attachments (w_db w) eid)) as Hp.
  { rewrite Hdb, <- Heid. exact (entry_attachments_insert (w_db w) a'). }
  exists eid, e, doc. split; [done|]. cbv zeta.
  assert (find_entry key name false None w' = (Ok (eid, e, doc), w')) as Hfind.
  { pose proof Hf as [Hrow Hnul (index & Hi & Hix) Htr _ Hopen Hdn].
    pose proof (wok_db _ Hw) as Hok.
    assert (entries (w_db w') = entries (w_db w)) as Ee by (by rewrite Hdb).
    apply (find_active_in key name eid e doc index); try done.
    - intros i j x y. rewrite Ee. apply (ok_active_name _ Hok).
    - by rewrite Ee.
    - by destruct (deleted e). }
  split_and!; try done.
  - unfold get_attachment_data. rewrite (bind_run_Ok _ _ _ _ _ Hfind).
    unfold get_attachment. cbv [mbind M_bind query gets lift]. cbn beta iota.
    rewrite Hid, Hdb. cbn [attachments with_attachments t_insert t_rows]. rewrite lookup_insert_eq.
    cbn [option_bind]. change (attachment_entry_id a') with (attachment_entry_id a).
    rewrite Heid, Z.eqb_refl. cbn [ok_or].
    destruct (open_seal_attachment key (next_id (attachments (w_db w))) _ _ _ _ _ _ _ Hseal)
      as (Hc & Hm & _). unfold a'. rewrite (Hm (Time t) eq_refl Hne).
    change (open_attachment_content key (next_id (attachments (w_db w))) (set_attachment_created (Time t) a) (entry_uid e))
      with (open_attachment_content key (next_id (attachments (w_db w))) a (entry_uid e)).
    by rewrite Hc.
  - destruct data; [done|simpl; lia].
  - rewrite (Permutation_length Hp). cbn [length]. lia.
  - rewrite (attachment_bytes_perm _ _ Hp). cbn [attachment_bytes foldr snd].
    fold (attachment_bytes (entry_attachments (w_db w) eid)).
    change (size_bytes a') with (size_bytes a). rewrite Hsz. cbn [int_of]. lia.
Qed.
End Properties.

(** ** The properties at concrete inputs *)

(** A run that succeeds is a successful run to the state it leaves. *)
Lemma run_ok (m : M World ()) w : is_ok (m w).1 = true -> m w = (Ok tt, (m w).2).
Proof. by destruct (m w) as [[[]|e] w']. Qed.


Definition small_update : Password := demo_entry (str "post") (str "n3w").
Definition small_updated : World := (update_password (Some 1) (str "mail") small_update small_key small_mail).2.

Definition small_trashed : World := (delete_password (str "mail") small_key small_mail).2.
Definition small_restored : World :=
  (restore_password (str "mail") small_key (Some 1) small_trashed).2.
Lemma trash_keeps_the_entry_witness :
  is_ok (restore_password (str "mail") small_key (Some 1) small_trashed).1 = true ∧
  is_ok (find_entry small_key (str "mail") false None small_trashed).1 = false.
Proof.
  assert (delete_password (str "mail") small_key small_mail = (Ok tt, small_trashed)) as Hr.
  { apply run_ok. vm_compute. reflexivity. }
  split; [vm_compute; reflexivity|].
  destruct (trash_keeps_the_entry (str "mail") small_key small_mail small_trashed small_mail_ok Hr)
    as (id & e & doc & _ & Hn & _). exact Hn.
Defined.

Definition small_import : M World PasswordImportResult :=
  store_import (Some 1) all_active [(str "row 2", small_update); (str "row 3", demo_entry (str "mail") (str "x"))]
    [] small_key on_conflict_overwrite.

Definition sample_taken : gset bytes :=
  match name_index small_key (candidate_name (str "mail") 2) with Ok x => {[x]} | Err _ => ∅ end.
Lemma unique_name_terminates_witness :
  ∃ v x, unique_name (str "mail") sample_taken small_key = Ok v ∧ name_index small_key v = Ok x ∧
    x ∉ sample_taken.
Proof.
  destruct (unique_name_terminates small_key (str "mail") sample_taken) as [Hu|Hu]; [|exact Hu|].
  - intros i j x y H1 H2 H3. assert (Z.of_nat (size sample_taken) = 1) as E by (vm_compute; reflexivity).
    rewrite E in H3. assert (i = 2) as -> by lia. assert (j = 3) as -> by lia.
    intros Hx Hy ->. rewrite <- Hx in Hy. revert Hy. vm_compute. discriminate.
  - exfalso. revert Hu. vm_compute. discriminate.
Defined.

Definition small_attach : M World AttachmentResponse :=
  add_attachment (str "mail") (str "a.txt") None (raw "hello") small_key.
Lemma attachment_reads_back_witness :
  ∃ r w', small_attach small_mail = (Ok r, w') ∧
    get_attachment_data (str "mail") (ar_id r) small_key w' = (Ok (str "a.txt", None, raw "hello"), w').
Proof.
  assert (is_ok (small_attach small_mail).1 = true) as Hok by (vm_compute; reflexivity).
  destruct (small_attach small_mail) as [[r|e] w'] eqn:E; [|discriminate Hok].
  exists r, w'. split; [reflexivity|].
  unfold small_attach in E.
  destruct (attachment_reads_back (str "mail") (str "a.txt") None (raw "hello") small_key small_mail r w'
    small_mail_ok E) as (eid & x & doc & _ & Hg & _). exact Hg.
Defined.
