(* ===== verification/AccessSpec.v ===== *)
(** What entry access promises, stated over grants alone, and the theorems that
    [EntryACL] (Acl.v) keeps the promise: who reaches an entry, with which
    permission, what the listing shows, what sharing changes. *)
From Stdlib Require Import ZArith Lia Strings.String Strings.Byte.
From stdpp Require Import base list gmap sets.
From S2P Require Import Prelude Crypto Platform Concrete Sessions Models Engine Records Context Folder.
From S2P Require Import Group Password Attachment Acl MasterPassword Auth Backup Legacy Api Demo.

(** ** The specification *)

(** [reaches d now u id e p]: user [u] has permission [p] on entry [id], whose row
    is [e], in one of the ways there are. *)
Inductive reaches (d : DB) (now u id : Z) (e : EntryModel) : EntryPermission -> Prop :=
  | reach_owner :
      entry_owner_id e = Some u -> reaches d now u id e perm_owner
  | reach_folder_owner fid f :
      folder_id e = Some fid -> t_rows (folders d) !! fid = Some f -> folder_owner_id f = u ->
      reaches d now u id e perm_owner
  | reach_direct g :
      entry_access d !! (id, u) = Some g -> grant_active_at now (expires_at g) = true ->
      reaches d now u id e (entry_permission (grant_permission g))
  | reach_folder fid g :
      folder_id e = Some fid -> folder_user_access d !! (fid, u) = Some g ->
      grant_active_at now (expires_at g) = true ->
      reaches d now u id e (entry_permission (grant_permission g))
  | reach_group fid gid g m :
      folder_id e = Some fid -> folder_group_access d !! (fid, gid) = Some g ->
      group_members d !! (gid, u) = Some m -> grant_active_at now (expires_at g) = true ->
      reaches d now u id e (entry_permission (grant_permission g)).

(** Reading, writing, owning: each includes the one before. *)
Definition rank (p : EntryPermission) : nat :=
  match p with perm_read => 0 | perm_write => 1 | perm_owner => 2 end.
Definition perm_le (p q : EntryPermission) : Prop := (rank p ≤ rank q)%nat.
#[export] Instance perm_le_dec p q : Decision (perm_le p q).
Proof. unfold perm_le. apply _. Defined.
#[export] Instance perm_le_preorder : PreOrder perm_le.
Proof. split; unfold perm_le; [intros x|intros x y z]; lia. Qed.

(** The strongest way to reach an entry *)
Definition strongest_reach (d : DB) (now u id : Z) (e : EntryModel) (p : EntryPermission) : Prop :=
  reaches d now u id e p ∧ forall q, reaches d now u id e q -> perm_le q p.

Lemma rank_inj p q : rank p = rank q -> p = q.
Proof. by destruct p, q. Qed.
Lemma strongest_reach_unique d now u id e p q :
  strongest_reach d now u id e p -> strongest_reach d now u id e q -> p = q.
Proof.
  intros [Hp Hp'] [Hq Hq']. apply rank_inj.
  specialize (Hp' _ Hq). specialize (Hq' _ Hp). unfold perm_le in *. lia.
Qed.

(** ** The computed permission is the specified one *)

Lemma elem_of_folder_permissions d now fid u p :
  p ∈ folder_permissions d now fid u ↔
  (∃ g, folder_user_access d !! (fid, u) = Some g ∧ grant_active_at now (expires_at g) = true ∧
     p = grant_permission g) ∨
  (∃ gid g m, folder_group_access d !! (fid, gid) = Some g ∧ group_members d !! (gid, u) = Some m ∧
     grant_active_at now (expires_at g) = true ∧ p = grant_permission g).
Proof.
  unfold folder_permissions. rewrite elem_of_app. f_equiv.
  - destruct (folder_user_access d !! (fid, u)) as [g|]; cycle 1.
    { rewrite elem_of_nil. split; [done|]. by intros (? & ? & _). }
    destruct (grant_active_at now (expires_at g)) eqn:E.
    + rewrite list_elem_of_singleton. split; [intros ->; eauto|]. by intros (g' & [= <-] & _ & ->).
    + rewrite elem_of_nil. split; [done|]. intros (g' & [= <-] & ? & _). congruence.
  - rewrite list_elem_of_fmap. unfold group_grants. split.
    + intros ([gid g] & -> & Hin). rewrite !list_elem_of_filter, elem_of_rows_of in Hin. simpl in Hin.
      destruct Hin as (Ha & [m Hm] & Hg). eauto 10.
    + intros (gid & g & m & Hg & Hm & Ha & ->). exists (gid, g).
      rewrite !list_elem_of_filter, elem_of_rows_of. simpl. eauto 10.
Qed.

Lemma elem_of_granted d now u id e p :
  p ∈ granted_permissions d now u id (folder_id e) ->
  reaches d now u id e (entry_permission p).
Proof.
  unfold granted_permissions. rewrite elem_of_app. intros [Hp|Hp].
  - destruct (entry_access d !! (id, u)) as [g|] eqn:E; [|set_solver].
    destruct (grant_active_at _ _) eqn:Ea; [|set_solver].
    apply list_elem_of_singleton in Hp as ->. by apply (reach_direct _ _ _ _ _ g).
  - destruct (folder_id e) as [fid|] eqn:Ef; [|set_solver].
    apply elem_of_folder_permissions in Hp as [(g & ? & ? & ->)|(gid & g & m & ? & ? & ? & ->)].
    + by apply (reach_folder _ _ _ _ _ fid g).
    + by apply (reach_group _ _ _ _ _ fid gid g m).
Qed.

(** Every way to reach an entry is ownership or a grant in force. *)
Lemma reaches_cases d now u id e p :
  reaches d now u id e p ->
  (p = perm_owner ∧ owns_entry d u e = true) ∨
  ∃ q, p = entry_permission q ∧ q ∈ granted_permissions d now u id (folder_id e).
Proof.
  intros [Ho|fid f Hf Hr Ho|g Hg Ha|fid g Hf Hg Ha|fid gid g m Hf Hg Hm Ha].
  - left. split; [done|]. unfold owns_entry. by rewrite (bool_decide_eq_true_2 _ Ho).
  - left. split; [done|]. unfold owns_entry. rewrite Hf. cbn [mbind option_bind]. rewrite Hr. cbn.
    rewrite Ho, (bool_decide_eq_true_2 (Some u = Some u)) by done. apply orb_true_r.
  - right. exists (grant_permission g). split; [done|]. unfold granted_permissions.
    rewrite Hg, Ha. set_solver.
  - right. exists (grant_permission g). split; [done|]. unfold granted_permissions.
    rewrite Hf, elem_of_app, elem_of_folder_permissions. eauto 10.
  - right. exists (grant_permission g). split; [done|]. unfold granted_permissions.
    rewrite Hf, elem_of_app, elem_of_folder_permissions. eauto 12.
Qed.

Lemma owns_entry_reaches d now u id e :
  owns_entry d u e = true -> reaches d now u id e perm_owner.
Proof.
  unfold owns_entry. intros [Ho|Ho]%orb_true_iff; apply bool_decide_eq_true in Ho.
  - by apply reach_owner.
  - apply bind_Some in Ho as (fid & Hf & Ho). apply fmap_Some in Ho as (f & Hr & E).
    by apply (reach_folder_owner _ _ _ _ _ fid f).
Qed.

Lemma effective_permission_spec d now u id e p :
  effective_permission_of d now u id e = Some p ↔ strongest_reach d now u id e p.
Proof.
  assert (forall p, effective_permission_of d now u id e = Some p -> strongest_reach d now u id e p)
    as Hf.
  { clear p. intros p. unfold effective_permission_of. destruct (owns_entry d u e) eqn:Eo.
    - intros [= <-]. split; [by apply owns_entry_reaches|]. intros q _. destruct q; unfold perm_le; simpl; lia.
    - set (l := granted_permissions d now u id (folder_id e)).
      pose proof (strongest_spec l) as (Hw & Hr & _). intros (s & Hs & ->)%fmap_Some. split.
      + apply elem_of_granted. destruct s; [by apply Hr in Hs as [_ ?]|by apply Hw in Hs].
      + intros q Hq. apply reaches_cases in Hq as [[-> Hq]|(x & -> & Hx)]; [congruence|].
        destruct s; [|destruct x; unfold perm_le; simpl; lia].
        apply Hr in Hs as [Hnw _]. destruct x; [done|]. by destruct Hnw. }
  split; [apply Hf|]. intros Hp.
  destruct (effective_permission_of d now u id e) as [q|] eqn:E.
  - f_equal. by eapply strongest_reach_unique; [apply Hf|].
  - exfalso. destruct Hp as [Hp _]. unfold effective_permission_of in E.
    apply reaches_cases in Hp as [[-> Ho]|(x & -> & Hx)]; [by rewrite Ho in E|].
    destruct (owns_entry d u e); [done|]. apply fmap_None, strongest_spec in E. rewrite E in Hx.
    by apply not_elem_of_nil in Hx.
Qed.

Lemma effective_permission_None d now u id e :
  effective_permission_of d now u id e = None ↔ forall p, ¬ reaches d now u id e p.
Proof.
  split.
  - intros E p Hp. unfold effective_permission_of in E.
    apply reaches_cases in Hp as [[-> Ho]|(x & -> & Hx)]; [by rewrite Ho in E|].
    destruct (owns_entry d u e); [done|]. apply fmap_None, strongest_spec in E. rewrite E in Hx.
    by apply not_elem_of_nil in Hx.
  - intros Hn. destruct (effective_permission_of d now u id e) as [p|] eqn:E; [|done].
    apply effective_permission_spec in E as [Hp _]. by destruct (Hn p).
Qed.

Section Runs.
Context `{Cryptography} `{Environment} `{Codec} `{Text}.
Implicit Types context : AuthContext.

(** The time the next clock reading of [w] gives *)
Definition now_at (w : World) : Z := utc_clock (w_clock_reads w).

Lemma permission_Ok_spec context id w p :
  (permission context id w).1 = Ok p ↔
  ∃ e, t_rows (entries (w_db w)) !! id = Some e ∧
    strongest_reach (w_db w) (now_at w) (ctx_id context) id e p.
Proof.
  rewrite permission_run. destruct (t_rows _ !! id) as [e|].
  - setoid_rewrite <- effective_permission_spec. unfold now_at.
    destruct (effective_permission_of _ _ _ _ _) as [q|] eqn:E; cbn.
    + split; [intros [= <-]; eauto|]. intros (e' & [= <-] & E'). congruence.
    + split; [done|]. intros (e' & [= <-] & E'). congruence.
  - split; [done|]. by intros (? & ? & _).
Qed.

Lemma permission_Err context id w :
  (forall p, (permission context id w).1 ≠ Ok p) ->
  (permission context id w).1 = Err (NotFound (str "Password not found.")).
Proof.
  rewrite permission_run. destruct (t_rows _ !! id) as [e|]; [|done].
  destruct (effective_permission_of _ _ _ _ _) as [q|]; cbn; [|done]. intros Hn. by destruct (Hn q).
Qed.

Lemma visible_ids_run context trashed w :
  ∃ ids w', visible_ids context trashed w = (Ok ids, w') ∧ same_state w w' ∧
    forall id, id ∈ ids ↔ ∃ e, t_rows (entries (w_db w)) !! id = Some e ∧
      is_some (deleted e) = trashed ∧
      is_some (effective_permission_of (w_db w) (now_at w) (ctx_id context) id e) = true.
Proof.
  eexists _, _. split; [reflexivity|]. split; [by split|]. intros id.
  rewrite list_elem_of_fmap. cbn [w_db w_set_clock_reads]. split.
  - intros ([i e] & -> & Hin). rewrite list_elem_of_filter, elem_of_rows, andb_true_iff, eqb_true_iff,
      visible_effective in Hin. cbn [fst snd] in Hin. destruct Hin as [[? ?] ?]. eauto.
  - intros (e & He & Hd & Hp). exists (id, e). split; [done|].
    rewrite list_elem_of_filter, elem_of_rows, andb_true_iff, eqb_true_iff, visible_effective. done.
Qed.

(** [require] answers with the permission, when it covers what is needed. *)
Lemma require_Ok context id needed w p w' :
  require context id needed w = (Ok p, w') ->
  (permission context id w).1 = Ok p ∧ perm_le needed p ∧ same_state w w'.
Proof.
  intros Hr. pose proof (same_require context id needed w) as Hs. rewrite Hr in Hs.
  unfold require in Hr. run_inv Hr. rewrite R. split; [done|].
  split; [|done]. by destruct needed, p; try discriminate; unfold perm_le; simpl; lia.
Qed.

Lemma entry_by_name_Ok context name key needed trashed eid w id e w' :
  entry_by_name context name key needed trashed eid w = (Ok (id, e), w') ->
  ∃ doc p, found_entry (w_db w) key name trashed eid id e doc ∧
    (permission context id w).1 = Ok p ∧ perm_le needed p ∧ same_state w w'.
Proof.
  unfold entry_by_name. intros He. run_inv He. destruct x as [[i e0] doc]. run_inv He.
  apply find_entry_Ok in R as [Hf ->].
  apply require_Ok in R0 as (Hp & Hle & Hs1). exists doc, x. by split_and!.
Qed.

(** The entry routes: the name they go by, whether the entry is in the trash, the
    id that tells trashed entries of one name apart, and the permission needed *)
Definition operation_needs (o : operation) : option (pystr * bool * option Z * EntryPermission) :=
  match o with
  | OnPasswords (GetPassword n | ListAttachments n | DownloadAttachment n _) =>
      Some (n, false, None, perm_read)
  | OnPasswords (UpdatePassword n _ | SetFavorite n _ | DeletePassword n | AddAttachment n _ _ _
      | DeleteAttachment n _) => Some (n, false, None, perm_write)
  | OnPasswords (RestorePassword n i) => Some (n, true, i, perm_write)
  | OnPasswords (PurgePassword n i) => Some (n, true, i, perm_owner)
  | _ => None
  end.

Lemma ignoring_Ok {A} (m : M World A) w :
  is_ok (ignoring m w).1 = true -> is_ok (m w).1 = true.
Proof. unfold ignoring, mbind, M_bind. by destruct (m w) as [[a|e] w1]. Qed.
Lemma bind_is_ok {A B} (m : M World A) (f : A -> M World B) w :
  is_ok ((m ≫= f) w).1 = true -> ∃ a w1, m w = (Ok a, w1).
Proof. unfold mbind, M_bind. destruct (m w) as [[a|e] w1]; [eauto|done]. Qed.
Lemma bind_is_ok' {A B} (m : M World A) (f : A -> M World B) w :
  is_ok ((m ≫= f) w).1 = true -> ∃ a w1, m w = (Ok a, w1) ∧ is_ok (f a w1).1 = true.
Proof. unfold mbind, M_bind. destruct (m w) as [[a|e] w1]; [eauto|done]. Qed.

(** What reaches an entry depends on its direct grant and on folders and groups. *)
Lemma reaches_same d d' now u id e p :
  folders d' = folders d -> folder_user_access d' = folder_user_access d ->
  folder_group_access d' = folder_group_access d -> group_members d' = group_members d ->
  entry_access d' !! (id, u) = entry_access d !! (id, u) ->
  reaches d now u id e p ↔ reaches d' now u id e p.
Proof.
  intros E1 E2 E3 E4 E5. split; intros [].
  all: rewrite <- ?E1, <- ?E2, <- ?E3, <- ?E4, <- ?E5 in *; eauto using reaches.
  all: rewrite ?E1, ?E2, ?E3, ?E4, ?E5 in *; eauto using reaches.
Qed.
End Runs.

Section Properties.
Context `{Cryptography} `{Environment} `{Codec} `{BackupCodec} `{Text} `{Config} `{LegacyLibraries}.
Variable model_validate : ImportFields -> (pystr * pystr) + Password.
Implicit Types context : AuthContext.

(** C4: [EntryACL.permission] grants exactly the strongest way the caller reaches
    the entry: its owner or its folder's owner owns it, otherwise the strongest
    of the grants in force, made directly, on its folder or through a group; and
    it raises [NotFound], as for an entry that does not exist, exactly when there
    is none. *)
Theorem permission_is_strongest_reach context id w :
  (forall p, (permission context id w).1 = Ok p ↔
     ∃ e, t_rows (entries (w_db w)) !! id = Some e ∧
       strongest_reach (w_db w) (now_at w) (ctx_id context) id e p) ∧
  ((permission context id w).1 = Err (NotFound (str "Password not found.")) ↔
     forall e p, t_rows (entries (w_db w)) !! id = Some e ->
       ¬ reaches (w_db w) (now_at w) (ctx_id context) id e p).
Proof.
  split; [intros p; apply permission_Ok_spec|]. rewrite permission_run. unfold now_at.
  destruct (t_rows _ !! id) as [e|]; [|split; [done|done]].
  destruct (effective_permission_of _ _ _ _ _) as [q|] eqn:E; cbn.
  - split; [done|]. intros Hn. apply effective_permission_spec in E as [Hq _].
    by destruct (Hn e q eq_refl).
  - split; [|done]. intros _ e' p [= <-]. by apply effective_permission_None.
Qed.

(** C5: The list of visible entries (what [get_passwords], [get_trash], the access
    map, the damage report and backups are built on) never fails and holds
    exactly the entries of that state the caller has some permission on. *)
Theorem visible_ids_are_the_reachable context trashed w :
  ∃ ids w', visible_ids context trashed w = (Ok ids, w') ∧ same_state w w' ∧
    forall id, id ∈ ids ↔
      ∃ e p, t_rows (entries (w_db w)) !! id = Some e ∧ is_some (deleted e) = trashed ∧
        strongest_reach (w_db w) (now_at w) (ctx_id context) id e p.
Proof.
  destruct (visible_ids_run context trashed w) as (ids & w' & Hv & Hs & Hi).
  exists ids, w'. split; [done|]. split; [done|]. intros id. rewrite Hi.
  setoid_rewrite <- effective_permission_spec. split.
  - intros (e & He & Hd & Hp). destruct (effective_permission_of _ _ _ _ _) as [p|] eqn:E; [|done]. eauto.
  - intros (e & p & He & Hd & Hp). exists e. by rewrite Hp.
Qed.

(** C6: An entry route only succeeds when a row of the right state carries the
    requested name and the caller's strongest permission on that row covers what
    the route needs: reading to see an entry or its attachments, writing to
    change, trash or restore it, owning to purge it. *)
Theorem entry_routes_need_permission context o w name trashed eid needed :
  operation_needs o = Some (name, trashed, eid, needed) ->
  is_ok (run_operation model_validate o context w).1 = true ->
  ∃ id e doc p, found_entry (w_db w) (ctx_key context) name trashed eid id e doc ∧
    strongest_reach (w_db w) (now_at w) (ctx_id context) id e p ∧ perm_le needed p.
Proof.
  intros Ho Hr.
  assert (∃ id e w', entry_by_name context name (ctx_key context) needed trashed eid w = (Ok (id, e), w'))
    as (id & e & w' & He).
  { revert Ho Hr. by_route o; intros Ho Hr; simplify_eq/=; try apply ignoring_Ok in Hr;
      apply bind_is_ok in Hr as ([? ?] & ? & Hr); eauto. }
  apply entry_by_name_Ok in He as (doc & p & Hf & Hp & Hle & _).
  apply permission_Ok_spec in Hp as (e' & He' & Hp). rewrite (fe_row _ _ _ _ _ _ _ _ Hf) in He'.
  injection He' as <-. exists id, e, doc, p. by split_and!.
Qed.

(** The database after an entry grant changed and the change was audited *)
Definition audited (t : Z) (a : AccessAuditModel) (d : DB) : DB :=
  with_access_audit (t_insert (audit_at t a)) d.

(** Sharing an entry needs its owner and an active target that is not the
    owner; it writes that one grant, with the caller as granter, and one audit
    event that records the new and the previous grant; the target then reaches
    the entry with the shared permission until it expires, and nobody else
    reaches any entry differently. *)
Theorem set_share_effect context id u p expires w r w' :
  set_share context id u p expires w = (Ok r, w') ->
  (permission context id w).1 = Ok perm_owner ∧
  (∃ x, t_rows (users (w_db w)) !! u = Some x ∧ active x = true) ∧
  (∃ t, w_db w' = audited t (audit_granted p expires (audit_previous (entry_access (w_db w) !! (id, u))
       (audit_target_user u (entry_audit context
          (if is_some (entry_access (w_db w) !! (id, u)) then str "entry_grant_updated"
           else str "entry_grant_created") id))))
     (with_entry_access (insert (id, u)
        {| grant_permission := p; expires_at := expires; granted_by := Some (ctx_id context) |})
        (w_db w))) ∧
  (forall now e, grant_active_at now expires = true ->
     reaches (w_db w') now u id e (entry_permission p)) ∧
  (forall now v i e q, (i, v) ≠ (id, u) -> reaches (w_db w) now v i e q ↔ reaches (w_db w') now v i e q).
Proof.
  unfold set_share. intros Hs. run_inv Hs. world_inv. apply require_Ok in R as (Hp & Hle & [Hdb _ _ _ _ _]).
  rewrite Hdb in Hs. destruct (t_rows (users (w_db w)) !! u) as [x0|] eqn:Eu; [|discriminate].
  run_inv Hs. world_inv.
  match goal with Ha : add_audit _ _ = _ |- _ => apply add_audit_Ok in Ha as Haud end.
  match goal with Hd : put_entry_access _ _ _ _ = _ |- _ =>
    unfold put_entry_access in Hd; apply res_bind_Ok in Hd as (_ & _ & [= Hd]) end.
  subst d. rewrite Haud.
  cbn [w_db w_set_db]. rewrite !Hdb. split_and!.
  - destruct x; unfold perm_le in Hle; simpl in Hle; [done|lia..].
  - exists x0. split; [done|]. by destruct (active x0).
  - eexists. unfold audited. by rewrite <- Hdb.
  - intros now e Ha. eapply (reach_direct _ _ _ _ _ {| grant_permission := p |}); [|exact Ha].
    cbn. apply lookup_insert_eq.
  - intros now v i e q Hne. apply reaches_same; try done. cbn. by rewrite lookup_insert_ne.
Qed.

(** Revoking a share needs the entry's owner; it deletes that one grant,
    audits what it was, and changes nobody else's reach. *)
Theorem revoke_share_effect context id u w w' :
  revoke_share context id u w = (Ok tt, w') ->
  (permission context id w).1 = Ok perm_owner ∧
  (∃ t g, entry_access (w_db w) !! (id, u) = Some g ∧
     w_db w' = with_entry_access (delete (id, u)) (audited t (audit_previous (Some g)
       (audit_target_user u (entry_audit context (str "entry_grant_revoked") id))) (w_db w))) ∧
  (forall now v i e q, (i, v) ≠ (id, u) -> reaches (w_db w) now v i e q ↔ reaches (w_db w') now v i e q).
Proof.
  unfold revoke_share. intros Hs. run_inv Hs. world_inv. apply require_Ok in R as (Hp & Hle & [Hdb _ _ _ _ _]).
  match goal with Ha : add_audit _ _ = _ |- _ => apply add_audit_Ok in Ha as R0 end. rewrite Hdb in *.
  destruct (entry_access (w_db w) !! (id, u)) as [g|] eqn:Eg; [|done]. cbn [w_db w_set_db]. split_and!.
  - destruct x; unfold perm_le in Hle; simpl in Hle; [done|lia..].
  - eexists _, g. split; [done|]. by rewrite R0.
  - intros now v i e q Hne. rewrite R0. apply reaches_same; try done. cbn. by rewrite lookup_delete_ne.
Qed.
End Properties.

(** ** The properties at concrete inputs *)

Lemma permission_is_strongest_reach_example :
  (permission plain_bob 1 plain_world).1 = Ok perm_read ∧
  (permission plain_bob 2 plain_world).1 = Err (NotFound (str "Password not found.")) ∧
  (permission plain_eve 2 plain_world).1 = Ok perm_write ∧
  (visible_ids plain_root false plain_world).1 = Ok [1; 2].
Proof. split_and!; vm_compute; reflexivity. Qed.

Lemma entry_routes_need_permission_witness :
  ∃ id e doc p,
    found_entry (w_db demo_root_view) (ctx_key demo_root_context) (str "mail") false None id e doc ∧
    strongest_reach (w_db demo_root_view) (now_at demo_root_view) (ctx_id demo_root_context) id e p ∧
    perm_le perm_write p.
Proof.
  refine (entry_routes_need_permission demo_validate demo_root_context
    (SetFavorite (str "mail") true) demo_root_view (str "mail") false None perm_write _ _).
  - reflexivity.
  - vm_compute. reflexivity.
Defined.

Lemma set_share_effect_witness :
  let w' := (set_share plain_root 2 2 share_write None plain_world).2 in
  reaches (w_db w') demo_epoch 2 2 (plain_entry (Some 1) 2) perm_write.
Proof.
  intros w'.
  destruct (set_share_effect plain_root 2 2 share_write None plain_world
    {| sg_user_id := 2; sg_username := str "bob"; sg_role := member;
       sg_permission := share_write; sg_expires_at := None |} w') as (_ & _ & _ & Hr & _).
  - vm_compute. reflexivity.
  - exact (Hr demo_epoch (plain_entry (Some 1) 2) eq_refl).
Defined.

Lemma revoke_share_effect_witness :
  let w' := (revoke_share plain_root 1 2 plain_world).2 in
  (permission plain_bob 1 w').1 = Err (NotFound (str "Password not found.")) ∧
  ∃ t g, entry_access (w_db plain_world) !! (1, 2) = Some g ∧
    w_db w' = with_entry_access (delete (1, 2)) (audited t (audit_previous (Some g)
       (audit_target_user 2 (entry_audit plain_root (str "entry_grant_revoked") 1))) (w_db plain_world)).
Proof.
  intros w'. split; [vm_compute; reflexivity|].
  refine (proj1 (proj2 (revoke_share_effect plain_root 1 2 plain_world w' _))).
  vm_compute. reflexivity.
Defined.
