(* ===== verification/Requests.v ===== *)
(** What holds of every request, whichever operation it runs: the constraints of
    the database, atomicity, read-only routes, the backup capacity. *)
From Stdlib Require Import ZArith Lia Strings.String Strings.Byte.
From stdpp Require Import base list gmap.
From S2P Require Import Prelude Crypto Platform Concrete Sessions Models BackupFormat Engine Records.
From S2P Require Import Context Folder Group Password Attachment Acl MasterPassword Auth Backup Legacy Api Demo.

(** [atomic_tac] follows a request body up to its commit. *)
Ltac atomic_step :=
  match goal with
  | |- atomic (session_commit;; _) => apply atomic_commit
  | |- atomic _ => solve [apply atomic_no_commit; keeps_tac]
  | |- atomic (_ ≫= _) =>
      first [ apply atomic_bind; [solve [eauto with keeps | keeps_tac] | intros ?]
            | apply atomic_then; [|solve [intros ?; keeps_tac]] ]
  | |- atomic (match ?x with _ => _ end) => destruct x
  | |- atomic (if ?b then _ else _) => destruct b
  end.
Ltac atomic_tac := repeat atomic_step.

Section Requests.
Context `{Cryptography} `{Environment} `{Codec} `{BackupCodec} `{Text} `{Config} `{LegacyLibraries}.
Variable model_validate : ImportFields -> (pystr * pystr) + Password.

Lemma atomic_ignoring {A} (m : M World A) : atomic m -> atomic (ignoring m).
Proof.
  intros Hm. unfold ignoring. apply atomic_then; [done|]. intros a. keeps_tac.
Qed.
Lemma same_new_credential (b : bool) :
  keeps same_state (if b then Some <$> new_token else mret None : M World (option pystr)).
Proof. destruct b; [apply keeps_fmap, same_new_token | apply keeps_ret, _]. Qed.
#[local] Hint Resolve same_new_credential : keeps.
Lemma atomic_create_user c n r p : atomic (create_user c n r p).
Proof. unfold create_user. atomic_tac. Qed.
Lemma atomic_rotate_service_token c i : atomic (rotate_service_token c i).
Proof. unfold rotate_service_token. atomic_tac. Qed.
Lemma atomic_reset_password c i p : atomic (reset_password c i p).
Proof. unfold reset_password. atomic_tac. Qed.
Lemma atomic_change_password c p q b : atomic (change_password c p q b).
Proof. unfold change_password. atomic_tac. Qed.
Lemma atomic_bootstrap n p : atomic (bootstrap n p).
Proof. unfold bootstrap. atomic_tac. Qed.
Lemma atomic_login n p : atomic (login n p).
Proof. unfold login. atomic_tac. Qed.
Lemma atomic_login_primary p : atomic (login_primary p).
Proof. unfold login_primary. repeat first [apply atomic_bootstrap | apply atomic_login | atomic_step]. Qed.

Lemma atomic_verify_current_password c p : atomic (verify_current_password c p).
Proof. unfold verify_current_password. atomic_tac. Qed.
Lemma atomic_backup_passwords c p : atomic (backup_passwords c p).
Proof. unfold backup_passwords. repeat first [apply atomic_verify_current_password | atomic_step]. Qed.
Lemma atomic_import_passwords c u p oc : atomic (import_passwords c u p oc).
Proof. unfold import_passwords, import_backup, import_legacy, import_format_2. atomic_tac. Qed.

Lemma db_same_credential t : keeps db_same (credential t).
Proof. unfold credential. keeps_tac. Qed.

Lemma atomic_run_operation o c : atomic (run_operation model_validate o c).
Proof.
  by_route o; try apply atomic_ignoring;
    auto using atomic_create_user, atomic_rotate_service_token, atomic_reset_password,
      atomic_change_password, atomic_backup_passwords, atomic_import_passwords;
    apply atomic_no_commit; unfold ignoring, stored_settings; keeps_tac.
Qed.

(** ** Integrity *)

Lemma integrity_handle r : keeps integrity (handle model_validate r).
Proof.
  destruct r as [r|token o]; cbn [handle].
  - destruct r; cbn [serve_public]; try apply integrity_transaction; try apply integrity_ignoring;
      auto with keeps.
  - unfold serve. apply keeps_bind; [apply _|apply keeps_db_same, db_same_credential|].
    intros t. apply integrity_transaction. keeps_tac.
Qed.

Lemma world_ok_run rs w : world_ok w -> world_ok (run_requests model_validate rs w).
Proof.
  revert w. induction rs as [|r rs IH]; intros w Hw; [done|]. simpl. apply IH.
  by apply (integrity_handle r w).
Qed.

(** ** Atomicity *)

Lemma atomic_serve_body t o c b :
  atomic (c0 ← auth_context t b c;
     raise_if (needs_admin o && negb (is_admin c0)) (Forbidden (str "Administrator access is required."));;
     run_operation model_validate o c0).
Proof.
  apply atomic_bind; [apply db_same_auth_context|]. intros c0.
  apply atomic_bind; [keeps_tac|]. intros _. apply atomic_run_operation.
Qed.

Lemma failed_handle r w :
  w_others w = [] -> is_ok (handle model_validate r w).1 = false ->
  w_committed (handle model_validate r w).2 = w_committed w.
Proof.
  intros Ho. destruct r as [r|token o]; cbn [handle].
  - destruct r; cbn [serve_public]; try (apply atomic_transaction; [|done]; apply atomic_ignoring);
      auto using atomic_bootstrap, atomic_login, atomic_login_primary.
    + apply atomic_no_commit. unfold status. auto with keeps.
    + unfold ignoring, mbind, M_bind, on_sessions. by destruct (revoke _ _).
  - unfold serve. destruct (db_same_credential token w) as [E1 E2 E3].
    destruct (credential token w) as [[t|e] w1] eqn:Ec.
    + rewrite (bind_run_Ok _ _ _ _ _ Ec). cbn [snd] in *. rewrite <- E2.
      apply atomic_transaction; [apply atomic_serve_body|congruence].
    + by rewrite (bind_run_Err _ _ _ _ _ Ec).
Qed.

(** ** Read-only routes *)

(** The one read-only route that gives way to others, for its key derivations *)
Definition derives_keys (o : operation) : bool :=
  match o with OnPasswords (Backup _) => true | _ => false end.

Lemma db_same_read_only o c :
  is_read_only o = true -> derives_keys o = false -> keeps db_same (run_operation model_validate o c).
Proof.
  by_route o; intros Hro Hd; try discriminate Hro; try discriminate Hd;
    unfold ignoring, stored_settings; keeps_tac.
Qed.
Lemma undisturbed_read_only o c :
  is_read_only o = true -> keeps undisturbed (run_operation model_validate o c).
Proof.
  intros Hro. destruct (derives_keys o) eqn:Hd; [|by apply keeps_db_same, db_same_read_only].
  by_route o; try discriminate Hd. unfold ignoring. keeps_tac.
Qed.

Lemma transaction_read_only {A} (body : M World A) w :
  keeps db_same body -> w_committed (transaction false body w).2 = w_committed w.
Proof.
  intros Hb. pose proof (Hb (begin_transaction w)) as [E1 E2 _].
  destruct (transaction_cases false body w) as [(a & w1 & E & _ & Hs & _)|(e & w1 & E & _ & Hs)].
  - apply finish_Ok in E as (w0 & E0 & _ & Hc & _). rewrite E0 in E1, E2. simpl in *.
    rewrite (ds_committed _ _ Hs), Hc, E1. done.
  - rewrite (ds_committed _ _ Hs). simpl. rewrite (ds_committed _ _ (finish_Err _ _ _ _ _ E)), E2. done.
Qed.

Lemma transaction_undisturbed {A} (body : M World A) w :
  keeps undisturbed body -> w_others w = [] -> w_committed (transaction false body w).2 = w_committed w.
Proof.
  intros Hb Ho. destruct (Hb (begin_transaction w) Ho eq_refl) as (E1 & E2 & _).
  destruct (transaction_cases false body w) as [(a & w1 & E & _ & Hs & _)|(e & w1 & E & _ & Hs)].
  - apply finish_Ok in E as (w0 & E0 & _ & Hc & _). rewrite E0 in E1, E2. simpl in *.
    rewrite (ds_committed _ _ Hs), Hc, E1. done.
  - rewrite (ds_committed _ _ Hs). simpl. rewrite (ds_committed _ _ (finish_Err _ _ _ _ _ E)), E2. done.
Qed.

(** ** The backup capacity *)

Lemma transaction_capacity {A} (body : M World A) w :
  is_ok (transaction true body w).1 = true ->
  let d := w_committed (transaction true body w).2 in
  backup_frames d ≤ MAX_FRAMES ∧ backup_estimate d ≤ MAX_BACKUP_BYTES.
Proof.
  intros Hok d. subst d.
  destruct (transaction_cases true body w) as [(a & w1 & E & _ & Hs & _)|(e & w1 & _ & E & _)];
    [|congruence].
  apply finish_Ok in E as (w0 & _ & _ & Hc & _ & _ & _ & Hcap).
  rewrite (ds_committed _ _ Hs), Hc. by apply Hcap.
Qed.
End Requests.

(** ** What a request needs, and the properties *)

Section RequestFacts.
Context `{Cryptography} `{Environment} `{Codec} `{BackupCodec} `{Text} `{Config} `{LegacyLibraries}.
Variable model_validate : ImportFields -> (pystr * pystr) + Password.

Lemma credential_Ok token w t w' :
  credential token w = (Ok t, w') ->
  token = Some t ∧ w' = w_set_clock_reads (S (w_clock_reads w)) w.
Proof.
  unfold credential. destruct token as [t0|]; [|done]. intros Hc. run_inv Hc. world_inv.
  apply in_sessions_Ok in R0 as (v & Hr & ->). split; [done|].
  unfold resolve in Hr. run_inv Hr. destruct x as [d s1]. apply live_Ok in R as (_ & _ & _ & _ & ->).
  run_inv Hr. by destruct w.
Qed.

Lemma serve_Ok token o w :
  is_ok (serve model_validate token o w).1 = true ->
  ∃ t c w1, token = Some t ∧
    authenticated (begin_transaction (w_set_clock_reads (S (w_clock_reads w)) w)) t
      (allows_password_change o) c ∧
    (needs_admin o = true -> user_role (ctx_user c) = admin) ∧
    w_db w1 = w_committed w ∧
    is_ok (run_operation model_validate o c w1).1 = true.
Proof.
  unfold serve. intros Hok. destruct (credential token w) as [[t|e] w0] eqn:Ec;
    [|by rewrite (bind_run_Err _ _ _ _ _ Ec) in Hok].
  rewrite (bind_run_Ok _ _ _ _ _ Ec) in Hok. apply credential_Ok in Ec as [-> ->].
  set (w1 := w_set_clock_reads _ w) in *.
  match type of Hok with is_ok (transaction ?b ?m _).1 = _ =>
    destruct (transaction_cases b m w1) as [(a & w2 & E & _)|(e & w2 & _ & E & _)]; [|congruence] end.
  apply finish_Ok in E as (w3 & E & _). run_inv E.
  apply auth_context_Ok in R as [Ha Hs]. exists t, x, s. split_and!; [done..| | |].
  - intros Hn. match goal with E : _ && _ = false |- _ => rewrite Hn in E; simpl in E;
      by apply negb_false_iff, bool_decide_eq_true in E end.
  - by rewrite (ds_db _ _ Hs).
  - by rewrite E.
Qed.
End RequestFacts.

Section Properties.
Context `{Cryptography} `{Environment} `{Codec} `{BackupCodec} `{Text} `{Config} `{LegacyLibraries}.
Variable model_validate : ImportFields -> (pystr * pystr) + Password.


(** C10: Requests are atomic: a request that fails leaves the committed database
    exactly as it was (if no other request ran meanwhile), whichever of its
    writes it had made and wherever it had committed on the way. *)
Theorem failed_requests_change_nothing r w :
  w_others w = [] -> is_ok (handle model_validate r w).1 = false ->
  w_committed (handle model_validate r w).2 = w_committed w.
Proof. apply failed_handle. Qed.

(** The routes declared read-only (the GET routes and the POST routes of
    [_READ_ONLY_ROUTES]) never change the committed database, whether they
    succeed or fail, and whatever runs beside them; a backup, which derives keys
    while other requests run, changes nothing of its own. *)
Theorem read_only_requests_change_nothing token o w :
  is_read_only o = true -> derives_keys o = false ∨ w_others w = [] ->
  w_committed (serve model_validate token o w).2 = w_committed w.
Proof.
  intros Hro Hor. unfold serve. rewrite Hro. cbn [negb].
  pose proof (db_same_credential token w) as [_ Hc Ho].
  destruct (credential token w) as [[t|e] w0] eqn:Ec; [|by rewrite (bind_run_Err _ _ _ _ _ Ec)].
  rewrite (bind_run_Ok _ _ _ _ _ Ec). cbn [snd] in *. rewrite <- Hc. destruct Hor as [Hd|Hno].
  - apply transaction_read_only. apply keeps_bind; [apply _|apply db_same_auth_context|]. intros c.
    apply keeps_bind; [apply _|keeps_tac|]. intros _. by apply db_same_read_only.
  - apply transaction_undisturbed; [|congruence].
    apply keeps_bind; [apply _|apply keeps_db_same, db_same_auth_context|]. intros c.
    apply keeps_bind; [apply _|keeps_tac|]. intros _. by apply undisturbed_read_only.
Qed.


(** C2: A request only runs for a token with a live session whose account still
    exists, is active, is not a service account and still has the credentials
    the session was opened with, and whose key still matches the vault's key
    record, itself in agreement with its owner's; administrator routes only run
    for administrators, and an account that must change its password can do
    nothing else. *)
Theorem request_needs_live_session token o w :
  is_ok (serve model_validate token o w).1 = true ->
  ∃ t s u v m, token = Some t ∧ token_fullmatch t = true ∧
    od_get (digest t) (sessions (w_sessions w)) = Some s ∧
    0 < remaining_us (w_sessions w) s (system_clock (S (w_clock_reads w))) true ∧
    t_rows (users (w_committed w)) !! s_user_id s = Some u ∧
    active u = true ∧ user_role u ≠ service ∧
    fingerprint_or_none (Some u) = Ok (s_credential_fingerprint s) ∧
    vault (w_committed w) = Some v ∧ canonical_material (w_committed w) v m ∧
    key_matches (s_key s) (key_check (vault_keys v)) = true ∧
    (needs_admin o = true -> user_role u = admin) ∧
    (must_change_password u = true -> allows_password_change o = true).
Proof.
  intros Hok. apply serve_Ok in Hok as (t & c & w1 & -> & [Hs Hu Ha Hi Hv Hm _] & Hadm & _).
  destruct Hs as (s & Hmatch & Hg & Hr & Hk & Hid & Hf). destruct Hv as (v & m & Hv & Hc & Hkm).
  simpl in *. exists t, s, (ctx_user c), v, m. rewrite Hk, Hid. by split_and!.
Qed.
End Properties.

(** ** The properties at concrete inputs *)


(** The name is taken, and by then the new folder was already written. *)
Lemma failed_requests_change_nothing_witness :
  let r := ForAccount (Some demo_token)
             (CreatePassword (with_pw_folder (Some (str "work")) (demo_entry (str "mail") (str "x")))) in
  (handle demo_validate r demo_mail).1 = Err (InvalidRequest NAME_TAKEN) ∧
  w_committed (handle demo_validate r demo_mail).2 = w_committed demo_mail.
Proof.
  intros r. split; [vm_compute; reflexivity|].
  apply (failed_requests_change_nothing demo_validate r demo_mail); vm_compute; reflexivity.
Defined.

Lemma read_only_requests_change_nothing_witness :
  is_ok (serve demo_validate (Some demo_token) GetPasswords demo_mail).1 = true ∧
  w_committed (serve demo_validate (Some demo_token) GetPasswords demo_mail).2
    = w_committed demo_mail.
Proof.
  split; [vm_compute; reflexivity|].
  apply (read_only_requests_change_nothing demo_validate (Some demo_token) GetPasswords demo_mail);
    [reflexivity|left; reflexivity].
Defined.


Lemma request_needs_live_session_witness :
  ∃ s u, od_get (digest demo_token) (sessions (w_sessions demo_root)) = Some s ∧
    t_rows (users (w_committed demo_root)) !! s_user_id s = Some u ∧ user_role u = admin.
Proof.
  destruct (request_needs_live_session demo_validate (Some demo_token) ListUsers demo_root)
    as (t & s & u & v & m & Ht & _ & Hs & _ & Hu & _ & _ & _ & _ & _ & _ & Ha & _);
    [vm_compute; reflexivity|].
  injection Ht as <-. exists s, u. split; [exact Hs|]. split; [exact Hu|]. by apply Ha.
Defined.
