(* ===== verification/AccountsSpec.v ===== *)
(** What the accounts promise (Auth.v): there is always somebody who can
    administrate, the vault's key record always agrees with its owner's, a login
    needs the account's current password, and ending an account's access ends
    its sessions. *)
From Stdlib Require Import ZArith Lia Strings.String Strings.Byte.
From stdpp Require Import base list gmap sets.
From S2P Require Import Prelude Crypto Platform Concrete Sessions Models Engine Records Context Folder.
From S2P Require Import Group Password Attachment Acl MasterPassword Auth Backup Legacy Api Demo.

(** ** The invariant of the accounts *)

Record accounts_ok (d : DB) : Prop := {
  (** somebody can administrate *)
  ac_admin : t_rows (users d) ≠ ∅ ->
    ∃ i u, t_rows (users d) !! i = Some u ∧ active u = true ∧ user_role u = admin;
  (** accounts come with a vault key record that has an owner *)
  ac_vault : t_rows (users d) ≠ ∅ -> ∃ v o, vault d = Some v ∧ owner_user_id v = Some o;
  (** the owner's account exists, is no service account and has the same key record *)
  ac_owner v o : vault d = Some v -> owner_user_id v = Some o ->
    ∃ u, t_rows (users d) !! o = Some u ∧ user_keys u = vault_keys v ∧ user_role u ≠ service;
}.

Lemma accounts_ok_empty : accounts_ok empty_db.
Proof. by split. Qed.

(** Only the accounts and the vault row matter. *)
Lemma accounts_ok_same d d' :
  users d' = users d ->
  (forall v, vault d' = Some v -> ∃ v0, vault d = Some v0 ∧ owner_user_id v = owner_user_id v0 ∧
     vault_keys v = vault_keys v0) ->
  (forall v0, vault d = Some v0 -> ∃ v, vault d' = Some v ∧ owner_user_id v = owner_user_id v0) ->
  accounts_ok d -> accounts_ok d'.
Proof.
  intros Eu Ev Ev' [Ha Hv Ho]. split; rewrite Eu; [done| |].
  - intros Hne. destruct (Hv Hne) as (v & o & Hd & Hov). destruct (Ev' _ Hd) as (v' & ? & ?).
    exists v', o. split; [done|congruence].
  - intros v o Hd Hov. destruct (Ev _ Hd) as (v0 & Hd0 & Eo & Ek). rewrite Ek. apply (Ho v0); congruence.
Qed.
Lemma accounts_ok_data d d' : users d' = users d -> vault d' = vault d -> accounts_ok d -> accounts_ok d'.
Proof. intros Eu Ev. apply accounts_ok_same; [done|rewrite Ev; eauto..]. Qed.

(** *** Changing an account *)

Definition is_active_admin (u : UserModel) : Prop := active u = true ∧ user_role u = admin.
#[export] Instance is_active_admin_dec u : Decision (is_active_admin u).
Proof. unfold is_active_admin. apply _. Defined.

Lemma accounts_ok_update d i u u' :
  accounts_ok d -> t_rows (users d) !! i = Some u ->
  user_keys u' = user_keys u ∨ (vault d ≫= owner_user_id) ≠ Some i ->
  (user_role u' = service -> user_role u = service) ->
  is_active_admin u' ∨ ¬ is_active_admin u ∨
    (∃ j x, j ≠ i ∧ t_rows (users d) !! j = Some x ∧ is_active_admin x) ->
  accounts_ok (with_users (t_put i u') d).
Proof.
  intros [Ha Hv Ho] Hi Hk Hr Hadm.
  assert (t_rows (users d) ≠ ∅) as Hne by (intros E; by rewrite E in Hi).
  split; cbn [users vault with_users t_put t_rows].
  - intros _. destruct Hadm as [[? ?]|[Hn|(j & x & Hj & Hx & [? ?])]].
    + exists i, u'. by rewrite lookup_insert_eq.
    + destruct (Ha Hne) as (j & x & Hx & ? & ?). exists j, x. rewrite lookup_insert_ne; [done|].
      intros ->. apply Hn. split; congruence.
    + exists j, x. by rewrite lookup_insert_ne.
  - intros _. by apply Hv.
  - intros v o Hd Hov. destruct (Ho v o Hd Hov) as (x & Hx & Hkx & Hrx).
    destruct (decide (o = i)) as [->|Hne']; [|exists x; by rewrite lookup_insert_ne].
    exists u'. rewrite lookup_insert_eq. split_and!; [done| |].
    + destruct Hk as [Hk|Hk]; [congruence|]. rewrite Hd in Hk. cbn in Hk. congruence.
    + intros E. apply Hrx. rewrite Hi in Hx. injection Hx as <-. by apply Hr.
Qed.

(** The password of the vault's owner changes in both records. *)
Lemma accounts_ok_owner_keys d i u u' v v' :
  accounts_ok d -> t_rows (users d) !! i = Some u -> vault d = Some v -> owner_user_id v = Some i ->
  owner_user_id v' = Some i -> user_keys u' = vault_keys v' ->
  user_role u' = user_role u -> active u' = active u ->
  accounts_ok (with_vault (fun _ => Some v') (with_users (t_put i u') d)).
Proof.
  intros [Ha Hv Ho] Hi Hd Hov Hov' Hk Hr Hact.
  assert (t_rows (users d) ≠ ∅) as Hne by (intros E; by rewrite E in Hi).
  split; cbn [users vault with_users with_vault t_put t_rows].
  - intros _. destruct (Ha Hne) as (j & x & Hx & ? & ?). destruct (decide (j = i)) as [->|].
    + exists i, u'. rewrite lookup_insert_eq. split; [done|]. split; congruence.
    + exists j, x. by rewrite lookup_insert_ne.
  - intros _. eauto.
  - intros v0 o [= <-] Hov0. rewrite Hov' in Hov0. injection Hov0 as <-. exists u'.
    rewrite lookup_insert_eq. split_and!; [done..|]. rewrite Hr.
    destruct (Ho v i Hd Hov) as (x & Hx & _ & Hrx). congruence.
Qed.

Lemma accounts_ok_insert d u :
  accounts_ok d -> t_rows (users d) ≠ ∅ -> accounts_ok (with_users (t_insert u) d).
Proof.
  intros [Ha Hv Ho] Hne. split; cbn [users vault with_users t_insert t_rows].
  - intros _. destruct (Ha Hne) as (j & x & Hx & ? & ?). exists j, x.
    rewrite lookup_insert_ne; [done|]. intros <-. by rewrite next_id_fresh in Hx.
  - intros _. by apply Hv.
  - intros v o Hd Hov. destruct (Ho v o Hd Hov) as (x & Hx & ? & ?). exists x.
    rewrite lookup_insert_ne; [done|]. intros <-. by rewrite next_id_fresh in Hx.
Qed.

(** The first account owns the vault. *)
Lemma accounts_ok_first d u v :
  is_active_admin u -> user_keys u = vault_keys v -> t_rows (users d) = ∅ ->
  owner_user_id v = Some (next_id (users d)) ->
  accounts_ok (with_vault (fun _ => Some v) (with_users (t_insert u) d)).
Proof.
  intros [Hact Hr] Hk He Hov. split; cbn [users vault with_users with_vault t_insert t_rows]; rewrite He.
  - intros _. exists (next_id (users d)), u. by rewrite lookup_insert_eq.
  - intros _. eauto.
  - intros v0 o [= <-] Ho. rewrite Hov in Ho. injection Ho as <-. exists u. rewrite lookup_insert_eq.
    split_and!; [done..|congruence].
Qed.

Lemma accounts_ok_delete d i j x :
  accounts_ok d -> (vault d ≫= owner_user_id) ≠ Some i -> j ≠ i ->
  t_rows (users d) !! j = Some x -> is_active_admin x ->
  accounts_ok (with_users (t_delete i) d).
Proof.
  intros [Ha Hv Ho] Hno Hj Hx [? ?]. split; cbn [users vault with_users t_delete t_rows].
  - intros _. exists j, x. by rewrite lookup_delete_ne.
  - intros _. apply Hv. intros E. by rewrite E in Hx.
  - intros v o Hd Hov. destruct (Ho v o Hd Hov) as (y & Hy & ? & ?). exists y.
    rewrite lookup_delete_ne; [done|]. intros ->. apply Hno. by rewrite Hd.
Qed.

(** ** Requests keep it *)

Record accounts_world (w : World) : Prop := {
  aw_db : accounts_ok (w_db w);
  aw_committed : accounts_ok (w_committed w);
  aw_others : Forall (fun f => forall x : DB * VaultSessions, accounts_ok x.1 -> accounts_ok (f x).1)
                (w_others w);
}.
Definition accounts_kept (w w' : World) : Prop := accounts_world w -> accounts_world w'.

Lemma accounts_kept_write {A} (f : DB -> res (A * DB)) :
  (forall d a d', f d = Ok (a, d') -> accounts_ok d -> accounts_ok d') -> keeps accounts_kept (write f).
Proof.
  intros Hf w [Hd Hc Ho]. unfold write. destruct (f (w_db w)) as [[a d]|e] eqn:E; [|by split].
  split; simpl; eauto.
Qed.
Lemma accounts_kept_write_ f : (forall d, accounts_ok d -> accounts_ok (f d)) -> keeps accounts_kept (write_ f).
Proof. intros Hf w [Hd Hc Ho]. split; simpl; eauto. Qed.

(** Writes of other tables *)
Ltac accounts_data :=
  intros; first
    [ apply accounts_kept_write_; intros d; by apply accounts_ok_data
    | apply accounts_kept_write; intros d0 a0 d1 Hw; revert Hw;
      unfold insert_entry, update_entry_row, insert_folder, update_folder_row, delete_folder_row,
        insert_group, update_group_row, put_member, put_entry_access, put_folder_user_access,
        put_folder_group_access, insert_audit, insert_attachment; intros Hw;
      repeat match type of Hw with (_ ≫= _) = Ok _ => apply res_bind_Ok in Hw as (? & _ & Hw) end;
      simplify_eq/=; by apply accounts_ok_data ].

#[export] Instance accounts_kept_frame : DataFrame accounts_kept.
Proof.
  split; [split; [split; [split|]|]|..]; try solve [accounts_data].
  - intros w Hw. exact Hw.
  - intros x y z Hxy Hyz Hx. auto.
  - intros w w' [E1 E2 E3] [? ? ?]. split; congruence.
  - intros w [Hd Hc Ho]. unfold suspend. destruct (w_others w) as [|f fs] eqn:E; [cbn; rewrite <- E in Ho; by split|].
    inversion_clear Ho as [|? ? Hf Hfs]. specialize (Hf (w_committed w, w_sessions w) Hc).
    destruct (f (w_committed w, w_sessions w)) as [d v]. by split.
  - apply accounts_kept_write_. intros d. apply accounts_ok_same; [done|..]; cbn.
    + intros v Hv. apply fmap_Some in Hv as (v0 & Hv0 & ->). eauto.
    + intros v0 Hv0. rewrite Hv0. cbn. eauto.
Qed.

(** A state that is left behind by a failure: what is not committed is dropped. *)
Definition accounts_safe (w : World) : Prop :=
  accounts_ok (w_committed w) ∧
  Forall (fun f => forall x : DB * VaultSessions, accounts_ok x.1 -> accounts_ok (f x).1) (w_others w).
Definition settled {A} (r : res A * World) : Prop :=
  match r.1 with Ok _ => accounts_world r.2 | Err _ => accounts_safe r.2 end.

Lemma accounts_world_safe w : accounts_world w -> accounts_safe w.
Proof. by intros []. Qed.
Lemma accounts_world_same w w' : db_same w w' -> accounts_world w -> accounts_world w'.
Proof. intros [E1 E2 E3] [? ? ?]. split; congruence. Qed.
Lemma settled_kept {A} (m : M World A) w : keeps accounts_kept m -> accounts_world w -> settled (m w).
Proof.
  intros Hm Hw. specialize (Hm w Hw). unfold settled. destruct (m w) as [[a|e] w']; [done|].
  by apply accounts_world_safe.
Qed.
(** A step that keeps the invariant, whatever follows. *)
Lemma settled_step {A B} (m : M World A) (f : A -> M World B) w :
  keeps accounts_kept m -> accounts_world w ->
  (forall a w', m w = (Ok a, w') -> accounts_world w' -> settled (f a w')) -> settled ((m ≫= f) w).
Proof.
  intros Hm Hw Hf. specialize (Hm w Hw). unfold mbind, M_bind.
  destruct (m w) as [[a|e] w1] eqn:E; [by apply Hf|]. by apply accounts_world_safe.
Qed.
Lemma settled_bind {A B} (m : M World A) (f : A -> M World B) w :
  settled (m w) -> (forall a w', accounts_world w' -> settled (f a w')) -> settled ((m ≫= f) w).
Proof.
  unfold settled at 1. intros Hm Hf. unfold mbind, M_bind. destruct (m w) as [[a|e] w1]; [by apply Hf|done].
Qed.
(** A step that leaves the database alone. *)
Lemma settled_read {A B} (m : M World A) (f : A -> M World B) w :
  keeps db_same m -> accounts_world w ->
  (forall a w', m w = (Ok a, w') -> db_same w w' -> accounts_world w' -> settled (f a w')) ->
  settled ((m ≫= f) w).
Proof.
  intros Hm Hw Hf. apply settled_step; [by apply keeps_db_same|done|].
  intros a w' E Hw'. specialize (Hm w). rewrite E in Hm. by apply Hf.
Qed.
(** The rest of a request, once it commits no more. *)
Definition safe_kept (w w' : World) : Prop := accounts_safe w -> accounts_safe w'.
Lemma settled_rest {A} (m : M World A) w :
  keeps safe_kept m -> accounts_world w ->
  (forall a w', m w = (Ok a, w') -> accounts_ok (w_db w')) -> settled (m w).
Proof.
  intros Hm Hw Hf. destruct (Hm w (accounts_world_safe w Hw)) as [Hc Ho]. unfold settled.
  destruct (m w) as [[a|e] w'] eqn:E; [|by split]. split; [by eapply Hf|done..].
Qed.
Lemma safe_kept_write {A} (f : DB -> res (A * DB)) : keeps safe_kept (write f).
Proof. intros w Hw. unfold write. by destruct (f (w_db w)) as [[a d]|e]. Qed.
Lemma safe_kept_suspend : keeps safe_kept suspend.
Proof.
  intros w [Hc Ho]. unfold suspend. destruct (w_others w) as [|f fs] eqn:E; [cbn; by rewrite <- E in Ho|].
  inversion_clear Ho as [|? ? Hf Hfs]. specialize (Hf (w_committed w, w_sessions w) Hc).
  destruct (f (w_committed w, w_sessions w)) as [d v]. by split.
Qed.
#[export] Instance safe_kept_frame : AccountFrame safe_kept.
Proof.
  split; [split; [split; [split; [split|]|]|..]|..]; intros;
    first [apply safe_kept_suspend | apply safe_kept_write | by intros ? ? | idtac].
  - intros x y z Hxy Hyz Hx. auto.
  - destruct H as [? E1 E2]. intros [? ?]. split; congruence.
Qed.

Lemma settled_throw {A} e w : accounts_world w -> settled ((throw e : M World A) w).
Proof. apply accounts_world_safe. Qed.
Lemma settled_ret {A} (a : A) w : accounts_world w -> settled ((mret a : M World A) w).
Proof. done. Qed.
Lemma accounts_world_db w d : accounts_world w -> accounts_ok d -> accounts_world (w_set_db d w).
Proof. intros [? ? ?] ?. by split. Qed.

Lemma accounts_session_commit : keeps accounts_kept session_commit.
Proof. intros w [? ? ?]. by split. Qed.
#[export] Instance accounts_commit_frame : CommitFrame accounts_kept.
Proof. split; [apply _|apply accounts_session_commit]. Qed.
#[export] Hint Resolve settled_throw : keeps.

(** [settle] passes the steps that change no account. *)
Ltac settle :=
  repeat first
    [ apply settled_throw; [assumption]
    | apply settled_read;
      [solve [eauto with keeps nocore | keeps_tac] | assumption | intros ? ? ? ? ?; cbn [w_set_db w_db] in *]
    | apply settled_step;
      [solve [eauto with keeps nocore | keeps_tac] | assumption | intros ? ? ? ?; cbn [w_set_db w_db] in *]
    | match goal with
      | |- settled ((if ?b then _ else _) _) => destruct b eqn:?
      | |- settled ((match ?x with _ => _ end) _) => destruct x eqn:?
      end ].

Section Settled.
Context `{Cryptography} `{Environment} `{Codec} `{BackupCodec} `{Text} `{Config} `{LegacyLibraries}.
Implicit Types (actor c : AuthContext) (w : World).

Lemma accounts_login n p : keeps accounts_kept (login n p).
Proof. unfold login. keeps_tac. Qed.

(** The context's account is the current row, as [auth_context] found it. *)
Definition current c w : Prop := t_rows (users (w_db w)) !! ctx_id c = Some (ctx_user c).

Lemma target_Ok actor i w u w' :
  target actor i w = (Ok u, w') ->
  w' = w ∧ t_rows (users (w_db w)) !! i = Some u ∧ is_active_admin (ctx_user actor).
Proof.
  unfold target, auth_require_admin, fetch_user. intros Ht. run_inv Ht. world_inv.
  rewrite andb_true_iff in R. destruct R as [? Ha]. apply bool_decide_eq_true in Ha.
  unfold ok_or in Ht. destruct (_ !! i); by simplify_eq/=.
Qed.

Lemma accounts_ok_row d i u u' d' :
  update_user_row i u' d = Ok ((), d') -> accounts_ok d -> t_rows (users d) !! i = Some u ->
  user_keys u' = user_keys u ∨ (vault d ≫= owner_user_id) ≠ Some i ->
  (user_role u' = service -> user_role u = service) ->
  is_active_admin u' ∨ ¬ is_active_admin u ∨
    (∃ j x, j ≠ i ∧ t_rows (users d) !! j = Some x ∧ is_active_admin x) ->
  accounts_ok d'.
Proof.
  unfold update_user_row. intros Hu. res_inv Hu. simplify_eq. apply accounts_ok_update.
Qed.

(** Frames: what follows the last commit of an operation *)
(** An administrator who is demoted or disabled is not the last one. *)
Lemma guarded_update d i u r a :
  (active u && bool_decide (user_role u = admin)
     && (bool_decide (a = Some false) || bool_decide (default (user_role u) r ≠ admin)) = true ->
   other_admins d i ≠ []) ->
  let u' := set_active (default (active u) a) (set_user_role (default (user_role u) r) u) in
  is_active_admin u' ∨ ¬ is_active_admin u ∨
    (∃ j x, j ≠ i ∧ t_rows (users d) !! j = Some x ∧ is_active_admin x).
Proof.
  intros Hg u'. destruct (decide (is_active_admin u)) as [[Ha Hr]|]; [|by right; left].
  destruct (decide (is_active_admin u')) as [|Hn]; [by left|]. right; right.
  destruct (other_admins d i) as [|[j x] l] eqn:E.
  - exfalso. apply Hg; [|done]. rewrite Ha, bool_decide_true by done. simpl.
    rewrite orb_true_iff, !bool_decide_eq_true.
    destruct (decide (a = Some false)) as [|Ha']; [by left|]. right. intros Er. apply Hn.
    split; [|done]. by destruct a as [[]|].
  - assert ((j, x) ∈ other_admins d i) as Hin by (rewrite E; left).
    unfold other_admins in Hin. apply list_elem_of_filter in Hin as ((? & ? & ?) & Hin).
    apply elem_of_rows in Hin. by exists j, x.
Qed.

Lemma settled_update_user actor i role act w :
  accounts_world w -> settled (update_user actor i role act w).
Proof.
  intros Hw. apply settled_rest; [apply frame_update_user|done|]. intros a w' Hr.
  unfold update_user in Hr. apply bind_Ok in Hr as (u & w1 & Ht & Hr).
  apply target_Ok in Ht as (-> & Hu & _). run_inv Hr. world_inv. simpl in *. destruct x2.
  assert (w_db s0 = w_db s) as E0 by (destruct (_ || _) in R1; run_inv R1; by world_inv).
  assert (w_db s = w_db w ∧ (active u && bool_decide (user_role u = admin)
     && (bool_decide (act = Some false) || bool_decide (default (user_role u) role ≠ admin)) = true ->
   other_admins (w_db w) i ≠ [])) as [E1 Hg].
  { destruct (_ && (_ || _)); run_inv R0; world_inv; [|done]. split; [done|]. intros _.
    by apply bool_decide_eq_false in R0. }
  rewrite E0, E1 in *. eapply accounts_ok_row; [done|apply Hw|done|by left| |by apply guarded_update].
  simpl. intros Hs. apply negb_false_iff, Bool.eqb_prop in R. rewrite Hs in R.
  symmetry in R. rewrite bool_decide_true in R by done. symmetry in R. by apply bool_decide_eq_true in R.
Qed.

Lemma settled_require_password_change actor i w :
  accounts_world w -> settled (require_password_change actor i w).
Proof.
  intros Hw. apply settled_rest; [apply frame_require_password_change|done|]. intros a w' Hr.
  unfold require_password_change in Hr. apply bind_Ok in Hr as (u & w1 & Ht & Hr).
  apply target_Ok in Ht as (-> & Hu & _). run_inv Hr. world_inv. simpl. destruct x0.
  eapply accounts_ok_row; [done|apply Hw|done|by left|done|].
  destruct (decide (is_active_admin u)); [by left|by right; left].
Qed.

Lemma still_admin_Ok i k d :
  still_admin i k d = true -> ∃ a, t_rows (users d) !! i = Some a ∧ is_active_admin a.
Proof.
  unfold still_admin. destruct (t_rows _ !! i) as [a|]; [|done]. destruct (vault d); [|done].
  rewrite !andb_true_iff, bool_decide_eq_true. intros [[? ?] _]. by exists a.
Qed.

Lemma settled_create_user actor n r p w :
  accounts_world w -> settled (create_user actor n r p w).
Proof.
  intros Hw. unfold create_user. settle.
  apply settled_rest; [solve [keeps_tac]|done|]; intros ? ? Hr; run_inv Hr; world_inv.
  match goal with E : still_admin _ _ _ = true |- _ => apply still_admin_Ok in E as (a' & Ha & _) end.
  match goal with
  | E : db_same ?x ?y, Ha : t_rows (users (w_db ?x)) !! _ = _ |- _ => rewrite <- (ds_db _ _ E) in Ha
  end.
  unfold insert_user in R. res_inv R. simplify_eq/=. apply accounts_ok_insert; [by apply aw_db|].
  intros E. by rewrite E in Ha.
Qed.

(** The vault's owner has its key record in two places. *)
Lemma accounts_ok_rekeyed w0 i u u' m d w1 x w' :
  accounts_ok (w_db w0) -> t_rows (users (w_db w0)) !! i = Some u ->
  update_user_row i u' (w_db w0) = Ok ((), d) ->
  user_keys u' = stored_material m -> user_role u' = user_role u -> active u' = active u ->
  store_if_owner i m (w_set_db d w1) = (Ok x, w') -> accounts_ok (w_db w').
Proof.
  intros Hok Hu Hd Hk Hr Ha Hs. unfold update_user_row in Hd. res_inv Hd.
  assert (is_active_admin u' ∨ ¬ is_active_admin u) as Hadm.
  { unfold is_active_admin. rewrite Hr, Ha. destruct (decide (is_active_admin u)); [by left|by right]. }
  unfold store_if_owner, fetch_vault in Hs. run_inv Hs. world_inv. simpl in *.
  destruct (vault (w_db w0)) as [v|] eqn:Ev.
  - case_bool_decide as Ho; world_inv; simpl.
    + unfold put_vault in Hs. res_inv Hs. simplify_eq. by eapply accounts_ok_owner_keys.
    + eapply accounts_ok_update; [done..|right; by rewrite Ev| |tauto]. congruence.
  - world_inv. simpl. eapply accounts_ok_update; [done..|right; by rewrite Ev| |tauto]. congruence.
Qed.

Lemma settled_rotate_service_token actor i w :
  accounts_world w -> settled (rotate_service_token actor i w).
Proof.
  intros Hw. unfold rotate_service_token. settle.
  apply settled_rest; [solve [keeps_tac]|done|]; intros ? ? Hr; run_inv Hr; unfold fetch_user in *; world_inv.
  match goal with E : _ && _ = true |- _ => apply andb_true_iff in E as [_ Hs] end.
  apply bool_decide_eq_true in Hs. destruct x.
  eapply accounts_ok_row; [done|by apply aw_db|done|..|done|].
  - right. intros E. apply bind_Some in E as (v & Hv & Ho).
    match goal with E : accounts_world _ |- _ => destruct (ac_owner _ (aw_db _ E) v i Hv Ho) as (x & Hx & _ & Hn) end.
    congruence.
  - right; left. intros [_ E]. congruence.
Qed.

Lemma settled_reset_password actor i p w :
  accounts_world w -> settled (reset_password actor i p w).
Proof.
  intros Hw. unfold reset_password. settle.
  apply settled_rest; [solve [keeps_tac]|done|]; intros ? ? Hr; run_inv Hr; unfold fetch_user in *; world_inv.
  destruct x. simpl. eapply accounts_ok_rekeyed; [by apply aw_db|done..].
Qed.

Lemma still_current_Ok i m k w u w' :
  still_current i m k w = (Ok (Some u), w') ->
  w' = w ∧ t_rows (users (w_db w)) !! i = Some u ∧ active u = true ∧ user_key_material u = Ok m ∧
  ∃ v cm, vault (w_db w) = Some v ∧ canonical_material (w_db w) v cm ∧
    key_matches k (CBlob (km_key_check cm)) = true.
Proof.
  unfold still_current, fetch_user, fetch_vault. intros Hs. run_inv Hs. world_inv. simpl in *.
  destruct (vault _) as [v|] eqn:Ev.
  - run_inv R1. match goal with E : validate_vault_material _ _ = _ |- _ =>
      apply validate_vault_material_Ok in E as [Hv ->] end.
    destruct (t_rows _ !! i) as [y|]; [|by run_inv Hs]. destruct (negb (active y)) eqn:Ea; [by run_inv Hs|].
    run_inv Hs. destruct (_ && _) eqn:E; [|done]. simplify_eq.
    apply andb_true_iff in E as [->%bool_decide_eq_true Hk]. apply negb_false_iff in Ea. eauto 10.
  - run_inv R1. destruct (t_rows _ !! i) as [y|]; [|by run_inv Hs].
    destruct (negb (active y)); [by run_inv Hs|]. by run_inv Hs.
Qed.

Lemma db_same_refresh_idle_timeout : keeps db_same refresh_idle_timeout.
Proof. unfold refresh_idle_timeout, stored_inactivity_ms. keeps_tac. Qed.
Lemma db_same_auth_open_session i u k : keeps db_same (auth_open_session i u k).
Proof. unfold auth_open_session. keeps_tac. Qed.
#[local] Hint Resolve db_same_refresh_idle_timeout db_same_auth_open_session : keeps.

(** The database after a run that leaves it alone *)
Lemma db_same_run {A} (m : M World A) w r w' : m w = (r, w') -> keeps db_same m -> w_db w' = w_db w.
Proof. intros E Hm. specialize (Hm w). rewrite E in Hm. apply Hm. Qed.

Lemma settled_change_password c p q b w :
  accounts_world w -> settled (change_password c p q b w).
Proof.
  intros Hw. unfold change_password. settle. simplify_eq.
  match goal with E : still_current _ _ _ _ = _ |- _ => apply still_current_Ok in E as (-> & Hu & _) end.
  apply settled_rest; [solve [keeps_tac]|done|]; intros ? ? Hr.
  apply bind_Ok in Hr as ([] & w1 & Hr1 & Hr). apply bind_Ok in Hr as ([] & w2 & Hr2 & Hr).
  apply write_Ok in Hr1 as (d & Hr1 & ->).
  rewrite (db_same_run _ _ _ _ Hr) by keeps_tac.
  eapply accounts_ok_rekeyed; [by apply aw_db|done..].
Qed.

Lemma settled_delete_user actor i w :
  accounts_world w -> current actor w -> settled (delete_user actor i w).
Proof.
  intros Hw Hcur. apply settled_rest; [apply frame_delete_user|done|]. intros a w' Hr.
  unfold delete_user in Hr. apply bind_Ok in Hr as (u & w1 & Ht & Hr).
  apply target_Ok in Ht as (-> & Hu & Hadm). unfold fetch_vault in Hr. run_inv Hr. world_inv.
  match goal with E : delete_user_row _ _ = _ |- _ => unfold delete_user_row in E; res_inv E end.
  match goal with E : bool_decide (_ ≫= _ = _) = false |- _ => apply bool_decide_eq_false in E end.
  eapply accounts_ok_data with (d := with_users (t_delete i) (w_db s2)); [done..|].
  apply (accounts_ok_delete _ _ (ctx_id actor) (ctx_user actor)); [apply Hw|done|lia|exact Hcur|done].
Qed.

Lemma material_from_stores a b k m : material_from a b k = Ok m -> k = stored_material m.
Proof.
  unfold material_from. destruct (negb _) eqn:E; [done|]. case_bool_decide as Hk; [done|].
  destruct (require_supported _) as [|[]]; try done. intros [= <-].
  apply negb_false_iff in E. rewrite !andb_true_iff in E. destruct E as (((E1 & E2) & E3) & E4).
  destruct k as [k0 kp ks kc kw kk]; simpl in *. unfold stored_material; simpl. subst k0.
  by destruct ks, kc, kw, kk.
Qed.

Lemma settled_first_account n m v w :
  accounts_world w -> any_user (w_db w) = false -> (forall i, vault_keys (v i) = stored_material m) ->
  (forall i, owner_user_id (v i) = Some i) ->
  forall key : VaultKey, settled ((id ← write (insert_user (first_admin n m));
    write (put_vault (v id));; mret (Some (id, first_admin n m, key))) w).
Proof.
  intros Hw Hn Hk Ho key. apply settled_rest; [solve [keeps_tac]|done|]. intros a w' Hr. run_inv Hr. world_inv.
  unfold insert_user in *. unfold put_vault in *.
  repeat match goal with E : (_ ≫= _) = Ok _ |- _ => res_inv E end. simplify_eq/=.
  apply accounts_ok_first; [done|by rewrite Hk| |done].
  apply bool_decide_eq_false in Hn. by apply dec_stable in Hn.
Qed.

Lemma settled_bootstrap n p w : accounts_world w -> settled (bootstrap n p w).
Proof.
  intros Hw. unfold bootstrap. do 3 (apply settled_read; [keeps_tac|done|]; intros ? ? ? ? ?).
  apply settled_bind.
  - settle; unfold fetch_vault in *; world_inv; [| done |].
    + apply (settled_first_account n _ (fun i => set_owner_user_id (Some i) _)); [done..| |done].
      intros i. simpl. apply (material_from_stores MASTER_DAMAGED UNREADABLE_KEY_FORMAT).
      match goal with E : bool_decide (_ ≠ _) = false |- _ =>
        apply bool_decide_eq_false, dec_stable in E; by rewrite <- E end.
    + by apply (settled_first_account n _ (fun i => new_vault (Some i) _)).
  - intros ? ? ?. apply settled_kept; [keeps_tac|done].
Qed.

Lemma settled_login_primary p w : accounts_world w -> settled (login_primary p w).
Proof.
  intros Hw. unfold login_primary. apply settled_read; [keeps_tac|done|]. intros v w' _ _ Hw'.
  destruct v as [v|]; [|by apply settled_throw]. destruct (owner_user_id v); [|by apply settled_bootstrap].
  apply settled_kept; [|done]. pose proof accounts_login. keeps_tac.
Qed.

Lemma settled_ignoring {A} (m : M World A) w : settled (m w) -> settled (ignoring m w).
Proof. intros Hm. apply settled_bind; [done|]. by intros a w' ?. Qed.

Lemma settled_run_operation mv o c w :
  accounts_world w -> current c w -> settled (run_operation mv o c w).
Proof.
  intros Hw Hc. by_route o; try apply settled_ignoring;
    auto using settled_create_user, settled_update_user, settled_require_password_change,
      settled_rotate_service_token, settled_reset_password, settled_delete_user, settled_change_password;
    apply settled_kept; try done; unfold ignoring, stored_settings, revoke_user_sessions; keeps_tac.
Qed.

(** ** Transactions and requests *)

Lemma settled_transaction {A} b (body : M World A) w :
  accounts_world w -> (forall w', db_same (begin_transaction w) w' -> accounts_world w' -> settled (body w')) ->
  accounts_world (transaction b body w).2.
Proof.
  intros Hw Hb. assert (accounts_world (begin_transaction w)) as Hw0 by (destruct Hw; by split).
  assert (settled (finish b body (begin_transaction w))) as Hf.
  { unfold finish. apply settled_bind; [by apply Hb|]. intros a w' Hw'. apply settled_kept; [|done]. keeps_tac. }
  unfold settled in Hf.
  destruct (transaction_cases b body w) as [(a & w1 & E & _ & Hs & _)|(e & w1 & E & _ & Hs)];
    rewrite E in Hf; simpl in Hf; apply (accounts_world_same _ _ Hs); [done|].
  destruct Hf. by split.
Qed.

Lemma accounts_handle mv r w : accounts_world w -> accounts_world (handle mv r w).2.
Proof.
  intros Hw. destruct r as [r|token o]; cbn [handle].
  - destruct r; cbn [serve_public];
      try (apply settled_transaction; [done|]; intros w' _ Hw'; apply settled_ignoring;
           first [by apply settled_bootstrap | by apply settled_login_primary
                 | by apply settled_kept; [apply accounts_login|] | by apply settled_kept; [unfold status; keeps_tac|]]).
    unfold ignoring. apply (keeps_db_same (R := accounts_kept)); [keeps_tac|done].
  - unfold serve. pose proof (keeps_db_same (R := accounts_kept) (credential token)) as Hcr.
    specialize (Hcr ltac:(unfold credential; keeps_tac) w Hw).
    destruct (credential token w) as [[t|e] w1] eqn:Ec;
      [rewrite (bind_run_Ok _ _ _ _ _ Ec)|by rewrite (bind_run_Err _ _ _ _ _ Ec)].
    apply settled_transaction; [done|]. intros w' _ Hw'.
    apply settled_read; [apply db_same_auth_context|done|]. intros c w2 Ha Hs Hw2.
    apply settled_read; [keeps_tac|done|]. intros [] w3 Hr Hs' Hw3.
    apply settled_run_operation; [done|]. apply auth_context_Ok in Ha as [Ha _].
    unfold current. rewrite (ds_db _ _ Hs'), (ds_db _ _ Hs). apply Ha.
Qed.

Lemma accounts_run mv rs w : accounts_world w -> accounts_world (run_requests mv rs w).
Proof.
  revert w. induction rs as [|r rs IH]; intros w Hw; [done|]. simpl. by apply IH, accounts_handle.
Qed.
End Settled.

Section Properties.
Context `{Cryptography} `{Environment} `{Codec} `{BackupCodec} `{Text} `{Config} `{LegacyLibraries}.
Variable model_validate : ImportFields -> (pystr * pystr) + Password.

(** C3: Whatever requests a server handles, and whatever other requests do while
    a key derivation runs, the committed accounts stay usable: as long as there
    are accounts, one of them is an active administrator (no sequence of
    demotions, deactivations, deletions and races removes the last one), there is
    a vault key record with an owner, and the owner's account exists, is not a
    service account and holds the same key record as the vault. *)
Theorem accounts_stay_ok rs w :
  accounts_world w -> accounts_ok (w_committed (run_requests model_validate rs w)).
Proof. intros Hw. apply (accounts_run model_validate rs w Hw). Qed.
End Properties.

(** Root tries to leave, and to take their own role away. *)
Lemma accounts_stay_ok_witness :
  let rs := [demo_bootstrap; ForAccount (Some demo_token) (DeleteUser 1);
             ForAccount (Some demo_token) (UpdateUser 1 (Some member) None);
             ForAccount (Some demo_token) (UpdateUser 1 None (Some false))] in
  let w := run_requests demo_validate rs demo_start in
  ∃ i u, t_rows (users (w_committed w)) !! i = Some u ∧ active u = true ∧ user_role u = admin.
Proof.
  intros rs w. assert (accounts_ok (w_committed w)) as Hok.
  { refine (accounts_stay_ok demo_validate rs demo_start _). split; [apply accounts_ok_empty..|constructor]. }
  apply (ac_admin _ Hok). intros E.
  assert (is_some (t_rows (users (w_committed w)) !! 1) = true) as H1 by (vm_compute; reflexivity).
  by rewrite E in H1.
Defined.
