(* ===== verification/SigninSpec.v ===== *)
(** Signing in and out (Auth.v, Sessions.v): what a login proves, which sessions
    a request ends, and what a changed password leaves behind. *)
From Stdlib Require Import ZArith Lia Strings.String Strings.Byte.
From stdpp Require Import base list gmap sets.
From S2P Require Import Prelude Crypto Platform Concrete Sessions Models Engine Records Context Folder.
From S2P Require Import Group Password Attachment Acl MasterPassword Auth Api Demo AccountsSpec RecordsSpec Requests.

(** ** The hooks of a request end sessions *)

(** The sessions a hook removes *)
Definition ended (h : Hook) (p : bytes * Session) : Prop :=
  match h with
  | HookRevoke token => token_fullmatch token = true ∧ p.1 = digest token
  | HookRevokeUser i => s_user_id p.2 = i
  | HookRevokeUserExcept i token => s_user_id p.2 = i ∧ p.1 ≠ digest token
  | HookRevokeAll => True
  | HookSetIdleTimeout _ => False
  end.

Section Hooks.
Context `{Environment}.

Lemma run_hook_sessions h w p :
  p ∈ sessions (w_sessions (run_hook h w).2) -> p ∈ sessions (w_sessions w) ∧ ¬ ended h p.
Proof.
  assert (forall (Q : bytes * Session -> Prop) `{!forall x, Decision (Q x)} l,
    p ∈ filter Q l -> p ∈ l ∧ Q p) as Hfilter by (intros Q ? l Hl; by apply list_elem_of_filter in Hl as []).
  destruct h as [token|i|i token| |ms]; intros Hp.
  - revert Hp. unfold run_hook, mbind, M_bind, on_sessions, revoke.
    destruct (token_fullmatch token) eqn:Ef; cbn [negb snd w_sessions w_set_sessions sessions with_sessions mret M_ret].
    + intros [? ?]%Hfilter. split; [done|]. by intros [].
    + intros Hp. split; [done|]. cbn. rewrite Ef. by intros [].
  - by apply Hfilter in Hp as [].
  - by apply Hfilter in Hp as [].
  - by apply not_elem_of_nil in Hp.
  - apply Hfilter in Hp as [Hp _]. split; [exact Hp|]. by intros [].
Qed.

Lemma forM_hooks_sessions hs w p :
  p ∈ sessions (w_sessions (forM hs run_hook w).2) ->
  p ∈ sessions (w_sessions w) ∧ forall h, h ∈ hs -> ¬ ended h p.
Proof.
  revert w. induction hs as [|h hs IH]; intros w Hp; [split; [done|]; by intros h ?%not_elem_of_nil|].
  cbn [forM] in Hp. unfold mbind, M_bind in Hp. pose proof (run_hook_Ok h w) as Hok.
  pose proof (fun p => run_hook_sessions h w p) as Hh.
  destruct (run_hook h w) as [[u|e] w1]; [|done]. specialize (IH w1). pose proof (forM_Ok run_hook hs w1 run_hook_Ok) as Hok'.
  destruct (forM hs run_hook w1) as [[us|e] w2]; [|done]. cbn in *.
  destruct (IH Hp) as [Hin Hn]. destruct (Hh p Hin) as [? ?]. split; [done|].
  intros h' [->|Hh']%elem_of_cons; auto.
Qed.

Lemma run_hooks_sessions hooks w p :
  p ∈ sessions (w_sessions (run_hooks hooks w).2) ->
  p ∈ sessions (w_sessions w) ∧ forall h, h ∈ hooks w -> ¬ ended h p.
Proof.
  unfold run_hooks. cbv [gets modify mbind M_bind].
  set (w1 := w_set_after_commit [] (w_set_after_rollback [] w)).
  pose proof (forM_hooks_sessions (hooks w) w1 p) as Hf.
  by destruct (forM (hooks w) run_hook w1) as [[bs|e] w2].
Qed.

(** After a request that succeeds, no session is left that one of its hooks ends. *)
Lemma transaction_ends {A} b (body : M World A) w a w' :
  transaction b body w = (Ok a, w') ->
  ∃ w0, body (begin_transaction w) = (Ok a, w0) ∧ w_db w0 = w_committed w' ∧
    forall p, p ∈ sessions (w_sessions w') ->
      p ∈ sessions (w_sessions w0) ∧ forall h, h ∈ w_after_commit w0 -> ¬ ended h p.
Proof.
  intros Ht. destruct (transaction_cases b body w) as [(a' & w1 & E & Ea & Hs & Hss)|(e & w1 & _ & Ee & _)];
    rewrite Ht in *; [|done]. simpl in *. injection Ea as <-.
  apply finish_Ok in E as (w0 & Eb & _ & Ec & Es & Eh & _). exists w0. split; [done|].
  split; [by rewrite (ds_committed _ _ Hs)|]. intros p. rewrite Hss, <- Es, <- Eh. apply run_hooks_sessions.
Qed.
End Hooks.

(** ** Requests that end an account's access *)

(** A new role, a deactivation, a password reset, a deletion, and a revocation *)
Definition ends_access (o : operation) : option Z :=
  match o with
  | OnUsers (UpdateUser i role act) =>
      if is_some role || bool_decide (act = Some false) then Some i else None
  | OnUsers (RevokeSessions i | ResetPassword i _ | DeleteUser i) => Some i
  | _ => None
  end.

(** [registers h m]: when [m] succeeds, [h] is among the hooks of the request. *)
Definition registers {A} (h : Hook) (m : M World A) : Prop :=
  forall w a w', m w = (Ok a, w') -> h ∈ w_after_commit w'.

Lemma registers_after_commit h : registers h (after_commit h).
Proof. intros w [] w' [= <-]. simpl. set_solver. Qed.
Lemma registers_last {A B} h (m : M World A) (f : A -> M World B) :
  (forall a, registers h (f a)) -> registers h (m ≫= f).
Proof. intros Hf w b w' Hr. apply bind_Ok in Hr as (a & w1 & _ & Hr). by eapply Hf. Qed.
(** What follows forgets no hook. *)
Definition keeps_hooks (w w' : World) : Prop := w_after_commit w `prefix_of` w_after_commit w'.
#[export] Instance keeps_hooks_preorder : PreOrder keeps_hooks.
Proof. unfold keeps_hooks. split; [intros w; done|]. intros x y z. apply transitivity. Qed.
Lemma registers_first {A B} h (m : M World A) (f : A -> M World B) :
  registers h m -> (forall a, keeps keeps_hooks (f a)) -> registers h (m ≫= f).
Proof.
  intros Hm Hf w b w' Hr. apply bind_Ok in Hr as (a & w1 & Ha & Hr). apply Hm in Ha.
  specialize (Hf a w1). rewrite Hr in Hf. destruct Hf as [k Hk]. simpl in Hk. rewrite Hk. set_solver.
Qed.
Lemma keeps_hooks_same {A} (m : M World A) : keeps same_state m -> keeps keeps_hooks m.
Proof. intros Hm w. unfold keeps_hooks. by rewrite (ss_after_commit _ _ (Hm w)). Qed.
Lemma keeps_hooks_write {A} (f : DB -> res (A * DB)) : keeps keeps_hooks (write f).
Proof. intros w. unfold keeps_hooks, write. by destruct (f (w_db w)) as [[a d]|e]. Qed.
#[local] Hint Resolve keeps_hooks_same keeps_hooks_write : keeps.

Section EndsAccess.
Context `{Cryptography} `{Environment} `{Codec} `{BackupCodec} `{Text} `{Config} `{LegacyLibraries}.
Variable model_validate : ImportFields -> (pystr * pystr) + Password.

Lemma registers_ignoring {A} h (m : M World A) : registers h m -> registers h (ignoring m).
Proof. intros Hm. apply registers_first; [done|]. intros a. keeps_tac. Qed.

Lemma registers_update_user c i role act :
  is_some role || bool_decide (act = Some false) = true ->
  registers (HookRevokeUser i) (update_user c i role act).
Proof.
  intros He. unfold update_user. do 3 (apply registers_last; intros ?). rewrite He.
  apply registers_first; [apply registers_after_commit|]. intros []. keeps_tac.
Qed.
Lemma registers_revoke_user_sessions c i : registers (HookRevokeUser i) (revoke_user_sessions c i).
Proof.
  unfold revoke_user_sessions. apply registers_last; intros ?.
  apply registers_first; [apply registers_after_commit|]. intros []. keeps_tac.
Qed.
Lemma registers_throw {A} h e : registers h (throw e : M World A).
Proof. by intros w a w' Hr. Qed.
Lemma registers_reset_password c i p : registers (HookRevokeUser i) (reset_password c i p).
Proof.
  unfold reset_password. do 5 (apply registers_last; intros ?). apply registers_last; intros [u|];
    [|apply registers_throw]. do 3 (apply registers_last; intros ?).
  apply registers_first; [apply registers_after_commit|]. intros []. keeps_tac.
Qed.
Lemma registers_delete_user c i : registers (HookRevokeUser i) (delete_user c i).
Proof. unfold delete_user. repeat (apply registers_last; intros ?). apply registers_after_commit. Qed.

Lemma registers_run_operation o c i :
  ends_access o = Some i -> registers (HookRevokeUser i) (run_operation model_validate o c).
Proof.
  destruct o as [| [] | | | | | |]; intros He; try discriminate He; cbn [ends_access] in He;
    cbn [run_operation run_users_route]; try (injection He as <-); try apply registers_ignoring;
    auto using registers_revoke_user_sessions, registers_reset_password, registers_delete_user.
  destruct (_ || _) eqn:E; [|discriminate He]. injection He as <-. by apply registers_update_user.
Qed.

(** C9: Ending an account's access ends its sessions: after a successful request
    that changes an account's role, deactivates it, resets its password, deletes
    it or revokes its sessions, the server holds no session of that account,
    including sessions opened while the request was running. *)
Theorem ended_access_ends_sessions token o i w :
  ends_access o = Some i -> is_ok (serve model_validate token o w).1 = true ->
  Forall (fun p => s_user_id p.2 ≠ i) (sessions (w_sessions (serve model_validate token o w).2)).
Proof.
  intros He Hok. unfold serve in *. destruct (credential token w) as [[t|e] w0] eqn:Ec;
    [|by rewrite (bind_run_Err _ _ _ _ _ Ec) in Hok].
  rewrite (bind_run_Ok _ _ _ _ _ Ec) in *.
  destruct (transaction _ _ w0) as [[u|e] w'] eqn:Et; [|done]. simpl.
  apply transaction_ends in Et as (w1 & Hb & _ & Hp). apply Forall_forall. intros p Hin.
  apply Hp in Hin as [_ Hn]. apply (Hn (HookRevokeUser i)).
  eapply (registers_last (HookRevokeUser i)); [|exact Hb]. intros c.
  apply registers_last. intros _. by apply registers_run_operation.
Qed.
End EndsAccess.

Lemma ended_access_ends_sessions_witness :
  map (fun p => s_user_id p.2) (sessions (w_sessions demo_shared)) = [2; 1] ∧
  Forall (fun p => s_user_id p.2 ≠ 2) (sessions (w_sessions
    (serve demo_validate (Some demo_token) (UpdateUser 2 None (Some false)) demo_shared).2)).
Proof.
  split; [vm_compute; reflexivity|].
  refine (ended_access_ends_sessions demo_validate (Some demo_token) (UpdateUser 2 None (Some false))
    2 demo_shared _ _); vm_compute; reflexivity.
Defined.

(** ** A changed password *)

Section Credentials.
Context `{Cryptography} `{Environment} `{Codec} `{BackupCodec} `{Text} `{Config} `{LegacyLibraries}.

Lemma open_material_Ok password m w r w' :
  open_material password m w = (Ok r, w') -> unlock_key_material password m = Ok r.
Proof.
  unfold open_material, open_with, catch.
  destruct ((derived ← derive password (km_salt m) (km_params m); lift (open_key_material derived m)) w)
    as [[a|e] w1] eqn:E; [|by destruct e].
  intros [= <- <-]. run_inv E. unfold derive in R. run_inv R. unfold unlock_key_material.
  match goal with Hd : argon2id _ _ _ = Ok _ |- _ => rewrite Hd end. done.
Qed.

Lemma key_matches_Ok k check : key_matches k (CBlob check) = true -> vk_check k = check.
Proof. unfold key_matches. intros E%bool_decide_eq_true. congruence. Qed.

(** Both records of the account's credentials hold the new material. *)
Lemma rekeyed_rows i u m d w x w' d0 :
  update_user_row i u d0 = Ok ((), d) -> store_if_owner i m (w_set_db d w) = (Ok x, w') ->
  t_rows (users (w_db w')) !! i = Some u ∧
  forall v, vault (w_db w') = Some v -> owner_user_id v = Some i -> vault_keys v = stored_material m.
Proof.
  unfold update_user_row, store_if_owner, fetch_vault. intros Hu Hs. res_inv Hu.
  run_inv Hs. world_inv. simpl in *. destruct (vault d0) as [v0|] eqn:Ev.
  - case_bool_decide as Ho; world_inv; simpl.
    + unfold put_vault in Hs. res_inv Hs. simplify_eq/=. rewrite lookup_insert_eq. split; [done|].
      intros v [= <-]. done.
    + rewrite lookup_insert_eq. split; [done|]. intros v Hv Hov. congruence.
  - world_inv. simpl. rewrite lookup_insert_eq. split; [done|]. congruence.
Qed.

(** A new session is the only one of its account that is left. *)
Lemma auth_open_session_Ok i u k w s w' :
  auth_open_session i u k w = (Ok s, w') ->
  os_token s = Some (token_urlsafe (w_tokens_drawn w)) ∧ w_db w' = w_db w.
Proof.
  intros Ho. pose proof (db_same_run _ _ _ _ Ho (db_same_auth_open_session _ _ _)) as Hd. split; [|done].
  unfold auth_open_session in Ho. run_inv Ho. world_inv. done.
Qed.

(** C8: A changed password takes over: the current one had to open the account's
    record; afterwards the committed account, and the vault's record when the
    account owns the vault, hold one key record that the new password opens to
    the same vault key; the account need not change it again; and of its sessions
    only the one opened by this request is left. *)
Theorem changed_password_takes_over `{!CryptographyLaws} `{!EnvironmentLaws} c old new w s w' :
  make_vault_key (vk_raw (ctx_key c)) = Ok (ctx_key c) ->
  transaction true (change_password c old new true) w = (Ok (Some s), w') ->
  new ≠ old ∧
  (∃ observed k, user_key_material (ctx_user c) = Ok observed ∧
     unlock_key_material old observed = Ok (Some k) ∧ vk_check k = vk_check (ctx_key c)) ∧
  (∃ u m, t_rows (users (w_committed w')) !! ctx_id c = Some u ∧
     must_change_password u = false ∧ user_key_material u = Ok m ∧
     unlock_key_material new m = Ok (Some (ctx_key c)) ∧
     forall v, vault (w_committed w') = Some v -> owner_user_id v = Some (ctx_id c) -> key_material v = Ok m) ∧
  (∃ token, os_token s = Some token ∧
     Forall (fun p => s_user_id p.2 = ctx_id c -> p.1 = digest token) (sessions (w_sessions w'))).
Proof.
  intros Hk Ht. apply transaction_ends in Ht as (w0 & Hb & Hdb & Hp). rewrite <- Hdb.
  unfold change_password in Hb. run_inv Hb.
  match goal with E : still_current _ _ _ _ = (Ok ?u, _) |- _ => destruct u as [u|]; [|discriminate Hb];
    apply still_current_Ok in E as (-> & _) end.
  apply bind_Ok in Hb as ([] & w1 & Hu & Hb). apply write_Ok in Hu as (d & Hu & ->).
  apply bind_Ok in Hb as ([] & w2 & Hs & Hb). apply (rekeyed_rows _ _ _ _ _ _ _ _ Hu) in Hs as [Hrow Hv].
  apply bind_Ok in Hb as ([] & w3 & Hr & Hb). cbn [negb] in Hb.
  apply bind_Ok in Hb as (s' & w4 & Ho & Hb). apply auth_open_session_Ok in Ho as [Htok Hdb4].
  rewrite Htok in Hb. run_inv Hb. world_inv.
  apply (fun e => db_same_run _ _ _ _ e db_same_refresh_idle_timeout) in Hr.
  cbn [w_db w_set_after_commit] in *. rewrite Hdb4, Hr.
  match goal with E : wrap_key_material _ _ _ = _ |- _ => apply wrap_key_material_Ok in E as Hm end.
  match goal with E : open_material _ _ _ = (Ok ?k, _) |- _ => apply open_material_Ok in E as Hopen;
    destruct k as [opened|]; [|done] end.
  match goal with E : bool_decide (new = old) = false |- _ => apply bool_decide_eq_false in E end.
  split_and!; [done|..].
  - eexists _, opened. split_and!; [done..|]. by apply key_matches_Ok.
  - destruct (unlock_material_for _ _ _ Hm) as (k2 & Hk2 & Hunlock). rewrite Hk in Hk2. injection Hk2 as <-.
    eexists _, _. split_and!; [exact Hrow|done| |exact Hunlock|].
    + unfold user_key_material. cbn. by eapply material_from_stored.
    + intros v Ev Ho. unfold key_material. rewrite (Hv v Ev Ho). by eapply material_from_stored.
  - eexists. split; [exact Htok|]. apply Forall_forall. intros p Hin Hid. apply Hp in Hin as [_ Hn].
    apply dec_stable. intros Hne. eapply (Hn (HookRevokeUserExcept (ctx_id c) _)); [|split; [exact Hid|exact Hne]].
    cbn. set_solver.
Qed.
End Credentials.

Lemma changed_password_takes_over_witness :
  ∃ s w' u m, transaction true (change_password demo_root_context demo_password demo_temporary true) demo_mail
      = (Ok (Some s), w') ∧
    t_rows (users (w_committed w')) !! 1 = Some u ∧
    user_key_material u = Ok m ∧ unlock_key_material demo_temporary m = Ok (Some (ctx_key demo_root_context)).
Proof.
  assert (match (transaction true (change_password demo_root_context demo_password demo_temporary true) demo_mail).1
    with Ok (Some _) => true | _ => false end = true) as Hr by (vm_compute; reflexivity).
  assert (ctx_id demo_root_context = 1) as Hid by (vm_compute; reflexivity).
  destruct (transaction true (change_password demo_root_context demo_password demo_temporary true) demo_mail)
    as [[[s|]|e] w'] eqn:E; try discriminate Hr.
  destruct (changed_password_takes_over demo_root_context demo_password demo_temporary demo_mail s w')
    as (_ & _ & (u & m & Hu & _ & Hm & Hk & _) & _); [vm_compute; reflexivity|exact E|].
  rewrite Hid in Hu. exists s, w', u, m. split_and!; [reflexivity|exact Hu|exact Hm|exact Hk].
Defined.

(** ** Logging in *)

(** The accounts and the vault's key record are as they were. *)
Record same_accounts (w w' : World) : Prop := {
  sa_users : users (w_db w') = users (w_db w);
  sa_vault : (fun v => (vault_keys v, owner_user_id v)) <$> vault (w_db w')
           = (fun v => (vault_keys v, owner_user_id v)) <$> vault (w_db w);
}.
#[export] Instance same_accounts_frame : Frame same_accounts.
Proof.
  split; [split|].
  - by intros w.
  - intros x y z [] []. split; congruence.
  - intros w w' [E _ _]. by split; rewrite E.
Qed.

Section Login.
Context `{Cryptography} `{Environment} `{Codec} `{BackupCodec} `{Text} `{Config} `{LegacyLibraries}.

Lemma same_accounts_insert_folder f : keeps same_accounts (write (insert_folder f)).
Proof.
  intros w. unfold write. destruct (insert_folder f (w_db w)) as [[a d]|e] eqn:E; [|by split].
  unfold insert_folder in E. res_inv E. by simplify_eq.
Qed.
Lemma same_accounts_update_entry_row i e : keeps same_accounts (write (update_entry_row i e)).
Proof.
  intros w. unfold write. destruct (update_entry_row i e (w_db w)) as [[a d]|x] eqn:E; [|by split].
  unfold update_entry_row in E. res_inv E. by simplify_eq.
Qed.
Lemma same_accounts_mark : keeps same_accounts (write_ mark_folder_links_ready).
Proof. intros w. split; [done|]. cbn. by destruct (vault (w_db w)). Qed.
#[local] Hint Resolve same_accounts_insert_folder same_accounts_update_entry_row same_accounts_mark : keeps.
Lemma same_accounts_migrate key : keeps same_accounts (migrate_folder_links key).
Proof. unfold migrate_folder_links, link_entry, save_entry. keeps_tac. Qed.

Lemma login_candidate_Ok name d i u :
  login_candidate name d = Some (i, u) ->
  t_rows (users d) !! i = Some u ∧ username u = name ∧ active u = true ∧ user_role u ≠ service.
Proof.
  unfold login_candidate. intros Hc. apply head_Some_elem_of, list_elem_of_filter in Hc as [(? & ? & ?) Hc].
  by apply elem_of_rows in Hc.
Qed.

Lemma od_get_set d s l : od_get d (od_set d s l) = Some s.
Proof.
  induction l as [|[d' s'] l IH]; simpl; [by rewrite bool_decide_true|].
  case_bool_decide as E; simpl; [by rewrite bool_decide_true|by rewrite bool_decide_false].
Qed.

(** The session opened for an account at [now] *)
Definition session_for (key : VaultKey) (i : Z) (fp : bytes) (now : Instant) : Session :=
  {| s_key := key; s_user_id := i; s_credential_fingerprint := Some fp; s_created := now; s_last_used := now |}.

Lemma auth_open_session_opens i u k w s w' :
  auth_open_session i u k w = (Ok s, w') ->
  ∃ token fp now, s = {| os_user := Some (to_user i u); os_token := Some token;
                         os_idle_timeout_ms := Some (idle_timeout_ms (w_sessions w')) |} ∧
    credential_fingerprint u = Ok fp ∧
    od_get (digest token) (sessions (w_sessions w')) = Some (session_for k i fp now).
Proof.
  unfold auth_open_session. intros Ho. run_inv Ho. world_inv.
  match goal with E : on_sessions _ _ = _ |- _ => unfold on_sessions in E; injection E as <- <- end.
  cbn. eexists _, _, _. split_and!; [done|done|]. apply od_get_set.
Qed.

Lemma canonical_same w w' v cm :
  same_accounts w w' -> vault (w_db w) = Some v -> canonical_material (w_db w) v cm ->
  ∃ v', vault (w_db w') = Some v' ∧ canonical_material (w_db w') v' cm.
Proof.
  intros [Hu Hv] E [Hk Ho]. rewrite E in Hv. destruct (vault (w_db w')) as [v'|]; [|done].
  simpl in Hv. injection Hv as Ek Eo. exists v'. unfold canonical_material, key_material in *.
  rewrite Ek, Eo, Hu. done.
Qed.

(** C7: A login opens a session only for the password of a current account: the
    name belongs to an active account that is no service account, the password
    opens the key record the account had before the key derivation and still has
    after it, whatever other requests did meanwhile, the vault's record agrees
    with its owner's, and the opened key is the vault's. The session holds that
    key, the account's id and the fingerprint of its current credentials. *)
Theorem login_checks_the_password name password w s w' :
  login name password w = (Ok (Some s), w') ->
  ∃ i u0 u m key v cm token fp now,
    t_rows (users (w_db w)) !! i = Some u0 ∧ username u0 = name ∧ user_key_material u0 = Ok m ∧
    unlock_key_material password m = Ok (Some key) ∧
    t_rows (users (w_db w')) !! i = Some u ∧ active u = true ∧ user_role u ≠ service ∧
    user_key_material u = Ok m ∧
    vault (w_db w') = Some v ∧ canonical_material (w_db w') v cm ∧ vk_check key = km_key_check cm ∧
    os_user s = Some (to_user i u) ∧ os_token s = Some token ∧ credential_fingerprint u = Ok fp ∧
    od_get (digest token) (sessions (w_sessions w')) = Some (session_for key i fp now).
Proof.
  unfold login. intros Hl. run_inv Hl. unfold fetch_vault, fetch_user in *. world_inv.
  destruct (login_candidate _ _) as [[i u0]|] eqn:Ec; [|run_inv Hl; discriminate].
  apply login_candidate_Ok in Ec as (Hu0 & Hname & _). run_inv Hl. world_inv.
  destruct (vault _) as [v0|]; [|discriminate]. run_inv Hl. world_inv.
  match goal with E : open_material _ _ _ = _ |- _ => apply open_material_Ok in E as Hunlock end.
  match type of Hl with match ?r with _ => _ end _ = _ => destruct r as [key|] end; [|run_inv Hl; discriminate].
  run_inv Hl. world_inv.
  destruct (vault _) as [v|] eqn:Ev; [|discriminate]. run_inv Hl.
  match goal with E : validate_vault_material _ _ = _ |- _ => apply validate_vault_material_Ok in E as [Hcan ->] end.
  match type of Hl with match ?r with _ => _ end _ = _ => destruct r as [u|] eqn:Eu end;
    [|run_inv Hl; discriminate].
  destruct (_ || _) eqn:Eo; [run_inv Hl; discriminate|].
  rewrite !orb_false_iff, negb_false_iff, bool_decide_eq_false in Eo. destruct Eo as [Ha Hs].
  run_inv Hl. case_bool_decide as Em; [run_inv Hl; discriminate|]. subst.
  run_inv Hl. apply key_matches_Ok in R3.
  assert (same_accounts s3 w') as Hsame.
  { pose proof (same_accounts_migrate key s3) as H1'. rewrite R4 in H1'. cbn [snd] in H1'.
    etransitivity; [exact H1'|]. apply frame_db_same. transitivity s2.
    - pose proof (db_same_refresh_idle_timeout s0) as Hr. by rewrite R5 in Hr.
    - pose proof (db_same_auth_open_session i u key s2) as Hr. by rewrite R6 in Hr. }
  destruct (canonical_same _ _ _ _ Hsame Ev Hcan) as (v' & Ev' & Hcan').
  apply auth_open_session_opens in R6 as (token & fp & now & -> & Hfp & Hget).
  exists i, u0, u, x, key, v', x1, token, fp, now. split_and!; try done. by rewrite (sa_users _ _ Hsame).
Qed.
End Login.

Lemma login_checks_the_password_witness :
  ∃ s w' u, login (str "bob") demo_bob_password (begin_transaction demo_shared) = (Ok (Some s), w') ∧
    t_rows (users (w_db w')) !! 2 = Some u ∧ active u = true ∧ os_user s = Some (to_user 2 u).
Proof.
  assert (match (login (str "bob") demo_bob_password (begin_transaction demo_shared)).1
    with Ok (Some s) => option_map au_id (os_user s) | _ => None end = Some 2) as Hr by (vm_compute; reflexivity).
  destruct (login (str "bob") demo_bob_password (begin_transaction demo_shared)) as [[[s|]|e] w'] eqn:E;
    try discriminate Hr.
  destruct (login_checks_the_password (str "bob") demo_bob_password (begin_transaction demo_shared) s w' E)
    as (i & _ & u & _ & _ & _ & _ & _ & _ & _ & _ & _ & _ & _ & Hu & Ha & _ & _ & _ & _ & _ & Hs & _).
  cbn in Hr. rewrite Hs in Hr. injection Hr as ->. exists s, w', u.
  split; [reflexivity|]. split; [exact Hu|]. split; [exact Ha|exact Hs].
Defined.
