(* ===== verification/McpSpec.v ===== *)
(** What the tools of the MCP server may do: whom they serve, what they need, and
    which entry they change. *)
From Stdlib Require Import ZArith Lia Strings.String Strings.Byte.
From stdpp Require Import base list gmap.
From S2P Require Import Prelude Crypto Platform Concrete Sessions Models Engine Records Context Folder.
From S2P Require Import Group Password Schemas Attachment Acl MasterPassword Auth BackupFormat Backup Api Mcp Demo.
From S2P Require Import EntriesSpec AccessSpec Requests SigninSpec.

(** ** Frames *)

Section ToolFrames.
Context `{Cryptography} `{Environment} `{Codec} `{BackupCodec} `{Text} `{!Pydantic} `{Config}.
Implicit Types c : AuthContext.
#[local] Hint Resolve same_sources : keeps.

Lemma same_by_id c id needed : keeps same_state (by_id c id needed).
Proof. unfold by_id. keeps_tac. Qed.
#[local] Hint Resolve same_by_id : keeps.
Lemma same_list_entries_as c : keeps same_state (list_entries_as c).
Proof. unfold list_entries_as. keeps_tac. Qed.
Lemma same_get_entry_as c id : keeps same_state (get_entry_as c id).
Proof. unfold get_entry_as. keeps_tac. Qed.
#[local] Hint Resolve same_list_entries_as same_get_entry_as : keeps.
Lemma frame_run_tool_as `{!DataFrame R} t c : keeps R (run_tool_as t c).
Proof.
  destruct t; cbn [run_tool_as]; unfold ignoring, create_entry_as, update_entry_as, delete_entry_as,
    relinquish_entry_as; keeps_tac.
Qed.
Lemma same_run_tool_as t c : writes t = false -> keeps same_state (run_tool_as t c).
Proof. destruct t; try done; intros _; cbn [run_tool_as]; unfold ignoring; keeps_tac. Qed.
Lemma atomic_resolve_service_token token : atomic (resolve_service_token token).
Proof. unfold resolve_service_token. atomic_tac. Qed.
Lemma atomic_tool_body t access :
  atomic (token ← lift (current_token access); c ← resolve_service_token token; run_tool_as t c).
Proof.
  apply atomic_bind; [keeps_tac|]. intros token. apply atomic_then; [apply atomic_resolve_service_token|].
  intros c. apply frame_run_tool_as.
Qed.

(** A call is the transaction of its tool; only [update_entry] may be refused before. *)
Lemma ignoring_tool_transaction {A} b access (m : AuthContext -> M World A) w :
  ignoring (tool_transaction b access m) w = tool_transaction b access (fun c => ignoring (m c)) w.
Proof.
  unfold tool_transaction, ignoring, transaction, mbind, M_bind, lift, mret, M_ret, throw.
  set (w1 := w_set_after_commit [] _). destruct b.
  all: repeat match goal with
  | |- context [match ?r with Ok _ => _ | Err _ => _ end] =>
      lazymatch r with context [match _ with _ => _ end] => fail | _ => destruct r eqn:? end
  | |- context [let '(_, _) := ?m in _] =>
      lazymatch m with context [match _ with _ => _ end] => fail | _ => destruct m eqn:? end
  end; try done; congruence.
Qed.
Lemma call_tool_cases t access w :
  call_tool t access w = tool_transaction (writes t) access (run_tool_as t) w ∨
  call_tool t access w = (Err (ValueError (str "At least one field must be changed.")), w).
Proof.
  destruct t; cbn [call_tool writes]; try (left; apply ignoring_tool_transaction).
  unfold update_entry. destruct (no_changes changes); [by right|left]. apply ignoring_tool_transaction.
Qed.
End ToolFrames.

Section ToolFacts.
Context `{Cryptography} `{Environment} `{Codec} `{BackupCodec} `{Text} `{!Pydantic} `{Config}.
Implicit Types c : AuthContext.

(** The account a token stands for in a database: an active service account whose
    key record the token opens, with the vault's key *)
Record service_context (d : DB) (token : pystr) c : Prop := {
  sc_account : t_rows (users d) !! ctx_id c = Some (ctx_user c);
  sc_active : active (ctx_user c) = true;
  sc_service : user_role (ctx_user c) = service;
  sc_opens : ∃ m, user_key_material (ctx_user c) = Ok m ∧ unlock_key_material token m = Ok (Some (ctx_key c));
  sc_vault : ∃ v cm, vault d = Some v ∧ canonical_material d v cm ∧ vk_check (ctx_key c) = km_key_check cm;
  sc_no_session : ctx_token c = None;
}.

Lemma service_account_Ok hash d i u :
  service_account hash d = Some (i, u) ->
  t_rows (users d) !! i = Some u ∧ service_token_hash u = Some hash ∧ user_role u = service ∧ active u = true.
Proof.
  unfold service_account. intros Hh%head_Some_elem_of. apply list_elem_of_filter in Hh as [Hh Hin%elem_of_rows].
  by destruct Hh as (? & ? & ?).
Qed.
Lemma resolve_service_token_Ok token w c w' :
  resolve_service_token token w = (Ok c, w') ->
  service_context (w_db w') token c ∧
  ∃ hash u, token_digest token = Ok hash ∧ service_account hash (w_db w) = Some (ctx_id c, u) ∧
    user_key_material u = user_key_material (ctx_user c).
Proof.
  unfold resolve_service_token. intros Hr. run_inv Hr. unfold fetch_vault, fetch_user in *. world_inv.
  destruct (service_account _ _) as [[i u0]|] eqn:Ea; [|discriminate]. run_inv Hr. world_inv.
  destruct (vault _) as [v0|]; [|discriminate]. run_inv Hr. world_inv.
  match goal with E : open_material _ _ _ = _ |- _ => apply open_material_Ok in E as Hunlock end.
  destruct x3 as [key|]; [|discriminate].
  destruct (t_rows (users (w_db s3)) !! i) as [u|] eqn:Eu; [|discriminate].
  destruct (_ || _) eqn:Eo; [discriminate|]. rewrite orb_false_iff, negb_false_iff, bool_decide_eq_false in Eo.
  destruct Eo as [Ha Hs]. apply dec_stable in Hs. run_inv Hr. destruct x6 as [cm|]; [|discriminate].
  run_inv Hr. match goal with E : _ && _ = true |- _ => rewrite andb_true_iff, bool_decide_eq_true in E;
    destruct E as [-> Hk%key_matches_Ok] end.
  destruct (vault _) as [v|] eqn:Ev; [|run_inv R6; discriminate]. run_inv R6.
  match goal with E : validate_vault_material _ _ = _ |- _ => apply validate_vault_material_Ok in E as [Hcan ->] end.
  split; [split; cbn; eauto 10|]. exists x, u0. split_and!; [done..|]. cbn. congruence.
Qed.

(** What the tools need of the entry they name *)
Definition tool_needs (t : tool) : option (Z * EntryPermission) :=
  match t with
  | ListEntries | CreateEntry _ => None
  | GetEntry id | RelinquishEntry id => Some (id, perm_read)
  | UpdateEntry id _ | DeleteEntry id => Some (id, perm_write)
  end.

Lemma by_id_Ok c id needed w r o p w' :
  by_id c id needed w = (Ok (r, o, p), w') ->
  ∃ e doc count ss, t_rows (entries (w_db w)) !! id = Some e ∧ open_entry (ctx_key c) id e = Ok doc ∧
    r = with_sources ss (to_response id e doc count) ∧
    strongest_reach (w_db w) (now_at w) (ctx_id c) id e p ∧ perm_le needed p ∧ same_state w w'.
Proof.
  intros Hb. pose proof (same_by_id c id needed w) as Hs. rewrite Hb in Hs. unfold by_id in Hb. run_inv Hb. world_inv.
  match goal with E : require _ _ _ _ = _ |- _ => apply require_Ok in E as (Hp & Hle & [Hdb _ _ _ _ _]) end.
  apply permission_Ok_spec in Hp as (e & He & Hp).
  rewrite Hdb, He in Hb. run_inv Hb. world_inv.
  destruct (_ ≫= _) as [owner|]; [|discriminate]. run_inv Hb. by eexists e, _, _, _.
Qed.

Lemma run_tool_permission t id needed c w :
  tool_needs t = Some (id, needed) -> is_ok (run_tool_as t c w).1 = true ->
  ∃ e p, t_rows (entries (w_db w)) !! id = Some e ∧
    strongest_reach (w_db w) (now_at w) (ctx_id c) id e p ∧ perm_le needed p.
Proof.
  intros Ht Hr. assert ((∃ r w', by_id c id needed w = (Ok r, w')) ∨
    (needed = perm_read ∧ ∃ p w', permission c id w = (Ok p, w'))) as [([[r o] p] & w' & Hb)|(-> & p & w' & Hp)].
  { destruct t; simplify_eq/=; apply ignoring_Ok in Hr; apply bind_is_ok in Hr as (a & w1 & Hr); eauto;
      right; (split; [done|]); unfold relinquish in Hr; run_inv Hr; eauto. }
  - apply by_id_Ok in Hb as (e & doc & n & ss & He & _ & _ & Hp & Hle & _). eauto.
  - apply (f_equal fst) in Hp. apply permission_Ok_spec in Hp as (e & He & Hp). exists e, p. split_and!; [done..|].
    unfold perm_le. destruct p; cbn; lia.
Qed.

Lemma call_tool_Ok t access w :
  is_ok (call_tool t access w).1 = true ->
  ∃ a c w1, access = Some a ∧ resolve_service_token (at_token a) (begin_transaction w) = (Ok c, w1) ∧
    is_ok (run_tool_as t c w1).1 = true.
Proof.
  intros Hok. destruct (call_tool_cases t access w) as [E|E]; rewrite E in Hok; [|done]. unfold tool_transaction in Hok.
  match type of Hok with is_ok (transaction ?b ?m _).1 = _ =>
    destruct (transaction_cases b m w) as [(x & w2 & Ef & _)|(x & w2 & _ & Ef & _)]; [|congruence] end.
  apply finish_Ok in Ef as (w3 & Ef & _). run_inv Ef. destruct access as [a|]; [|discriminate]. simplify_eq/=.
  eexists a, _, _. split_and!; [done..|]. by rewrite Ef.
Qed.

(** C32: A tool only acts for a token whose hash an active service account has and
    which opens that account's key record, checked again after the key derivation
    together with the vault's key; and a tool that names an entry needs permission
    on that entry at that moment: reading to see it or to give its access up,
    writing to change it or move it to the trash. *)
Theorem tools_need_service_and_permission t access w :
  is_ok (call_tool t access w).1 = true ->
  ∃ a c w1 hash u, access = Some a ∧
    token_digest (at_token a) = Ok hash ∧ service_account hash (w_committed w) = Some (ctx_id c, u) ∧
    user_key_material u = user_key_material (ctx_user c) ∧
    service_context (w_db w1) (at_token a) c ∧ is_ok (run_tool_as t c w1).1 = true ∧
    forall id needed, tool_needs t = Some (id, needed) ->
      ∃ e p, t_rows (entries (w_db w1)) !! id = Some e ∧
        strongest_reach (w_db w1) (now_at w1) (ctx_id c) id e p ∧ perm_le needed p.
Proof.
  intros (a & c & w1 & -> & Hr & Hrun)%call_tool_Ok.
  apply resolve_service_token_Ok in Hr as (Hc & hash & u & Hh & Hs & Hu). exists a, c, w1, hash, u.
  split_and!; [done..|]. intros id needed Ht. by apply (run_tool_permission t).
Qed.

Lemma frame_resolve_service_token `{!CommitFrame R} token : keeps R (resolve_service_token token).
Proof. unfold resolve_service_token. keeps_tac. Qed.


Lemma found_active_unique d key n i e doc i' e' doc' :
  db_ok d -> found_entry d key n false None i e doc -> found_entry d key n false None i' e' doc' -> i = i' ∧ e = e'.
Proof.
  intros Hok [Hr _ (x & Hx & Hi) Ht _ _ _] [Hr' _ (x' & Hx' & Hi') Ht' _ _ _].
  assert (i = i') as <-; [|split; [done|congruence]].
  eapply (ok_active_name d Hok); [exact Hr|exact Hr'|by destruct (deleted e)|by destruct (deleted e')|congruence].
Qed.
(** [delete_entry] names an entry by its id, finds that entry's name and moves to
    the trash the active entry of that name, for which it needs write permission
    too. That is the entry of the id when the entry is active; when it is in the
    trash itself, it is another one, and the answer still gives the id asked for. *)
Theorem delete_entry_goes_by_name c id w r w' :
  db_ok (w_db w) -> delete_entry_as c id w = (Ok r, w') ->
  ∃ e doc id' e' doc' trashed t, r = id ∧
    t_rows (entries (w_db w)) !! id = Some e ∧ open_entry (ctx_key c) id e = Ok doc ∧
    found_entry (w_db w) (ctx_key c) (doc_name doc) false None id' e' doc' ∧
    (∃ now p, strongest_reach (w_db w) now (ctx_id c) id' e' p ∧ perm_le perm_write p) ∧
    w_db w' = with_entry_row id' trashed (w_db w) ∧ deleted trashed = Some (Time t) ∧
    (id' = id ↔ deleted e = None).
Proof.
  intros Hok Hd. unfold delete_entry_as in Hd. run_inv Hd. destruct x as [[cur o] p]. run_inv Hd.
  match goal with E : by_id _ _ _ _ = _ |- _ => apply by_id_Ok in E as (e & doc & n & ss & He & Hop & -> & _ & _ & [Hdb _ _ _ _ _]) end.
  unfold auth_delete_password in R0. run_inv R0. destruct x0 as [i1 e1].
  match goal with E : entry_by_name _ _ _ _ _ _ _ = _ |- _ =>
    apply entry_by_name_Ok in E as (d1 & q & Hf1 & Hq%permission_Ok_spec & Hle & [Hdb1 _ _ _ _ _]) end.
  destruct x. match goal with E : delete_password _ _ _ = _ |- _ =>
    apply delete_password_Ok in E as (i2 & e2 & d2 & t & e' & Hf2 & Hw' & Ht & _) end.
  rewrite Hdb1, Hdb in *. cbn [with_sources to_response pr_document doc_name] in *.
  assert (i1 = i2 ∧ e1 = e2) as [-> ->] by (eapply found_active_unique; eassumption).
  destruct Hq as (e3 & He3 & Hq). rewrite (fe_row _ _ _ _ _ _ _ _ Hf2) in He3. injection He3 as <-.
  exists e, doc, i2, e2, d2, e', t. split_and!; try done; [eauto|]. split.
  - intros ->. rewrite (fe_row _ _ _ _ _ _ _ _ Hf2) in He. injection He as <-.
    apply fe_trashed in Hf2. by destruct (deleted e2).
  - intros Hdel. assert (found_entry (w_db w) (ctx_key c) (doc_name doc) false None r e doc) as Hf.
    { split; try done.
      - apply (fe_name _ _ _ _ _ _ _ _ Hf2).
      - by destruct (open_entry_Ok _ _ _ _ Hop) as (_ & _ & ?).
      - by rewrite Hdel. }
    by destruct (found_active_unique _ _ _ _ _ _ _ _ _ Hok Hf2 Hf).
Qed.

Lemma validated_custom_fields i p :
  validate_password i = inr p ->
  ∃ l, list_field "custom_fields" MAX_CUSTOM_FIELDS custom_field (in_custom_fields i) = inr l.
Proof.
  unfold validate_password. intros Hv. do 8 apply then_inr in Hv as (? & _ & Hv).
  apply then_inr in Hv as (l & Hl & _). by exists l.
Qed.

(** [update_entry] reads the entry back as the values it then validates, and the
    custom fields it read are instances of another model than the one [Password]
    takes: for an entry with custom fields every update fails that does not give
    them anew. *)
Theorem update_entry_needs_custom_fields c id changes w e doc :
  t_rows (entries (w_db w)) !! id = Some e -> open_entry (ctx_key c) id e = Ok doc ->
  doc_custom_fields doc ≠ [] -> ch_custom_fields changes = None ->
  is_ok (update_entry_as c id changes w).1 = false.
Proof.
  intros He Hop Hne Hch. apply not_true_is_false. intros Hok. unfold update_entry_as in Hok.
  apply bind_is_ok' in Hok as ([[cur o] p] & w1 & Hb & Hok).
  apply by_id_Ok in Hb as (e0 & doc0 & n & ss & He0 & Hop0 & -> & _).
  rewrite He in He0. injection He0 as <-. rewrite Hop in Hop0. injection Hop0 as <-.
  apply bind_is_ok' in Hok as (u & w2 & Hl & _). apply lift_Ok in Hl as [Hl _]. unfold valid_password in Hl.
  destruct (validate_password _) as [[]|q] eqn:Ev; [done|]. apply validated_custom_fields in Ev as (l & Hf).
  cbn in Hf. rewrite Hch in Hf. unfold list_field in Hf. destruct (_ <? _)%nat; [done|]. apply each_inr in Hf.
  destruct (doc_custom_fields doc) as [|f fs]; [done|].
  apply Forall2_cons_inv_l in Hf as (b & bs & Hx & _). discriminate Hx.
Qed.
End ToolFacts.

(** ** A service account and two entries of one name

    Root's service account [agent] may write root's entry [mail], number 1, which is in
    the trash, and the entry [mail] that was made since, number 2. *)
Definition agent_token : pystr := token_urlsafe 1.
Definition agent_access : option AccessToken :=
  Some {| at_token := agent_token; at_client_id := str "ciphermoth-service-2"; at_subject := str "2";
          at_scopes := [MCP_SCOPE] |}.
Definition as_root (o : operation) : request := ForAccount (Some demo_token) o.
Definition pinned_entry (name value : pystr) : Password :=
  {| password_name := name; pw_kind := Platform.login; pw_username := None;
     password_value := value; pw_url := None; pw_totp_secret := None; pw_description := None;
     pw_tags := [];
     pw_custom_fields := [{| field_label := str "pin"; field_value := str "1234"; field_hidden := true |}];
     pw_folder := None; pw_folder_id := None; pw_favorite := false |}.
Definition agent_world : World :=
  demo_run [demo_bootstrap; demo_create_mail; as_root (CreateUser (str "agent") service None);
            as_root (SetShare 1 2 share_write None); as_root (DeletePassword (str "mail"));
            as_root (CreatePassword (pinned_entry (str "mail") (str "n3w")));
            as_root (SetShare 2 2 share_write None)].
Definition make_favorite : EntryChanges :=
  {| ch_name := None; ch_kind := None; ch_username := None; ch_value := None; ch_url := None; ch_totp_secret := None;
     ch_description := None; ch_tags := None; ch_custom_fields := None; ch_folder := None; ch_favorite := Some true |}.

(** The agent's context, and the world in its transaction *)
Definition agent_resolved := resolve_service_token agent_token (begin_transaction agent_world).
Definition agent_context : AuthContext := match agent_resolved.1 with Ok c => c | Err _ => no_context end.
Definition agent_view : World := agent_resolved.2.

Lemma run_pair {A} (m : M World A) w a : (m w).1 = Ok a -> m w = (Ok a, (m w).2).
Proof. by destruct (m w) as [r w'] eqn:E; cbn; intros ->. Qed.
Lemma agent_world_ok : world_ok agent_world.
Proof. apply world_ok_run, demo_start_ok. Qed.
Lemma agent_view_ok : db_ok (w_db agent_view).
Proof.
  pose proof (integrity_resolve_service_token agent_token _ (world_ok_begin _ agent_world_ok)) as [? _]. done.
Qed.
(** What each entry of a database holds, for a key *)
Definition value_of (key : VaultKey) (id : Z) (d : DB) : option pystr :=
  match t_rows (entries d) !! id with
  | Some e => match open_entry key id e with Ok doc => Some (doc_value doc) | Err _ => None end
  | None => None
  end.

(** An update by the id of the trashed entry writes its values over its namesake. *)
Lemma update_entry_overwrites_namesake :
  let '(r, w) := update_entry_as agent_context 1 make_favorite agent_view in
  is_ok r = true ∧
  value_of (ctx_key agent_context) 2 (w_db agent_view) = Some (str "n3w") ∧
  value_of (ctx_key agent_context) 2 (w_db w) = Some (str "s3cret").
Proof. vm_compute. split_and!; reflexivity. Qed.

(** A folder that [create_entry] makes is the account's owner's: without a grant on
    it, the new entry cannot be read back and the call fails. *)
Lemma create_entry_with_new_folder_fails :
  (call_tool (CreateEntry (with_pw_folder (Some (str "work")) (demo_entry (str "host") (str "n3w"))))
     agent_access agent_world).1 = Err (NotFound (str "Password not found.")).
Proof. vm_compute. reflexivity. Qed.

Lemma agent_deletion_Ok : is_ok (call_tool (DeleteEntry 1) agent_access agent_world).1 = true.
Proof. vm_compute. reflexivity. Qed.
Lemma tools_need_service_and_permission_witness :
  is_ok (call_tool (DeleteEntry 1) agent_access agent_world).1 = true ∧
  ∃ c w1 e p, service_context (w_db w1) agent_token c ∧ t_rows (entries (w_db w1)) !! 1 = Some e ∧
    strongest_reach (w_db w1) (now_at w1) (ctx_id c) 1 e p ∧ perm_le perm_write p.
Proof.
  split; [exact agent_deletion_Ok|].
  destruct (tools_need_service_and_permission (DeleteEntry 1) agent_access agent_world agent_deletion_Ok)
    as (a & c & w1 & h & u & Ha & _ & _ & _ & Hc & _ & Hp).
  injection Ha as <-. destruct (Hp 1 perm_write eq_refl) as (e & p & He & Hr & Hle).
  exists c, w1, e, p. split; [exact Hc|]. split; [exact He|]. split; [exact Hr|exact Hle].
Defined.

Lemma agent_update_fails : is_ok (call_tool (UpdateEntry 2 make_favorite) agent_access agent_world).1 = false.
Proof. vm_compute. reflexivity. Qed.

Definition agent_trashed : option stamp := t_rows (entries (w_db agent_view)) !! 1 ≫= deleted.
Lemma agent_trashed_before : is_some agent_trashed = true.
Proof. vm_compute. reflexivity. Qed.
Lemma agent_delete_Ok : (delete_entry_as agent_context 1 agent_view).1 = Ok 1.
Proof. vm_compute. reflexivity. Qed.
Lemma delete_entry_goes_by_name_witness :
  (delete_entry_as agent_context 1 agent_view).1 = Ok 1 ∧
  ∃ id' trashed t, w_db (delete_entry_as agent_context 1 agent_view).2 = with_entry_row id' trashed (w_db agent_view) ∧
    deleted trashed = Some (Time t) ∧ id' ≠ 1.
Proof.
  split; [exact agent_delete_Ok|].
  destruct (delete_entry_goes_by_name agent_context 1 agent_view 1 (delete_entry_as agent_context 1 agent_view).2 agent_view_ok
    (run_pair _ _ _ agent_delete_Ok))
    as (e & doc & id' & e' & doc' & trashed & t & _ & He & _ & _ & _ & Hw & Ht & Hid).
  exists id', trashed, t. split; [exact Hw|]. split; [exact Ht|]. intros Hi%Hid.
  pose proof agent_trashed_before as Hb. unfold agent_trashed in Hb. rewrite He in Hb. cbn in Hb. rewrite Hi in Hb.
  discriminate Hb.
Defined.

Definition fields_of (key : VaultKey) (id : Z) (d : DB) : nat :=
  match t_rows (entries d) !! id with
  | Some e => match open_entry key id e with Ok doc => length (doc_custom_fields doc) | Err _ => 0 end
  | None => 0
  end.
Lemma fields_of_entry key id d :
  (0 < fields_of key id d)%nat ->
  ∃ e doc, t_rows (entries d) !! id = Some e ∧ open_entry key id e = Ok doc ∧ doc_custom_fields doc ≠ [].
Proof.
  unfold fields_of. destruct (_ !! _) as [e|]; [|lia]. destruct (open_entry _ _ e) as [doc|] eqn:E; [|lia].
  intros Hl. exists e, doc. split_and!; [done..|]. intros Hn. rewrite Hn in Hl. cbn in Hl. lia.
Qed.
Lemma pinned_fields : fields_of (ctx_key agent_context) 2 (w_db agent_view) = 1%nat.
Proof. vm_compute. reflexivity. Qed.
Lemma update_entry_needs_custom_fields_witness :
  is_ok (update_entry_as agent_context 2 make_favorite agent_view).1 = false.
Proof.
  destruct (fields_of_entry (ctx_key agent_context) 2 (w_db agent_view)) as (e & doc & He & Hop & Hne).
  { rewrite pinned_fields. lia. }
  exact (update_entry_needs_custom_fields agent_context 2 make_favorite agent_view e doc He Hop Hne eq_refl).
Defined.
