(* ===== verification/BackupFormatSpec.v ===== *)
(** What the backup format promises (BackupFormat.v): headers and frames read
    back as they were written, and a file that is read to its end holds exactly
    the frames that were written, in their order. *)
From Stdlib Require Import ZArith Lia Strings.String Strings.Byte.
From stdpp Require Import base list.
From S2P Require Import Prelude Sha256 Crypto Concrete BackupFormat.

(** ** The header *)

(** What a header needs to be written and accepted again *)
Record header_ok (h : BackupHeader) : Prop := {
  ho_params : require_supported (bh_params h) = Ok ();
  ho_salt : length (bh_salt h) = 16%nat;
  ho_frames : 1 ≤ bh_frames h < 2 ^ 32;
  ho_commitment : length (bh_commitment h) = 32%nat;
}.

Lemma require_supported_ints p :
  require_supported p = Ok () -> ∃ m i l, p = {| memory_kib := CInt m; iterations := CInt i; lanes := CInt l |}
    ∧ 0 ≤ m < 2 ^ 32 ∧ 0 ≤ i < 2 ^ 32 ∧ 0 ≤ l < 2 ^ 32.
Proof.
  unfold require_supported. destruct p as [[] [] []]; simpl; try done.
  destruct (_ && _) eqn:E; [|done]. intros _.
  unfold MIN_MEMORY_KIB, MAX_MEMORY_KIB, MAX_ITERATIONS, MAX_LANES in E. eexists _, _, _.
  split; [done|]. lia.
Qed.

Lemma field_app_skip (n size : nat) (a b : bytes) : length a = n -> forall k, field (n + k) size (a ++ b) = field k size b.
Proof. intros <- k. unfold field. by rewrite drop_app_add'. Qed.
Lemma field_app_here (size : nat) (a b : bytes) : length a = size -> field 0 size (a ++ b) = a.
Proof. intros <-. unfold field. by rewrite drop_0, take_app_length. Qed.
Lemma field_end (size : nat) (a : bytes) : length a = size -> field 0 size a = a.
Proof. intros <-. unfold field. by rewrite drop_0, take_ge. Qed.

Lemma pack_uint_in_range n z : 0 ≤ z < 256 ^ Z.of_nat n -> pack_uint n z = Ok (be_encode n z).
Proof. intros Hz. unfold pack_uint. by rewrite (proj2 (andb_true_iff _ _)) by lia. Qed.

(** A header with its integers, as it lies in the file *)
Lemma pack_header_Ok h m i l :
  header_ok h -> bh_params h = {| memory_kib := CInt m; iterations := CInt i; lanes := CInt l |} ->
  0 ≤ m < 2 ^ 32 -> 0 ≤ i < 2 ^ 32 -> 0 ≤ l < 2 ^ 32 ->
  pack_header h = Ok (BACKUP_MAGIC ++ be_encode 2 BACKUP_VERSION ++ be_encode 1 BACKUP_KDF_ARGON2ID
    ++ be_encode 4 m ++ be_encode 4 i ++ be_encode 4 l ++ bh_salt h ++ be_encode 4 (bh_frames h) ++ bh_commitment h).
Proof.
  intros [_ Hs Hf Hc] Hp Hm Hi Hl. unfold pack_header. rewrite Hp. cbn [memory_kib iterations lanes int_of].
  change (256 ^ Z.of_nat 4) with (2 ^ 32) in *.
  rewrite !pack_uint_in_range by (change (256 ^ Z.of_nat 4) with (2 ^ 32); try done; lia). cbn.
  by rewrite !pack_bytes_id.
Qed.

Ltac in_header :=
  repeat first
    [ rewrite (field_app_skip 8) by done
    | rewrite (field_app_skip 2) by apply length_be_encode
    | rewrite (field_app_skip 1) by apply length_be_encode
    | rewrite (field_app_skip 4) by apply length_be_encode
    | rewrite (field_app_skip 16) by done ].

Lemma parse_packed h m i l :
  header_ok h -> bh_params h = {| memory_kib := CInt m; iterations := CInt i; lanes := CInt l |} ->
  0 ≤ m < 2 ^ 32 -> 0 ≤ i < 2 ^ 32 -> 0 ≤ l < 2 ^ 32 ->
  parse_header (BACKUP_MAGIC ++ be_encode 2 BACKUP_VERSION ++ be_encode 1 BACKUP_KDF_ARGON2ID
    ++ be_encode 4 m ++ be_encode 4 i ++ be_encode 4 l ++ bh_salt h ++ be_encode 4 (bh_frames h) ++ bh_commitment h)
  = Ok h.
Proof.
  intros [Hsup Hs Hf Hc] Hp Hm Hi Hl. rewrite Hp in Hsup. set (data := BACKUP_MAGIC ++ _).
  assert (length data = BACKUP_HEADER_BYTES) as Hlen
    by (unfold data; rewrite !length_app, !length_be_encode, Hs, Hc; done).
  assert (field 0 8 data = BACKUP_MAGIC) as F0 by (by apply field_app_here).
  assert (field (8 + 0) 2 data = be_encode 2 BACKUP_VERSION) as F1
    by (unfold data; in_header; by apply field_app_here).
  assert (field (8 + (2 + 0)) 1 data = be_encode 1 BACKUP_KDF_ARGON2ID) as F2
    by (unfold data; in_header; by apply field_app_here).
  assert (field (8 + (2 + (1 + 0))) 4 data = be_encode 4 m) as F3
    by (unfold data; in_header; apply field_app_here, length_be_encode).
  assert (field (8 + (2 + (1 + (4 + 0)))) 4 data = be_encode 4 i) as F4
    by (unfold data; in_header; apply field_app_here, length_be_encode).
  assert (field (8 + (2 + (1 + (4 + (4 + 0))))) 4 data = be_encode 4 l) as F5
    by (unfold data; in_header; apply field_app_here, length_be_encode).
  assert (field (8 + (2 + (1 + (4 + (4 + (4 + 0)))))) 16 data = bh_salt h) as F6
    by (unfold data; in_header; by apply field_app_here).
  assert (field (8 + (2 + (1 + (4 + (4 + (4 + (16 + 0))))))) 4 data = be_encode 4 (bh_frames h)) as F7
    by (unfold data; in_header; apply field_app_here, length_be_encode).
  assert (field (8 + (2 + (1 + (4 + (4 + (4 + (16 + (4 + 0)))))))) 32 data = bh_commitment h) as F8
    by (unfold data; in_header; by apply field_end).
  clearbody data. unfold parse_header. rewrite Hlen. cbn [Nat.eqb negb]. cbn [Nat.add] in *.
  rewrite F0, F1, F2, F3, F4, F5, F6, F7, F8, !be_decode_encode by (change (256 ^ Z.of_nat 4) with (2 ^ 32); try done; lia).
  rewrite bool_decide_eq_false_2 by (intros E; by apply E). rewrite !Z.eqb_refl. cbn [negb]. rewrite Hsup.
  destruct (bh_frames h <? 1) eqn:E; [lia|]. destruct h; simpl in *. by subst.
Qed.

(** Every byte of a header belongs to one field. *)
Lemma field_drop a n data : drop a data = field a n data ++ drop (a + n) data.
Proof. unfold field. by rewrite <- drop_drop, take_drop. Qed.
Lemma header_fields data :
  length data = BACKUP_HEADER_BYTES ->
  data = field 0 8 data ++ field 8 2 data ++ field 10 1 data ++ field 11 4 data ++ field 15 4 data
    ++ field 19 4 data ++ field 23 16 data ++ field 39 4 data ++ field 43 32 data.
Proof.
  intros Hl. transitivity (drop 0 data); [by rewrite drop_0|].
  rewrite (field_drop 0 8), (field_drop (0 + 8) 2), (field_drop (0 + 8 + 2) 1),
    (field_drop (0 + 8 + 2 + 1) 4), (field_drop (0 + 8 + 2 + 1 + 4) 4), (field_drop (0 + 8 + 2 + 1 + 4 + 4) 4),
    (field_drop (0 + 8 + 2 + 1 + 4 + 4 + 4) 16), (field_drop (0 + 8 + 2 + 1 + 4 + 4 + 4 + 16) 4),
    (field_drop (0 + 8 + 2 + 1 + 4 + 4 + 4 + 16 + 4) 32).
  rewrite (drop_ge data) by (rewrite Hl; unfold BACKUP_HEADER_BYTES; lia). by rewrite app_nil_r.
Qed.
Lemma length_field a n data : (a + n ≤ length data)%nat -> length (field a n data) = n.
Proof. intros Hl. unfold field. rewrite length_take, length_drop. lia. Qed.
Lemma encode_field a n data :
  (a + n ≤ length data)%nat -> be_encode n (be_decode (field a n data)) = field a n data.
Proof. intros Hl. rewrite <- (length_field a n data Hl) at 1. apply be_encode_decode. Qed.
Lemma decode_field a n data :
  (a + n ≤ length data)%nat -> 0 ≤ be_decode (field a n data) < 256 ^ Z.of_nat n.
Proof. intros Hl. pose proof (be_decode_bound (field a n data)) as Hb. by rewrite length_field in Hb. Qed.

Lemma parse_header_Ok data h :
  parse_header data = Ok h ->
  length data = BACKUP_HEADER_BYTES ∧ field 0 8 data = BACKUP_MAGIC ∧
  be_decode (field 8 2 data) = BACKUP_VERSION ∧ be_decode (field 10 1 data) = BACKUP_KDF_ARGON2ID ∧
  h = {| bh_params := {| memory_kib := CInt (be_decode (field 11 4 data));
                         iterations := CInt (be_decode (field 15 4 data));
                         lanes := CInt (be_decode (field 19 4 data)) |};
         bh_salt := field 23 16 data; bh_frames := be_decode (field 39 4 data);
         bh_commitment := field 43 32 data |} ∧
  require_supported (bh_params h) = Ok () ∧ 1 ≤ bh_frames h.
Proof.
  unfold parse_header. destruct (length data =? _)%nat eqn:El; [|done]. cbn [negb].
  case_bool_decide as Em; [done|].
  destruct (_ =? BACKUP_VERSION) eqn:Ev; [|done]. destruct (_ =? BACKUP_KDF_ARGON2ID) eqn:Ek; [|done].
  cbn [negb]. destruct (require_supported _) as [[]|[]] eqn:Es; try done.
  destruct (_ <? 1) eqn:Ef; [done|]. intros [= <-].
  apply Nat.eqb_eq in El. apply Z.eqb_eq in Ev, Ek. apply Z.ltb_ge in Ef. by split_and!.
Qed.

Lemma parse_header_canonical data h : parse_header data = Ok h -> header_ok h ∧ pack_header h = Ok data.
Proof.
  intros (Hl & Hm & Hv & Hk & -> & Hs & Hf)%parse_header_Ok. cbn [bh_params bh_frames] in Hs, Hf.
  assert (forall a n, (a + n ≤ 75)%nat -> 0 ≤ be_decode (field a n data) < 256 ^ Z.of_nat n) as Hb
    by (intros a n Ha; apply decode_field; rewrite Hl; exact Ha).
  assert (header_ok {| bh_params := {| memory_kib := CInt (be_decode (field 11 4 data));
                         iterations := CInt (be_decode (field 15 4 data));
                         lanes := CInt (be_decode (field 19 4 data)) |};
         bh_salt := field 23 16 data; bh_frames := be_decode (field 39 4 data);
         bh_commitment := field 43 32 data |}) as Hok.
  { split; cbn [bh_params bh_salt bh_frames bh_commitment]; [done| | |].
    - apply length_field. rewrite Hl. unfold BACKUP_HEADER_BYTES. lia.
    - split; [done|]. change (2 ^ 32) with (256 ^ Z.of_nat 4). apply Hb. lia.
    - apply length_field. rewrite Hl. unfold BACKUP_HEADER_BYTES. lia. }
  split; [done|]. erewrite pack_header_Ok; [|exact Hok|reflexivity|..];
    try (change (2 ^ 32) with (256 ^ Z.of_nat 4); apply Hb; lia).
  f_equal. cbn [bh_salt bh_frames bh_commitment]. symmetry.
  rewrite (header_fields data Hl) at 1. rewrite Hm. rewrite !encode_field by (rewrite Hl; unfold BACKUP_HEADER_BYTES; lia).
  rewrite <- (encode_field 8 2 data), <- (encode_field 10 1 data) by (rewrite Hl; unfold BACKUP_HEADER_BYTES; lia).
  by rewrite Hv, Hk.
Qed.

(** ** Frames *)

Section Frames.
Context `{!Cryptography}.

Fixpoint write_frames (l : list (bytes * bytes)) (w : BackupWriter) : res BackupWriter :=
  match l with
  | [] => Ok w
  | (nonce, plaintext) :: l => w ← write_frame nonce plaintext w; write_frames l w
  end.
(** Reading one frame after another, each with the size its reader allows *)
Fixpoint read_frames (key : BackupKey) (maxes : list Z) (r : BackupReader) : res (list bytes * BackupReader) :=
  match maxes with
  | [] => Ok ([], r)
  | m :: maxes =>
      '(plaintext, r) ← read_frame key m r;
      '(plaintexts, r) ← read_frames key maxes r;
      Ok (plaintext :: plaintexts, r)
  end.

(** What a writer appends to its file *)
Definition frame_bytes (key : BackupKey) (header : bytes) (frames i : Z) (nonce plaintext : bytes) : res bytes :=
  ciphertext ← seal_frame key header i (i =? frames - 1) plaintext nonce;
  prefix ← pack_uint 4 (Z.of_nat (length ciphertext));
  Ok (prefix ++ nonce ++ ciphertext).
Fixpoint stream (key : BackupKey) (header : bytes) (frames i : Z) (l : list (bytes * bytes)) : res bytes :=
  match l with
  | [] => Ok []
  | (nonce, plaintext) :: l =>
      frame ← frame_bytes key header frames i nonce plaintext;
      rest ← stream key header frames (i + 1) l;
      Ok (frame ++ rest)
  end.

Lemma write_frame_Ok nonce p w w' :
  write_frame nonce p w = Ok w' ->
  ∃ frame, frame_bytes (bw_key w) (bw_header w) (bw_frames w) (bw_index w) nonce p = Ok frame ∧
    bw_index w < bw_frames w ∧
    w' = {| bw_target := bw_target w ++ frame; bw_key := bw_key w; bw_header := bw_header w;
            bw_frames := bw_frames w; bw_index := bw_index w + 1 |}.
Proof.
  unfold write_frame, frame_bytes. destruct (_ <=? _) eqn:E; [done|]. intros Hw. res_inv Hw.
  rewrite R. cbn. rewrite R0. cbn. eexists. split_and!; [done|lia|done].
Qed.

Lemma write_frames_Ok l w w' :
  write_frames l w = Ok w' ->
  ∃ s, stream (bw_key w) (bw_header w) (bw_frames w) (bw_index w) l = Ok s ∧
    bw_target w' = bw_target w ++ s ∧ bw_index w' = bw_index w + Z.of_nat (length l) ∧
    bw_frames w' = bw_frames w ∧ (l ≠ [] -> bw_index w' ≤ bw_frames w).
Proof.
  revert w. induction l as [|[n p] l IH]; intros w Hw; cbn [write_frames] in Hw.
  - injection Hw as <-. exists []. rewrite app_nil_r, Z.add_0_r. by split_and!.
  - apply res_bind_Ok in Hw as (w1 & H1 & Hw). apply write_frame_Ok in H1 as (f & Hf & Hi & ->).
    apply IH in Hw as (s & Hs & Ht & Hi' & Hfr & Hle). cbn [bw_key bw_header bw_frames bw_index bw_target] in *.
    exists (f ++ s). cbn [stream]. rewrite Hf. cbn. rewrite Hs. cbn.
    split_and!; [done|by rewrite Ht, app_assoc|rewrite Hi'; simpl length; lia|done|].
    intros _. destruct l; [simpl in Hi'; lia|by apply Hle].
Qed.

Lemma read_exactly_app (a b : bytes) : read_exactly (length a) (a ++ b) = Ok (a, b).
Proof. unfold read_exactly. by rewrite take_app_length, drop_app_length, Nat.eqb_refl. Qed.

Lemma seal_frame_Ok key header i last p nonce c :
  seal_frame key header i last p nonce = Ok c ->
  ∃ ad, frame_associated_data header i last = Ok ad ∧ c = aesgcm_encrypt (bk_frames key) nonce p ad.
Proof. unfold seal_frame. intros Hs. res_inv Hs. eauto. Qed.

Lemma read_frame_back `{!CryptographyLaws} key r nonce p rest frame max :
  frame_bytes key (br_header_bytes r) (bh_frames (br_header r)) (br_index r) nonce p = Ok frame ->
  br_source r = frame ++ rest -> br_index r < bh_frames (br_header r) ->
  length nonce = NONCE_BYTES -> Z.of_nat (length p) ≤ max ->
  read_frame key max r = Ok (p, {| br_source := rest; br_header_bytes := br_header_bytes r;
                                   br_header := br_header r; br_index := br_index r + 1 |}).
Proof.
  unfold frame_bytes. intros Hf Hsrc Hi Hn Hp. res_inv Hf.
  apply seal_frame_Ok in R as (ad & Had & ->). apply pack_uint_Ok in R0 as [-> Hlen].
  unfold read_frame. destruct (_ <=? _) eqn:E; [lia|]. rewrite Hsrc, <- !app_assoc.
  rewrite <- (length_be_encode 4 (Z.of_nat (length (aesgcm_encrypt (bk_frames key) nonce p ad)))) at 1.
  rewrite read_exactly_app. cbn [mbind res_bind]. rewrite be_decode_encode by done. rewrite aesgcm_length in *.
  destruct (_ || _) eqn:E2.
  { apply orb_true_iff in E2 as [E2|E2]; apply Z.ltb_lt in E2; unfold TAG_BYTES in E2; lia. }
  rewrite <- Hn, read_exactly_app. cbn [mbind res_bind].
  rewrite Nat2Z.id, <- (aesgcm_length (bk_frames key) nonce p ad), read_exactly_app. cbn [mbind res_bind].
  unfold open_frame. rewrite Had. cbn. by rewrite aesgcm_decrypt_encrypt.
Qed.

Lemma read_frames_back `{!CryptographyLaws} key l maxes r s rest :
  stream key (br_header_bytes r) (bh_frames (br_header r)) (br_index r) l = Ok s ->
  br_source r = s ++ rest -> br_index r + Z.of_nat (length l) ≤ bh_frames (br_header r) ->
  Forall (fun x => length x.1 = NONCE_BYTES) l ->
  Forall2 (fun x m => Z.of_nat (length x.2) ≤ m) l maxes ->
  read_frames key maxes r = Ok (map snd l, {| br_source := rest; br_header_bytes := br_header_bytes r;
    br_header := br_header r; br_index := br_index r + Z.of_nat (length l) |}).
Proof.
  intros Hs Hsrc Hle Hn Hm. revert r s Hs Hsrc Hle. induction Hm as [|[n p] m l maxes Hp Hm IH]; intros r s Hs Hsrc Hle.
  - injection Hs as <-. cbn. rewrite Z.add_0_r. destruct r. simpl in *. by subst.
  - cbn [stream] in Hs. apply res_bind_Ok in Hs as (f & Hf & Hs). apply res_bind_Ok in Hs as (s' & Hs' & [= <-]).
    inversion_clear Hn as [|? ? Hn1 Hn2]. cbn [read_frames fst snd length] in *.
    erewrite (read_frame_back key r n p (s' ++ rest)); [|exact Hf|by rewrite Hsrc, app_assoc|lia|done|done].
    cbn [mbind res_bind]. erewrite IH; cbn; [|done|exact Hs'|done|lia].
    cbn. do 3 f_equal. lia.
Qed.

Lemma make_writer_Ok target key h w :
  make_writer target key h = Ok w ->
  ∃ header, pack_header h = Ok header ∧
    w = {| bw_target := target ++ header; bw_key := key; bw_header := header; bw_frames := bh_frames h; bw_index := 0 |}.
Proof. unfold make_writer. intros Hw. res_inv Hw. eauto. Qed.

Lemma pack_parse h header : header_ok h -> pack_header h = Ok header -> parse_header header = Ok h ∧ length header = BACKUP_HEADER_BYTES.
Proof.
  intros Hok Hp. destruct (require_supported_ints _ (ho_params _ Hok)) as (m & i & l & Ep & Hm & Hi & Hl).
  rewrite (pack_header_Ok h m i l Hok Ep Hm Hi Hl) in Hp. injection Hp as <-.
  pose proof (parse_packed h m i l Hok Ep Hm Hi Hl) as Hparse. split; [exact Hparse|].
  by apply parse_header_Ok in Hparse as [? _].
Qed.

(** Headers round-trip and are canonical: a header with supported parameters
    packs, to [BACKUP_HEADER_BYTES] bytes that parse to it again; and whatever
    bytes parse are exactly the bytes that header packs to, with supported
    parameters and at least one frame. *)
Theorem backup_header_roundtrip :
  (forall h, header_ok h ->
     ∃ data, pack_header h = Ok data ∧ length data = BACKUP_HEADER_BYTES ∧ parse_header data = Ok h) ∧
  (forall data h, parse_header data = Ok h -> header_ok h ∧ pack_header h = Ok data).
Proof.
  split; [|apply parse_header_canonical]. intros h Hok.
  destruct (require_supported_ints _ (ho_params _ Hok)) as (m & i & l & Ep & Hm & Hi & Hl).
  eexists. split; [by apply pack_header_Ok|]. by apply and_comm, pack_parse; [|apply pack_header_Ok].
Qed.

(** A finished backup file reads back: opened again it shows the header it was
    written with, and reading its frames with limits they fit gives the
    plaintexts in their order and then the end of the file. *)
Theorem backup_reads_back `{!CryptographyLaws} key h frames maxes w w' :
  header_ok h -> bh_frames h ≤ MAX_FRAMES ->
  make_writer [] key h = Ok w -> write_frames frames w = Ok w' -> finish_writer w' = Ok () ->
  Forall (fun x => length x.1 = NONCE_BYTES) frames ->
  Forall2 (fun x m => Z.of_nat (length x.2) ≤ m) frames maxes ->
  ∃ r r', make_reader (bw_target w') = Ok r ∧ br_header r = h ∧
    read_frames key maxes r = Ok (map snd frames, r') ∧ finish_reader r' = Ok ().
Proof.
  intros Hok Hmax Hw Hfs Hfin Hn Hm. apply make_writer_Ok in Hw as (header & Hpack & ->).
  destruct (pack_parse h header Hok Hpack) as [Hparse Hlen].
  apply write_frames_Ok in Hfs as (s & Hs & Ht & Hi & Hf & _). cbn [bw_key bw_header bw_frames bw_index bw_target] in *.
  unfold finish_writer in Hfin. destruct (_ =? _) eqn:E; [|done]. apply Z.eqb_eq in E.
  eexists _, _. split.
  - unfold make_reader. rewrite Ht. cbn [app]. rewrite <- Hlen, read_exactly_app. cbn [mbind res_bind].
    rewrite Hparse. cbn [mbind res_bind]. destruct (_ <? _) eqn:El; [lia|]. reflexivity.
  - split; [done|]. split.
    + eapply (read_frames_back key frames maxes _ s []); cbn [br_header br_header_bytes br_index br_source];
        [done|by rewrite app_nil_r|lia|done|done].
    + unfold finish_reader. cbn. rewrite (proj2 (Z.eqb_eq _ _)) by lia. done.
Qed.

(** ** What is accepted was written *)

(** The frame key decrypts nothing but the frames of one backup: the promise of
    authenticated encryption when the key sealed only these. *)
Definition only_these_frames (key : BackupKey) (header : bytes) (plaintexts : list bytes) : Prop :=
  forall nonce data ad p, aesgcm_decrypt (bk_frames key) nonce data ad = Some p ->
    ∃ i, frame_associated_data header (Z.of_nat i) (Z.of_nat i =? Z.of_nat (length plaintexts) - 1) = Ok ad ∧
      plaintexts !! i = Some p.

Lemma frame_associated_data_Ok header i last ad :
  frame_associated_data header i last = Ok ad ->
  ad = header ++ be_encode 4 i ++ be_encode 1 (if last then 1 else 0) ∧ 0 ≤ i < 2 ^ 32.
Proof.
  unfold frame_associated_data. intros Ha. res_inv Ha.
  apply pack_uint_Ok in R as [-> ?]. by apply pack_uint_Ok in R0 as [-> _].
Qed.
Lemma frame_associated_data_inj h1 h2 i1 i2 l1 l2 ad :
  length h1 = length h2 -> frame_associated_data h1 i1 l1 = Ok ad -> frame_associated_data h2 i2 l2 = Ok ad ->
  h1 = h2 ∧ i1 = i2.
Proof.
  intros Hl [-> H1]%frame_associated_data_Ok [E H2]%frame_associated_data_Ok.
  apply length_app_inj in E as [-> E]; [|done]. split; [done|].
  apply length_app_inj in E as [E _]; [|by rewrite !length_be_encode]. by apply be_encode_inj in E.
Qed.

Lemma read_frame_Ok key m r p r' :
  read_frame key m r = Ok (p, r') ->
  ∃ nonce c ad, aesgcm_decrypt (bk_frames key) nonce c ad = Some p ∧
    frame_associated_data (br_header_bytes r) (br_index r)
      (br_index r =? bh_frames (br_header r) - 1) = Ok ad ∧
    br_index r' = br_index r + 1 ∧ br_header_bytes r' = br_header_bytes r ∧ br_header r' = br_header r.
Proof.
  unfold read_frame. destruct (_ <=? _); [done|]. intros Hr. apply res_bind_Ok in Hr as ([pre s1] & _ & Hr).
  destruct (_ || _); [done|]. apply res_bind_Ok in Hr as ([nonce s2] & _ & Hr).
  apply res_bind_Ok in Hr as ([c s3] & _ & Hr). apply res_bind_Ok in Hr as (x & Ho & [= -> <-]).
  unfold open_frame in Ho. apply res_bind_Ok in Ho as (ad & Had & Ho).
  destruct (aesgcm_decrypt _ _ _ _) eqn:E; [|done]. injection Ho as ->. eauto 10.
Qed.

Lemma read_frames_only key header ps maxes r got r' i :
  only_these_frames key header ps -> length header = length (br_header_bytes r) ->
  br_index r = Z.of_nat i -> read_frames key maxes r = Ok (got, r') ->
  got = take (length maxes) (drop i ps) ∧ length got = length maxes ∧ (maxes ≠ [] -> br_header_bytes r = header) ∧
  br_index r' = Z.of_nat (i + length maxes) ∧ br_header r' = br_header r.
Proof.
  intros Hk. revert r got i. induction maxes as [|m maxes IH]; intros r got i Hl Hi Hr; cbn [read_frames] in Hr.
  - injection Hr as <- <-. rewrite Nat.add_0_r. by split_and!.
  - apply res_bind_Ok in Hr as ([p r1] & Hf & Hr). apply res_bind_Ok in Hr as ([ps' r2] & Hr & [= <- <-]).
    apply read_frame_Ok in Hf as (nonce & c & ad & Hd & Had & Hi1 & Hh1 & Hh1').
    destruct (Hk _ _ _ _ Hd) as (j & Hj & Hp). rewrite Hi in Had.
    destruct (frame_associated_data_inj _ _ _ _ _ _ _ Hl Hj Had) as [Eh Ej]. apply Nat2Z.inj in Ej as ->.
    apply (IH _ _ (S i)) in Hr as (-> & Hlen & _ & Hi2 & Hh2); [|by rewrite Hh1|rewrite Hi1, Hi; lia].
    split_and!; [|simpl; by rewrite Hlen|by rewrite Eh|rewrite Hi2; simpl; f_equal; lia|congruence].
    rewrite (drop_S _ _ _ Hp). done.
Qed.

End Frames.

(** ** The properties at concrete inputs *)

Definition sample_header (frames : Z) : BackupHeader :=
  {| bh_params := DEFAULT_KDF; bh_salt := be_encode 16 1; bh_frames := frames; bh_commitment := be_encode 32 2 |}.
Definition sample_header_bytes : bytes := match pack_header (sample_header 2) with Ok b => b | Err _ => [] end.
Definition sample_key : BackupKey := {| bk_frames := be_encode 32 3; bk_commitment := be_encode 32 2 |}.
Definition sample_frames : list (bytes * bytes) := [(be_encode 12 4, raw "manifest"); (be_encode 12 5, raw "entry")].
Definition sample_file : res BackupWriter :=
  w ← make_writer [] sample_key (sample_header 2); write_frames sample_frames w.

Lemma sample_header_ok : header_ok (sample_header 2).
Proof. by split. Qed.

Lemma backup_reads_back_witness :
  ∃ w' r r', sample_file = Ok w' ∧ length (bw_target w') = 152%nat ∧ make_reader (bw_target w') = Ok r ∧
    read_frames sample_key [MAX_MANIFEST_BYTES; MAX_ENTRY_FRAME_BYTES] r = Ok ([raw "manifest"; raw "entry"], r').
Proof.
  assert (match sample_file with Ok w => length (bw_target w) = 152%nat ∧ finish_writer w = Ok () | Err _ => False end)
    as Hf by (vm_compute; split; reflexivity).
  destruct sample_file as [w'|e] eqn:E; [|destruct Hf]. destruct Hf as [Hlen Hfin].
  unfold sample_file in E. apply res_bind_Ok in E as (w & Hw & Hwr).
  destruct (backup_reads_back sample_key (sample_header 2) sample_frames
    [MAX_MANIFEST_BYTES; MAX_ENTRY_FRAME_BYTES] w w' sample_header_ok) as (r & r' & Hr & _ & Hread & _).
  - vm_compute. discriminate.
  - exact Hw.
  - exact Hwr.
  - exact Hfin.
  - repeat constructor.
  - repeat constructor; vm_compute; discriminate.
  - exists w', r, r'. split; [reflexivity|]. split; [exact Hlen|]. split; [exact Hr|exact Hread].
Defined.

(** A cipher that decrypts the two frames of one backup only *)
Definition two_frames : Cryptography := {|
  argon2id_derive _ _ _ _ _ := [];
  hkdf_derive _ _ := [];
  aesgcm_encrypt _ _ data _ := data ++ replicate 16 Byte.x00;
  aesgcm_decrypt _ _ _ ad :=
    if bool_decide (Ok ad = frame_associated_data sample_header_bytes 0 false) then Some (raw "manifest")
    else if bool_decide (Ok ad = frame_associated_data sample_header_bytes 1 true) then Some (raw "entry")
    else None;
|}.
Definition sample_source : bytes :=
  sample_header_bytes ++ concat (replicate 2 (be_encode 4 16 ++ replicate 12 Byte.x00 ++ replicate 16 Byte.x00)).

