(* ===== verification/BackupSpec.v ===== *)
(** What backups promise (Backup.v): the file a vault is written into reads back
    as the vault's records, and restoring it brings them back. *)
From Stdlib Require Import ZArith Lia Strings.String Strings.Byte.
From stdpp Require Import base list gmap.
From S2P Require Import Prelude Sha256 Crypto Platform Validators Concrete Sessions Models BackupFormat Engine Records.
From S2P Require Import Context Folder Password Attachment MasterPassword Auth Backup Legacy Api Demo.
From S2P Require Import BackupFormatSpec RecordsSpec EntriesSpec.

(** ** Frames that were written and frames still to be read *)

Section Streams.
Context `{!Cryptography} `{!CryptographyLaws} `{!Environment} `{!EnvironmentLaws}.

(** [w'] is [w] after frames of these plaintexts *)
Definition wrote (w : BackupWriter) (ps : list bytes) (w' : BackupWriter) : Prop :=
  ∃ frames, map snd frames = ps ∧ Forall (fun x => length x.1 = NONCE_BYTES) frames ∧
    write_frames frames w = Ok w'.
(** Frames of these plaintexts are what is left of the file. *)
Definition holds (key : BackupKey) (r : BackupReader) (ps : list bytes) : Prop :=
  ∃ frames, map snd frames = ps ∧ Forall (fun x => length x.1 = NONCE_BYTES) frames ∧
    stream key (br_header_bytes r) (bh_frames (br_header r)) (br_index r) frames = Ok (br_source r) ∧
    br_index r + Z.of_nat (length ps) = bh_frames (br_header r).

Lemma wrote_nil w : wrote w [] w.
Proof. exists []. by repeat split. Qed.
Lemma wrote_app w ps w1 qs w2 : wrote w ps w1 -> wrote w1 qs w2 -> wrote w (ps ++ qs) w2.
Proof.
  intros (l & <- & Hn & Hw) (k & <- & Hk & Hw'). exists (l ++ k).
  split; [by rewrite map_app|]. split; [by apply Forall_app|]. clear Hn Hk.
  revert w Hw. induction l as [|[n p] l IH]; intros w Hw; cbn [write_frames app] in *; [by injection Hw as ->|].
  apply res_bind_Ok in Hw as (w3 & Ew & Hw). rewrite Ew. cbn. by apply IH.
Qed.
Lemma writer_write_Ok p w s w' s' : writer_write p w s = (Ok w', s') -> wrote w [p] w' ∧ same_state s s'.
Proof.
  intros Hw. pose proof (same_writer_write p w s) as Hs. rewrite Hw in Hs. split; [|done].
  unfold writer_write in Hw. run_inv Hw. apply os_urandom_Ok in R. exists [(x, p)].
  split; [done|]. split; [by repeat constructor|]. cbn [write_frames]. by rewrite Hw.
Qed.

Lemma holds_read key r p ps max :
  holds key r (p :: ps) -> Z.of_nat (length p) ≤ max ->
  ∃ r', read_frame key max r = Ok (p, r') ∧ holds key r' ps ∧ br_header r' = br_header r.
Proof.
  intros (l & Hl & Hn & Hs & Hi) Hp. destruct l as [|[n q] l]; [done|]. simpl in Hl. injection Hl as -> <-.
  inversion_clear Hn as [|? ? Hn1 Hn2]. cbn [stream fst] in *.
  apply res_bind_Ok in Hs as (f & Hf & Hs). apply res_bind_Ok in Hs as (rest & Hr & [= Hs]).
  assert (br_index r < bh_frames (br_header r)) by (simpl length in Hi; lia).
  eexists. split; [by apply (read_frame_back key r n p rest f)|].
  split; [|done]. exists l. cbn. split_and!; [done|done|done|]. simpl length in Hi. lia.
Qed.
Lemma holds_end key r : holds key r [] -> finish_reader r = Ok ().
Proof.
  intros (l & Hl & _ & Hs & Hi). destruct l; [|done]. injection Hs as Hs. unfold finish_reader.
  rewrite <- Hs. cbn in *. by rewrite (proj2 (Z.eqb_eq _ _)) by lia.
Qed.

Lemma wrote_holds key h w ps w' :
  header_ok h -> bh_frames h ≤ MAX_FRAMES -> make_writer [] key h = Ok w -> wrote w ps w' ->
  finish_writer w' = Ok () ->
  ∃ r, make_reader (bw_target w') = Ok r ∧ br_header r = h ∧ br_index r = 0 ∧ holds key r ps.
Proof.
  intros Hok Hmax Hw (l & <- & Hn & Hl) Hfin. apply make_writer_Ok in Hw as (header & Hpack & ->).
  destruct (pack_parse h header Hok Hpack) as [Hparse Hlen].
  apply write_frames_Ok in Hl as (s & Hs & Ht & Hi & Hf & _).
  cbn [bw_key bw_header bw_frames bw_index bw_target] in *.
  unfold finish_writer in Hfin. destruct (_ =? _) eqn:E; [|done]. apply Z.eqb_eq in E.
  eexists. split.
  - unfold make_reader. rewrite Ht. cbn [app]. rewrite <- Hlen, read_exactly_app. cbn [mbind res_bind].
    rewrite Hparse. cbn [mbind res_bind]. destruct (_ <? _) eqn:El; [lia|]. reflexivity.
  - split; [done|]. split; [done|]. exists l. cbn. split_and!; [done|done|done|]. rewrite length_map. lia.
Qed.
End Streams.

(** ** What is exported *)

Lemma forM_Forall2 {A B} (f : A -> M World B) (P : A -> B -> Prop) l w bs w' :
  (forall a w1 b w2, a ∈ l -> same_state w w1 -> f a w1 = (Ok b, w2) -> P a b ∧ same_state w1 w2) ->
  forM l f w = (Ok bs, w') -> Forall2 P l bs ∧ same_state w w'.
Proof.
  revert w bs. induction l as [|a l IH]; intros w bs Hf Hr; cbn [forM] in Hr; run_inv Hr; [by split; [constructor|]|].
  apply Hf in R as [Hp Hs]; [|left|reflexivity]. apply IH in R0 as [Hps Hs'].
  - split; [by constructor|]. by etrans.
  - intros a' w1 b w2 Hin Hs1. apply Hf; [by right|]. by etrans.
Qed.

(** An entry of a backup with its attachments and their contents *)
Abbreviation Payload := (BackupEntry * list (BackupAttachment * bytes))%type.

Section Exporting.
Context `{!Cryptography} `{!CryptographyLaws} `{!Environment} `{!EnvironmentLaws}
  `{!Codec} `{!CodecLaws} `{!BackupCodec} `{!BackupCodecLaws} `{!Text} `{!Config}.

(** [x] is the attachment row [p] of the entry [e] *)
Record exported_attachment (key : VaultKey) (e : EntryModel) (p : Z * AttachmentModel)
    (x : BackupAttachment * bytes) : Prop := {
  xa_metadata : open_attachment_metadata key p.1 p.2 (entry_uid e)
    = Ok {| meta_filename := ba_filename x.1; meta_content_type := ba_content_type x.1 |};
  xa_content : open_attachment_content key p.1 p.2 (entry_uid e) = Ok x.2;
  xa_created : attachment_created p.2 = Time (ba_created x.1);
}.
(** [x]'s description fits its content. *)
Record well_described (x : BackupAttachment * bytes) : Prop := {
  wd_size : ba_size x.1 = Z.of_nat (length x.2);
  wd_sha256 : ba_sha256 x.1 = hex (sha256 x.2);
  wd_valid : valid_attachment x.1 = true;
}.
(** [x] is the entry [id] of the database [d], its folder named by [uids] *)
Record exported (key : VaultKey) (uids : list (Z * pystr)) (d : DB) (id : Z) (e : EntryModel)
    (x : Payload) : Prop := {
  xe_row : t_rows (entries d) !! id = Some e;
  xe_open : open_entry key id e = Ok (be_document x.1);
  xe_created : entry_created e = Time (be_created x.1);
  xe_updated : entry_updated e = Time (be_updated x.1);
  xe_deleted : deleted e = Time <$> be_deleted x.1;
  xe_folder : be_folder_uid x.1 = (fid ← folder_id e; snd <$> head (filter (fun p => p.1 = fid) uids));
  xe_described : be_attachments x.1 = map fst x.2;
  xe_attachments : Forall2 (exported_attachment key e) (entry_attachments d id) x.2;
  xe_well_described : Forall well_described x.2;
}.
(** The plaintexts of its frames *)
Definition payload_frames (x : Payload) (ps : list bytes) : Prop :=
  ∃ encoded, dump_backup_entry x.1 = Ok encoded ∧ Z.of_nat (length encoded) ≤ MAX_ENTRY_FRAME_BYTES ∧
    ps = encoded :: map snd x.2.

Lemma time_of_Ok s t : time_of s = Ok t -> s = Time t.
Proof. by destruct s; intros [= ->]. Qed.
Lemma validated_Ok {A} (valid : A -> bool) a b : validated valid a = Ok b -> b = a ∧ valid a = true.
Proof. unfold validated. destruct (valid a) eqn:E; [|done]. by intros [= <-]. Qed.
Lemma ok_or_Ok {A} e (o : option A) a : ok_or e o = Ok a -> o = Some a.
Proof. destruct o; [|done]. by intros [= ->]. Qed.

Lemma backup_attachment_Ok key e i w x w' :
  backup_attachment key e i w = (Ok x, w') ->
  w' = w ∧ ∃ a, t_rows (attachments (w_db w)) !! i = Some a ∧
    open_attachment_metadata key i a (entry_uid e) = Ok x.1.2 ∧
    open_attachment_content key i a (entry_uid e) = Ok x.1.1 ∧ x.2 = attachment_created a.
Proof.
  unfold backup_attachment. intros Hb. run_inv Hb. world_inv. split; [done|].
  match goal with E : ok_or _ _ = Ok _ |- _ => apply ok_or_Ok in E end. eauto 10.
Qed.

Lemma elem_of_attachments d id p : p ∈ entry_attachments d id -> t_rows (attachments d) !! p.1 = Some p.2.
Proof. unfold entry_attachments. intros [_ Hin]%list_elem_of_filter. by apply elem_of_rows'. Qed.

(** A row described for the manifest, and its content to come *)
Definition described_row (key : VaultKey) (e : EntryModel) (p : Z * AttachmentModel)
    (y : Z * BackupAttachment) : Prop :=
  y.1 = p.1 ∧ ∃ data, exported_attachment key e p (y.2, data) ∧ well_described (y.2, data).

Lemma attachments_of_Ok key id e w l w' :
  attachments_of key id e w = (Ok l, w') ->
  Forall2 (described_row key e) (entry_attachments (w_db w) id) l ∧ same_state w w'.
Proof.
  unfold attachments_of. intros Ha. apply bind_Ok in Ha as (ids & w1 & Hq & Ha).
  unfold query, gets in Hq. injection Hq as <- <-.
  apply (forM_Forall2 _ (fun i y => ∃ a, t_rows (attachments (w_db w)) !! i = Some a ∧ described_row key e (i, a) y))
    in Ha as [Hf Hs].
  - split; [|done]. apply Forall2_fmap_l in Hf. apply Forall2_same_length_lookup. split.
    + by apply Forall2_length in Hf.
    + intros i p y Hp Hy. pose proof (Forall2_lookup_lr _ _ _ _ _ _ Hf Hp Hy) as (a & Ha & Hd).
      apply list_elem_of_lookup_2, elem_of_attachments in Hp. cbn in Ha. rewrite Ha in Hp.
      injection Hp as ->. by destruct p.
  - intros i w1 y w2 _ Hs Hr. apply bind_Ok in Hr as ([[data m] created] & w3 & Hb & Hr).
    apply backup_attachment_Ok in Hb as (-> & a & Hrow & Hm & Hc & Hcr). cbn [fst snd] in *. subst created.
    run_inv Hr. unfold describe_attachment in R. res_inv R. apply time_of_Ok in R0.
    apply validated_Ok in R as [-> Hv]. split; [|reflexivity]. exists a.
    split; [by rewrite <- (ss_db _ _ Hs)|]. split; [done|]. exists data. split; [|by split].
    split; cbn; try done. rewrite Hm. by destruct m.
Qed.

Lemma described_contents key e l k :
  Forall2 (described_row key e) l k ->
  ∃ xs, map fst xs = map snd k ∧ Forall2 (exported_attachment key e) l xs ∧ Forall well_described xs.
Proof.
  induction 1 as [|p y l k [Hp (data & Hx & Hw)] _ (xs & Hxs & Hf & Hws)]; [by exists []|].
  exists ((y.2, data) :: xs). split; [by simpl; rewrite Hxs|]. split; by constructor.
Qed.

Lemma write_contents_Ok key e l k xs bw w bw' w' :
  Forall2 (described_row key e) l k -> Forall2 (exported_attachment key e) l xs ->
  (forall p, p ∈ l -> t_rows (attachments (w_db w)) !! p.1 = Some p.2) ->
  foldM (fun bw p => '(data, _, _) ← backup_attachment key e p.1; writer_write data bw) k bw w = (Ok bw', w') ->
  wrote bw (map snd xs) bw' ∧ same_state w w'.
Proof.
  intros Hk. revert xs bw w. induction Hk as [|p y l k [Hp _] Hk IH]; intros xs bw w Hxs Hl Hr;
    inversion Hxs as [|? x ? xs' Hx Hxs' E1 E2]; subst; cbn [foldM] in Hr.
  - run_inv Hr. split; [apply wrote_nil|done].
  - apply bind_Ok in Hr as (bw1 & w1 & Hb & Hr). apply bind_Ok in Hb as ([[data m] t] & w2 & Hb & Hwr).
    apply backup_attachment_Ok in Hb as (-> & a & Hrow & _ & Hc & _). cbn [fst snd] in *.
    rewrite Hp, (Hl p) in Hrow by left. injection Hrow as <-. rewrite Hp, (xa_content _ _ _ _ Hx) in Hc.
    injection Hc as <-. apply writer_write_Ok in Hwr as [Hw1 Hs1].
    apply (IH xs') in Hr as [Hw2 Hs2]; [|done|].
    + split; [|by etrans]. apply (wrote_app _ [x.2] _ _ _ Hw1 Hw2).
    + intros q Hq. rewrite (ss_db _ _ Hs1). apply Hl. by right.
Qed.

Lemma write_entry_Ok key uids bw id w bw' w' :
  write_entry key uids bw id w = (Ok bw', w') ->
  ∃ e x ps, exported key uids (w_db w) id e x ∧ payload_frames x ps ∧ wrote bw ps bw' ∧ same_state w w'.
Proof.
  unfold write_entry. intros Hr. apply bind_Ok in Hr as (row & w1 & Hq & Hr).
  unfold query, gets in Hq. injection Hq as <- <-. apply bind_Ok in Hr as (e & w1 & He & Hr).
  apply lift_Ok in He as [He%ok_or_Ok ->]. apply bind_Ok in Hr as (doc & w1 & Hd & Hr).
  apply lift_Ok in Hd as [Hd ->]. apply bind_Ok in Hr as (k & w1 & Hk & Hr).
  apply attachments_of_Ok in Hk as [Hk Hs1].
  apply bind_Ok in Hr as (created & ? & [Hc%time_of_Ok ->]%lift_Ok & Hr).
  apply bind_Ok in Hr as (updated & ? & [Hu%time_of_Ok ->]%lift_Ok & Hr).
  apply bind_Ok in Hr as (del & ? & [Hdel ->]%lift_Ok & Hr).
  apply bind_Ok in Hr as (encoded & ? & [Henc ->]%lift_Ok & Hr).
  apply bind_Ok in Hr as ([] & ? & [Hmax ->]%raise_if_Ok & Hr).
  apply bind_Ok in Hr as (bw1 & w2 & Hw1 & Hr). apply writer_write_Ok in Hw1 as [Hw1 Hs2].
  destruct (described_contents _ _ _ _ Hk) as (xs & Hxs & Hf & Hws).
  pose proof (fun Hin => write_contents_Ok key e _ _ xs _ _ _ _ Hk Hf Hin Hr) as Hwr. clear Hr.
  destruct Hwr as [Hw2 Hs3].
  { intros p Hp. rewrite (ss_db _ _ Hs2), (ss_db _ _ Hs1). by apply elem_of_attachments in Hp. }
  match type of Henc with dump_backup_entry ?be = _ => exists e, (be, xs), (encoded :: map snd xs) end.
  split; [split; cbn; try done|].
  - destruct (deleted e) as [t|]; [|by injection Hdel as <-]. destruct t; [|done]. by injection Hdel as <-.
  - split; [exists encoded; split; [done|]; split; [lia|done]|].
    split; [by apply (wrote_app _ [encoded] _ _ _ Hw1 Hw2)|]. etrans; [exact Hs1|]. by etrans.
Qed.

(** ** The whole file *)

(** What the manifest says of a folder row *)
Record described_folder (key : VaultKey) (p : Z * FolderModel) (y : Z * BackupFolder) : Prop := {
  df_id : y.1 = p.1;
  df_uid : ∃ u, folder_uid p.2 = CBlob u ∧ bf_uid y.2 = hex u;
  df_name : open_folder key p.1 p.2 = Ok (bf_name y.2);
  df_valid : valid_folder y.2 = true;
}.

Lemma describe_folder_Ok key p w y w' :
  describe_folder key p w = (Ok y, w') -> described_folder key p y ∧ w' = w.
Proof.
  unfold describe_folder. intros Hd. run_inv Hd. world_inv. split; [|done].
  match goal with E : validated _ _ = Ok _ |- _ => apply validated_Ok in E as [-> Hv] end.
  split; cbn; try done. destruct (folder_uid p.2) as [| | |u]; try done.
  match goal with E : hex_of_cell _ = Ok _ |- _ => injection E as <- end. eauto.
Qed.

Lemma write_entries_Ok key uids ids bw w bw' w' :
  foldM (write_entry key uids) ids bw w = (Ok bw', w') ->
  ∃ xs ps, Forall2 (fun id x => ∃ e, exported key uids (w_db w) id e x) ids xs ∧
    Forall2 payload_frames xs ps ∧ wrote bw (concat ps) bw' ∧ same_state w w'.
Proof.
  revert bw w. induction ids as [|id ids IH]; intros bw w Hr; cbn [foldM] in Hr.
  - run_inv Hr. exists [], []. split_and!; [constructor..|apply wrote_nil|done].
  - apply bind_Ok in Hr as (bw1 & w1 & Hw & Hr).
    apply write_entry_Ok in Hw as (e & x & p & Hx & Hp & Hw1 & Hs1).
    apply IH in Hr as (xs & ps & Hxs & Hps & Hw2 & Hs2). rewrite (ss_db _ _ Hs1) in Hxs.
    exists (x :: xs), (p :: ps). split_and!; [constructor; eauto|by constructor| |by etrans].
    cbn [concat]. by apply (wrote_app _ _ _ _ _ Hw1).
Qed.

(** The vault [d] as the manifest and entries of a backup *)
Record backup_of (owner : option Z) (eids : option (list Z)) (key : VaultKey) (d : DB)
    (m : BackupManifest) (xs : list Payload) : Prop := {
  bo_count : bm_entries_count m = Z.of_nat (length (exported_ids eids d));
  bo_version : bm_version m = 3;
  bo_settings : bm_settings m = default vault_defaults (settings d);
  bo_folders : ∃ fs, bm_folders m = map snd fs ∧
    Forall2 (described_folder key) (exported_folders owner eids (exported_ids eids d) d) fs ∧
    Forall2 (fun id x => ∃ e, exported key (map (fun p => (p.1, bf_uid p.2)) fs) d id e x)
      (exported_ids eids d) xs;
}.

Lemma write_backup_Ok owner eids salt bk key w file w' :
  length salt = 16%nat -> length (bk_commitment bk) = 32%nat ->
  write_backup owner eids salt bk key w = (Ok file, w') ->
  ∃ m encoded xs ps r, backup_of owner eids key (w_db w) m xs ∧
    valid_manifest m = true ∧ dump_manifest m = Ok encoded ∧
    Z.of_nat (length encoded) ≤ MAX_MANIFEST_BYTES ∧ Forall2 payload_frames xs ps ∧
    make_reader file = Ok r ∧ bh_params (br_header r) = DEFAULT_KDF ∧ bh_salt (br_header r) = salt ∧
    bh_commitment (br_header r) = bk_commitment bk ∧ br_index r = 0 ∧ holds bk r (encoded :: concat ps).
Proof.
  intros Hsalt Hcommit Hr. unfold write_backup in Hr.
  apply bind_Ok in Hr as (lost & ? & [= <- <-] & Hr). apply bind_Ok in Hr as ([] & ? & Hlost & Hr).
  destruct (orphan _); [discriminate|]. injection Hlost as <-.
  apply bind_Ok in Hr as (ids & ? & [= <- <-] & Hr). apply bind_Ok in Hr as (models & ? & [= <- <-] & Hr).
  apply bind_Ok in Hr as (fs & w1 & Hfs & Hr).
  apply (forM_Forall2 _ (described_folder key)) in Hfs as [Hfs Hs1].
  2: { intros p w2 y w3 _ _ Hd. by apply describe_folder_Ok in Hd as [? ->]. }
  apply bind_Ok in Hr as (n & ? & [= <- <-] & Hr). cbv zeta in Hr.
  apply bind_Ok in Hr as ([] & ? & [Hmax ->]%raise_if_Ok & Hr).
  apply bind_Ok in Hr as (now & ? & [= <- <-] & Hr).
  apply bind_Ok in Hr as (cur & w2 & Hcur & Hr).
  pose proof (same_stored_settings (w_set_clock_reads (S (w_clock_reads w1)) w1)) as Hs2.
  rewrite Hcur in Hs2. cbn [snd] in Hs2.
  assert (same_state w w2) as Hs by (etrans; [exact Hs1|]; etrans; [|exact Hs2]; by split).
  assert (cur = default vault_defaults (settings (w_db w))) as ->.
  { unfold stored_settings in Hcur. run_inv Hcur. world_inv. by rewrite (ss_db _ _ Hs1). }
  rewrite (ss_db _ _ Hs1) in Hr, Hmax. apply bind_Ok in Hr as (encoded & ? & [Henc ->]%lift_Ok & Hr).
  apply bind_Ok in Hr as ([] & ? & [Hsize ->]%raise_if_Ok & Hr).
  apply bind_Ok in Hr as ([] & ? & [_ ->]%lift_Ok & Hr).
  match type of Henc with dump_manifest ?m0 = _ => set (m := m0) in * end.
  match type of Hr with context [make_writer [] bk ?h0] => set (h := h0) in * end.
  apply bind_Ok in Hr as (bw0 & ? & [Hbw0 ->]%lift_Ok & Hr).
  apply bind_Ok in Hr as (bw1 & w3 & Hbw1 & Hr). apply writer_write_Ok in Hbw1 as [Hw1 Hs3].
  apply bind_Ok in Hr as (bw2 & w4 & Hbw2 & Hr).
  apply write_entries_Ok in Hbw2 as (xs & ps & Hxs & Hps & Hw2 & Hs4).
  rewrite (ss_db _ _ Hs3), (ss_db _ _ Hs) in Hxs. run_inv Hr.
  assert (0 ≤ attachment_count eids (exported_ids eids (w_db w)) (w_db w)) as Hn
    by (unfold attachment_count; lia).
  destruct (wrote_holds bk h bw0 (encoded :: concat ps) bw2) as (r & Hr & Hh & Hi & Hholds).
  - split; [reflexivity|exact Hsalt| |exact Hcommit]. cbn [bh_frames h]. unfold MAX_FRAMES in Hmax. lia.
  - cbn [bh_frames h]. lia.
  - done.
  - apply (wrote_app _ [encoded] _ _ _ Hw1 Hw2).
  - by match goal with E : finish_writer _ = Ok _ |- _ => rewrite E; destruct x end.
  - exists m, encoded, xs, ps, r. rewrite Hh. split_and!; try done; [by split; try done; exists fs| |lia].
    unfold valid_manifest. cbn [m bm_version bm_entries_count bm_folders]. unfold MAX_FRAMES in *.
    rewrite !andb_true_iff, !Z.leb_le. apply Z.ltb_ge in Hmax. split_and!; [done|lia|lia|].
    apply forallb_forall. intros f Hf. apply in_map_iff in Hf as (y & <- & Hy%list_elem_of_In).
    apply list_elem_of_lookup in Hy as [k Hy].
    destruct (Forall2_lookup_r _ _ _ _ _ Hfs Hy) as (p & _ & Hd). apply Hd.
Qed.

(** ** Reading a backup to its end *)

Fixpoint read_contents (bk : BackupKey) (l : list BackupAttachment) (r : BackupReader)
    : res (list (BackupAttachment * bytes) * BackupReader) :=
  match l with
  | [] => Ok ([], r)
  | a :: l =>
      '(data, r) ← read_frame bk MAX_ATTACHMENT_FRAME_BYTES r;
      '(rest, r) ← read_contents bk l r;
      Ok ((a, data) :: rest, r)
  end.
Fixpoint read_entries (bk : BackupKey) (n : nat) (r : BackupReader) : res (list Payload * BackupReader) :=
  match n with
  | O => Ok ([], r)
  | S n =>
      '(be, r) ← read_entry bk r;
      '(contents, r) ← read_contents bk (be_attachments be) r;
      '(rest, r) ← read_entries bk n r;
      Ok ((be, contents) :: rest, r)
  end.
Definition read_backup (bk : BackupKey) (r : BackupReader) : res (BackupManifest * list Payload) :=
  '(m, r) ← read_manifest bk r;
  '(xs, r) ← read_entries bk (Z.to_nat (bm_entries_count m)) r;
  _ ← finish_reader r;
  Ok (m, xs).

(** A payload as its frames give it back *)
Record readable (x : Payload) : Prop := {
  rd_loads encoded : dump_backup_entry x.1 = Ok encoded -> load_backup_entry encoded = inr x.1;
  rd_described : be_attachments x.1 = map fst x.2;
  rd_sizes : Forall (fun y => Z.of_nat (length y.2) ≤ MAX_ATTACHMENT_FRAME_BYTES) x.2;
}.

Lemma exported_readable key fs d id e x :
  (length (entry_attachments d id) ≤ 20)%nat -> Forall (fun y => valid_folder y.2 = true) fs ->
  exported key (map (fun p : Z * BackupFolder => (p.1, bf_uid p.2)) fs) d id e x -> readable x.
Proof.
  intros Hlen Hfs [_ Ho _ _ _ Hf Hd Ha Hv].
  apply open_entry_Ok in Ho as (_ & (raw & _ & Hraw) & _). pose proof (Forall2_length _ _ _ Ha) as Hl.
  split; [|done|].
  - intros encoded. apply (load_dump_backup_entry x.1 encoded raw Hraw). unfold valid_entry.
    rewrite !andb_true_iff. split_and!.
    + rewrite Hf. destruct (folder_id e) as [fid|]; [|done]. cbn.
      destruct (head _) as [y|] eqn:Ey; [|done]. cbn. apply head_Some_elem_of in Ey.
      apply list_elem_of_filter in Ey as [_ Ey]. apply list_elem_of_fmap in Ey as (z & -> & Hz).
      rewrite Forall_forall in Hfs. specialize (Hfs z Hz). unfold valid_folder in Hfs.
      by apply andb_true_iff in Hfs as [? _].
    + rewrite Hd, length_map, <- Hl. apply Z.leb_le. unfold MAX_ATTACHMENTS_PER_ENTRY. lia.
    + rewrite Hd. apply forallb_forall. intros a Ha'. apply in_map_iff in Ha' as (y & <- & Hy%list_elem_of_In).
      rewrite Forall_forall in Hv. by apply (wd_valid _ (Hv y Hy)).
  - eapply Forall_impl; [exact Hv|]. intros y [<- _ Hva]. unfold valid_attachment in Hva.
    rewrite !andb_true_iff in Hva. lia.
Qed.

Lemma read_contents_holds bk xs r ps :
  holds bk r (map snd xs ++ ps) ->
  Forall (fun y => Z.of_nat (length y.2) ≤ MAX_ATTACHMENT_FRAME_BYTES) xs ->
  ∃ r', read_contents bk (map fst xs) r = Ok (xs, r') ∧ holds bk r' ps.
Proof.
  intros Hr Hs. revert r Hr. induction Hs as [|[a c] xs Hc Hs IH]; intros r Hr; [by exists r|].
  destruct (holds_read bk r c (map snd xs ++ ps) _ Hr Hc) as (r1 & Hread & Hr1 & _).
  destruct (IH r1 Hr1) as (r2 & Hrest & Hr2). exists r2. split; [|done].
  cbn [map read_contents fst]. rewrite Hread. cbn. by rewrite Hrest.
Qed.

Lemma read_entries_holds bk xs pss r ps :
  Forall2 payload_frames xs pss -> Forall readable xs -> holds bk r (concat pss ++ ps) ->
  ∃ r', read_entries bk (length xs) r = Ok (xs, r') ∧ holds bk r' ps.
Proof.
  intros Hp Hx. revert r. induction Hp as [|[be cs] p xs pss (encoded & Henc & Hsize & ->) Hp IH]; intros r Hr;
    [by exists r|]. inversion_clear Hx as [|? ? [Hl Hd Hs] Hxs]. cbn [fst snd] in *.
  cbn [concat] in Hr. rewrite <- !app_assoc in Hr.
  destruct (holds_read bk r encoded _ _ Hr Hsize) as (r1 & Hread & Hr1 & _).
  destruct (read_contents_holds bk cs r1 _ Hr1 Hs) as (r2 & Hcs & Hr2).
  destruct (IH Hxs r2 Hr2) as (r3 & Hrest & Hr3). exists r3. split; [|done].
  cbn [length read_entries]. unfold read_entry. rewrite Hread. cbn [mbind res_bind]. rewrite (Hl _ Henc).
  cbn [mbind res_bind]. rewrite Hd, Hcs. cbn [mbind res_bind]. by rewrite Hrest.
Qed.

Lemma holds_backup bk r m encoded xs pss :
  holds bk r (encoded :: concat pss) -> Z.of_nat (length encoded) ≤ MAX_MANIFEST_BYTES ->
  load_manifest encoded = inr m -> bm_entries_count m = Z.of_nat (length xs) ->
  Forall2 payload_frames xs pss -> Forall readable xs -> read_backup bk r = Ok (m, xs).
Proof.
  intros Hr Hsize Hm Hn Hp Hx. destruct (holds_read bk r encoded _ _ Hr Hsize) as (r1 & Hread & Hr1 & _).
  destruct (read_entries_holds bk xs pss r1 [] Hp Hx) as (r2 & Hxs & Hr2); [by rewrite app_nil_r|].
  unfold read_backup, read_manifest. rewrite Hread. cbn [mbind res_bind]. rewrite Hm. cbn [mbind res_bind].
  rewrite Hn, Nat2Z.id, Hxs. cbn [mbind res_bind]. by rewrite (holds_end _ _ Hr2).
Qed.

(** The key of a backup's password and header *)
Definition backup_key_of (password : pystr) (h : BackupHeader) (bk : BackupKey) : Prop :=
  ∃ derived, argon2id password (bh_salt h) (bh_params h) = Ok derived ∧ bk = make_backup_key derived.

Lemma create_backup_Ok owner eids pw key b w file w' :
  create_backup owner eids pw key b w = (Ok file, w') ->
  (forall id, id ∈ exported_ids eids (w_db w') -> (length (entry_attachments (w_db w') id) ≤ 20)%nat) ->
  ∃ r bk m encoded xs pss, make_reader file = Ok r ∧ backup_key_of pw (br_header r) bk ∧
    backup_key_matches bk (br_header r) = true ∧ backup_of owner eids key (w_db w') m xs ∧
    holds bk r (encoded :: concat pss) ∧ Z.of_nat (length encoded) ≤ MAX_MANIFEST_BYTES ∧
    load_manifest encoded = inr m ∧ bm_entries_count m = Z.of_nat (length xs) ∧
    Forall2 payload_frames xs pss ∧ Forall readable xs ∧ br_index r = 0.
Proof.
  intros Hc Hlen. unfold create_backup in Hc. apply bind_Ok in Hc as (opened & w1 & _ & Hc).
  apply bind_Ok in Hc as ([salt bk] & w2 & Hk & Hc). apply bind_Ok in Hc as ([] & w3 & _ & Hc).
  apply bind_Ok in Hk as (salt' & w4 & Hsalt%os_urandom_Ok & Hk).
  apply bind_Ok in Hk as (derived & w5 & Hd%derive_Ok & [= -> <- _]).
  pose proof (same_write_backup owner eids salt (make_backup_key derived) key w3) as Hs.
  rewrite Hc in Hs. cbn [snd] in Hs. rewrite (ss_db _ _ Hs) in *.
  apply write_backup_Ok in Hc
    as (m & encoded & xs & pss & r & Hbo & Hm & Henc & Hsize & Hp & Hr & Hpar & Hsalt' & Hcom & Hi & Hh);
    [|done|apply hkdf_length].
  destruct (bo_folders _ _ _ _ _ _ Hbo) as (fs & _ & Hfs & Hxs).
  exists r, (make_backup_key derived), m, encoded, xs, pss. split_and!; try done.
  - exists derived. split; [|done]. by rewrite Hsalt', Hpar.
  - unfold backup_key_matches. rewrite Hcom. by apply bool_decide_eq_true.
  - by apply load_dump_manifest.
  - by rewrite (bo_count _ _ _ _ _ _ Hbo), (Forall2_length _ _ _ Hxs).
  - apply Forall_forall. intros x [k Hx]%list_elem_of_lookup.
    destruct (Forall2_lookup_r _ _ _ _ _ Hxs Hx) as (id & Hid & e & He).
    apply (exported_readable key fs (w_db w3) id e x); [|clear - Hfs|done].
    + apply Hlen. by eapply list_elem_of_lookup_2.
    + apply Forall_forall. intros y [j Hy]%list_elem_of_lookup.
      destruct (Forall2_lookup_r _ _ _ _ _ Hfs Hy) as (p & _ & Hv). apply Hv.
Qed.
End Exporting.
