(* ===== verification/RestoreSpec.v ===== *)
(** What restoring a backup does (Backup.v): a vault without entries gets back
    everything the backup was made of, and a vault with entries keeps them. *)
From Stdlib Require Import ZArith Lia Strings.String Strings.Byte.
From stdpp Require Import base list gmap sorting.
From S2P Require Import Prelude Sha256 Crypto Platform Validators Concrete Sessions Models BackupFormat Engine Records.
From S2P Require Import Context Folder Password Attachment MasterPassword Auth Backup Legacy Api Demo.
From S2P Require Import BackupFormatSpec RecordsSpec EntriesSpec Requests BackupSpec.

(** A new row comes last. *)
Lemma rows_insert_last {A} (m : gmap Z A) i a :
  (forall k, is_Some (m !! k) -> k < i) -> rows (<[i := a]> m) = rows m ++ [(i, a)].
Proof.
  intros Hlt. assert (m !! i = None) as Hi.
  { destruct (m !! i) eqn:E; [|done]. assert (i < i) by (apply Hlt; eauto). lia. }
  assert (forall p, p ∈ rows m -> p.1 < i) as Hp.
  { intros p Hin%elem_of_rows'. apply Hlt. eauto. }
  apply (StronglySorted_unique_strong by_id).
  - intros [j x] [k y] Hx Hy. unfold by_id. cbn. intros H1 H2. assert (j = k) as -> by lia.
    apply elem_of_rows in Hx. apply elem_of_app in Hy as [Hy%elem_of_rows|Hy%list_elem_of_singleton].
    + apply lookup_insert_Some in Hx as [[<- <-]|[_ Hx]]; congruence.
    + injection Hy as -> ->. rewrite lookup_insert_eq in Hx. congruence.
  - apply Sorted_StronglySorted; [apply _|]. apply Sorted_merge_sort, _.
  - apply StronglySorted_app. split_and!.
    + intros x y Hx ->%list_elem_of_singleton. specialize (Hp x Hx). unfold by_id. cbn. lia.
    + apply Sorted_StronglySorted; [apply _|]. apply Sorted_merge_sort, _.
    + repeat constructor.
  - unfold rows. rewrite !merge_sort_Permutation, map_to_list_insert by done.
    by rewrite Permutation_app_comm.
Qed.

Lemma next_id_above {A} (t : Table A) k : is_Some (t_rows t !! k) -> k < next_id t.
Proof. intros [x Hx]. apply max_id_ge in Hx. unfold next_id. lia. Qed.
Lemma entry_attachments_added d a id :
  entry_attachments (with_attachments (t_insert a) d) id
  = entry_attachments d id ++ (if decide (attachment_entry_id a = id) then [(next_id (attachments d), a)] else []).
Proof.
  unfold entry_attachments. cbn. rewrite rows_insert_last by apply next_id_above.
  rewrite list.filter_app, filter_cons, filter_nil. done.
Qed.

Section Restoring.
Context `{!Cryptography} `{!CryptographyLaws} `{!Environment} `{!EnvironmentLaws}
  `{!Codec} `{!CodecLaws} `{!BackupCodec} `{!BackupCodecLaws} `{!Text} `{!Config}.

(** Only attachments of the entry [id] were added. *)
Record attached (id : Z) (d d' : DB) : Prop := {
  at_entries : entries d' = entries d;
  at_folders : folders d' = folders d;
  at_settings : settings d' = settings d;
  at_others j : j ≠ id -> entry_attachments d' j = entry_attachments d j;
}.
Lemma attached_refl id d : attached id d d.
Proof. by split. Qed.
Lemma attached_trans id d1 d2 d3 : attached id d1 d2 -> attached id d2 d3 -> attached id d1 d3.
Proof. intros [? ? ? A] [? ? ? B]. split; [congruence..|]. intros j Hj. by rewrite B, A. Qed.

Lemma add_restored_attachment_Ok key id e x data w u w' :
  add_restored_attachment key (id, e) (ba_filename x) (ba_content_type x) (ba_created x) data w = (Ok u, w') ->
  ∃ p, entry_attachments (w_db w') id = entry_attachments (w_db w) id ++ [p] ∧
    exported_attachment key e p (x, data) ∧ attached id (w_db w) (w_db w').
Proof.
  unfold add_restored_attachment. cbn [fst snd]. intros Ha.
  apply bind_Ok in Ha as (uid & w1 & Huid & Ha). apply bind_Ok in Ha as (a & w2 & Hseal & Ha).
  pose proof (same_state_run _ _ _ _ same_new_uid Huid) as Hs1.
  pose proof (same_state_run _ _ _ _ (same_seal_attachment _ _ _ _ _) Hseal) as Hs2.
  apply bind_Ok in Ha as (i & w3 & Hi & [= _ <-]). apply write_Ok in Hi as (d & Hi & ->).
  assert (w_db w2 = w_db w) as Ew by (by rewrite Hs2, Hs1). rewrite Ew in Hi.
  unfold insert_attachment in Hi. apply res_bind_Ok in Hi as ([] & Hcon & Hi). res_inv Hi. simplify_eq.
  cbn [w_db w_set_db]. exists (next_id (attachments (w_db w)), a).
  destruct (open_seal_attachment key (next_id (attachments (w_db w))) _ _ _ _ _ _ _ Hseal)
    as (Hc & Hm & Hcreated & Hid & Hsize). cbn [attachment_created attachment_entry_id] in *.
  split; [|split].
  - rewrite entry_attachments_added. by rewrite decide_True.
  - split; cbn [fst snd]; [|done|by rewrite <- Hcreated]. rewrite <- Hcreated. apply Hm; [done|].
    intros ->. unfold constraint in Hcon. rewrite Hsize in Hcon. cbn in Hcon. by rewrite andb_false_r in Hcon.
  - split; try done. intros j Hj. rewrite entry_attachments_added, decide_False by congruence.
    apply app_nil_r.
Qed.

Lemma restore_attachments_Ok bk key id e xs r n w r' n' w' ps :
  holds bk r (map snd xs ++ ps) ->
  Forall (fun y => Z.of_nat (length y.2) ≤ MAX_ATTACHMENT_FRAME_BYTES) xs ->
  foldM (restore_attachment bk key (Some (id, e))) (map fst xs) (r, n) w = (Ok (r', n'), w') ->
  holds bk r' ps ∧ n' = n + Z.of_nat (length xs) ∧ attached id (w_db w) (w_db w') ∧
  ∃ new, entry_attachments (w_db w') id = entry_attachments (w_db w) id ++ new ∧
    Forall2 (exported_attachment key e) new xs.
Proof.
  intros Hr Hs. revert r n w Hr. induction Hs as [|[a c] xs Hc Hs IH]; intros r n w Hr Hf; cbn [map foldM fst] in Hf.
  - run_inv Hf. split_and!; [done|simpl; lia|apply attached_refl|]. exists []. by rewrite app_nil_r.
  - apply bind_Ok in Hf as ([r1 n1] & w1 & Ha & Hf). unfold restore_attachment in Ha. cbn [fst snd] in Ha.
    destruct (holds_read bk r c (map snd xs ++ ps) _ Hr Hc) as (r2 & Hread & Hr2 & _).
    apply bind_Ok in Ha as ([data r3] & ? & [Hd ->]%lift_Ok & Ha). rewrite Hread in Hd. injection Hd as <- <-.
    apply bind_Ok in Ha as ([] & ? & [_ ->]%raise_if_Ok & Ha). apply bind_Ok in Ha as ([] & ? & Hadd & [= <- <- <-]).
    apply add_restored_attachment_Ok in Hadd as (p & Hp & Hx & Hat).
    apply (IH r2 (n + 1) _ Hr2) in Hf as (Hh & -> & Hat' & new & Hnew & Hf).
    split_and!; [done|simpl length; lia|by eapply attached_trans|]. exists (p :: new). split; [|by constructor].
    rewrite Hnew, Hp, <- app_assoc. done.
Qed.

(** ** One restored entry *)

Lemma restored_password_Ok d p : restored_password d = inr p -> p = restored d.
Proof. unfold restored_password. destruct (restored_errors d); [|done]. by intros [= <-]. Qed.

Lemma check_entry_Ok be i p h :
  check_entry be i = Ok (p, h) -> p = restored (be_document be) ∧ h = doc_history (be_document be).
Proof.
  unfold check_entry. intros Hc. apply res_bind_Ok in Hc as ([valid ignored_] & Hv & Hc).
  unfold validate_import, restorable in Hv. cbn [foldl validate_row v_valid v_ignored v_problems app] in Hv.
  destruct (bool_decide (doc_name _ = [])); [by injection Hv as <- <-|].
  destruct (bool_decide (doc_value _ = [])); [by injection Hv as <- <-|].
  destruct (restored_password _) as [[f m]|q] eqn:E.
  - discriminate Hv.
  - cbn in Hv. injection Hv as <- <-. destruct (_ <? _); [done|]. injection Hc as <- <-.
    by apply restored_password_Ok in E.
Qed.

(** The document a backup's entry is restored as *)
Definition restored_document (d : EntryDocument) : EntryDocument :=
  document_from (restored d) (doc_history d).

Lemma add_restored_Ok owner p h be fid key w id e w' :
  (fid = None -> or_none (pw_folder p) = None) ->
  add_restored owner p h be fid key w = (Ok (id, e), w') ->
  id = next_id (entries (w_db w)) ∧ w_db w' = with_entries (t_insert e) (w_db w) ∧
  open_entry key id e = Ok (document_from p h) ∧ entry_created e = Time (be_created be) ∧
  entry_updated e = Time (be_updated be) ∧ deleted e = Time <$> be_deleted be ∧
  entry_owner_id e = owner ∧ folder_id e = fid ∧ backed_up e = true.
Proof.
  intros Hfid Ha. unfold add_restored in Ha. apply bind_Ok in Ha as (fid' & w1 & Hf & Ha).
  assert (fid' = fid ∧ w1 = w) as [-> ->].
  { destruct fid as [f|]; cbn in Hf; [by injection Hf as <- <-|].
    unfold folder_by_name in Hf. cbn [doc_folder document_from] in Hf. rewrite (Hfid eq_refl) in Hf.
    cbn in Hf. by injection Hf as <- <-. }
  apply bind_Ok in Ha as (e0 & w1 & He0 & Ha). apply new_entry_Ok in He0 as (Hs1 & Hown & Hfold & _).
  apply bind_Ok in Ha as (e1 & w2 & Hseal & Ha). apply bind_Ok in Ha as (i & w3 & Hi & [= <- <- <-]).
  apply write_Ok in Hi as (d & Hi & ->). unfold insert_entry in Hi. res_inv Hi. simplify_eq.
  pose proof (seal_entry_Ok _ _ _ _ _ _ Hseal) as (ix & sealed & nonce & -> & _ & _ & _ & Hs2 & _).
  cbn [w_db w_set_db]. rewrite (ss_db _ _ Hs2), (ss_db _ _ Hs1). cbn.
  split_and!; try done.
  eapply (open_sealed_as key _ _ _ _ _ _ _ Hseal); [by split|].
  unfold entry_times_ok. cbn. by destruct (be_deleted be).
Qed.

Definition nothing_there (be : BackupEntry) (index : bytes) (tg : Targets) : Prop :=
  match be_deleted be with
  | None => tg_active tg !! index = None
  | Some t => tg_trashed tg !! (index, Time t) = None
  end.

Lemma restore_target_new owner p h be tg key oc at_ c fid w r w' :
  (forall index, name_index key (password_name p) = Ok index -> nothing_there be index tg) ->
  restore_target owner p h be tg key oc at_ c fid w = (Ok r, w') ->
  ∃ index id e, name_index key (password_name p) = Ok index ∧
    add_restored owner p h be fid key w = (Ok (id, e), w') ∧ r.1.1 = Some (id, e) ∧
    match be_deleted be with
    | None => r.1.2 = {| tg_active := <[index := id]> (tg_active tg); tg_trashed := tg_trashed tg |} ∧
              r.2 = count_imported c
    | Some t => r.1.2 = {| tg_active := tg_active tg;
                           tg_trashed := <[(index, Time t) := id]> (tg_trashed tg) |} ∧
                r.2 = count_trashed c
    end.
Proof.
  intros Hn Hr. unfold restore_target in Hr. apply bind_Ok in Hr as (index & ? & [Hi ->]%lift_Ok & Hr).
  specialize (Hn index Hi). unfold nothing_there in Hn.
  destruct (be_deleted be) as [t|] eqn:E; rewrite Hn in Hr; unfold add_target in Hr; rewrite E in Hr;
    apply bind_Ok in Hr as ([id e] & w1 & Ha & [= <- <-]); exists index, id, e; by split_and!.
Qed.

(** ** The loop over the entries *)

(** The folder [fid] is the account's folder of that name. *)
Definition named_folder (key : VaultKey) (o : Z) (d : DB) (fid : Z) (name : pystr) : Prop :=
  ∃ f index, t_rows (folders d) !! fid = Some f ∧ folder_owner_id f = o ∧
    folder_name_index key o name = Ok index ∧ fl_name_index f = CBlob index.

(** The entry [id] of the database holds the backup's entry [x]. *)
Record restored_as (key : VaultKey) (o : Z) (d : DB) (x : Payload) (id : Z) (e : EntryModel) : Prop := {
  ra_row : t_rows (entries d) !! id = Some e;
  ra_open : open_entry key id e = Ok (restored_document (be_document x.1));
  ra_created : entry_created e = Time (be_created x.1);
  ra_updated : entry_updated e = Time (be_updated x.1);
  ra_deleted : deleted e = Time <$> be_deleted x.1;
  ra_owner : entry_owner_id e = Some o;
  ra_backed_up : backed_up e = true;
  ra_folder : match be_folder_uid x.1 with
              | None => folder_id e = None
              | Some _ => ∃ fid name, folder_id e = Some fid ∧ doc_folder (be_document x.1) = Some name ∧
                  named_folder key o d fid name
              end;
  ra_attachments : Forall2 (exported_attachment key e) (entry_attachments d id) x.2;
}.

Lemma restored_as_mono key o d d' x id e :
  restored_as key o d x id e -> t_rows (entries d') !! id = Some e -> folders d' = folders d ->
  entry_attachments d' id = entry_attachments d id -> restored_as key o d' x id e.
Proof.
  intros [Hr ? ? ? ? ? ? Hf Ha] Hr' Ef Ea. split; try done; [|by rewrite Ea].
  destruct (be_folder_uid x.1); [|done]. destruct Hf as (fid & name & ? & ? & f & index & Hf).
  exists fid, name. split_and!; [done..|]. exists f, index. by rewrite Ef.
Qed.

Definition payload_key (key : VaultKey) (x : Payload) : res bytes * option Z :=
  (name_index key (doc_name (be_document x.1)), be_deleted x.1).

(** After [xs]: the vault's entries [ids] are theirs, nothing else. *)
Record restored_so_far (key : VaultKey) (o : Z) (d : DB) (xs : list Payload) (ids : list Z)
    (st : RestoreState) : Prop := {
  rsf_rows id : is_Some (t_rows (entries d) !! id) ↔ id ∈ ids;
  rsf_distinct : NoDup ids;
  rsf_all : Forall2 (fun x id => ∃ e, restored_as key o d x id e) xs ids;
  rsf_active index id : tg_active (rs_targets st) !! index = Some id ->
    ∃ x, x ∈ xs ∧ payload_key key x = (Ok index, None);
  rsf_trashed index t id : tg_trashed (rs_targets st) !! (index, Time t) = Some id ->
    ∃ x, x ∈ xs ∧ payload_key key x = (Ok index, Some t);
  rsf_refs i a : t_rows (attachments d) !! i = Some a -> is_Some (t_rows (entries d) !! attachment_entry_id a);
  rsf_counts : rc_imported (rs_counts st) + rc_trashed (rs_counts st) = Z.of_nat (length xs) ∧
    rc_skipped (rs_counts st) = 0 ∧ rc_overwritten (rs_counts st) = 0;
}.

Definition folder_targets_ok (key : VaultKey) (o : Z) (d : DB) (fts : gmap pystr (Z * pystr)) : Prop :=
  forall uid fid name, fts !! uid = Some (fid, name) -> named_folder key o d fid name.

Lemma linked_folder_Ok key o d fts be fid :
  folder_targets_ok key o d fts -> linked_folder 3 fts be = Ok fid ->
  (fid = None -> doc_folder (be_document be) = None) ∧
  match be_folder_uid be with
  | None => fid = None
  | Some _ => ∃ f name, fid = Some f ∧ doc_folder (be_document be) = Some name ∧ named_folder key o d f name
  end.
Proof.
  intros Hts Hl. unfold linked_folder in Hl. destruct (be_folder_uid be) as [uid|].
  - destruct (fts !! uid) as [[f name]|] eqn:E; [|done]. case_bool_decide as En; [|done]. injection Hl as <-.
    split; [done|]. exists f, name. split_and!; [done..|]. by eapply Hts.
  - destruct (doc_folder _); [done|]. by injection Hl as <-.
Qed.

Lemma restore_entry_Ok bk key o oc at_ fts x ps rest xs ids st i w st' w' :
  payload_frames x ps -> readable x -> holds bk (rs_reader st) (ps ++ rest) ->
  folder_targets_ok key o (w_db w) fts -> payload_key key x ∉ map (payload_key key) xs ->
  restored_so_far key o (w_db w) xs ids st ->
  restore_entry (Some o) bk 3 fts key oc at_ st i w = (Ok st', w') ->
  ∃ id, restored_so_far key o (w_db w') (xs ++ [x]) (ids ++ [id]) st' ∧ holds bk (rs_reader st') rest ∧
    folders (w_db w') = folders (w_db w) ∧ settings (w_db w') = settings (w_db w) ∧
    rs_attachments st' = rs_attachments st + Z.of_nat (length x.2).
Proof.
  intros (encoded & Henc & Hsize & ->) [Hl Hd Hs] Hh Hfts Hkey Hso Hr. cbn [app] in Hh.
  destruct (holds_read bk _ encoded _ _ Hh Hsize) as (r1 & Hread & Hr1 & _).
  unfold restore_entry in Hr. apply bind_Ok in Hr as ([be r2] & ? & [Hre ->]%lift_Ok & Hr).
  unfold read_entry in Hre. rewrite Hread in Hre. cbn [mbind res_bind] in Hre.
  rewrite (Hl _ Henc) in Hre. injection Hre as <- <-.
  apply bind_Ok in Hr as (fid & ? & [Hfid ->]%lift_Ok & Hr).
  apply (linked_folder_Ok key o (w_db w)) in Hfid as [Hnof Hfid]; [|done].
  apply bind_Ok in Hr as ([p h] & ? & [[-> ->]%check_entry_Ok ->]%lift_Ok & Hr).
  apply bind_Ok in Hr as (seen & ? & [_ ->]%lift_Ok & Hr).
  apply bind_Ok in Hr as ([[target tg] counts] & w1 & Ht & Hr).
  apply restore_target_new in Ht as (index & id & e & Hix & Hadd & Etarget & Htg).
  2: { intros index Hix. unfold nothing_there. cbn [password_name restored] in Hix.
       assert (forall y, y ∈ xs -> payload_key key y = (Ok index, be_deleted x.1) -> False) as Hno.
       { intros y Hy Ey. apply Hkey. unfold payload_key at 1. rewrite Hix, <- Ey.
         by apply list_elem_of_fmap_2. }
       destruct (be_deleted x.1) as [t|] eqn:Edel.
       - destruct (tg_trashed _ !! _) as [j|] eqn:E; [|done]. exfalso.
         apply (rsf_trashed _ _ _ _ _ _ Hso) in E as (y & Hy & Ey). by eapply Hno.
       - destruct (tg_active _ !! _) as [j|] eqn:E; [|done]. exfalso.
         apply (rsf_active _ _ _ _ _ _ Hso) in E as (y & Hy & Ey). by eapply Hno. }
  cbn [fst snd] in Etarget, Htg. cbn [password_name restored] in Hix. subst target.
  apply add_restored_Ok in Hadd as (Eid & Edb & Hopen & Hcr & Hup & Hdel & Hown & Hfold & Hbk).
  2: { intros Hn. cbn [pw_folder restored]. by rewrite (Hnof Hn). }
  apply bind_Ok in Hr as ([r3 n3] & w2 & Hf & [= <- <-]). rewrite Hd in Hf.
  apply (restore_attachments_Ok bk key id e x.2 _ _ _ _ _ _ rest) in Hf as (Hr3 & -> & Hat & new & Hnew & Hxs);
    [|done|done]. destruct Hat as [Eent Efol Eset Eoth]. rewrite Edb in Eent, Efol, Eset, Eoth, Hnew.
  assert (entry_attachments (w_db w) id = []) as Hnone.
  { apply elem_of_nil_inv. intros p Hp. pose proof (elem_of_attachments _ _ _ Hp) as Hrow.
    apply (rsf_refs _ _ _ _ _ _ Hso) in Hrow. unfold entry_attachments in Hp.
    apply list_elem_of_filter in Hp as [Ep _]. rewrite Ep, Eid, next_id_fresh in Hrow. by destruct Hrow. }
  change (entry_attachments (with_entries (t_insert e) (w_db w)) id) with (entry_attachments (w_db w) id) in Hnew.
  rewrite Hnone in Hnew. cbn [app] in Hnew.
  assert (forall j y, t_rows (entries (w_db w)) !! j = Some y -> j ≠ id) as Hold.
  { intros j y Hy ->. by rewrite Eid, next_id_fresh in Hy. }
  exists id. cbn [rs_reader rs_attachments]. split_and!; try done. split.
  - intros j. rewrite Eent. cbn [entries with_entries t_rows t_insert]. rewrite <- Eid, lookup_insert_is_Some', (rsf_rows _ _ _ _ _ _ Hso).
    rewrite elem_of_app, list_elem_of_singleton. naive_solver.
  - apply NoDup_app. split_and!; [apply Hso| |apply NoDup_singleton].
    intros j Hj ->%list_elem_of_singleton. apply (rsf_rows _ _ _ _ _ _ Hso) in Hj as [y Hy]. by eapply Hold.
  - apply Forall2_app; [|constructor; [|constructor]].
    + eapply Forall2_impl; [apply Hso|]. intros y j [ey Hy]. exists ey.
      pose proof (Hold j ey (ra_row _ _ _ _ _ _ Hy)) as Hj.
      apply (restored_as_mono key o (w_db w)); [done| |by rewrite Efol|by apply Eoth].
      rewrite Eent. cbn [entries with_entries t_rows t_insert]. rewrite <- Eid, lookup_insert_ne by done. apply Hy.
    + exists e. split; try done.
      * rewrite Eent. cbn [entries with_entries t_rows t_insert]. rewrite <- Eid. apply lookup_insert_eq.
      * rewrite Hfold. destruct (be_folder_uid x.1); [|done]. destruct Hfid as (f & name & -> & Hn & g & ix & Hg).
        exists f, name. split_and!; [done..|]. exists g, ix. by rewrite Efol.
      * by rewrite Hnew.
  - cbn [rs_targets]. intros ix j Hj. destruct (be_deleted x.1) as [t|] eqn:Edel; destruct Htg as [-> _]; cbn in Hj.
    + apply (rsf_active _ _ _ _ _ _ Hso) in Hj as (y & Hy & Ey). exists y. split; [|done]. apply elem_of_app. by left.
    + apply lookup_insert_Some in Hj as [[<- _]|[_ Hj]].
      * exists x. unfold payload_key. rewrite Edel, Hix. split; [|done]. apply elem_of_app. right. by apply list_elem_of_singleton.
      * apply (rsf_active _ _ _ _ _ _ Hso) in Hj as (y & Hy & Ey). exists y. split; [|done]. apply elem_of_app. by left.
  - cbn [rs_targets]. intros ix t0 j Hj. destruct (be_deleted x.1) as [t|] eqn:Edel; destruct Htg as [-> _]; cbn in Hj.
    + apply lookup_insert_Some in Hj as [[E _]|[_ Hj]].
      * injection E as <- <-. exists x. unfold payload_key. rewrite Edel, Hix. split; [|done]. apply elem_of_app. right.
        by apply list_elem_of_singleton.
      * apply (rsf_trashed _ _ _ _ _ _ Hso) in Hj as (y & Hy & Ey). exists y. split; [|done]. apply elem_of_app. by left.
    + apply (rsf_trashed _ _ _ _ _ _ Hso) in Hj as (y & Hy & Ey). exists y. split; [|done]. apply elem_of_app. by left.
  - intros j a Ha. rewrite Eent. cbn [entries with_entries t_rows t_insert]. rewrite <- Eid.
    destruct (decide (attachment_entry_id a = id)) as [->|Hne]; [rewrite lookup_insert_eq; eauto|].
    rewrite lookup_insert_ne by done. apply (rsf_refs _ _ _ _ _ _ Hso j).
    assert ((j, a) ∈ entry_attachments (w_db w2) (attachment_entry_id a)) as Hin
      by (apply list_elem_of_filter; split; [done|by apply elem_of_rows]).
    rewrite Eoth in Hin by done. by apply elem_of_attachments in Hin.
  - cbn [rs_counts]. destruct (rsf_counts _ _ _ _ _ _ Hso) as (Hc1 & Hc2 & Hc3). rewrite length_app. cbn [length].
    destruct (be_deleted x.1); destruct Htg as [_ ->]; cbn; lia.
Qed.

(** ** The folders of a backup *)

(** Only folders were added. *)
Record folders_added (d d' : DB) : Prop := {
  fa_entries : entries d' = entries d;
  fa_attachments : attachments d' = attachments d;
  fa_settings : settings d' = settings d;
  fa_folders i f : t_rows (folders d) !! i = Some f -> t_rows (folders d') !! i = Some f;
}.
Lemma folders_added_same d d' : d' = d -> folders_added d d'.
Proof. intros ->. by split. Qed.
Lemma folders_added_trans d1 d2 d3 : folders_added d1 d2 -> folders_added d2 d3 -> folders_added d1 d3.
Proof. intros [? ? ? ?] [? ? ? ?]. split; [congruence..|auto]. Qed.
Lemma named_folder_added key o d d' fid name :
  folders_added d d' -> named_folder key o d fid name -> named_folder key o d' fid name.
Proof. intros [_ _ _ Hf] (f & index & Hr & ?). exists f, index. by rewrite (Hf _ _ Hr). Qed.

Lemma folder_by_name_named key o name w fid w' :
  folder_by_name (Some o) (Some name) key w = (Ok (Some fid), w') ->
  named_folder key o (w_db w') fid name ∧ folders_added (w_db w) (w_db w').
Proof.
  unfold folder_by_name. destruct name as [|c name]; [intros Hf; discriminate Hf|]. cbn [or_none].
  set (n := c :: name). intros Hf. apply bind_Ok in Hf as (index & ? & [Hi ->]%lift_Ok & Hf).
  apply bind_Ok in Hf as (found & ? & [= <- <-] & Hf). destruct (folder_of _ _ _) as [[i f]|] eqn:E.
  - run_inv Hf. split; [|by apply folders_added_same]. unfold folder_of in E. apply head_Some_elem_of in E.
    apply list_elem_of_filter in E as [[Ho Hx] Hin%elem_of_rows]. exists f, index. by split_and!.
  - apply bind_Ok in Hf as (uid & w1 & Huid & Hf). apply bind_Ok in Hf as (f & w2 & Hseal & Hf).
    apply bind_Ok in Hf as (i & w3 & Hw & [= <- <-]). apply write_Ok in Hw as (d & Hw & ->).
    pose proof (same_state_run _ _ _ _ same_new_uid Huid) as Hs1.
    pose proof (same_state_run _ _ _ _ (same_seal_folder _ _ _) Hseal) as Hs2. rewrite Hs2, Hs1 in Hw.
    unfold insert_folder in Hw. res_inv Hw. simplify_eq. cbn [w_db w_set_db]. split.
    + unfold seal_folder in Hseal. run_inv Hseal. eexists _, index. cbn. rewrite lookup_insert_eq.
      split_and!; try done. cbn in *. congruence.
    + split; try done. intros j g Hg. cbn. rewrite lookup_insert_ne; [done|].
      intros <-. by rewrite next_id_fresh in Hg.
Qed.

Lemma folder_targets_made key o l fts w fts' w' :
  folder_targets_ok key o (w_db w) fts -> foldM (folder_target (Some o) key) l fts w = (Ok fts', w') ->
  folder_targets_ok key o (w_db w') fts' ∧ folders_added (w_db w) (w_db w').
Proof.
  revert fts w. induction l as [|b l IH]; intros fts w Ht Hf; cbn [foldM] in Hf.
  - run_inv Hf. split; [done|by apply folders_added_same].
  - apply bind_Ok in Hf as (fts1 & w1 & Ha & Hf). unfold folder_target in Ha.
    apply bind_Ok in Ha as ([] & ? & [_ ->]%raise_if_Ok & Ha). apply bind_Ok in Ha as (fid & w2 & Hn & Ha).
    apply bind_Ok in Ha as (i & ? & [->%ok_or_Ok ->]%lift_Ok & [= <- <-]).
    apply folder_by_name_named in Hn as [Hn Hadd]. apply IH in Hf as [Ht' Hadd'].
    + split; [done|]. by eapply folders_added_trans.
    + intros uid j name Hl. apply lookup_insert_Some in Hl as [[_ [= <- <-]]|[_ Hl]]; [done|].
      eapply named_folder_added; [done|]. by eapply Ht.
Qed.

Lemma restore_entries_Ok bk key o oc at_ fts xs pss rest :
  Forall2 payload_frames xs pss -> Forall readable xs ->
  forall before ids st i w st' w', NoDup (map (payload_key key) (before ++ xs)) ->
  holds bk (rs_reader st) (concat pss ++ rest) -> folder_targets_ok key o (w_db w) fts ->
  restored_so_far key o (w_db w) before ids st ->
  foldM (restore_entry (Some o) bk 3 fts key oc at_) (seqZ i (Z.of_nat (length xs))) st w = (Ok st', w') ->
  ∃ ids', restored_so_far key o (w_db w') (before ++ xs) ids' st' ∧ holds bk (rs_reader st') rest ∧
    settings (w_db w') = settings (w_db w) ∧ folders (w_db w') = folders (w_db w) ∧
    rs_attachments st' = rs_attachments st + Z.of_nat (length (xs ≫= snd)).
Proof.
  intros Hp Hx. induction Hp as [|x ps xs pss Hps Hp IH]; intros before ids st i w st' w' Hnd Hh Ht Hso Hf.
  - injection Hf as <- <-. exists ids. rewrite app_nil_r. split_and!; [done..|cbn; lia].
  - inversion_clear Hx as [|? ? Hx1 Hxs]. cbn [length] in Hf. rewrite seqZ_cons in Hf by lia.
    rewrite Nat2Z.inj_succ, Z.pred_succ in Hf. cbn [foldM] in Hf. apply bind_Ok in Hf as (st1 & w1 & Hone & Hf).
    cbn [concat] in Hh. rewrite <- app_assoc in Hh.
    destruct (restore_entry_Ok bk key o oc at_ fts x ps (concat pss ++ rest) before ids st i w st1 w1)
      as (id & Hso1 & Hh1 & Efol & Eset & Eatt); [done..| |done|done|].
    { rewrite map_app in Hnd. cbn in Hnd. apply NoDup_app in Hnd as (_ & Hnd & _). intros Hin.
      by eapply (Hnd _ Hin); left. }
    destruct (IH Hxs (before ++ [x]) (ids ++ [id]) st1 (Z.succ i) w1 st' w') as (ids' & Hso' & Hh' & Eset' & Efol' & Eatt').
    + by rewrite <- app_assoc.
    + done.
    + intros uid fid name Hl. destruct (Ht uid fid name Hl) as (f & index & Hr). exists f, index. by rewrite Efol.
    + done.
    + done.
    + exists ids'. rewrite <- app_assoc in Hso'. split_and!; [done|done|congruence|congruence|].
      rewrite Eatt', Eatt. rewrite bind_cons, length_app. lia.
Qed.
End Restoring.

(** ** A whole backup *)

Section WholeBackup.
Context `{!Cryptography} `{!CryptographyLaws} `{!Environment} `{!EnvironmentLaws}
  `{!Codec} `{!CodecLaws} `{!BackupCodec} `{!BackupCodecLaws} `{!Text} `{!Config}.

Lemma all_targets_empty d :
  t_rows (entries d) = ∅ -> all_targets d = Ok {| tg_active := ∅; tg_trashed := ∅ |}.
Proof. intros He. unfold all_targets. rewrite He. reflexivity. Qed.

(** What a restore into a vault without entries leaves *)
Record vault_restored (key : VaultKey) (o : Z) (with_settings : bool) (d d' : DB) (m : BackupManifest)
    (xs : list Payload) (ids : list Z) (r : PasswordImportResult) : Prop := {
  vr_distinct : NoDup ids;
  vr_rows id : is_Some (t_rows (entries d') !! id) ↔ id ∈ ids;
  vr_entries : Forall2 (fun x id => ∃ e, restored_as key o d' x id e) xs ids;
  vr_folders i f : t_rows (folders d) !! i = Some f -> t_rows (folders d') !! i = Some f;
  vr_settings : settings d' = if with_settings then Some (bm_settings m) else settings d;
  vr_counts : imported r + n_trashed r = Z.of_nat (length xs) ∧ skipped r = 0 ∧ overwritten r = 0 ∧
    total r = Z.of_nat (length xs) ∧ n_attachments r = Z.of_nat (length (xs ≫= snd)) ∧
    settings_restored r = with_settings;
}.

Lemma restore_Ok o rs r bk m xs pss key oc w res w' :
  t_rows (entries (w_db w)) = ∅ -> db_ok (w_db w) -> bm_version m = 3 ->
  bm_entries_count m = Z.of_nat (length xs) -> Forall2 payload_frames xs pss -> Forall readable xs ->
  NoDup (map (payload_key key) xs) -> holds bk r (concat pss) ->
  restore (Some o) rs r bk m key oc w = (Ok res, w') ->
  ∃ ids, vault_restored key o rs (w_db w) (w_db w') m xs ids res.
Proof.
  intros He Hok Hv Hn Hp Hx Hnd Hh Hr. unfold restore in Hr.
  apply bind_Ok in Hr as (fts & w1 & Hf & Hr).
  apply (folder_targets_made key o) in Hf as [Hfts [Eent Eatt Eset Efol]]; [|by intros ? ? ? Hl].
  apply bind_Ok in Hr as (empty_ & ? & [= <- <-] & Hr). apply bind_Ok in Hr as (d & ? & [= <- <-] & Hr).
  rewrite Eent, He, all_targets_empty in Hr by (by rewrite Eent). rewrite bool_decide_eq_true_2 in Hr by done.
  apply bind_Ok in Hr as (tg & ? & [[= <-] ->]%lift_Ok & Hr).
  apply bind_Ok in Hr as (at_ & w2 & [= <- <-] & Hr). apply bind_Ok in Hr as (st & w3 & Hloop & Hr).
  rewrite Hn, Hv in Hloop.
  apply (restore_entries_Ok bk key o oc _ fts xs pss [] Hp Hx [] []) in Hloop
    as (ids & [Hrows Hnd' Hall _ _ _ (Hc1 & Hc2 & Hc3)] & Hh' & Eset' & Efol' & Eatt').
  - cbn [rs_reader rs_attachments app andb] in *. apply bind_Ok in Hr as ([] & ? & [_ ->]%lift_Ok & Hr).
    exists ids. apply bind_Ok in Hr as ([] & w4 & Hset & [= <- <-]).
    assert (entries (w_db w4) = entries (w_db w3) ∧ folders (w_db w4) = folders (w_db w3) ∧
      attachments (w_db w4) = attachments (w_db w3) ∧
      settings (w_db w4) = if rs then Some (bm_settings m) else settings (w_db w3)) as (E1 & E2 & E3 & E4).
    { destruct rs; [|by injection Hset as <-]. unfold update_settings in Hset. run_inv Hset. world_inv. done. }
    split; try done.
    + intros id. by rewrite E1.
    + eapply Forall2_impl; [exact Hall|]. intros x id [e Hra]. exists e.
      apply (restored_as_mono key o (w_db w3)); [done|rewrite E1; apply Hra|done|].
      unfold entry_attachments. by rewrite E3.
    + intros i f Hi. rewrite E2, Efol'. by apply Efol.
    + rewrite E4. destruct rs; [done|]. by rewrite Eset'.
  - done.
  - by rewrite app_nil_r.
  - done.
  - split; cbn; try done.
    + intros id. rewrite Eent, He. rewrite lookup_empty. split; [by intros []|by intros ?%elem_of_nil].
    + constructor.
    + intros i a. rewrite Eatt, Eent. apply (ok_attachment _ Hok).
Qed.

(** Two entries of a backup never meet in the vault they are restored into. *)
Definition kept_apart (key key' : VaultKey) (d : DB) (ids : list Z) : Prop :=
  forall i j e f a b, i ∈ ids -> j ∈ ids -> t_rows (entries d) !! i = Some e -> t_rows (entries d) !! j = Some f ->
    open_entry key i e = Ok a -> open_entry key j f = Ok b ->
    name_index key' (doc_name a) = name_index key' (doc_name b) -> deleted e = deleted f -> i = j.

Lemma kept_apart_keys key key' uids d ids xs :
  NoDup ids -> kept_apart key key' d ids ->
  Forall2 (fun id x => ∃ e, exported key uids d id e x) ids xs -> NoDup (map (payload_key key') xs).
Proof.
  intros Hnd Hk Hx. apply NoDup_alt. intros i j y Hi Hj. apply list_lookup_fmap_Some in Hi as (x1 & -> & Hi).
  apply list_lookup_fmap_Some in Hj as (x2 & E & Hj).
  destruct (Forall2_lookup_r _ _ _ _ _ Hx Hi) as (k1 & Hk1 & e1 & He1).
  destruct (Forall2_lookup_r _ _ _ _ _ Hx Hj) as (k2 & Hk2 & e2 & He2).
  injection E as En Ed. assert (k1 = k2) as ->; [|by eapply NoDup_lookup].
  eapply (Hk k1 k2 e1 e2); [by eapply list_elem_of_lookup_2..|apply He1|apply He2|apply He1|apply He2|done|].
  by rewrite (xe_deleted _ _ _ _ _ _ He1), (xe_deleted _ _ _ _ _ _ He2), Ed.
Qed.

Lemma import_format_2_Ok o rs file pw key oc tok w res w' :
  w_others w = [] -> import_format_2 (Some o) rs file pw key oc tok w = (Ok res, w') ->
  ∃ r bk m r1 w1, make_reader file = Ok r ∧ backup_key_of pw (br_header r) bk ∧
    backup_key_matches bk (br_header r) = true ∧ read_manifest bk r = Ok (m, r1) ∧ w_db w1 = w_db w ∧
    restore (Some o) rs r1 bk m key oc w1 = (Ok res, w').
Proof.
  intros Ho Hi. unfold import_format_2 in Hi. apply bind_Ok in Hi as (r & ? & [Hr ->]%lift_Ok & Hi).
  assert (make_reader file = Ok r) as Hmake by (by destruct (make_reader file) as [?|[]]; try done; injection Hr as ->).
  apply bind_Ok in Hi as ([] & w1 & [= <-] & Hi). apply bind_Ok in Hi as (bk & w2 & Hk & Hi).
  pose proof (frame_backup_key_for pw (br_header r) (R := undisturbed) (w_set_committed (w_db w) w) Ho eq_refl)
    as (Edb & Ecom & Ho'). rewrite Hk in Edb, Ecom, Ho'. cbn [snd] in Edb, Ecom, Ho'.
  unfold backup_key_for in Hk. apply bind_Ok in Hk as (derived & w3 & Hder%derive_Ok & [= <- ->]).
  apply bind_Ok in Hi as ([] & ? & [Hmatch ->]%raise_unless_Ok & Hi). apply bind_Ok in Hi as ([] & w4 & Hrs & Hi).
  pose proof (frame_recheck_session tok (R := db_same) w2) as Es. rewrite Hrs in Es. cbn [snd] in Es.
  apply bind_Ok in Hi as ([m r1] & ? & [Hrm ->]%lift_Ok & Hi).
  apply bind_Ok in Hi as ([] & ? & [_ ->]%raise_if_Ok & Hi).
  apply bind_Ok in Hi as ([] & ? & [_ ->]%raise_unless_Ok & Hi).
  apply bind_Ok in Hi as (k & w5 & Hv & Hi).
  pose proof (same_state_run _ _ _ _ (same_verify_vault_key _) Hv) as Ev.
  exists r, (make_backup_key derived), m, r1, w5. split_and!; [done|by exists derived|done|done| |].
  - rewrite Ev. transitivity (w_db w2); [by apply Es|]. by rewrite Edb.
  - unfold catch in Hi. by destruct (restore _ _ _ _ _ _ _ w5) as [[x|e] w6].
Qed.

Lemma read_manifest_Ok bk r m r1 :
  read_manifest bk r = Ok (m, r1) ->
  ∃ data, read_frame bk MAX_MANIFEST_BYTES r = Ok (data, r1) ∧ load_manifest data = inr m.
Proof.
  unfold read_manifest. destruct (read_frame _ _ r) as [[data r2]|e]; [|done].
  destruct (load_manifest data) eqn:E; [done|]. intros [= <- <-]. by exists data.
Qed.

Lemma not_legacy file r : make_reader file = Ok r -> take 4 file ≠ LEGACY_MAGIC.
Proof.
  intros Hr E. unfold make_reader in Hr. apply res_bind_Ok in Hr as ([header rest] & Hx & Hr).
  apply res_bind_Ok in Hr as (h & Hp & _). unfold parse_header in Hp.
  destruct (negb _); [done|]. destruct (bool_decide _) eqn:Em; [done|].
  apply bool_decide_eq_false, dec_stable in Em. unfold read_exactly in Hx. destruct (negb _); [done|].
  injection Hx as <- <-. unfold field in Em. rewrite drop_0, take_take in Em.
  assert (take 4 (take 8 file) = take 4 BACKUP_MAGIC) as E' by (by rewrite <- Em).
  rewrite take_take in E'. cbn [Nat.min] in E'. by rewrite E in E'.
Qed.
End WholeBackup.

(** ** Restoring into a vault with entries *)

Section KeepsEntries.
Context `{!Cryptography} `{!CryptographyLaws} `{!Environment} `{!EnvironmentLaws}
  `{!Codec} `{!CodecLaws} `{!BackupCodec} `{!Text} `{!Config}.

(** What a restore by [o] leaves of the rows that were there *)
Definition own_left_alone (o : Z) (oc : OnConflict) (d d' : DB) : Prop :=
  forall id e, t_rows (entries d) !! id = Some e ->
    ∃ e', t_rows (entries d') !! id = Some e' ∧ left_alone oc e e' ∧ (e' = e ∨ entry_owner_id e = Some o).

Lemma own_left_alone_refl o oc d : own_left_alone o oc d d.
Proof. intros id e He. exists e. split; [done|]. split; by left. Qed.
Lemma own_left_alone_entries o oc d0 d d' :
  entries d' = entries d -> own_left_alone o oc d0 d -> own_left_alone o oc d0 d'.
Proof. intros E Hl id e He. rewrite E. by apply Hl. Qed.
Lemma own_left_alone_insert o oc d0 d e :
  own_left_alone o oc d0 d -> own_left_alone o oc d0 (with_entries (t_insert e) d) ∧
  t_rows (entries d0) !! next_id (entries d) = None.
Proof.
  intros Hl. assert (t_rows (entries d0) !! next_id (entries d) = None) as Hf.
  { destruct (t_rows (entries d0) !! _) as [x|] eqn:E; [|done].
    apply Hl in E as (x' & E & _). by rewrite next_id_fresh in E. }
  split; [|done]. intros id x Hx. cbn. rewrite lookup_insert_ne by congruence. by apply Hl.
Qed.

(** The entries a restore may overwrite are as they were, and each is found by the
    index of its own name. *)
Definition targets_current (d0 d : DB) (tg : Targets) : Prop :=
  forall ix id e, tg_active tg !! ix = Some id -> t_rows (entries d0) !! id = Some e ->
    t_rows (entries d) !! id = Some e ∧ deleted e = None ∧ bytes_of_cell (entry_name_index e) = Ok ix.

Lemma targets_current_entries d0 d d' tg :
  entries d' = entries d -> targets_current d0 d tg -> targets_current d0 d' tg.
Proof. intros E Ht ix id e. rewrite E. apply Ht. Qed.

Lemma all_targets_current d tg : all_targets d = Ok tg -> targets_current d d tg.
Proof.
  intros Ht. unfold all_targets in Ht. cbv zeta in Ht. apply res_bind_Ok in Ht as (act & Ha & Ht).
  apply res_bind_Ok in Ht as (tra & _ & [= <-]). intros ix id e Hix He. split; [done|]. cbn [tg_active] in Hix.
  assert (forall l acc m, foldl (fun (m : res (gmap bytes Z)) (p : Z * EntryModel) =>
      m ← m; index ← bytes_of_cell (entry_name_index p.2); Ok (<[index := p.1]> m)) acc l = Ok m ->
    m !! ix = Some id -> (∃ p, p ∈ l ∧ p.1 = id ∧ bytes_of_cell (entry_name_index p.2) = Ok ix) ∨
      ∃ m0, acc = Ok m0 ∧ m0 !! ix = Some id) as Hfold.
  { induction l as [|p l IH]; intros acc m Hm Hi; [right; exists m; by split|]. cbn [foldl] in Hm.
    destruct (IH _ _ Hm Hi) as [(q & Hq & E)|(m0 & E & Hm0)]; [left; exists q; split; [by right|done]|].
    apply res_bind_Ok in E as (m1 & -> & E). apply res_bind_Ok in E as (k & Hk & [= <-]).
    apply lookup_insert_Some in Hm0 as [[-> <-]|[_ Hm0]]; [|right; by exists m1].
    left. exists p. split; [left|done]. }
  destruct (Hfold _ _ _ Ha Hix) as [(p & Hp & <- & Hb)|(m0 & [= <-] & Hm0)]; [|by rewrite lookup_empty in Hm0].
  apply list_elem_of_filter in Hp as [Hdel Hp%elem_of_rows']. rewrite He in Hp. injection Hp as ->. done.
Qed.

Lemma folder_by_name_added o name key w r w' :
  folder_by_name o name key w = (Ok r, w') -> folders_added (w_db w) (w_db w').
Proof.
  intros Hf. destruct name as [[|c n]|]; [by injection Hf as <- <-; apply folders_added_same| |
    by injection Hf as <- <-; apply folders_added_same].
  destruct o as [o|]; [|by injection Hf]. assert (∃ fid, r = Some fid) as [fid ->].
  { pose proof Hf as Hr. unfold folder_by_name in Hr. cbn [or_none] in Hr. run_inv Hr. world_inv.
    destruct (folder_of _ _ _) as [[i f]|]; run_inv Hr; eauto. }
  by apply folder_by_name_named in Hf as [_ Hf].
Qed.

Lemma add_restored_kept owner p h be fid key w r w' :
  add_restored owner p h be fid key w = (Ok r, w') ->
  r.1 = next_id (entries (w_db w)) ∧ (∃ e, entries (w_db w') = t_insert e (entries (w_db w))) ∧
  settings (w_db w') = settings (w_db w).
Proof.
  intros Ha. unfold add_restored in Ha. apply bind_Ok in Ha as (fid' & w1 & Hf & Ha).
  assert (folders_added (w_db w) (w_db w1)) as [E1 _ E2 _].
  { destruct fid; cbn in Hf; [injection Hf as <- <-; by apply folders_added_same|by eapply folder_by_name_added]. }
  apply bind_Ok in Ha as (e0 & w2 & He0 & Ha). apply new_entry_Ok in He0 as (Hs2 & _).
  apply bind_Ok in Ha as (e1 & w3 & Hseal & Ha). apply bind_Ok in Ha as (i & w4 & Hi & [= <- <-]).
  apply write_Ok in Hi as (d & Hi & ->). unfold insert_entry in Hi. res_inv Hi. simplify_eq.
  pose proof (same_state_run _ _ _ _ (same_seal_entry _ _ _) Hseal) as Es3.
  cbn [w_db w_set_db fst]. rewrite Es3, (ss_db _ _ Hs2). cbn. rewrite E1, E2. eauto.
Qed.

Definition all_counts (c : RestoreCounts) : Z := rc_imported c + rc_skipped c + rc_overwritten c + rc_trashed c.

Lemma add_target_keeps o p h be tg oc d0 index key fid c w r w' :
  own_left_alone o oc d0 (w_db w) ->
  (forall ix id e, ix ≠ index -> tg_active tg !! ix = Some id -> t_rows (entries d0) !! id = Some e ->
    t_rows (entries (w_db w)) !! id = Some e ∧ deleted e = None ∧ bytes_of_cell (entry_name_index e) = Ok ix) ->
  (be_deleted be ≠ None -> targets_current d0 (w_db w) tg) ->
  add_target (Some o) p h be tg index key fid c w = (Ok r, w') ->
  own_left_alone o oc d0 (w_db w') ∧ targets_current d0 (w_db w') r.1.2 ∧
  settings (w_db w') = settings (w_db w) ∧ r.2 = c.
Proof.
  intros Hl1 Ht1 Ht1' Ha. unfold add_target in Ha.
  apply bind_Ok in Ha as ([id e] & w2 & Ha & [= <- <-]).
  apply add_restored_kept in Ha as (Eid & (e' & Ee) & Es). cbn [fst snd] in *.
  destruct (own_left_alone_insert o oc d0 (w_db w) e' Hl1) as [Hl2 Hnone].
  assert (forall i x, t_rows (entries d0) !! i = Some x -> t_rows (entries (w_db w)) !! i = Some x ->
    t_rows (entries (w_db w2)) !! i = Some x) as Hold.
  { intros i x Hx0 Hx. rewrite Ee. cbn. rewrite lookup_insert_ne; [done|]. intros <-. congruence. }
  split_and!; [exact (own_left_alone_entries o oc d0 (with_entries (t_insert e') (w_db w)) _ Ee Hl2)| |done|done].
  intros ix i x Hi Hx. destruct (be_deleted be) as [t|]; cbn [tg_active] in Hi.
  - destruct (Ht1' ltac:(done) ix i x Hi Hx) as (Hrow & ? & ?). split_and!; auto.
  - apply lookup_insert_Some in Hi as [[_ <-]|[Hne Hi]]; [congruence|].
    destruct (Ht1 ix i x ltac:(done) Hi Hx) as (Hrow & ? & ?). split_and!; auto.
Qed.

Lemma restore_target_keeps o p h be tg key oc at_ c fid d0 w r w' :
  own_left_alone o oc d0 (w_db w) -> targets_current d0 (w_db w) tg ->
  restore_target (Some o) p h be tg key oc at_ c fid w = (Ok r, w') ->
  own_left_alone o oc d0 (w_db w') ∧ targets_current d0 (w_db w') r.1.2 ∧
  settings (w_db w') = settings (w_db w) ∧ all_counts r.2 = all_counts c + 1.
Proof.
  intros Hl Ht Hr. unfold restore_target in Hr. apply bind_Ok in Hr as (index & ? & [Hix ->]%lift_Ok & Hr).
  assert (forall c' r w', add_target (Some o) p h be tg index key fid c' w = (Ok r, w') ->
    all_counts c' = all_counts c + 1 ->
    own_left_alone o oc d0 (w_db w') ∧ targets_current d0 (w_db w') r.1.2 ∧
    settings (w_db w') = settings (w_db w) ∧ all_counts r.2 = all_counts c + 1) as Hfresh.
  { intros c' r1 w1 Ha Hc. apply (add_target_keeps _ _ _ _ _ oc d0) in Ha as (? & ? & ? & ->); [|done| |done].
    - done.
    - intros ix id e _. apply Ht. }
  destruct (be_deleted be) as [t|] eqn:Edel.
  - destruct (tg_trashed tg !! _) as [id|]; [|eapply Hfresh; [done|]; unfold all_counts; cbn; lia].
    run_inv Hr. world_inv. destruct (_ || _).
    + run_inv Hr. split_and!; try done. unfold all_counts. cbn. lia.
    + eapply Hfresh; [done|]; unfold all_counts; cbn; lia.
  - destruct (tg_active tg !! index) as [id|] eqn:Eact; [|eapply Hfresh; [done|]; unfold all_counts; cbn; lia].
    run_inv Hr. world_inv. destruct oc; [run_inv Hr; split_and!; try done; unfold all_counts; cbn; lia|].
    run_inv Hr. apply ok_or_Ok in R0. apply save_entry_Ok in R2 as (e' & Hdb & He').
    apply saved_row in He' as (Hsd & Hdel & Hown & Hfid & Hcre & Hbk & _). cbn in Hdel, Hown, Hfid, Hcre, Hbk.
    cbn [is_some andb] in R. apply bool_decide_eq_false, dec_stable in R.
    apply (add_target_keeps _ _ _ _ _ on_conflict_overwrite d0) in Hr as (? & ? & Es & ->).
    + split_and!; [done|done|by rewrite Es, Hdb|unfold all_counts; cbn; lia].
    + intros i e He. rewrite Hdb. cbn. destruct (decide (i = id)) as [->|Hne].
      * destruct (Ht _ _ _ Eact He) as (Hrow & Hd & _). rewrite R0 in Hrow. injection Hrow as ->.
        rewrite lookup_insert_eq. exists e'. split; [done|]. split; [|by right]. right. split_and!; try done.
        { destruct Hsd. by split. } by exists at_.
      * rewrite lookup_insert_ne by done. by apply Hl.
    + intros ix i e Hne Hi He. destruct (Ht _ _ _ Hi He) as (Hrow & Hd & Hb). rewrite Hdb. cbn.
      split_and!; [|done|done]. rewrite lookup_insert_ne; [done|]. intros <-.
      destruct (Ht _ _ _ Eact He) as (_ & _ & Hb'). congruence.
    + by rewrite Edel.
Qed.

Lemma restore_attachments_kept bk key target l acc w r w' :
  foldM (restore_attachment bk key target) l acc w = (Ok r, w') ->
  entries (w_db w') = entries (w_db w) ∧ settings (w_db w') = settings (w_db w).
Proof.
  apply (foldM_inv (fun _ s => entries (w_db s) = entries (w_db w) ∧ settings (w_db s) = settings (w_db w)));
    [|done].
  intros b a s b' s' [E1 E2] Hr. unfold restore_attachment in Hr. apply bind_Ok in Hr as ([data rd] & ? & [_ ->]%lift_Ok & Hr).
  apply bind_Ok in Hr as ([] & ? & [_ ->]%raise_if_Ok & Hr). destruct target as [[id e]|]; [|by injection Hr as <- <-].
  apply bind_Ok in Hr as ([] & s1 & Ha & [= <- <-]).
  apply add_restored_attachment_Ok in Ha as (_ & _ & _ & [Ee _ Es _]). split; congruence.
Qed.

Lemma restore_entry_keeps bk v fts o key oc at_ st i d0 w st' w' :
  own_left_alone o oc d0 (w_db w) -> targets_current d0 (w_db w) (rs_targets st) ->
  restore_entry (Some o) bk v fts key oc at_ st i w = (Ok st', w') ->
  own_left_alone o oc d0 (w_db w') ∧ targets_current d0 (w_db w') (rs_targets st') ∧
  settings (w_db w') = settings (w_db w) ∧ all_counts (rs_counts st') = all_counts (rs_counts st) + 1.
Proof.
  intros Hl Ht Hr. unfold restore_entry in Hr. apply bind_Ok in Hr as ([be r1] & ? & [_ ->]%lift_Ok & Hr).
  apply bind_Ok in Hr as (fid & ? & [_ ->]%lift_Ok & Hr). apply bind_Ok in Hr as ([p h] & ? & [_ ->]%lift_Ok & Hr).
  apply bind_Ok in Hr as (seen & ? & [_ ->]%lift_Ok & Hr).
  apply bind_Ok in Hr as ([[target tg] counts] & w1 & Htg & Hr).
  apply (restore_target_keeps _ _ _ _ _ _ _ _ _ _ d0) in Htg as (Hl1 & Ht1 & Es & Ec); [|done|done].
  apply bind_Ok in Hr as ([r2 n] & w2 & Ha & [= <- <-]). apply restore_attachments_kept in Ha as [Ee Es'].
  cbn [rs_targets rs_counts fst snd] in *.
  split_and!; [by eapply own_left_alone_entries|by eapply targets_current_entries|congruence|done].
Qed.

Lemma restore_entry_count bk v fts o key oc at_ st i w st' w' :
  restore_entry (Some o) bk v fts key oc at_ st i w = (Ok st', w') ->
  all_counts (rs_counts st') = all_counts (rs_counts st) + 1.
Proof.
  intros Hr. by apply (restore_entry_keeps _ _ _ _ _ _ _ _ _ empty_db) in Hr as (_ & _ & _ & ?).
Qed.

Lemma folder_targets_added owner key l fts w fts' w' :
  foldM (folder_target owner key) l fts w = (Ok fts', w') -> folders_added (w_db w) (w_db w').
Proof.
  apply (foldM_inv (fun _ s => folders_added (w_db w) (w_db s))); [|by apply folders_added_same].
  intros b a s b' s' Hadd Hr. unfold folder_target in Hr. apply bind_Ok in Hr as ([] & ? & [_ ->]%raise_if_Ok & Hr).
  apply bind_Ok in Hr as (fid & s1 & Hf & Hr). apply bind_Ok in Hr as (i & ? & [_ ->]%lift_Ok & [= <- <-]).
  apply folder_by_name_added in Hf. by eapply folders_added_trans.
Qed.

Lemma restore_keeps o rs r bk m key oc w res w' :
  0 ≤ bm_entries_count m -> restore (Some o) rs r bk m key oc w = (Ok res, w') ->
  own_left_alone o oc (w_db w) (w_db w') ∧
  imported res + skipped res + overwritten res + n_trashed res = total res ∧ total res = bm_entries_count m ∧
  settings_restored res = bool_decide (t_rows (entries (w_db w)) = ∅) && rs ∧
  settings (w_db w') = if settings_restored res then Some (bm_settings m) else settings (w_db w).
Proof.
  intros Hn Hr. unfold restore in Hr. apply bind_Ok in Hr as (fts & w1 & Hf & Hr).
  apply folder_targets_added in Hf as [Ee _ Es _].
  apply bind_Ok in Hr as (empty_ & ? & [= <- <-] & Hr). apply bind_Ok in Hr as (d & ? & [= <- <-] & Hr).
  apply bind_Ok in Hr as (tg & ? & [Htg ->]%lift_Ok & Hr). rewrite Ee in Hr.
  apply bind_Ok in Hr as (at_ & w2 & [= <- <-] & Hr). apply bind_Ok in Hr as (st & w3 & Hloop & Hr).
  apply all_targets_current in Htg.
  pose proof (foldM_count (fun st => all_counts (rs_counts st)) _ _ _ _ _ _
    (fun st i w0 st' w1 Hi => restore_entry_count _ _ _ _ _ _ _ _ _ _ _ _ Hi) Hloop) as Hc.
  apply (foldM_inv (fun st s => own_left_alone o oc (w_db w1) (w_db s) ∧
    targets_current (w_db w1) (w_db s) (rs_targets st) ∧ settings (w_db s) = settings (w_db w1))) in Hloop
    as (Hl & _ & Es').
  - apply bind_Ok in Hr as ([] & ? & [_ ->]%lift_Ok & Hr). apply bind_Ok in Hr as ([] & w4 & Hset & [= <- <-]).
    rewrite length_seqZ, Z2Nat.id in Hc by done.
    assert (entries (w_db w4) = entries (w_db w3) ∧ settings (w_db w4) =
      if bool_decide (t_rows (entries (w_db w)) = ∅) && rs then Some (bm_settings m) else settings (w_db w3)) as [E1 E2].
    { destruct (_ && rs); [|by injection Hset as <-]. unfold update_settings in Hset. run_inv Hset. by world_inv. }
    unfold own_left_alone in *. rewrite Ee in Hl.
    split_and!; [by rewrite E1|unfold all_counts in Hc; cbn in *; lia|done|done|].
    cbn [restore_result settings_restored]. by rewrite E2, Es', Es.
  - intros st0 i s st1 s1 (? & ? & Es0) Hi. apply (restore_entry_keeps _ _ _ _ _ _ _ _ _ (w_db w1)) in Hi
      as (? & ? & ? & ?); [|done|done]. split_and!; [done|done|congruence].
  - split; [apply own_left_alone_refl|]. by split.
Qed.
End KeepsEntries.

(** ** From export to restore *)

Section BackupProperties.
Context `{!Cryptography} `{!CryptographyLaws} `{!Environment} `{!EnvironmentLaws}
  `{!Codec} `{!CodecLaws} `{!BackupCodec} `{!BackupCodecLaws} `{!Text} `{!Config} `{!LegacyLibraries}.

(** C22: A backup holds the vault: a file that [create_backup] made opens with the
    password it was made with, and reading it to its end gives back a manifest and
    entries that say, row by row, what the snapshot of the vault held - every entry
    that was to be exported with its document, times, folder and place in the trash,
    and its attachments with their contents. *)
Theorem backup_holds_the_vault owner eids pw key b w file w' :
  create_backup owner eids pw key b w = (Ok file, w') ->
  (forall id, id ∈ exported_ids eids (w_db w') -> (length (entry_attachments (w_db w') id) ≤ 20)%nat) ->
  ∃ r bk m xs, make_reader file = Ok r ∧ backup_key_of pw (br_header r) bk ∧
    backup_key_matches bk (br_header r) = true ∧ read_backup bk r = Ok (m, xs) ∧
    backup_of owner eids key (w_db w') m xs.
Proof.
  intros Hc Hlen. apply create_backup_Ok in Hc
    as (r & bk & m & encoded & xs & pss & Hr & Hbk & Hmatch & Hbo & Hh & Hsize & Hm & Hn & Hp & Hx & _); [|done].
  exists r, bk, m, xs. split_and!; try done. by eapply holds_backup.
Qed.

(** C21: Restoring a backup into a vault without entries brings back everything the
    backup was made of: when the export and the import both succeed, the vault has
    exactly one entry for each entry that was exported, with its document (as the
    import validates it), its times, its place in the trash and its attachments
    byte for byte, owned by the importing account and in that account's folder of
    the same name; folders that were there stay, the settings are replaced when and
    only when an administrator imports, and the counts in the answer add up. *)
Theorem backup_restores_the_vault owner eids pw key b w file w1 o rs key' oc tok w2 res w3 :
  create_backup owner eids pw key b w = (Ok file, w1) ->
  (forall id, id ∈ exported_ids eids (w_db w1) -> (length (entry_attachments (w_db w1) id) ≤ 20)%nat) ->
  NoDup (exported_ids eids (w_db w1)) -> kept_apart key key' (w_db w1) (exported_ids eids (w_db w1)) ->
  world_ok w2 -> w_others w2 = [] -> t_rows (entries (w_db w2)) = ∅ ->
  import_backup (Some o) rs file pw key' oc tok w2 = (Ok res, w3) ->
  ∃ m xs ids, backup_of owner eids key (w_db w1) m xs ∧
    vault_restored key' o rs (w_db w2) (w_db w3) m xs ids res.
Proof.
  intros Hc Hlen Hnd Hk [Hok _ _] Ho He Hi.
  apply create_backup_Ok in Hc
    as (r & bk & m & encoded & xs & pss & Hr & Hbk & _ & Hbo & Hh & Hsize & Hm & Hn & Hp & Hx & _); [|done].
  unfold import_backup in Hi. rewrite bool_decide_eq_false_2 in Hi by (by eapply not_legacy).
  destruct (import_format_2_Ok _ _ _ _ _ _ _ _ _ _ Ho Hi)
    as (r' & bk' & m' & r1 & w4 & Hr' & Hbk' & _ & Hrm & Edb & Hres).
  assert (r' = r) as -> by congruence.
  assert (bk' = bk) as -> by (destruct Hbk as (? & ? & ->), Hbk' as (? & ? & ->); congruence).
  destruct (holds_read _ r encoded _ _ Hh Hsize) as (r2 & Hread & Hh1 & _).
  apply read_manifest_Ok in Hrm as (data & Hdata & Hload). rewrite Hread in Hdata. injection Hdata as <- ->.
  rewrite Hm in Hload. injection Hload as ->.
  destruct (bo_folders _ _ _ _ _ _ Hbo) as (fs & _ & _ & Hxs).
  apply (restore_Ok o rs r1 bk m' xs pss) in Hres as (ids & Hids); [|by rewrite ?Edb|by rewrite ?Edb|apply Hbo|done|done|done| |done].
  - exists m', xs, ids. split; [done|]. by rewrite <- Edb.
  - by eapply kept_apart_keys.
Qed.

(** C23: What was in the vault survives an import of a backup: every entry is still
    there under its id and unchanged, except that the importing account's own
    active entries may have been moved to the trash where the import was asked to
    overwrite. The counts of the answer add up to the backup's entries, and the
    settings change only when the vault had no entries and the importing account
    may change them. *)
Theorem backup_import_keeps_every_entry o rs file pw key oc tok w res w' :
  take 4 file ≠ LEGACY_MAGIC -> w_others w = [] ->
  import_backup (Some o) rs file pw key oc tok w = (Ok res, w') ->
  own_left_alone o oc (w_db w) (w_db w') ∧
  imported res + skipped res + overwritten res + n_trashed res = total res ∧
  settings_restored res = bool_decide (t_rows (entries (w_db w)) = ∅) && rs ∧
  (settings_restored res = false -> settings (w_db w') = settings (w_db w)).
Proof.
  intros Hmagic Ho Hi. unfold import_backup in Hi. rewrite bool_decide_eq_false_2 in Hi by done.
  destruct (import_format_2_Ok _ _ _ _ _ _ _ _ _ _ Ho Hi) as (r & bk & m & r1 & w1 & _ & _ & _ & Hrm & Edb & Hres).
  apply read_manifest_Ok in Hrm as (data & _ & Hv%load_manifest_valid).
  apply restore_keeps in Hres as (Hl & Hc & _ & Es & Hset).
  - rewrite Edb in *. split_and!; [done|done|done|]. intros E. by rewrite Hset, E.
  - unfold valid_manifest in Hv. rewrite !andb_true_iff in Hv. lia.
Qed.
End BackupProperties.

(** A vault with an entry in a folder, with an attachment, to back up *)
Definition demo_to_back_up : World :=
  demo_run [demo_bootstrap;
    ForAccount (Some demo_token)
      (CreatePassword (with_pw_folder (Some (str "work")) (demo_entry (str "mail") (str "s3cret"))));
    ForAccount (Some demo_token) (AddAttachment (str "mail") (str "a.txt") None (raw "hello"))].
Definition demo_vault_key (w : World) : VaultKey := ctx_key (default no_context (demo_context demo_token w)).
Definition demo_export : res bytes * World :=
  create_backup (Some 1) (Some [1]) demo_password (demo_vault_key demo_to_back_up) false
    (begin_transaction demo_to_back_up).
Definition demo_file : bytes := ok_of [] demo_export.1.
Definition demo_import : res PasswordImportResult * World :=
  import_backup (Some 1) true demo_file demo_password (demo_vault_key demo_root) on_conflict_skip
    (Some demo_token) (begin_transaction demo_root).
Definition demo_result : PasswordImportResult := ok_of (restore_result 0 0 0 false no_counts []) demo_import.1.
Lemma demo_root_ok : world_ok (begin_transaction demo_root).
Proof. exact (world_ok_begin demo_root (world_ok_run demo_validate [demo_bootstrap] demo_start demo_start_ok)). Qed.
Lemma exported_one d : exported_ids (Some [1]) d = [1].
Proof. reflexivity. Qed.

Lemma demo_exported :
  create_backup (Some 1) (Some [1]) demo_password (demo_vault_key demo_to_back_up) false
    (begin_transaction demo_to_back_up) = (Ok demo_file, demo_export.2).
Proof.
  transitivity demo_export; [unfold demo_export; reflexivity|].
  unfold demo_file. apply ok_pair. vm_compute; reflexivity.
Qed.
Lemma demo_imported :
  import_backup (Some 1) true demo_file demo_password (demo_vault_key demo_root) on_conflict_skip
    (Some demo_token) (begin_transaction demo_root) = (Ok demo_result, demo_import.2).
Proof.
  transitivity demo_import; [unfold demo_import; reflexivity|].
  unfold demo_result. apply ok_pair. vm_compute; reflexivity.
Qed.

Lemma backup_restores_the_vault_witness :
  n_attachments demo_result = 1 ∧
  ∃ m xs ids, backup_of (Some 1) (Some [1]) (demo_vault_key demo_to_back_up) (w_db demo_export.2) m xs ∧
    vault_restored (demo_vault_key demo_root) 1 true (w_db (begin_transaction demo_root)) (w_db demo_import.2)
      m xs ids demo_result.
Proof.
  split; [vm_compute; reflexivity|].
  refine (backup_restores_the_vault _ _ _ _ _ _ _ _ _ _ _ _ _ _ _ _ demo_exported _ _ _ demo_root_ok _ _ demo_imported).
  - rewrite exported_one. intros id ->%list_elem_of_singleton. apply Nat.leb_le. vm_compute; reflexivity.
  - rewrite exported_one. apply NoDup_singleton.
  - rewrite exported_one. by intros i j e f a b ->%list_elem_of_singleton ->%list_elem_of_singleton.
  - vm_compute; reflexivity.
  - vm_compute; reflexivity.
Defined.

Lemma backup_holds_the_vault_witness :
  length demo_file = 530%nat ∧
  ∃ r bk m xs, make_reader demo_file = Ok r ∧ backup_key_of demo_password (br_header r) bk ∧
    backup_key_matches bk (br_header r) = true ∧ read_backup bk r = Ok (m, xs) ∧
    backup_of (Some 1) (Some [1]) (demo_vault_key demo_to_back_up) (w_db demo_export.2) m xs.
Proof.
  split; [vm_compute; reflexivity|].
  refine (backup_holds_the_vault _ _ _ _ _ _ _ _ demo_exported _).
  rewrite exported_one. intros id ->%list_elem_of_singleton. apply Nat.leb_le. vm_compute; reflexivity.
Defined.

(** The same backup once more, into the vault it was made of *)
Definition demo_again : res PasswordImportResult * World :=
  import_backup (Some 1) true demo_file demo_password (demo_vault_key demo_to_back_up) on_conflict_overwrite
    (Some demo_token) (begin_transaction demo_to_back_up).
Definition demo_again_result : PasswordImportResult :=
  ok_of (restore_result 0 0 0 false no_counts []) demo_again.1.
Lemma demo_imported_again :
  import_backup (Some 1) true demo_file demo_password (demo_vault_key demo_to_back_up) on_conflict_overwrite
    (Some demo_token) (begin_transaction demo_to_back_up) = (Ok demo_again_result, demo_again.2).
Proof.
  transitivity demo_again; [unfold demo_again; reflexivity|].
  unfold demo_again_result. apply ok_pair. vm_compute; reflexivity.
Qed.
Lemma backup_import_keeps_every_entry_witness :
  overwritten demo_again_result = 1 ∧
  own_left_alone 1 on_conflict_overwrite (w_db (begin_transaction demo_to_back_up)) (w_db demo_again.2).
Proof.
  split; [vm_compute; reflexivity|].
  refine (proj1 (backup_import_keeps_every_entry _ _ _ _ _ _ _ _ _ _ _ _ demo_imported_again)).
  - intros E. assert (bool_decide (take 4 demo_file = LEGACY_MAGIC) = false) as Hf by (vm_compute; reflexivity).
    by rewrite E in Hf.
  - vm_compute; reflexivity.
Defined.
