(* ===== verification/DiskSpec.v ===== *)
(** What the operations on files do (Storage.v): which files each leaves as they
    were, whatever fails, and how each can end. *)
From Stdlib Require Import ZArith Lia Strings.String Strings.Byte.
From stdpp Require Import base list gmap strings.
From S2P Require Import Prelude Crypto Storage.

(** ** Files *)

Lemma file_at_put q p b d :
  file_at q (put_file p b d) = if decide (q = p ∧ dir_exists p.1 d = true) then Some b else file_at q d.
Proof.
  unfold file_at, put_file, dir_exists. destruct q as [qd qn], p as [pd pn]. cbn [fst snd].
  destruct (dk_dirs d !! pd) as [f|] eqn:E; [|by rewrite decide_False by (intros [_ [=]])].
  cbn [dk_dirs set_dirs]. destruct (decide (qd = pd)) as [->|Hne].
  - rewrite lookup_insert_eq, E. cbn. destruct (decide (qn = pn)) as [->|Hne].
    + by rewrite lookup_insert_eq, decide_True.
    + rewrite lookup_insert_ne, decide_False by naive_solver. done.
  - by rewrite lookup_insert_ne, decide_False by naive_solver.
Qed.
Lemma file_at_remove q p d : file_at q (remove_file p d) = if decide (q = p) then None else file_at q d.
Proof.
  unfold file_at, remove_file. destruct q as [qd qn], p as [pd pn]. cbn [fst snd].
  destruct (dk_dirs d !! pd) as [f|] eqn:E.
  - cbn [dk_dirs set_dirs]. destruct (decide (qd = pd)) as [->|Hne].
    + rewrite lookup_insert_eq, E. cbn. destruct (decide (qn = pn)) as [->|Hne].
      * by rewrite lookup_delete_eq, decide_True.
      * by rewrite lookup_delete_ne, decide_False by naive_solver.
    + by rewrite lookup_insert_ne, decide_False by naive_solver.
  - case_decide as Eq; [|done]. injection Eq as -> ->. by rewrite E.
Qed.
Lemma file_at_dir p d b : file_at p d = Some b -> dir_exists p.1 d = true.
Proof. unfold file_at, dir_exists. by destruct (dk_dirs d !! p.1). Qed.
Lemma file_at_make_dir q p d : file_at q (make_dir p d) = file_at q d.
Proof.
  unfold make_dir, dir_exists, file_at. destruct (dk_dirs d !! p) as [f|] eqn:E; [done|]. cbn.
  destruct (decide (q.1 = p)) as [->|Hne]; [by rewrite lookup_insert_eq, E|by rewrite lookup_insert_ne].
Qed.
Lemma beside_nil p : beside p [] = p.
Proof. destruct p. unfold beside. cbn. by rewrite app_nil_r. Qed.
Lemma beside_beside p a b : beside (beside p a) b = beside p (a ++ b).
Proof. unfold beside. cbn. by rewrite app_assoc. Qed.
Lemma beside_inj p a b : beside p a = beside p b -> a = b.
Proof. intros [= E]. by apply app_inv_head in E. Qed.

(** ** What an operation leaves untouched *)

(** The files of [P] are as they were. *)
Definition untouched (P : path -> Prop) (d d' : Disk) : Prop := forall p, P p -> file_at p d' = file_at p d.
#[export] Instance untouched_preorder P : PreOrder (untouched P).
Proof. split; [by intros d p|]. intros x y z Hxy Hyz p Hp. by rewrite Hyz, Hxy. Qed.

Section Untouched.
Context (P : path -> Prop).
Abbreviation kept m := (keeps (untouched P) m).

Lemma untouched_dirs d d' : dk_dirs d' = dk_dirs d -> untouched P d d'.
Proof. intros E p _. unfold file_at. by rewrite E. Qed.
Lemma untouched_put p b d : ¬ P p -> untouched P d (put_file p b d).
Proof. intros Hp q Hq. rewrite file_at_put, decide_False by naive_solver. done. Qed.
Lemma untouched_remove p d : ¬ P p -> untouched P d (remove_file p d).
Proof. intros Hp q Hq. rewrite file_at_remove, decide_False by naive_solver. done. Qed.
Lemma untouched_put_files p f d :
  ¬ P p -> (forall s, s ∈ SIDECARS -> ¬ P (beside p s)) -> untouched P d (put_files p f d).
Proof.
  intros Hp Hs. assert (forall q b d, ¬ P q -> untouched P d (put_or_remove q b d)) as Hput.
  { intros q [b|] d0 Hq; [by apply untouched_put|by apply untouched_remove]. }
  unfold put_files. repeat (etrans; [|apply Hput; apply Hs; set_solver]). by apply Hput.
Qed.

Lemma kept_modify f : (forall d, untouched P d (f d)) -> kept (modify f).
Proof. intros Hf d. apply Hf. Qed.
Lemma kept_next_event : kept next_event.
Proof. intros d. apply untouched_dirs. unfold next_event. by destruct (dk_events d). Qed.
Lemma kept_atomically {A} (op : M Disk A) : kept op -> kept (atomically op).
Proof.
  intros Ho. unfold atomically. apply keeps_bind; [apply _|apply kept_next_event|]. intros [|n|n]; [done|..];
    apply keeps_throw; apply _.
Qed.
Lemma kept_gradually part f op :
  (forall n, kept (part n)) -> kept op -> kept (gradually part f op).
Proof.
  intros Hp Ho. unfold gradually. apply keeps_bind; [apply _|apply kept_next_event|].
  intros [|n|n]; [done|..]; (apply keeps_bind; [apply _|done|]); intros _; apply keeps_throw; apply _.
Qed.
Lemma kept_handling {A} (m : M Disk A) h : kept m -> (forall e, kept (h e)) -> kept (handling m h).
Proof.
  intros Hm Hh. unfold handling. apply keeps_catch; [apply _|done|]. intros e. by destruct e.
Qed.
Lemma kept_cleaning_up {A} (m : M Disk A) c : kept m -> kept c -> kept (cleaning_up m c).
Proof.
  intros Hm Hc. apply kept_handling; [done|]. intros e. apply keeps_bind; [apply _|done|].
  intros _. apply keeps_throw; apply _.
Qed.
Lemma kept_finally {A} (m : M Disk A) c : kept m -> kept c -> kept (finally m c).
Proof.
  intros Hm Hc. unfold finally. apply keeps_bind; [apply _|by apply kept_cleaning_up|]. intros a.
  apply keeps_bind; [apply _|done|]. intros _. apply keeps_ret; apply _.
Qed.
End Untouched.
#[export] Hint Resolve kept_next_event kept_atomically kept_gradually kept_handling kept_cleaning_up
  kept_finally : keeps.

(** [disk_tac] follows the code and leaves what is said of the files touched. *)
Ltac disk_step :=
  lazymatch goal with
  | |- keeps (untouched _) (atomically _) => apply kept_atomically
  | |- keeps (untouched _) (gradually _ _ _) => apply kept_gradually; [intros ?|]
  | |- keeps (untouched _) (handling _ _) => apply kept_handling; [|intros ?]
  | |- keeps (untouched _) (cleaning_up _ _) => apply kept_cleaning_up
  | |- keeps (untouched _) (finally _ _) => apply kept_finally
  | |- keeps (untouched _) next_event => apply kept_next_event
  | |- keeps (untouched _) (modify _) => apply kept_modify; intros ?
  | |- keeps (untouched _) (if ?b then _ else _) => destruct b
  | |- keeps (untouched _) (match ?x with _ => _ end) => destruct x
  | |- keeps (untouched _) (let _ := _ in _) => cbv zeta
  | |- keeps _ _ => keeps_step
  end.
Ltac disk_tac :=
  repeat first
    [ disk_step
    | solve [eauto with keeps]
    | solve [apply untouched_put_files; done]
    | apply untouched_put
    | apply untouched_remove
    | solve [by apply untouched_dirs] ].

Section Operations.
Context `{!Sqlite} `{!Host} (P : path -> Prop).
Abbreviation kept m := (keeps (untouched P) m).
Abbreviation spares p := (¬ P p).
Abbreviation spares_beside p := (forall s, s ∈ SIDECARS -> ¬ P (beside p s)).

Lemma untouched_make_dir p d : untouched P d (make_dir p d).
Proof. intros q _. apply file_at_make_dir. Qed.
#[local] Hint Resolve untouched_make_dir : keeps.
Lemma kept_mkdir_parents p : kept (mkdir_parents p).
Proof. unfold mkdir_parents. disk_tac. Qed.
Lemma kept_mkdir_new p : kept (mkdir_new p).
Proof. unfold mkdir_new. disk_tac. Qed.
Lemma kept_create_file p : spares p -> kept (create_file p).
Proof. intros Hp. unfold create_file. disk_tac. Qed.
Lemma kept_unlink p : spares p -> kept (unlink_missing_ok p).
Proof. intros Hp. unfold unlink_missing_ok. disk_tac. Qed.
Lemma kept_replace p q : spares p -> spares q -> kept (replace p q).
Proof.
  intros Hp Hq. unfold replace. disk_tac. etrans; [by apply (untouched_remove _ p)|by apply untouched_put].
Qed.
Lemma kept_copyfile p q : spares q -> kept (copyfile p q).
Proof. intros Hq. unfold copyfile. disk_tac. Qed.
Lemma kept_fsync p : kept (fsync p).
Proof. unfold fsync. disk_tac. Qed.
Lemma kept_fsync_dir p : kept (fsync_dir p).
Proof. unfold fsync_dir. disk_tac. Qed.
Lemma kept_chmod p : kept (chmod p).
Proof. unfold chmod. disk_tac. Qed.
Lemma kept_rmtree p : (forall n, spares (p, n)) -> kept (rmtree p).
Proof.
  intros Hp. assert (forall (g : gmap dir folder -> gmap dir folder) d, (forall q m, q ≠ p -> g m !! q = m !! q) ->
    untouched P d (set_dirs (g (dk_dirs d)) d)) as Hg.
  { intros g d Hg [q n] Hq. unfold file_at. cbn. destruct (decide (q = p)) as [->|Hne]; [by destruct (Hp n)|].
    by rewrite Hg. }
  unfold rmtree. disk_tac.
  - apply (Hg (delete p)). intros q m Hq. by rewrite lookup_delete_ne.
  - apply (Hg (alter _ p)). intros q m Hq. by rewrite lookup_alter_ne.
  - apply (Hg (alter _ p)). intros q m Hq. by rewrite lookup_alter_ne.
Qed.
Lemma kept_replace_dir p q : (forall n, spares (p, n)) -> (forall n, spares (q, n)) -> kept (replace_dir p q).
Proof.
  intros Hp Hq. unfold replace_dir. disk_tac. intros [x n] Hx. unfold file_at. cbn.
  destruct (decide (x = q)) as [->|Hne]; [by destruct (Hq n)|]. rewrite lookup_insert_ne by done.
  destruct (decide (x = p)) as [->|Hne']; [by destruct (Hp n)|]. by rewrite lookup_delete_ne.
Qed.
Lemma kept_discard p : spares p -> spares_beside p -> kept (discard p).
Proof.
  intros Hp Hs. assert (forall s, s ∈ [] :: SIDECARS -> kept (unlink_missing_ok (beside p s))) as Hu.
  { intros s [->|Hin]%elem_of_cons; apply kept_unlink; [by rewrite beside_nil|by apply Hs]. }
  unfold discard. apply keeps_foldM_in; [apply _|auto].
Qed.
Lemma kept_put_files p f : spares p -> spares_beside p -> kept (modify (put_files p f)).
Proof. intros Hp Hs. apply kept_modify. intros d. by apply untouched_put_files. Qed.
#[local] Hint Resolve kept_mkdir_parents kept_mkdir_new kept_create_file kept_unlink kept_replace kept_copyfile
  kept_fsync kept_fsync_dir kept_chmod kept_rmtree kept_discard kept_put_files : keeps.

Lemma kept_connect_existing p : kept (connect_existing p).
Proof. unfold connect_existing. disk_tac. Qed.
#[local] Hint Resolve kept_connect_existing : keeps.
Lemma kept_check_file p : kept (check_file p).
Proof. unfold check_file. disk_tac. Qed.
Lemma kept_unwritable p : kept (unwritable p).
Proof. unfold unwritable. disk_tac. Qed.
#[local] Hint Resolve kept_check_file kept_unwritable : keeps.
Lemma kept_or_unwritable {A} (m : M Disk A) p : kept m -> kept (or_unwritable m p).
Proof. intros Hm. unfold or_unwritable. disk_tac. Qed.
#[local] Hint Resolve kept_or_unwritable : keeps.
Lemma kept_refuse_pending p : kept (refuse_pending_set_aside p).
Proof. unfold refuse_pending_set_aside. disk_tac. Qed.
Lemma kept_refuse_orphaned p : kept (refuse_orphaned_journals p).
Proof. unfold refuse_orphaned_journals. disk_tac. Qed.
Lemma kept_refuse_unusable p : kept (refuse_unusable_file p).
Proof. unfold refuse_unusable_file. disk_tac. Qed.
#[local] Hint Resolve kept_refuse_pending kept_refuse_orphaned kept_refuse_unusable : keeps.
Lemma kept_prepare_data_dir p : spares (vault_file p) -> kept (prepare_data_dir p).
Proof.
  intros Hp. unfold prepare_data_dir. disk_tac; apply kept_or_unwritable; disk_tac.
Qed.
Lemma kept_acquire p : spares (p, LOCK_FILE) -> kept (acquire p).
Proof. intros Hp. unfold acquire. disk_tac. apply kept_or_unwritable. disk_tac. Qed.
#[local] Hint Resolve kept_acquire : keeps.
Lemma kept_with_lock {A} p (body : M Disk A) : spares (p, LOCK_FILE) -> kept body -> kept (with_lock p body).
Proof. intros Hp Hb. unfold with_lock. disk_tac. Qed.
Lemma kept_backup_into p db mode : spares p -> kept (backup_into p db mode).
Proof. intros Hp. unfold backup_into. disk_tac. Qed.
#[local] Hint Resolve kept_backup_into : keeps.
Lemma kept_checked_backup p q mode : spares q -> kept (checked_backup p q mode).
Proof. intros Hp. unfold checked_backup. disk_tac. Qed.
#[local] Hint Resolve kept_checked_backup : keeps.
Lemma kept_copy_vault p q mode :
  spares (partial_of q) -> spares_beside (partial_of q) -> spares q -> kept (copy_vault p q mode).
Proof. intros Hp Hs Hq. unfold copy_vault. disk_tac. Qed.
Lemma kept_timestamp prefix : kept (timestamp prefix).
Proof. unfold timestamp. disk_tac. Qed.
Lemma kept_timestamped prefix : kept (timestamped prefix).
Proof. unfold timestamped, timestamp. disk_tac. Qed.
Lemma kept_take p : spares p -> spares_beside p -> kept (take_exclusively p).
Proof. intros Hp Hs. unfold take_exclusively. disk_tac. Qed.
Lemma kept_fold_in p : spares p -> spares_beside p -> kept (fold_in p).
Proof. intros Hp Hs. unfold fold_in. disk_tac. Qed.
End Operations.
#[export] Hint Resolve kept_mkdir_parents kept_mkdir_new kept_create_file kept_unlink kept_replace kept_copyfile
  kept_fsync kept_fsync_dir kept_chmod kept_rmtree kept_replace_dir kept_discard kept_put_files kept_connect_existing
  kept_check_file kept_refuse_pending kept_refuse_orphaned kept_refuse_unusable kept_prepare_data_dir kept_acquire
  kept_with_lock kept_backup_into kept_checked_backup kept_copy_vault kept_timestamp kept_timestamped kept_take kept_fold_in : keeps.

(** ** Outcomes *)

Section Outcomes.
Context {S : Type}.

Lemma bind_cases {A B} (m : M S A) (f : A -> M S B) s r s' :
  (m ≫= f) s = (r, s') ->
  (∃ a s1, m s = (Ok a, s1) ∧ f a s1 = (r, s')) ∨ (∃ e, m s = (Err e, s') ∧ r = Err e).
Proof.
  unfold mbind, M_bind. destruct (m s) as [[a|e] s1]; [by eauto|]. intros [= <- <-]. right. by exists e.
Qed.
Lemma keeps_run {A} R (m : M S A) s r s' : keeps R m -> m s = (r, s') -> R s s'.
Proof. intros Hk E. specialize (Hk s). by rewrite E in Hk. Qed.
End Outcomes.

Lemma cleaning_up_cases {A} (m : M Disk A) c d r d' :
  cleaning_up m c d = (r, d') ->
  (∃ a, m d = (Ok a, d') ∧ r = Ok a) ∨
  (∃ e d1, m d = (Err e, d1) ∧ (∃ e', r = Err e') ∧ (d' = d1 ∨ d' = (c d1).2)).
Proof.
  unfold cleaning_up, handling, catch. destruct (m d) as [[a|e] d1]; [by intros [= <- <-]; left; exists a|].
  intros Hr. right. exists e, d1. split; [done|].
  assert (r = Err Killed ∧ d' = d1 ∨ (c;; throw e) d1 = (r, d')) as [[-> ->]|Hc].
  { destruct e; first [by right | by injection Hr as <- <-; left]. }
  - split; [by exists Killed|by left].
  - apply bind_cases in Hc as [(u & d2 & Hc & [= <- <-])|(e' & Hc & ->)]; rewrite Hc; eauto.
Qed.
Lemma atomically_Ok {A} (op : M Disk A) d a d' :
  atomically op d = (Ok a, d') -> ∃ d1, dk_dirs d1 = dk_dirs d ∧ dk_lock d1 = dk_lock d ∧ op d1 = (Ok a, d').
Proof.
  unfold atomically. intros Ho. apply bind_Ok in Ho as (e & d1 & He & Ho). exists d1.
  unfold next_event in He. destruct (dk_events d) as [|e0 es]; injection He as <- <-; [done|]. by destruct e0.
Qed.
Lemma file_at_dirs p d d' : dk_dirs d' = dk_dirs d -> file_at p d' = file_at p d.
Proof. intros E. unfold file_at. by rewrite E. Qed.
Lemma files_at_same p d d' :
  file_at p d' = file_at p d -> (forall s, s ∈ SIDECARS -> file_at (beside p s) d' = file_at (beside p s) d) ->
  files_at p d' = files_at p d.
Proof. intros Hp Hs. unfold files_at. rewrite Hp, !Hs by set_solver. done. Qed.

Lemma unlink_Ok p d u d' :
  unlink_missing_ok p d = (Ok u, d') -> forall q, file_at q d' = if decide (q = p) then None else file_at q d.
Proof.
  intros Hu q. unfold unlink_missing_ok in Hu. apply atomically_Ok in Hu as (d1 & E & _ & Hu).
  run_inv Hu. rewrite file_at_remove. by rewrite (file_at_dirs _ _ _ E).
Qed.

(** A file and the journals beside it *)
Definition family (p : path) : list path := map (beside p) ([] :: SIDECARS).
Lemma elem_of_family q p : q ∈ family p ↔ q = p ∨ ∃ s, s ∈ SIDECARS ∧ q = beside p s.
Proof.
  unfold family. cbn [map]. rewrite elem_of_cons, beside_nil, list_elem_of_fmap.
  split; (intros [->|(s & E & Hs)]; [by left|right; eauto]).
Qed.

Lemma discard_Ok p d u d' :
  discard p d = (Ok u, d') -> forall q, file_at q d' = if decide (q ∈ family p) then None else file_at q d.
Proof.
  unfold discard, family. generalize ([] :: SIDECARS). intros l. revert d u.
  induction l as [|s l IH]; intros d u Hd q; cbn [foldM map] in Hd |- *.
  - by injection Hd as <- <-.
  - apply bind_Ok in Hd as ([] & d1 & Hu & Hd). rewrite (IH _ _ Hd q).
    destruct (decide (q ∈ map _ l)) as [Hin|Hin].
    + rewrite decide_True; [done|by right].
    + rewrite (unlink_Ok _ _ _ _ Hu). destruct (decide (q = beside p s)) as [->|Hne].
      * rewrite decide_True; [done|by left].
      * rewrite decide_False; [done|]. by intros [?|?]%elem_of_cons.
Qed.

Lemma create_file_Ok p d u d' :
  create_file p d = (Ok u, d') -> (forall q, file_at q d' = if decide (q = p) then Some [] else file_at q d).
Proof.
  intros Hc q. unfold create_file in Hc. apply atomically_Ok in Hc as (d1 & E & _ & Hc). run_inv Hc.
  match goal with R : _ || _ = false |- _ => apply orb_false_iff in R as [_ Hdir] end.
  apply negb_false_iff in Hdir. rewrite file_at_put, (file_at_dirs _ _ _ E).
  destruct (decide (q = p)) as [->|Hne]; [by rewrite decide_True|by rewrite decide_False by naive_solver].
Qed.

Lemma replace_err a b d e d' : replace a b d = (Err e, d') -> forall q, file_at q d' = file_at q d.
Proof.
  intros Hr q. unfold replace, atomically in Hr. apply bind_cases in Hr as [(ev & d1 & He & Hr)|(e' & He & _)].
  - assert (dk_dirs d1 = dk_dirs d) as E by (unfold next_event in He; by destruct (dk_events d); injection He as _ <-).
    rewrite <- (file_at_dirs _ _ _ E). destruct ev; [|unfold throw in Hr; by simplify_eq..].
    apply bind_cases in Hr as [(o & ? & [= <- <-] & Hr)|(e' & [=] & _)].
    destruct (file_at a d1); [|unfold throw in Hr; by simplify_eq].
    apply bind_cases in Hr as [(o & ? & [= <- <-] & Hr)|(e' & [=] & _)].
    apply bind_cases in Hr as [(u & d2 & R & [=])|(e' & R & _)]. unfold raise_if in R.
    destruct (_ || _); [|done]. unfold throw in R. by simplify_eq.
  - unfold next_event in He. by destruct (dk_events d).
Qed.
Lemma replace_Ok a b d u d' :
  replace a b d = (Ok u, d') ->
  ∃ x, file_at a d = Some x ∧
    forall q, file_at q d' = if decide (q = b) then Some x else if decide (q = a) then None else file_at q d.
Proof.
  intros Hr. unfold replace in Hr. apply atomically_Ok in Hr as (d1 & E & _ & Hr).
  apply bind_Ok in Hr as (o & ? & [= <- <-] & Hr). rewrite (file_at_dirs _ _ _ E) in Hr.
  destruct (file_at a d) as [x|] eqn:Ea; [|done]. exists x. split; [done|]. intros q.
  apply bind_Ok in Hr as (bl & ? & [= <- <-] & Hr). apply bind_Ok in Hr as ([] & ? & [R ->]%raise_if_Ok & Hr).
  unfold modify in Hr. injection Hr as _ <-. apply orb_false_iff in R as [_ Hdir].
  apply negb_false_iff in Hdir. rewrite file_at_put, file_at_remove, (file_at_dirs _ _ _ E).
  assert (dir_exists b.1 (remove_file a d1) = true) as Hdir'.
  { unfold dir_exists, remove_file in *. destruct (dk_dirs d1 !! a.1) eqn:Ed; [|done]. cbn.
    destruct (decide (b.1 = a.1)) as [->|Hne]; [by rewrite lookup_insert_eq|by rewrite lookup_insert_ne]. }
  destruct (decide (q = b)) as [->|Hne]; [by rewrite decide_True|by rewrite decide_False by naive_solver].
Qed.

(** ** SQLite *)

(** A database file on its own, and with its write-ahead log *)
Definition alone (b : bytes) : VaultFiles := {| f_main := Some b; f_wal := None; f_shm := None; f_journal := None |}.
Definition with_wal_only (f : VaultFiles) : VaultFiles :=
  {| f_main := f_main f; f_wal := f_wal f; f_shm := None; f_journal := None |}.

(** SQLite's documented behaviour: a backup is a copy; transactions, checkpoints
    and changes of the journal mode are atomic; taking a vault settles a hot rollback
    journal, so that its file and write-ahead log are all there is. *)
Class SqliteLaws `{Sqlite} : Prop := {
  image_read db mode : sq_connect (alone (sq_image db mode)) = Ok db;
  commit_read db f : sq_connect (sq_commit db f) = Ok db;
  committing_read n db f :
    sq_connect (sq_committing n db f) = sq_connect f ∨ sq_connect (sq_committing n db f) = Ok db;
  take_read f : sq_connect (sq_take f).2 = sq_connect f;
  take_settles f : (sq_take f).1 = Ok () -> sq_connect (with_wal_only (sq_take f).2) = sq_connect f;
  take_unreadable f code :
    (sq_take f).1 = Err (DatabaseError code) -> is_unreadable code = true -> is_ok (sq_connect f) = false;
  take_keeps_vault f : is_some (f_main (sq_take f).2) = is_some (f_main f);
  fold_keeps_vault f : is_some (f_main (sq_fold f)) = is_some (f_main f);
  folding_keeps_vault n f : is_some (f_main (sq_folding n f)) = is_some (f_main f);
  fold_read f : sq_connect (sq_fold f) = sq_connect f;
  folding_read n f : sq_connect (sq_folding n f) = sq_connect f;
}.
