(* ===== verification/DiskDemo.v ===== *)
(** A small SQLite and a host, for evaluating the operations of Storage.v. *)
From Stdlib Require Import ZArith Lia Strings.String Strings.Byte.
From stdpp Require Import base list gmap strings.
From S2P Require Import Prelude Crypto Storage DiskSpec.

(** A database file is a mark and the database; a write-ahead log holds the newer
    database; a file without the mark is not a database. *)
Definition mark : byte := "S"%byte.
Definition marked (b : bytes) : res bytes :=
  match b with
  | [] => Ok []
  | c :: b => if bool_decide (c = mark) then Ok b else Err (DatabaseError (Some 26))
  end.
Definition demo_connect (f : VaultFiles) : res bytes :=
  match f_main f with
  | None => Err (DatabaseError (Some 14))
  | Some m => match f_wal f with Some (c :: w) => marked (c :: w) | _ => marked m end
  end.
Definition demo_image (db : bytes) : bytes := mark :: db.
Definition demo_take (f : VaultFiles) : res () * VaultFiles :=
  (match demo_connect f with Ok _ => Ok () | Err e => Err e end, f).
Definition demo_fold (f : VaultFiles) : VaultFiles :=
  match demo_connect f with Ok db => alone (demo_image db) | Err _ => f end.

Definition demo_sqlite : Sqlite := {|
  database := bytes;
  sqlite_version := (3, 51, 3);
  sq_connect := demo_connect;
  pragma_integrity_check _ := Ok [str "ok"];
  pragma_quick_check _ := Ok [str "ok"];
  pragma_foreign_key_check _ := Ok [];
  pragma_application_id db := Ok (if bool_decide (db = []) then 0 else APPLICATION_ID);
  pragma_user_version db := Ok (if bool_decide (db = []) then 0 else SCHEMA_VERSION);
  count_schema_objects db := Ok (if bool_decide (db = []) then 0 else 1);
  select_formats _ := Ok [CInt FORMAT_VERSION];
  sq_execute _ db := Ok db;
  create_all db := Ok (mark :: db);
  sq_image db _ := demo_image db;
  sq_commit db _ := alone (demo_image db);
  sq_committing n db f := if Nat.even n then f else alone (demo_image db);
  sq_take := demo_take;
  sq_fold := demo_fold;
  sq_folding n f := if Nat.even n then f else demo_fold f;
|}.
Definition demo_host : Host := {|
  win32 := false;
  error_text _ := str "an error";
  path_text p := p.2;
  dir_text _ := str "the data folder";
  owner_uid _ := 1000;
  my_uid := 1000;
  my_gid := 1000;
  dir_writable _ := true;
  file_writable _ := true;
  utc_stamp n := str_of_Z (Z.of_nat n);
|}.

Lemma demo_marked db : demo_connect (alone (demo_image db)) = Ok db.
Proof. done. Qed.
Lemma demo_fold_read f : demo_connect (demo_fold f) = demo_connect f.
Proof. unfold demo_fold. by destruct (demo_connect f) eqn:E. Qed.
Lemma demo_fold_main f : is_some (f_main (demo_fold f)) = is_some (f_main f).
Proof. unfold demo_fold, demo_connect. by destruct (f_main f) eqn:E; [repeat case_match|rewrite E]; rewrite ?E. Qed.
Lemma demo_sqlite_laws : @SqliteLaws demo_sqlite.
Proof.
  split; cbn; try done.
  - intros n db f. destruct (Nat.even n); auto.
  - intros f code. unfold is_ok. by destruct (demo_connect f).
  - apply demo_fold_main.
  - intros n f. destruct (Nat.even n); [done|apply demo_fold_main].
  - apply demo_fold_read.
  - intros n f. destruct (Nat.even n); [done|apply demo_fold_read].
Qed.

(** A data folder with a vault, a write-ahead log and a snapshot *)
Definition demo_dir : dir := [str "data"].
Definition demo_snapshot : path := (snapshot_dir demo_dir, str "vault-0.db").
Definition demo_old : bytes := [x61; x62].
Definition demo_new : bytes := [x63].
Definition demo_disk (events : list Event) (lock : LockState) : Disk := {|
  dk_dirs := list_to_map
    [([], ∅);
     (demo_dir, list_to_map [(VAULT_FILE, demo_image [x61]); (VAULT_FILE ++ WAL, demo_image demo_old);
                             (VAULT_FILE ++ SHM, [x00]); (LOCK_FILE, [])]);
     (snapshot_dir demo_dir, list_to_map [(str "vault-0.db", demo_image demo_new)])];
  dk_events := events;
  dk_lock := lock;
  dk_clock := 7;
|}.
