(* ===== verification/SnapshotSpec.v ===== *)
(** Snapshots (Storage.v): a copy of the vault is whole or it is not there. *)
From Stdlib Require Import ZArith Lia Strings.String Strings.Byte.
From stdpp Require Import base list gmap strings.
From S2P Require Import Prelude Crypto Storage DiskSpec DiskDemo.

(** ** Copies *)

Section Copies.
Context `{!Sqlite} `{!SqliteLaws} `{!Host}.

(** [b] is a whole and checked copy of the vault [f]. *)
Definition checked_copy (f : VaultFiles) (b : option bytes) : Prop :=
  ∃ db c, sq_connect f = Ok db ∧ check_connection db = Ok [] ∧ b = Some c ∧ sq_connect (alone c) = Ok db.

Lemma partial_apart dst : dst ∉ family (partial_of dst).
Proof.
  rewrite elem_of_family. unfold partial_of. intros [E|(s & _ & E)].
  - rewrite <- (beside_nil dst) in E at 1. apply beside_inj in E. discriminate E.
  - rewrite beside_beside in E. rewrite <- (beside_nil dst) in E at 1. apply beside_inj in E. discriminate E.
Qed.

Lemma kept_family_copy (P : path -> Prop) src dst mode :
  (forall q, q ∈ dst :: family (partial_of dst) -> ¬ P q) -> keeps (untouched P) (copy_vault src dst mode).
Proof.
  intros HP. apply kept_copy_vault.
  - apply HP. right. apply elem_of_family. by left.
  - intros s Hs. apply HP. right. apply elem_of_family. right. by exists s.
  - apply HP. left.
Qed.

Lemma fsync_Ok p d u d' : fsync p d = (Ok u, d') -> dk_dirs d' = dk_dirs d.
Proof. intros Hf. unfold fsync in Hf. apply atomically_Ok in Hf as (d1 & E & _ & [= _ <-]). done. Qed.
Lemma fsync_dir_Ok p d u d' : fsync_dir p d = (Ok u, d') -> dk_dirs d' = dk_dirs d.
Proof. intros Hf. unfold fsync_dir in Hf. apply atomically_Ok in Hf as (d1 & E & _ & [= _ <-]). done. Qed.
Lemma connect_existing_Ok p d f d' : connect_existing p d = (Ok f, d') -> d' = d ∧ f = files_at p d ∧ is_file p d = true.
Proof. unfold connect_existing. intros Hc. run_inv Hc. done. Qed.
Lemma connect_existing_Err p d e d' : connect_existing p d = (Err e, d') -> is_file p d = false ∧ d' = d.
Proof.
  unfold connect_existing. intros Hc. apply bind_cases in Hc as [(b & ? & [= <- <-] & Hc)|(e' & [=] & _)].
  apply bind_cases in Hc as [(u & d1 & _ & [=])|(e' & Hc & _)]. unfold raise_unless in Hc.
  destruct (is_file p d); [done|]. unfold throw in Hc. by simplify_eq.
Qed.
Lemma backup_into_Ok p db mode d u d' :
  file_at p d = Some [] -> backup_into p db mode d = (Ok u, d') ->
  forall q, file_at q d' = if decide (q = p) then Some (sq_image db mode) else file_at q d.
Proof.
  intros Hp Hb q. unfold backup_into, gradually in Hb. apply bind_Ok in Hb as (e & d1 & He & Hb).
  assert (dk_dirs d1 = dk_dirs d) as E by (unfold next_event in He; by destruct (dk_events d); injection He as _ <-).
  rewrite <- (file_at_dirs _ _ _ E) in Hp. apply file_at_dir in Hp.
  destruct e; [|by apply bind_Ok in Hb as (? & ? & _ & ?)..]. unfold modify in Hb. injection Hb as _ <-.
  rewrite file_at_put, (file_at_dirs _ _ _ E).
  destruct (decide (q = p)) as [->|Hne]; [by rewrite decide_True|by rewrite decide_False by naive_solver].
Qed.

Lemma checked_backup_Ok src partial mode d u d' :
  (forall s, s ∈ SIDECARS -> file_at (beside partial s) d = None) -> file_at partial d = Some [] ->
  checked_backup src partial mode d = (Ok u, d') ->
  ∃ db, sq_connect (files_at src d) = Ok db ∧ check_connection db = Ok [] ∧
    file_at partial d' = Some (sq_image db mode).
Proof.
  intros Hs Hp Hc. unfold checked_backup in Hc.
  apply bind_Ok in Hc as (f & ? & (-> & -> & _)%connect_existing_Ok & Hc).
  apply bind_Ok in Hc as (db & ? & [Hdb ->]%lift_Ok & Hc). apply bind_Ok in Hc as (v & d1 & Hb & Hc).
  pose proof (backup_into_Ok _ _ _ _ _ _ Hp Hb) as Hfiles.
  assert (files_at partial d1 = alone (sq_image db mode)) as Hcopied.
  { unfold files_at. rewrite !Hfiles, decide_True by done. rewrite !decide_False.
    - by rewrite !Hs by set_solver.
    - intros E. rewrite <- (beside_nil partial) in E at 2. by apply beside_inj in E.
    - intros E. rewrite <- (beside_nil partial) in E at 2. by apply beside_inj in E.
    - intros E. rewrite <- (beside_nil partial) in E at 2. by apply beside_inj in E. }
  apply bind_Ok in Hc as (copied & ? & [= <- <-] & Hc). rewrite Hcopied in Hc.
  apply bind_Ok in Hc as (problems & ? & [Hcheck ->]%lift_Ok & Hc). rewrite image_read in Hcheck.
  apply raise_unless_Ok in Hc as [->%bool_decide_eq_true ->]. exists db. split_and!; [done|done|].
  by rewrite Hfiles, decide_True.
Qed.

Lemma copy_rest_cases src dst mode d r d' :
  (forall s, s ∈ SIDECARS -> file_at (beside (partial_of dst) s) d = None) -> file_at (partial_of dst) d = Some [] ->
  (checked_backup src (partial_of dst) mode;; fsync (partial_of dst);;
   replace (partial_of dst) dst;; fsync_dir dst.1) d = (r, d') ->
  (file_at dst d' = file_at dst d ∧ is_ok r = false) ∨
  ∃ db, sq_connect (files_at src d) = Ok db ∧ check_connection db = Ok [] ∧ file_at dst d' = Some (sq_image db mode).
Proof.
  intros Hs Hp Hc. set (P := fun q => q = dst).
  assert (¬ P (partial_of dst)) as HP by (intros E; apply (partial_apart dst), elem_of_family; by left).
  apply bind_cases in Hc as [(u1 & d1 & R1 & Hc)|(e & R1 & ->)];
    pose proof (keeps_run _ _ _ _ _ (kept_checked_backup P src _ mode HP) R1 dst eq_refl) as U1;
    [|left; by split].
  apply checked_backup_Ok in R1 as (db & Hdb & Hcheck & Himage); [|done..].
  apply bind_cases in Hc as [(u2 & d2 & R2 & Hc)|(e & R2 & ->)];
    pose proof (keeps_run _ _ _ _ _ (kept_fsync P _) R2 dst eq_refl) as U2; [|left; by rewrite U2, U1].
  apply fsync_Ok in R2. rewrite <- (file_at_dirs _ _ _ R2) in Himage.
  apply bind_cases in Hc as [(u3 & d3 & R3 & Hc)|(e & R3 & ->)].
  - right. exists db. split_and!; [done..|]. apply replace_Ok in R3 as (x & Hx & Hall).
    rewrite Himage in Hx. injection Hx as <-.
    rewrite (keeps_run _ _ _ _ _ (kept_fsync_dir P _) Hc dst eq_refl), Hall. by rewrite decide_True.
  - left. by rewrite (replace_err _ _ _ _ _ R3), U2, U1.
Qed.

Lemma copy_vault_cases src dst mode d r d' :
  (forall q, q ∈ family src -> q ∉ family (partial_of dst)) -> copy_vault src dst mode d = (r, d') ->
  (file_at dst d' = file_at dst d ∧ is_ok r = false) ∨
  ∃ db, sq_connect (files_at src d) = Ok db ∧ check_connection db = Ok [] ∧ file_at dst d' = Some (sq_image db mode).
Proof.
  intros Hapart Hc. set (partial := partial_of dst) in *.
  set (P := fun q => q ∉ family partial).
  assert (P dst) as Hdst by apply partial_apart.
  assert (forall d, untouched P d (discard partial d).2) as Hdiscard.
  { apply kept_discard; [intros []; apply elem_of_family; by left|].
    intros s Hs []. apply elem_of_family. right. by exists s. }
  unfold copy_vault in Hc. fold partial in Hc.
  apply bind_cases in Hc as [(u1 & d1 & R1 & Hc)|(e & R1 & ->)];
    pose proof (keeps_run _ _ _ _ _ Hdiscard R1) as U1; [|left; split; [by apply U1|done]].
  pose proof (discard_Ok _ _ _ _ R1) as F1.
  assert (keeps (untouched P) (create_file partial)) as Hcreate
    by (apply kept_create_file; intros []; apply elem_of_family; by left).
  apply bind_cases in Hc as [(u2 & d2 & R2 & Hc)|(e & R2 & ->)];
    pose proof (keeps_run _ _ _ _ _ Hcreate R2) as U2; [|left; split; [by rewrite U2, U1|done]].
  pose proof (create_file_Ok _ _ _ _ R2) as F2.
  assert (files_at src d2 = files_at src d) as Hsrc.
  { assert (forall q, q ∈ family src -> file_at q d2 = file_at q d) as E.
    { intros q Hq. rewrite U2, U1; [done|by apply Hapart..]. }
    apply files_at_same; [apply E, elem_of_family; by left|].
    intros s Hs. apply E, elem_of_family. right. by exists s. }
  assert (forall d3 d4, untouched P d3 d4 -> file_at dst d4 = file_at dst d3) as Hat by (intros ? ? U; by apply U).
  assert (file_at partial d2 = Some []) as Hempty by (by rewrite F2, decide_True).
  assert (forall s, s ∈ SIDECARS -> file_at (beside partial s) d2 = None) as Hsides.
  { intros s Hs. rewrite F2, decide_False, F1, decide_True; [done|apply elem_of_family; right; by exists s|].
    intros E. rewrite <- (beside_nil partial) in E at 2. apply beside_inj in E as ->.
    repeat (apply elem_of_cons in Hs as [Hs|Hs]; [done|]). by apply elem_of_nil in Hs. }
  apply cleaning_up_cases in Hc as [(u3 & Hc & ->)|(e & d3 & Hc & [e' ->] & Hd)];
    destruct (copy_rest_cases _ _ _ _ _ _ Hsides Hempty Hc) as [[E Hr]|(db & Hdb & Hcheck & Hfile)]; try done.
  - rewrite Hsrc in Hdb. right. by exists db.
  - left. split; [|done]. destruct Hd as [->| ->]; [by rewrite E, U2, U1|].
    by rewrite (Hdiscard d3 dst Hdst), E, U2, U1.
  - right. exists db. rewrite Hsrc in Hdb. split_and!; [done..|]. destruct Hd as [->| ->]; [done|].
    by rewrite (Hdiscard d3 dst Hdst).
Qed.

(** ** Snapshots *)

Lemma vault_names p q : q ∈ family (vault_file p) -> q.1 = p ∧ take (length VAULT_FILE) q.2 = VAULT_FILE.
Proof.
  rewrite elem_of_family. intros [->|(s & Hs & ->)]; [done|]. split; [done|]. cbn [beside vault_file snd].
  apply take_app_length.
Qed.
Lemma partial_name (name x : pystr) :
  take (length VAULT_FILE) (name ++ str ".partial" ++ x) = VAULT_FILE -> take (length VAULT_FILE) name = VAULT_FILE.
Proof.
  change (length VAULT_FILE) with 8%nat. intros E.
  do 8 (destruct name as [|? name]; [discriminate E|]). exact E.
Qed.
Lemma partial_family_apart p dst q :
  ¬ (dst.1 = p ∧ take (length VAULT_FILE) dst.2 = VAULT_FILE) ->
  q ∈ family (vault_file p) -> q ∉ dst :: family (partial_of dst).
Proof.
  intros Hdst [Hp Hn]%vault_names [->|Hq]%elem_of_cons; [by apply Hdst|]. apply Hdst.
  unfold family in Hq. apply list_elem_of_fmap in Hq as (s & -> & _). unfold partial_of in *.
  rewrite beside_beside in Hp, Hn. cbn [beside fst snd] in *. split; [done|].
  by apply (partial_name _ s).
Qed.
Lemma files_at_family p d d' :
  (forall q, q ∈ family p -> file_at q d' = file_at q d) -> files_at p d' = files_at p d.
Proof.
  intros E. apply files_at_same; [apply E, elem_of_family; by left|].
  intros s Hs. apply E, elem_of_family. right. by exists s.
Qed.
Lemma catch_cases {A} (m : M Disk A) (h : exn -> exn) d r d' :
  catch m (fun e => throw (h e)) d = (r, d') ->
  m d = (r, d') ∨ ∃ e, m d = (Err e, d') ∧ r = Err (h e).
Proof. unfold catch. destruct (m d) as [[a|e] d1]; intros [= <- <-]; [by left|right; by exists e]. Qed.

Lemma kept_snapshot_target P p dst : keeps (untouched P) (snapshot_target p dst).
Proof. unfold snapshot_target. disk_tac. Qed.
Lemma snapshot_target_Ok p dst d t d' :
  snapshot_target p dst d = (Ok t, d') ->
  (forall q, dst = Some q -> t = q) ∧ ¬ (t.1 = p ∧ take (length VAULT_FILE) t.2 = VAULT_FILE) ∧ file_at t d = None.
Proof.
  intros Hs. pose proof (keeps_run _ _ _ _ _ (kept_snapshot_target (fun _ => True) _ _) Hs t I) as <-.
  unfold snapshot_target in Hs. apply bind_Ok in Hs as ([] & ? & [_ ->]%lift_Ok & Hs).
  apply bind_Ok in Hs as ([] & d1 & R1 & Hs). apply bind_Ok in Hs as (x & d2 & R2 & Hs).
  apply bind_Ok in Hs as ([] & ? & [Hname ->]%raise_if_Ok & Hs). apply bind_Ok in Hs as (there & ? & [= <- <-] & Hs).
  apply bind_Ok in Hs as ([] & ? & [Hex ->]%raise_if_Ok & [= <- <-]).
  split_and!.
  - intros q ->. by injection R2 as <- _.
  - intros [E1 E2]. by rewrite !bool_decide_eq_true_2 in Hname.
  - unfold exists_ in Hex. apply orb_false_iff in Hex as [Hf _]. unfold is_file in Hf.
    by destruct (file_at x d2).
Qed.

(** C17: A snapshot is whole or it is not there: whatever fails and wherever the
    process is killed, the vault's own files are as they were, and of the other
    files only partial copies beside the target may have changed and the target
    itself - and the target only at once, into a copy that opens on its own with the
    database the vault has and in which SQLite found no problem. When [snapshot]
    returns, the target is such a copy. *)
Theorem snapshot_is_whole data_dir destination d r d' :
  snapshot data_dir destination d = (r, d') ->
  (forall q, q ∈ family (vault_file data_dir) -> file_at q d' = file_at q d) ∧
  ∃ target,
    (forall p, destination = Some p -> target = p) ∧
    (forall q, file_at q d' ≠ file_at q d -> q ∈ family (partial_of target) ∨
      q = target ∧ file_at q d = None ∧ checked_copy (files_at (vault_file data_dir) d) (file_at q d')) ∧
    (forall t, r = Ok t -> t = target ∧ checked_copy (files_at (vault_file data_dir) d) (file_at t d')).
Proof.
  intros Hs. set (live := vault_file data_dir).
  unfold snapshot in Hs. apply bind_cases in Hs as [(t & d1 & R1 & Hs)|(e & R1 & ->)];
    pose proof (keeps_run _ _ _ _ _ (kept_snapshot_target (fun _ => True) _ _) R1) as U1.
  2: { split; [intros q _; by apply U1|]. exists (default live destination).
       split_and!; [by intros p ->|intros q Hq; destruct Hq; by apply U1|done]. }
  apply snapshot_target_Ok in R1 as (Hdst & Hname & Hnone).
  assert (∃ r1, copy_vault live t (str "DELETE") d1 = (r1, d') ∧ (is_ok r1 = false -> is_ok r = false) ∧ 
    forall x, r = Ok x -> x = t) as (r1 & Hcopy & Hr1 & Hr).
  { apply bind_cases in Hs as [(u & d2 & R2 & [= <- <-])|(e & R2 & ->)]; apply catch_cases in R2 as [R2|(e' & R2 & E)];
      try discriminate; eexists; (split; [exact R2|done || naive_solver]). }
  pose proof (partial_family_apart data_dir t) as Hapart.
  assert (files_at live d1 = files_at live d) as Elive by (apply files_at_family; intros q _; by apply U1).
  assert (forall q, q ∉ t :: family (partial_of t) -> file_at q d' = file_at q d) as Hother.
  { intros q Hq. rewrite (keeps_run _ _ _ _ _ (kept_family_copy (fun q => q ∉ t :: family (partial_of t)) live t _
      (fun q Hin H0 => H0 Hin)) Hcopy q Hq). by apply U1. }
  split; [intros q Hq; by apply Hother, Hapart|]. exists t. split; [done|].
  assert (forall q, file_at q d' ≠ file_at q d -> q = t ∨ q ∈ family (partial_of t)) as Hchanged.
  { intros q Hq. destruct (decide (q ∈ t :: family (partial_of t))) as [Hin|Hin]; [by apply elem_of_cons in Hin|].
    destruct Hq. by apply Hother. }
  destruct (copy_vault_cases live t _ _ _ _ (fun q Hq Hin => Hapart q Hname Hq (list_elem_of_further _ _ _ Hin)) Hcopy)
    as [[Hsame Hbad]|(db & Hdb & Hcheck & Hfile)].
  - split.
    + intros q Hq. destruct (Hchanged q Hq) as [->|]; [|by left]. destruct Hq. rewrite Hsame. by apply U1.
    + intros x ->. by apply Hr1 in Hbad.
  - assert (checked_copy (files_at live d) (file_at t d')) as Hwhole.
    { exists db, (sq_image db (str "DELETE")). rewrite <- Elive. split_and!; [done|done|done|apply image_read]. }
    split.
    + intros q Hq. destruct (Hchanged q Hq) as [->|]; [right|by left]. done.
    + intros x E. rewrite (Hr x E). done.
Qed.
End Copies.

(** A snapshot that is killed while SQLite copies *)
Definition demo_copy : res path * Disk :=
  @snapshot demo_sqlite demo_host demo_dir None
    (demo_disk [Runs; Runs; Runs; Runs; Runs; Killed_at 2] Unlocked).
Lemma demo_copy_killed : demo_copy.1 = Err Killed.
Proof. vm_compute. reflexivity. Qed.
Lemma snapshot_is_whole_witness :
  demo_copy.1 = Err Killed ∧
  file_at (demo_dir, VAULT_FILE ++ WAL) demo_copy.2 = file_at (demo_dir, VAULT_FILE ++ WAL) (demo_disk [] Unlocked).
Proof.
  split; [apply demo_copy_killed|].
  refine (proj1 (@snapshot_is_whole demo_sqlite demo_sqlite_laws demo_host demo_dir None _ _ _
    (surjective_pairing demo_copy)) (demo_dir, VAULT_FILE ++ WAL) _).
  right. left.
Defined.
