(* ===== verification/ReplaceSpec.v ===== *)
(** Restoring a snapshot and setting a vault aside (Storage.v): no step loses the
    vault that was there. *)
From Stdlib Require Import ZArith Lia Strings.String Strings.Byte.
From stdpp Require Import base list gmap strings.
From S2P Require Import Prelude Crypto Storage DiskSpec DiskDemo SnapshotSpec.

(** ** Retiring a vault *)

Section Retiring.
Context `{!Sqlite} `{!SqliteLaws} `{!Host}.

Lemma file_at_put_or_remove q p o d :
  dir_exists p.1 d = true -> file_at q (put_or_remove p o d) = if decide (q = p) then o else file_at q d.
Proof.
  intros Hd. destruct o as [b|]; cbn [put_or_remove]; [|apply file_at_remove]. rewrite file_at_put.
  destruct (decide (q = p)) as [->|Hne]; [by rewrite decide_True|by rewrite decide_False by naive_solver].
Qed.
Lemma dir_exists_put_or_remove x p o d : dir_exists x (put_or_remove p o d) = dir_exists x d.
Proof.
  unfold dir_exists. destruct o as [b|]; cbn [put_or_remove]; unfold put_file, remove_file;
    (destruct (dk_dirs d !! p.1) eqn:E; [|done]); cbn;
    (destruct (decide (x = p.1)) as [->|Hne]; [by rewrite lookup_insert_eq, E|by rewrite lookup_insert_ne]).
Qed.
Lemma beside_ne p s : s ≠ [] -> beside p s ≠ p.
Proof. intros Hs E. rewrite <- (beside_nil p) in E at 2. by apply beside_inj in E. Qed.
Lemma put_files_at p f d : dir_exists p.1 d = true -> files_at p (put_files p f d) = f.
Proof.
  intros Hd. unfold put_files, files_at.
  rewrite !file_at_put_or_remove by (rewrite ?dir_exists_put_or_remove; done).
  destruct f as [a b c e]. cbn [f_main f_wal f_shm f_journal].
  f_equal; repeat case_decide; try done; exfalso;
    match goal with
    | E : beside p _ = beside p _ |- _ => by apply beside_inj in E
    | E : p = beside p _ |- _ => by symmetry in E; apply beside_ne in E
    end.
Qed.
Lemma has_bytes_file p d : has_bytes p d = true -> is_file p d = true.
Proof. unfold has_bytes, is_file. by destruct (file_at p d). Qed.
Lemma is_file_dir p d : is_file p d = true -> dir_exists p.1 d = true.
Proof. unfold is_file. destruct (file_at p d) eqn:E; [|done]. intros _. by eapply file_at_dir. Qed.
Lemma is_file_main p d : is_file p d = is_some (f_main (files_at p d)).
Proof. done. Qed.

(** The vault [p] is there and reads as [old]. *)
Definition reads (old : database) (p : path) (d : Disk) : Prop :=
  sq_connect (files_at p d) = Ok old ∧ is_file p d = true.

Lemma next_event_dirs d e d' : next_event d = (Ok e, d') -> dk_dirs d' = dk_dirs d.
Proof. unfold next_event. destruct (dk_events d); by intros [= _ <-]. Qed.
Lemma reads_dirs old p d d' : dk_dirs d' = dk_dirs d -> reads old p d -> reads old p d'.
Proof.
  intros E [Hr Hf]. unfold reads, is_file. rewrite (file_at_dirs _ _ _ E). split; [|done].
  rewrite (files_at_family p d d'); [done|]. intros q _. by apply file_at_dirs.
Qed.
Lemma reads_put old p f d :
  dir_exists p.1 d = true -> sq_connect f = Ok old -> is_some (f_main f) = true -> reads old p (put_files p f d).
Proof. intros Hd Hf Hm. unfold reads. rewrite is_file_main, put_files_at by done. done. Qed.

(** Either nothing was done, or SQLite settled what was there. *)
Lemma take_exclusively_outcome live d r d' :
  is_file live d = true -> take_exclusively live d = (r, d') ->
  files_at live d' = files_at live d ∧ is_ok r = false ∨
  files_at live d' = (sq_take (files_at live d)).2 ∧
  forall c, r = Ok c -> (sq_take (files_at live d)).1 = Ok () ∧ c = true ∨
    c = false ∧ ∃ code, (sq_take (files_at live d)).1 = Err (DatabaseError code) ∧ is_unreadable code = true.
Proof.
  intros Hf Ht. unfold take_exclusively in Ht.
  apply bind_cases in Ht as [(f & ? & (-> & -> & _)%connect_existing_Ok & Ht)|(e & [Hc _]%connect_existing_Err & _)];
    [|congruence].
  apply bind_cases in Ht as [(e & d1 & He%next_event_dirs & Ht)|(e & He & _)];
    [|unfold next_event in He; by destruct (dk_events d)].
  assert (files_at live d1 = files_at live d) as E by (apply files_at_family; intros q _; by apply file_at_dirs).
  assert (dir_exists live.1 d1 = true) as Hd1.
  { apply is_file_dir. unfold is_file in *. by rewrite (file_at_dirs _ _ _ He). }
  destruct e as [|n|n].
  - right. apply bind_cases in Ht as [(o & d2 & R & Ht)|(e & R & _)];
      (apply bind_cases in R as [(u & d3 & [= _ <-] & R)|(e' & [=] & _)]); [|discriminate R].
    injection R as <- <-. destruct (sq_take (files_at live d)).1 as [[]|e] eqn:Etake.
    + injection Ht as <- <-. split; [by apply put_files_at|]. intros c [= <-]. by left.
    + destruct e; try (injection Ht as <- <-; split; [by apply put_files_at|done]).
      destruct (is_busy code); [by injection Ht as <- <-; split; [apply put_files_at|]|].
      destruct (is_unreadable code) eqn:Eu; injection Ht as <- <-; (split; [by apply put_files_at|]); [|done].
      intros c [= <-]. right. split; [done|]. by exists code.
  - cbn in Ht. injection Ht as <- <-. by left.
  - apply bind_cases in Ht as [(o & d2 & R & Ht)|(e & R & ->)].
    + apply bind_cases in R as [(u & d3 & _ & [=])|(e & _ & [=])].
    + destruct (Nat.odd n); apply bind_cases in R as [(u & d3 & [= _ <-] & [= _ <-])|(e' & [=] & _)];
        [right; by split; [apply put_files_at|]|by left].
Qed.
Lemma take_exclusively_cases old live d r d' :
  reads old live d -> take_exclusively live d = (r, d') ->
  reads old live d' ∧
  forall c, r = Ok c -> c = true ∧ sq_connect (with_wal_only (files_at live d')) = Ok old.
Proof.
  intros [Hr Hf] Ht. unfold reads. rewrite is_file_main in *.
  destruct (take_exclusively_outcome _ _ _ _ Hf Ht) as [[-> Hno]|[-> Hok]].
  - split; [done|]. by intros c ->.
  - rewrite take_read, take_keeps_vault. split; [done|]. intros c Hc.
    destruct (Hok c Hc) as [[Htake ->]|(-> & code & Htake & Hu)].
    + by rewrite (take_settles _ Htake).
    + pose proof (take_unreadable _ _ Htake Hu) as Hbad. by rewrite Hr in Hbad.
Qed.

Lemma fold_in_cases old live d r d' : reads old live d -> fold_in live d = (r, d') -> reads old live d'.
Proof.
  intros [Hr Hf] Ht. unfold fold_in in Ht.
  apply bind_cases in Ht as [(f & ? & [= <- <-] & Ht)|(e & [=] & _)].
  apply bind_cases in Ht as [(e & d1 & He%next_event_dirs & Ht)|(e & He & _)];
    [|unfold next_event in He; by destruct (dk_events d)].
  pose proof (reads_dirs old live _ _ He (conj Hr Hf)) as [Hr1 Hf1].
  pose proof (is_file_dir _ _ Hf1) as Hd1.
  destruct e as [|n|n].
  - injection Ht as _ <-. apply reads_put; [done|by rewrite fold_read|by rewrite fold_keeps_vault].
  - injection Ht as _ <-. apply reads_put; [done|by rewrite folding_read|by rewrite folding_keeps_vault].
  - apply bind_cases in Ht as [(u & d2 & [= _ <-] & [= _ <-])|(e' & [=] & _)].
    apply reads_put; [done|by rewrite folding_read|by rewrite folding_keeps_vault].
Qed.

(** The copy a restore keeps of the vault it replaces reads as [old]. *)
Definition raw_copy (live : path) (kept : dir) : path := (kept, live.2).
Definition kept_copy (old : database) (live : path) (kept : dir) (d : Disk) : Prop :=
  sq_connect (with_wal_only (files_at (raw_copy live kept) d)) = Ok old.
Lemma kept_copy_same old live kept d d' :
  file_at (raw_copy live kept) d' = file_at (raw_copy live kept) d ->
  file_at (beside (raw_copy live kept) WAL) d' = file_at (beside (raw_copy live kept) WAL) d ->
  kept_copy old live kept d -> kept_copy old live kept d'.
Proof. intros E1 E2. unfold kept_copy, with_wal_only, files_at. cbn. by rewrite E1, E2. Qed.

Lemma mkdir_new_Ok p d u d' :
  mkdir_new p d = (Ok u, d') ->
  (forall q, file_at q d' = file_at q d) ∧ dir_exists p d = false ∧ dir_exists p d' = true.
Proof.
  intros Hm. unfold mkdir_new in Hm. apply atomically_Ok in Hm as (d1 & E & _ & Hm).
  apply bind_Ok in Hm as (b & ? & [= <- <-] & Hm). apply bind_Ok in Hm as ([] & ? & [R ->]%raise_if_Ok & Hm).
  unfold modify in Hm. injection Hm as _ <-. apply orb_false_iff in R as [_ R].
  assert (dir_exists p d = false) as R' by (unfold dir_exists in *; by rewrite <- E).
  split_and!; [intros q; rewrite file_at_make_dir; by apply file_at_dirs|done|].
  unfold make_dir. rewrite R. unfold dir_exists. cbn. by rewrite lookup_insert_eq.
Qed.
Lemma kept_folder_Ok folder d k d' :
  kept_folder folder d = (Ok k, d') ->
  (forall q, file_at q d' = file_at q d) ∧ (forall n, file_at (k, n) d = None) ∧ dir_exists k d' = true ∧
  ∃ name, k = folder ++ [name].
Proof.
  unfold kept_folder, timestamp. intros Hk. apply bind_Ok in Hk as (name & d1 & Ht & Hk).
  apply bind_Ok in Ht as (n & ? & [= <- <-] & Ht). apply bind_Ok in Ht as (u & d2 & [= _ <-] & [= <- <-]).
  apply bind_Ok in Hk as (u' & d3 & (Hf & Hno & Hyes)%mkdir_new_Ok & [= <- <-]). split_and!; [done| |done|by eexists].
  intros n. unfold file_at. unfold dir_exists in Hno. cbn in Hno |- *. by destruct (dk_dirs d !! _).
Qed.
Lemma copyfile_Ok a b d u d' :
  copyfile a b d = (Ok u, d') -> dir_exists b.1 d = true ->
  forall q, file_at q d' = if decide (q = b) then file_at a d else file_at q d.
Proof.
  intros Hc Hd q. unfold copyfile, gradually in Hc. apply bind_Ok in Hc as (o & ? & [= <- <-] & Hc).
  destruct (file_at a d) as [x|]; [|done]. apply bind_Ok in Hc as (e & d1 & He%next_event_dirs & Hc).
  destruct e; [|by apply bind_Ok in Hc as (? & ? & _ & ?)..]. unfold modify in Hc. injection Hc as _ <-.
  rewrite file_at_put, (file_at_dirs _ _ _ He). unfold dir_exists in *. rewrite He.
  destruct (decide (q = b)) as [->|Hne]; [by rewrite decide_True|by rewrite decide_False by naive_solver].
Qed.
Lemma dir_exists_keeps_files k d d' : dk_dirs d' = dk_dirs d -> dir_exists k d' = dir_exists k d.
Proof. intros E. unfold dir_exists. by rewrite E. Qed.

Lemma kept_keep_raw P live kept :
  (forall n, ¬ P (kept, n)) -> keeps (untouched P) (keep_raw live kept).
Proof. intros HP. unfold keep_raw. disk_tac. Qed.
Lemma kept_move_sidecars P live kept :
  (forall s, s ∈ SIDECARS -> ¬ P (beside live s)) ->
  (forall s, s ∈ SIDECARS -> ¬ P (kept, live.2 ++ s ++ str ".unfolded")) ->
  keeps (untouched P) (move_sidecars live kept).
Proof.
  intros HP HQ. unfold move_sidecars. apply keeps_bind; [apply _| |intros ?; disk_tac].
  apply keeps_foldM_in; [apply _|]. intros b s Hs. disk_tac. apply kept_replace; [by apply HP|].
  cbn [beside snd]. rewrite <- app_assoc. by apply HQ.
Qed.

Lemma exists_file p d : exists_ p d = false -> file_at p d = None.
Proof. unfold exists_, is_file. destruct (file_at p d); [done|by intros _]. Qed.

(** One file of [keep_raw] *)
Lemma keep_one_Ok live kept s d u d' :
  file_at (kept, (beside live s).2) d = None -> dir_exists kept d = true ->
  (there ← gets (exists_ (beside live s));
   if there : bool then
     copyfile (beside live s) (kept, (beside live s).2);; chmod (kept, (beside live s).2);;
     fsync (kept, (beside live s).2)
   else mret ()) d = (Ok u, d') ->
  forall q, file_at q d' = if decide (q = (kept, (beside live s).2)) then file_at (beside live s) d else file_at q d.
Proof.
  intros Hnone Hdir Hk q. apply bind_Ok in Hk as (there & ? & [= <- <-] & Hk).
  destruct (exists_ (beside live s) d) eqn:E.
  - apply bind_Ok in Hk as (u1 & d1 & Hc & Hk). apply bind_Ok in Hk as (u2 & d2 & Hm & Hk).
    apply fsync_Ok in Hk. unfold chmod in Hm. apply atomically_Ok in Hm as (d3 & E3 & _ & [= _ <-]).
    rewrite (file_at_dirs _ _ _ Hk), (file_at_dirs _ _ _ E3). by apply (copyfile_Ok _ _ _ _ _ Hc).
  - injection Hk as _ <-. apply exists_file in E. rewrite E. by case_decide as Eq; [rewrite Eq|].
Qed.

Lemma keep_raw_Ok live kept d u d' :
  (forall n, file_at (kept, n) d = None) -> dir_exists kept d = true -> is_file live d = true -> live.1 ≠ kept ->
  keep_raw live kept d = (Ok u, d') ->
  file_at (raw_copy live kept) d' = file_at live d ∧
  file_at (beside (raw_copy live kept) WAL) d' = file_at (beside live WAL) d.
Proof.
  intros Hnone Hdir Hf Hne Hk. unfold keep_raw in Hk. apply bind_Ok in Hk as (u1 & d1 & Hloop & Hk).
  apply bind_Ok in Hk as (u2 & d2 & Hs1%fsync_dir_Ok & Hs2%fsync_dir_Ok).
  rewrite !(file_at_dirs _ _ _ Hs2), !(file_at_dirs _ _ _ Hs1). cbn [foldM] in Hloop.
  apply bind_Ok in Hloop as (u3 & d3 & H3 & Hloop). apply bind_Ok in Hloop as (u4 & d4 & H4 & [= _ <-]).
  pose proof (keep_one_Ok _ _ _ _ _ _ (Hnone _) Hdir H3) as F3. rewrite beside_nil in F3.
  assert (dir_exists kept d3 = true) as Hdir3.
  { specialize (F3 (raw_copy live kept)). rewrite decide_True in F3 by done. unfold is_file in Hf.
    destruct (file_at live d) as [b|]; [|done]. by apply file_at_dir in F3. }
  assert ((kept, live.2) ≠ (kept, (beside live WAL).2)) as Hnames.
  { intros [= E]. rewrite <- (app_nil_r live.2) in E at 1. by apply app_inv_head in E. }
  assert (beside live WAL ≠ (kept, live.2)) as Hw by (intros E; exact (Hne (f_equal fst E))).
  assert (file_at (kept, (beside live WAL).2) d3 = None) as Hnone3 by (by rewrite F3, decide_False by done).
  pose proof (keep_one_Ok _ _ _ _ _ _ Hnone3 Hdir3 H4) as F4. split.
  - rewrite F4, decide_False by done. by rewrite F3, decide_True.
  - rewrite F4, decide_True by done. by rewrite F3, decide_False.
Qed.

Lemma move_sidecars_Ok live kept d u d' :
  live.1 ≠ kept -> move_sidecars live kept d = (Ok u, d') ->
  forall s, s ∈ SIDECARS -> file_at (beside live s) d' = None.
Proof.
  intros Hne Hm. unfold move_sidecars in Hm. apply bind_Ok in Hm as (u1 & d1 & Hloop & Hm).
  apply bind_Ok in Hm as (u2 & d2 & Hs1%fsync_dir_Ok & Hs2%fsync_dir_Ok).
  intros s Hs. rewrite !(file_at_dirs _ _ _ Hs2), !(file_at_dirs _ _ _ Hs1). clear Hs1 Hs2.
  assert (forall l d u d1, foldM (fun (_ : ()) suffix =>
      let sidecar := beside live suffix in
      there ← gets (exists_ sidecar);
      if there : bool then replace sidecar (kept, sidecar.2 ++ str ".unfolded") else mret ()) l u d = (Ok u1, d1) ->
    forall s, (s ∈ l ∨ file_at (beside live s) d = None) -> file_at (beside live s) d1 = None) as Hgen.
  { clear -Hne. induction l as [|x l IH]; intros d u d1 Hl s Hs; cbn [foldM] in Hl.
    - injection Hl as _ <-. by destruct Hs as [?%elem_of_nil|].
    - apply bind_Ok in Hl as (u2 & d2 & Hx & Hl). apply (IH _ _ _ Hl).
      apply bind_Ok in Hx as (there & ? & [= <- <-] & Hx).
      assert (forall y, (y = x ∨ file_at (beside live y) d = None) -> file_at (beside live y) d2 = None) as Hstep.
      { intros y Hy. destruct (exists_ (beside live x) d) eqn:E.
        - apply replace_Ok in Hx as (b & _ & Hall). rewrite Hall.
          rewrite decide_False by (intros Eq; exact (Hne (f_equal fst Eq))).
          destruct Hy as [->|Hy]; [by rewrite decide_True|by case_decide].
        - injection Hx as _ <-. apply exists_file in E. by destruct Hy as [->|]. }
      destruct Hs as [[->|Hin]%elem_of_cons|Hnone]; [right; apply Hstep; by left|by left|right; apply Hstep; by right]. }
  apply (Hgen SIDECARS _ _ _ Hloop). by left.
Qed.

Lemma reads_untouched old live (P : path -> Prop) d d' :
  (forall q, q ∈ family live -> P q) -> untouched P d d' -> reads old live d -> reads old live d'.
Proof.
  intros HP U [Hr Hf]. unfold reads, is_file. rewrite (files_at_family live d d') by (intros q Hq; apply U; auto).
  split; [done|]. rewrite U; [done|]. apply HP, elem_of_family. by left.
Qed.
Lemma family_dir q p : q ∈ family p -> q.1 = p.1.
Proof. intros [->|(s & _ & ->)]%elem_of_family; done. Qed.
Lemma unfolded_apart live kept q s :
  s ∈ SIDECARS -> q = raw_copy live kept ∨ q = beside (raw_copy live kept) WAL -> q ≠ (kept, live.2 ++ s ++ str ".unfolded").
Proof.
  intros Hs [->| ->] [= E].
  - rewrite <- (app_nil_r live.2) in E at 1. apply app_inv_head in E. by destruct s.
  - apply app_inv_head in E. repeat (apply elem_of_cons in Hs as [->|Hs]; [discriminate E|]). by apply elem_of_nil in Hs.
Qed.

Lemma kept_kept_folder P folder : keeps (untouched P) (kept_folder folder).
Proof. unfold kept_folder. disk_tac. Qed.

(** The copies are made: folding the journal in, moving what is left of it *)
Lemma retire_rest_cases old live kept b d r d' :
  reads old live d -> live.1 ≠ kept -> kept_copy old live kept d ->
  ((if b : bool then fold_in live else mret ());; move_sidecars live kept;; mret (Some kept)) d = (r, d') ->
  is_file live d' = true ∧ (reads old live d' ∨ kept_copy old live kept d') ∧
  forall o, r = Ok o -> o = Some kept ∧ kept_copy old live kept d' ∧
    forall s, s ∈ SIDECARS -> file_at (beside live s) d' = None.
Proof.
  intros Hr Hne Hcopy Hret.
  set (K := fun q => q = raw_copy live kept ∨ q = beside (raw_copy live kept) WAL).
  assert (forall d1 d2, untouched K d1 d2 -> kept_copy old live kept d1 -> kept_copy old live kept d2) as HK.
  { intros x y U Hc. apply (kept_copy_same _ _ _ x); [apply U; by left|apply U; by right|done]. }
  assert (forall q, q.1 = live.1 -> ¬ K q) as HnK by (intros q Hq [->| ->]; exact (Hne (eq_sym Hq))).
  assert (forall r1 d1, (if b : bool then fold_in live else mret ()) d = (r1, d1) -> reads old live d1 ∧ kept_copy old live kept d1) as Hfold.
  { intros r1 d1 Hf. destruct b; [|by injection Hf as _ <-]. split; [by eapply fold_in_cases|].
    apply (keeps_run (untouched K)) in Hf; [by apply (HK _ _ Hf)|].
    apply kept_fold_in; [by apply HnK|intros s _; by apply HnK]. }
  apply bind_cases in Hret as [(u1 & d1 & R1 & Hret)|(e & R1 & ->)]; apply Hfold in R1 as [Hr1 Hc1].
  2: { split; [apply Hr1|]. split; [by left|done]. }
  assert (keeps (untouched K) (move_sidecars live kept)) as HmK.
  { apply kept_move_sidecars; [intros s _; by apply HnK|]. intros s Hs Hq. by apply (unfolded_apart live _ _ s Hs Hq). }
  assert (keeps (untouched (fun q => q = live)) (move_sidecars live kept)) as Hml.
  { apply kept_move_sidecars; [intros s Hs; apply beside_ne; intros ->; cbv in Hs; set_solver|].
    intros s _ E. exact (Hne (eq_sym (f_equal fst E))). }
  apply bind_cases in Hret as [(u2 & d2 & Hmove & [= <- <-])|(e & Hmove & ->)];
    pose proof (keeps_run _ _ _ _ _ HmK Hmove) as UK; pose proof (keeps_run _ _ _ _ _ Hml Hmove live eq_refl) as Ul;
    (split; [unfold is_file; rewrite Ul; apply Hr1|]); apply (HK _ _ UK) in Hc1; (split; [by right|]); [|done].
  intros o [= <-]. split_and!; [done|done|]. by eapply move_sidecars_Ok.
Qed.

Lemma retire_cases old live folder d r d' :
  has_bytes live d = true -> reads old live d -> (forall name, live.1 ≠ folder ++ [name]) ->
  retire live folder d = (r, d') ->
  is_file live d' = true ∧
  (reads old live d' ∨ ∃ name, kept_copy old live (folder ++ [name]) d') ∧
  (forall o, r = Ok o -> ∃ name, o = Some (folder ++ [name]) ∧ kept_copy old live (folder ++ [name]) d' ∧
     forall s, s ∈ SIDECARS -> file_at (beside live s) d' = None).
Proof.
  intros Hfull Hr Hapart Hret. set (P := fun q => q ∈ family live).
  assert (forall d1, reads old live d1 -> d' = d1 -> is_ok r = false ->
    is_file live d' = true ∧ (reads old live d' ∨ ∃ name, kept_copy old live (folder ++ [name]) d') ∧
    (forall o, r = Ok o -> ∃ name, o = Some (folder ++ [name]) ∧ kept_copy old live (folder ++ [name]) d' ∧
       forall s, s ∈ SIDECARS -> file_at (beside live s) d' = None)) as Hbad.
  { intros d1 Hrd -> Hno. split; [apply Hrd|]. split; [by left|]. by intros o ->. }
  unfold retire in Hret. apply bind_cases in Hret as [(hv & ? & [= <- <-] & Hret)|(e & [=] & _)].
  apply bind_cases in Hret as [(sc & ? & [= <- <-] & Hret)|(e & [=] & _)].
  rewrite Hfull in Hret. cbn [negb andb] in Hret.
  apply bind_cases in Hret as [(c & d1 & Ht & Hret)|(e & Ht & ->)];
    apply (take_exclusively_cases old _ _ _ _ Hr) in Ht as [Hr1 Htaken]; [|by apply (Hbad d')].
  destruct (Htaken c eq_refl) as [-> Hraw]. clear Htaken.
  apply bind_cases in Hret as [(kept & d2 & Hk & Hret)|(e & Hk & ->)].
  2: { apply (Hbad d'); [|done|done]. by eapply (reads_untouched old live P); [|exact (keeps_run _ _ _ _ _ (kept_kept_folder P _) Hk)|]. }
  apply kept_folder_Ok in Hk as (Hsame & Hnone & Hdir & name & ->).
  assert (reads old live d2) as Hr2 by (eapply (reads_untouched old live P); [done|intros q _; apply Hsame|done]).
  assert (forall n, ¬ P (folder ++ [name], n)) as Hk by (intros n Hin%family_dir; by destruct (Hapart name)).
  apply bind_cases in Hret as [(u & d3 & Hkeep & Hret)|(e & Hkeep & ->)];
    pose proof (keeps_run (untouched P) _ _ _ _ (kept_cleaning_up P _ _ (kept_keep_raw P live _ Hk) (kept_rmtree P _ Hk)) Hkeep) as U3;
    pose proof (reads_untouched old live P _ _ (fun q Hq => Hq) U3 Hr2) as Hr3; [|by apply (Hbad d')].
  apply cleaning_up_cases in Hkeep as [(u' & Hkeep & _)|(e & d4 & _ & [e' [=]] & _)].
  apply keep_raw_Ok in Hkeep as [Ha Hb]; [|intros n; by rewrite Hsame|done|apply Hr2|done].
  assert (kept_copy old live (folder ++ [name]) d3) as Hcopy.
  { unfold kept_copy, with_wal_only, files_at. cbn [f_main f_wal]. rewrite Ha, Hb.
    rewrite <- Hraw. unfold with_wal_only, files_at. cbn [f_main f_wal]. by rewrite !Hsame. }
  apply (retire_rest_cases _ _ _ true _ _ _ Hr3 (Hapart name) Hcopy) in Hret as (Hf & Hw & Hok).
  split; [done|]. split; [destruct Hw; [by left|right; by exists name]|].
  intros o Ho. destruct (Hok o Ho) as (-> & ? & ?). by exists name.
Qed.

Lemma keeps_bind_run {S A B} (R : S -> S -> Prop) `{!PreOrder R} (m : M S A) (f : A -> M S B) :
  keeps R m -> (forall s a s1, m s = (Ok a, s1) -> R s1 (f a s1).2) -> keeps R (m ≫= f).
Proof.
  intros Hm Hf s. specialize (Hm s). unfold mbind, M_bind. destruct (m s) as [[a|e] s1] eqn:E; [|done].
  etrans; [exact Hm|by eapply Hf].
Qed.
Lemma kept_retire P live folder :
  (forall q, q ∈ family live -> ¬ P q) -> (forall name n, ¬ P (folder ++ [name], n)) ->
  keeps (untouched P) (retire live folder).
Proof.
  intros Hl Hf. assert (¬ P live) as Hlive by (apply Hl, elem_of_family; by left).
  assert (forall s, s ∈ SIDECARS -> ¬ P (beside live s)) as Hs
    by (intros s Hs; apply Hl, elem_of_family; right; by exists s).
  unfold retire. apply keeps_bind; [apply _|disk_tac|]. intros has_vault.
  apply keeps_bind; [apply _|disk_tac|]. intros sidecars. destruct (_ && _); [disk_tac|].
  apply keeps_bind; [apply _|destruct has_vault; disk_tac; by apply kept_take|]. intros connection.
  apply keeps_bind_run; [apply _|apply kept_kept_folder|]. intros d k d1 (_ & _ & _ & name & ->)%kept_folder_Ok.
  match goal with |- untouched P d1 (?m d1).2 => assert (keeps (untouched P) m) as Hm; [|exact (Hm d1)] end.
  apply keeps_bind; [apply _| |intros _].
  { apply kept_cleaning_up; [destruct has_vault; [by apply kept_keep_raw|disk_tac]|by apply kept_rmtree]. }
  apply keeps_bind; [apply _|destruct connection; [by apply kept_fold_in|disk_tac]|intros _].
  apply keeps_bind; [apply _|by apply kept_move_sidecars|intros _; disk_tac].
Qed.

(** ** Restoring a snapshot *)

Lemma handling_cases {A} (m : M Disk A) h d r d' :
  handling m h d = (r, d') ->
  ∃ r1 d1, m d = (r1, d1) ∧ ((d' = d1 ∧ r = r1) ∨ ∃ e, r1 = Err e ∧ h e d1 = (r, d')).
Proof.
  unfold handling, catch. destruct (m d) as [[a|e] d1]; intros Hr; [injection Hr as <- <-; exists (Ok a), d1; split; [done|by left]|].
  exists (Err e), d1. split; [done|].
  destruct e; first [right; eexists; split; [reflexivity|exact Hr] | injection Hr as <- <-; by left].
Qed.
Lemma finally_modify {A} (m : M Disk A) g d r d' :
  finally m (modify g) d = (r, d') -> ∃ d1, m d = (r, d1) ∧ (d' = d1 ∨ d' = g d1).
Proof.
  unfold finally, cleaning_up, handling, catch, mbind, M_bind. destruct (m d) as [[a|e] d1].
  - intros [= <- <-]. exists d1. split; [done|by right].
  - destruct e; intros [= <- <-]; (exists d1; split; [done|]); first [by left|by right].
Qed.
Lemma with_lock_cases {A} p (body : M Disk A) d r d' :
  with_lock p body d = (r, d') ->
  untouched (fun q => q ≠ (p, LOCK_FILE)) d d' ∧ is_ok r = false ∨
  ∃ d1 d2, untouched (fun q => q ≠ (p, LOCK_FILE)) d d1 ∧ body d1 = (r, d2) ∧ dk_dirs d' = dk_dirs d2.
Proof.
  intros Hw. unfold with_lock in Hw.
  assert (keeps (untouched (fun q => q ≠ (p, LOCK_FILE))) (acquire p)) as Hk by (apply kept_acquire; by intros []).
  apply bind_cases in Hw as [(u & d1 & Ha & Hw)|(e & Ha & ->)]; apply (keeps_run _ _ _ _ _ Hk) in Ha; [|by left].
  right. apply finally_modify in Hw as (d2 & Hb & Hd). exists d1, d2. split_and!; [done|done|].
  by destruct Hd as [->| ->].
Qed.

Lemma family_length q p : q ∈ family p -> (length p.2 ≤ length q.2 ≤ length p.2 + 8)%nat.
Proof.
  unfold family. intros (s & -> & Hs)%list_elem_of_fmap. cbn [beside snd]. rewrite length_app.
  assert (length s ≤ 8)%nat by (cbv in Hs; set_unfold; repeat destruct Hs as [->|Hs]; cbn; [lia..|done]).
  lia.
Qed.
(** A name of the data folder's own *)
Definition own_name (p : dir) (q : path) : Prop := q.1 = p ∧ take 5 q.2 = str "vault".
Lemma own_family p q x : ¬ own_name p q -> x ∈ family q -> ¬ own_name p x.
Proof.
  unfold family. intros Hq (s & -> & Hs)%list_elem_of_fmap [E1 E2]. apply Hq. split; [exact E1|].
  cbn [beside snd] in E2. destruct q as [qd n]. cbn [snd] in *. clear Hq E1.
  change (str "vault") with [118; 97; 117; 108; 116]%N in *.
  assert (s = [] ∨ head s = Some 45%N) as Hs' by (cbv in Hs; set_unfold; repeat destruct Hs as [->|Hs]; auto; done).
  do 5 (destruct n as [|? n]; [destruct Hs' as [->|Hh]; [exact E2|destruct s as [|c s]; [done|]; injection Hh as ->; exfalso; simpl in E2; congruence]|]).
  exact E2.
Qed.
Lemma snapshot_dir_ne p name : p ≠ snapshot_dir p ++ [name].
Proof. intros E. apply (f_equal length) in E. unfold snapshot_dir in E. rewrite !length_app in E. cbn in E. lia. Qed.

Section Restored.
Context (data_dir : dir) (old : database).
Abbreviation live := (vault_file data_dir).
Abbreviation folder := (snapshot_dir data_dir).
Abbreviation staged := (staged_of live).

(** The old vault is somewhere, and the vault's file is there. *)
Definition whole (d : Disk) : Prop :=
  is_file live d = true ∧ (reads old live d ∨ ∃ name, kept_copy old live (folder ++ [name]) d).
Definition precious (q : path) : Prop := q ∈ family live ∨ ∃ name, q.1 = folder ++ [name].

Lemma whole_untouched d d' : untouched precious d d' -> whole d -> whole d'.
Proof.
  intros U [Hf Hr]. split.
  - unfold is_file. rewrite U; [done|]. left. apply elem_of_family. by left.
  - destruct Hr as [Hr|(name & Hc)].
    + left. eapply (reads_untouched old live precious); [|done|done]. intros q Hq. by left.
    + right. exists name. eapply kept_copy_same; [..|exact Hc]; apply U; right; by exists name.
Qed.
Lemma lock_not_precious : ¬ precious (data_dir, LOCK_FILE).
Proof.
  intros [Hin|(name & E)]; [|by apply snapshot_dir_ne in E]. apply vault_names in Hin as [_ E]. discriminate E.
Qed.
Lemma long_not_precious q : q.1 = data_dir -> (17 ≤ length q.2)%nat -> ¬ precious q.
Proof.
  intros Hq Hl [Hin%family_length|(name & E)]; [change (length live.2) with 8%nat in Hin; lia|]. rewrite Hq in E. by apply snapshot_dir_ne in E.
Qed.
Lemma staged_not_precious q : q ∈ staged :: family (partial_of staged) ++ family staged -> ¬ precious q.
Proof.
  intros Hq. assert (q.1 = data_dir ∧ (17 ≤ length q.2)%nat) as [E Hl]; [|by apply long_not_precious].
  assert (length staged.2 = 18%nat ∧ length (partial_of staged).2 = 26%nat) as [L1 L2] by done.
  apply elem_of_cons in Hq as [->|[Hq|Hq]%elem_of_app]; [split; [done|lia]|..];
    (split; [by apply family_dir in Hq|apply family_length in Hq; lia]).
Qed.

(** What a finished restore leaves *)
Definition restored (source : path) (d : Disk) (o : option dir) (d' : Disk) : Prop :=
  ∃ name new, o = Some (folder ++ [name]) ∧ kept_copy old live (folder ++ [name]) d' ∧
    sq_connect (files_at source d) = Ok new ∧ check_connection new = Ok [] ∧ sq_connect (files_at live d') = Ok new.

Lemma kept_copy_precious name d d' :
  untouched (fun q => ∃ name, q.1 = folder ++ [name]) d d' ->
  kept_copy old live (folder ++ [name]) d -> kept_copy old live (folder ++ [name]) d'.
Proof. intros U. apply kept_copy_same; apply U; by exists name. Qed.
Lemma staged_files (P : path -> Prop) :
  (forall q, P q -> precious q) -> forall q, q ∈ staged :: family (partial_of staged) ++ family staged -> ¬ P q.
Proof. intros HP q Hin Hq. exact (staged_not_precious q Hin (HP q Hq)). Qed.
Lemma kept_copy_staged source mode : keeps (untouched precious) (copy_vault source staged mode).
Proof.
  apply kept_family_copy. intros q Hq. apply staged_not_precious.
  apply elem_of_cons in Hq as [->|Hq]; [by left|right; apply elem_of_app; by left].
Qed.
Lemma kept_discard_staged : keeps (untouched precious) (discard staged).
Proof.
  apply kept_discard; [apply staged_not_precious; by left|].
  intros s Hs. apply staged_not_precious. right. apply elem_of_app. right. apply elem_of_family. right. by exists s.
Qed.

(** The staged copy in the place of a vault that was retired *)
Lemma swap_in_Ok name image db d u d' :
  sq_connect (alone image) = Ok db -> file_at staged d = Some image ->
  (forall s, s ∈ SIDECARS -> file_at (beside live s) d = None) ->
  replace staged live d = (Ok u, d') -> kept_copy old live (folder ++ [name]) d ->
  sq_connect (files_at live d') = Ok db ∧ is_file live d' = true ∧ kept_copy old live (folder ++ [name]) d'.
Proof.
  intros Hdb Himage Hnone Hr Hkept. apply replace_Ok in Hr as (x & Hx & Hall). rewrite Himage in Hx. injection Hx as <-.
  assert (file_at live d' = Some image) as Hlive by (by rewrite Hall, decide_True).
  split_and!.
  - assert (files_at live d' = alone image) as ->; [|done].
    unfold files_at, alone. rewrite Hlive. assert (forall s, s ∈ SIDECARS -> file_at (beside live s) d' = None) as Hs.
    { intros s Hs. rewrite Hall, decide_False.
      - case_decide; [done|by apply Hnone].
      - apply beside_ne. intros ->. cbv in Hs. set_solver. }
    by rewrite !Hs by set_solver.
  - unfold is_file. by rewrite Hlive.
  - eapply kept_copy_precious; [|exact Hkept]. intros q (n & Hq). rewrite Hall.
    rewrite decide_False, decide_False; [done|..]; intros ->; by apply snapshot_dir_ne in Hq.
Qed.

Lemma swap_in_cases name image db d r d' :
  sq_connect (alone image) = Ok db -> file_at staged d = Some image ->
  (forall s, s ∈ SIDECARS -> file_at (beside live s) d = None) -> kept_copy old live (folder ++ [name]) d ->
  is_file live d = true ->
  (replace staged live;; fsync_dir data_dir;; mret (Some (folder ++ [name]))) d = (r, d') ->
  whole d' ∧ forall o, r = Ok o ->
    o = Some (folder ++ [name]) ∧ kept_copy old live (folder ++ [name]) d' ∧ sq_connect (files_at live d') = Ok db.
Proof.
  intros Hdb Himage Hgone Hkept Hf Hv. apply bind_cases in Hv as [(u1 & d1 & R & Hv)|(e & R & ->)].
  2: { split; [|done]. apply (whole_untouched d); [|split; [done|right; by exists name]].
       intros q _. by rewrite (replace_err _ _ _ _ _ R). }
  destruct (swap_in_Ok _ _ _ _ _ _ Hdb Himage Hgone R Hkept) as (Hlive & Hf1 & Hkept1).
  assert (untouched (fun _ => True) d1 d') as U.
  { apply bind_cases in Hv as [(u2 & d2 & R2 & [= _ <-])|(e & R2 & _)]; exact (keeps_run _ _ _ _ _ (kept_fsync_dir (fun _ => True) _) R2). }
  assert (kept_copy old live (folder ++ [name]) d' ∧ sq_connect (files_at live d') = Ok db ∧ is_file live d' = true) as (? & ? & ?).
  { split_and!; [by eapply kept_copy_precious; [intros q _; by apply U|]| |unfold is_file; by rewrite U].
    by rewrite (files_at_family live d1 d') by (intros q _; by apply U). }
  split; [split; [done|]; right; by exists name|]. intros o Ho.
  apply bind_cases in Hv as [(u2 & d2 & R2 & [= <- <-])|(e & R2 & ->)]; [by injection Ho as <-|done].
Qed.

Lemma replace_vault_cases source d r d' :
  ¬ own_name data_dir source -> has_bytes live d = true -> reads old live d ->
  replace_vault data_dir source d = (r, d') -> whole d' ∧ forall o, r = Ok o -> restored source d o d'.
Proof.
  intros Hsource Hfull Hreads Hv. set (All := fun _ : path => True).
  assert (forall d1, whole d1 -> d' = d1 -> is_ok r = false -> whole d' ∧ forall o, r = Ok o -> restored source d o d') as Hbad
    by (intros d1 Hw -> Hno; split; [done|by intros o ->]).
  assert (whole d) as Hd by (split; [by apply has_bytes_file|by left]).
  unfold replace_vault in Hv.
  apply bind_cases in Hv as [(u1 & d1 & R1 & Hv)|(e & R1 & ->)];
    apply (keeps_run _ _ _ _ _ (kept_refuse_pending All _)) in R1.
  2: { apply (Hbad d'); [|done..]. eapply whole_untouched; [|done]. intros q _. by apply R1. }
  apply bind_cases in Hv as [(u2 & d2 & R2 & Hv)|(e & R2 & ->)];
    apply (keeps_run _ _ _ _ _ (kept_mkdir_parents All _)) in R2.
  2: { apply (Hbad d'); [|done..]. eapply whole_untouched; [|done]. intros q _. by rewrite R2, R1. }
  assert (untouched All d d2) as U by (by etrans). clear R1 R2 d1.
  assert (has_bytes live d2 = true ∧ files_at source d2 = files_at source d) as [Hfull2 Hsame].
  { split; [unfold has_bytes in *; by rewrite U|]. apply files_at_family. intros q _. by apply U. }
  assert (whole d2) as Hd2 by (eapply whole_untouched; [intros q _; by apply U|done]).
  apply bind_cases in Hv as [(u3 & d3 & R3 & Hv)|(e & R3 & ->)]; apply catch_cases in R3 as [R3|(e' & R3 & E)];
    try discriminate; pose proof (keeps_run _ _ _ _ _ (kept_copy_staged _ _) R3) as U3;
    try (apply (Hbad d'); [by eapply whole_untouched|done..]).
  assert (forall q, q ∈ family source -> q ∉ family (partial_of staged)) as Hapart.
  { intros q Hq Hin. apply (own_family _ _ _ Hsource Hq). split; [by apply family_dir in Hin|].
    unfold family in Hin. apply list_elem_of_fmap in Hin as (s & -> & _). done. }
  pose proof (copy_vault_cases _ _ _ _ _ _ Hapart R3) as [[_ [=]]|(db & Hdb & Hcheck & Himage)].
  rewrite Hsame in Hdb. assert (reads old live d3) as Hr3.
  { eapply (reads_untouched old live precious); [by left|exact U3|].
    eapply (reads_untouched old live All); [done|exact U|done]. }
  assert (has_bytes live d3 = true) as Hfull3.
  { unfold has_bytes in *. rewrite U3; [done|]. left. apply elem_of_family. by left. }
  assert (forall name, live.1 ≠ folder ++ [name]) as Hdirs by (intros name; apply snapshot_dir_ne).
  apply bind_cases in Hv as [(o & d4 & R4 & Hv)|(e & R4 & ->)];
    pose proof (retire_cases old _ _ _ _ _ Hfull3 Hr3 Hdirs R4) as (Hf4 & Hw4 & Hout);
    [|by apply (Hbad d')].
  destruct (Hout o eq_refl) as (name & -> & Hkept & Hgone). clear Hout.
  assert (file_at staged d4 = file_at staged d3) as Est.
  { apply (keeps_run (untouched (eq staged))) in R4; [by apply R4|]. apply kept_retire.
    - intros q Hq <-. eapply staged_not_precious; [by left|by left].
    - intros n m E. apply (staged_not_precious staged); [by left|right; exists n; by rewrite E]. }
  pose proof (image_read db (str "WAL")) as Hread. rewrite <- Est in Himage.
  destruct (swap_in_cases _ _ _ _ _ _ Hread Himage Hgone Hkept Hf4 Hv) as [Hw Hok]. split; [done|].
  intros o Ho. destruct (Hok o Ho) as (-> & ? & ?). exists name, db. by split_and!.
Qed.

Lemma restored_same source d0 d o d1 d' :
  files_at source d0 = files_at source d -> dk_dirs d' = dk_dirs d1 -> restored source d0 o d1 -> restored source d o d'.
Proof.
  intros Es Ed (name & new & -> & Hk & Hn & Hc & Hl). exists name, new. rewrite <- Es.
  assert (forall p, files_at p d' = files_at p d1) as Ef by (intros p; apply files_at_family; intros q _; by apply file_at_dirs).
  split_and!; [done| |done|done|by rewrite Ef]. unfold kept_copy in *. by rewrite Ef.
Qed.
Lemma restore_body_cases source d r d' :
  ¬ own_name data_dir source -> has_bytes live d = true -> reads old live d ->
  with_lock data_dir (replace_vault data_dir source) d = (r, d') -> whole d' ∧ forall o, r = Ok o -> restored source d o d'.
Proof.
  intros Hsource Hfull Hreads Hw. assert (whole d) as Hd by (split; [by apply has_bytes_file|by left]).
  assert (forall q, precious q -> q ≠ (data_dir, LOCK_FILE)) as Hlock by (intros q Hq ->; by apply lock_not_precious).
  apply with_lock_cases in Hw as [[U Hno]|(d1 & d2 & U & Hb & E)].
  - split; [|by intros o ->]. eapply whole_untouched; [|done]. intros q Hq. by apply U, Hlock.
  - assert (untouched precious d d1) as U1 by (intros q Hq; by apply U, Hlock).
    assert (has_bytes live d1 = true) as Hfull1.
    { unfold has_bytes in *. rewrite U1; [done|]. left. apply elem_of_family. by left. }
    assert (reads old live d1) as Hr1 by (eapply (reads_untouched old live precious); [by left|done|done]).
    destruct (replace_vault_cases _ _ _ _ Hsource Hfull1 Hr1 Hb) as [Hw2 Hok]. split.
    + eapply whole_untouched; [|exact Hw2]. by apply untouched_dirs.
    + intros o Ho. eapply restored_same; [|exact E|by apply Hok]. apply files_at_family. intros q Hq.
      apply U. intros ->. by apply (own_family _ _ _ Hsource Hq).
Qed.

Lemma check_file_same p d r d' : check_file p d = (r, d') -> d' = d.
Proof.
  assert (keeps eq (check_file p)) as Hk by (unfold check_file, connect_existing; repeat keeps_step).
  intros Hc. by rewrite (keeps_run _ _ _ _ _ Hk Hc).
Qed.
Lemma discard_then_throw e d (r : res (option dir)) d' :
  (discard staged;; throw e) d = (r, d') -> untouched precious d d' ∧ is_ok r = false.
Proof.
  intros Hr. apply bind_cases in Hr as [(u & d1 & R & Hr)|(e' & R & ->)];
    apply (keeps_run _ _ _ _ _ kept_discard_staged) in R; [|done]. by injection Hr as <- <-.
Qed.

(** C15: Restoring a snapshot never loses the vault that is there. Whatever fails
    and wherever the process is killed - while the snapshot is checked or staged, or
    while the old vault is copied, folded or moved - a vault file is in its place,
    and the database that was there is either what the vault still reads as or what
    the kept copy reads as. When [restore] returns, it names that copy, and the vault
    reads as the snapshot, in which SQLite found no problem. *)
Theorem restore_never_loses_the_vault source d r d' :
  ¬ own_name data_dir source -> has_bytes live d = true -> sq_connect (files_at live d) = Ok old ->
  restore data_dir source d = (r, d') ->
  is_file live d' = true ∧ (reads old live d' ∨ ∃ name, kept_copy old live (folder ++ [name]) d') ∧
  (forall o, r = Ok o -> ∃ name new, o = Some (folder ++ [name]) ∧ kept_copy old live (folder ++ [name]) d' ∧
    sq_connect (files_at source d) = Ok new ∧ check_connection new = Ok [] ∧ sq_connect (files_at live d') = Ok new).
Proof.
  intros Hsource Hfull Hold Hr. set (All := fun _ : path => True). assert (reads old live d) as Hreads by (split; [done|by apply has_bytes_file]).
  assert (whole d) as Hd by (split; [by apply has_bytes_file|by left]).
  assert (whole d' ∧ forall o, r = Ok o -> restored source d o d') as [[? ?] ?]; [|by split_and!].
  assert (untouched precious d d' -> is_ok r = false -> whole d' ∧ forall o, r = Ok o -> restored source d o d') as Hbad.
  { intros U Hno. split; [by eapply whole_untouched|by intros o ->]. }
  unfold restore in Hr. apply bind_cases in Hr as [(u1 & d1 & [_ ->]%lift_Ok & Hr)|(e & [= _ <-] & ->)]; [|by apply Hbad].
  apply bind_cases in Hr as [(u2 & d2 & ->%check_file_same & Hr)|(e & ->%check_file_same & ->)]; [|by apply Hbad].
  apply bind_cases in Hr as [(u3 & d3 & [_ ->]%raise_unless_Ok & Hr)|(e & R3 & ->)].
  2: { apply Hbad; [|done]. by apply (keeps_run _ _ _ _ _ (keeps_raise_unless _ _ _) R3). }
  apply handling_cases in Hr as (r1 & d1 & Hw & Hr).
  apply (restore_body_cases _ _ _ _ Hsource Hfull Hreads) in Hw as [Hw1 Hok].
  destruct Hr as [[-> ->]|(e & -> & Hr)]; [done|].
  assert (untouched precious d1 d' ∧ is_ok r = false) as [U Hno].
  { destruct e; try (injection Hr as <- <-; done); by apply discard_then_throw in Hr. }
  split; [by eapply whole_untouched|by intros o ->].
Qed.
End Restored.
End Retiring.

(** A restore that returns, and one that is killed after the vault was retired *)
Definition demo_restore (events : list Event) : res (option dir) * Disk :=
  @restore demo_sqlite demo_host demo_dir demo_snapshot (demo_disk events Unlocked).
Lemma demo_restore_done :
  (demo_restore []).1 = Ok (Some (snapshot_dir demo_dir ++ [str "replaced-7"])) ∧
  (demo_restore (repeat Runs 24 ++ [Killed_at 0])).1 = Err Killed.
Proof. split; vm_compute; reflexivity. Qed.
Lemma demo_snapshot_outside : ¬ own_name demo_dir demo_snapshot.
Proof. by intros [E _]. Qed.
Lemma restore_never_loses_the_vault_witness :
  (demo_restore []).1 = Ok (Some (snapshot_dir demo_dir ++ [str "replaced-7"])) ∧
  is_file (vault_file demo_dir) (demo_restore []).2 = true.
Proof.
  split; [apply demo_restore_done|].
  refine (proj1 (@restore_never_loses_the_vault demo_sqlite demo_sqlite_laws demo_host demo_dir demo_old
    demo_snapshot _ _ _ demo_snapshot_outside _ _ (surjective_pairing (demo_restore [])))).
  - vm_compute. reflexivity.
  - vm_compute. reflexivity.
Defined.
