(* ===== verification/AsideSpec.v ===== *)
(** Setting a vault aside (Storage.v): its files move together, and one that was
    split by an interruption is not opened. *)
From Stdlib Require Import ZArith Lia Strings.String Strings.Byte.
From stdpp Require Import base list gmap strings.
From S2P Require Import Prelude Crypto Storage DiskSpec DiskDemo SnapshotSpec ReplaceSpec.
(** ** Setting a vault aside *)

Lemma replace_dir_Ok p q d u d' :
  replace_dir p q d = (Ok u, d') ->
  dir_exists p d = true ∧ dir_exists q d' = true ∧ (p ≠ q -> dir_exists p d' = false) ∧
  (forall n, file_at (q, n) d' = file_at (p, n) d) ∧
  forall x, x.1 ≠ p -> x.1 ≠ q -> file_at x d' = file_at x d.
Proof.
  intros Hr. unfold replace_dir in Hr. apply atomically_Ok in Hr as (d1 & E & _ & Hr).
  apply bind_Ok in Hr as (o & ? & [= <- <-] & Hr). rewrite E in Hr. unfold dir_exists, file_at.
  destruct (dk_dirs d !! p) as [f|] eqn:Ef; [|done]. apply bind_Ok in Hr as (b & ? & [= <- <-] & Hr).
  apply bind_Ok in Hr as ([] & ? & [_ ->]%raise_if_Ok & Hr). unfold modify in Hr. injection Hr as _ <-. cbn. rewrite E.
  split_and!; [done|by rewrite lookup_insert_eq| |by intros n; rewrite lookup_insert_eq, Ef|].
  - intros Hne. by rewrite lookup_insert_ne, lookup_delete_eq.
  - intros x Hp Hq. by rewrite lookup_insert_ne, lookup_delete_ne.
Qed.
Lemma replace_dir_err p q d e d' : replace_dir p q d = (Err e, d') -> dk_dirs d' = dk_dirs d.
Proof.
  intros Hr. unfold replace_dir, atomically in Hr. apply bind_cases in Hr as [(ev & d1 & He%next_event_dirs & Hr)|(e' & He & _)].
  - rewrite <- He. destruct ev; [|by injection Hr as _ <-..].
    apply bind_cases in Hr as [(o & ? & [= <- <-] & Hr)|(e' & [=] & _)].
    destruct (dk_dirs d1 !! p); [|by injection Hr as _ <-].
    apply bind_cases in Hr as [(o & ? & [= <- <-] & Hr)|(e' & [=] & _)].
    apply bind_cases in Hr as [(u & d2 & _ & [=])|(e' & R & _)].
    by apply (keeps_run _ _ _ _ _ (keeps_raise_if eq _ _)) in R as <-.
  - unfold next_event in He. by destruct (dk_events d).
Qed.

Section Aside.
Context `{!Sqlite} `{!SqliteLaws} `{!Host} (data_dir : dir).
Abbreviation live := (vault_file data_dir).
Abbreviation folder := (snapshot_dir data_dir).
Abbreviation pending := (pending_dir data_dir).

(** Each file of the vault stays, or moves to the pending folder where there was
    none of its name. *)
Definition carried (d d' : Disk) : Prop :=
  forall p, p ∈ family live ->
    file_at p d' = file_at p d ∧ file_at (pending, p.2) d' = file_at (pending, p.2) d ∨
    ∃ b, file_at p d = Some b ∧ file_at (pending, p.2) d = None ∧
         file_at p d' = None ∧ file_at (pending, p.2) d' = Some b.
#[export] Instance carried_preorder : PreOrder carried.
Proof.
  split; [intros d p _; by left|]. intros x y z Hxy Hyz p Hp.
  destruct (Hxy p Hp) as [[E1 E2]|(b & E1 & E2 & E3 & E4)], (Hyz p Hp) as [[F1 F2]|(c & F1 & F2 & F3 & F4)].
  - left. by rewrite F1, F2.
  - right. exists c. by rewrite <- E1, <- E2.
  - right. exists b. by rewrite F1, F2.
  - congruence.
Qed.
Lemma carried_untouched d d' : untouched (fun _ => True) d d' -> carried d d'.
Proof. intros U p _. left. by rewrite !U. Qed.
Lemma keeps_carried {A} (m : M Disk A) : keeps (untouched (fun _ => True)) m -> keeps carried m.
Proof. intros Hk d. apply carried_untouched, Hk. Qed.

Lemma pending_ne : pending ≠ data_dir.
Proof. intros E. unfold pending_dir in E. by apply (snapshot_dir_ne data_dir SET_ASIDE_PENDING). Qed.
Lemma family_name p q : p ∈ family live -> q ∈ family live -> p.2 = q.2 -> p = q.
Proof. intros Hp%family_dir Hq%family_dir E. destruct p, q. cbn in *. by subst. Qed.

Lemma replace_carried p d r d' :
  p ∈ family live -> file_at (pending, p.2) d = None -> replace p (pending, p.2) d = (r, d') -> carried d d'.
Proof.
  intros Hp Hnone Hr. destruct r as [u|e].
  - apply replace_Ok in Hr as (b & Hb & Hall). intros q Hq. pose proof (family_dir _ _ Hq) as Hqd.
    pose proof (family_dir _ _ Hp) as Hpd. pose proof pending_ne as Hne. rewrite !Hall.
    destruct (decide (q = p)) as [->|Hqp].
    + right. exists b. rewrite (decide_True (P := (pending, p.2) = (pending, p.2))) by done.
      rewrite (decide_False (P := p = (pending, p.2))); [done|]. intros E. rewrite E in Hpd. by apply Hne.
    + left. rewrite (decide_False (P := q = (pending, p.2))) by (intros E; rewrite E in Hqd; by apply Hne).
      split; [done|]. rewrite decide_False, decide_False; [done|..].
      * intros E. rewrite <- E in Hpd. by apply Hne.
      * intros [= E]. apply Hqp. by apply family_name.
  - apply carried_untouched. intros q _. by apply (replace_err _ _ _ _ _ Hr).
Qed.
Lemma move_to_pending_carried p : p ∈ family live -> keeps carried (move_to_pending pending p).
Proof.
  intros Hp d. destruct (move_to_pending pending p d) as [r d'] eqn:Hm. cbn. unfold move_to_pending in Hm.
  apply bind_cases in Hm as [(there & ? & [= <- <-] & Hm)|(e & [=] & _)].
  destruct (exists_ p d); cbn [negb] in Hm; [|by injection Hm as _ <-].
  apply bind_cases in Hm as [(blocked & ? & [= <- <-] & Hm)|(e & [=] & _)].
  apply bind_cases in Hm as [(u & d1 & [Hb ->]%raise_if_Ok & Hm)|(e & R & _)].
  - apply exists_file in Hb. by eapply replace_carried.
  - by apply (keeps_run _ _ _ _ _ (keeps_raise_if carried _ _)) in R.
Qed.
Lemma move_to_pending_Ok p d u d' :
  p ∈ family live -> move_to_pending pending p d = (Ok u, d') -> file_at p d' = None.
Proof.
  intros Hp Hm. unfold move_to_pending in Hm. apply bind_Ok in Hm as (there & ? & [= <- <-] & Hm).
  destruct (exists_ p d) eqn:E; cbn [negb] in Hm; [|injection Hm as _ <-; by apply exists_file].
  apply bind_Ok in Hm as (blocked & ? & [= <- <-] & Hm). apply bind_Ok in Hm as (v & d1 & [_ ->]%raise_if_Ok & Hm).
  apply replace_Ok in Hm as (b & _ & Hall). rewrite Hall, decide_False, decide_True; [done..|].
  intros Eq. apply (f_equal fst) in Eq. rewrite (family_dir _ _ Hp) in Eq. by apply pending_ne.
Qed.
Lemma carried_none p d d' : p ∈ family live -> carried d d' -> file_at p d = None -> file_at p d' = None.
Proof. intros Hp Hc Hn. destruct (Hc p Hp) as [[E _]|(b & E & _)]; congruence. Qed.
Lemma move_all_Ok l d u d' :
  (forall p, p ∈ l -> p ∈ family live) -> foldM (fun (_ : ()) p => move_to_pending pending p) l u d = (Ok (), d') ->
  forall p, p ∈ l -> file_at p d' = None.
Proof.
  revert d u. induction l as [|x l IH]; intros d u Hl Hm p Hp; [by apply elem_of_nil in Hp|].
  cbn [foldM] in Hm. apply bind_Ok in Hm as (v & d1 & Hx & Hm).
  apply elem_of_cons in Hp as [->|Hp]; [|eapply IH; [|exact Hm|done]; intros q Hq; apply Hl; by right].
  apply move_to_pending_Ok in Hx; [|apply Hl; by left].
  eapply carried_none; [apply Hl; by left| |exact Hx].
  refine (keeps_run carried _ _ _ _ _ Hm). apply keeps_foldM_in; [apply _|]. intros ? q Hq.
  apply move_to_pending_carried, Hl. by right.
Qed.

(** The files of the vault together: from its place, or from the pending folder *)
Definition gathered (p : path) (d : Disk) : option bytes :=
  match file_at p d with Some b => Some b | None => file_at (pending, p.2) d end.
Lemma carried_gathered p d d' : p ∈ family live -> carried d d' -> gathered p d' = gathered p d.
Proof.
  intros Hp Hc. unfold gathered. destruct (Hc p Hp) as [[E1 E2]|(b & E1 & E2 & E3 & E4)].
  - by rewrite E1, E2.
  - by rewrite E1, E3.
Qed.
Lemma carried_moved d d' :
  carried d d' -> (forall p, p ∈ family live -> file_at p d' = file_at p d) ∨ dir_exists pending d' = true.
Proof.
  intros Hc. destruct (dir_exists pending d') eqn:E; [by right|left]. intros p Hp.
  destruct (Hc p Hp) as [[Ep _]|(b & _ & _ & _ & Hb)]; [done|]. apply file_at_dir in Hb. cbn in Hb. congruence.
Qed.

(** The disk as taking the vault leaves it: SQLite may have settled a journal. *)
Definition taken (d d0 : Disk) : Prop :=
  (files_at live d0 = files_at live d ∨ files_at live d0 = (sq_take (files_at live d)).2) ∧
  untouched (fun q => q ∉ (data_dir, LOCK_FILE) :: family live) d d0.
Lemma taken_untouched d d1 d0 : untouched (fun q => q ≠ (data_dir, LOCK_FILE)) d d1 -> taken d1 d0 -> taken d d0.
Proof.
  intros U [Hf Hrest]. assert (files_at live d1 = files_at live d) as E.
  { apply files_at_family. intros q Hq. apply U. intros ->. apply (lock_not_precious data_dir). by left. }
  rewrite E in Hf. split; [done|]. intros q Hq. rewrite Hrest by done. apply U. intros ->. apply Hq. by left.
Qed.
Lemma taken_same d d0 : untouched (fun _ => True) d d0 -> taken d d0.
Proof. intros U. split; [left; apply files_at_family; intros q _; by apply U|]. intros q _. by apply U. Qed.
Lemma take_taken b d r d' :
  has_bytes live d = b ->
  (if b : bool then _ ← take_exclusively live; mret () else mret ()) d = (r, d') -> taken d d'.
Proof.
  intros Hb Ht. destruct b; [|injection Ht as _ <-; by apply taken_same].
  assert (∃ r1, take_exclusively live d = (r1, d')) as [r1 Htake].
  { apply bind_cases in Ht as [(c & d1 & Ht & [= _ <-])|(e & Ht & _)]; by eexists. }
  split.
  - apply has_bytes_file in Hb. destruct (take_exclusively_outcome _ _ _ _ Hb Htake) as [[E _]|[E _]]; [by left|by right].
  - refine (keeps_run _ _ _ _ _ _ Htake). apply kept_take.
    + intros Hn. apply Hn. right. apply elem_of_family. by left.
    + intros s Hs Hn. apply Hn. right. apply elem_of_family. right. by exists s.
Qed.

(** What became of setting aside the vault of [d0]: there was none; or no file is
    lost and [prepare_data_dir] refuses a vault that was split; or all its files are
    together in a new folder. *)
Definition set_aside_outcome (d0 : Disk) (r : res (option dir)) (d' : Disk) : Prop :=
  (r = Ok None ∧ (forall p, p ∈ family live -> file_at p d0 = None) ∧ untouched (fun _ => True) d0 d') ∨
  (is_ok r = false ∧ carried d0 d') ∨
  (∃ name, (r = Ok (Some (folder ++ [name])) ∨ is_ok r = false) ∧
    forall p, p ∈ family live ->
      file_at p d' = None ∧ file_at (folder ++ [name], p.2) d' = gathered p d0).

Lemma outcome_after d0 d1 r d' : carried d0 d1 -> is_ok r = false -> untouched (fun _ => True) d1 d' -> set_aside_outcome d0 r d'.
Proof. intros Hc Hr U. right. left. split; [done|]. etrans; [exact Hc|by apply carried_untouched]. Qed.

(** A step that touches no file either ends the operation or is passed. *)
Lemma quiet_step {A} (m : M Disk A) (f : A -> M Disk (option dir)) d0 d r d' :
  keeps (untouched (fun _ => True)) m -> carried d0 d -> (m ≫= f) d = (r, d') ->
  set_aside_outcome d0 r d' ∨ ∃ a d1, carried d0 d1 ∧ untouched (fun _ => True) d d1 ∧ f a d1 = (r, d').
Proof.
  intros Hk Hc Hr. apply bind_cases in Hr as [(a & d1 & R & Hr)|(e & R & ->)]; apply (keeps_run _ _ _ _ _ Hk) in R.
  - right. exists a, d1. split_and!; [|done|done]. etrans; [exact Hc|by apply carried_untouched].
  - left. by eapply outcome_after.
Qed.

(** Once every file is in the pending folder *)
Lemma publish_cases d0 d r d' :
  carried d0 d -> (forall p, p ∈ family live -> file_at p d = None) ->
  (name ← timestamp "set-aside";
   replace_dir pending (folder ++ [name]);;
   fsync_dir folder;;
   fsync_dir data_dir;;
   mret (Some (folder ++ [name]))) d = (r, d') -> set_aside_outcome d0 r d'.
Proof.
  intros Hc Hnone Hr. set (All := fun _ : path => True).
  apply bind_cases in Hr as [(name & d1 & R1 & Hr)|(e & R1 & ->)];
    apply (keeps_run _ _ _ _ _ (kept_timestamp All _)) in R1; [|by eapply outcome_after].
  apply bind_cases in Hr as [(u & d2 & R2 & Hr)|(e & R2 & ->)].
  2: { eapply outcome_after; [exact Hc|done|]. etrans; [exact R1|]. apply untouched_dirs. by eapply replace_dir_err. }
  apply replace_dir_Ok in R2 as (_ & _ & _ & Hkept & Hother).
  assert (untouched All d2 d' ∧ forall o, r = Ok o -> o = Some (folder ++ [name])) as [U Hok].
  { apply bind_cases in Hr as [(u3 & d3 & R3 & Hr)|(e & R3 & ->)];
      apply (keeps_run _ _ _ _ _ (kept_fsync_dir All _)) in R3; [|done].
    apply bind_cases in Hr as [(u4 & d4 & R4 & Hr)|(e & R4 & ->)];
      apply (keeps_run _ _ _ _ _ (kept_fsync_dir All _)) in R4; [|by split; [etrans|]].
    injection Hr as <- <-. split; [by etrans|]. by intros o [= <-]. }
  right. right. exists name. split; [destruct r as [o|]; [left; by rewrite (Hok o eq_refl)|by right]|].
  intros p Hp. pose proof (family_dir _ _ Hp) as Hpd.
  assert (file_at p d1 = None) as Hp1 by (rewrite R1 by done; by apply Hnone).
  rewrite !U by done. rewrite Hother; [split; [done|]| |].
  - rewrite Hkept, R1 by done. rewrite <- (carried_gathered p d0 d Hp Hc). unfold gathered. by rewrite (Hnone p Hp).
  - rewrite Hpd. intros E. by apply pending_ne.
  - rewrite Hpd. apply snapshot_dir_ne.
Qed.

Lemma move_aside_cases d r d' :
  move_aside data_dir d = (r, d') -> ∃ d0, taken d d0 ∧ set_aside_outcome d0 r d'.
Proof.
  intros Hr. set (All := fun _ : path => True). unfold move_aside in Hr.
  apply bind_cases in Hr as [(unfinished & ? & [= <- <-] & Hr)|(e & [=] & _)].
  destruct (exists_ (snapshot_dir data_dir, SET_ASIDE_PENDING) d || _) eqn:Eany; cbn [negb] in Hr.
  2: { injection Hr as <- <-. exists d. split; [by apply taken_same|]. left. split_and!; [done| |done].
       apply orb_false_iff in Eany as [_ Eany]. intros p Hp.
       change (existsb (fun p => exists_ p d) (family live) = false) in Eany. apply exists_file.
       destruct (exists_ p d) eqn:E; [|done]. rewrite <- Eany. symmetry. apply existsb_exists.
       exists p. split; [by apply list_elem_of_In|done]. }
  apply bind_cases in Hr as [(filled & ? & [= <- <-] & Hr)|(e & [=] & _)].
  apply bind_cases in Hr as [(u & d0 & Ht & Hr)|(e & Ht & ->)];
    apply (take_taken _ _ _ _ eq_refl) in Ht; [exists d0; split; [done|]|].
  2: { exists d'. split; [done|]. by eapply outcome_after. }
  assert (carried d0 d0) as Hc by done. clear Eany Ht.
  do 4 (apply (quiet_step _ _ d0) in Hr; [|auto with keeps|exact Hc]; destruct Hr as [Hr|(? & ? & Hc' & _ & Hr)]; [done|];
    clear Hc; rename Hc' into Hc).
  assert (keeps carried (foldM (fun (_ : ()) p => move_to_pending pending p) (family live) ())) as Hk.
  { apply keeps_foldM_in; [apply _|]. intros ? q Hq. by apply move_to_pending_carried. }
  apply bind_cases in Hr as [([] & d5 & R5 & Hr)|(e & R5 & ->)]; pose proof (keeps_run _ _ _ _ _ Hk R5) as Hmove;
    rewrite <- Hc in Hmove; [|by right; left].
  pose proof (move_all_Ok _ _ _ _ (fun p Hp => Hp) R5) as Hnone. clear Hc. rename Hmove into Hc.
  do 2 (apply (quiet_step _ _ d0) in Hr; [|auto with keeps|exact Hc]; destruct Hr as [Hr|(? & ? & Hc' & U & Hr)]; [done|];
    assert (forall p, p ∈ family live -> file_at p _ = None) as Hnone' by (intros p Hp; rewrite U by done; by apply Hnone);
    clear Hc U Hnone; rename Hc' into Hc, Hnone' into Hnone).
  by eapply publish_cases.
Qed.

(** Folders are made, never removed, by what comes before [refuse_pending_set_aside]. *)
Definition dirs_stay (d d' : Disk) : Prop := forall p, dir_exists p d = true -> dir_exists p d' = true.
#[export] Instance dirs_stay_preorder : PreOrder dirs_stay.
Proof. split; [by intros d p|]. intros x y z Hxy Hyz p Hp. by apply Hyz, Hxy. Qed.
Lemma dirs_stay_make q d : dirs_stay d (make_dir q d).
Proof.
  intros p Hp. unfold make_dir. destruct (dir_exists q d) eqn:E; [done|]. unfold dir_exists in *. cbn.
  destruct (decide (p = q)) as [->|Hne]; [by rewrite lookup_insert_eq|by rewrite lookup_insert_ne].
Qed.
Lemma kept_dirs : keeps dirs_stay (or_unwritable (mkdir_parents data_dir) data_dir).
Proof.
  assert (keeps dirs_stay (next_event)) as He by (intros d p; unfold next_event; by destruct (dk_events d)).
  assert (forall q, keeps dirs_stay (modify (make_dir q))) as Hm by (intros q d; apply dirs_stay_make).
  unfold or_unwritable, mkdir_parents, unwritable, atomically.
  repeat first [exact He | apply Hm | keeps_step].
Qed.
(** A vault that is split is not opened. *)
Lemma split_vault_refused d r d' :
  dir_exists pending d = true -> prepare_data_dir data_dir d = (r, d') -> is_ok r = false ∧ untouched (fun _ => True) d d'.
Proof.
  intros Hpend Hp. unfold prepare_data_dir in Hp.
  assert (keeps (untouched (fun _ => True)) (or_unwritable (mkdir_parents data_dir) data_dir)) as Hk
    by (apply kept_or_unwritable, kept_mkdir_parents).
  apply bind_cases in Hp as [(u & d1 & R & Hp)|(e & R & ->)]; pose proof (keeps_run _ _ _ _ _ Hk R) as U; [|done].
  assert (dir_exists pending d1 = true) as Hpend1 by (by apply (keeps_run _ _ _ _ _ kept_dirs R)).
  assert (exists_ (folder, SET_ASIDE_PENDING) d1 = true) as Hex by (apply orb_true_intro; by right).
  unfold refuse_pending_set_aside in Hp. apply bind_cases in Hp as [(u1 & d2 & R1 & Hp)|(e & R1 & ->)];
    (apply bind_cases in R1 as [(b & ? & [= <- <-] & R1)|(e' & [=] & _)]); rewrite Hex in R1; [discriminate R1|].
  by injection R1 as _ <-.
Qed.

Lemma outcome_dirs d0 r d1 d' : dk_dirs d' = dk_dirs d1 -> set_aside_outcome d0 r d1 -> set_aside_outcome d0 r d'.
Proof.
  intros E [(-> & Hnone & U)|[[Hno Hc]|(name & Hr & Hall)]].
  - left. split_and!; [done..|]. etrans; [exact U|by apply untouched_dirs].
  - right. left. split; [done|]. etrans; [exact Hc|]. by apply carried_untouched, untouched_dirs.
  - right. right. exists name. split; [done|]. intros p Hp. rewrite !(file_at_dirs _ _ _ E). by apply Hall.
Qed.
Lemma outcome_err d0 r e d' : is_ok r = false -> set_aside_outcome d0 r d' -> set_aside_outcome d0 (Err e) d'.
Proof.
  intros Hno [(-> & _)|[[_ Hc]|(name & _ & Hall)]]; [done|right; left; by split|right; right].
  exists name. split; [by right|done].
Qed.
Lemma set_aside_cases d r d' : set_aside data_dir d = (r, d') -> ∃ d0, taken d d0 ∧ set_aside_outcome d0 r d'.
Proof.
  intros Hs. unfold set_aside in Hs.
  apply bind_cases in Hs as [(u & ? & [_ ->]%lift_Ok & Hs)|(e & [= _ <-] & ->)].
  2: { exists d. split; [by apply taken_same|]. by apply (outcome_after _ d). }
  assert (∃ r1, with_lock data_dir (move_aside data_dir) d = (r1, d') ∧ (r1 = r ∨ is_ok r1 = false ∧ is_ok r = false))
    as (r1 & Hw & Hr1).
  { apply catch_cases in Hs as [Hs|(e & Hs & ->)]; eexists; (split; [exact Hs|]); [by left|by right]. }
  assert (forall d0, set_aside_outcome d0 r1 d' -> set_aside_outcome d0 r d') as Hsame.
  { intros d0 Ho. destruct Hr1 as [<-|[Hno Hno']]; [done|]. destruct r; [done|by apply (outcome_err _ r1)]. }
  clear Hs Hr1. apply with_lock_cases in Hw as [[U Hno]|(d1 & d2 & U & Hb & E)].
  - exists d'. split; [apply (taken_untouched _ d'); [done|by apply taken_same]|]. apply Hsame. by apply (outcome_after _ d').
  - apply move_aside_cases in Hb as (d0 & Ht & Ho). exists d0. split; [by eapply taken_untouched|].
    by apply Hsame, (outcome_dirs _ _ _ _ E).
Qed.

(** C16: Setting a vault aside moves its files together and loses none. Taking it
    changes no more than SQLite settling its journal ([d0] is that disk). Then either
    there was nothing to move; or the operation failed or was killed on its way, and
    every file is where it was or in the pending folder, and if one has moved, then
    nothing opens what is left until the operation is run again; or all the files -
    those an earlier attempt had moved among them - are in one new folder. It returns
    only when it is done. *)
Theorem set_aside_loses_nothing d r d' :
  set_aside data_dir d = (r, d') ->
  ∃ d0, taken d d0 ∧
    ((r = Ok None ∧ forall p, p ∈ family live -> file_at p d0 = None ∧ file_at p d' = None) ∨
     (is_ok r = false ∧ carried d0 d' ∧
        ((forall p, p ∈ family live -> file_at p d' = file_at p d0) ∨
         forall r2 d2, prepare_data_dir data_dir d' = (r2, d2) -> is_ok r2 = false)) ∨
     ∃ name, (r = Ok (Some (folder ++ [name])) ∨ is_ok r = false) ∧
       forall p, p ∈ family live -> file_at p d' = None ∧ file_at (folder ++ [name], p.2) d' = gathered p d0).
Proof.
  intros Hs. apply set_aside_cases in Hs as (d0 & Ht & Ho). exists d0. split; [done|].
  destruct Ho as [(-> & Hnone & U)|[[Hno Hc]|Hdone]]; [left|right; left|by right; right].
  - split; [done|]. intros p Hp. rewrite U by done. split; by apply Hnone.
  - split_and!; [done|done|]. destruct (carried_moved _ _ Hc) as [Hsame|Hpend]; [by left|right].
    intros r2 d2 Hp. by apply split_vault_refused in Hp as [? _].
Qed.
End Aside.

(** A set-aside that is killed between the vault and its log, and the one that is
    run afterwards *)
Definition demo_aside (d : Disk) : res (option dir) * Disk := @set_aside demo_sqlite demo_host demo_dir d.
Definition demo_split : Disk := (demo_aside (demo_disk (repeat Runs 7 ++ [Killed_at 0]) Unlocked)).2.
Definition demo_restarted : Disk := set_lock Unlocked (set_events [] demo_split).
Lemma demo_aside_runs :
  is_file (pending_dir demo_dir, VAULT_FILE) demo_split = true ∧
  is_file (demo_dir, VAULT_FILE ++ WAL) demo_split = true ∧
  (demo_aside demo_restarted).1 = Ok (Some (snapshot_dir demo_dir ++ [str "set-aside-7"])).
Proof. vm_compute. repeat split. Qed.
Lemma set_aside_loses_nothing_witness :
  (demo_aside demo_restarted).1 = Ok (Some (snapshot_dir demo_dir ++ [str "set-aside-7"])) ∧
  ∃ d0, @taken demo_sqlite demo_dir demo_restarted d0.
Proof.
  split; [apply demo_aside_runs|].
  destruct (@set_aside_loses_nothing demo_sqlite demo_host demo_dir _ _ _
    (surjective_pairing (demo_aside demo_restarted))) as (d0 & Ht & _).
  exists d0. exact Ht.
Defined.
