(* ===== verification/CompleteSpec.v ===== *)
(** A restore completes (Storage.v): on a disk where nothing fails it returns,
    whatever earlier attempts left; and what a refused attempt does to the one that
    holds the lock. *)
From Stdlib Require Import ZArith Lia Strings.String Strings.Byte.
From stdpp Require Import base list gmap strings.
From S2P Require Import Prelude Crypto Storage DiskSpec DiskDemo SnapshotSpec ReplaceSpec.

(** ** A disk on which nothing fails *)

Section Calm.
Context `{!Sqlite} `{!Host}.

Lemma atomically_calm {A} (op : M Disk A) d : dk_events d = [] -> atomically op d = op d.
Proof. intros E. unfold atomically, mbind, M_bind, next_event. by rewrite E. Qed.
Lemma mkdir_parents_there p d :
  (forall q, q ∈ inits_from [] p -> dir_exists q d = true) -> mkdir_parents p d = (Ok (), d).
Proof.
  unfold mkdir_parents. generalize (inits_from [] p). intros l. induction l as [|q l IH]; intros Hl; [done|].
  cbn [foldM]. rewrite (bind_run_Ok _ _ _ () d).
  - apply IH. intros x Hx. apply Hl. by right.
  - rewrite (bind_run_Ok _ _ _ true d); [done|]. unfold gets. by rewrite Hl by (by left).
Qed.
Lemma remove_file_dirs p d q : dir_exists q (remove_file p d) = dir_exists q d.
Proof. exact (dir_exists_put_or_remove q p None d). Qed.
Lemma remove_file_events p d : dk_events (remove_file p d) = dk_events d.
Proof. unfold remove_file. by destruct (dk_dirs d !! p.1). Qed.
Lemma discard_calm p d :
  dk_events d = [] -> (forall q, q ∈ family p -> dir_exists (q.1 ++ [q.2]) d = false) ->
  ∃ d', discard p d = (Ok (), d').
Proof.
  unfold discard, family. generalize ([] :: SIDECARS). intros l. revert d.
  induction l as [|s l IH]; intros d He Hl; [by exists d|]. cbn [foldM].
  assert (unlink_missing_ok (beside p s) d = (Ok (), remove_file (beside p s) d)) as Hu.
  { unfold unlink_missing_ok. rewrite (atomically_calm _ _ He). unfold gets, mbind, M_bind.
    by rewrite (Hl (beside p s)) by (by left). }
  rewrite (bind_run_Ok _ _ _ _ _ Hu). apply IH; [by rewrite remove_file_events|].
  intros q Hq. rewrite remove_file_dirs. apply Hl. by right.
Qed.


(** [m] returns, and nothing is left to fail. *)
Definition runs {A} (m : M Disk A) (d : Disk) (Q : A -> Disk -> Prop) : Prop :=
  ∃ a d', m d = (Ok a, d') ∧ dk_events d' = [] ∧ Q a d'.
Lemma runs_ret {A} (a : A) d Q : dk_events d = [] -> Q a d -> runs (mret a) d Q.
Proof. intros He HQ. by exists a, d. Qed.
Lemma runs_bind {A B} (m : M Disk A) (f : A -> M Disk B) d Q :
  runs m d (fun a d1 => runs (f a) d1 Q) -> runs (m ≫= f) d Q.
Proof.
  intros (a & d1 & Hm & _ & b & d2 & Hf & He & HQ). exists b, d2. split_and!; [|done|done].
  by rewrite (bind_run_Ok _ _ _ _ _ Hm).
Qed.
Lemma runs_weaken {A} (m : M Disk A) d (P Q : A -> Disk -> Prop) :
  runs m d P -> (forall a d', dk_events d' = [] -> P a d' -> Q a d') -> runs m d Q.
Proof. intros (a & d' & Hm & He & HP) HQ. exists a, d'. auto. Qed.
Lemma runs_gets {A} (f : Disk -> A) d Q : dk_events d = [] -> Q (f d) d -> runs (gets f) d Q.
Proof. intros He HQ. by exists (f d), d. Qed.
Lemma runs_modify f d Q : dk_events (f d) = [] -> Q () (f d) -> runs (modify f) d Q.
Proof. intros He HQ. by exists (), (f d). Qed.
Lemma runs_lift {A} (r : res A) a d Q : dk_events d = [] -> r = Ok a -> Q a d -> runs (lift r) d Q.
Proof. intros He -> HQ. by exists a, d. Qed.
Lemma runs_raise_if b e d Q : dk_events d = [] -> b = false -> Q () d -> runs (raise_if b e) d Q.
Proof. intros He -> HQ. by exists (), d. Qed.
Lemma runs_raise_unless b e d Q : dk_events d = [] -> b = true -> Q () d -> runs (raise_unless b e) d Q.
Proof. intros He -> HQ. by exists (), d. Qed.
Lemma runs_atomically {A} (op : M Disk A) d Q : dk_events d = [] -> runs op d Q -> runs (atomically op) d Q.
Proof. intros He Ho. unfold runs. by rewrite atomically_calm. Qed.
Lemma runs_catch {A} (m : M Disk A) h d Q : runs m d Q -> runs (catch m h) d Q.
Proof. intros (a & d' & Hm & He & HQ). exists a, d'. unfold catch. by rewrite Hm. Qed.
Lemma runs_cleaning_up {A} (m : M Disk A) c d Q : runs m d Q -> runs (cleaning_up m c) d Q.
Proof. apply runs_catch. Qed.
Lemma runs_gradually part e op d Q : dk_events d = [] -> runs op d Q -> runs (gradually part e op) d Q.
Proof. intros He Ho. unfold runs, gradually, mbind, M_bind, next_event. by rewrite He. Qed.

(** Files come and go, folders and the clock stay. *)
Definition steady (d d' : Disk) : Prop := (forall p, dir_exists p d' = dir_exists p d) ∧ dk_clock d' = dk_clock d.
#[export] Instance steady_preorder : PreOrder steady.
Proof.
  split; [by intros d|]. intros x y z [Hxy Cxy] [Hyz Cyz]. split; [intros p; by rewrite Hyz, Hxy|by rewrite Cyz, Cxy].
Qed.
Lemma steady_put p b d : steady d (put_file p b d).
Proof.
  split; [intros q; exact (dir_exists_put_or_remove q p (Some b) d)|]. unfold put_file. by destruct (dk_dirs d !! p.1).
Qed.
Lemma steady_remove p d : steady d (remove_file p d).
Proof.
  split; [intros q; exact (dir_exists_put_or_remove q p None d)|]. unfold remove_file. by destruct (dk_dirs d !! p.1).
Qed.
Lemma put_file_events p b d : dk_events (put_file p b d) = dk_events d.
Proof. unfold put_file. by destruct (dk_dirs d !! p.1). Qed.
Lemma put_files_quiet p f d : steady d (put_files p f d) ∧ dk_events (put_files p f d) = dk_events d.
Proof.
  assert (forall q o d, steady d (put_or_remove q o d) ∧ dk_events (put_or_remove q o d) = dk_events d) as Hone.
  { intros q [b|] d0; cbn; [split; [apply steady_put|apply put_file_events]|split; [apply steady_remove|apply remove_file_events]]. }
  unfold put_files. split; [repeat (etrans; [|apply Hone]); done|by rewrite !(proj2 (Hone _ _ _))].
Qed.

(** No folder has the name of a file the operation uses. *)
Definition no_dir (p : path) (d : Disk) : Prop := dir_exists (p.1 ++ [p.2]) d = false.
Lemma exists_no_dir p d : no_dir p d -> exists_ p d = is_file p d.
Proof. unfold no_dir, exists_. intros ->. by rewrite orb_false_r. Qed.

Lemma discard_runs p d :
  dk_events d = [] -> (forall q, q ∈ family p -> no_dir q d) -> runs (discard p) d (fun _ d' => steady d d').
Proof.
  intros He Hno. destruct (discard_calm _ _ He Hno) as [d' Hd]. exists (), d'. split; [done|].
  revert Hd. unfold discard, family in *. clear Hno. revert d He. generalize ([] :: SIDECARS). intros l.
  induction l as [|s l IH]; intros d He Hd; cbn [foldM] in Hd; [by injection Hd as <-|].
  apply bind_Ok in Hd as ([] & d1 & Hu & Hd). unfold unlink_missing_ok in Hu. rewrite (atomically_calm _ _ He) in Hu.
  run_inv Hu. apply IH in Hd as [? Hs]; [|by rewrite remove_file_events]. split; [done|].
  etrans; [apply steady_remove|exact Hs].
Qed.
Lemma create_file_runs p d :
  dk_events d = [] -> no_dir p d -> file_at p d = None -> dir_exists p.1 d = true ->
  runs (create_file p) d (fun _ d' => steady d d').
Proof.
  intros He Hno Hnone Hdir. apply runs_atomically; [done|]. apply runs_bind, runs_gets; [done|].
  apply runs_bind, runs_raise_if; [done|rewrite exists_no_dir by done; unfold is_file; by rewrite Hnone, Hdir|].
  apply runs_modify; [by rewrite put_file_events|apply steady_put].
Qed.
Lemma replace_runs a b d :
  dk_events d = [] -> is_file a d = true -> no_dir b d -> dir_exists b.1 d = true ->
  runs (replace a b) d (fun _ d' => steady d d').
Proof.
  intros He Ha Hno Hdir. apply runs_atomically; [done|]. apply runs_bind, runs_gets; [done|].
  unfold is_file in Ha. destruct (file_at a d) as [x|]; [|done].
  apply runs_bind, runs_gets; [done|]. apply runs_bind, runs_raise_if; [done|by rewrite Hno, Hdir|].
  apply runs_modify; [by rewrite put_file_events, remove_file_events|].
  etrans; [apply steady_remove|apply steady_put].
Qed.
Lemma fsync_runs p d : dk_events d = [] -> runs (fsync p) d (fun _ d' => d' = d).
Proof. intros He. apply runs_atomically; [done|]. by apply runs_ret. Qed.
Lemma fsync_dir_runs p d : dk_events d = [] -> runs (fsync_dir p) d (fun _ d' => d' = d).
Proof. intros He. apply runs_atomically; [done|]. by apply runs_ret. Qed.
Lemma chmod_runs p d : dk_events d = [] -> runs (chmod p) d (fun _ d' => d' = d).
Proof. intros He. apply runs_atomically; [done|]. by apply runs_ret. Qed.


Lemma runs_after {A B} (m : M Disk A) (f : A -> M Disk B) d a d1 Q :
  m d = (Ok a, d1) -> runs (f a) d1 Q -> runs (m ≫= f) d Q.
Proof. intros Hm (b & d2 & Hf & He & HQ). exists b, d2. split_and!; [|done|done]. by rewrite (bind_run_Ok _ _ _ _ _ Hm). Qed.
Lemma no_dir_same p d d' : steady d d' -> no_dir p d -> no_dir p d'.
Proof. intros [Hs _]. unfold no_dir. by rewrite Hs. Qed.
Lemma family_self p : p ∈ family p.
Proof. apply elem_of_family. by left. Qed.
Lemma family_beside p s : s ∈ SIDECARS -> beside p s ∈ family p.
Proof. intros Hs. apply elem_of_family. right. by exists s. Qed.

Context `{!SqliteLaws}.

Lemma checked_backup_runs src partial mode db d :
  dk_events d = [] -> is_file src d = true -> sq_connect (files_at src d) = Ok db -> check_connection db = Ok [] ->
  (forall s, s ∈ SIDECARS -> file_at (beside partial s) d = None) -> file_at partial d = Some [] ->
  runs (checked_backup src partial mode) d (fun _ d' => steady d d' ∧ is_file partial d' = true).
Proof.
  intros He Hf Hdb Hcheck Hs Hp. set (d1 := put_file partial (sq_image db mode) d).
  assert (backup_into partial db mode d = (Ok (), d1)) as Hb.
  { unfold backup_into, gradually, mbind, M_bind, next_event. by rewrite He. }
  assert (file_at partial d1 = Some (sq_image db mode)) as Hp1 by (by rewrite (backup_into_Ok _ _ _ _ _ _ Hp Hb), decide_True).
  assert (files_at partial d1 = alone (sq_image db mode)) as Hf1.
  { unfold files_at, alone. rewrite Hp1. assert (forall s, s ∈ SIDECARS -> file_at (beside partial s) d1 = None) as Hs1.
    { intros s Hin. rewrite (backup_into_Ok _ _ _ _ _ _ Hp Hb), decide_False; [by apply Hs|].
      apply beside_ne. intros ->. cbv in Hin. set_solver. }
    by rewrite !Hs1 by set_solver. }
  assert (dk_events d1 = []) as He1 by (unfold d1; by rewrite put_file_events).
  unfold checked_backup. apply runs_bind. unfold connect_existing.
  apply runs_bind, runs_gets; [done|]. apply runs_bind, runs_raise_unless; [done..|]. apply runs_gets; [done|].
  apply runs_bind, (runs_lift _ db); [done..|]. apply (runs_after _ _ _ _ _ _ Hb).
  apply runs_bind, runs_gets; [done|]. rewrite Hf1. apply runs_bind, (runs_lift _ []); [done| |].
  { by rewrite image_read. }
  apply runs_raise_unless; [done..|]. split; [apply steady_put|]. unfold is_file. by rewrite Hp1.
Qed.
Lemma copy_vault_runs src dst mode db d :
  dk_events d = [] -> dir_exists dst.1 d = true -> (forall q, q ∈ dst :: family (partial_of dst) -> no_dir q d) ->
  (forall q, q ∈ family src -> q ∉ family (partial_of dst)) ->
  is_file src d = true -> sq_connect (files_at src d) = Ok db -> check_connection db = Ok [] ->
  runs (copy_vault src dst mode) d (fun _ d' => steady d d').
Proof.
  intros He Hdir Hno Hapart Hf Hdb Hcheck. unfold copy_vault. set (partial := partial_of dst) in *.
  destruct (discard_runs partial d He) as ([] & d1 & R1 & He1 & S1); [intros q Hq; apply Hno; by right|].
  apply (runs_after _ _ _ _ _ _ R1). pose proof (discard_Ok _ _ _ _ R1) as F1.
  assert (file_at partial d1 = None) as Hnone by (by rewrite F1, decide_True by apply family_self).
  destruct (create_file_runs partial d1 He1) as ([] & d2 & R2 & He2 & S2).
  { eapply no_dir_same; [done|]. apply Hno. right. apply family_self. }
  { done. }
  { by rewrite (proj1 S1). }
  apply (runs_after _ _ _ _ _ _ R2). pose proof (create_file_Ok _ _ _ _ R2) as F2.
  assert (forall s, s ∈ SIDECARS -> beside partial s ≠ partial) as Hne.
  { intros s Hs. apply beside_ne. intros ->. cbv in Hs. set_solver. }
  assert (forall q, q ∈ family src -> file_at q d2 = file_at q d) as Hsrc.
  { intros q Hq. assert (q ∉ family partial) by (by apply Hapart). rewrite F2, decide_False, F1, decide_False; [done..|].
    intros ->. by eapply Hapart, family_self. }
  apply runs_cleaning_up, runs_bind.
  eapply runs_weaken; [apply (checked_backup_runs src partial mode db)|].
  { done. }
  { unfold is_file in *. rewrite Hsrc by apply family_self. done. }
  { by rewrite (files_at_family src d d2). }
  { done. }
  { intros s Hs. rewrite F2, decide_False, F1, decide_True by first [by apply Hne|by apply family_beside]. done. }
  { by rewrite F2, decide_True. }
  intros _ d3 He3 [S3 Hp3]. assert (steady d d3) as S by (by etrans; [|etrans; [exact S2|]]).
  apply runs_bind. eapply runs_weaken; [by apply fsync_runs|]. intros _ ? _ ->.
  apply runs_bind. eapply runs_weaken; [apply replace_runs; [done..| |]|].
  { eapply no_dir_same; [exact S|]. apply Hno. by left. }
  { by rewrite (proj1 S). }
  intros u4 d4 He4 S4. eapply runs_weaken; [by apply fsync_dir_runs|]. intros _ ? _ ->. by etrans.
Qed.

Lemma copyfile_runs a b d :
  dk_events d = [] -> is_file a d = true -> runs (copyfile a b) d (fun _ d' => steady d d').
Proof.
  intros He Ha. unfold copyfile. apply runs_bind, runs_gets; [done|]. unfold is_file in Ha.
  destruct (file_at a d) as [x|]; [|done]. apply runs_gradually; [done|].
  apply runs_modify; [by rewrite put_file_events|apply steady_put].
Qed.
(** A loop whose steps all keep what the next one needs *)
Lemma runs_foldM {A} (I : Disk -> Prop) (f : () -> A -> M Disk ()) l d :
  dk_events d = [] -> I d -> (forall a d, a ∈ l -> dk_events d = [] -> I d -> runs (f () a) d (fun _ d' => I d')) ->
  runs (foldM f l ()) d (fun _ d' => I d').
Proof.
  revert d. induction l as [|a l IH]; intros d He Hi Hf; [by apply runs_ret|]. cbn [foldM].
  apply runs_bind. eapply runs_weaken; [apply Hf; [by left|done..]|]. intros [] d1 He1 Hi1.
  apply IH; [done..|]. intros x d2 Hx. apply Hf. by right.
Qed.
Lemma keep_raw_runs live kept d :
  dk_events d = [] -> (forall q, q ∈ family live -> no_dir q d) ->
  runs (keep_raw live kept) d (fun _ d' => steady d d').
Proof.
  intros He Hno. unfold keep_raw. apply runs_bind. eapply runs_weaken.
  - apply (runs_foldM (steady d)); [done..|]. intros s d1 Hs He1 S1.
    apply runs_bind, runs_gets; [done|]. assert (no_dir (beside live s) d1) as Hn.
    { eapply no_dir_same; [done|]. apply Hno. unfold family. apply list_elem_of_fmap. exists s. split; [done|].
      cbv [SIDECARS]. set_unfold. naive_solver. }
    rewrite exists_no_dir by done. destruct (is_file (beside live s) d1) eqn:Hf; [|by apply runs_ret].
    apply runs_bind. eapply runs_weaken; [by apply copyfile_runs|]. intros u d2 He2 S2.
    apply runs_bind. eapply runs_weaken; [by apply chmod_runs|]. intros ? ? _ ->.
    eapply runs_weaken; [by apply fsync_runs|]. intros ? ? _ ->. by etrans.
  - intros u d1 He1 S1. apply runs_bind. eapply runs_weaken; [by apply fsync_dir_runs|]. intros ? ? _ ->.
    eapply runs_weaken; [by apply fsync_dir_runs|]. by intros ? ? _ ->.
Qed.
Lemma move_sidecars_runs live kept d :
  dk_events d = [] -> (forall q, q ∈ family live -> no_dir q d) -> dir_exists kept d = true ->
  (forall n, no_dir (kept, n) d) -> runs (move_sidecars live kept) d (fun _ d' => steady d d').
Proof.
  intros He Hno Hkept Hnok. unfold move_sidecars. apply runs_bind. eapply runs_weaken.
  - apply (runs_foldM (steady d)); [done..|]. intros s d1 Hs He1 S1.
    apply runs_bind, runs_gets; [done|]. rewrite exists_no_dir.
    2: { eapply no_dir_same; [done|]. by apply Hno, family_beside. }
    destruct (is_file (beside live s) d1) eqn:Hf; [|by apply runs_ret].
    eapply runs_weaken; [apply replace_runs; [done..| |by rewrite (proj1 S1)]|intros u d2 He2 S2; by etrans].
    by eapply no_dir_same.
  - intros u d1 He1 S1. apply runs_bind. eapply runs_weaken; [by apply fsync_dir_runs|]. intros ? ? _ ->.
    eapply runs_weaken; [by apply fsync_dir_runs|]. by intros ? ? _ ->.
Qed.
Lemma kept_folder_runs folder d :
  dk_events d = [] -> exists_ (folder, str "replaced" ++ str "-" ++ utc_stamp (dk_clock d)) d = false ->
  runs (kept_folder folder) d (fun k d' => ∃ name, k = folder ++ [name] ∧ dir_exists k d = false ∧
    dir_exists k d' = true ∧ forall p, p ≠ k -> dir_exists p d' = dir_exists p d).
Proof.
  intros He Hfresh. set (name := str "replaced" ++ str "-" ++ utc_stamp (dk_clock d)) in *.
  apply orb_false_iff in Hfresh as [Hf Hd]. cbn [fst snd] in Hd. unfold kept_folder, timestamp.
  apply runs_bind, runs_bind, runs_gets; [done|]. apply runs_bind, runs_modify; [done|]. apply runs_ret; [done|]. fold name.
  apply runs_bind, runs_atomically; [done|]. apply runs_bind, runs_gets; [done|].
  assert (name_taken (folder ++ [name]) (set_clock (S (dk_clock d)) d) = false) as Ht.
  { unfold name_taken. rewrite reverse_snoc. cbv beta iota. by rewrite reverse_involutive. }
  assert (dir_exists (folder ++ [name]) (set_clock (S (dk_clock d)) d) = false) as Hd1 by done.
  rewrite Ht, Hd1. apply runs_bind, runs_raise_if; [done..|].
  assert (make_dir (folder ++ [name]) (set_clock (S (dk_clock d)) d) =
    set_dirs (<[folder ++ [name] := ∅]> (dk_dirs d)) (set_clock (S (dk_clock d)) d)) as Hm
    by (unfold make_dir; by rewrite Hd1).
  apply runs_modify; [by rewrite Hm|]. rewrite Hm. apply runs_ret; [done|]. exists name. split_and!; [done|done| |].
  - unfold dir_exists. cbn. by rewrite lookup_insert_eq.
  - intros p Hp. unfold dir_exists. cbn. by rewrite lookup_insert_ne.
Qed.

(** What of a vault can be taken: nothing else uses it. *)
Definition takeable (live : path) (d : Disk) : Prop :=
  has_bytes live d = true ->
  match (sq_take (files_at live d)).1 with
  | Ok _ => True
  | Err (DatabaseError code) => is_busy code = false ∧ is_unreadable code = true
  | Err _ => False
  end.
Lemma take_exclusively_runs live d :
  dk_events d = [] -> has_bytes live d = true -> takeable live d ->
  runs (take_exclusively live) d (fun _ d' => steady d d').
Proof.
  intros He Hfull Ht. specialize (Ht Hfull). apply has_bytes_file in Hfull. unfold take_exclusively.
  apply runs_bind. unfold connect_existing. apply runs_bind, runs_gets; [done|].
  apply runs_bind, runs_raise_unless; [done..|]. apply runs_gets; [done|].
  apply runs_bind. exists Runs, d. split_and!; [unfold next_event; by rewrite He|done|].
  destruct (put_files_quiet live (sq_take (files_at live d)).2 d) as [S1 E1]. rewrite He in E1.
  apply runs_bind, runs_bind, runs_modify; [done|]. apply runs_ret; [done|].
  destruct (sq_take (files_at live d)).1 as [u|e]; [by apply runs_ret|]. destruct e; try done.
  destruct Ht as [-> ->]. by apply runs_ret.
Qed.

Lemma runs_kept {A} R (m : M Disk A) d Q :
  keeps R m -> runs m d Q -> runs m d (fun a d' => Q a d' ∧ R d d').
Proof. intros Hk (a & d' & Hm & He & HQ). exists a, d'. split_and!; [done..|]. exact (keeps_run _ _ _ _ _ Hk Hm). Qed.

Lemma retire_runs live folder d :
  dk_events d = [] -> (forall q, q ∈ family live -> no_dir q d) -> dir_exists live.1 d = true ->
  (forall p n, dir_exists (p ++ [n]) d = true -> dir_exists p d = true) ->
  (forall name n, live.1 ++ [n] ≠ folder ++ [name]) -> (forall name, live.1 ≠ folder ++ [name]) -> live.1 ≠ folder ->
  exists_ (folder, str "replaced" ++ str "-" ++ utc_stamp (dk_clock d)) d = false -> takeable live d ->
  runs (retire live folder) d (fun _ d' => dir_exists live.1 d' = true ∧ no_dir live d').
Proof.
  intros He Hno Hdir Hclosed Hapart Hapart' Hfolder Hfresh Htake. unfold retire.
  apply runs_bind, runs_gets; [done|]. apply runs_bind, runs_gets; [done|].
  destruct (negb _ && negb _) eqn:Enone; [by apply runs_ret; [|split; [|apply Hno, family_self]]|]. clear Enone.
  set (P := fun q => q ∉ family live). apply runs_bind.
  apply (runs_weaken _ _ (fun _ d' => steady d d' ∧ untouched P d d')).
  { destruct (has_bytes live d) eqn:Hb; [|by apply runs_ret].
    apply runs_kept; [|by apply take_exclusively_runs]. apply kept_take; [intros Hn; apply Hn, family_self|].
    intros s Hs Hn. by apply Hn, family_beside. }
  intros c d1 He1 [S1 U1]. apply runs_bind. eapply runs_weaken; [apply kept_folder_runs; [done|]|].
  { rewrite (proj2 S1). apply orb_false_iff in Hfresh as [Hf Hd]. apply orb_false_iff.
    split; [|by rewrite (proj1 S1)]. unfold is_file in *. rewrite U1; [done|].
    intros Hin%family_dir. by apply Hfolder. }
  intros kept d2 He2 (name & -> & Hnew & Hkept & Hdirs).
  assert (forall n, dir_exists (live.1 ++ [n]) d2 = dir_exists (live.1 ++ [n]) d) as Hlive2.
  { intros n. by rewrite Hdirs, (proj1 S1). }
  assert (forall q, q ∈ family live -> no_dir q d2) as Hno2.
  { intros q Hq. unfold no_dir. rewrite (family_dir _ _ Hq), Hlive2, <- (family_dir _ _ Hq). by apply Hno. }
  assert (dir_exists live.1 d2 = true) as Hdir2 by (by rewrite Hdirs, (proj1 S1)).
  assert (forall n, no_dir (folder ++ [name], n) d2) as Hnok.
  { intros n. unfold no_dir. cbn [fst snd]. rewrite Hdirs, (proj1 S1).
    - destruct (dir_exists ((folder ++ [name]) ++ [n]) d) eqn:E; [|done]. apply Hclosed in E.
      rewrite <- (proj1 S1) in E. congruence.
    - intros E. apply (f_equal length) in E. rewrite !length_app in E. cbn in E. lia. }
  apply runs_bind. apply (runs_weaken _ _ (fun _ d' => steady d2 d')).
  { apply runs_cleaning_up. destruct (has_bytes live d); [by apply keep_raw_runs|by apply runs_ret]. }
  intros u d3 He3 S3. apply runs_bind. apply (runs_weaken _ _ (fun _ d' => steady d2 d')).
  { destruct c; [|by apply runs_ret]. unfold fold_in. apply runs_bind, runs_gets; [done|]. apply runs_bind.
    exists Runs, d3. split_and!; [unfold next_event; by rewrite He3|done|].
    destruct (put_files_quiet live (sq_fold (files_at live d3)) d3) as [S E]. rewrite He3 in E.
    apply runs_modify; [done|]. by etrans. }
  intros u1 d4 He4 S4. apply runs_bind. eapply runs_weaken.
  { apply move_sidecars_runs; [done|intros q Hq; eapply no_dir_same; [exact S4|by apply Hno2]|by rewrite (proj1 S4)|].
    intros n. eapply no_dir_same; [exact S4|apply Hnok]. }
  intros u2 d5 He5 S5. apply runs_ret; [done|]. rewrite (proj1 S5), (proj1 S4). split; [done|].
  eapply no_dir_same; [exact S5|]. eapply no_dir_same; [exact S4|]. apply Hno2, family_self.
Qed.

Lemma inits_prefix p : forall done q, q ∈ inits_from done p -> ∃ rest, q ++ rest = done ++ p.
Proof.
  induction p as [|n p IH]; intros done q Hq; cbn [inits_from] in Hq; [by apply elem_of_nil in Hq|].
  apply elem_of_cons in Hq as [->|Hq]; [exists p; by rewrite <- app_assoc|].
  apply IH in Hq as [rest E]. exists rest. by rewrite E, <- app_assoc.
Qed.
Lemma inits_exist p d :
  (forall p n, dir_exists (p ++ [n]) d = true -> dir_exists p d = true) -> dir_exists p d = true ->
  forall q, q ∈ inits_from [] p -> dir_exists q d = true.
Proof.
  intros Hclosed Hp q Hq. apply inits_prefix in Hq as [rest E]. cbn in E. subst p.
  induction rest as [|n rest IH] using rev_ind; [by rewrite app_nil_r in Hp|].
  apply IH, (Hclosed _ n). by rewrite <- app_assoc.
Qed.

Section Completes.
Context (data_dir : dir).
Abbreviation live := (vault_file data_dir).
Abbreviation folder := (snapshot_dir data_dir).
Abbreviation staged := (staged_of live).

(** Nothing stands in the way of a restore: nothing fails, no other process has the
    folder or the vault, no set-aside waits, and no folder has a file's name. What
    earlier attempts left behind does not matter. *)
Record ready (d : Disk) : Prop := {
  rd_events : dk_events d = [];
  rd_lock : dk_lock d = Unlocked;
  rd_folder : dir_exists folder d = true;
  rd_closed p n : dir_exists (p ++ [n]) d = true -> dir_exists p d = true;
  rd_names n : n ≠ SNAPSHOT_DIR -> no_dir (data_dir, n) d;
  rd_pending : exists_ (folder, SET_ASIDE_PENDING) d = false;
  rd_fresh : exists_ (folder, str "replaced" ++ str "-" ++ utc_stamp (dk_clock d)) d = false;
  rd_take : takeable live d;
}.

Lemma acquire_runs d :
  ready d -> runs (acquire data_dir) d (fun _ d' => steady d d' ∧ untouched (fun q => q ≠ (data_dir, LOCK_FILE)) d d').
Proof.
  intros Hd. pose proof (rd_events _ Hd) as He. apply runs_kept; [apply kept_acquire; by intros []|].
  assert (dir_exists data_dir d = true) as Hdir by (apply (rd_closed _ Hd _ SNAPSHOT_DIR), (rd_folder _ Hd)).
  assert (dir_exists (data_dir ++ [LOCK_FILE]) d = false) as Hno by (by apply (rd_names _ Hd)).
  assert (∃ d1, or_unwritable
    (mkdir_parents data_dir;;
     atomically (blocked ← gets (fun d => dir_exists (data_dir ++ [LOCK_FILE]) d || negb (dir_exists data_dir d));
       raise_if blocked OSError;;
       there ← gets (is_file (data_dir, LOCK_FILE));
       if there : bool then mret () else modify (put_file (data_dir, LOCK_FILE) []))) data_dir d = (Ok (), d1) ∧
     dk_events d1 = [] ∧ dk_lock d1 = Unlocked ∧ steady d d1) as (d1 & R & He1 & Hl1 & S1).
  { unfold or_unwritable, catch.
    rewrite (bind_run_Ok _ _ _ _ _ (mkdir_parents_there _ _ (inits_exist _ _ (rd_closed _ Hd) Hdir))).
    rewrite (atomically_calm _ _ He). unfold gets, mbind, M_bind. rewrite Hno, Hdir. cbn.
    destruct (is_file (data_dir, LOCK_FILE) d); eexists; (split; [reflexivity|]); [by rewrite (rd_lock _ Hd)|].
    rewrite put_file_events. split_and!; [done| |apply steady_put]. unfold put_file.
    destruct (dk_dirs d !! _); apply (rd_lock _ Hd). }
  unfold acquire. apply (runs_after _ _ _ _ _ _ R), runs_catch, runs_atomically; [done|].
  apply runs_bind, runs_gets; [done|]. rewrite Hl1. apply runs_modify; [done|]. etrans; [exact S1|]. by split.
Qed.

Lemma replace_vault_runs source db d :
  ready (set_lock Unlocked d) -> ¬ own_name data_dir source -> is_file source d = true ->
  sq_connect (files_at source d) = Ok db -> check_connection db = Ok [] ->
  runs (replace_vault data_dir source) d (fun _ _ => True).
Proof.
  intros Hd Hsource Hf Hdb Hcheck. pose proof (rd_events _ Hd) as He. cbn in He.
  assert (dir_exists data_dir d = true) as Hdir by exact (rd_closed _ Hd _ SNAPSHOT_DIR (rd_folder _ Hd)).
  assert (forall n, n ≠ SNAPSHOT_DIR -> no_dir (data_dir, n) d) as Hnames by exact (rd_names _ Hd).
  assert (forall q, q.1 = data_dir -> take 5 q.2 = str "vault" -> no_dir q d) as Hplain.
  { intros [x n] Hx Hn. cbn in Hx. subst x. apply Hnames. by intros ->. }
  unfold replace_vault. apply runs_bind. apply (runs_weaken _ _ (fun _ d' => d' = d)).
  { unfold refuse_pending_set_aside. apply runs_bind, runs_gets; [done|].
    apply runs_raise_if; [done|exact (rd_pending _ Hd)|done]. }
  intros u d0 _ ->. apply (runs_after _ _ _ () d).
  { apply mkdir_parents_there. exact (inits_exist _ _ (rd_closed _ Hd) (rd_folder _ Hd)). }
  assert (forall q, q ∈ family source -> q ∉ family (partial_of staged)) as Hapart.
  { intros q Hq Hin. apply (own_family _ _ _ Hsource Hq). split; [by apply family_dir in Hin|].
    unfold family in Hin. apply list_elem_of_fmap in Hin as (s & -> & _). done. }
  assert (runs (copy_vault source staged (str "WAL")) d (fun _ d' => steady d d')) as (u1 & d1 & R1 & He1 & S1).
  { apply (copy_vault_runs source staged _ db); try done. intros q Hq. apply Hplain.
    - apply elem_of_cons in Hq as [->|Hq]; [done|by apply family_dir in Hq].
    - apply elem_of_cons in Hq as [->|Hq]; [done|]. unfold family in Hq. by apply list_elem_of_fmap in Hq as (s & -> & _). }
  apply (runs_after _ _ _ u1 d1); [unfold catch; by rewrite R1|].
  pose proof (keeps_run _ _ _ _ _ (kept_copy_staged data_dir source (str "WAL")) R1) as U1.
  assert (forall q, q ∈ staged :: family (partial_of staged) -> q.1 = data_dir) as staged_dir.
  { intros q [->|Hq%family_dir]%elem_of_cons; done. }
  pose proof (keeps_run _ _ _ _ _ (kept_family_copy (fun q => q ∉ staged :: family (partial_of staged)) source staged
    (str "WAL") (fun q Hin Hnot => Hnot Hin)) R1) as V1.
  pose proof (rd_fresh _ Hd) as Hfresh.
  assert (data_dir ≠ folder) as Hfolder.
  { intros E. apply (f_equal length) in E. unfold snapshot_dir in E. rewrite !length_app in E. cbn in E. lia. }
  destruct (copy_vault_cases _ _ _ _ _ _ Hapart R1) as [[_ [=]]|(db' & _ & _ & Himage)].
  destruct (retire_runs live folder d1) as (o & d2 & R2 & He2 & Hdir2 & Hno2).
  { done. }
  { intros q Hq. eapply no_dir_same; [exact S1|]. apply Hplain; [by apply family_dir in Hq|].
    unfold family in Hq. by apply list_elem_of_fmap in Hq as (s & -> & _). }
  { by rewrite (proj1 S1). }
  { intros p n. rewrite !(proj1 S1). exact (rd_closed _ Hd p n). }
  { intros name n E. apply (f_equal length) in E. unfold snapshot_dir in E. rewrite !length_app in E. cbn in E. lia. }
  { intros name. apply snapshot_dir_ne. }
  { done. }
  { apply orb_false_iff in Hfresh as [Hf0 Hd0]. rewrite (proj2 S1). apply orb_false_iff.
    split; [|by rewrite (proj1 S1)]. unfold is_file in *. rewrite V1; [done|]. intros Hin.
    apply staged_dir in Hin. by apply Hfolder. }
  { unfold takeable, has_bytes. rewrite (files_at_family live d d1), U1; [exact (rd_take _ Hd)|left; apply family_self|].
    intros q Hq. apply U1. by left. }
  apply (runs_after _ _ _ _ _ _ R2). assert (file_at staged d2 = file_at staged d1) as Est.
  { apply (keeps_run (untouched (eq staged))) in R2; [by apply R2|]. apply kept_retire.
    - intros q Hq <-. eapply staged_not_precious; [by left|by left].
    - intros n m E. apply (staged_not_precious data_dir staged); [by left|right; exists n; by rewrite E]. }
  apply runs_bind. eapply runs_weaken; [apply replace_runs; [done| |done..]|].
  { unfold is_file. by rewrite Est, Himage. }
  intros u3 d3 He3 _. apply runs_bind. eapply runs_weaken; [by apply fsync_dir_runs|]. intros ? ? _ ->. by apply runs_ret.
Qed.

Lemma ready_after d d1 :
  ready d -> dk_events d1 = [] -> steady d d1 -> untouched (fun q => q ≠ (data_dir, LOCK_FILE)) d d1 ->
  ready (set_lock Unlocked d1).
Proof.
  intros Hd He1 [S1 C1] U1. assert (data_dir ≠ folder) as Hfolder.
  { intros E. apply (f_equal length) in E. unfold snapshot_dir in E. rewrite !length_app in E. cbn in E. lia. }
  assert (forall n, exists_ (folder, n) d1 = exists_ (folder, n) d) as Hex.
  { intros n. unfold exists_, is_file. rewrite (S1 _), U1; [done|]. intros [= E _]. by apply Hfolder. }
  split.
  - done.
  - done.
  - change (dir_exists folder d1 = true). rewrite S1. apply Hd.
  - intros p n. change (dir_exists (p ++ [n]) d1 = true -> dir_exists p d1 = true). rewrite !S1. apply Hd.
  - intros n Hn. change (dir_exists (data_dir ++ [n]) d1 = false). rewrite S1. by apply Hd.
  - change (exists_ (folder, SET_ASIDE_PENDING) d1 = false). rewrite Hex. apply Hd.
  - change (exists_ (folder, str "replaced" ++ str "-" ++ utc_stamp (dk_clock d1)) d1 = false). rewrite C1, Hex. apply Hd.
  - change (takeable live d1). unfold takeable, has_bytes.
    assert (forall q, q ∈ family live -> file_at q d1 = file_at q d) as E.
    { intros q Hq. apply U1. intros ->. apply (lock_not_precious data_dir). by left. }
    rewrite (files_at_family live d d1 E), (E live (family_self live)). apply (rd_take _ Hd).
Qed.
Lemma check_file_Ok p d d' :
  check_file p d = (Ok [], d') ->
  require_supported_sqlite = Ok () ∧ is_file p d = true ∧ ∃ db, sq_connect (files_at p d) = Ok db ∧ check_connection db = Ok [].
Proof.
  intros Hc. unfold check_file in Hc. apply bind_Ok in Hc as ([] & ? & [Hs ->]%lift_Ok & Hc). split; [done|].
  unfold catch in Hc. match type of Hc with (let (_, _) := ?m in _) = _ => destruct m as [[l|e] d1] eqn:E end.
  - injection Hc as -> ->. apply bind_Ok in E as (f & ? & (-> & -> & Hf)%connect_existing_Ok & [E _]%lift_Ok).
    split; [done|]. destruct (sq_connect _) as [db|]; [|done]. by exists db.
  - by destruct e.
Qed.

(** C18: A restore completes once nothing stands in its way - whatever files earlier
    attempts left, and whether the vault is there, missing or unreadable: when no
    operation fails, nothing else uses the folder or the vault, and the snapshot is
    one that SQLite reads without a problem, [restore] returns. *)
Theorem restore_completes source d :
  ready d -> ¬ own_name data_dir source -> check_file source d = (Ok [], d) ->
  ∃ kept d', restore data_dir source d = (Ok kept, d').
Proof.
  intros Hd Hsource Hcheck. pose proof (rd_events _ Hd) as He.
  apply check_file_Ok in Hcheck as Hdb. destruct Hdb as (Hsqlite & Hf & db & Hdb & Hok).
  assert (runs (with_lock data_dir (replace_vault data_dir source)) d (fun _ _ => True)) as (kept & d' & R & _ & _).
  { unfold with_lock. apply runs_bind. eapply runs_weaken; [by apply acquire_runs|]. intros u d1 He1 [S1 U1].
    assert (runs (replace_vault data_dir source) d1 (fun _ _ => True)) as (kept & d2 & R2 & He2 & _).
    { apply (replace_vault_runs source db); [by eapply ready_after|done|..|done].
      - unfold is_file in *. rewrite U1; [done|]. intros ->. by apply Hsource.
      - rewrite (files_at_family source d d1); [done|]. intros q Hq. apply U1. intros ->.
        by apply (own_family _ _ _ Hsource Hq). }
    exists kept, (set_lock Unlocked d2). unfold finally, cleaning_up, handling, catch, mbind, M_bind. by rewrite R2. }
  exists kept, d'. unfold restore. rewrite (bind_run_Ok _ _ _ () d) by (unfold lift; by rewrite Hsqlite).
  rewrite (bind_run_Ok _ _ _ _ _ Hcheck). rewrite (bind_run_Ok _ _ _ () d) by reflexivity.
  unfold handling, catch. by rewrite R.
Qed.
End Completes.

(** A refused restore, while another process holds the lock *)
Lemma acquire_refused data_dir d :
  dk_events d = [] -> dk_lock d = Locked_elsewhere ->
  (forall q, q ∈ inits_from [] data_dir -> dir_exists q d = true) ->
  dir_exists data_dir d = true -> dir_exists (data_dir ++ [LOCK_FILE]) d = false -> is_file (data_dir, LOCK_FILE) d = true ->
  ∃ m, acquire data_dir d = (Err (StorageError m), d).
Proof.
  intros He Hl Hparents Hdir Hno Hfile. eexists. unfold acquire.
  rewrite (bind_run_Ok _ _ _ () d).
  - unfold catch. rewrite (atomically_calm _ _ He). unfold gets, mbind, M_bind. rewrite Hl. cbn. reflexivity.
  - unfold or_unwritable, catch. rewrite (bind_run_Ok _ _ _ _ _ (mkdir_parents_there _ _ Hparents)).
    rewrite (atomically_calm _ _ He). unfold gets, mbind, M_bind. rewrite Hno, Hdir. cbn. by rewrite Hfile.
Qed.

(** A second [restore] that is refused, because the first holds the lock of the
    data folder, deletes the copy the first has staged: the first then fails at the
    step that puts the copy in place, after it has retired the vault. *)
Theorem refused_restore_discards_staged_copy data_dir source d r d' :
  dk_events d = [] -> dk_lock d = Locked_elsewhere ->
  (forall q, q ∈ inits_from [] data_dir -> dir_exists q d = true) -> dir_exists data_dir d = true ->
  dir_exists (data_dir ++ [LOCK_FILE]) d = false -> is_file (data_dir, LOCK_FILE) d = true ->
  (forall q, q ∈ family (staged_of (vault_file data_dir)) -> dir_exists (q.1 ++ [q.2]) d = false) ->
  check_file source d = (Ok [], d) ->
  restore data_dir source d = (r, d') ->
  is_ok r = false ∧ file_at (staged_of (vault_file data_dir)) d' = None ∧
  forall u d2, replace (staged_of (vault_file data_dir)) (vault_file data_dir) d' ≠ (Ok u, d2).
Proof.
  intros He Hl Hparents Hdir Hno Hfile Hplain Hcheck Hr.
  destruct (acquire_refused _ _ He Hl Hparents Hdir Hno Hfile) as [m Hacq].
  unfold restore in Hr. apply bind_cases in Hr as [(u1 & d1 & [_ ->]%lift_Ok & Hr)|(e & [= R <-] & ->)].
  2: { unfold check_file in Hcheck. apply bind_Ok in Hcheck as (u & d1 & [E _]%lift_Ok & _). congruence. }
  rewrite (bind_run_Ok _ _ _ _ _ Hcheck) in Hr. 
  rewrite (bind_run_Ok _ _ _ () d) in Hr by reflexivity.
  unfold handling, catch, with_lock in Hr. rewrite (bind_run_Err _ _ _ _ _ Hacq) in Hr.
  destruct (discard_calm _ _ He Hplain) as [d3 Hd]. rewrite (bind_run_Ok _ _ _ _ _ Hd) in Hr.
  unfold throw in Hr. injection Hr as <- <-.
  assert (file_at (staged_of (vault_file data_dir)) d3 = None) as Hgone.
  { rewrite (discard_Ok _ _ _ _ Hd), decide_True; [done|]. apply elem_of_family. by left. }
  split_and!; [done|done|]. intros u d2 Hrep. apply replace_Ok in Hrep as (b & Hb & _). congruence.
Qed.
End Calm.

(** After the restore of ReplaceSpec.v that was killed, another one completes; while
    another process holds the lock, a restore is refused. *)
Definition demo_interrupted : Disk :=
  set_lock Unlocked (set_clock 8 (set_events [] (demo_restore (repeat Runs 24 ++ [Killed_at 0])).2)).
Lemma dir_exists_elem p d : dir_exists p d = true ↔ p ∈ (map_to_list (dk_dirs d)).*1.
Proof.
  unfold dir_exists. rewrite list_elem_of_fmap. split.
  - destruct (dk_dirs d !! p) as [f|] eqn:E; [|done]. intros _. exists (p, f). by rewrite elem_of_map_to_list.
  - intros ([q f] & -> & Hq%elem_of_map_to_list). cbn. by rewrite Hq.
Qed.
Lemma demo_dirs p :
  dir_exists p demo_interrupted = true ->
  p ∈ [snapshot_dir demo_dir ++ [str "replaced-7"]; demo_dir; snapshot_dir demo_dir; []].
Proof.
  rewrite dir_exists_elem.
  assert ((map_to_list (dk_dirs demo_interrupted)).*1 =
    [snapshot_dir demo_dir ++ [str "replaced-7"]; demo_dir; snapshot_dir demo_dir; []]) as -> by (vm_compute; reflexivity).
  done.
Qed.
Lemma demo_closed p n : dir_exists (p ++ [n]) demo_interrupted = true -> dir_exists p demo_interrupted = true.
Proof.
  intros Hp%demo_dirs. unfold snapshot_dir, demo_dir in Hp. repeat rewrite elem_of_cons in Hp.
  destruct Hp as [E|[E|[E|[E|E]]]].
  - apply app_inj_tail in E as [-> _]. vm_compute. reflexivity.
  - apply (app_inj_tail p []) in E as [-> _]. vm_compute. reflexivity.
  - apply (app_inj_tail p [str "data"]) in E as [-> _]. vm_compute. reflexivity.
  - by destruct p.
  - by apply elem_of_nil in E.
Qed.
Lemma demo_names n : n ≠ SNAPSHOT_DIR -> no_dir (demo_dir, n) demo_interrupted.
Proof.
  intros Hn. unfold no_dir. destruct (dir_exists _ demo_interrupted) eqn:E; [|done]. apply demo_dirs in E.
  unfold snapshot_dir, demo_dir in E. repeat rewrite elem_of_cons in E.
  destruct E as [E|[E|[E|[E|E%elem_of_nil]]]]; cbn in E; try done. by injection E as ->.
Qed.
Lemma demo_ready : @ready demo_sqlite demo_host demo_dir demo_interrupted.
Proof.
  split; [vm_compute; reflexivity..|apply demo_closed|apply demo_names| | |]; try (vm_compute; reflexivity).
Qed.
Definition demo_check (d : Disk) : res (list pystr) * Disk := @check_file demo_sqlite demo_host demo_snapshot d.
Lemma demo_check_same d : (demo_check d).1 = Ok [] -> demo_check d = (Ok [], d).
Proof.
  intros E. rewrite (surjective_pairing (demo_check d)), E. f_equal.
  by apply (@check_file_same demo_sqlite demo_host demo_snapshot _ (demo_check d).1), surjective_pairing.
Qed.
Lemma demo_check_ok : demo_check demo_interrupted = (Ok [], demo_interrupted).
Proof. apply demo_check_same. vm_compute. reflexivity. Qed.
Lemma restore_completes_witness :
  ∃ kept d', @restore demo_sqlite demo_host demo_dir demo_snapshot demo_interrupted = (Ok kept, d').
Proof.
  exact (@restore_completes demo_sqlite demo_host demo_sqlite_laws demo_dir demo_snapshot demo_interrupted
    demo_ready demo_snapshot_outside demo_check_ok).
Defined.

(** Another process holds the lock and has staged its copy. *)
Definition demo_other : Disk := put_file (staged_of (vault_file demo_dir)) (demo_image demo_new) (demo_disk [] Locked_elsewhere).
Definition demo_refused : res (option dir) * Disk := @restore demo_sqlite demo_host demo_dir demo_snapshot demo_other.
Lemma demo_other_check : demo_check demo_other = (Ok [], demo_other).
Proof. apply demo_check_same. vm_compute. reflexivity. Qed.
Lemma refused_restore_discards_staged_copy_witness :
  is_file (staged_of (vault_file demo_dir)) demo_other = true ∧
  file_at (staged_of (vault_file demo_dir)) demo_refused.2 = None.
Proof.
  split; [vm_compute; reflexivity|].
  refine (proj1 (proj2 (@refused_restore_discards_staged_copy demo_sqlite demo_host demo_dir demo_snapshot demo_other
    _ _ _ _ _ _ _ _ _ demo_other_check (surjective_pairing demo_refused)))).
  - vm_compute. reflexivity.
  - vm_compute. reflexivity.
  - intros q Hq. apply list_elem_of_singleton in Hq as ->. vm_compute. reflexivity.
  - vm_compute. reflexivity.
  - vm_compute. reflexivity.
  - vm_compute. reflexivity.
  - intros q Hq. unfold family in Hq. apply list_elem_of_fmap in Hq as (s & -> & Hs).
    repeat (apply elem_of_cons in Hs as [->|Hs]; [vm_compute; reflexivity|]). by apply elem_of_nil in Hs.
Defined.
