(* ===== verification/Admin.v ===== *)
(** The commands for a stopped vault ([vault_admin.py]) over the operations of
    Storage.v. *)
From Stdlib Require Import ZArith Lia Strings.String Strings.Byte.
From stdpp Require Import base list gmap strings.
From S2P Require Import Prelude Crypto Storage.

(** The disk and what was echoed; [true] is for the standard error *)
Record Desk := { ad_disk : Disk; ad_said : list (bool * pystr) }.
Definition on_disk {A} (m : M Disk A) : M Desk A := fun w =>
  let (r, d) := m (ad_disk w) in (r, {| ad_disk := d; ad_said := ad_said w |}).
Definition echo (err : bool) (s : pystr) : M Desk () :=
  modify (fun w => {| ad_disk := ad_disk w; ad_said := ad_said w ++ [(err, s)] |}).

Inductive AdminCommand :=
  | Snapshot (output : option path)
  | CheckFile (file : option path)
  | RestoreFrom (file : path) (yes : bool)
  | ResetSettings (yes : bool)
  | MigrateUsers (yes : bool)
  | MigrateFolders (yes : bool)
  | SetAside (yes : bool).

(** [vault_defaults] is [get_vault_defaults], which refuses an invalid environment;
    [consents] is how the questions are answered. *)
Section Admin.
Context `{Sqlite} `{Host} (data_dir : dir) (vault_defaults : res ()) (consents : pystr -> bool).

Definition _fail {A} (error : pystr) : M Desk A := echo true (str "Error: " ++ error);; throw (Exit 1).
(** [except storage.StorageError as error: raise _fail(error)] *)
Definition or_fail {A} (m : M Disk A) : M Desk A :=
  catch (on_disk m) (fun e => match e with StorageError error => _fail error | _ => throw e end).
(** [typer.confirm(_, abort=True)] *)
Definition confirm (label : pystr) : M Desk () := if consents label then mret () else throw Aborted.
Definition unless_yes (yes : bool) (label : pystr) : M Desk () := if yes then mret () else confirm label.

Definition cmd_snapshot (output : option path) : M Desk () :=
  p ← or_fail (snapshot data_dir output);
  echo false (str "Snapshot written: " ++ path_text p).
Definition cmd_check (file : option path) : M Desk () :=
  let target := default (vault_file data_dir) file in
  problems ← or_fail (check_file target);
  match problems with
  | [] => echo false (path_text target ++ str ": ok")
  | _ =>
      forM (take 20 problems) (fun problem => echo true (str "Problem: " ++ problem));;
      throw (Exit 1)
  end.
Definition cmd_restore (file : path) (yes : bool) : M Desk () :=
  unless_yes yes (str "Replace the vault in " ++ dir_text data_dir ++ str " with " ++ path_text file ++ str "?");;
  kept ← or_fail (restore data_dir file);
  match kept with Some kept => echo false (str "The replaced vault was kept as " ++ dir_text kept) | None => mret () end;;
  echo false (str "Restored. Start CipherMoth and unlock with that snapshot's password.").
Definition cmd_reset_settings (yes : bool) : M Desk () :=
  lift vault_defaults;;
  unless_yes yes (str "Discard saved settings and inherit the server defaults?");;
  saved ← or_fail (reset_settings data_dir);
  echo false (str "Settings reset. Rollback snapshot: " ++ path_text saved).
Definition cmd_migrate_users (yes : bool) : M Desk () :=
  unless_yes yes (str "Migrate the stopped schema-2 vault in " ++ dir_text data_dir ++ str " for users and grants?");;
  saved ← or_fail (migrate_users data_dir);
  echo false (str "Migrated. Rollback snapshot: " ++ path_text saved);;
  echo false (str "Start CipherMoth and create the first administrator with the vault's current master password; existing entries will belong to that account.").
Definition cmd_migrate_folders (yes : bool) : M Desk () :=
  unless_yes yes (str "Migrate the stopped schema-3 vault in " ++ dir_text data_dir ++ str " for folder access management?");;
  saved ← or_fail (migrate_folders data_dir);
  echo false (str "Migrated. Rollback snapshot: " ++ path_text saved);;
  echo false (str "Encrypted legacy folder names will be linked atomically on the next successful account unlock.").
Definition cmd_set_aside (yes : bool) : M Desk () :=
  unless_yes yes (str "Move the vault in " ++ dir_text data_dir
                  ++ str " aside and start over with an empty vault the next time CipherMoth starts?");;
  kept ← or_fail (set_aside data_dir);
  match kept with
  | None => echo false (str "There is no vault file to move.")
  | Some kept =>
      echo false (str "The vault was moved to " ++ dir_text kept);;
      echo false (str "Start CipherMoth to create a new vault. To go back, stop CipherMoth and move the files in that folder back into the data folder.")
  end.
Definition run_admin (c : AdminCommand) : M Desk () :=
  match c with
  | Snapshot output => cmd_snapshot output
  | CheckFile file => cmd_check file
  | RestoreFrom file yes => cmd_restore file yes
  | ResetSettings yes => cmd_reset_settings yes
  | MigrateUsers yes => cmd_migrate_users yes
  | MigrateFolders yes => cmd_migrate_folders yes
  | SetAside yes => cmd_set_aside yes
  end.
End Admin.
