(* ===== verification/AdminSpec.v ===== *)
(** What the commands for a stopped vault promise (Admin.v): one that rewrites the vault
    in place leaves the database it had in a copy first, and a declined one does nothing. *)
From Stdlib Require Import ZArith Lia Strings.String Strings.Byte.
From stdpp Require Import base list gmap strings.
From S2P Require Import Prelude Crypto Storage DiskSpec DiskDemo SnapshotSpec ReplaceSpec Admin.

(** ** Rewriting a vault in place *)

Section Rewriting.
Context `{!Sqlite} `{!SqliteLaws} `{!Host} (data_dir : dir).
Abbreviation live := (vault_file data_dir).
Abbreviation folder := (snapshot_dir data_dir).
Abbreviation apart := (untouched (fun q => q ∈ family live)).

(** The vault holds the database [db]; the file at [t] holds it on its own. *)
Definition sees (db : database) (d : Disk) : Prop := sq_connect (files_at live d) = Ok db.
Definition copied (db : database) (t : path) (d : Disk) : Prop :=
  ∃ c, file_at t d = Some c ∧ sq_connect (alone c) = Ok db.
Lemma sees_apart db d d' : apart d d' -> sees db d -> sees db d'.
Proof. intros U. unfold sees. by rewrite (files_at_family live d d') by exact U. Qed.
Lemma copied_untouched db t d d' : untouched (fun q => q = t) d d' -> copied db t d -> copied db t d'.
Proof. intros U (c & Hc & Ho). exists c. by rewrite U. Qed.
Lemma live_dir q : q ∈ family live -> q.1 = data_dir.
Proof. intros [? _]%vault_names. done. Qed.
Lemma folder_ne : folder ≠ data_dir.
Proof. intros E. apply (f_equal length) in E. unfold snapshot_dir in E. rewrite length_app in E. cbn in E. lia. Qed.
Lemma lock_apart : (data_dir, LOCK_FILE) ∉ family live.
Proof. intros [_ E]%vault_names. discriminate E. Qed.
Lemma in_folder t : t.1 = folder -> t ∉ family live.
Proof. intros E Hq%live_dir. rewrite E in Hq. by apply folder_ne. Qed.
Lemma kept_put_live t f : t ∉ family live -> keeps (untouched (fun q => q = t)) (modify (put_files live f)).
Proof.
  intros Ht. apply kept_put_files.
  - intros <-. apply Ht, elem_of_family. by left.
  - intros s Hs <-. apply Ht, elem_of_family. right. by exists s.
Qed.
Lemma kept_transact t body : t ∉ family live -> keeps (untouched (fun q => q = t)) (transact live body).
Proof. intros Ht. unfold transact. disk_tac; by apply kept_put_live. Qed.

Lemma transact_cases db body d r d' :
  sees db d -> transact live body d = (r, d') ->
  sees db d' ∧ is_ok r = false ∨ ∃ new, body db = Ok new ∧ sees new d'.
Proof.
  intros Hs Ht. unfold transact in Ht. apply bind_cases in Ht as [(f & d1 & R1 & Ht)|(e & R1 & ->)].
  2: { apply connect_existing_Err in R1 as [_ ->]. by left. }
  apply connect_existing_Ok in R1 as (-> & -> & Hf). apply bind_cases in Ht as [(x & d1 & R1 & Ht)|(e & [= _ <-] & ->)]; [|by left].
  apply lift_Ok in R1 as [E ->]. unfold sees in Hs. rewrite Hs in E. injection E as <-.
  apply bind_cases in Ht as [(new & d1 & R1 & Ht)|(e & R1 & ->)]; [|injection R1 as _ <-; by left].
  apply lift_Ok in R1 as [Hnew ->]. apply bind_cases in Ht as [(ev & d1 & R1 & Ht)|(e & R1 & _)];
    [|unfold next_event in R1; by destruct (dk_events d)].
  apply next_event_dirs in R1.
  assert (dir_exists live.1 d1 = true) as Hdir by (unfold dir_exists; rewrite R1; exact (is_file_dir _ _ Hf)).
  assert (files_at live d1 = files_at live d) as E1 by (apply files_at_family; intros q _; by apply file_at_dirs).
  destruct ev as [|n|n].
  - injection Ht as <- <-. right. exists new. split; [done|]. unfold sees. by rewrite put_files_at, commit_read.
  - injection Ht as <- <-. left. split; [|done]. unfold sees. by rewrite E1.
  - apply bind_cases in Ht as [(u & d2 & [= _ <-] & [= <- <-])|(e & [=] & _)]. unfold sees. rewrite put_files_at by done.
    destruct (committing_read n new (files_at live d)) as [E|E]; rewrite E; [by left|right; by exists new].
Qed.

(** *** The copy that is made first *)

Lemma snapshot_copies d r d' :
  snapshot data_dir None d = (r, d') ->
  apart d d' ∧ forall t, r = Ok t -> t.1 = folder ∧ file_at t d = None ∧ forall db, sees db d -> copied db t d'.
Proof.
  intros Hs. unfold snapshot in Hs. apply bind_cases in Hs as [(t & d1 & R1 & Hs)|(e & R1 & ->)];
    pose proof (keeps_run _ _ _ _ _ (kept_snapshot_target (fun _ => True) _ _) R1) as U1;
    [|split; [intros q _; by apply U1|done]].
  assert (t.1 = folder) as Hdir.
  { unfold snapshot_target, timestamped, timestamp in R1. run_inv R1. done. }
  apply snapshot_target_Ok in R1 as (_ & Hname & Hnone). pose proof (partial_family_apart data_dir t) as Hapart.
  pose proof (kept_family_copy (fun q => q ∈ family live) live t (str "DELETE")
    (fun q Hin Hq => Hapart q Hname Hq Hin)) as Hk.
  apply bind_cases in Hs as [(u & d2 & R2 & [= <- <-])|(e & R2 & ->)]; apply catch_cases in R2 as [R2|(e' & R2 & E)];
    try discriminate; pose proof (keeps_run _ _ _ _ _ Hk R2) as U2;
    (split; [intros q Hq; rewrite U2 by done; by apply U1|]); try done.
  intros x [= <-]. split_and!; [done|done|]. intros db Hdb.
  destruct (copy_vault_cases live t _ _ _ _ (fun q Hq Hin => Hapart q Hname Hq (list_elem_of_further _ _ _ Hin)) R2)
    as [[_ [=]]|(db' & Hdb' & _ & Hfile)].
  assert (files_at live d1 = files_at live d) as E by (apply files_at_family; intros q _; by apply U1).
  unfold sees in Hdb. rewrite E, Hdb in Hdb'. injection Hdb' as <-. exists (sq_image db (str "DELETE")).
  split; [done|apply image_read].
Qed.

Lemma copy_before_migration_copies t ready d r d' :
  t.1 = folder -> copy_before_migration live t ready d = (r, d') ->
  apart d d' ∧ (is_ok r = true -> file_at t d = None ∧ forall db, sees db d -> copied db t d').
Proof.
  intros Hdir Hc. pose proof (in_folder t Hdir) as Ht. split.
  - refine (keeps_run _ _ _ _ _ _ Hc). unfold copy_before_migration. disk_tac; try done; apply kept_discard; try done.
    intros s _. by apply in_folder.
  - destruct r as [[]|e]; [intros _|done]. unfold copy_before_migration in Hc.
    apply bind_Ok in Hc as (f & ? & (-> & -> & _)%connect_existing_Ok & Hc).
    apply bind_Ok in Hc as (db & ? & [Hdb ->]%lift_Ok & Hc). apply bind_Ok in Hc as ([] & ? & [_ ->]%lift_Ok & Hc).
    apply bind_Ok in Hc as (there & ? & [= <- <-] & Hc). apply bind_Ok in Hc as ([] & ? & [Hex ->]%raise_if_Ok & Hc).
    apply bind_Ok in Hc as ([] & d1 & R1 & Hc). pose proof (create_file_Ok _ _ _ _ R1) as F1.
    apply bind_Ok in Hc as ([] & d2 & R2 & Hc). apply bind_Ok in Hc as ([] & d3 & R3%fsync_Ok & Hc). apply fsync_dir_Ok in Hc.
    apply cleaning_up_cases in R2 as [([] & R2 & _)|(e & ? & _ & [? [=]] & _)].
    apply backup_into_Ok with (q := t) in R2; [|by rewrite F1, decide_True]. rewrite decide_True in R2 by done.
    split; [unfold exists_, is_file in Hex; by destruct (file_at t d)|].
    intros db' Hdb'. unfold sees in Hdb'. rewrite Hdb in Hdb'. injection Hdb' as <-. exists (sq_image db (str "DELETE")).
    rewrite (file_at_dirs _ _ _ Hc), (file_at_dirs _ _ _ R3). split; [done|apply image_read].
Qed.

(** *** What a rewriting operation can end with *)

(** [d] is the disk before, [d'] the one after. *)
Definition rewritten (body : database -> res database) (old : database) (t : path) (d d' : Disk) : Prop :=
  ∃ new, body old = Ok new ∧ sees new d' ∧ t.1 = folder ∧ file_at t d = None ∧ copied old t d'.
Definition way_back (body : database -> res database) (old : database) (d : Disk) (r : res path) (d' : Disk) : Prop :=
  (sees old d' ∧ is_ok r = false ∨ ∃ t, rewritten body old t d d') ∧ forall t, r = Ok t -> rewritten body old t d d'.
Lemma way_back_same body old d e d' : apart d d' -> sees old d -> way_back body old d (Err e) d'.
Proof. intros U Hs. split; [left; split; [by eapply sees_apart|done]|done]. Qed.
Lemma sees_dirs db d d' : dk_dirs d' = dk_dirs d -> sees db d -> sees db d'.
Proof. intros E. apply sees_apart. by apply untouched_dirs. Qed.
Lemma rewritten_after body old t d d1 d2 :
  t ∉ family live -> untouched (fun q => q ∈ family live ∨ q = t) d1 d2 -> rewritten body old t d d1 -> rewritten body old t d d2.
Proof.
  intros Ht U (new & Hb & Hs & Hd & Hn & Hc). exists new. split_and!; try done.
  - eapply sees_apart; [|done]. intros q Hq. apply U. by left.
  - eapply copied_untouched; [|done]. intros q ->. apply U. by right.
Qed.
(** A transaction on a vault that was copied to [t] *)
Lemma transact_after body old t d d1 r d2 :
  t.1 = folder -> file_at t d = None -> copied old t d1 -> sees old d1 -> transact live body d1 = (r, d2) ->
  sees old d2 ∧ is_ok r = false ∨ rewritten body old t d d2.
Proof.
  intros Hdir Hnone Hc Hs Ht. pose proof (keeps_run _ _ _ _ _ (kept_transact t body (in_folder t Hdir)) Ht) as U.
  apply (transact_cases old) in Ht as [?|(new & Hb & Hnew)]; [by left| |done].
  right. exists new. split_and!; try done. by eapply copied_untouched.
Qed.
Lemma lock_file_apart d d' : untouched (fun q => q ≠ (data_dir, LOCK_FILE)) d d' -> apart d d'.
Proof. intros U q Hq. apply U. intros ->. by apply lock_apart. Qed.
Lemma lock_file_at t d d' : t.1 = folder -> untouched (fun q => q ≠ (data_dir, LOCK_FILE)) d d' -> file_at t d' = file_at t d.
Proof. intros Hdir U. apply U. intros ->. by apply folder_ne. Qed.

Lemma reset_settings_cases old d r d' :
  sees old d -> reset_settings data_dir d = (r, d') -> way_back (sq_execute (str "DELETE FROM settings")) old d r d'.
Proof.
  intros Hs Hr. unfold reset_settings in Hr.
  apply bind_cases in Hr as [([] & ? & [_ ->]%lift_Ok & Hr)|(e & [= _ <-] & ->)]; [|by apply way_back_same].
  apply with_lock_cases in Hr as [[U%lock_file_apart Hbad]|(d1 & d2 & U & Hr & Hd)].
  { destruct r; [done|]. by apply way_back_same. }
  pose proof (sees_apart old _ _ (lock_file_apart _ _ U) Hs) as Hs1.
  assert (way_back (sq_execute (str "DELETE FROM settings")) old d r d2) as [Hw Hok].
  2: { assert (forall t, rewritten (sq_execute (str "DELETE FROM settings")) old t d d2 ->
         rewritten (sq_execute (str "DELETE FROM settings")) old t d d') as Hto.
       { intros t Ht. eapply rewritten_after; [|by apply untouched_dirs|done]. by destruct Ht as (? & _ & _ & ?%in_folder & _). }
       split; [|auto]. destruct Hw as [[? ?]|[t ?]]; [left; split; [by eapply sees_dirs|done]|right; eauto]. }
  apply bind_cases in Hr as [(t & d3 & R1 & Hr)|(e & R1 & ->)]; apply snapshot_copies in R1 as [U1 Hcopy].
  2: { split; [left; split; [by eapply sees_apart|done]|done]. }
  destruct (Hcopy t eq_refl) as (Hdir & Hnone & Hc). specialize (Hc old Hs1). rewrite (lock_file_at t d d1 Hdir U) in Hnone.
  pose proof (sees_apart old _ _ U1 Hs1) as Hs3.
  apply bind_cases in Hr as [(u & d4 & R2 & [= <- <-])|(e & R2 & ->)]; apply catch_cases in R2 as [R2|(e' & R2 & E)];
    try discriminate; apply (transact_after _ old t d) in R2 as [[? [=]]|?]; try done;
    (split; [by eauto|]); [by intros ? [= <-]|done..].
Qed.

(** The copy and the transaction of a migration *)
Lemma copied_then_rewritten body ready old t d r d' :
  t.1 = folder -> sees old d -> (copy_before_migration live t ready;; transact live body) d = (r, d') ->
  sees old d' ∧ is_ok r = false ∨ rewritten body old t d d'.
Proof.
  intros Hdir Hs Hm. apply bind_cases in Hm as [([] & d1 & R1 & Hm)|(e & R1 & ->)];
    apply (copy_before_migration_copies t ready) in R1 as [U Hcopy]; try done.
  - destruct (Hcopy eq_refl) as [Hnone Hc]. eapply transact_after; [done|done|by apply Hc|by eapply sees_apart|done].
  - left. split; [by eapply sees_apart|done].
Qed.
Lemma rewritten_before body old t d d1 d2 :
  file_at t d1 = file_at t d -> rewritten body old t d1 d2 -> rewritten body old t d d2.
Proof. intros E (new & Hb & Hs & Hd & Hn & Hc). exists new. rewrite E in Hn. by split_and!. Qed.
Lemma migration_cases body ready (h : exn -> exn) old t d r d' :
  t.1 = folder -> sees old d ->
  with_lock data_dir (catch (copy_before_migration live t ready;; transact live body) (fun e => throw (h e))) d = (r, d') ->
  sees old d' ∧ is_ok r = false ∨ rewritten body old t d d'.
Proof.
  intros Hdir Hs Hw. apply with_lock_cases in Hw as [[U Hbad]|(d1 & d2 & U & Hw & Hd)].
  { left. split; [|done]. by apply (sees_apart _ d); [apply lock_file_apart|]. }
  pose proof (sees_apart old _ _ (lock_file_apart _ _ U) Hs) as Hs1.
  assert (sees old d2 ∧ is_ok r = false ∨ rewritten body old t d1 d2) as [[Hv Hbad]|Hrw].
  { apply catch_cases in Hw as [Hw|(e & Hw & ->)]; apply (copied_then_rewritten _ _ old) in Hw; try done. }
  - left. split; [by eapply sees_dirs|done].
  - right. apply (rewritten_before _ _ _ d d1); [by apply lock_file_at|].
    eapply rewritten_after; [by apply in_folder|by apply untouched_dirs|done].
Qed.
Lemma migrate_cases prefix ready schema old d r d' :
  sees old d -> migrate data_dir prefix ready schema d = (r, d') ->
  way_back (run_statements (schema ++ [str "PRAGMA user_version=" ++ str_of_Z SCHEMA_VERSION])) old d r d'.
Proof.
  intros Hs Hr. unfold migrate in Hr. cbv zeta in Hr. set (body := run_statements _) in *.
  apply bind_cases in Hr as [([] & ? & [_ ->]%lift_Ok & Hr)|(e & [= _ <-] & ->)]; [|by apply way_back_same].
  apply bind_cases in Hr as [([] & d1 & R1 & Hr)|(e & R1 & ->)];
    pose proof (keeps_run _ _ _ _ _ (kept_mkdir_parents (fun _ => True) _) R1) as U1;
    [|apply way_back_same; [intros q _; by apply U1|done]].
  apply bind_cases in Hr as [(name & d2 & R2 & Hr)|(e & R2 & ->)];
    pose proof (keeps_run _ _ _ _ _ (kept_timestamped (fun _ => True) _) R2) as U2;
    [|apply way_back_same; [intros q _; by rewrite U2, U1|done]].
  assert (untouched (fun _ => True) d d2) as U by (by etrans). clear R1 R2 U1 U2.
  assert (sees old d2) as Hs2 by (eapply sees_apart; [|done]; intros q _; by apply U).
  apply bind_cases in Hr as [([] & d3 & R1 & Hr)|(e & R1 & ->)]; apply (migration_cases _ _ _ old) in R1; try done;
    destruct R1 as [[Hv Hbad]|Hrw]; try done.
  - assert (untouched (fun _ => True) d3 d') as U3 by (refine (keeps_run _ _ _ _ _ _ Hr); disk_tac).
    assert (rewritten body old (folder, name) d d') as Hd'.
    { eapply rewritten_before; [by apply U|]. eapply rewritten_after; [by apply in_folder| |done]. intros q _. by apply U3. }
    split; [right; by eexists|]. intros x ->. by run_inv Hr.
  - split; [by left|done].
  - split; [right|done]. eexists. eapply rewritten_before; [by apply U|done].
Qed.
End Rewriting.

(** ** The commands *)

Section Commands.
Context `{!Sqlite} `{!SqliteLaws} `{!Host} (data_dir : dir) (vault_defaults : res ()) (consents : pystr -> bool).
Abbreviation run := (run_admin data_dir vault_defaults consents).

(** What the commands that rewrite the vault do to its database *)
Definition final_statement : pystr := str "PRAGMA user_version=" ++ str_of_Z SCHEMA_VERSION.
Definition rewriting (c : AdminCommand) : option (database -> res database) :=
  match c with
  | ResetSettings _ => Some (sq_execute (str "DELETE FROM settings"))
  | MigrateUsers _ =>
      Some (run_statements ((statements USERS_SCHEMA_SQL ++ statements FOLDER_SCHEMA_SQL) ++ [final_statement]))
  | MigrateFolders _ => Some (run_statements (statements FOLDER_SCHEMA_SQL ++ [final_statement]))
  | _ => None
  end.
(** A command that finished, and its output names the copy *)
Definition announced (t : path) (w : Desk) : Prop := ∃ intro, (false, intro ++ path_text t) ∈ ad_said w.
Definition command_way_back (body : database -> res database) (old : database) (w : Desk) (r : res ()) (w' : Desk) : Prop :=
  (sees data_dir old (ad_disk w') ∧ is_ok r = false ∨ ∃ t, rewritten data_dir body old t (ad_disk w) (ad_disk w')) ∧
  (r = Ok () -> ∃ t, rewritten data_dir body old t (ad_disk w) (ad_disk w') ∧ announced t w').

Lemma or_fail_cases {A} (m : M Disk A) w r w' :
  or_fail m w = (r, w') ->
  ∃ r0, m (ad_disk w) = (r0, ad_disk w') ∧ is_ok r0 = is_ok r ∧ forall a, r = Ok a -> r0 = Ok a.
Proof.
  unfold or_fail, catch, on_disk. destruct (m (ad_disk w)) as [[a|e] d1]; [intros [= <- <-]; by eexists|].
  intros Hr. exists (Err e). destruct e; injection Hr as <- <-; by split_and!.
Qed.
Lemma unless_yes_cases yes label w r w' :
  unless_yes consents yes label w = (r, w') -> w' = w ∧ (r = Ok () ∨ r = Err Aborted).
Proof.
  unfold unless_yes, confirm. destruct yes; [by intros [= <- <-]; auto|]. destruct (consents label); intros [= <- <-]; auto.
Qed.
(** The common course: ask, rewrite, name the copy *)
Lemma rewriting_course (op : M Disk path) body old (k : path -> M Desk ()) yes label w r w' :
  sees data_dir old (ad_disk w) ->
  (forall r0 d', op (ad_disk w) = (r0, d') -> way_back data_dir body old (ad_disk w) r0 d') ->
  (forall t w1, ∃ w2, k t w1 = (Ok (), w2) ∧ ad_disk w2 = ad_disk w1 ∧ announced t w2) ->
  (unless_yes consents yes label;; saved ← or_fail op; k saved) w = (r, w') -> command_way_back body old w r w'.
Proof.
  intros Hs Hop Hk Hr.
  apply bind_cases in Hr as [(u & w1 & [-> _]%unless_yes_cases & Hr)|(e & [-> _]%unless_yes_cases & ->)].
  2: { split; [by left|done]. }
  apply bind_cases in Hr as [(t & w1 & (r0 & R0 & _ & Heq)%or_fail_cases & Hr)|(e & (r0 & R0 & Hbad & _)%or_fail_cases & ->)].
  - destruct (Hop _ _ R0) as [_ Hok]. destruct (Hk t w1) as (w2 & Hk2 & Hd & Ha). rewrite Hk2 in Hr. injection Hr as <- <-.
    specialize (Hok t (Heq t eq_refl)). unfold command_way_back. rewrite Hd. by split; [right; exists t|exists t].
  - destruct (Hop _ _ R0) as [[[Hv _]|Hrw] _]; (split; [|done]); first [by left|by right].
Qed.
Lemma echo_run err s w : echo err s w = (Ok (), {| ad_disk := ad_disk w; ad_said := ad_said w ++ [(err, s)] |}).
Proof. done. Qed.
Lemma announced_last intro t w said :
  announced t {| ad_disk := ad_disk w; ad_said := (ad_said w ++ [(false, intro ++ path_text t)]) ++ said |}.
Proof. exists intro. cbn. set_solver. Qed.

(** C19: An administration command that rewrites the vault in place - resetting its
    settings, or a migration - cannot lose it: whatever fails and wherever the process is
    killed, the vault still holds the database it had, or holds what the command makes of
    it while a new file in the snapshot folder holds the database it had, on its own. A
    command that ends well has rewritten the vault and named that file. *)
Theorem commands_keep_a_way_back c body old w r w' :
  rewriting c = Some body -> sees data_dir old (ad_disk w) -> run c w = (r, w') -> command_way_back body old w r w'.
Proof.
  intros Hc Hs Hr. destruct c as [| | |yes|yes|yes|]; try done; cbn [rewriting] in Hc; apply (inj Some) in Hc as <-;
    cbn [run_admin] in Hr.
  - apply bind_cases in Hr as [([] & w1 & [_ ->]%lift_Ok & Hr)|(e & [= _ <-] & ->)]; [|by split; [left|]].
    eapply rewriting_course; [done|intros r0 d'; by apply reset_settings_cases| |exact Hr].
    intros t w1. eexists. split; [reflexivity|split; [done|]].
    pose proof (announced_last (str "Settings reset. Rollback snapshot: ") t w1 []) as Ha. by rewrite app_nil_r in Ha.
  - eapply rewriting_course; [done|intros r0 d'; by apply migrate_cases| |exact Hr].
    intros t w1. eexists. split; [reflexivity|split; [done|]].
    exact (announced_last (str "Migrated. Rollback snapshot: ") t w1 [_]).
  - eapply rewriting_course; [done|intros r0 d'; by apply migrate_cases| |exact Hr].
    intros t w1. eexists. split; [reflexivity|split; [done|]].
    exact (announced_last (str "Migrated. Rollback snapshot: ") t w1 [_]).
Qed.

(** A command whose question is declined does nothing. *)
Lemma declined_commands_do_nothing c w r w' :
  match c with RestoreFrom _ yes | ResetSettings yes | MigrateUsers yes | MigrateFolders yes | SetAside yes => yes = false
  | _ => False end ->
  (forall label, consents label = false) -> run c w = (r, w') -> w' = w ∧ is_ok r = false.
Proof.
  intros Hyes Hno Hr.
  assert (forall label, unless_yes consents false label w = (Err Aborted, w)) as Hask.
  { intros label. unfold unless_yes, confirm. by rewrite Hno. }
  assert (forall A label (k : () -> M Desk A), (unless_yes consents false label ≫= k) w = (Err Aborted, w)) as Hstop
    by (intros A label k; by apply bind_run_Err).
  destruct c as [| |file yes|yes|yes|yes|yes]; try done; subst yes; cbn [run_admin] in Hr;
    unfold cmd_restore, cmd_reset_settings, cmd_migrate_users, cmd_migrate_folders, cmd_set_aside in Hr.
  2: { apply bind_cases in Hr as [([] & w1 & [_ ->]%lift_Ok & Hr)|(e & [= _ <-] & ->)]; [|done].
       rewrite Hstop in Hr. by injection Hr as <- <-. }
  all: rewrite Hstop in Hr; by injection Hr as <- <-.
Qed.
End Commands.

(** ** A reset that finishes *)

(** [demo_sqlite], but a statement leaves its mark *)
Definition marking_sqlite : Sqlite := {|
  database := bytes;
  sqlite_version := (3, 51, 3);
  sq_connect := demo_connect;
  pragma_integrity_check _ := Ok [str "ok"];
  pragma_quick_check _ := Ok [str "ok"];
  pragma_foreign_key_check _ := Ok [];
  pragma_application_id db := Ok (if bool_decide (db = []) then 0 else APPLICATION_ID);
  pragma_user_version db := Ok (if bool_decide (db = []) then 0 else SCHEMA_VERSION);
  count_schema_objects db := Ok (if bool_decide (db = []) then 0 else 1);
  select_formats _ := Ok [CInt FORMAT_VERSION];
  sq_execute _ db := Ok (x2a :: db);
  create_all db := Ok (mark :: db);
  sq_image db _ := demo_image db;
  sq_commit db _ := alone (demo_image db);
  sq_committing n db f := if Nat.even n then f else alone (demo_image db);
  sq_take := demo_take;
  sq_fold := demo_fold;
  sq_folding n f := if Nat.even n then f else demo_fold f;
|}.
Lemma marking_sqlite_laws : @SqliteLaws marking_sqlite.
Proof. destruct demo_sqlite_laws. by split. Qed.
Definition desk : Desk := {| ad_disk := demo_disk [] Unlocked; ad_said := [] |}.
Definition demo_reset : res () * Desk :=
  @run_admin marking_sqlite demo_host demo_dir (Ok ()) (fun _ => true) (ResetSettings false) desk.
Lemma demo_reset_Ok : demo_reset.1 = Ok ().
Proof. vm_compute. reflexivity. Qed.
Lemma demo_reset_before : @sees marking_sqlite demo_dir demo_old (ad_disk desk).
Proof. vm_compute. reflexivity. Qed.
Lemma commands_keep_a_way_back_witness :
  ∃ t, @rewritten marking_sqlite demo_dir (fun db => Ok (x2a :: db)) demo_old t (ad_disk desk) (ad_disk demo_reset.2).
Proof.
  refine (match proj2 (@commands_keep_a_way_back marking_sqlite marking_sqlite_laws demo_host demo_dir (Ok ()) (fun _ => true)
            (ResetSettings false) _ demo_old desk _ _ eq_refl demo_reset_before (surjective_pairing demo_reset))
            demo_reset_Ok with ex_intro _ t (conj Hrw _) => ex_intro _ t Hrw end).
Defined.
