(* ===== verification/Start.v ===== *)
(** Starting and stopping: [Database.prepare] ([crud/engine.py]), the lifespan of the
    application ([main.py]) and the desktop core's use of it ([desktop_core/entry.py]). *)
From Stdlib Require Import ZArith Lia Strings.String Strings.Byte.
From stdpp Require Import base list gmap strings.
From S2P Require Import Prelude Crypto Sessions Storage.

(** A process: the disk, and the sessions in its memory *)
Record Process := { pr_disk : Disk; pr_sessions : VaultSessions }.
Definition on_vault {A} (m : M Disk A) : M Process A := fun w =>
  let (r, d) := m (pr_disk w) in (r, {| pr_disk := d; pr_sessions := pr_sessions w |}).
Definition with_vault_sessions (v : VaultSessions) (w : Process) : Process :=
  {| pr_disk := pr_disk w; pr_sessions := v |}.

Section Start.
Context `{Sqlite} `{Host} (data_dir : dir).

(** [Database.prepare]. The writer's connection opens the file that
    [prepare_data_dir] left. *)
Definition prepare : M Disk () :=
  prepare_data_dir data_dir;;
  lift require_supported_sqlite;;
  catch (transact (vault_file data_dir) ensure_schema)
    (fun e => throw (match e with
       | DatabaseError _ => StorageError (str "SQLite cannot open the vault file " ++ path_text (vault_file data_dir)
           ++ str ": " ++ error_text e ++ str ". Restore a snapshot (docs/UPDATING.md).")
       | _ => e end)).

(** [lifespan]; [serving] is what happens until the server stops, the sweeps of
    expired sessions included. *)
Definition lifespan {A} (serving : M Process A) : M Process A :=
  on_vault (acquire data_dir);;
  finally
    (on_vault prepare;;
     finally serving (modify (fun w => with_vault_sessions (revoke_all (pr_sessions w)).2 w)))
    (on_vault (modify (set_lock Unlocked))).

(** [serve], with the idle timeout of the settings *)
Definition DESKTOP_SESSIONS : nat := 1.
Definition desktop_serve {A} (idle_timeout_ms : Z) (serving : M Process A) : M Process A :=
  on_vault (migrate_users_if_needed data_dir);;
  v ← lift (make_vault_sessions idle_timeout_ms EXPIRY_TOLERANCE_MS MAX_LIFETIME_MS DESKTOP_SESSIONS);
  modify (with_vault_sessions v);;
  lifespan serving.
End Start.
