(* ===== verification/StartSpec.v ===== *)
(** What a start and a stop promise (Start.v): the vault that was found is the one
    that is served, and no session outlives the server. *)
From Stdlib Require Import ZArith Lia Strings.String Strings.Byte.
From stdpp Require Import base list gmap strings.
From S2P Require Import Prelude Crypto Sessions Storage DiskSpec DiskDemo SnapshotSpec ReplaceSpec AdminSpec Start.

Lemma finally_run {S A} (m : M S A) c s r s' :
  finally m c s = (r, s') ->
  ∃ r1 s1, m s = (r1, s1) ∧
    (r1 = Err Killed ∧ r = Err Killed ∧ s' = s1 ∨ r1 ≠ Err Killed ∧ s' = (c s1).2 ∧ ((c s1).1 = Ok () -> r = r1)).
Proof.
  unfold finally, cleaning_up, handling, catch, mbind, M_bind. destruct (m s) as [[a|e] s1].
  - intros Hr. exists (Ok a), s1. split; [done|]. right. destruct (c s1) as [[[]|e] s2]; by injection Hr as <- <-.
  - intros Hr. exists (Err e), s1. split; [done|].
    destruct e; try (right; destruct (c s1) as [[[]|e] s2]; by injection Hr as <- <-). left. by injection Hr as <- <-.
Qed.
Lemma on_vault_run {A} (m : M Disk A) w r w' :
  on_vault m w = (r, w') -> m (pr_disk w) = (r, pr_disk w') ∧ pr_sessions w' = pr_sessions w.
Proof. unfold on_vault. destruct (m (pr_disk w)) as [r1 d1]. by intros [= <- <-]. Qed.

(** *** The lock *)

Definition same_lock (d d' : Disk) : Prop := dk_lock d' = dk_lock d.
#[export] Instance same_lock_preorder : PreOrder same_lock.
Proof. split; [by intros d|]. intros x y z Hxy Hyz. unfold same_lock in *. congruence. Qed.
Lemma lock_put p b d : same_lock d (put_file p b d).
Proof. unfold same_lock, put_file. by destruct (_ !! _). Qed.
Lemma lock_remove p d : same_lock d (remove_file p d).
Proof. unfold same_lock, remove_file. by destruct (_ !! _). Qed.
Lemma lock_make_dir p d : same_lock d (make_dir p d).
Proof. unfold same_lock, make_dir. by destruct (dir_exists p d). Qed.
Lemma lock_put_or_remove p b d : same_lock d (put_or_remove p b d).
Proof. destruct b; [apply lock_put|apply lock_remove]. Qed.
Lemma lock_put_files p f d : same_lock d (put_files p f d).
Proof. unfold put_files. repeat (etrans; [|apply lock_put_or_remove]). reflexivity. Qed.
Lemma lock_next_event : keeps same_lock next_event.
Proof. intros d. unfold next_event. by destruct (dk_events d). Qed.
Ltac lock_tac :=
  repeat first
    [ apply lock_next_event
    | lazymatch goal with |- keeps same_lock (modify _) =>
        intros ?; first [apply lock_put|apply lock_remove|apply lock_make_dir|apply lock_put_files] end
    | lazymatch goal with |- keeps same_lock (if ?b then _ else _) => destruct b end
    | keeps_step ].

Section Lock.
Context `{Sqlite} `{Host} (data_dir : dir).
Lemma lock_prepare_data_dir : keeps same_lock (prepare_data_dir data_dir).
Proof.
  unfold prepare_data_dir, or_unwritable, unwritable, mkdir_parents, refuse_pending_set_aside, refuse_orphaned_journals,
    refuse_unusable_file, connect_existing, create_file, atomically. lock_tac.
Qed.
Lemma lock_transact p body : keeps same_lock (transact p body).
Proof. unfold transact, connect_existing. lock_tac. Qed.
Lemma lock_prepare : keeps same_lock (prepare data_dir).
Proof.
  unfold prepare. apply keeps_bind; [apply _|apply lock_prepare_data_dir|intros ?].
  apply keeps_bind; [apply _|lock_tac|intros ?]. apply keeps_catch; [apply _|apply lock_transact|intros ?; lock_tac].
Qed.
Lemma acquire_locks d u d' : acquire data_dir d = (Ok u, d') -> dk_lock d' = Locked_here.
Proof.
  unfold acquire. intros Ha. apply bind_Ok in Ha as (v & d1 & _ & Ha).
  apply catch_cases in Ha as [Ha|(e & _ & [=])]. apply atomically_Ok in Ha as (d2 & _ & _ & Ha).
  apply bind_Ok in Ha as (l & d3 & [= <- <-] & Ha). destruct (dk_lock d2); [by injection Ha as _ <-|done..].
Qed.
End Lock.

(** ** The vault that is found is the one that is served *)

Section Starting.
Context `{!Sqlite} `{!SqliteLaws} `{!Host} (data_dir : dir).
Abbreviation live := (vault_file data_dir).
Abbreviation all := (fun _ : path => True).

Lemma untouched_some (P : path -> Prop) d d' : untouched all d d' -> untouched P d d'.
Proof. intros U q _. by apply U. Qed.
Lemma is_file_untouched d d' : untouched all d d' -> is_file live d' = is_file live d.
Proof. intros U. unfold is_file. by rewrite U. Qed.
Lemma untouched_bind {A B} (P : path -> Prop) (m : M Disk A) (f : A -> M Disk B) d r d' :
  keeps (untouched P) m -> (m ≫= f) d = (r, d') ->
  (forall a d1, untouched P d d1 -> f a d1 = (r, d') -> untouched P d1 d') -> untouched P d d'.
Proof.
  intros Hk Hm Hrest. apply bind_cases in Hm as [(a & d1 & R & Hm)|(e & R & ->)];
    pose proof (keeps_run _ _ _ _ _ Hk R) as U; [|done]. etrans; [exact U|by eapply Hrest].
Qed.
(** Nothing is created where a vault is. *)
Lemma create_unless_there d r d' :
  exists_ live d = true ->
  or_unwritable (there ← gets (exists_ live);
     (if there : bool then mret () else create_file live);;
     raise_unless (dir_writable data_dir && file_writable live) OSError) data_dir d = (r, d') -> untouched all d d'.
Proof.
  intros Hex Hr. unfold or_unwritable, catch in Hr.
  match type of Hr with (match ?m d with _ => _ end = _) => assert (m d = raise_unless (dir_writable data_dir && file_writable live) OSError d) as E end.
  { unfold mbind, M_bind, gets. rewrite Hex. reflexivity. }
  rewrite E in Hr. unfold raise_unless in Hr. destruct (_ && _); cbn in Hr; [by injection Hr as _ <-|].
  refine (keeps_run _ _ _ _ _ _ Hr). apply keeps_bind; [apply _|apply kept_unwritable|intros ?]. apply keeps_throw, _.
Qed.
Lemma prepare_data_dir_leaves d r d' :
  is_file live d = true -> prepare_data_dir data_dir d = (r, d') -> untouched all d d'.
Proof.
  intros Hf Hp. unfold prepare_data_dir in Hp. cbv zeta in Hp.
  eapply untouched_bind; [|exact Hp|]; [apply kept_or_unwritable, kept_mkdir_parents|]. intros [] d1 U1 Hp1.
  eapply untouched_bind; [|exact Hp1|]; [apply kept_refuse_pending|]. intros [] d2 U2 Hp2.
  eapply untouched_bind; [|exact Hp2|]; [apply kept_refuse_orphaned|]. intros [] d3 U3 Hp3.
  eapply untouched_bind; [|exact Hp3|]; [apply kept_refuse_unusable|]. intros [] d4 U4 Hp4.
  assert (exists_ live d4 = true) as Hex.
  { unfold exists_. assert (untouched all d d4) as U by (by repeat (etrans; [eassumption|])). by rewrite (is_file_untouched d), Hf. }
  apply bind_cases in Hp4 as [([] & d5 & R & [= _ <-])|(e & R & ->)]; by eapply create_unless_there.
Qed.

(** What [ensure_schema] makes of a database *)
Definition opened (db : database) (d : Disk) : Prop :=
  sees data_dir db d ∨ ∃ new, ensure_schema db = Ok new ∧ sees data_dir new d.
Lemma ensure_schema_existing db new : pragma_application_id db ≠ Ok 0 -> ensure_schema db = Ok new -> new = db.
Proof.
  unfold ensure_schema. intros Hid He. destruct (pragma_application_id db) as [a|] eqn:Ea; [|done]. cbn in He.
  apply res_bind_Ok in He as (v & _ & He). apply res_bind_Ok in He as (o & _ & He).
  destruct (a =? 0) eqn:E0; [apply Z.eqb_eq in E0; congruence|]. cbn [andb] in He.
  apply res_bind_Ok in He as ([p|] & _ & He); congruence.
Qed.
Lemma opened_existing db d : pragma_application_id db ≠ Ok 0 -> opened db d -> sees data_dir db d.
Proof. intros Hid [?|(new & He & Hs)]; [done|]. by apply ensure_schema_existing in He as ->. Qed.
Lemma opened_dirs db d d' : untouched all d d' -> opened db d -> opened db d'.
Proof.
  intros U%(untouched_some (fun q => q ∈ family live)) [?|(new & He & Hs)]; [left; by eapply sees_apart|right].
  exists new. split; [done|by eapply sees_apart].
Qed.
Lemma prepare_opens old d r d' : reads old live d -> prepare data_dir d = (r, d') -> opened old d'.
Proof.
  intros [Hs Hf] Hp. unfold prepare in Hp.
  apply bind_cases in Hp as [(p & d1 & R1 & Hp)|(e & R1 & ->)]; apply prepare_data_dir_leaves in R1 as U1; try done.
  2: { left. eapply sees_apart; [by apply untouched_some|done]. }
  assert (sees data_dir old d1) as Hs1 by (eapply sees_apart; [by apply untouched_some|done]).
  apply bind_cases in Hp as [([] & ? & [_ ->]%lift_Ok & Hp)|(e & [= _ <-] & ->)]; [|by left].
  assert (∃ r2, transact live ensure_schema d1 = (r2, d')) as (r2 & Ht).
  { apply catch_cases in Hp as [Hp|(e & Hp & _)]; by eexists. }
  apply (transact_cases data_dir old) in Ht as [[? _]|?]; [by left|by right|done].
Qed.

(** *** Upgrades of a vault that is found *)

Definition migrations : list (database -> res database) :=
  [run_statements ((statements USERS_SCHEMA_SQL ++ statements FOLDER_SCHEMA_SQL) ++ [final_statement]);
   run_statements (statements FOLDER_SCHEMA_SQL ++ [final_statement])].
(** [db] is the vault of the disk [d], or what a migration made of it that kept a
    copy. *)
Definition upgraded (old : database) (d : Disk) (db : database) (d' : Disk) : Prop :=
  db = old ∨ ∃ body t, body ∈ migrations ∧ body old = Ok db ∧ t.1 = snapshot_dir data_dir ∧ file_at t d = None ∧ copied old t d'.
Lemma rewritten_upgraded body old t d d' :
  body ∈ migrations -> rewritten data_dir body old t d d' -> ∃ db, sees data_dir db d' ∧ upgraded old d db d'.
Proof. intros Hb (new & Hnew & Hs & Hd & Hn & Hc). exists new. split; [done|]. right. by exists body, t. Qed.
Lemma check_file_there p d problems d' : check_file p d = (Ok problems, d') -> is_file p d = true ∧ d' = d.
Proof.
  unfold check_file. intros Hc. apply bind_Ok in Hc as ([] & ? & [_ ->]%lift_Ok & Hc). unfold catch in Hc.
  destruct ((f ← connect_existing p; lift (db ← sq_connect f; check_connection db)) d) as [[x|e] d1] eqn:E.
  - injection Hc as _ <-. by apply bind_Ok in E as (f & d2 & (-> & _ & ?)%connect_existing_Ok & [_ ->]%lift_Ok).
  - destruct e; try done. injection Hc as _ <-. apply bind_cases in E as [(f & d2 & (-> & _ & ?)%connect_existing_Ok & E)|(e & E & [= <-])].
    + by injection E as _ <-.
    + unfold connect_existing, raise_unless in E. destruct (is_file p d) eqn:Ef; unfold gets, mbind, M_bind in E; rewrite Ef in E; discriminate E.
Qed.
Lemma migrate_leaves_file prefix ready schema d t d' :
  migrate data_dir prefix ready schema d = (Ok t, d') -> is_file live d' = true.
Proof.
  unfold migrate. cbv zeta. intros Hm. apply bind_Ok in Hm as (? & ? & _ & Hm). apply bind_Ok in Hm as (? & ? & _ & Hm).
  apply bind_Ok in Hm as (? & ? & _ & Hm). apply bind_Ok in Hm as (? & ? & _ & Hm).
  apply bind_Ok in Hm as (ps & d1 & [Hf ->]%check_file_there & Hm).
  apply bind_Ok in Hm as ([] & ? & [_ ->]%raise_unless_Ok & [= _ <-]). done.
Qed.
Lemma migrate_upgrades prefix ready schema old d r d' :
  run_statements (schema ++ [final_statement]) ∈ migrations -> reads old live d ->
  (Some <$> migrate data_dir prefix ready schema) d = (r, d') ->
  ∃ db, sees data_dir db d' ∧ upgraded old d db d' ∧ (is_ok r = true -> is_file live d' = true).
Proof.
  intros Hb [Hs _] Hm.
  assert (∃ r0, migrate data_dir prefix ready schema d = (r0, d') ∧ is_ok r0 = is_ok r) as (r0 & Hr0 & Hok).
  { unfold fmap, M_fmap in Hm. destruct (migrate data_dir prefix ready schema d) as [[t|e] d1]; injection Hm as <- <-; by eexists. }
  pose proof (migrate_cases data_dir prefix ready schema old d r0 d' Hs Hr0) as [[[Hv _]|[t Hrw]] _].
  - exists old. split_and!; [done|by left|]. intros Hr. rewrite <- Hok in Hr. destruct r0; [|done]. by eapply migrate_leaves_file.
  - apply rewritten_upgraded in Hrw as (db & Hdb & Hu); [|done]. exists db. split_and!; [done|done|].
    intros Hr. rewrite <- Hok in Hr. destruct r0; [|done]. by eapply migrate_leaves_file.
Qed.

Lemma upgrade_cases old d r d' :
  reads old live d -> migrate_users_if_needed data_dir d = (r, d') ->
  ∃ db, sees data_dir db d' ∧ upgraded old d db d' ∧ (is_ok r = true -> is_file live d' = true).
Proof.
  intros Hrd Hm. pose proof Hrd as [Hs Hf]. unfold migrate_users_if_needed in Hm.
  assert (forall r1, (r1, d) = (r, d') -> ∃ db, sees data_dir db d' ∧ upgraded old d db d' ∧ (is_ok r = true -> is_file live d' = true))
    as Hsame by (intros r1 [= <- <-]; exists old; by split_and!; [|left|]).
  apply bind_cases in Hm as [(fl & ? & [= <- <-] & Hm)|(e & [=] & _)].
  destruct (has_bytes live d); cbn [negb] in Hm; [|by eapply Hsame].
  match type of Hm with ((?m ≫= _) _ = _) => assert (keeps eq m) as Hk end.
  { unfold connect_existing. repeat keeps_step. }
  apply bind_cases in Hm as [(found & d1 & R & Hm)|(e & R & ->)]; apply (keeps_run _ _ _ _ _ Hk) in R as <-;
    [|by eapply Hsame].
  destruct found as [[a v]|]; [|by eapply Hsame]. destruct (negb _); [by eapply Hsame|].
  destruct (v =? PREVIOUS_SCHEMA_VERSION); [|destruct (v =? MULTIUSER_SCHEMA_VERSION); [|by eapply Hsame]].
  - eapply migrate_upgrades; [|done|exact Hm]. left.
  - eapply migrate_upgrades; [|done|exact Hm]. right. left.
Qed.

(** *** Serving *)

Definition stopped (w2 w' : Process) : Prop :=
  sessions (pr_sessions w') = [] ∧ dk_lock (pr_disk w') = Unlocked ∧ dk_dirs (pr_disk w') = dk_dirs (pr_disk w2).
Lemma stop_runs (serving : M Process ()) w r w' :
  finally serving (modify (fun w => with_vault_sessions (revoke_all (pr_sessions w)).2 w)) w = (r, w') ->
  ∃ r1 w2, serving w = (r1, w2) ∧
    (r1 = Err Killed ∧ r = Err Killed ∧ w' = w2 ∨ r1 ≠ Err Killed ∧ r = r1 ∧ sessions (pr_sessions w') = [] ∧ pr_disk w' = pr_disk w2).
Proof.
  intros (r1 & w2 & Hr & [?|(Hk & -> & Hok)])%finally_run; exists r1, w2; (split; [done|]); [by left|right].
  split_and!; [done|by apply Hok|done|done].
Qed.
(** Snapshots stay. *)
Definition kept_snapshots (d d' : Disk) : Prop := forall t, t.1 = snapshot_dir data_dir -> file_at t d' = file_at t d.
Lemma kept_snapshots_run {A} (m : M Disk A) d r d' :
  (forall t, t.1 = snapshot_dir data_dir -> keeps (untouched (fun q => q = t)) m) -> m d = (r, d') -> kept_snapshots d d'.
Proof. intros Hk Hm t Ht. by apply (keeps_run _ _ _ _ _ (Hk t Ht) Hm). Qed.
Lemma kept_prepare t : t.1 = snapshot_dir data_dir -> keeps (untouched (fun q => q = t)) (prepare data_dir).
Proof.
  intros Ht. unfold prepare. apply keeps_bind; [apply _| |intros ?].
  - apply kept_prepare_data_dir. intros <-. by apply (folder_ne data_dir).
  - apply keeps_bind; [apply _|apply keeps_lift, _|intros ?]. apply keeps_catch; [apply _| |intros ?; apply keeps_throw, _].
    by apply kept_transact, in_folder.
Qed.
Lemma acquire_reads old d r d' : reads old live d -> acquire data_dir d = (r, d') -> reads old live d' ∧ kept_snapshots d d'.
Proof.
  intros Hrd Ha. split.
  - eapply (reads_untouched _ _ (fun q => q ≠ (data_dir, LOCK_FILE))); [intros q Hq ->; by apply (lock_apart data_dir)| |done].
    refine (keeps_run _ _ _ _ _ _ Ha). apply kept_acquire. by intros [].
  - eapply kept_snapshots_run; [|exact Ha]. intros t Ht. apply kept_acquire. intros <-. by apply (folder_ne data_dir).
Qed.
(** A start from [d] got as far as [d']. *)
Definition started_from (old : database) (d d' : Disk) : Prop := opened old d' ∧ kept_snapshots d d'.
Definition served (old : database) (serving : M Process ()) (w : Process) (r : res ()) (w' : Process) : Prop :=
  ∃ w1 r1 w2, serving w1 = (r1, w2) ∧ started_from old (pr_disk w) (pr_disk w1) ∧ dk_lock (pr_disk w1) = Locked_here ∧
    pr_sessions w1 = pr_sessions w ∧ (r1 = Err Killed ∧ r = Err Killed ∧ w' = w2 ∨ r = r1 ∧ stopped w2 w').
Lemma prepared_cases old serving w w0 r w' :
  started_from old (pr_disk w) (pr_disk w0) -> dk_lock (pr_disk w0) = Locked_here -> pr_sessions w0 = pr_sessions w ->
  is_file live (pr_disk w0) = true -> sees data_dir old (pr_disk w0) ->
  finally (on_vault (prepare data_dir);;
           finally serving (modify (fun w => with_vault_sessions (revoke_all (pr_sessions w)).2 w)))
          (on_vault (modify (set_lock Unlocked))) w0 = (r, w') ->
  is_ok r = false ∧ started_from old (pr_disk w) (pr_disk w') ∨ served old serving w r w'.
Proof.
  intros [_ Hkept] Hlock Hses Hf Hs Hl. apply finally_run in Hl as (r2 & w2 & Hl & Hend).
  assert (Hend' : r2 = Err Killed ∧ r = Err Killed ∧ w' = w2 ∨ r2 ≠ Err Killed ∧ r = r2 ∧ pr_sessions w' = pr_sessions w2 ∧
      dk_lock (pr_disk w') = Unlocked ∧ dk_dirs (pr_disk w') = dk_dirs (pr_disk w2)).
  { destruct Hend as [?|(Hk & -> & Hok)]; [by left|right]. split_and!; [done|by apply Hok|done..]. }
  clear Hend. apply bind_cases in Hl as [([] & w3 & [R3 Es3]%on_vault_run & Hl)|(e & [R3 Es3]%on_vault_run & ->)];
    pose proof (prepare_opens old _ _ _ (conj Hs Hf) R3) as Ho;
    pose proof (kept_snapshots_run _ _ _ _ kept_prepare R3) as Hk3.
  - right. pose proof (keeps_run _ _ _ _ _ (lock_prepare data_dir) R3) as Elock.
    apply stop_runs in Hl as (r4 & w4 & Hserve & Hstop). exists w3, r4, w4. unfold stopped.
    split_and!; [done| |by rewrite Elock|by rewrite Es3|].
    { split; [done|]. intros t Ht. rewrite Hk3 by done. by apply Hkept. }
    destruct Hstop as [(-> & -> & ->)|(Hk & -> & Hrev & Hd)].
    + left. by destruct Hend' as [(_ & -> & ->)|(? & _)].
    + destruct Hend' as [(-> & _)|(_ & -> & E1 & E2 & E3)]; [done|]. right. rewrite E1, E3, Hd. by split_and!.
  - left. assert (is_ok r = false ∧ dk_dirs (pr_disk w') = dk_dirs (pr_disk w2)) as [Hno Hd]
      by (destruct Hend' as [(_ & -> & ->)|(_ & -> & _ & _ & E)]; by split).
    split; [done|split].
    + eapply opened_dirs; [by apply untouched_dirs|done].
    + intros t Ht. rewrite (file_at_dirs _ _ _ Hd), Hk3 by done. by apply Hkept.
Qed.
Lemma lifespan_cases old serving w r w' :
  reads old live (pr_disk w) -> lifespan data_dir serving w = (r, w') ->
  is_ok r = false ∧ started_from old (pr_disk w) (pr_disk w') ∨ served old serving w r w'.
Proof.
  intros Hrd Hl. unfold lifespan in Hl.
  apply bind_cases in Hl as [([] & w1 & [R1 Es]%on_vault_run & Hl)|(e & [R1 Es]%on_vault_run & ->)];
    pose proof (acquire_reads old _ _ _ Hrd R1) as [[Hs1 Hf1] Hk1].
  - eapply prepared_cases; [split; [by left|done]|by eapply acquire_locks|done|done|done|exact Hl].
  - left. split; [done|]. split; [by left|done].
Qed.

(** C20: A desktop start serves the vault that was found. Whatever fails and wherever
    the process is killed before it serves, the vault holds the database that was found,
    or what a migration made of it while a new file in the snapshot folder holds the
    found database on its own, or either of them as [ensure_schema] completed it, which
    changes none that carries CipherMoth's identity. It serves under the lock of the data
    folder and with no session open; and once serving ended, however it ended, no session
    is left and the lock is free. *)
Theorem a_start_serves_the_vault_found idle (serving : M Process ()) old w (r : res ()) w' :
  reads old live (pr_disk w) -> desktop_serve data_dir idle serving w = (r, w') ->
  (is_ok r = false ∧ ∃ db, upgraded old (pr_disk w) db (pr_disk w') ∧ opened db (pr_disk w')) ∨
  ∃ db w1 r1 w2, serving w1 = (r1, w2) ∧ upgraded old (pr_disk w) db (pr_disk w1) ∧ opened db (pr_disk w1) ∧
    dk_lock (pr_disk w1) = Locked_here ∧ sessions (pr_sessions w1) = [] ∧
    (r1 = Err Killed ∧ r = Err Killed ∧ w' = w2 ∨ r = r1 ∧ stopped w2 w').
Proof.
  intros Hrd Hd. unfold desktop_serve in Hd.
  assert (forall db d1 d2, upgraded old (pr_disk w) db d1 -> kept_snapshots d1 d2 -> upgraded old (pr_disk w) db d2) as Hup.
  { intros db d1 d2 [->|(body & t & Hb & Hdb & Ht & Hn & Hc)] Hk; [by left|right]. exists body, t. split_and!; try done.
    eapply copied_untouched; [|exact Hc]. intros q ->. by apply Hk. }
  apply bind_cases in Hd as [(up & w1 & [R1 _]%on_vault_run & Hd)|(e & [R1 _]%on_vault_run & ->)];
    pose proof (upgrade_cases old _ _ _ Hrd R1) as (db & Hs & Hu & Hf).
  2: { left. split; [done|]. exists db. split; [done|by left]. }
  apply bind_cases in Hd as [(v & w2 & [Hv ->]%lift_Ok & Hd)|(e & [= _ <-] & ->)].
  apply bind_cases in Hd as [([] & w2 & [= <-] & Hd)|(e & [=] & _)].
  apply (lifespan_cases db) in Hd as [[Hno [Ho Hk]]|(w3 & r3 & w4 & Hserve & [Ho Hk] & Hl & Hses & Hend)].
  - left. split; [done|]. exists db. split; [by eapply Hup|done].
  - right. exists db, w3, r3, w4. split_and!; [done|by eapply Hup|done|done| |done].
    rewrite Hses. cbn. by injection Hv as <-.
  - split; [done|by apply Hf].
Qed.
End Starting.

(** ** A start that migrates *)

(** A small SQLite whose databases are of schema 3 until a statement was run *)
Definition aging_sqlite : Sqlite := {|
  database := bytes;
  sqlite_version := (3, 51, 3);
  sq_connect := demo_connect;
  pragma_integrity_check _ := Ok [str "ok"];
  pragma_quick_check _ := Ok [str "ok"];
  pragma_foreign_key_check _ := Ok [];
  pragma_application_id db := Ok (if bool_decide (db = []) then 0 else APPLICATION_ID);
  pragma_user_version db :=
    Ok (if bool_decide (db = []) then 0 else if bool_decide (take 1 db = [x2a]) then SCHEMA_VERSION else MULTIUSER_SCHEMA_VERSION);
  count_schema_objects db := Ok (if bool_decide (db = []) then 0 else 1);
  select_formats _ := Ok [CInt FORMAT_VERSION];
  sq_execute _ db := Ok (x2a :: db);
  create_all db := Ok (mark :: db);
  sq_image db _ := demo_image db;
  sq_commit db _ := alone (demo_image db);
  sq_committing n db f := if Nat.even n then f else alone (demo_image db);
  sq_take := demo_take;
  sq_fold := demo_fold;
  sq_folding n f := if Nat.even n then f else demo_fold f;
|}.
Lemma aging_sqlite_laws : @SqliteLaws aging_sqlite.
Proof. destruct demo_sqlite_laws. by split. Qed.
Definition no_vault_sessions : VaultSessions :=
  {| idle_timeout_ms := 0; tolerance_ms := 0; max_lifetime_ms := 0; max_sessions := 1; sessions := [] |}.
Definition demo_process : Process := {| pr_disk := demo_disk [] Unlocked; pr_sessions := no_vault_sessions |}.
Definition demo_start : res () * Process :=
  @desktop_serve aging_sqlite demo_host demo_dir () 120000 (mret ()) demo_process.
Lemma demo_start_Ok : demo_start.1 = Ok ().
Proof. vm_compute. reflexivity. Qed.
Lemma demo_start_found : @reads aging_sqlite demo_old (vault_file demo_dir) (pr_disk demo_process).
Proof. split; vm_compute; reflexivity. Qed.
(** The vault was migrated: it is of schema 4 now. *)
Lemma demo_start_migrated :
  match demo_connect (files_at (vault_file demo_dir) (pr_disk demo_start.2)) with
  | Ok db => take 1 db = [x2a] ∧ drop (length db - 2) db = demo_old
  | Err _ => False
  end.
Proof. vm_compute. split; reflexivity. Qed.
Lemma a_start_serves_the_vault_found_witness :
  sessions (pr_sessions demo_start.2) = [] ∧ dk_lock (pr_disk demo_start.2) = Unlocked.
Proof.
  destruct (@a_start_serves_the_vault_found aging_sqlite aging_sqlite_laws demo_host demo_dir 120000 (mret ()) demo_old
    demo_process _ _ demo_start_found (surjective_pairing demo_start))
    as [[Hno _]|(db & w1 & r1 & w2 & _ & _ & _ & _ & _ & [(_ & Hno & _)|(_ & Hs & Hl & _)])].
  - rewrite demo_start_Ok in Hno. discriminate Hno.
  - rewrite demo_start_Ok in Hno. discriminate Hno.
  - exact (conj Hs Hl).
Defined.
