(* ===== verification/Findings.v ===== *)
(** Behaviours the model brought to light, as concrete runs, and what holds
    of the moves between folders that are checked. *)
From Stdlib Require Import ZArith Lia Strings.String Strings.Byte.
From stdpp Require Import base list gmap.
From S2P Require Import Prelude Crypto Platform Concrete Sessions Models Engine Records Context Folder.
From S2P Require Import Group Password Attachment Acl MasterPassword Auth BackupFormat Backup Api Demo AccessSpec BackupSpec Schemas.

Section Moves.
Context `{Cryptography} `{Environment} `{Codec} `{Text}.
Implicit Types context : AuthContext.

Lemma get_folder_Ok i w f w' :
  get_folder i w = (Ok f, w') -> t_rows (folders (w_db w)) !! i = Some f ∧ w' = w.
Proof.
  unfold get_folder. intros Hg. run_inv Hg. world_inv. destruct (_ !! _); [|done].
  by simplify_eq/=.
Qed.

Lemma reaches_owner d now u id e : reaches d now u id e perm_owner -> owns_entry d u e = true.
Proof. intros [[_ Ho]|([] & E & _)]%reaches_cases; [exact Ho|discriminate E..]. Qed.

(** An update that names another folder by its id moves the entry only for
    the entry's owner (or its folder's), and only into a folder that belongs to
    the entry's own owner. *)
Theorem explicit_move_needs_owner context name p key w fid :
  is_ok (auth_update_password context name p key w).1 = true ->
  pw_folder_id p = Some fid ->
  ∃ id e doc, found_entry (w_db w) key name false None id e doc ∧
    (folder_id e ≠ Some fid ->
       (forall now, reaches (w_db w) now (ctx_id context) id e perm_owner) ∧
       ∃ f, t_rows (folders (w_db w)) !! fid = Some f ∧ entry_owner_id e = Some (folder_owner_id f)).
Proof.
  intros Hok Hp. unfold auth_update_password in Hok.
  apply bind_is_ok' in Hok as ([id e] & w1 & He & Hok).
  apply entry_by_name_Ok in He as (doc & q & Hf & _ & _ & [Hdb _ _ _ _ _]).
  exists id, e, doc. split; [done|]. intros Hne.
  apply bind_is_ok' in Hok as (current & w2 & Hc & Hok). apply lift_Ok in Hc as [_ ->].
  rewrite Hp in Hok. rewrite (bool_decide_eq_false_2 (Some fid = None)) in Hok by done.
  cbn [andb] in Hok. rewrite Hp, bool_decide_eq_false_2 in Hok by congruence.
  apply bind_is_ok' in Hok as (u & w3 & Hm & _). run_inv Hm.
  match goal with Hr : require _ _ _ _ = _ |- _ => apply require_Ok in Hr as (Hq & Hle & [Hdb' _ _ _ _ _]) end.
  match goal with Hr : get_folder _ _ = _ |- _ => apply get_folder_Ok in Hr as [Hfold ->] end.
  match goal with Hr : bool_decide (Some _ ≠ _) = false |- _ =>
    apply bool_decide_eq_false, dec_stable in Hr; rename Hr into Hown end.
  split; [|eexists; split; [by rewrite <- Hdb, <- Hdb'|done]].
  intros now. apply owns_entry_reaches. apply permission_Ok_spec in Hq as (e' & He' & [Hq _]).
  rewrite Hdb, (fe_row _ _ _ _ _ _ _ _ Hf) in He'. injection He' as <-. rewrite Hdb in Hq.
  destruct x; [|unfold perm_le in Hle; simpl in Hle; lia..]. by apply reaches_owner in Hq.
Qed.
End Moves.

(** ** A writer becomes an owner

    [AuthorizedPasswordCRUD.update_password] checks ownership when the [folder_id]
    of the entry and of the request differ. A request that names a folder by text
    has no [folder_id], so on an entry outside folders the check is skipped;
    [_folder_for] then finds, or makes, a folder of that name of the caller's own,
    and the entry is moved into it: its folder's owner now owns it. *)
Definition take_over : Password :=
  with_pw_folder (Some (str "mine")) (demo_entry (str "mail") (str "s3cret")).
Definition demo_bob_context : AuthContext := default no_context (demo_context demo_bob_token demo_shared).

(** In a vault where [bob] may only write root's entry [mail], his update of
    that entry with a folder name succeeds and makes him its owner. *)
Theorem writer_becomes_owner :
  let before := begin_transaction demo_shared in
  let '(r, after) := auth_update_password demo_bob_context (str "mail") take_over
                       (ctx_key demo_bob_context) before in
  (permission demo_bob_context 1 before).1 = Ok perm_write ∧
  r = Ok () ∧ (permission demo_bob_context 1 after).1 = Ok perm_owner.
Proof. vm_compute. split_and!; reflexivity. Qed.

(** ** A grant that expires while a listing is made

    [access_map] chooses the entries at one reading of the clock and computes
    their permissions at later ones: a grant that ends in between makes the whole
    listing fail. *)
Definition expiring_clock (index : nat) : Z := if (index =? 0)%nat then 10 else 30.
Definition expiring_environment : Environment := demo_environment_with expiring_clock.
Definition expiring_world : World := fresh_world (plain_db 20) demo_sessions.

(** When a grant expires between the two readings of the clock, the listing of
    all entries raises [NotFound], although the entry was found visible. *)
Theorem listing_races_with_expiry :
  (visible_ids (H0 := expiring_environment) plain_eve false expiring_world).1 = Ok [2] ∧
  (access_map (H0 := expiring_environment) plain_eve false expiring_world).1
    = Err (NotFound (str "Password not found.")).
Proof. split; vm_compute; reflexivity. Qed.

(** ** A share revoked while a backup is made

    [get_backup_crud] lists the visible entries; checking the password then ends
    the transaction and derives a key, during which other requests run. The list
    is not made again: what was revoked meanwhile is still exported, and what was
    purged meanwhile makes the backup fail. *)
Definition revoke_meanwhile (x : DB * VaultSessions) : DB * VaultSessions :=
  let w := (serve demo_validate (Some demo_token) (RevokeShare 1 2) (fresh_world x.1 x.2)).2 in
  (w_committed w, w_sessions w).
Definition purge_meanwhile (x : DB * VaultSessions) : DB * VaultSessions :=
  let ask r w := (serve demo_validate (Some demo_token) r w).2 in
  let w := ask (PurgePassword (str "mail") None) (ask (DeletePassword (str "mail")) (fresh_world x.1 x.2)) in
  (w_committed w, w_sessions w).
Definition bobs_backup (meanwhile : DB * VaultSessions -> DB * VaultSessions) : res bytes * World :=
  backup_passwords demo_bob_context demo_bob_password
    (w_set_others [meanwhile] (begin_transaction demo_shared)).
Definition names_in (file : bytes) (password : pystr) : res (list pystr) :=
  r ← make_reader file;
  derived ← argon2id password (bh_salt (br_header r)) (bh_params (br_header r));
  '(_, xs) ← read_backup (make_backup_key derived) r;
  Ok (map (fun x => doc_name (be_document x.1)) xs).

(** A share of [mail] that root revokes while bob's backup checks his password
    is gone when the backup is read from the vault, and the backup still holds the
    entry; when root purges the entry instead, bob's backup fails. *)
Theorem backup_holds_revoked_entry :
  let '(r, after) := bobs_backup revoke_meanwhile in
  (permission demo_bob_context 1 after).1 = Err (NotFound (str "Password not found.")) ∧
  (file ← r; names_in file demo_bob_password) = Ok [str "mail"] ∧
  (bobs_backup purge_meanwhile).1 = Err NoResultFound.
Proof. vm_compute. split_and!; reflexivity. Qed.

(** ** A password with white space at an end

    [AuthBootstrapPayload], [AuthPayload] and [PasswordChangePayload] take a password
    as it is given; [MasterPassword], the body of [POST /passwords/backup] and of the
    master-password routes, strips it. *)
Definition padded_password : pystr := str "correct horse battery ".
Definition padded_root : World := demo_run [Public (Bootstrap (str "root") padded_password)].
Definition padded_context : AuthContext := default no_context (demo_context demo_token padded_root).
Definition signed_in (r : res AuthResponse) : bool :=
  match r with Ok (Some s) => is_some (os_token s) | _ => false end.

(** An account set up with a password that ends in a space signs in with it, but
    no body that [MasterPassword] accepts is that password, and the backup the route
    makes for the body that holds it is refused as a wrong password - though it is
    the password that [create_backup] needs. *)
Theorem padded_password_makes_no_backup :
  let w := begin_transaction padded_root in
  AuthBootstrapPayload (str "root") padded_password = inr (str "root", padded_password) ∧
  AuthPayload (str "root") padded_password = inr (str "root", padded_password) ∧
  signed_in (login (str "root") padded_password w).1 = true ∧
  (forall body sent, MasterPassword body = inr sent -> sent ≠ padded_password) ∧
  (∃ sent, MasterPassword padded_password = inr sent ∧
     (backup_passwords padded_context sent w).1 = Err (Forbidden (str "Current password is incorrect."))) ∧
  is_ok (backup_passwords padded_context padded_password w).1 = true.
Proof.
  cbv zeta. split_and!.
  1, 2, 3, 6: vm_compute; reflexivity.
  - intros body sent Hb ->. apply constrained_ok in Hb as (_ & Ht & _). specialize (Ht eq_refl). vm_compute in Ht. discriminate Ht.
  - exists (trim padded_password). split; vm_compute; reflexivity.
Qed.

(** ** The checked move at a concrete input *)

Lemma explicit_move_needs_owner_witness :
  ∃ id e doc,
    found_entry (w_db demo_filed_view) (ctx_key demo_root_context) (str "mail") false None id e doc ∧
    (folder_id e ≠ Some 1 ->
       (forall now, reaches (w_db demo_filed_view) now (ctx_id demo_root_context) id e perm_owner) ∧
       ∃ f, t_rows (folders (w_db demo_filed_view)) !! 1 = Some f ∧
         entry_owner_id e = Some (folder_owner_id f)).
Proof.
  refine (explicit_move_needs_owner demo_root_context (str "mail")
    (with_pw_folder_id (Some 1) (demo_entry (str "mail") (str "s3cret")))
    (ctx_key demo_root_context) demo_filed_view 1 _ _).
  - vm_compute. reflexivity.
  - reflexivity.
Defined.
